(* ===== verification/_CoqProject ===== *)
-Q . S2P
Prelude.v
Bytes.v
Checksum.v
Queue.v
Clock.v
Text.v
Log.v
Addr.v
Monad.v
State.v
Platform.v
Net.v
Ether.v
Drivers.v
Device.v
Sample.v
Receive.v
Timers.v
Arp.v
Ip.v
Icmp.v
Pseudo.v
Udp.v
Tcp.v
Dump.v
TcpUser.v
TcpLogic.v
TcpConn.v
TcpArrive.v
TcpOps.v
TcpProps.v
TcpWire.v
TcpTeardown.v
TcpStream.v
TcpTransfer.v
TcpSample.v
TcpLimits.v
Stack.v
Safety.v
Boot.v
Deliver.v
UdpLoop.v
EtherLink.v
TcpLink.v
TcpLoss.v
TcpConnect.v
TcpServe.v
Setup.v
Echo.v
Apps.v
WebSocket.v
Serve.v
