(* ===== verification/Prelude.v ===== *)
(** * Verification of the klab protocol stack: guide and prelude

    The program is a user-space TCP/IP stack in C.  This library models its
    code under [src/src] as executable definitions and proves what makes it
    correct.  This file is the root: the guide, and the integers, lists and
    tactics the other files share.

    ** The program

    Drivers ([driver/loopback.c], [driver/dummy.c],
    [platform/linux/driver/ether_tap.c]) register devices with [net.c].  A
    driver's interrupt handler hands received frames to [net_input_handler],
    which appends them to the input queue of their protocol and raises a
    software interrupt.  The interrupt thread of [platform/linux/intr.c]
    waits for signals and runs the timers, the software interrupt (which
    drains the input queues into [ip_input] and [arp_input]), the events and
    the drivers' handlers.  [ip_input] hands payloads to [icmp_input],
    [udp_input] and [tcp_input].  The user's threads call the commands of
    [udp.c] and [tcp.c], which send through [ip_output], [arp_resolve],
    [net_device_output] and the driver, and wait on condition variables
    ([platform/linux/sched.c]).  Each layer guards its tables with a mutex.

    ** How code becomes definitions

    A C function is a Rocq definition of the same name, in the order of its
    guards and effects.  C integers are [Z] with the wrap-around of their
    width written out ([u8], [u16], [u32], [u64] below); bytes in memory are
    lists of [Z] in the host's byte order, which is a parameter ([Machine]
    of [Bytes]).  Code without effects on static data returns an [option]:
    [None] is an access outside an object.  Other code is a computation
    [C A] of the state and fault monad of [Monad] over [world] ([State]),
    the record of all static variables; a fault is an access outside an
    object, a null pointer, a mutex locked twice or unlocked while free, or
    a loop that outruns its fuel.  [wp m Q w] is total correctness.  Function
    pointers are constructors ([State]), resolved in [Stack].  A function
    that waits returns [Blocked] with what it keeps across the wait, and its
    [_wake] definition goes on from the return of the wait.  The results of
    calloc, gettimeofday, random, poll, read, write and the other system
    calls are a parameter ([Env]); [EnvOk] states what their manuals promise
    (ranges, an address of six bytes, and that poll and read are not
    interrupted for ever).  The signals sigwait returns are the argument of
    [intr_thread], and the frames that wait at a tap device, and those
    written to it, are part of the state.

    ** The files

    - [Bytes], [Checksum], [Clock]: byte order, [cksum16] and the time macros
      of [util.c] and [util.h].
    - [Queue]: the linked queue of [util.c] on a heap, and the list [Fifo]
      it refines, which the other files use.
    - [Text], [Addr]: the C library's string functions, and the text forms of
      addresses and endpoints in [ip.c] and [ether.c].
    - [Monad], [State], [Platform]: the monad and its logic, the data, and
      [platform.h], [sched.c] and the registration part of [intr.c].
    - [Net], [Device]: [net.c] below and above the drivers.  [DeviceOps] is
      the table of a driver's functions and [DeviceOpsOk] what a driver
      promises; every layer above is proved against it.
    - [Ether], [Drivers]: [ether.c] and the three drivers, which meet
      [DeviceOpsOk] (instance [drivers_ok]).
    - [Sample]: a concrete host and environment for the witnesses.
    - [Receive]: the way from an interrupt handler to the protocols' handlers.
    - [Timers]: which timers [net_timer_handler] calls, and when again.
    - [Log], [Dump]: the text of [lprintf] and [hexdump] of [util.c] and of
      the dump functions of each protocol.
    - [Arp], [Ip], [Icmp], [Pseudo], [Udp]: the files of these names; the
      pseudo header is shared by UDP and TCP.
    - [Tcp], [TcpUser]: [tcp.c], segments and user commands.
    - [TcpConn]: the abstract connection, RFC 793 as the code implements it:
      the specification of TCP.  [TcpLogic] is a program logic for one
      control block; [TcpArrive] and [TcpOps] prove each entry point against
      the specification with it.
    - [TcpProps], [TcpWire], [TcpTeardown], [TcpStream], [TcpTransfer]: the
      theorems on TCP; [TcpSample] their witnesses; [TcpLimits] the segments
      it mishandles.
    - [Stack]: [net_init], the interrupt thread, and the functions behind the
      pointers.
    - [Safety], [Boot]: the invariant of the whole host, and its
      establishment by the configuration calls.
    - [Deliver]: the way of a packet from [ip_output] to a device and from a
      device's interrupt to the handler of its protocol; [UdpLoop] and
      [EtherLink] follow it through the loopback device and between two hosts
      on an Ethernet.  [TcpLink] is a program logic for one control block
      that keeps track of the frames written, and follows the segments of a
      connection between the two hosts; [TcpLoss] and [TcpConnect] use it for
      frames that are lost and for the opening of the connection, [TcpServe]
      for the exchange of a request and its answer with any program that
      serves a connection.
    - [Setup]: [setup] and [cleanup] of [test/step28.c], and the start of the
      servers.
    - [Echo]: the programs [test/step20-1.c] (UDP) and [test/step28.c] (TCP).
    - [Apps], [WebSocket]: what [test/static-http-server.c] and
      [test/ws-echo.c] make of the buffers they receive; [Serve]: these
      servers on top of the stack.

    ** What the theorems show

    - The whole stack.  [stack_safe]: from the initial values of the static
      variables, every sequence of configuration calls, frames, signals and
      UDP and TCP operations runs without a fault and keeps the invariant
      [stack_ok].  [stack_typed]: in every state so reached the fields of the
      tables are in the ranges of their types.  [setup_ready]: a start at
      which nothing fails ends in a state that the theorems on deliveries
      apply to.  [intr_thread_serves]: the thread handles every signal and
      ends exactly when it should.  [net_timer_fires]: it calls exactly the
      timers that are due.
    - Deliveries through all layers.  [udp_loopback_delivers]: a datagram
      sent to the host itself arrives.  [udp_ethernet_delivers],
      [arp_exchange_resolves], [ping_answered]: between two hosts, the frame
      that one writes is what the other needs to deliver the datagram, to
      answer the ARP request, and to answer the echo request.
      [tcp_ethernet_transfer]: the frames that [tcp_send] writes carry the
      data into the receive buffer of the other host, and those it answers
      with acknowledge all of it.  [tcp_ethernet_open]: an active and a
      passive open exchange three frames and both return.
      [tcp_loss_recovered]: after frames or acknowledgements are lost, what
      the timer sends again brings the two ends together.
    - Programs on top.  [udp_echo_answers], [tcp_echo_answers],
      [http_worker_answers], [ws_server_opens], [ws_server_echoes]: what a
      client on the other host gets for what it sends, and that the program
      waits for more; [udp_echo_starts], [http_server_starts]: they come up;
      [tcp_echo_stops]: a signal ends the program wherever it waits.
    - The receive path.  [net_softirq_delivers], [loopback_delivers],
      [ether_tap_isr_reads]: packets are delivered once and in order, and the
      loops end.
    - TCP.  [tcp_refines]: every operation refines the abstract connections.
      [tcp_transitions]: only edges of the RFC 793 diagram are taken.
      [tcp_segment_delivered], [tcp_handshake], [tcp_teardown],
      [tcp_stream]: segments survive the wire, two ends synchronise, close,
      and in between text arrives as a byte stream, also when segments are
      repeated.  [tcp_transfer]: what one end sends the other receives.
      [tcp_backoff_bounded]: retransmission doubles its interval and stops.
    - UDP, IP, ARP, ICMP, Ethernet: safety on arbitrary input, round trips
      from output to input, longest-prefix routing, learning, resolution and
      expiry of addresses, the echo reply, ports and bindings.
    - Utilities: the queue is a FIFO, a checksummed buffer verifies and
      damage to a word is detected, text forms of addresses round-trip, a
      dump shows the bytes it is given ([hexdump_shows]), and the dump
      functions stay in bounds ([dumps_safe]).
    - What the code gets wrong: [tcp_ended_kept], [tcp_input_unchecked],
      [ip_input_total_underflow],
      [ip_endpoint_pton_overflow], [udp_sendto_overlaps],
      [http_request_unterminated], [ws_handshake_overflow],
      [http_worker_spins], [ip_directed_broadcast_ignored].  The safety
      theorems assume of received packets what excludes these lengths of
      segments and packets ([benign] in [Safety], [input_fits] in
      [TcpConn]).

    ** Fuel

    Loops that are not structural carry fuel, and running out is a fault or
    [None], so the theorems above show that it is enough.  [cksum16] gets
    the length of its buffer and, for folding, two rounds; draining a
    queue gets its length on entry; [tcp_send] the number of bytes to send,
    since every round sends one; the poll loop of the tap driver the waiting
    frames and the interruptions that [env_patience] allows; [queue_foreach]
    the number of cells.

    ** Not modelled

    - The calls of the logging and dump functions: the text they write is
      modelled on its own ([Log], [Dump]) and not threaded through the
      operations, since nothing depends on it.  The formatted time and
      message of a log line are arguments.
    - Interleavings inside an operation: an operation runs from its entry to
      its return or wait as one step.  The mutexes of the protocols make that
      sound for their tables; the tables of [net.c], [ip.c] and
      [intr.c] are only written by the configuration calls, which the code's
      comments place before [net_run], and the input queues are only used on
      the interrupt thread.
    - The kernel's side of the tap device and of signals, threads and
      condition variables: which signal arrives, and when a wait ends, is up
      to the caller of the definitions.
    - The contents of freed memory: the model has no addresses, and a queue
      entry's data is part of the entry.
    - Of the example programs under [src/src/test]: what they print; the
      creation of the worker threads of the HTTP server; [simple-http.c] and
      the earlier steps of the tutorial, which make calls of the modelled
      programs one after the other.  SHA-1 and base64, which the WebSocket
      server takes from other libraries, are parameters ([WsLibs]). *)

From Stdlib Require Export ZArith Lia.
From stdpp Require Export base numbers option list_numbers list.

#[global] Open Scope Z_scope.

(** ** Fixed-width unsigned integers

    A C value of an unsigned type of width [w] is a [Z] in [0, 2^w); the
    conversions below are the implicit and explicit C conversions to
    those types. *)

Definition u8 (x : Z) : Z := x mod 256.
Definition u16 (x : Z) : Z := x mod 65536.
Definition u32 (x : Z) : Z := x mod 4294967296.
Definition u64 (x : Z) : Z := x mod 18446744073709551616.

Definition is_u8 (x : Z) : Prop := 0 <= x < 256.
Definition is_u16 (x : Z) : Prop := 0 <= x < 65536.
Definition is_u32 (x : Z) : Prop := 0 <= x < 4294967296.
Definition is_u64 (x : Z) : Prop := 0 <= x < 18446744073709551616.

(** A C integer used as a condition. *)
Definition nz (x : Z) : bool := negb (x =? 0).

(** ** Automation *)

Create HintDb stack.

(** Unfold the width predicates everywhere and call [lia]. *)
Ltac ulia := unfold is_u8, is_u16, is_u32, is_u64, nz in *; lia.

(** The same with the conversions, and with divisions and remainders by
    constants turned into equations. *)
Ltac mlia :=
  unfold is_u8, is_u16, is_u32, is_u64, u8, u16, u32, u64, nz in *;
  Z.to_euclidean_division_equations; lia.

(** Turn the boolean comparisons of the code into propositions. *)
Ltac bool_to_prop :=
  repeat match goal with
  | H : context [Z.leb ?a ?b] |- _ => destruct (Z.leb_spec a b); try discriminate H
  | H : context [Z.ltb ?a ?b] |- _ => destruct (Z.ltb_spec a b); try discriminate H
  | H : context [Z.eqb ?a ?b] |- _ => destruct (Z.eqb_spec a b); try discriminate H
  | |- context [Z.leb ?a ?b] => destruct (Z.leb_spec a b)
  | |- context [Z.ltb ?a ?b] => destruct (Z.ltb_spec a b)
  | |- context [Z.eqb ?a ?b] => destruct (Z.eqb_spec a b)
  end; simpl in *.

(** Split an equation between explicit lists element by element. *)
Ltac cons_eq :=
  repeat match goal with
  | |- cons _ _ = cons _ _ => apply f_equal2
  | |- nil = nil => reflexivity
  end.

Lemma u8_range x : is_u8 (u8 x).
Proof. mlia. Qed.
Lemma u16_range x : is_u16 (u16 x).
Proof. mlia. Qed.
Lemma u32_range x : is_u32 (u32 x).
Proof. mlia. Qed.
Lemma u64_range x : is_u64 (u64 x).
Proof. mlia. Qed.

Lemma u8_small x : is_u8 x → u8 x = x.
Proof. intros; apply Z.mod_small; ulia. Qed.
Lemma u16_small x : is_u16 x → u16 x = x.
Proof. intros; apply Z.mod_small; ulia. Qed.
Lemma u32_small x : is_u32 x → u32 x = x.
Proof. intros; apply Z.mod_small; ulia. Qed.
Lemma u64_small x : is_u64 x → u64 x = x.
Proof. intros; apply Z.mod_small; ulia. Qed.

#[export] Hint Resolve u8_range u16_range u32_range u64_range : stack.

(** ** Byte strings

    The memory behind a C pointer is the list of the bytes from the
    pointer to the end of the object it points into. *)

Notation bytes := (list Z).

Definition bytes_ok (bs : bytes) : Prop := Forall is_u8 bs.

(** Length as an integer. *)
Definition zlen {A} (l : list A) : Z := Z.of_nat (length l).

(** [len] bytes at offset [off]; [None] if the object does not have them. *)
Definition slice (off len : Z) (bs : bytes) : option bytes :=
  if (0 <=? off) && (0 <=? len) && (off + len <=? zlen bs)
  then Some (take (Z.to_nat len) (drop (Z.to_nat off) bs))
  else None.

(** [memcpy(dst + off, src, len)]; [None] if either object is too small. *)
Definition memcpy (dst : bytes) (off : Z) (src : bytes) (len : Z) : option bytes :=
  if (0 <=? off) && (0 <=? len) && (off + len <=? zlen dst) && (len <=? zlen src)
  then Some (take (Z.to_nat off) dst ++ take (Z.to_nat len) src
               ++ drop (Z.to_nat (off + len)) dst)
  else None.

Lemma zlen_nonneg {A} (l : list A) : 0 <= zlen l.
Proof. unfold zlen; lia. Qed.

Lemma zlen_app {A} (l k : list A) : zlen (l ++ k) = zlen l + zlen k.
Proof. unfold zlen; rewrite length_app; lia. Qed.

Lemma zlen_cons {A} (x : A) l : zlen (x :: l) = 1 + zlen l.
Proof. unfold zlen; simpl length; lia. Qed.

Lemma zlen_nil {A} : zlen (@nil A) = 0.
Proof. reflexivity. Qed.

Lemma zlen_take {A} n (l : list A) : 0 <= n <= zlen l → zlen (take (Z.to_nat n) l) = n.
Proof. unfold zlen; rewrite length_take; lia. Qed.

Lemma zlen_drop {A} n (l : list A) : 0 <= n <= zlen l → zlen (drop (Z.to_nat n) l) = zlen l - n.
Proof. unfold zlen; rewrite length_drop; lia. Qed.

Lemma take_zlen {A} n (l : list A) : zlen l <= n → take (Z.to_nat n) l = l.
Proof. unfold zlen. intros. apply take_ge. lia. Qed.

#[export] Hint Rewrite @zlen_app @zlen_cons @zlen_nil : zlen.

Lemma bytes_ok_app bs cs : bytes_ok (bs ++ cs) ↔ bytes_ok bs ∧ bytes_ok cs.
Proof. apply Forall_app. Qed.

Lemma bytes_ok_take n bs : bytes_ok bs → bytes_ok (take n bs).
Proof. apply Forall_take. Qed.

Lemma bytes_ok_drop n bs : bytes_ok bs → bytes_ok (drop n bs).
Proof. apply Forall_drop. Qed.

Lemma bytes_ok_replicate n b : is_u8 b → bytes_ok (replicate n b).
Proof. apply Forall_replicate. Qed.

#[export] Hint Resolve bytes_ok_take bytes_ok_drop bytes_ok_replicate : stack.

Lemma slice_spec off len bs :
  0 <= off → 0 <= len → off + len <= zlen bs →
  slice off len bs = Some (take (Z.to_nat len) (drop (Z.to_nat off) bs)).
Proof. intros. unfold slice. bool_to_prop; (done || lia). Qed.

Lemma slice_Some off len bs cs :
  slice off len bs = Some cs →
  0 <= off ∧ 0 <= len ∧ off + len <= zlen bs
  ∧ cs = take (Z.to_nat len) (drop (Z.to_nat off) bs) ∧ zlen cs = len.
Proof.
  unfold slice. intros H.
  destruct (Z.leb_spec 0 off), (Z.leb_spec 0 len), (Z.leb_spec (off + len) (zlen bs));
    simpl in H; try discriminate. injection H as <-.
  rewrite zlen_take; [done|]. rewrite zlen_drop; lia.
Qed.

Lemma memcpy_spec dst off src len :
  0 <= off → 0 <= len → off + len <= zlen dst → len <= zlen src →
  memcpy dst off src len
  = Some (take (Z.to_nat off) dst ++ take (Z.to_nat len) src
            ++ drop (Z.to_nat (off + len)) dst).
Proof. intros. unfold memcpy. bool_to_prop; (done || lia). Qed.

Lemma memcpy_Some dst off src len dst' :
  memcpy dst off src len = Some dst' →
  0 <= off ∧ 0 <= len ∧ off + len <= zlen dst ∧ len <= zlen src
  ∧ dst' = take (Z.to_nat off) dst ++ take (Z.to_nat len) src
             ++ drop (Z.to_nat (off + len)) dst.
Proof.
  unfold memcpy. intros H.
  destruct (Z.leb_spec 0 off), (Z.leb_spec 0 len),
    (Z.leb_spec (off + len) (zlen dst)), (Z.leb_spec len (zlen src));
    simpl in H; try discriminate. by injection H as <-.
Qed.

(** Filling a whole object. *)
Lemma memcpy_whole dst src len :
  zlen dst = len → len <= zlen src → memcpy dst 0 src len = Some (take (Z.to_nat len) src).
Proof.
  intros Hd Hs. pose proof (zlen_nonneg dst). rewrite memcpy_spec by lia.
  rewrite take_0, app_nil_l, Z.add_0_l, drop_ge, app_nil_r; [done|]. unfold zlen in Hd. lia.
Qed.

Lemma memcpy_length dst off src len dst' :
  memcpy dst off src len = Some dst' → length dst' = length dst.
Proof.
  intros (?&?&?&?&->)%memcpy_Some. unfold zlen in *.
  rewrite !length_app, !length_take, length_drop. lia.
Qed.

Lemma memcpy_ok dst off src len dst' :
  memcpy dst off src len = Some dst' → bytes_ok dst → bytes_ok src → bytes_ok dst'.
Proof.
  intros (?&?&?&?&->)%memcpy_Some ??.
  repeat (apply bytes_ok_app; split); auto with stack.
Qed.

(** ** Bit arithmetic *)

(** Joining a high part, a multiple of [2 ^ n], and a low part with [|]. *)
Lemma lor_disjoint a b n :
  0 <= n → a mod 2 ^ n = 0 → 0 <= b < 2 ^ n → Z.lor a b = a + b.
Proof.
  intros Hn Ha Hb.
  assert (Z.land a b = 0) as H0.
  { apply Z.bits_inj'. intros i Hi. rewrite Z.land_spec, Z.bits_0.
    destruct (Z.ltb_spec i n).
    - rewrite <- (Z.mod_pow2_bits_low a n i) by lia.
      by rewrite Ha, Z.bits_0.
    - rewrite <- (Z.mod_small b (2 ^ n)) by lia.
      by rewrite Z.mod_pow2_bits_high, andb_comm by lia. }
  by rewrite <- Z.lxor_lor, <- Z.add_nocarry_lxor by done.
Qed.

(** Selecting the field of [k] bits at bit [n]. *)
Lemma land_field v n k :
  0 <= n → 0 <= k →
  Z.land v (Z.shiftl (Z.ones k) n) = v / 2 ^ n mod 2 ^ k * 2 ^ n.
Proof.
  intros Hn Hk. rewrite <- Z.shiftl_mul_pow2, <- Z.land_ones, <- Z.shiftr_div_pow2 by lia.
  apply Z.bits_inj'. intros i Hi.
  rewrite Z.land_spec, !Z.shiftl_spec by done.
  destruct (Z.ltb_spec i n).
  - by rewrite !(Z.testbit_neg_r _ (i - n)), andb_comm by lia.
  - rewrite Z.land_spec, Z.shiftr_spec by lia. by replace (i - n + n) with i by lia.
Qed.

(** ** Decomposition into bytes *)

Lemma div_mod_digit q r m : 0 <= r < m → (r + m * q) / m = q ∧ (r + m * q) mod m = r.
Proof.
  intros. split.
  - symmetry. apply Z.div_unique with r; lia.
  - symmetry. apply Z.mod_unique with q; lia.
Qed.

Lemma u32_digits b0 b1 b2 b3 :
  is_u8 b0 → is_u8 b1 → is_u8 b2 → is_u8 b3 →
  let v := b0 + 256 * b1 + 65536 * b2 + 16777216 * b3 in
  v mod 256 = b0 ∧ v / 256 mod 256 = b1 ∧ v / 65536 mod 256 = b2
  ∧ v / 16777216 = b3 ∧ v / 16777216 mod 256 = b3.
Proof.
  intros H0 H1 H2 H3 v. unfold is_u8 in *.
  assert (v / 256 = b1 + 256 * b2 + 65536 * b3) as E1
    by (symmetry; apply Z.div_unique with b0; lia).
  assert (v / 65536 = b2 + 256 * b3) as E2
    by (symmetry; apply Z.div_unique with (b0 + 256 * b1); lia).
  assert (v / 16777216 = b3) as E3
    by (symmetry; apply Z.div_unique with (b0 + 256 * b1 + 65536 * b2); lia).
  rewrite E1, E2, E3. repeat split; try done.
  - symmetry; apply Z.mod_unique with (b1 + 256 * b2 + 65536 * b3); lia.
  - symmetry; apply Z.mod_unique with (b2 + 256 * b3); lia.
  - symmetry; apply Z.mod_unique with b3; lia.
  - apply Z.mod_small; lia.
Qed.

Lemma u32_split v :
  is_u32 v →
  ∃ b0 b1 b2 b3, is_u8 b0 ∧ is_u8 b1 ∧ is_u8 b2 ∧ is_u8 b3
    ∧ v = b0 + 256 * b1 + 65536 * b2 + 16777216 * b3.
Proof.
  unfold is_u32, is_u8. intros Hv.
  exists (v mod 256), (v / 256 mod 256), (v / 65536 mod 256), (v / 16777216).
  pose proof (Z.div_mod v 256 ltac:(lia)). pose proof (Z.div_mod (v / 256) 256 ltac:(lia)).
  pose proof (Z.div_mod (v / 65536) 256 ltac:(lia)).
  assert (v / 256 / 256 = v / 65536) by (by rewrite Z.div_div by lia).
  assert (v / 65536 / 256 = v / 16777216) by (by rewrite Z.div_div by lia).
  assert (0 <= v / 16777216 < 256)
    by (split; [apply Z.div_pos | apply Z.div_lt_upper_bound]; lia).
  repeat split; try (apply Z.mod_pos_bound; lia); lia.
Qed.

(** Induction two elements at a time. *)
Lemma pair_ind {A} (P : list A → Prop) :
  P [] → (∀ x, P [x]) → (∀ x y l, P l → P (x :: y :: l)) → ∀ l, P l.
Proof.
  intros H0 H1 H2 l.
  cut (P l ∧ ∀ x, P (x :: l)); [tauto|].
  induction l as [|y l [IH IH']]; split; auto.
Qed.

Lemma fold_left_snoc {A} (l acc : list A) :
  fold_left (λ acc x, acc ++ [x]) l acc = acc ++ l.
Proof.
  revert acc. induction l as [|x l IH]; intros acc; simpl.
  - by rewrite app_nil_r.
  - by rewrite IH, <- app_assoc.
Qed.
