(* ===== verification/Bytes.v ===== *)
(** * Byte order and integers in memory

    The byte-order section of [src/src/util.c]: [byteorder], [byteswap16],
    [byteswap32], [hton16], [ntoh16], [hton32], [ntoh32], with the static
    variable [endian] that caches the result of [byteorder].  The
    representation of an integer in memory is that of the host, a
    parameter ([Machine]); every theorem below holds on a little-endian
    and on a big-endian host. *)

From S2P Require Import Prelude.

Inductive endianness := LittleEndian | BigEndian.

(** The host. *)
Class Machine := mach_endian : endianness.

Section Byteorder.
Context `{Machine}.

(** ** Host representation of integers *)

Definition store16 (v : Z) : bytes :=
  match mach_endian with
  | LittleEndian => [v mod 256; v / 256 mod 256]
  | BigEndian => [v / 256 mod 256; v mod 256]
  end.

Definition load16 (b0 b1 : Z) : Z :=
  match mach_endian with
  | LittleEndian => b0 + 256 * b1
  | BigEndian => b1 + 256 * b0
  end.

Definition store32 (v : Z) : bytes :=
  match mach_endian with
  | LittleEndian =>
      [v mod 256; v / 256 mod 256; v / 65536 mod 256; v / 16777216 mod 256]
  | BigEndian =>
      [v / 16777216 mod 256; v / 65536 mod 256; v / 256 mod 256; v mod 256]
  end.

Definition load32 (b0 b1 b2 b3 : Z) : Z :=
  match mach_endian with
  | LittleEndian => b0 + 256 * b1 + 65536 * b2 + 16777216 * b3
  | BigEndian => b3 + 256 * b2 + 65536 * b1 + 16777216 * b0
  end.

(** The integer behind a pointer to four bytes. *)
Definition load32_at (bs : bytes) : option Z :=
  match bs with
  | b0 :: b1 :: b2 :: b3 :: _ => Some (load32 b0 b1 b2 b3)
  | _ => None
  end.

(** ** The functions of util.c *)

Definition c_BIG_ENDIAN : Z := 4321.
Definition c_LITTLE_ENDIAN : Z := 1234.

Definition byteorder : Z :=
  let x := 1 in
  if nz (nth 0 (store32 x) 0) then c_LITTLE_ENDIAN else c_BIG_ENDIAN.

Definition byteswap16 (v : Z) : Z :=
  u16 (Z.lor (Z.shiftl (Z.land v 0x00ff) 8) (Z.shiftr (Z.land v 0xff00) 8)).

Definition byteswap32 (v : Z) : Z :=
  u32 (Z.lor (Z.lor (Z.lor (u32 (Z.shiftl (Z.land v 0x000000ff) 24))
                           (u32 (Z.shiftl (Z.land v 0x0000ff00) 8)))
                    (Z.shiftr (Z.land v 0x00ff0000) 8))
             (Z.shiftr (Z.land v 0xff000000) 24)).

(** The static [endian] before and after a call, with the result. *)
Definition endian_init (endian : Z) : Z :=
  if negb (nz endian) then byteorder else endian.

Definition hton16_st (endian h : Z) : Z * Z :=
  let endian := endian_init endian in
  (endian, if endian =? c_LITTLE_ENDIAN then byteswap16 h else h).

Definition ntoh16_st (endian n : Z) : Z * Z :=
  let endian := endian_init endian in
  (endian, if endian =? c_LITTLE_ENDIAN then byteswap16 n else n).

Definition hton32_st (endian h : Z) : Z * Z :=
  let endian := endian_init endian in
  (endian, if endian =? c_LITTLE_ENDIAN then byteswap32 h else h).

Definition ntoh32_st (endian n : Z) : Z * Z :=
  let endian := endian_init endian in
  (endian, if endian =? c_LITTLE_ENDIAN then byteswap32 n else n).

(** The value returned, from the initial value of [endian]. *)
Definition hton16 (h : Z) : Z := (hton16_st 0 h).2.
Definition ntoh16 (n : Z) : Z := (ntoh16_st 0 n).2.
Definition hton32 (h : Z) : Z := (hton32_st 0 h).2.
Definition ntoh32 (n : Z) : Z := (ntoh32_st 0 n).2.

(** ** Closed forms *)

Lemma byteswap16_eq v : is_u16 v → byteswap16 v = v mod 256 * 256 + v / 256.
Proof.
    intros Hv. unfold byteswap16.
    change 0x00ff with (Z.ones 8). change 0xff00 with (Z.shiftl (Z.ones 8) 8).
    rewrite land_field, Z.land_ones, Z.shiftl_mul_pow2, Z.shiftr_div_pow2 by lia.
    change (2 ^ 8) with 256. rewrite Z.div_mul, (lor_disjoint _ _ 8) by mlia. mlia.
Qed.

Lemma byteswap32_eq v :
    is_u32 v →
    byteswap32 v = v mod 256 * 16777216 + v / 256 mod 256 * 65536
                   + v / 65536 mod 256 * 256 + v / 16777216 mod 256.
Proof.
    intros Hv. unfold byteswap32.
    change 0x000000ff with (Z.ones 8).
    change 0x0000ff00 with (Z.shiftl (Z.ones 8) 8).
    change 0x00ff0000 with (Z.shiftl (Z.ones 8) 16).
    change 0xff000000 with (Z.shiftl (Z.ones 8) 24).
    rewrite !land_field, Z.land_ones, !Z.shiftl_mul_pow2, !Z.shiftr_div_pow2 by lia.
    change (2 ^ 8) with 256. change (2 ^ 16) with 65536. change (2 ^ 24) with 16777216.
    generalize (Z.mod_pos_bound v 256 ltac:(lia)) (Z.mod_pos_bound (v / 256) 256 ltac:(lia))
      (Z.mod_pos_bound (v / 65536) 256 ltac:(lia)) (Z.mod_pos_bound (v / 16777216) 256 ltac:(lia)).
    generalize (v mod 256) (v / 256 mod 256) (v / 65536 mod 256) (v / 16777216 mod 256).
    intros b0 b1 b2 b3 ????.
    rewrite Z.div_mul by lia.
    replace (b2 * 65536 / 256) with (b2 * 256) by mlia.
    rewrite (u32_small (b0 * 16777216)), (u32_small (b1 * 256 * 256)) by mlia.
    rewrite (lor_disjoint (b0 * 16777216) _ 24) by mlia.
    rewrite (lor_disjoint (b0 * 16777216 + _) _ 16) by mlia.
    rewrite (lor_disjoint (_ + _ + _) _ 8) by mlia.
    rewrite u32_small by mlia. lia.
Qed.

Lemma byteorder_cases :
  byteorder = (match mach_endian with LittleEndian => c_LITTLE_ENDIAN
               | BigEndian => c_BIG_ENDIAN end).
Proof. unfold byteorder, store32. by destruct mach_endian. Qed.

(** The cache [endian] never changes what the conversions return: it is 0
    until the first call and [byteorder] afterwards. *)
Lemma endian_init_cases endian :
  endian = 0 ∨ endian = byteorder → endian_init endian = byteorder.
Proof.
  intros [-> | ->]; unfold endian_init; [done|].
  rewrite byteorder_cases. by destruct mach_endian.
Qed.

Lemma hton16_eq h :
  is_u16 h →
  hton16 h = match mach_endian with LittleEndian => h mod 256 * 256 + h / 256
             | BigEndian => h end.
Proof.
  intros. unfold hton16, hton16_st. simpl.
  rewrite endian_init_cases, byteorder_cases by auto.
  destruct mach_endian; simpl; [by apply byteswap16_eq|done].
Qed.

Lemma hton32_eq h :
  is_u32 h →
  hton32 h = match mach_endian with
             | LittleEndian => h mod 256 * 16777216 + h / 256 mod 256 * 65536
                               + h / 65536 mod 256 * 256 + h / 16777216 mod 256
             | BigEndian => h end.
Proof.
  intros. unfold hton32, hton32_st. simpl.
  rewrite endian_init_cases, byteorder_cases by auto.
  destruct mach_endian; simpl; [by apply byteswap32_eq|done].
Qed.

Lemma ntoh16_hton16_same n : ntoh16 n = hton16 n.
Proof. done. Qed.

Lemma ntoh32_hton32_same n : ntoh32 n = hton32 n.
Proof. done. Qed.

Lemma hton16_range h : is_u16 h → is_u16 (hton16 h).
Proof. intros. rewrite hton16_eq by done. destruct mach_endian; mlia. Qed.

Lemma hton32_range h : is_u32 h → is_u32 (hton32 h).
Proof.
  intros Hh. rewrite hton32_eq by done. destruct mach_endian; [|done].
  destruct (u32_split h Hh) as (b0&b1&b2&b3&?&?&?&?&->).
  destruct (u32_digits b0 b1 b2 b3) as (->&->&->&_&->); auto; mlia.
Qed.

Lemma load16_range a b : is_u8 a → is_u8 b → is_u16 (load16 a b).
Proof. intros. unfold load16. destruct mach_endian; mlia. Qed.

Lemma load32_range a b c d :
  is_u8 a → is_u8 b → is_u8 c → is_u8 d → is_u32 (load32 a b c d).
Proof. intros. unfold load32. destruct mach_endian; mlia. Qed.

Lemma store16_ok v : bytes_ok (store16 v).
Proof. unfold store16, bytes_ok. destruct mach_endian; repeat constructor; mlia. Qed.

Lemma store32_ok v : bytes_ok (store32 v).
Proof.
  unfold store32, bytes_ok.
  destruct mach_endian; repeat constructor; try apply Z.mod_pos_bound; lia.
Qed.

Lemma length_store16 v : length (store16 v) = 2%nat.
Proof. unfold store16. by destruct mach_endian. Qed.

Lemma length_store32 v : length (store32 v) = 4%nat.
Proof. unfold store32. by destruct mach_endian. Qed.

Lemma zlen_store16 v : zlen (store16 v) = 2.
Proof. unfold zlen. by rewrite length_store16. Qed.

Lemma zlen_store32 v : zlen (store32 v) = 4.
Proof. unfold zlen. by rewrite length_store32. Qed.

(** ** Bitwise and *)

Lemma land_digit a b x y :
  is_u8 a → is_u8 b → Z.land (a + 256 * x) (b + 256 * y) = Z.land a b + 256 * Z.land x y.
Proof.
  intros Ha Hb. unfold is_u8 in *.
  set (u := a + 256 * x). set (v := b + 256 * y).
  assert (Z.shiftr u 8 = x ∧ Z.shiftr v 8 = y) as [Hu Hv]
    by (rewrite !Z.shiftr_div_pow2 by lia; unfold u, v; split; mlia).
  assert (Z.land u (Z.ones 8) = a ∧ Z.land v (Z.ones 8) = b) as [Hu' Hv']
    by (rewrite !Z.land_ones by lia; unfold u, v; split; mlia).
  rewrite (Z.div_mod (Z.land u v) (2 ^ 8)), <- Z.shiftr_div_pow2, <- Z.land_ones by lia.
  rewrite Z.shiftr_land, Hu, Hv, <- (Z.land_diag (Z.ones 8)).
  replace (Z.land (Z.land u v) (Z.land (Z.ones 8) (Z.ones 8)))
    with (Z.land (Z.land u (Z.ones 8)) (Z.land v (Z.ones 8))).
  - rewrite Hu', Hv'. change (2 ^ 8) with 256. lia.
  - apply Z.bits_inj'. intros n _. rewrite !Z.land_spec. by repeat destruct (Z.testbit _ n).
Qed.

Lemma land_u8 a b : is_u8 a → is_u8 b → is_u8 (Z.land a b).
Proof.
  intros Ha Hb. unfold is_u8 in *. rewrite <- (Z.mod_small b (2 ^ 8)) by lia.
  rewrite <- Z.land_ones, Z.land_assoc, Z.land_ones by lia.
  pose proof (Z.mod_pos_bound (Z.land a b) (2 ^ 8)). lia.
Qed.

Lemma land_u32 a b : is_u32 a → is_u32 b → is_u32 (Z.land a b).
Proof.
  intros Ha Hb. unfold is_u32 in *. rewrite <- (Z.mod_small b (2 ^ 32)) by lia.
  rewrite <- Z.land_ones, Z.land_assoc, Z.land_ones by lia.
  pose proof (Z.mod_pos_bound (Z.land a b) (2 ^ 32)). lia.
Qed.

Lemma land_digits a0 a1 a2 a3 b0 b1 b2 b3 :
  is_u8 a0 → is_u8 a1 → is_u8 a2 → is_u8 b0 → is_u8 b1 → is_u8 b2 →
  Z.land (a0 + 256 * a1 + 65536 * a2 + 16777216 * a3)
         (b0 + 256 * b1 + 65536 * b2 + 16777216 * b3)
  = Z.land a0 b0 + 256 * Z.land a1 b1 + 65536 * Z.land a2 b2 + 16777216 * Z.land a3 b3.
Proof.
  intros.
  replace (a0 + 256 * a1 + 65536 * a2 + 16777216 * a3)
    with (a0 + 256 * (a1 + 256 * (a2 + 256 * a3))) by lia.
  replace (b0 + 256 * b1 + 65536 * b2 + 16777216 * b3)
    with (b0 + 256 * (b1 + 256 * (b2 + 256 * b3))) by lia.
  rewrite !land_digit by done. lia.
Qed.

(** Byte swapping commutes with bitwise and. *)
Lemma ntoh32_land a b :
  is_u32 a → is_u32 b → ntoh32 (Z.land a b) = Z.land (ntoh32 a) (ntoh32 b).
Proof.
  intros Ha Hb. rewrite !ntoh32_hton32_same, !hton32_eq by (done || by apply land_u32).
  destruct mach_endian; [|done].
  destruct (u32_split a Ha) as (a0&a1&a2&a3&?&?&?&?&->).
  destruct (u32_split b Hb) as (b0&b1&b2&b3&?&?&?&?&->).
  rewrite land_digits by done.
  destruct (u32_digits a0 a1 a2 a3) as (->&->&->&_&->); auto.
  destruct (u32_digits b0 b1 b2 b3) as (->&->&->&_&->); auto.
  destruct (u32_digits (Z.land a0 b0) (Z.land a1 b1) (Z.land a2 b2) (Z.land a3 b3))
    as (->&->&->&_&->); auto using land_u8.
  replace (a0 * 16777216 + a1 * 65536 + a2 * 256 + a3)
    with (a3 + 256 * a2 + 65536 * a1 + 16777216 * a0) by lia.
  replace (b0 * 16777216 + b1 * 65536 + b2 * 256 + b3)
    with (b3 + 256 * b2 + 65536 * b1 + 16777216 * b0) by lia.
  rewrite land_digits by done. lia.
Qed.

(** ** What goes on the wire *)

(** Network byte order: most significant byte first. *)
Definition wire16 (v : Z) : bytes := [v / 256; v mod 256].
Definition wire32 (v : Z) : bytes :=
  [v / 16777216; v / 65536 mod 256; v / 256 mod 256; v mod 256].

Lemma store16_hton16 v : is_u16 v → store16 (hton16 v) = wire16 v.
Proof.
  intros. rewrite hton16_eq by done. unfold store16, wire16.
  destruct mach_endian; cons_eq; mlia.
Qed.

Lemma store32_hton32 v : is_u32 v → store32 (hton32 v) = wire32 v.
Proof.
  intros Hv. rewrite hton32_eq by done.
  destruct (u32_split v Hv) as (b0&b1&b2&b3&?&?&?&?&->).
  destruct (u32_digits b0 b1 b2 b3) as (E0&E1&E2&E3&E4); auto.
  unfold store32, wire32. rewrite E0, E1, E2, E4, E3.
  destruct mach_endian; [|by rewrite E0, E1, E2, E4].
  replace (b0 * 16777216 + b1 * 65536 + b2 * 256 + b3)
    with (b3 + 256 * b2 + 65536 * b1 + 16777216 * b0) by lia.
  by destruct (u32_digits b3 b2 b1 b0) as (->&->&->&_&->).
Qed.

Lemma ntoh16_load16 a b : is_u8 a → is_u8 b → ntoh16 (load16 a b) = a * 256 + b.
Proof.
  intros. rewrite ntoh16_hton16_same, hton16_eq by (by apply load16_range).
  unfold load16. destruct mach_endian; mlia.
Qed.

Lemma ntoh32_load32 a b c d :
  is_u8 a → is_u8 b → is_u8 c → is_u8 d →
  ntoh32 (load32 a b c d) = a * 16777216 + b * 65536 + c * 256 + d.
Proof.
  intros. rewrite ntoh32_hton32_same, hton32_eq by (by apply load32_range).
  unfold load32. destruct mach_endian; [|lia].
  destruct (u32_digits a b c d) as (->&->&->&_&->); auto; lia.
Qed.

Lemma ntoh16_hton16 v : is_u16 v → ntoh16 (hton16 v) = v.
Proof.
  intros. rewrite ntoh16_hton16_same, (hton16_eq (hton16 v)) by (by apply hton16_range).
  rewrite hton16_eq by done. destruct mach_endian; mlia.
Qed.

Lemma hton16_ntoh16 v : is_u16 v → hton16 (ntoh16 v) = v.
Proof. apply ntoh16_hton16. Qed.

Lemma ntoh16_eq_0 v : is_u16 v → ntoh16 v = 0 → v = 0.
Proof.
  intros Hv E. rewrite <- (hton16_ntoh16 v), E, hton16_eq by (done || ulia).
  by destruct mach_endian.
Qed.

Lemma ntoh32_hton32 v : is_u32 v → ntoh32 (hton32 v) = v.
Proof.
  intros Hv. rewrite ntoh32_hton32_same, (hton32_eq (hton32 v)) by (by apply hton32_range).
  rewrite hton32_eq by done. destruct mach_endian; [|done].
  destruct (u32_split v Hv) as (b0&b1&b2&b3&?&?&?&?&->).
  destruct (u32_digits b0 b1 b2 b3) as (->&->&->&_&->); auto.
  replace (b0 * 16777216 + b1 * 65536 + b2 * 256 + b3)
    with (b3 + 256 * b2 + 65536 * b1 + 16777216 * b0) by lia.
  destruct (u32_digits b3 b2 b1 b0) as (->&->&->&_&->); auto; lia.
Qed.

Lemma hton32_ntoh32 v : is_u32 v → hton32 (ntoh32 v) = v.
Proof. apply ntoh32_hton32. Qed.

Lemma ntoh32_inj a b : is_u32 a → is_u32 b → ntoh32 a = ntoh32 b → a = b.
Proof. intros Ha Hb E. rewrite <- (hton32_ntoh32 a), <- (hton32_ntoh32 b) by done. by rewrite E. Qed.

Lemma load16_store16 v a b : is_u16 v → store16 v = [a; b] → load16 a b = v.
Proof.
  unfold store16, load16. destruct mach_endian; intros ? [= <- <-]; mlia.
Qed.

Lemma load32_store32 v a b c d :
  is_u32 v → store32 v = [a; b; c; d] → load32 a b c d = v.
Proof.
  unfold store32, load32. intros Hv.
  destruct (u32_split v Hv) as (b0&b1&b2&b3&?&?&?&?&->).
  destruct (u32_digits b0 b1 b2 b3) as (->&->&->&_&->); auto.
  destruct mach_endian; intros [= <- <- <- <-]; lia.
Qed.

(** The bytes of a store, and what loading them gives. *)
Lemma store16_loads v :
  is_u16 v → ∃ a b, store16 v = [a; b] ∧ is_u8 a ∧ is_u8 b ∧ load16 a b = v.
Proof.
  intros Hv. pose proof (store16_ok v) as Hok.
  destruct (store16 v) as [|a [|b [|]]] eqn:E;
    pose proof (length_store16 v) as Hl; rewrite E in Hl; try discriminate Hl.
  unfold bytes_ok in Hok. rewrite !Forall_cons in Hok. destruct_and! Hok.
  exists a, b. split_and!; try done. by apply load16_store16.
Qed.

Lemma store32_loads v :
  is_u32 v → ∃ a b c d, store32 v = [a; b; c; d] ∧ is_u8 a ∧ is_u8 b ∧ is_u8 c ∧ is_u8 d
    ∧ load32 a b c d = v.
Proof.
  intros Hv. pose proof (store32_ok v) as Hok.
  destruct (store32 v) as [|a [|b [|c [|d [|]]]]] eqn:E;
    pose proof (length_store32 v) as Hl; rewrite E in Hl; try discriminate Hl.
  unfold bytes_ok in Hok. rewrite !Forall_cons in Hok. destruct_and! Hok.
  exists a, b, c, d. split_and!; try done. by apply load32_store32.
Qed.

Lemma load32_at_store32 v rest : is_u32 v → load32_at (store32 v ++ rest) = Some v.
Proof.
  intros Hv. destruct (store32 v) as [|a [|b [|c [|d [|]]]]] eqn:E;
    pose proof (length_store32 v) as Hl; rewrite E in Hl; try discriminate Hl.
  simpl. f_equal. by apply load32_store32.
Qed.

Lemma store16_load16 a b : is_u8 a → is_u8 b → store16 (load16 a b) = [a; b].
Proof.
  intros. unfold store16, load16. destruct mach_endian; cons_eq; mlia.
Qed.

Lemma store32_load32 a b c d :
  is_u8 a → is_u8 b → is_u8 c → is_u8 d → store32 (load32 a b c d) = [a; b; c; d].
Proof.
  intros. unfold store32, load32. destruct mach_endian.
  - by destruct (u32_digits a b c d) as (->&->&->&_&->).
  - replace (d + 256 * c + 65536 * b + 16777216 * a)
      with (d + 256 * c + 65536 * b + 16777216 * a) by lia.
    by destruct (u32_digits d c b a) as (->&->&->&_&->).
Qed.
End Byteorder.

#[export] Hint Resolve @hton16_range @hton32_range @load16_range @load32_range
  @store16_ok @store32_ok : stack.
#[export] Hint Rewrite @zlen_store16 @zlen_store32 : zlen.

#[global] Arguments hton16 : simpl never.
#[global] Arguments hton32 : simpl never.
#[global] Arguments ntoh16 : simpl never.
#[global] Arguments ntoh32 : simpl never.
#[global] Arguments store16 : simpl never.
#[global] Arguments store32 : simpl never.
#[global] Arguments load16 : simpl never.
#[global] Arguments load32 : simpl never.
