(* ===== verification/Checksum.v ===== *)
(** * The Internet checksum

    [cksum16] of [src/src/util.c]: the one's complement sum of the 16-bit
    words of a buffer, added in host order into a 32-bit accumulator that
    starts at [init], folded to 16 bits and complemented.  [None] is a
    read outside the buffer.  The theorems give its closed form, the
    self-verification every protocol of the stack relies on (a buffer that
    carries its own checksum sums to zero), and its independence of the
    host's byte order. *)

From S2P Require Import Prelude Bytes.

Section Cksum.
Context `{Machine}.

(** [while (count > 1) { sum += *(addr++); count -= 2; }] *)
Fixpoint cksum16_words (fuel : nat) (addr : bytes) (count sum : Z)
  : option (bytes * Z * Z) :=
  if count >? 1 then
    match fuel, addr with
    | S fuel, b0 :: b1 :: addr =>
        cksum16_words fuel addr (u16 (count - 2)) (u32 (sum + load16 b0 b1))
    | _, _ => None
    end
  else Some (addr, count, sum).

(** [while (sum >> 16) { sum = (sum & 0xffff) + (sum >> 16); }] *)
Fixpoint cksum16_fold (fuel : nat) (sum : Z) : option Z :=
  if nz (Z.shiftr sum 16) then
    match fuel with
    | S fuel => cksum16_fold fuel (u32 (Z.land sum 0xffff + Z.shiftr sum 16))
    | O => None
    end
  else Some sum.

Definition cksum16 (addr : bytes) (count init : Z) : option Z :=
  let count := u16 count in
  let sum := u32 init in
  match cksum16_words (Z.to_nat count) addr count sum with
  | None => None
  | Some (addr, count, sum) =>
      let sum := if count >? 0 then
                   match addr with
                   | b :: _ => Some (u32 (sum + b))
                   | [] => None
                   end
                 else Some sum in
      match sum with
      | None => None
      | Some sum =>
          match cksum16_fold 2 sum with
          | None => None
          | Some sum => Some (u16 (Z.lnot (u16 sum)))
          end
      end
  end.

(** ** Reference definitions *)

(** The sum the accumulator holds, without its width. *)
Fixpoint word_sum (bs : bytes) : Z :=
  match bs with
  | [] => 0
  | [b] => b
  | b0 :: b1 :: bs => load16 b0 b1 + word_sum bs
  end.

(** The representative in [0, 65535] of a sum modulo 65535 that is 0 only
    for 0: what folding the carries back computes. *)
Definition ones_fold (s : Z) : Z := if s =? 0 then 0 else (s - 1) mod 65535 + 1.

(** ** Bounds and totality *)

Lemma word_sum_bound bs :
  bytes_ok bs → 0 <= word_sum bs <= 65535 * ((zlen bs + 1) / 2).
Proof.
  induction bs as [|b|b0 b1 bs IH] using pair_ind; intros Hok.
  - unfold zlen. simpl. mlia.
  - inversion_clear Hok. unfold zlen. simpl. mlia.
  - inversion_clear Hok as [|?? Hb0 Hok']. inversion_clear Hok' as [|?? Hb1 Hok].
    specialize (IH Hok). pose proof (load16_range b0 b1 Hb0 Hb1) as Hw.
    cbn [word_sum]. autorewrite with zlen.
    replace (1 + (1 + zlen bs) + 1) with (zlen bs + 1 + 1 * 2) by lia.
    rewrite Z.div_add by lia. ulia.
Qed.

Lemma cksum16_words_spec bs : ∀ fuel count sum,
  bytes_ok bs → is_u16 count → count <= zlen bs → count <= Z.of_nat fuel →
  0 <= sum → sum + word_sum (take (Z.to_nat count) bs) < 4294967296 →
  ∃ rest c sum', cksum16_words fuel bs count sum = Some (rest, c, sum')
    ∧ (c = 0 ∧ sum' = sum + word_sum (take (Z.to_nat count) bs)
       ∨ c = 1 ∧ ∃ b rest', rest = b :: rest' ∧ is_u8 b
           ∧ sum' + b = sum + word_sum (take (Z.to_nat count) bs)).
Proof.
  induction bs as [|b|b0 b1 bs IH] using pair_ind; intros fuel count sum Hok Hc Hlen Hf Hs Hb.
  - assert (count = 0) as -> by (rewrite zlen_nil in Hlen; ulia).
    exists [], 0, sum. destruct fuel; simpl; split; try done; left; split; lia.
  - rewrite zlen_cons, zlen_nil in Hlen.
    assert (count = 0 ∨ count = 1) as [-> | ->] by ulia.
    + exists [b], 0, sum. destruct fuel; simpl; split; try done; left; split; lia.
    + exists [b], 1, sum. inversion_clear Hok.
      destruct fuel; simpl; split; try done; right; split; eauto.
  - destruct (Z.gtb_spec count 1) as [Hgt|Hle].
    + inversion_clear Hok as [|?? Hb0 Hok']. inversion_clear Hok' as [|?? Hb1 Hok].
      pose proof (load16_range b0 b1 Hb0 Hb1) as Hw.
      destruct fuel as [|fuel]; [lia|].
      replace (Z.to_nat count) with (S (S (Z.to_nat (count - 2)))) in Hb |- * by lia.
      cbn [take word_sum cksum16_words] in Hb |- *.
      destruct (Z.gtb_spec count 1); [|lia].
      autorewrite with zlen in Hlen.
      pose proof (word_sum_bound (take (Z.to_nat (count - 2)) bs)
                    (bytes_ok_take _ _ Hok)) as [? _].
      rewrite u16_small, u32_small by ulia.
      destruct (IH fuel (count - 2) (sum + load16 b0 b1)) as (rest&c&sum'&->&HR);
        try done; try ulia.
      exists rest, c, sum'. split; [done|].
      destruct HR as [[-> ->]|(->&b&rest'&->&?&?)]; [left|right].
      * split; [done|lia].
      * split; [done|]. exists b, rest'. split; [done|]. split; [done|lia].
    + assert (count = 0 ∨ count = 1) as [-> | ->] by ulia.
      * exists (b0 :: b1 :: bs), 0, sum. destruct fuel; simpl; split; try done; left; split; lia.
      * exists (b0 :: b1 :: bs), 1, sum. inversion_clear Hok.
        destruct fuel; simpl; split; try done; right; split; eauto.
Qed.

Lemma cksum16_fold_step s :
  0 <= s → Z.land s 0xffff + Z.shiftr s 16 = s mod 65536 + s / 65536.
Proof.
  intros. change 0xffff with (Z.ones 16).
  by rewrite Z.land_ones, Z.shiftr_div_pow2 by lia.
Qed.

Lemma ones_fold_range s : 0 <= s → 0 <= ones_fold s <= 65535.
Proof.
  intros. unfold ones_fold. destruct (Z.eqb_spec s 0); [lia|].
  pose proof (Z.mod_pos_bound (s - 1) 65535 ltac:(lia)). lia.
Qed.

(** [ones_fold s] is the only value in [1, 65535] congruent to [s > 0]. *)
Lemma ones_fold_unique s k r :
  0 < s → s = 65535 * k + r → 1 <= r <= 65535 → ones_fold s = r.
Proof.
  intros Hs He Hr. unfold ones_fold. destruct (Z.eqb_spec s 0); [lia|].
  rewrite <- (Z.mod_unique (s - 1) 65535 k (r - 1)); lia.
Qed.

Lemma ones_fold_carry s :
  0 < s → ones_fold (s mod 65536 + s / 65536) = ones_fold s.
Proof.
  intros Hs. pose proof (Z.div_mod s 65536 ltac:(lia)) as Hd.
  pose proof (Z.mod_pos_bound s 65536 ltac:(lia)). 
  assert (0 <= s / 65536) by (apply Z.div_pos; lia).
  set (q := s / 65536) in *. set (r := s mod 65536) in *.
  assert (0 < r + q) as Hp by lia.
  pose proof (Z.div_mod (r + q - 1) 65535 ltac:(lia)).
  pose proof (Z.mod_pos_bound (r + q - 1) 65535 ltac:(lia)).
  rewrite (ones_fold_unique (r + q) ((r + q - 1) / 65535) ((r + q - 1) mod 65535 + 1))
    by lia.
  symmetry. apply (ones_fold_unique s (q + (r + q - 1) / 65535)); lia.
Qed.

Lemma ones_fold_small s : 0 <= s < 65536 → ones_fold s = s.
Proof.
  intros. destruct (Z.eq_dec s 0) as [->|]; [done|].
  apply (ones_fold_unique s 0); lia.
Qed.

(** Two rounds of carry folding are enough for any 32-bit accumulator. *)
Lemma cksum16_fold_spec s : is_u32 s → cksum16_fold 2 s = Some (ones_fold s).
Proof.
  intros Hs. cbn [cksum16_fold]. unfold nz, is_u32 in *.
  rewrite (cksum16_fold_step s), (Z.shiftr_div_pow2 s 16) by lia. change (2 ^ 16) with 65536.
  destruct (Z.eqb_spec (s / 65536) 0) as [H0|H0]; cbn [negb].
  { rewrite ones_fold_small; [done|]. apply Z.div_small_iff in H0; lia. }
  rewrite <- (ones_fold_carry s) by (destruct (Z.eq_dec s 0) as [Hz|]; [by rewrite Hz in H0|lia]).
  pose proof (Z.div_mod s 65536 ltac:(lia)). pose proof (Z.mod_pos_bound s 65536 ltac:(lia)).
  set (q := s / 65536) in *. set (r := s mod 65536) in *. clearbody q r.
  assert (0 < q < 65536) by lia. rewrite (u32_small (r + q)) by (unfold is_u32; lia).
  rewrite (cksum16_fold_step (r + q)), (Z.shiftr_div_pow2 (r + q) 16) by lia.
  change (2 ^ 16) with 65536.
  destruct (Z.eqb_spec ((r + q) / 65536) 0) as [Hc|Hc]; cbn [negb].
  { rewrite ones_fold_small; [done|]. apply Z.div_small_iff in Hc; lia. }
  rewrite <- (ones_fold_carry (r + q)) by lia.
  assert (65536 <= r + q).
  { destruct (Z.ltb_spec (r + q) 65536); [rewrite Z.div_small in Hc|]; lia. }
  assert ((r + q) / 65536 = 1) as E1 by (symmetry; apply Z.div_unique with (r + q - 65536); lia).
  assert ((r + q) mod 65536 = r + q - 65536) as E2 by (symmetry; apply Z.mod_unique with 1; lia).
  rewrite E1, E2, u32_small, Z.shiftr_div_pow2, Z.div_small by ulia. cbn.
  by rewrite ones_fold_small by lia.
Qed.

Lemma lnot_u16 s : 0 <= s <= 65535 → u16 (Z.lnot (u16 s)) = 65535 - s.
Proof. intros. rewrite (u16_small s) by ulia. unfold Z.lnot. mlia. Qed.

(** Closed form. *)
Lemma cksum16_eq bs count init :
  bytes_ok bs → is_u16 count → count <= zlen bs → is_u16 init →
  cksum16 bs count init
  = Some (65535 - ones_fold (init + word_sum (take (Z.to_nat count) bs))).
Proof.
  intros Hok Hc Hlen Hi. unfold cksum16.
  rewrite (u16_small count), (u32_small init) by ulia.
  pose proof (word_sum_bound (take (Z.to_nat count) bs) (bytes_ok_take _ _ Hok)) as Hb.
  rewrite zlen_take in Hb by ulia.
  assert (65535 * ((count + 1) / 2) <= 65535 * 32768) as Hm by mlia.
  destruct (cksum16_words_spec bs (Z.to_nat count) count init)
    as (rest&c&sum'&->&HR); try done; try ulia.
  destruct HR as [[-> ->]|(->&b&rest'&->&?&HE)]; cbv iota beta.
  - change (0 >? 0) with false. cbv iota beta.
    rewrite cksum16_fold_spec by ulia. f_equal. apply lnot_u16, ones_fold_range. ulia.
  - change (1 >? 0) with true. cbv iota beta. rewrite HE, u32_small, cksum16_fold_spec by ulia.
    f_equal. apply lnot_u16, ones_fold_range. ulia.
Qed.

(** ** Self-verification *)

Lemma word_sum_app_even pre post :
  Nat.Even (length pre) → word_sum (pre ++ post) = word_sum pre + word_sum post.
Proof.
  induction pre as [|b|b0 b1 pre IH] using pair_ind; intros He.
  - done.
  - by destruct He as [k ?]; simpl in *; lia.
  - cbn [app word_sum]. rewrite IH; [lia|].
    destruct He as [k Hk]. exists (k - 1)%nat. simpl in Hk. lia.
Qed.

Lemma word_sum_store16 c rest : is_u16 c → word_sum (store16 c ++ rest) = c + word_sum rest.
Proof.
  intros Hc. destruct (store16 c) as [|a [|b [|]]] eqn:E;
    pose proof (length_store16 c) as Hl; rewrite E in Hl; try discriminate Hl.
  cbn [app word_sum]. by rewrite (load16_store16 c a b).
Qed.

Lemma ones_fold_complement s : 0 <= s → ones_fold (s + (65535 - ones_fold s)) = 65535.
Proof.
  intros Hs. destruct (Z.eq_dec s 0) as [->|Hz].
  { rewrite (ones_fold_small 0) by lia. by rewrite ones_fold_small by lia. }
  unfold ones_fold at 2. destruct (Z.eqb_spec s 0) as [|_]; [lia|].
  pose proof (Z.div_mod (s - 1) 65535 ltac:(lia)) as Hd.
  pose proof (Z.mod_pos_bound (s - 1) 65535 ltac:(lia)).
  apply (ones_fold_unique _ ((s - 1) / 65535)); lia.
Qed.

(** A buffer with a 16-bit field between two parts. *)
Lemma field_buffer pre post v :
  bytes_ok pre → bytes_ok post →
  bytes_ok (pre ++ store16 v ++ post)
  ∧ zlen (pre ++ store16 v ++ post) = zlen pre + 2 + zlen post
  ∧ take (Z.to_nat (zlen pre + 2 + zlen post)) (pre ++ store16 v ++ post)
    = pre ++ store16 v ++ post.
Proof.
  intros. assert (zlen (pre ++ store16 v ++ post) = zlen pre + 2 + zlen post) as E
    by (autorewrite with zlen; lia).
  split; [|split]; [|done|].
  - rewrite !bytes_ok_app. auto with stack.
  - apply take_zlen. lia.
Qed.

(** The sum of a buffer whose zeroed checksum field, at an even offset,
    receives the complement of its own sum. *)
(** Only the first [count] bytes matter. *)
Lemma cksum16_prefix bs rest count init :
  bytes_ok bs → bytes_ok rest → is_u16 count → count <= zlen bs → is_u16 init →
  cksum16 (bs ++ rest) count init = cksum16 bs count init.
Proof.
  intros Hb Hr Hc Hl Hi. pose proof (zlen_nonneg rest).
  rewrite !cksum16_eq; try done; [|by apply bytes_ok_app|rewrite zlen_app; lia].
  rewrite take_app_le; [done|]. unfold zlen in Hl. lia.
Qed.

Lemma cksum16_verifies_eq pre post init c :
  bytes_ok pre → bytes_ok post → Nat.Even (length pre) → is_u16 init →
  zlen pre + 2 + zlen post < 65536 →
  cksum16 (pre ++ store16 0 ++ post) (zlen pre + 2 + zlen post) init = Some c →
  is_u16 c ∧
  cksum16 (pre ++ store16 c ++ post) (zlen pre + 2 + zlen post) init = Some 0.
Proof.
  intros Hpre Hpost He Hi Hlen.
  pose proof (zlen_nonneg pre). pose proof (zlen_nonneg post).
  destruct (field_buffer pre post 0) as (Hok0&Hl0&Ht0); [done..|].
  rewrite cksum16_eq; [|done|ulia|lia|done].
  rewrite Ht0, word_sum_app_even, word_sum_store16 by (done || ulia).
  pose proof (word_sum_bound pre Hpre) as [Hp _].
  pose proof (word_sum_bound post Hpost) as [Hq _].
  set (s := init + (word_sum pre + (0 + word_sum post))) in *.
  assert (0 <= s) by ulia. pose proof (ones_fold_range s ltac:(done)).
  intros [= <-]. split; [ulia|].
  destruct (field_buffer pre post (65535 - ones_fold s)) as (Hok1&Hl1&Ht1); [done..|].
  rewrite cksum16_eq; [|done|ulia|lia|done].
  rewrite Ht1, word_sum_app_even, word_sum_store16 by (done || ulia).
  replace (init + (word_sum pre + (65535 - ones_fold s + word_sum post)))
    with (s + (65535 - ones_fold s)) by (subst s; lia).
  by rewrite ones_fold_complement.
Qed.

(** A buffer sums to zero exactly when its word sum is a positive multiple
    of 65535. *)
Lemma cksum16_zero_iff bs count init :
  bytes_ok bs → is_u16 count → count <= zlen bs → is_u16 init →
  cksum16 bs count init = Some 0 ↔
  0 < init + word_sum (take (Z.to_nat count) bs)
  ∧ (init + word_sum (take (Z.to_nat count) bs)) mod 65535 = 0.
Proof.
  intros. rewrite cksum16_eq by done.
  pose proof (word_sum_bound (take (Z.to_nat count) bs) ltac:(auto with stack)) as [Hb _].
  set (s := init + _) in *. assert (0 <= s) by ulia.
  unfold ones_fold. split.
  - intros [= E]. destruct (Z.eqb_spec s 0); [lia|]. split; [lia|].
    symmetry. apply Z.mod_unique with ((s - 1) / 65535 + 1); [lia|].
    pose proof (Z.div_mod (s - 1) 65535 ltac:(lia)). lia.
  - intros [Hp Hm]. f_equal. destruct (Z.eqb_spec s 0); [lia|].
    rewrite <- (Z.mod_unique (s - 1) 65535 (s / 65535 - 1) 65534); [lia|lia|].
    pose proof (Z.div_mod s 65535 ltac:(lia)). lia.
Qed.
End Cksum.

(** ** Byte order independence *)

Definition swap_machine (e : endianness) : endianness :=
  match e with LittleEndian => BigEndian | BigEndian => LittleEndian end.

Lemma word_sum_swap bs :
  Nat.Even (length bs) → bytes_ok bs →
  @word_sum LittleEndian bs mod 65535 = (256 * @word_sum BigEndian bs) mod 65535
  ∧ (@word_sum LittleEndian bs = 0 ↔ @word_sum BigEndian bs = 0).
Proof.
  induction bs as [|b|b0 b1 bs IH] using pair_ind; intros He Hok.
  - done.
  - by destruct He as [k ?]; simpl in *; lia.
  - inversion_clear Hok as [|?? Hb0 Hok']. inversion_clear Hok' as [|?? Hb1 Hok].
    destruct IH as [IH1 IH2]; [|done|].
    { destruct He as [k Hk]. exists (k - 1)%nat. simpl in Hk. lia. }
    pose proof (@word_sum_bound LittleEndian bs Hok) as [? _].
    pose proof (@word_sum_bound BigEndian bs Hok) as [? _].
    cbn [word_sum]. unfold load16, mach_endian. split; [|ulia].
    rewrite Z.mul_add_distr_l, Z.add_mod, IH1, <- Z.add_mod by lia.
    replace (256 * (b1 + 256 * b0) + 256 * @word_sum BigEndian bs)
      with (b0 + 256 * b1 + 256 * @word_sum BigEndian bs + b0 * 65535) by lia.
    by rewrite Z_mod_plus_full.
Qed.

Lemma byteswap16_complement c :
  0 <= c <= 65535 → byteswap16 (65535 - c) = 65535 - byteswap16 c.
Proof. intros. rewrite !byteswap16_eq by ulia. mlia. Qed.

Lemma byteswap16_congr c :
  is_u16 c → byteswap16 c mod 65535 = (256 * c) mod 65535 ∧ is_u16 (byteswap16 c)
             ∧ (byteswap16 c = 0 ↔ c = 0).
Proof.
  intros Hc. rewrite byteswap16_eq by done.
  pose proof (Z.div_mod c 256 ltac:(lia)). pose proof (Z.mod_pos_bound c 256 ltac:(lia)).
  assert (0 <= c / 256 < 256) by ulia.
  split; [|split; ulia].
  replace (256 * c) with (c mod 256 * 256 + c / 256 + (c / 256) * 65535) by lia.
  by rewrite Z_mod_plus_full.
Qed.

(** Values in [1, 65535] that agree modulo 65535 are equal. *)
Lemma ones_range_inj a b :
  1 <= a <= 65535 → 1 <= b <= 65535 → a mod 65535 = b mod 65535 → a = b.
Proof.
  intros Ha Hb He.
  rewrite <- (ones_fold_small a), <- (ones_fold_small b) by lia.
  pose proof (Z.div_mod a 65535 ltac:(lia)). pose proof (Z.div_mod b 65535 ltac:(lia)).
  rewrite !ones_fold_small by lia. lia.
Qed.

Lemma ones_fold_congr s : 0 < s → ones_fold s mod 65535 = s mod 65535.
Proof.
  intros Hs. unfold ones_fold. destruct (Z.eqb_spec s 0); [lia|].
  rewrite Z.add_mod_idemp_l by lia. by replace (s - 1 + 1) with s by lia.
Qed.

Lemma ones_fold_byteswap s t :
  0 <= s → 0 <= t → s mod 65535 = (256 * t) mod 65535 → (s = 0 ↔ t = 0) →
  ones_fold s = byteswap16 (ones_fold t).
Proof.
  intros Hs Ht He Hz. destruct (Z.eq_dec s 0) as [->|Hs0].
  { assert (t = 0) as -> by tauto. done. }
  assert (0 < t) by (destruct (Z.eq_dec t 0); [tauto|lia]).
  assert (Hr : ∀ x, 0 < x → 1 <= ones_fold x <= 65535).
  { intros x Hx. unfold ones_fold. destruct (Z.eqb_spec x 0); [lia|].
    pose proof (Z.mod_pos_bound (x - 1) 65535 ltac:(lia)). lia. }
  pose proof (Hr s ltac:(lia)). pose proof (Hr t ltac:(lia)).
  destruct (byteswap16_congr (ones_fold t)) as (Hc&Hu&Hz0); [ulia|].
  apply ones_range_inj; [done|ulia|].
  rewrite Hc, ones_fold_congr, He by lia.
  rewrite <- (Z.mul_mod_idemp_r 256 (ones_fold t)), ones_fold_congr by lia.
  by rewrite Z.mul_mod_idemp_r by lia.
Qed.

(** C30. The two bytes a sender stores in a checksum field do not depend on
    its byte order: on the even-length buffers the headers and
    pseudo-headers are, [cksum16] on a little-endian host is the byte swap
    of [cksum16] on a big-endian one, so the stored field is the same. *)
Theorem cksum16_byte_order_independent (bs : bytes) (count init : Z) :
  bytes_ok bs → is_u16 count → count <= zlen bs → Z.Even count → is_u16 init →
  ∃ c, @cksum16 BigEndian bs count init = Some c
     ∧ @cksum16 LittleEndian bs count (byteswap16 init) = Some (byteswap16 c)
     ∧ @store16 LittleEndian (byteswap16 c) = @store16 BigEndian c.
Proof.
  intros Hok Hc Hlen He Hi.
  destruct (byteswap16_congr init Hi) as (Hic&Hiu&Hi0).
  set (ws := take (Z.to_nat count) bs).
  assert (bytes_ok ws) as Hws by (by apply bytes_ok_take).
  destruct (word_sum_swap ws) as [Hm Hz]; [|done|].
  { subst ws. rewrite length_take. destruct He as [k ->]. exists (Z.to_nat k).
    unfold zlen in Hlen. ulia. }
  pose proof (@word_sum_bound LittleEndian ws Hws) as [? _].
  pose proof (@word_sum_bound BigEndian ws Hws) as [? _].
  set (sB := init + @word_sum BigEndian ws).
  exists (65535 - ones_fold sB).
  pose proof (ones_fold_range sB ltac:(subst sB; ulia)).
  rewrite !cksum16_eq, byteswap16_complement by done.
  fold ws. fold sB. split; [done|]. split.
  - do 2 f_equal. apply ones_fold_byteswap; [ulia|subst sB; ulia| |subst sB; ulia].
    subst sB. rewrite Z.mul_add_distr_l, Z.add_mod, Hic, Hm by lia.
    by rewrite <- Z.add_mod by lia.
  - unfold store16, mach_endian. rewrite <- byteswap16_complement by done.
    rewrite byteswap16_eq by ulia.
    set (c := 65535 - ones_fold sB). assert (is_u16 c) by (subst c; ulia).
    clearbody c. cons_eq; mlia.
Qed.

Lemma cksum16_byte_order_independent_witness :
  ∃ c, @cksum16 BigEndian [0x45; 0x00; 0x12; 0x34; 7] 4 9 = Some c
     ∧ @cksum16 LittleEndian [0x45; 0x00; 0x12; 0x34; 7] 4 (byteswap16 9)
       = Some (byteswap16 c)
     ∧ @store16 LittleEndian (byteswap16 c) = @store16 BigEndian c.
Proof.
  apply (cksum16_byte_order_independent [0x45; 0x00; 0x12; 0x34; 7] 4 9).
  - repeat constructor; ulia.
  - ulia.
  - unfold zlen; simpl; lia.
  - exists 2. done.
  - ulia.
Defined.

(** C29. A buffer that carries its own checksum verifies: when the field at
    an even offset is zeroed, summed with any 16-bit initial value (a
    pseudo-header sum) and overwritten with the result, [cksum16] of the
    buffer with the same initial value is 0.  No read leaves the buffer
    and both loops end within their fuel. *)
Theorem cksum16_self_verifying `{Machine} (pre post : bytes) (init : Z) :
  bytes_ok pre → bytes_ok post → Nat.Even (length pre) → is_u16 init →
  zlen pre + 2 + zlen post < 65536 →
  ∃ c, cksum16 (pre ++ store16 0 ++ post) (zlen pre + 2 + zlen post) init = Some c
     ∧ is_u16 c
     ∧ cksum16 (pre ++ store16 c ++ post) (zlen pre + 2 + zlen post) init = Some 0.
Proof.
  intros Hpre Hpost He Hi Hlen.
  pose proof (zlen_nonneg pre). pose proof (zlen_nonneg post).
  assert (∃ c, cksum16 (pre ++ store16 0 ++ post) (zlen pre + 2 + zlen post) init = Some c)
    as [c Hc].
  { destruct (field_buffer pre post 0) as (?&?&?); [done..|].
    rewrite cksum16_eq; [by eexists|done|ulia|lia|done]. }
  exists c. split; [done|]. by apply cksum16_verifies_eq.
Qed.

Lemma cksum16_self_verifying_witness :
  ∃ c, @cksum16 LittleEndian ([0x45; 0; 0xab; 0xcd] ++ @store16 LittleEndian 0 ++ [1; 2; 3]) 9 77 = Some c
     ∧ is_u16 c
     ∧ @cksum16 LittleEndian ([0x45; 0; 0xab; 0xcd] ++ @store16 LittleEndian c ++ [1; 2; 3]) 9 77 = Some 0.
Proof.
  apply (@cksum16_self_verifying LittleEndian [0x45; 0; 0xab; 0xcd] [1; 2; 3] 77).
  - repeat constructor; ulia.
  - repeat constructor; ulia.
  - by exists 2%nat.
  - ulia.
  - done.
Defined.

(** Damage confined to one aligned 16-bit word of a buffer that
    verifies is detected: a buffer that differs only there and still
    verifies has the same word, or one of the words is 0x0000 and the
    other 0xffff, the two representations of zero. *)
Lemma cksum16_detects_word_change `{Machine} (pre post : bytes) (w w' init : Z) :
  bytes_ok pre → bytes_ok post → Nat.Even (length pre) → is_u16 init →
  is_u16 w → is_u16 w' → zlen pre + 2 + zlen post < 65536 →
  cksum16 (pre ++ store16 w ++ post) (zlen pre + 2 + zlen post) init = Some 0 →
  cksum16 (pre ++ store16 w' ++ post) (zlen pre + 2 + zlen post) init = Some 0 →
  w = w' ∨ w = 0 ∧ w' = 65535 ∨ w = 65535 ∧ w' = 0.
Proof.
  intros Hpre Hpost He Hi Hw Hw' Hlen.
  pose proof (zlen_nonneg pre). pose proof (zlen_nonneg post).
  destruct (field_buffer pre post w) as (?&?&Ht); [done..|].
  destruct (field_buffer pre post w') as (?&?&Ht'); [done..|].
  rewrite !cksum16_zero_iff by (done || ulia).
  rewrite Ht, Ht', (word_sum_app_even pre (store16 w ++ post)), word_sum_store16,
    (word_sum_app_even pre (store16 w' ++ post)), word_sum_store16 by done.
  intros [_ Hv] [_ Hv'].
  apply Z.mod_divide in Hv as [k1 Hv]; [|lia]. apply Z.mod_divide in Hv' as [k2 Hv']; [|lia].
  assert (w - w' = (k1 - k2) * 65535) by lia. ulia.
Qed.

Lemma cksum16_detects_word_change_witness :
  ∃ w, @cksum16 LittleEndian ([1; 2] ++ @store16 LittleEndian w ++ [3]) 5 0 = Some 0
     ∧ (0xfdfb = 0xfdfb ∨ 0xfdfb = 0 ∧ 0xfdfb = 65535 ∨ 0xfdfb = 65535 ∧ 0xfdfb = 0).
Proof.
  exists 0xfdfb. split; [by vm_compute|].
  apply (@cksum16_detects_word_change LittleEndian [1; 2] [3] 0xfdfb 0xfdfb 0);
    try (repeat constructor; ulia); try ulia; try (by exists 1%nat); by vm_compute.
Defined.
