(* ===== verification/Queue.v ===== *)
(** * The queue of util.c

    [struct queue_entry], [struct queue_head] and [queue_init],
    [queue_push], [queue_pop], [queue_peek], [queue_foreach] of
    [src/src/util.c] on an explicit heap of list cells: [head] and [tail]
    are pointers, [next] links the cells, [num] is an [unsigned int].
    [None] as the result of an operation is the dereference of a pointer
    that is not allocated.

    [Fifo] is what the rest of the stack relies on: a list, pushed at the
    end and popped at the front.  [Impl] is the code; the refinement
    theorem runs any sequence of operations on both. *)

From stdpp Require Import gmap.
From S2P Require Import Prelude.

(** ** Specification *)

Module Fifo.
Section Fifo.
Context {D : Type}.

Definition push (l : list D) (d : D) : list D := l ++ [d].

Definition pop (l : list D) : option D * list D :=
  match l with
  | [] => (None, [])
  | d :: l => (Some d, l)
  end.

Definition peek (l : list D) : option D := head l.

(** [queue->num] *)
Definition num (l : list D) : Z := u32 (zlen l).

Lemma num_push l d : num (push l d) = u32 (num l + 1).
Proof.
  unfold num, push, u32. autorewrite with zlen.
  by rewrite Z.add_mod_idemp_l by lia.
Qed.
End Fifo.
End Fifo.

(** ** Code *)

Module Impl.
Section Impl.
Context {D : Type}.

Abbreviation ptr := positive.

Record queue_entry := QueueEntry { qe_next : option ptr; qe_data : D }.

Record queue_head := QueueHead {
  qh_head : option ptr;
  qh_tail : option ptr;
  qh_num : Z
}.

Abbreviation heap := (gmap ptr queue_entry).

Definition set_next (e : queue_entry) (n : option ptr) : queue_entry :=
  QueueEntry n (qe_data e).

Definition queue_init : queue_head := QueueHead None None 0.

(** [entry] is what [memory_alloc] returns. *)
Definition queue_push (entry : option ptr) (h : heap) (queue : queue_head) (data : D)
  : option (heap * queue_head * option D) :=
  match entry with
  | None => Some (h, queue, None)
  | Some entry =>
      let h := <[entry := QueueEntry None data]> h in
      let linked :=
        match qh_tail queue with
        | None => Some h
        | Some tail =>
            match h !! tail with
            | None => None
            | Some e => Some (<[tail := set_next e (Some entry)]> h)
            end
        end in
      match linked with
      | None => None
      | Some h =>
          let head := match qh_head queue with None => Some entry | Some p => Some p end in
          Some (h, QueueHead head (Some entry) (u32 (qh_num queue + 1)), Some data)
      end
  end.

Definition queue_pop (h : heap) (queue : queue_head)
  : option (heap * queue_head * option D) :=
  match qh_head queue with
  | None => Some (h, queue, None)
  | Some entry =>
      match h !! entry with
      | None => None
      | Some e =>
          let head := qe_next e in
          let tail := match head with None => None | Some _ => qh_tail queue end in
          Some (delete entry h, QueueHead head tail (u32 (qh_num queue - 1)),
                Some (qe_data e))
      end
  end.

Definition queue_peek (h : heap) (queue : queue_head) : option (option D) :=
  match qh_head queue with
  | None => Some None
  | Some entry =>
      match h !! entry with
      | None => None
      | Some e => Some (Some (qe_data e))
      end
  end.

(** The loop of [queue_foreach] from [entry] on; [func] acts on a state. *)
Fixpoint queue_foreach {S} (fuel : nat) (func : S → D → S) (h : heap)
    (entry : option ptr) (s : S) : option S :=
  match entry with
  | None => Some s
  | Some p =>
      match fuel, h !! p with
      | S fuel, Some e => queue_foreach fuel func h (qe_next e) (func s (qe_data e))
      | _, _ => None
      end
  end.

(** ** Representation *)

(** The cells reached from [p], in order, with their data. *)
Fixpoint chain (h : heap) (p : option ptr) (l : list (ptr * D)) : Prop :=
  match l with
  | [] => p = None
  | (a, d) :: l =>
      p = Some a ∧ ∃ n, h !! a = Some (QueueEntry n d) ∧ chain h n l
  end.

Definition queue_rep (h : heap) (q : queue_head) (l : list (ptr * D)) : Prop :=
  chain h (qh_head q) l ∧ NoDup l.*1 ∧ qh_tail q = last l.*1
  ∧ qh_num q = Fifo.num l.*2.

Lemma chain_frame h h' p l :
  (∀ a, a ∈ l.*1 → h' !! a = h !! a) → chain h p l → chain h' p l.
Proof.
  revert p. induction l as [|[a d] l IH]; intros p Hf Hc; [done|].
  destruct Hc as (->&n&Ha&Hc). split; [done|]. exists n. split.
  - rewrite Hf; [done|]. simpl. apply elem_of_cons. by left.
  - apply IH; [|done]. intros b Hb. apply Hf. simpl. apply elem_of_cons. by right.
Qed.

Lemma chain_dom h p l a : chain h p l → a ∈ l.*1 → is_Some (h !! a).
Proof.
  revert p. induction l as [|[b d] l IH]; intros p Hc Ha; simpl in Ha.
  - by apply elem_of_nil in Ha.
  - destruct Hc as (_&n&Hb&Hc). apply elem_of_cons in Ha as [->|Ha]; eauto.
Qed.

(** Linking a new cell behind the last one. *)
Lemma chain_snoc h p l t a d e :
  chain h p l → NoDup l.*1 → last l.*1 = Some t → h !! t = Some e → h !! a = None →
  chain (<[t := set_next e (Some a)]> (<[a := QueueEntry None d]> h)) p (l ++ [(a, d)]).
Proof.
  revert p. induction l as [|[b d'] l IH]; intros p Hc Hnd Hl Ht Ha; [done|].
  destruct Hc as (->&n&Hb&Hc). apply NoDup_cons in Hnd as [Hnb Hnd].
  split; [done|]. destruct l as [|[c dc] l].
  - simpl in *. injection Hl as <-. rewrite Hb in Ht. injection Ht as <-.
    exists (Some a). assert (a ≠ b) by congruence.
    rewrite lookup_insert_eq. split; [done|]. split; [done|].
    exists None. by rewrite lookup_insert_ne, lookup_insert_eq.
  - change (last ((c, dc) :: l).*1 = Some t) in Hl.
    assert (t ≠ b) by (intros ->; apply Hnb; by apply last_Some_elem_of in Hl).
    assert (a ≠ b) by congruence.
    exists n. rewrite !lookup_insert_ne by done. split; [done|].
    apply IH; auto.
Qed.

Lemma queue_rep_init h : queue_rep h queue_init [].
Proof. repeat split; constructor. Qed.

Lemma chain_head h p l : chain h p l → p = head l.*1.
Proof. destruct l as [|[a d] l]; simpl; intuition. Qed.

Lemma queue_push_rep h q l entry d :
  queue_rep h q l → h !! entry = None →
  ∃ h' q', queue_push (Some entry) h q d = Some (h', q', Some d)
    ∧ queue_rep h' q' (l ++ [(entry, d)])
    ∧ ∀ a, a ∉ l.*1 → a ≠ entry → h' !! a = h !! a.
Proof.
  intros (Hc&Hnd&Ht&Hn) He.
  assert (Hfresh : entry ∉ l.*1).
  { intros Hin. destruct (chain_dom _ _ _ _ Hc Hin). congruence. }
  assert (Hnd' : NoDup (l ++ [(entry, d)]).*1).
  { rewrite fmap_app. apply NoDup_app. split; [done|]. split; [|apply NoDup_singleton].
    intros a Ha ->%list_elem_of_singleton. done. }
  assert (Hnum : u32 (qh_num q + 1) = Fifo.num (l ++ [(entry, d)]).*2).
  { rewrite Hn, fmap_app. symmetry. apply Fifo.num_push. }
  assert (Hlast : Some entry = last (l ++ [(entry, d)]).*1).
  { rewrite fmap_app. change [(entry, d)].*1 with [entry]. by rewrite last_snoc. }
  unfold queue_push. rewrite Ht. pose proof (chain_head _ _ _ Hc) as Hh.
  destruct (last l.*1) as [t|] eqn:El.
  - pose proof (last_Some_elem_of _ _ El) as Htin.
    destruct (chain_dom _ _ _ _ Hc Htin) as [e Hte].
    assert (t ≠ entry) by congruence.
    rewrite lookup_insert_ne, Hte by done. eexists _, _. split; [done|]. split.
    + split; [|done]. simpl. rewrite Hh.
      replace (match head l.*1 with Some p => Some p | None => Some entry end)
        with (qh_head q) by (rewrite Hh; by destruct l as [|[]]).
      by apply chain_snoc.
    + intros a Ha Hae. rewrite !lookup_insert_ne; [done..|]. by intros ->.
  - apply last_None in El. destruct l as [|[] l]; [|done]. simpl in *. rewrite Hh.
    eexists _, _. split; [done|]. split.
    + split; [|done]. simpl. split; [done|]. exists None. by rewrite lookup_insert_eq.
    + intros a _ Hae. by rewrite lookup_insert_ne.
Qed.

Lemma queue_pop_rep h q l :
  queue_rep h q l →
  ∃ h' q', queue_pop h q = Some (h', q', (Fifo.pop l.*2).1)
    ∧ queue_rep h' q' (tail l)
    ∧ h' = match l with [] => h | (a, _) :: _ => delete a h end.
Proof.
  intros (Hc&Hnd&Ht&Hn). destruct l as [|[a d] l]; unfold queue_pop.
  - simpl in *. rewrite Hc. by exists h, q.
  - destruct Hc as (->&n&Ha&Hc). rewrite Ha. apply NoDup_cons in Hnd as [Ha' Hnd].
    eexists _, _. split; [done|]. split; [|done]. split; [|split; [done|split]]; simpl.
    + apply chain_frame with h; [|done].
      intros b Hb. rewrite lookup_delete_ne; [done|]. by intros ->.
    + rewrite (chain_head _ _ _ Hc), Ht. by destruct l as [|[] l].
    + assert (zlen ((a, d) :: l).*2 = 1 + zlen l.*2) as Hz by (rewrite fmap_cons; apply zlen_cons).
      rewrite Hn. unfold Fifo.num, u32. rewrite Zminus_mod_idemp_l, Hz. f_equal. lia.
Qed.

Lemma queue_peek_rep h q l :
  queue_rep h q l → queue_peek h q = Some (Fifo.peek l.*2).
Proof.
  intros (Hc&_). unfold queue_peek. destruct l as [|[a d] l]; simpl in *.
  - by rewrite Hc.
  - destruct Hc as (->&n&->&_). done.
Qed.

Lemma queue_foreach_rep {S} (func : S → D → S) h p l fuel s :
  chain h p l → (length l <= fuel)%nat →
  queue_foreach fuel func h p s = Some (fold_left func l.*2 s).
Proof.
  revert p fuel s. induction l as [|[a d] l IH]; intros p fuel s Hc Hf.
  - simpl in Hc. subst. by destruct fuel.
  - destruct Hc as (->&n&Ha&Hc). destruct fuel as [|fuel]; simpl in Hf; [lia|].
    simpl. rewrite Ha. apply IH; [done|lia].
Qed.
End Impl.
End Impl.

(** ** Refinement *)

Section Refinement.
Context {D : Type}.

(** What a client does with a queue; a push carries the cell that
    [memory_alloc] returned, [None] on failure. *)
Inductive qop :=
  | QPush (cell : option positive) (d : D)
  | QPop
  | QPeek.

Definition impl_step (op : qop) (s : gmap positive Impl.queue_entry * Impl.queue_head)
  : option (gmap positive Impl.queue_entry * Impl.queue_head * option D) :=
  let '(h, q) := s in
  match op with
  | QPush cell d => Impl.queue_push cell h q d
  | QPop => Impl.queue_pop h q
  | QPeek => match Impl.queue_peek h q with
             | Some r => Some (h, q, r)
             | None => None
             end
  end.

Definition fifo_step (op : qop) (l : list D) : list D * option D :=
  match op with
  | QPush None d => (l, None)
  | QPush (Some _) d => (Fifo.push l d, Some d)
  | QPop => ((Fifo.pop l).2, (Fifo.pop l).1)
  | QPeek => (l, Fifo.peek l)
  end.

Fixpoint impl_run (ops : list qop) (s : gmap positive Impl.queue_entry * Impl.queue_head)
  : option (list (option D) * (gmap positive Impl.queue_entry * Impl.queue_head)) :=
  match ops with
  | [] => Some ([], s)
  | op :: ops =>
      match impl_step op s with
      | None => None
      | Some (h, q, r) =>
          match impl_run ops (h, q) with
          | None => None
          | Some (rs, s) => Some (r :: rs, s)
          end
      end
  end.

Fixpoint fifo_run (ops : list qop) (l : list D) : list (option D) * list D :=
  match ops with
  | [] => ([], l)
  | op :: ops =>
      let '(l, r) := fifo_step op l in
      let '(rs, l) := fifo_run ops l in
      (r :: rs, l)
  end.

(** What calloc documents: a cell it returns is not in use.  The cells in
    use are those of [live], a client's ghost account of what was pushed
    and not yet popped. *)
Fixpoint alloc_fresh (live : list positive) (ops : list qop) : Prop :=
  match ops with
  | [] => True
  | QPush None _ :: ops => alloc_fresh live ops
  | QPush (Some a) _ :: ops => a ∉ live ∧ alloc_fresh (live ++ [a]) ops
  | QPop :: ops => alloc_fresh (tail live) ops
  | QPeek :: ops => alloc_fresh live ops
  end.

(** Every allocated cell is a cell of the queue. *)
Definition no_leak (h : gmap positive (@Impl.queue_entry D)) (l : list (positive * D)) : Prop :=
  ∀ a, is_Some (h !! a) → a ∈ l.*1.

Lemma impl_step_fifo op ops h q l :
  Impl.queue_rep h q l → no_leak h l → alloc_fresh l.*1 (op :: ops) →
  ∃ h' q' l', impl_step op (h, q) = Some (h', q', (fifo_step op l.*2).2)
    ∧ Impl.queue_rep h' q' l' ∧ l'.*2 = (fifo_step op l.*2).1
    ∧ no_leak h' l' ∧ alloc_fresh l'.*1 ops.
Proof.
  intros Hr Hd Hf. destruct op as [[a|] d| |]; cbn [impl_step fifo_step alloc_fresh] in *.
  - destruct Hf as [Ha Hf].
    assert (h !! a = None) as Hn by (apply eq_None_not_Some; auto).
    destruct (Impl.queue_push_rep h q l a d Hr Hn) as (h'&q'&->&Hr'&Hfr).
    exists h', q', (l ++ [(a, d)]). unfold no_leak. rewrite !fmap_app.
    split; [done|]. split; [done|]. split; [done|]. split; [|done].
    intros b Hb. rewrite elem_of_app. change [(a, d)].*1 with [a].
    rewrite list_elem_of_singleton.
    destruct (decide (b = a)); [by right|left].
    destruct (decide (b ∈ l.*1)); [done|]. apply Hd. by rewrite <- Hfr.
  - by exists h, q, l.
  - destruct (Impl.queue_pop_rep h q l Hr) as (h'&q'&->&Hr'&->).
    eexists _, q', (tail l). split; [done|]. split; [done|].
    destruct l as [|[a d] l]; [done|]. split; [done|]. split; [|done].
    intros b Hb. destruct (decide (b = a)) as [->|Hne].
    + rewrite lookup_delete_eq in Hb. by destruct Hb.
    + rewrite lookup_delete_ne in Hb by done. specialize (Hd b Hb).
      rewrite fmap_cons in Hd. apply elem_of_cons in Hd as [->|]; done.
  - rewrite (Impl.queue_peek_rep h q l Hr). by exists h, q, l.
Qed.

Lemma impl_run_fifo ops h q l :
  Impl.queue_rep h q l → no_leak h l → alloc_fresh l.*1 ops →
  ∃ h' q' l', impl_run ops (h, q) = Some ((fifo_run ops l.*2).1, (h', q'))
    ∧ Impl.queue_rep h' q' l' ∧ l'.*2 = (fifo_run ops l.*2).2 ∧ no_leak h' l'.
Proof.
  revert h q l. induction ops as [|op ops IH]; intros h q l Hr Hd Hf.
  { by exists h, q, l. }
  destruct (impl_step_fifo op ops h q l Hr Hd Hf) as (h1&q1&l1&E1&Hr1&El1&Hd1&Hf1).
  destruct (IH h1 q1 l1 Hr1 Hd1 Hf1) as (h2&q2&l2&E2&Hr2&El2&Hd2).
  exists h2, q2, l2. cbn [impl_run fifo_run]. rewrite E1, E2.
  rewrite El1 in *. destruct (fifo_step op l.*2) as [l' r]. simpl in *.
  by destruct (fifo_run ops l').
Qed.
End Refinement.

(** C28. The linked queue is a FIFO: started from [queue_init] and given
    cells by an allocator that never returns one in use, any sequence of
    [queue_push], [queue_pop] and [queue_peek] returns what the list
    specification returns, dereferences no dangling pointer, frees every
    cell it pops, and ends with [num] equal to the number of elements
    (modulo the width of [unsigned int]) and a head-to-tail walk of
    [queue_foreach] that visits the elements in order. *)
Theorem queue_refines_fifo {D : Type} (ops : list (@qop D)) :
  alloc_fresh [] ops →
  ∃ h q, impl_run ops (∅, Impl.queue_init) = Some ((fifo_run ops []).1, (h, q))
    ∧ Impl.qh_num q = Fifo.num (fifo_run ops []).2
    ∧ size h = length (fifo_run ops []).2
    ∧ Impl.queue_foreach (size h) (λ acc d, acc ++ [d]) h (Impl.qh_head q) []
      = Some (fifo_run ops []).2.
Proof.
  intros Hf.
  destruct (impl_run_fifo ops ∅ Impl.queue_init []) as (h&q&l&E&Hr&El&Hd).
  { apply Impl.queue_rep_init. }
  { intros a [e He]. by rewrite lookup_empty in He. }
  { done. }
  exists h, q. simpl in *. rewrite <- El.
  destruct Hr as (Hc&Hnd&Ht&Hn).
  assert (size h = length l.*2) as Hs.
  { rewrite <- size_dom. replace (dom h) with (list_to_set (C := gset positive) l.*1).
    - rewrite size_list_to_set, !length_fmap; done.
    - apply set_eq. intros a. rewrite elem_of_list_to_set, elem_of_dom. split; [|apply Hd].
      apply (Impl.chain_dom _ _ _ _ Hc). }
  split; [done|]. split; [done|]. split; [done|].
  rewrite (Impl.queue_foreach_rep _ _ _ l) by (done || (rewrite Hs, length_fmap; lia)).
  by rewrite fold_left_snoc.
Qed.

Lemma queue_refines_fifo_witness :
  alloc_fresh [] [QPush (Some 5%positive) 10; QPush (Some 7%positive) 20; QPop;
                  QPush (Some 5%positive) 30; QPeek]
  ∧ ∃ h q, impl_run [QPush (Some 5%positive) 10; QPush (Some 7%positive) 20; QPop;
                     QPush (Some 5%positive) 30; QPeek] (∅, Impl.queue_init)
           = Some ([Some 10; Some 20; Some 10; Some 30; Some 20], (h, q)).
Proof.
  assert (alloc_fresh [] [QPush (Some 5%positive) 10; QPush (Some 7%positive) 20; QPop;
                          QPush (Some 5%positive) 30; QPeek]) as Hf.
  { simpl. repeat split; set_solver. }
  split; [exact Hf|].
  destruct (queue_refines_fifo _ Hf) as (h&q&E&_). exists h, q. exact E.
Defined.
