(* ===== verification/Clock.v ===== *)
(** * Time values

    The time macros of [src/src/util.h] ([timeval_add_usec],
    [timespec_add_nsec]) and the macros of <sys/time.h> the sources use
    ([timersub], [timercmp], [timerclear]), with their meaning as counts of
    microseconds. *)

From S2P Require Import Prelude.

Record timeval := Timeval { tv_sec : Z; tv_usec : Z }.
Record timespec := Timespec { ts_sec : Z; ts_nsec : Z }.

#[export] Instance timeval_eq_dec : EqDecision timeval.
Proof. solve_decision. Defined.

(** [y] has an unsigned type in every use. *)
Definition timeval_add_usec (x : timeval) (y : Z) : timeval :=
  let sec := tv_sec x + y / 1000000 in
  let usec := tv_usec x + y mod 1000000 in
  if usec >=? 1000000 then Timeval (sec + 1) (usec - 1000000) else Timeval sec usec.

Definition timespec_add_nsec (x : timespec) (y : Z) : timespec :=
  let sec := ts_sec x + y / 1000000000 in
  let nsec := ts_nsec x + y mod 1000000000 in
  if nsec >=? 1000000000 then Timespec (sec + 1) (nsec - 1000000000) else Timespec sec nsec.

(** [timersub(a, b, result)] *)
Definition timersub (a b : timeval) : timeval :=
  let sec := tv_sec a - tv_sec b in
  let usec := tv_usec a - tv_usec b in
  if usec <? 0 then Timeval (sec - 1) (usec + 1000000) else Timeval sec usec.

(** [timercmp(a, b, CMP)] *)
Definition timercmp (cmp : Z → Z → bool) (a b : timeval) : bool :=
  if tv_sec a =? tv_sec b then cmp (tv_usec a) (tv_usec b) else cmp (tv_sec a) (tv_sec b).

Definition timerclear : timeval := Timeval 0 0.

(** ** Meaning *)

Definition tv_ok (x : timeval) : Prop := 0 <= tv_usec x < 1000000.
Definition ts_ok (x : timespec) : Prop := 0 <= ts_nsec x < 1000000000.

Definition tv_us (x : timeval) : Z := tv_sec x * 1000000 + tv_usec x.
Definition ts_ns (x : timespec) : Z := ts_sec x * 1000000000 + ts_nsec x.

Lemma timeval_add_usec_spec x y :
  tv_ok x → 0 <= y → tv_ok (timeval_add_usec x y) ∧ tv_us (timeval_add_usec x y) = tv_us x + y.
Proof.
  unfold tv_ok, tv_us, timeval_add_usec. intros.
  pose proof (Z.div_mod y 1000000 ltac:(lia)).
  pose proof (Z.mod_pos_bound y 1000000 ltac:(lia)).
  destruct (Z.geb_spec (tv_usec x + y mod 1000000) 1000000); simpl; lia.
Qed.

Lemma timespec_add_nsec_spec x y :
  ts_ok x → 0 <= y → ts_ok (timespec_add_nsec x y) ∧ ts_ns (timespec_add_nsec x y) = ts_ns x + y.
Proof.
  unfold ts_ok, ts_ns, timespec_add_nsec. intros.
  pose proof (Z.div_mod y 1000000000 ltac:(lia)).
  pose proof (Z.mod_pos_bound y 1000000000 ltac:(lia)).
  destruct (Z.geb_spec (ts_nsec x + y mod 1000000000) 1000000000); simpl; lia.
Qed.

Lemma timersub_spec a b :
  tv_ok a → tv_ok b → tv_ok (timersub a b) ∧ tv_us (timersub a b) = tv_us a - tv_us b.
Proof.
  unfold tv_ok, tv_us, timersub. intros.
  destruct (Z.ltb_spec (tv_usec a - tv_usec b) 0); simpl; lia.
Qed.

Lemma timercmp_ltb a b :
  tv_ok a → tv_ok b → timercmp Z.ltb a b = (tv_us a <? tv_us b).
Proof.
  unfold tv_ok, tv_us, timercmp. intros. bool_to_prop; lia.
Qed.

Lemma timercmp_gtb a b :
  tv_ok a → tv_ok b → timercmp Z.gtb a b = (tv_us a >? tv_us b).
Proof.
  unfold tv_ok, tv_us, timercmp. intros. rewrite !Z.gtb_ltb. bool_to_prop; lia.
Qed.

(** Whole seconds between two instants. *)
Lemma timersub_sec a b :
  tv_ok a → tv_ok b → tv_sec (timersub a b) = (tv_us a - tv_us b) / 1000000.
Proof.
  intros Ha Hb. destruct (timersub_spec a b Ha Hb) as [Hok Hus].
  rewrite <- Hus. unfold tv_us, tv_ok in *.
  symmetry. rewrite Z.div_add_l, Z.div_small by lia. lia.
Qed.

Lemma tv_us_inj a b : tv_ok a → tv_ok b → tv_us a = tv_us b → a = b.
Proof.
  destruct a as [sa ua], b as [sb ub]. unfold tv_ok, tv_us. simpl. intros.
  assert (sa = sb ∧ ua = ub) as [-> ->] by lia. done.
Qed.
