(* ===== verification/Text.v ===== *)
(** * C strings

    The functions of the C library the address code uses, on explicit
    memory: a [char *] is the list of the bytes from the pointer to the
    end of its object, the terminating NUL included, and [None] is a read
    past that end.  [strtol] follows the C standard: leading white space,
    a sign, an optional [0x] in base 16, digits, saturation at the ends of
    [long], and the end pointer at the start when nothing was converted.
    [fmt_d], [fmt_u] and [fmt_02x] are the conversions of [snprintf] the
    sources use, [snprintf] cuts the result to the buffer's size. *)

From S2P Require Import Prelude.

Definition chr_nul : Z := 0.
Definition chr_dot : Z := 46.
Definition chr_colon : Z := 58.
Definition chr_minus : Z := 45.
Definition chr_plus : Z := 43.

Definition isspace (c : Z) : bool := (c =? 32) || ((9 <=? c) && (c <=? 13)).

Definition digit_val (base c : Z) : option Z :=
  let d := if (48 <=? c) && (c <=? 57) then c - 48
           else if (97 <=? c) && (c <=? 122) then c - 87
           else if (65 <=? c) && (c <=? 90) then c - 55
           else base in
  if d <? base then Some d else None.

Fixpoint skip_space (s : bytes) : option bytes :=
  match s with
  | [] => None
  | c :: s' => if isspace c then skip_space s' else Some s
  end.

(** Digits from the current position, accumulated in [v]. *)
Fixpoint scan_digits (base v : Z) (s : bytes) : option (Z * bytes) :=
  match s with
  | [] => None
  | c :: s' =>
      match digit_val base c with
      | Some d => scan_digits base (v * base + d) s'
      | None => Some (v, s)
      end
  end.

Definition scan_sign (s : bytes) : option (bool * bytes) :=
  match s with
  | [] => None
  | c :: s' => Some (if c =? chr_minus then (true, s')
                     else if c =? chr_plus then (false, s') else (false, s))
  end.

Definition is_digit (base : Z) (o : option Z) : bool :=
  match o with
  | Some c => match digit_val base c with Some _ => true | None => false end
  | None => false
  end.

(** The optional prefix [0x] or [0X] of base 16. *)
Definition skip_0x (base : Z) (s : bytes) : bytes :=
  match s with
  | 48 :: x :: s' =>
      if (base =? 16) && ((x =? 120) || (x =? 88)) && is_digit 16 (head s') then s' else s
  | _ => s
  end.

Definition LONG_MAX : Z := 9223372036854775807.
Definition LONG_MIN : Z := -9223372036854775808.

(** [strtol(nptr, &endptr, base)]: the value and [endptr]. *)
Definition strtol (nptr : bytes) (base : Z) : option (Z * bytes) :=
  s ← skip_space nptr;
  '(neg, s) ← scan_sign s;
  let s := skip_0x base s in
  match s with
  | [] => None
  | _ =>
      if is_digit base (head s) then
        '(v, ep) ← scan_digits base 0 s;
        let v := if (neg : bool) then - v else v in
        Some (Z.max LONG_MIN (Z.min LONG_MAX v), ep)
      else Some (0, nptr)
  end.

(** Offset of the last [c] before the NUL, if there is one. *)
Fixpoint strrchr_from (i : Z) (found : option Z) (s : bytes) (c : Z) : option (option Z) :=
  match s with
  | [] => None
  | x :: s =>
      let found := if x =? c then Some i else found in
      if x =? chr_nul then Some found else strrchr_from (i + 1) found s c
  end.

Definition strrchr (s : bytes) (c : Z) : option (option Z) := strrchr_from 0 None s c.

Fixpoint strlen (s : bytes) : option Z :=
  match s with
  | [] => None
  | x :: s => if x =? chr_nul then Some 0 else n ← strlen s; Some (n + 1)
  end.

(** ** Formatting *)

Fixpoint fmt_u_aux (fuel : nat) (n : Z) (acc : bytes) : bytes :=
  match fuel with
  | O => acc
  | S fuel =>
      if n <? 10 then (48 + n) :: acc
      else fmt_u_aux fuel (n / 10) ((48 + n mod 10) :: acc)
  end.

(** [%u] of an integer below 10^20 *)
Definition fmt_u (n : Z) : bytes := fmt_u_aux 20 n [].

(** [%d] *)
Definition fmt_d (n : Z) : bytes := if n <? 0 then chr_minus :: fmt_u (- n) else fmt_u n.

Definition hex_digit (d : Z) : Z := if d <? 10 then 48 + d else 87 + d.

(** [%02x] of a byte *)
Definition fmt_02x (n : Z) : bytes := [hex_digit (n / 16); hex_digit (n mod 16)].

(** [snprintf(p, size, ...)] with the formatted text [txt]: the bytes
    written at [p]. *)
Definition snprintf (size : Z) (txt : bytes) : bytes :=
  if size <=? 0 then [] else take (Z.to_nat (size - 1)) txt ++ [chr_nul].

(** ** Scanning what was formatted *)

Lemma digit_val_dec d : 0 <= d < 10 → digit_val 10 (48 + d) = Some d.
Proof. intros. unfold digit_val. bool_to_prop; try lia. f_equal. lia. Qed.

Lemma digit_val_hex d : 0 <= d < 16 → digit_val 16 (hex_digit d) = Some d.
Proof.
  intros. unfold digit_val, hex_digit. destruct (Z.ltb_spec d 10); bool_to_prop; try lia;
    f_equal; lia.
Qed.

Lemma scan_fmt_u_aux fuel n acc :
  0 <= n < 10 ^ Z.of_nat fuel →
  scan_digits 10 0 (fmt_u_aux fuel n acc) = scan_digits 10 n acc.
Proof.
  revert n acc. induction fuel as [|fuel IH]; intros n acc Hn.
  - simpl in *. by assert (n = 0) as -> by lia.
  - cbn [fmt_u_aux]. destruct (Z.ltb_spec n 10).
    + cbn [scan_digits]. by rewrite digit_val_dec by lia.
    + rewrite Nat2Z.inj_succ, Z.pow_succ_r in Hn by lia.
      pose proof (Z.mod_pos_bound n 10 ltac:(lia)).
      rewrite IH by (split; [apply Z.div_pos|apply Z.div_lt_upper_bound]; lia).
      cbn [scan_digits]. rewrite digit_val_dec by lia.
      pose proof (Z.div_mod n 10 ltac:(lia)).
      by replace (n / 10 * 10 + n mod 10) with n by lia.
Qed.

Lemma fmt_u_aux_head fuel n acc :
  0 <= n → (0 < fuel)%nat →
  ∃ d rest, fmt_u_aux fuel n acc = (48 + d) :: rest ∧ 0 <= d < 10.
Proof.
  revert n acc. induction fuel as [|fuel IH]; intros n acc Hn Hf; [lia|].
  cbn [fmt_u_aux]. destruct (Z.ltb_spec n 10); [by exists n, acc|].
  destruct fuel as [|fuel].
  - exists (n mod 10), acc. split; [done|]. apply Z.mod_pos_bound. lia.
  - apply IH; [apply Z.div_pos|]; lia.
Qed.

Lemma fmt_u_aux_app fuel n acc rest :
  fmt_u_aux fuel n acc ++ rest = fmt_u_aux fuel n (acc ++ rest).
Proof.
  revert n acc. induction fuel as [|fuel IH]; intros n acc; [done|].
  cbn [fmt_u_aux]. destruct (n <? 10); [done|]. by rewrite IH.
Qed.

Lemma skip_0x_10 s : skip_0x 10 s = s.
Proof.
  unfold skip_0x. destruct s as [|c [|x s]]; [done| |];
    (destruct c as [|p|p]; [done| |done]);
    repeat (destruct p as [p|p|]; try done).
Qed.

Lemma digit_not_space_sign c d :
  digit_val 16 c = Some d → isspace c = false ∧ c ≠ chr_minus ∧ c ≠ chr_plus.
Proof.
  unfold digit_val, isspace, chr_minus, chr_plus. intros E.
  destruct (Z.eqb_spec c 32); [subst; done|].
  destruct (Z.leb_spec 9 c), (Z.leb_spec c 13), (Z.leb_spec 48 c), (Z.leb_spec c 57),
    (Z.leb_spec 97 c), (Z.leb_spec c 122), (Z.leb_spec 65 c), (Z.leb_spec c 90);
    simpl in *; repeat split; try lia; discriminate.
Qed.

(** White space and sign are skipped over when the text starts with a digit. *)
Lemma strtol_digit base c s d :
  digit_val 16 c = Some d →
  strtol (c :: s) base
  = match skip_0x base (c :: s) with
    | [] => None
    | s' => if is_digit base (head s') then
              '(v, ep) ← scan_digits base 0 s';
              Some (Z.max LONG_MIN (Z.min LONG_MAX v), ep)
            else Some (0, c :: s)
    end.
Proof.
  intros Hd. destruct (digit_not_space_sign c d Hd) as (Hs&Hm&Hp).
  unfold strtol. cbn [skip_space]. rewrite Hs. cbn [mbind option_bind scan_sign].
  apply Z.eqb_neq in Hm, Hp. rewrite Hm, Hp. cbn [mbind option_bind].
  destruct (skip_0x base (c :: s)) as [|c' s']; [done|].
  destruct (is_digit base (head (c' :: s'))); [|done].
  by destruct (scan_digits base 0 (c' :: s')) as [[v ep]|].
Qed.

Lemma digit_val_dec_hex d : 0 <= d < 10 → digit_val 16 (48 + d) = Some d.
Proof. intros. unfold digit_val. bool_to_prop; try lia. f_equal. lia. Qed.

Lemma strtol_fmt_u n c rest :
  0 <= n < 10 ^ 18 → digit_val 10 c = None →
  strtol (fmt_u n ++ c :: rest) 10 = Some (n, c :: rest).
Proof.
  intros Hn Hc. unfold fmt_u. rewrite fmt_u_aux_app. cbn [app].
  destruct (fmt_u_aux_head 20 n (c :: rest)) as (d&s&E&Hd); [lia|lia|].
  pose proof (scan_fmt_u_aux 20 n (c :: rest)) as Hs. rewrite E in *.
  rewrite (strtol_digit 10 (48 + d) s d) by (by apply digit_val_dec_hex).
  rewrite skip_0x_10. cbn [head is_digit]. rewrite digit_val_dec by done.
  rewrite Hs by (change (Z.of_nat 20) with 20; lia).
  cbn [scan_digits]. rewrite Hc. cbn [mbind option_bind].
  unfold LONG_MIN, LONG_MAX. do 2 f_equal. lia.
Qed.

Lemma hex_digit_not_x d x : 0 <= d < 16 → x = 120 ∨ x = 88 → hex_digit d ≠ x.
Proof. unfold hex_digit. destruct (Z.ltb_spec d 10); lia. Qed.

Lemma skip_0x_hex c d s : 0 <= d < 16 → skip_0x 16 (c :: hex_digit d :: s) = c :: hex_digit d :: s.
Proof.
  intros Hd. unfold skip_0x.
  assert (((hex_digit d =? 120) || (hex_digit d =? 88)) = false) as E.
  { apply orb_false_iff. rewrite !Z.eqb_neq. split; apply hex_digit_not_x; auto. }
  rewrite E. cbn [Z.eqb andb].
  destruct c as [|p|p]; [done| |done]. repeat (destruct p as [p|p|]; try done).
Qed.

Lemma strtol_fmt_02x n c rest :
  is_u8 n → digit_val 16 c = None →
  strtol (fmt_02x n ++ c :: rest) 16 = Some (n, c :: rest).
Proof.
  intros Hn Hc. unfold fmt_02x. cbn [app].
  pose proof (Z.div_mod n 16 ltac:(lia)). pose proof (Z.mod_pos_bound n 16 ltac:(lia)).
  assert (0 <= n / 16 < 16) by ulia.
  rewrite (strtol_digit 16 _ _ (n / 16)) by (by apply digit_val_hex).
  rewrite skip_0x_hex by done. cbn [head is_digit scan_digits].
  rewrite !digit_val_hex, Hc by done. cbn [mbind option_bind].
  unfold LONG_MIN, LONG_MAX. do 2 f_equal. ulia.
Qed.

(** ** Shape of formatted numbers *)

Lemma fmt_u_aux_digits fuel n acc :
  0 <= n → Forall (λ c, 48 <= c <= 57) acc → Forall (λ c, 48 <= c <= 57) (fmt_u_aux fuel n acc).
Proof.
  revert n acc. induction fuel as [|fuel IH]; intros n acc Hn Ha; [done|].
  cbn [fmt_u_aux]. destruct (Z.ltb_spec n 10).
  - constructor; [lia|done].
  - apply IH; [apply Z.div_pos; lia|]. constructor; [|done].
    pose proof (Z.mod_pos_bound n 10 ltac:(lia)). lia.
Qed.

Lemma fmt_u_digits n : 0 <= n → Forall (λ c, 48 <= c <= 57) (fmt_u n).
Proof. intros. apply fmt_u_aux_digits; [done|constructor]. Qed.

Lemma fmt_u_aux_length k fuel n acc :
  0 <= n < 10 ^ Z.of_nat k → (0 < k <= fuel)%nat →
  (length (fmt_u_aux fuel n acc) <= k + length acc)%nat.
Proof.
  revert k n acc. induction fuel as [|fuel IH]; intros k n acc Hn Hk; [lia|].
  cbn [fmt_u_aux]. destruct (Z.ltb_spec n 10); [simpl; lia|].
  destruct k as [|[|k]]; [lia|change (10 ^ Z.of_nat 1) with 10 in Hn; lia|].
  rewrite Nat2Z.inj_succ, Z.pow_succ_r in Hn by lia.
  assert (0 <= n / 10 < 10 ^ Z.of_nat (S k))
    by (split; [apply Z.div_pos|apply Z.div_lt_upper_bound]; lia).
  specialize (IH (S k) (n / 10) ((48 + n mod 10) :: acc)). simpl length in IH.
  specialize (IH ltac:(done) ltac:(lia)). lia.
Qed.

Lemma fmt_u_length k n :
  0 <= n < 10 ^ Z.of_nat k → (0 < k <= 20)%nat → (length (fmt_u n) <= k)%nat.
Proof.
  intros Hn Hk. pose proof (fmt_u_aux_length k 20 n [] Hn Hk) as H.
  by rewrite Nat.add_0_r in H.
Qed.

Lemma snprintf_fits size txt :
  zlen txt < size → snprintf size txt = txt ++ [chr_nul].
Proof.
  intros. unfold snprintf. pose proof (zlen_nonneg txt).
  destruct (Z.leb_spec size 0); [lia|]. by rewrite take_zlen by lia.
Qed.

Lemma strlen_app txt rest :
  Forall (λ c, c ≠ chr_nul) txt → strlen (txt ++ chr_nul :: rest) = Some (zlen txt).
Proof.
  induction 1 as [|c txt Hc Ht IH]; [done|].
  cbn [app strlen]. apply Z.eqb_neq in Hc. rewrite Hc, IH, zlen_cons.
  cbn [mbind option_bind]. by rewrite Z.add_comm.
Qed.

(** ** Reads stay inside a terminated string *)

Definition terminated (s : bytes) : Prop := chr_nul ∈ s.

Lemma terminated_tail c s : terminated (c :: s) → c ≠ chr_nul → terminated s.
Proof. unfold terminated. rewrite elem_of_cons. intuition congruence. Qed.

Lemma terminated_nonempty s : terminated s → ∃ c s', s = c :: s'.
Proof. destruct s; [by intros ?%elem_of_nil|eauto]. Qed.

Lemma digit_val_nul base : 0 < base → digit_val base chr_nul = None.
Proof. intros. unfold digit_val. cbn. destruct (Z.ltb_spec base base); [lia|done]. Qed.

Lemma skip_space_terminated s :
  terminated s → ∃ s', skip_space s = Some s' ∧ terminated s' ∧ s' `suffix_of` s.
Proof.
  induction s as [|c s IH]; intros Ht; [by apply elem_of_nil in Ht|].
  simpl. destruct (isspace c) eqn:E; [|by exists (c :: s)].
  destruct IH as (s'&->&Ht'&Hs).
  { apply (terminated_tail c s Ht). by intros ->. }
  exists s'. split; [done|]. split; [done|]. by apply suffix_cons_r.
Qed.

Lemma scan_digits_terminated base v s :
  0 < base → terminated s →
  ∃ v' s', scan_digits base v s = Some (v', s') ∧ terminated s' ∧ s' `suffix_of` s.
Proof.
  intros Hb. revert v. induction s as [|c s IH]; intros v Ht; [by apply elem_of_nil in Ht|].
  cbn [scan_digits]. destruct (digit_val base c) as [d|] eqn:E; [|by exists v, (c :: s)].
  destruct (IH (v * base + d)) as (v'&s'&->&Ht'&Hs).
  { apply (terminated_tail c s Ht). intros ->. by rewrite digit_val_nul in E. }
  exists v', s'. split; [done|]. split; [done|]. by apply suffix_cons_r.
Qed.

Lemma scan_sign_terminated s :
  terminated s → ∃ b s', scan_sign s = Some (b, s') ∧ terminated s' ∧ s' `suffix_of` s.
Proof.
  intros Ht. destruct (terminated_nonempty s Ht) as (c&s'&->). unfold scan_sign.
  destruct (Z.eqb_spec c chr_minus) as [->|]; [|destruct (Z.eqb_spec c chr_plus) as [->|]].
  - exists true, s'. split; [done|]. split; [by apply (terminated_tail _ _ Ht)|].
    by apply suffix_cons_r.
  - exists false, s'. split; [done|]. split; [by apply (terminated_tail _ _ Ht)|].
    by apply suffix_cons_r.
  - by exists false, (c :: s').
Qed.

Lemma skip_0x_terminated base s :
  terminated s → terminated (skip_0x base s) ∧ skip_0x base s `suffix_of` s.
Proof.
  intros Ht. unfold skip_0x.
  destruct s as [|c [|x s]]; [done|by repeat case_match|].
  destruct (decide (c = 48)) as [->|Hc].
  - destruct (_ && _) eqn:E; [|done].
    apply andb_true_iff in E as [E _]. apply andb_true_iff in E as [_ E]. split.
    + apply (terminated_tail x s); [by apply (terminated_tail 48)|].
      intros ->. done.
    + by do 2 apply suffix_cons_r.
  - by repeat case_match.
Qed.

Lemma strtol_terminated s base :
  0 < base → terminated s →
  ∃ v ep, strtol s base = Some (v, ep) ∧ terminated ep ∧ ep `suffix_of` s.
Proof.
  intros Hb Ht. unfold strtol.
  destruct (skip_space_terminated s Ht) as (s1&->&Ht1&Hs1). cbn [mbind option_bind].
  destruct (scan_sign_terminated s1 Ht1) as (neg&s2&->&Ht2&Hs2). cbn [mbind option_bind].
  destruct (skip_0x_terminated base s2 Ht2) as (Ht3&Hs3).
  destruct (terminated_nonempty _ Ht3) as (c&s3&E3). rewrite E3 in *.
  destruct (is_digit base (head (c :: s3))); [|by exists 0, s].
  destruct (scan_digits_terminated base 0 (c :: s3) Hb Ht3) as (v&ep&->&Ht4&Hs4).
  cbn [mbind option_bind]. eexists _, ep. split; [done|]. split; [done|].
  by do 3 (etrans; [done|]).
Qed.
