(* ===== verification/Log.v ===== *)
(** * Logging

    [lprintf] and [hexdump] of [src/src/util.c] and the macros of
    [src/src/util.h] that call them, as the text they write.  [None] is an
    access outside an object, or an [int] that overflows.  [HEXDUMP] is the
    macro of that name: whether the program is built with dumps of the data.

    The theorem reads a dump back. *)

From Stdlib Require Import String Ascii.
From S2P Require Import Prelude Text.

(** ** Text *)

Definition txt (s : string) : bytes := (λ c, Z.of_N (N_of_ascii c)) <$> list_ascii_of_string s.

Definition chr_newline : Z := 10.

(** A line of output. *)
Definition line (parts : list bytes) : bytes := mjoin parts ++ [chr_newline].

Fixpoint fmt_x_aux (fuel : nat) (n : Z) (acc : bytes) : bytes :=
  match fuel with
  | O => acc
  | S fuel =>
      if n <? 16 then hex_digit n :: acc
      else fmt_x_aux fuel (n / 16) (hex_digit (n mod 16) :: acc)
  end.

(** [%x] of an [unsigned int] *)
Definition fmt_x (n : Z) : bytes := fmt_x_aux 8 n [].

(** The flag [0] and a field width. *)
Definition pad0 (width : nat) (s : bytes) : bytes := replicate (width - length s) 48 ++ s.

Definition fmt_04x (n : Z) : bytes := pad0 4 (fmt_x n).
Definition fmt_08x (n : Z) : bytes := pad0 8 (fmt_x n).

(** [%03d] of a number that is not negative *)
Definition fmt_03d (n : Z) : bytes := pad0 3 (fmt_u n).

Definition isascii (c : Z) : bool := (0 <=? c) && (c <=? 127).
Definition isprint (c : Z) : bool := (32 <=? c) && (c <=? 126).

(** ** lprintf *)

(** What it writes, and its result, for a [timestamp] that [strftime] made of
    the local time; [message] is the text of [fmt] and its arguments. *)
Definition lprintf (timestamp : bytes) (tv_usec : Z) (level : Z) (file : bytes) (line : Z)
    (func message : bytes) : bytes * Z :=
  let head := timestamp ++ txt "." ++ fmt_03d (tv_usec / 1000) ++ txt " [" ++ [level] ++ txt "] "
    ++ func ++ txt ": " in
  let n := 0 + zlen head in
  let n := n + zlen message in
  let tail := txt " (" ++ file ++ txt ":" ++ fmt_d line ++ txt ")" ++ [chr_newline] in
  let n := n + zlen tail in
  (head ++ message ++ tail, n).

Definition errorf (timestamp : bytes) (tv_usec : Z) (file : bytes) (line : Z) (func message : bytes) :=
  lprintf timestamp tv_usec 69 file line func message.
Definition warnf (timestamp : bytes) (tv_usec : Z) (file : bytes) (line : Z) (func message : bytes) :=
  lprintf timestamp tv_usec 87 file line func message.
Definition infof (timestamp : bytes) (tv_usec : Z) (file : bytes) (line : Z) (func message : bytes) :=
  lprintf timestamp tv_usec 73 file line func message.
Definition debugf (timestamp : bytes) (tv_usec : Z) (file : bytes) (line : Z) (func message : bytes) :=
  lprintf timestamp tv_usec 68 file line func message.

(** ** hexdump *)

Definition INT_MAX : Z := 2147483647.

(** A [size_t] converted to [int] *)
Definition to_int (n : Z) : Z := if u32 n <=? INT_MAX then u32 n else u32 n - 4294967296.

Definition hexdump_border : bytes :=
  txt "+------+-------------------------------------------------+------------------+" ++ [chr_newline].

(** The cells of a row, in hexadecimal and as a character. *)
Definition hexdump_hex (data : bytes) (size offset index : Z) : option bytes :=
  if offset + index <? size then
    c ← data !! Z.to_nat (offset + index);
    Some (fmt_02x (Z.land 0xff c) ++ txt " ")
  else Some (txt "   ").

Definition hexdump_char (data : bytes) (size offset index : Z) : option bytes :=
  if offset + index <? size then
    c ← data !! Z.to_nat (offset + index);
    Some (if isascii c && isprint c then [c] else txt ".")
  else Some (txt " ").

(** One of the two inner loops: the cells of sixteen indices. *)
Definition hexdump_cells (cell : Z → option bytes) : option bytes :=
  cells ← mapM cell (seqZ 0 16);
  Some (mjoin cells).

Definition hexdump_row (data : bytes) (size offset : Z) : option bytes :=
  hex ← hexdump_cells (hexdump_hex data size offset);
  chars ← hexdump_cells (hexdump_char data size offset);
  Some (txt "| " ++ fmt_04x offset ++ txt " | " ++ hex ++ txt "| " ++ chars ++ txt " |" ++ [chr_newline]).

(** The loop on [offset]. *)
Fixpoint hexdump_rows (fuel : nat) (data : bytes) (size offset : Z) : option bytes :=
  if offset <? size then
    match fuel with
    | O => None
    | S fuel =>
        row ← hexdump_row data size offset;
        if INT_MAX <? offset + 16 then None
        else rows ← hexdump_rows fuel data size (offset + 16); Some (row ++ rows)
    end
  else Some [].

Definition hexdump (data : bytes) (size : Z) : option bytes :=
  rows ← hexdump_rows (S (Z.to_nat (to_int size / 16))) data (to_int size) 0;
  Some (hexdump_border ++ rows ++ hexdump_border).

Definition debugdump (HEXDUMP : bool) (data : bytes) (size : Z) : option bytes :=
  if HEXDUMP then hexdump data size else Some [].

(** ** Reading a dump *)

(** The bytes of up to [n] cells of a row; an empty cell ends them. *)
Fixpoint read_cells (n : nat) (s : bytes) : bytes :=
  match n, s with
  | S n, a :: b :: _ :: s =>
      match digit_val 16 a, digit_val 16 b with
      | Some a, Some b => (a * 16 + b) :: read_cells n s
      | _, _ => []
      end
  | _, _ => []
  end.

(** Rows of 78 characters, up to the lower border; a dump of 64 KiB has 4096. *)
Fixpoint read_rows (n : nat) (s : bytes) : bytes :=
  match n, s with
  | S n, 124 :: _ => read_cells 16 (drop 9 s) ++ read_rows n (drop 78 s)
  | _, _ => []
  end.

Definition read_dump (s : bytes) : bytes := read_rows (Z.to_nat 4097) (drop 78 s).

(** What a row shows: the bytes from [offset] on, as far as they go. *)
Definition hexdump_chunk (data : bytes) (size offset : Z) : bytes :=
  take 16 (drop (Z.to_nat offset) (take (Z.to_nat size) data)).

Definition hex_cell (c : option Z) : bytes :=
  match c with Some c => fmt_02x c ++ txt " " | None => txt "   " end.

Definition char_cell (c : option Z) : bytes :=
  match c with Some c => if isascii c && isprint c then [c] else txt "." | None => txt " " end.

Lemma mapM_total {A B} (f : A → option B) (g : A → B) l :
  (∀ x, x ∈ l → f x = Some (g x)) → mapM f l = Some (g <$> l).
Proof.
  induction l as [|x l IH]; intros Hf; [done|]. cbn.
  rewrite Hf by apply list_elem_of_here. cbn. rewrite IH; [done|].
  intros y Hy. apply Hf. by apply list_elem_of_further.
Qed.

Lemma chunk_lookup data size offset (k : nat) :
  0 <= offset → (k < 16)%nat →
  hexdump_chunk data size offset !! k
  = if offset + Z.of_nat k <? size then data !! Z.to_nat (offset + Z.of_nat k) else None.
Proof.
  intros Ho Hk. unfold hexdump_chunk. rewrite lookup_take_lt, lookup_drop by done.
  replace (Z.to_nat offset + k)%nat with (Z.to_nat (offset + Z.of_nat k)) by lia.
  destruct (Z.ltb_spec (offset + Z.of_nat k) size); [by rewrite lookup_take_lt by lia|].
  apply lookup_take_ge. lia.
Qed.

Section Row.
Context (data : bytes) (size offset : Z).
Hypothesis (Hdata : bytes_ok data) (Hsize : size <= zlen data) (Hoff : 0 <= offset).

Lemma cells_eq (cell : Z → option bytes) (show : option Z → bytes) :
  (∀ k : nat, (k < 16)%nat → cell (Z.of_nat k) = Some (show (hexdump_chunk data size offset !! k))) →
  hexdump_cells cell
  = Some (mjoin ((λ k, show (hexdump_chunk data size offset !! k)) <$> seq 0 16)).
Proof.
  intros Hc. unfold hexdump_cells. change (seqZ 0 16) with (Z.of_nat <$> seq 0 16).
  rewrite (mapM_total _ (λ z, show (hexdump_chunk data size offset !! Z.to_nat z))).
  - done.
  - intros z (k&->&Hk%elem_of_seq)%list_elem_of_fmap. rewrite Nat2Z.id. apply Hc. lia.
Qed.

Lemma cell_lookup (k : nat) :
  offset + Z.of_nat k < size → ∃ c, data !! Z.to_nat (offset + Z.of_nat k) = Some c ∧ is_u8 c.
Proof.
  intros Hlt. destruct (lookup_lt_is_Some_2 data (Z.to_nat (offset + Z.of_nat k))) as [c Hc].
  { unfold zlen in Hsize. lia. }
  exists c. split; [done|]. by eapply Forall_lookup_1.
Qed.

Lemma hex_cells :
  hexdump_cells (hexdump_hex data size offset)
  = Some (mjoin ((λ k, hex_cell (hexdump_chunk data size offset !! k)) <$> seq 0 16)).
Proof.
  apply cells_eq. intros k Hk. unfold hexdump_hex. rewrite chunk_lookup by done.
  destruct (Z.ltb_spec (offset + Z.of_nat k) size) as [Hlt|]; [|done].
  destruct (cell_lookup k Hlt) as (c&->&Hc). cbn [mbind option_bind hex_cell].
  rewrite Z.land_comm. change 0xff with (Z.ones 8). rewrite Z.land_ones by lia.
  rewrite Z.mod_small by ulia. done.
Qed.

Lemma char_cells :
  hexdump_cells (hexdump_char data size offset)
  = Some (mjoin ((λ k, char_cell (hexdump_chunk data size offset !! k)) <$> seq 0 16)).
Proof.
  apply cells_eq. intros k Hk. unfold hexdump_char. rewrite chunk_lookup by done.
  destruct (Z.ltb_spec (offset + Z.of_nat k) size) as [Hlt|]; [|done].
  by destruct (cell_lookup k Hlt) as (c&->&Hc).
Qed.

Lemma hexdump_row_eq :
  ∃ hex chars, hexdump_row data size offset
    = Some (txt "| " ++ fmt_04x offset ++ txt " | " ++ hex ++ txt "| " ++ chars ++ txt " |" ++ [chr_newline])
  ∧ hex = mjoin ((λ k, hex_cell (hexdump_chunk data size offset !! k)) <$> seq 0 16)
  ∧ length chars = 16%nat.
Proof.
  unfold hexdump_row. rewrite hex_cells, char_cells. do 2 eexists. split; [done|]. split; [done|].
  generalize (hexdump_chunk data size offset) as chunk. intros chunk.
  assert (∀ o, length (char_cell o) = 1%nat) as H1 by (intros [c|]; [|done]; cbn; by destruct (_ && _)).
  cbn [seq fmap list_fmap mjoin list_join]. rewrite !length_app, !H1. done.
Qed.
End Row.

(** *** The reader *)

Lemma read_hex_cell c s n :
  is_u8 c → read_cells (S n) (hex_cell (Some c) ++ s) = c :: read_cells n s.
Proof.
  intros Hc. cbn. rewrite !digit_val_hex by mlia. f_equal. mlia.
Qed.

Lemma read_hex_cells chunk k n s :
  bytes_ok chunk → read_cells n (mjoin ((λ k, hex_cell (chunk !! k)) <$> seq k n) ++ s) = take n (drop k chunk).
Proof.
  intros Hok. revert k. induction n as [|n IH]; intros k; [by rewrite take_0|].
  cbn [seq fmap list_fmap mjoin list_join]. rewrite <- app_assoc.
  destruct (chunk !! k) as [c|] eqn:E.
  - rewrite read_hex_cell by (by eapply Forall_lookup_1). rewrite IH.
    by rewrite (drop_S _ _ _ E).
  - rewrite drop_ge by (by apply lookup_ge_None_1). done.
Qed.

Lemma length_hex_cells (chunk : bytes) k n :
  length (mjoin ((λ k, hex_cell (chunk !! k)) <$> seq k n)) = (3 * n)%nat.
Proof.
  revert k. induction n as [|n IH]; intros k; [done|]. cbn [seq fmap list_fmap mjoin list_join].
  rewrite length_app, IH. destruct (chunk !! k); cbn; lia.
Qed.

Lemma length_fmt_04x n : 0 <= n < 65536 → length (fmt_04x n) = 4%nat.
Proof.
  intros Hn. unfold fmt_04x, pad0. rewrite length_app, length_replicate.
  enough (length (fmt_x n) <= 4)%nat by lia. unfold fmt_x. cbn.
  destruct (Z.ltb_spec n 16); cbn; [lia|]. destruct (Z.ltb_spec (n / 16) 16); cbn; [lia|].
  destruct (Z.ltb_spec (n / 16 / 16) 16); cbn; [lia|].
  destruct (Z.ltb_spec (n / 16 / 16 / 16) 16); cbn; [lia|]. mlia.
Qed.

(** A row is 78 characters, starts with a bar and shows its bytes. *)
Lemma hexdump_row_read data size offset :
  bytes_ok data → size <= zlen data → 0 <= offset < 65536 →
  ∃ row, hexdump_row data size offset = Some (124 :: row) ∧ length row = 77%nat
    ∧ ∀ s, read_cells 16 (drop 9 ((124 :: row) ++ s)) = hexdump_chunk data size offset.
Proof.
  intros Hok Hs Ho. destruct (hexdump_row_eq data size offset) as (hex&chars&->&->&Hc); [done|done|lia|].
  pose proof (length_fmt_04x offset Ho) as Hf. destruct (fmt_04x offset) as [|a[|b[|c[|d[|]]]]]; try done.
  set (hex := mjoin _). assert (length hex = 48%nat) as Hh by apply length_hex_cells.
  exists (32 :: [a; b; c; d] ++ txt " | " ++ hex ++ txt "| " ++ chars ++ txt " |" ++ [chr_newline]).
  split; [done|]. split.
  - cbn [length]. rewrite !length_app, Hh, Hc. done.
  - intros s. set (rest := txt "| " ++ chars ++ txt " |" ++ [chr_newline] ++ s).
    replace (drop 9 _) with (hex ++ rest).
    2:{ unfold rest. rewrite !app_comm_cons, <- !app_assoc. done. }
    unfold hex. rewrite read_hex_cells by (unfold hexdump_chunk; auto with stack).
    rewrite drop_0. unfold hexdump_chunk. by rewrite take_take.
Qed.

Lemma hexdump_rows_read data size offset fuel n s :
  bytes_ok data → size <= zlen data → size <= 65536 → 0 <= offset → offset mod 16 = 0 →
  (Z.to_nat ((size - offset + 15) / 16) <= fuel)%nat → (Z.to_nat ((size - offset + 15) / 16) < n)%nat →
  ∃ rows, hexdump_rows fuel data size offset = Some rows
    ∧ read_rows n (rows ++ 43 :: s) = drop (Z.to_nat offset) (take (Z.to_nat size) data).
Proof.
  intros Hok Hs Hmax. revert offset n. induction fuel as [|fuel IH]; intros offset n Ho Hm Hf Hn.
  - assert (size <= offset) by mlia. exists []. cbn. bool_to_prop; [lia|]. split; [done|].
    rewrite drop_ge by (rewrite length_take; lia). by destruct n.
  - cbn [hexdump_rows]. destruct (Z.ltb_spec offset size) as [Hlt|Hge].
    2:{ exists []. split; [done|]. rewrite drop_ge by (rewrite length_take; lia). by destruct n. }
    destruct (hexdump_row_read data size offset) as (row&->&Hl&Hr); [done|done|lia|].
    destruct n as [|n]; [lia|]. destruct (IH (offset + 16) n) as (rows&Er&Hrows); [mlia..|].
    cbn [mbind option_bind].
    rewrite (proj2 (Z.ltb_ge INT_MAX (offset + 16))), Er by (unfold INT_MAX; lia). cbn [mbind option_bind].
    eexists. split; [done|]. cbn [app read_rows]. rewrite <- app_assoc.
    change (124 :: row ++ rows ++ 43 :: s) with ((124 :: row) ++ rows ++ 43 :: s).
    rewrite Hr, drop_app_length' by (cbn; lia). rewrite Hrows. unfold hexdump_chunk.
    replace (Z.to_nat (offset + 16)) with (Z.to_nat offset + 16)%nat by lia.
    rewrite <- drop_drop. by rewrite take_drop.
Qed.

Lemma hexdump_shown data size :
  bytes_ok data → 0 <= size <= zlen data → size <= 65536 →
  ∃ text, hexdump data size = Some text ∧ read_dump text = take (Z.to_nat size) data.
Proof.
  intros Hok Hs Hmax. unfold hexdump.
  assert (to_int size = size) as -> by (unfold to_int, INT_MAX; rewrite u32_small by ulia; bool_to_prop; lia).
  destruct (hexdump_rows_read data size 0 (S (Z.to_nat (size / 16))) (Z.to_nat 4097) (tail hexdump_border))
    as (rows&->&Hr); [done|lia|done|done|done|mlia|mlia|].
  cbn [mbind option_bind]. eexists. split; [done|]. unfold read_dump.
  rewrite drop_app_length' by done. exact Hr.
Qed.

(** A dump shows the data it was made from: [hexdump] of [size] bytes
    stays inside the data, ends, and writes a text whose hexadecimal columns
    are, read from left to right and row by row, exactly those bytes. *)
Lemma hexdump_shows data size :
  bytes_ok data → 0 <= size <= zlen data → size <= 65536 →
  ∃ text, hexdump data size = Some text ∧ read_dump text = take (Z.to_nat size) data.
Proof. apply hexdump_shown. Qed.

Lemma hexdump_shows_witness :
  ∃ text, hexdump [72; 105; 33; 0] 3 = Some text ∧ read_dump text = [72; 105; 33].
Proof. apply (hexdump_shows [72; 105; 33; 0] 3); [by repeat apply Forall_cons_2|done..]. Defined.
