(* ===== verification/Addr.v ===== *)
(** * Addresses and their text form

    [ip_addr_pton], [ip_addr_ntop], [ip_endpoint_pton], [ip_endpoint_ntop]
    of [src/src/ip.c] and [ether_addr_pton], [ether_addr_ntop] of
    [src/src/ether.c].  An [ip_addr_t] is kept in network byte order: its
    four bytes in memory are the four numbers of its dotted form.  [None]
    is an access outside an object. *)

From S2P Require Import Prelude Bytes Text.

Definition IP_ADDR_LEN : Z := 4.
Definition IP_ADDR_STR_LEN : Z := 16.
Definition IP_ENDPOINT_STR_LEN : Z := IP_ADDR_STR_LEN + 6.
Definition IP_ADDR_ANY : Z := 0x00000000.
Definition IP_ADDR_BROADCAST : Z := 0xffffffff.

Definition ETHER_ADDR_LEN : Z := 6.
Definition ETHER_ADDR_STR_LEN : Z := 18.
Definition ETHER_ADDR_ANY : bytes := [0; 0; 0; 0; 0; 0].
Definition ETHER_ADDR_BROADCAST : bytes := [255; 255; 255; 255; 255; 255].

Record ip_endpoint := IpEndpoint { ep_addr : Z; ep_port : Z }.

#[export] Instance ip_endpoint_eq_dec : EqDecision ip_endpoint.
Proof. solve_decision. Defined.

Section Addr.
Context `{Machine}.

(** The loop of [ip_addr_pton] with [k] rounds left; [n] is the memory of
    the result. *)
Fixpoint ip_addr_pton_loop (k idx : nat) (sp n : bytes) : option (Z * bytes) :=
  match k with
  | O => Some (0, n)
  | S k =>
      '(ret, ep) ← strtol sp 10;
      if (ret <? 0) || (ret >? 255) then Some (-1, n)
      else if (length ep =? length sp)%nat then Some (-1, n)
      else
        c ← head ep;
        if ((idx =? 3)%nat && negb (c =? chr_nul))
           || (negb (idx =? 3)%nat && negb (c =? chr_dot))
        then Some (-1, n)
        else ip_addr_pton_loop k (S idx) (tail ep) (<[idx := u8 ret]> n)
  end.

Definition ip_addr_pton (p n : bytes) : option (Z * bytes) := ip_addr_pton_loop 4 0 p n.

(** What is written at [p]. *)
Definition ip_addr_ntop (n size : Z) : bytes :=
  let u8s := store32 n in
  snprintf size (fmt_d (nth 0 u8s 0) ++ [chr_dot] ++ fmt_d (nth 1 u8s 0) ++ [chr_dot]
                 ++ fmt_d (nth 2 u8s 0) ++ [chr_dot] ++ fmt_d (nth 3 u8s 0)).

Definition ip_endpoint_pton (p : bytes) (n : ip_endpoint) : option (Z * ip_endpoint) :=
  sep ← strrchr p chr_colon;
  match sep with
  | None => Some (-1, n)
  | Some sep =>
      addr ← memcpy (replicate (Z.to_nat IP_ADDR_STR_LEN) 0) 0 p sep;
      '(r, a) ← ip_addr_pton addr (store32 (ep_addr n));
      a ← load32_at a;
      let n := IpEndpoint a (ep_port n) in
      if r =? -1 then Some (-1, n)
      else
        '(port, _) ← strtol (drop (Z.to_nat (sep + 1)) p) 10;
        if (port <=? 0) || (port >? 65535) then Some (-1, n)
        else Some (0, IpEndpoint a (hton16 port))
  end.

Definition ip_endpoint_ntop (n : ip_endpoint) (size : Z) : option bytes :=
  let p := ip_addr_ntop (ep_addr n) size in
  offset ← strlen p;
  Some (take (Z.to_nat offset) p
        ++ snprintf (u64 (size - offset)) (chr_colon :: fmt_d (ntoh16 (ep_port n)))).

(** The loop of [ether_addr_pton]: [index], [ep] and [n] when it ends. *)
Fixpoint ether_addr_pton_loop (k index : nat) (p ep n : bytes)
  : option (nat * bytes * bytes) :=
  match k with
  | O => Some (index, ep, n)
  | S k =>
      '(val, ep) ← strtol p 16;
      if (length ep =? length p)%nat || (val <? 0) || (val >? 0xff)
      then Some (index, ep, n)
      else if (index <? 5)%nat then
        c ← head ep;
        if negb (c =? chr_colon) then Some (index, ep, n)
        else ether_addr_pton_loop k (S index) (tail ep) ep (<[index := u8 val]> n)
      else ether_addr_pton_loop k (S index) (tail ep) ep (<[index := u8 val]> n)
  end.

(** [None] as an argument is the null pointer. *)
Definition ether_addr_pton (p n : option bytes) : option (Z * option bytes) :=
  match p, n with
  | Some p, Some n =>
      '(index, ep, n) ← ether_addr_pton_loop 6 0 p p n;
      if negb (index =? 6)%nat then Some (-1, Some n)
      else
        c ← head ep;
        if negb (c =? chr_nul) then Some (-1, Some n) else Some (0, Some n)
  | _, _ => Some (-1, n)
  end.

Definition ether_addr_ntop (n : option bytes) (size : Z) : option bytes :=
  match n with
  | None => None
  | Some n =>
      Some (snprintf size
              (fmt_02x (nth 0 n 0) ++ [chr_colon] ++ fmt_02x (nth 1 n 0) ++ [chr_colon]
               ++ fmt_02x (nth 2 n 0) ++ [chr_colon] ++ fmt_02x (nth 3 n 0) ++ [chr_colon]
               ++ fmt_02x (nth 4 n 0) ++ [chr_colon] ++ fmt_02x (nth 5 n 0)))
  end.

(** ** Round trips *)

Lemma fmt_d_nonneg n : 0 <= n → fmt_d n = fmt_u n.
Proof. intros. unfold fmt_d. by destruct (Z.ltb_spec n 0); [lia|]. Qed.

Lemma fmt_u_nonempty n : 0 <= n → (0 < length (fmt_u n))%nat.
Proof.
  intros Hn. destruct (fmt_u_aux_head 20 n [] Hn ltac:(lia)) as (d&r&E&_).
  unfold fmt_u. rewrite E. simpl. lia.
Qed.

(** One round of the loop on a formatted byte and its separator. *)
Lemma ip_addr_pton_loop_step k idx a rest n :
  is_u8 a →
  let c := if (idx =? 3)%nat then chr_nul else chr_dot in
  ip_addr_pton_loop (S k) idx (fmt_u a ++ c :: rest) n
  = ip_addr_pton_loop k (S idx) rest (<[idx := a]> n).
Proof.
  intros Ha c. cbn [ip_addr_pton_loop].
  rewrite strtol_fmt_u; [|ulia|by subst c; destruct (idx =? 3)%nat].
  cbn [mbind option_bind head tail].
  destruct (Z.ltb_spec a 0); [ulia|]. destruct (Z.gtb_spec a 255); [ulia|]. cbn [orb].
  destruct (Nat.eqb_spec (length (c :: rest)) (length (fmt_u a ++ c :: rest))) as [E|_].
  { rewrite length_app in E. pose proof (fmt_u_nonempty a). ulia. }
  rewrite u8_small by done. subst c. by destruct (idx =? 3)%nat.
Qed.

Lemma dotted_quad_length a b c d :
  is_u8 a → is_u8 b → is_u8 c → is_u8 d →
  zlen (fmt_u a ++ [chr_dot] ++ fmt_u b ++ [chr_dot] ++ fmt_u c ++ [chr_dot] ++ fmt_u d) <= 15.
Proof.
  intros. autorewrite with zlen. unfold zlen.
  pose proof (fmt_u_length 3 a ltac:(ulia) ltac:(lia)).
  pose proof (fmt_u_length 3 b ltac:(ulia) ltac:(lia)).
  pose proof (fmt_u_length 3 c ltac:(ulia) ltac:(lia)).
  pose proof (fmt_u_length 3 d ltac:(ulia) ltac:(lia)). lia.
Qed.

(** The dotted form of an address, from its bytes in memory. *)
Definition dotted (bs : bytes) : bytes :=
  fmt_u (nth 0 bs 0) ++ [chr_dot] ++ fmt_u (nth 1 bs 0) ++ [chr_dot]
  ++ fmt_u (nth 2 bs 0) ++ [chr_dot] ++ fmt_u (nth 3 bs 0).

Lemma store32_bytes v :
  ∃ a b c d, store32 v = [a; b; c; d] ∧ is_u8 a ∧ is_u8 b ∧ is_u8 c ∧ is_u8 d.
Proof.
  pose proof (store32_ok v) as Hok. pose proof (length_store32 v) as Hl.
  destruct (store32 v) as [|a [|b [|c [|d [|]]]]]; try discriminate Hl.
  unfold bytes_ok in Hok. rewrite !Forall_cons in Hok.
  exists a, b, c, d. naive_solver.
Qed.

Lemma ip_addr_ntop_dotted v size :
  15 < size → ip_addr_ntop v size = dotted (store32 v) ++ [chr_nul]
              ∧ zlen (dotted (store32 v)) <= 15.
Proof.
  intros Hs. destruct (store32_bytes v) as (a&b&c&d&E&Ha&Hb&Hc&Hd).
  unfold ip_addr_ntop, dotted. rewrite E. cbn [nth].
  rewrite !fmt_d_nonneg by ulia.
  pose proof (dotted_quad_length a b c d Ha Hb Hc Hd).
  split; [|done]. apply snprintf_fits. lia.
Qed.

Lemma ip_addr_pton_dotted v n rest :
  length n = 4%nat →
  ip_addr_pton (dotted (store32 v) ++ chr_nul :: rest) n = Some (0, store32 v).
Proof.
  intros Hn. destruct (store32_bytes v) as (a&b&c&d&E&Ha&Hb&Hc&Hd).
  unfold dotted, ip_addr_pton. rewrite E. cbn [nth].
  repeat (rewrite <- app_assoc; cbn [app]).
  rewrite (ip_addr_pton_loop_step 3 0 a), (ip_addr_pton_loop_step 2 1 b),
    (ip_addr_pton_loop_step 1 2 c), (ip_addr_pton_loop_step 0 3 d) by done.
  destruct n as [|? [|? [|? [|? [|]]]]]; try discriminate Hn. done.
Qed.

Lemma strrchr_from_skip i found txt rest ch :
  Forall (λ x, x ≠ chr_nul ∧ x ≠ ch) txt →
  strrchr_from i found (txt ++ rest) ch = strrchr_from (i + zlen txt) found rest ch.
Proof.
  revert i. induction txt as [|x txt IH]; intros i Hf.
  - cbn [app]. by rewrite zlen_nil, Z.add_0_r.
  - apply Forall_cons in Hf as [[H0 H1] Hf]. apply Z.eqb_neq in H0, H1.
    cbn [app strrchr_from]. rewrite H0, H1, IH, zlen_cons by done. f_equal. lia.
Qed.

Lemma dotted_chars bs :
  bytes_ok bs → Forall (λ x, x ≠ chr_nul ∧ x ≠ chr_colon) (dotted bs).
Proof.
  intros Hok.
  assert (Hd : ∀ k, Forall (λ x, x ≠ chr_nul ∧ x ≠ chr_colon) (fmt_u (nth k bs 0))).
  { intros k. assert (0 <= nth k bs 0) as Hn.
    { destruct (nth_in_or_default k bs 0) as [Hi|E]; [|lia].
      unfold bytes_ok in Hok. rewrite Forall_forall in Hok.
      apply list_elem_of_In in Hi. specialize (Hok _ Hi). ulia. }
    eapply Forall_impl; [by apply fmt_u_digits|].
    unfold chr_nul, chr_colon. simpl. lia. }
  unfold dotted. rewrite !Forall_app. repeat split; auto;
    repeat constructor; done.
Qed.

Lemma ip_endpoint_ntop_text e :
  is_u16 (ep_port e) →
  ip_endpoint_ntop e IP_ENDPOINT_STR_LEN
  = Some (dotted (store32 (ep_addr e)) ++ chr_colon :: fmt_u (ntoh16 (ep_port e)) ++ [chr_nul]).
Proof.
  intros Hp. unfold ip_endpoint_ntop, IP_ENDPOINT_STR_LEN, IP_ADDR_STR_LEN.
  destruct (ip_addr_ntop_dotted (ep_addr e) (16 + 6)) as [-> Hl]; [lia|].
  pose proof (dotted_chars _ (store32_ok (ep_addr e))) as Hch.
  rewrite strlen_app by (eapply Forall_impl; [exact Hch|simpl; tauto]).
  cbn [mbind option_bind]. rewrite take_app_le, take_zlen by (unfold zlen in *; lia).
  pose proof (zlen_nonneg (dotted (store32 (ep_addr e)))).
  assert (is_u16 (ntoh16 (ep_port e))) as Hr by (by apply hton16_range).
  rewrite fmt_d_nonneg, snprintf_fits by
    (try (rewrite u64_small by ulia; pose proof (fmt_u_length 5 (ntoh16 (ep_port e))
       ltac:(ulia) ltac:(lia)); rewrite zlen_cons; unfold zlen in *); ulia).
  done.
Qed.

Lemma ip_endpoint_pton_text a port n :
  is_u32 a → 0 < port <= 65535 → is_u32 (ep_addr n) →
  ip_endpoint_pton (dotted (store32 a) ++ chr_colon :: fmt_u port ++ [chr_nul]) n
  = Some (0, IpEndpoint a (hton16 port)).
Proof.
  intros Ha Hp Hn. unfold ip_endpoint_pton, strrchr.
  destruct (ip_addr_ntop_dotted a 16) as [_ Hl]; [lia|].
  pose proof (dotted_chars _ (store32_ok a)) as Hch.
  remember (dotted (store32 a)) as txt eqn:Etxt. pose proof (zlen_nonneg txt).
  rewrite strrchr_from_skip by done. cbn [strrchr_from]. rewrite Z.eqb_refl.
  change (chr_colon =? chr_nul) with false. cbv iota.
  rewrite strrchr_from_skip by
    (eapply Forall_impl; [apply fmt_u_digits; lia|unfold chr_nul, chr_colon; simpl; lia]).
  cbn [strrchr_from]. change (chr_nul =? chr_colon) with false.
  cbn [Z.eqb chr_nul mbind option_bind]. rewrite Z.add_0_l.
  rewrite memcpy_spec by
    (autorewrite with zlen; unfold IP_ADDR_STR_LEN, zlen in *;
     rewrite ?length_replicate; lia).
  cbn [mbind option_bind]. rewrite Z.add_0_l. change (Z.to_nat 0) with 0%nat.
  rewrite take_0, app_nil_l, take_app_le, take_zlen by (unfold zlen in *; lia).
  replace (drop (Z.to_nat (zlen txt)) (replicate (Z.to_nat IP_ADDR_STR_LEN) 0))
    with (chr_nul :: replicate (15 - Z.to_nat (zlen txt)) 0).
  2:{ rewrite drop_replicate. unfold IP_ADDR_STR_LEN, chr_nul.
      by replace (Z.to_nat 16 - Z.to_nat (zlen txt))%nat
        with (S (15 - Z.to_nat (zlen txt))) by lia. }
  subst txt. cbn [app]. rewrite ip_addr_pton_dotted by apply length_store32.
  cbn [mbind option_bind]. pose proof (load32_at_store32 a [] Ha) as El.
  rewrite app_nil_r in El. rewrite El. cbn [mbind option_bind].
  change (0 =? -1) with false. cbv iota.
  replace (Z.to_nat (zlen (dotted (store32 a)) + 1))
    with (S (length (dotted (store32 a)))) by (unfold zlen; lia).
  rewrite drop_app_ge, Nat.sub_succ_l, Nat.sub_diag by lia.
  rewrite skipn_cons, drop_0.
  rewrite strtol_fmt_u by (done || lia). cbn [mbind option_bind].
  destruct (Z.leb_spec port 0); [lia|]. destruct (Z.gtb_spec port 65535); [lia|]. done.
Qed.

Lemma ether_addr_pton_loop_step k index b rest ep n :
  is_u8 b → (index < 6)%nat →
  let c := if (index <? 5)%nat then chr_colon else chr_nul in
  ether_addr_pton_loop (S k) index (fmt_02x b ++ c :: rest) ep n
  = ether_addr_pton_loop k (S index) rest (c :: rest) (<[index := b]> n).
Proof.
  intros Hb Hi c. cbn [ether_addr_pton_loop].
  rewrite strtol_fmt_02x; [|done|by subst c; destruct (index <? 5)%nat].
  cbn [mbind option_bind tail]. rewrite u8_small by done.
  destruct (Nat.eqb_spec (length (c :: rest)) (length (fmt_02x b ++ c :: rest))) as [E|_].
  { simpl in E. lia. }
  destruct (Z.ltb_spec b 0); [ulia|]. destruct (Z.gtb_spec b 0xff); [ulia|]. cbn [orb].
  subst c. by destruct (index <? 5)%nat.
Qed.

(** ** Reads of [ip_addr_pton] *)

Lemma ip_addr_pton_loop_safe k idx sp n :
  terminated sp → (idx + k = 4)%nat → length n = 4%nat → bytes_ok n →
  ∃ r n', ip_addr_pton_loop k idx sp n = Some (r, n') ∧ (r = 0 ∨ r = -1)
    ∧ length n' = 4%nat ∧ bytes_ok n'.
Proof.
  revert idx sp n. induction k as [|k IH]; intros idx sp n Ht Hk Hn Hok.
  { exists 0, n. auto. }
  cbn [ip_addr_pton_loop].
  destruct (strtol_terminated sp 10 ltac:(lia) Ht) as (v&ep&->&Hte&Hsuf).
  cbn [mbind option_bind].
  destruct ((v <? 0) || (v >? 255)); [by exists (-1), n; auto|].
  destruct (_ =? _)%nat; [by exists (-1), n; auto|].
  destruct (terminated_nonempty ep Hte) as (c&s&->). cbn [head tail mbind option_bind].
  destruct ((idx =? 3)%nat && negb (c =? chr_nul)
            || negb (idx =? 3)%nat && negb (c =? chr_dot)) eqn:Ec; [by exists (-1), n; auto|].
  destruct k as [|k].
  { eexists 0, _. split; [reflexivity|]. split; [auto|].
    rewrite length_insert. split; [done|]. apply Forall_insert; [done|apply u8_range]. }
  apply IH; [|lia|by rewrite length_insert|apply Forall_insert; [done|apply u8_range]].
  apply (terminated_tail c s Hte). intros ->.
  destruct (Nat.eqb_spec idx 3); [lia|]. done.
Qed.

Lemma ether_addr_pton_loop_safe k index p ep n :
  terminated p → terminated ep → (index + k = 6)%nat → (6 <= length n)%nat → bytes_ok n →
  ∃ index' ep' n', ether_addr_pton_loop k index p ep n = Some (index', ep', n')
    ∧ terminated ep' ∧ length n' = length n ∧ bytes_ok n'.
Proof.
  revert index p ep n. induction k as [|k IH]; intros index p ep n Hp He Hk Hn Hok.
  { by exists index, ep, n. }
  cbn [ether_addr_pton_loop].
  destruct (strtol_terminated p 16 ltac:(lia) Hp) as (v&ep1&->&Ht&_). cbn [mbind option_bind].
  destruct (_ || _); [by exists index, ep1, n|].
  assert (bytes_ok (<[index := u8 v]> n)) as Hok1 by (apply Forall_insert; [done|apply u8_range]).
  assert (length (<[index := u8 v]> n) = length n) as Hn1 by apply length_insert.
  destruct (terminated_nonempty ep1 Ht) as (c&s&->). cbn [head tail mbind option_bind].
  destruct (Nat.ltb_spec index 5).
  - destruct (Z.eqb_spec c chr_colon) as [->|]; cbn [negb]; [|by eexists _, _, _].
    destruct (IH (S index) s (chr_colon :: s) (<[index := u8 v]> n)) as (i'&e'&n'&->&?&?&?);
      [by apply (terminated_tail chr_colon s)|done|lia|lia|done|].
    exists i', e', n'. by rewrite <- Hn1.
  - destruct k as [|k]; [|lia]. cbn [ether_addr_pton_loop]. by eexists _, _, _.
Qed.

(** [ether_addr_pton] is safe on terminated strings. *)
Lemma ether_addr_pton_safe p n :
  terminated p → (6 <= length n)%nat → bytes_ok n →
  ∃ r n', ether_addr_pton (Some p) (Some n) = Some (r, Some n')
    ∧ length n' = length n ∧ bytes_ok n'.
Proof.
  intros Hp Hn Hok. unfold ether_addr_pton.
  destruct (ether_addr_pton_loop_safe 6 0 p p n) as (i&e&n'&->&He&Hl&Hok'); [done..|].
  cbn [mbind option_bind]. destruct (negb _); [by eexists _, _|].
  destruct (terminated_nonempty e He) as (c&s&->). cbn [head mbind option_bind].
  destruct (negb _); by eexists _, _.
Qed.
End Addr.

(** C31. Every IPv4 address survives a trip through its text: the text
    [ip_addr_ntop] writes fits the buffer of [IP_ADDR_STR_LEN] bytes with
    its NUL, and [ip_addr_pton] accepts it and rebuilds the address, byte
    for byte in memory, on hosts of either byte order. *)
Theorem ip_addr_text_roundtrip `{Machine} (a : Z) (n rest : bytes) :
  is_u32 a → length n = 4%nat →
  zlen (ip_addr_ntop a IP_ADDR_STR_LEN) <= IP_ADDR_STR_LEN
  ∧ ip_addr_pton (ip_addr_ntop a IP_ADDR_STR_LEN ++ rest) n = Some (0, store32 a)
  ∧ load32_at (store32 a) = Some a.
Proof.
  intros Ha Hn. unfold IP_ADDR_STR_LEN.
  destruct (ip_addr_ntop_dotted a 16) as [-> Hl]; [lia|].
  split; [autorewrite with zlen; lia|]. split.
  - rewrite <- app_assoc. by apply ip_addr_pton_dotted.
  - pose proof (load32_at_store32 a [] Ha) as E. by rewrite app_nil_r in E.
Qed.

Lemma ip_addr_text_roundtrip_witness :
  zlen (@ip_addr_ntop LittleEndian 0x0246a8c0 16) <= 16
  ∧ ip_addr_pton (@ip_addr_ntop LittleEndian 0x0246a8c0 16 ++ [7]) [9; 9; 9; 9]
    = Some (0, [192; 168; 70; 2])
  ∧ @load32_at LittleEndian (@store32 LittleEndian 0x0246a8c0) = Some 0x0246a8c0.
Proof.
  apply (@ip_addr_text_roundtrip LittleEndian 0x0246a8c0 [9; 9; 9; 9] [7]); [ulia|done].
Defined.

(** [ip_addr_pton] is memory safe and total on every terminated
    string: it never reads past the NUL, never writes outside the four
    bytes of the result, and returns 0 or -1. *)
Lemma ip_addr_pton_safe (p n : bytes) :
  terminated p → length n = 4%nat → bytes_ok n →
  ∃ r n', ip_addr_pton p n = Some (r, n') ∧ (r = 0 ∨ r = -1)
    ∧ length n' = 4%nat ∧ bytes_ok n'.
Proof. intros. by apply ip_addr_pton_loop_safe. Qed.

(** Every endpoint with a non-zero port survives a trip through its
    text in a buffer of [IP_ENDPOINT_STR_LEN] bytes. *)
Lemma ip_endpoint_text_roundtrip `{Machine} (e n : ip_endpoint) :
  is_u32 (ep_addr e) → is_u16 (ep_port e) → ep_port e ≠ 0 → is_u32 (ep_addr n) →
  ∃ txt, ip_endpoint_ntop e IP_ENDPOINT_STR_LEN = Some txt
    ∧ zlen txt <= IP_ENDPOINT_STR_LEN ∧ ip_endpoint_pton txt n = Some (0, e).
Proof.
  intros Ha Hp Hz Hn. eexists. rewrite ip_endpoint_ntop_text by done. split; [done|].
  assert (is_u16 (ntoh16 (ep_port e))) as Hr by (by apply hton16_range).
  assert (ntoh16 (ep_port e) ≠ 0) as Hnz.
  { intros E. by apply Hz, ntoh16_eq_0. }
  split.
  - pose proof (fmt_u_length 5 (ntoh16 (ep_port e)) ltac:(ulia) ltac:(lia)).
    destruct (ip_addr_ntop_dotted (ep_addr e) 16) as [_ Hl]; [lia|].
    autorewrite with zlen. unfold IP_ENDPOINT_STR_LEN, IP_ADDR_STR_LEN, zlen in *. lia.
  - rewrite ip_endpoint_pton_text by (done || ulia). do 2 f_equal.
    destruct e as [a p]. simpl. f_equal. by apply hton16_ntoh16.
Qed.

Lemma ip_endpoint_text_roundtrip_witness :
  ∃ txt, @ip_endpoint_ntop LittleEndian (IpEndpoint 0x0246a8c0 0x5000) IP_ENDPOINT_STR_LEN
         = Some txt
    ∧ zlen txt <= IP_ENDPOINT_STR_LEN
    ∧ @ip_endpoint_pton LittleEndian txt (IpEndpoint 0 0)
      = Some (0, IpEndpoint 0x0246a8c0 0x5000).
Proof.
  apply (@ip_endpoint_text_roundtrip LittleEndian (IpEndpoint 0x0246a8c0 0x5000)
           (IpEndpoint 0 0)); simpl; ulia.
Defined.

(** Every Ethernet address survives a trip through its text in a
    buffer of [ETHER_ADDR_STR_LEN] bytes. *)
Lemma ether_addr_text_roundtrip (ha n : bytes) :
  bytes_ok ha → length ha = 6%nat → length n = 6%nat →
  ∃ txt, ether_addr_ntop (Some ha) ETHER_ADDR_STR_LEN = Some txt
    ∧ zlen txt <= ETHER_ADDR_STR_LEN
    ∧ ether_addr_pton (Some txt) (Some n) = Some (0, Some ha).
Proof.
  intros Hok Hh Hn.
  destruct ha as [|a [|b [|c [|d [|e [|f [|]]]]]]]; try discriminate Hh.
  unfold bytes_ok in Hok. rewrite !Forall_cons in Hok. destruct_and! Hok.
  unfold ether_addr_ntop, ETHER_ADDR_STR_LEN. cbn [nth].
  rewrite snprintf_fits by (autorewrite with zlen; unfold zlen; simpl; lia).
  eexists. split; [done|]. split; [autorewrite with zlen; unfold zlen; simpl; lia|].
  unfold ether_addr_pton. repeat (rewrite <- app_assoc; cbn [app]).
  rewrite (ether_addr_pton_loop_step 5 0 a), (ether_addr_pton_loop_step 4 1 b),
    (ether_addr_pton_loop_step 3 2 c), (ether_addr_pton_loop_step 2 3 d),
    (ether_addr_pton_loop_step 1 4 e), (ether_addr_pton_loop_step 0 5 f) by (done || lia).
  destruct n as [|? [|? [|? [|? [|? [|? [|]]]]]]]; try discriminate Hn. done.
Qed.

Lemma ether_addr_text_roundtrip_witness :
  ∃ txt, ether_addr_ntop (Some [0; 0; 0x5e; 0; 0x53; 1]) ETHER_ADDR_STR_LEN = Some txt
    ∧ zlen txt <= ETHER_ADDR_STR_LEN
    ∧ ether_addr_pton (Some txt) (Some (replicate 6 0)) = Some (0, Some [0; 0; 0x5e; 0; 0x53; 1]).
Proof.
  apply (ether_addr_text_roundtrip [0; 0; 0x5e; 0; 0x53; 1] (replicate 6 0));
    [repeat constructor; ulia|done|done].
Defined.

(** C35. [ip_endpoint_pton] copies everything before the last colon into a
    buffer of [IP_ADDR_STR_LEN] bytes without a check: a terminated text
    with a longer host part writes past it. *)
Theorem ip_endpoint_pton_overflow `{Machine} (host rest : bytes) (n : ip_endpoint) :
  Forall (λ c, c ≠ chr_nul ∧ c ≠ chr_colon) host →
  Forall (λ c, c ≠ chr_nul ∧ c ≠ chr_colon) rest →
  IP_ADDR_STR_LEN < zlen host →
  ip_endpoint_pton (host ++ chr_colon :: rest ++ [chr_nul]) n = None.
Proof.
  intros Hh Hr Hl. unfold ip_endpoint_pton, strrchr.
  rewrite strrchr_from_skip by done. cbn [strrchr_from].
  change (chr_colon =? chr_colon) with true. change (chr_colon =? chr_nul) with false. cbv iota.
  rewrite strrchr_from_skip by done.
  cbn [strrchr_from]. change (chr_nul =? chr_colon) with false.
  change (chr_nul =? chr_nul) with true. cbv iota. cbn [mbind option_bind].
  destruct (memcpy _ _ _ _) as [m|] eqn:E; [|done].
  apply memcpy_Some in E as (_&_&Hle&_). unfold zlen in *.
  rewrite length_replicate in Hle. unfold IP_ADDR_STR_LEN in *. lia.
Qed.

Lemma ip_endpoint_pton_overflow_witness :
  @ip_endpoint_pton LittleEndian
    (replicate 17 49 ++ chr_colon :: [56; 48] ++ [chr_nul]) (IpEndpoint 0 0) = None.
Proof.
  apply (@ip_endpoint_pton_overflow LittleEndian (replicate 17 49) [56; 48] (IpEndpoint 0 0)).
  - apply Forall_replicate. done.
  - repeat constructor; done.
  - done.
Defined.
