(* ===== verification/Monad.v ===== *)
(** * Stateful code

    C code is a function from a state to an outcome: a value and a new
    state, or a fault, where the C program has no defined behaviour to
    continue with (an access outside an object, a null or dangling
    pointer, a lock taken twice or released while not held).  [fault]
    also has the exhaustion of a loop's fuel, so that a theorem that rules
    out faults is a termination theorem as well.

    [wp] is total correctness: no fault, and the postcondition.  [wlp] is
    its partial version, for the operations that can fault on hostile
    input.  [Keeps f m] says that [m] leaves the part [f] of the state
    alone; its instances compose along the code. *)

From S2P Require Import Prelude.

Inductive fault :=
  | FaultBounds      (** access outside an object *)
  | FaultNull        (** null or dangling pointer *)
  | FaultDeadlock    (** locking a mutex already held *)
  | FaultUnlock      (** unlocking a mutex not held *)
  | FaultFuel.       (** a loop ran out of fuel *)

Inductive outcome (S A : Type) :=
  | Done (a : A) (s : S)
  | Fault (f : fault).
Arguments Done {S A} a s.
Arguments Fault {S A} f.

Definition M (S A : Type) : Type := S → outcome S A.

Declare Scope c_scope.
Delimit Scope c_scope with c.

Section Operations.
Context {S : Type}.

Definition ret {A} (a : A) : M S A := λ s, Done a s.
Definition crash {A} (f : fault) : M S A := λ _, Fault f.
Definition gets {A} (f : S → A) : M S A := λ s, Done (f s) s.
Definition modify (f : S → S) : M S unit := λ s, Done tt (f s).

Definition bind {A B} (m : M S A) (k : A → M S B) : M S B :=
  λ s, match m s with
       | Done a s => k a s
       | Fault f => Fault f
       end.

(** A value that exists, or a fault. *)
Definition expect {A} (f : fault) (o : option A) : M S A :=
  match o with
  | Some a => ret a
  | None => crash f
  end.

(** [for (x in l) body(x)] *)
Fixpoint for_each {A} (l : list A) (body : A → M S unit) : M S unit :=
  match l with
  | [] => ret tt
  | x :: l => bind (body x) (λ _, for_each l body)
  end.

Definition wp {A} (m : M S A) (Q : A → S → Prop) (s : S) : Prop :=
  match m s with
  | Done a s => Q a s
  | Fault _ => False
  end.

Definition wlp {A} (m : M S A) (Q : A → S → Prop) (s : S) : Prop :=
  match m s with
  | Done a s => Q a s
  | Fault _ => True
  end.
End Operations.

Notation "x <- m ;; k" := (bind m (λ x, k))
  (at level 100, m at next level, right associativity,
   format "x  <-  m ;;  '//' k") : c_scope.
Notation "m ;; k" := (bind m (λ _, k))
  (at level 100, right associativity, format "m ;;  '//' k") : c_scope.
Notation "'when' b 'then' m" := (if b then m else ret tt)
  (at level 98, b at level 200, m at level 98) : c_scope.

#[global] Open Scope c_scope.

(** ** Rules *)

Section Rules.
Context {S : Type}.

Lemma wp_ret {A} (a : A) (Q : A → S → Prop) s : Q a s → wp (ret a) Q s.
Proof. done. Qed.

Lemma wp_gets {A} (f : S → A) (Q : A → S → Prop) s : Q (f s) s → wp (gets f) Q s.
Proof. done. Qed.

Lemma wp_modify f (Q : unit → S → Prop) s : Q tt (f s) → wp (modify f) Q s.
Proof. done. Qed.

Lemma wp_bind {A B} (m : M S A) (k : A → M S B) Q s :
  wp m (λ a, wp (k a) Q) s → wp (bind m k) Q s.
Proof. unfold wp, bind. by destruct (m s). Qed.

Lemma wp_bind_assoc {A B D} (m : M S A) (f : A → M S B) (g : B → M S D) Q s :
  wp (bind (bind m f) g) Q s → wp (bind m (λ a, bind (f a) g)) Q s.
Proof. unfold wp, bind. by destruct (m s). Qed.

Lemma wp_expect {A} f (o : option A) a (Q : A → S → Prop) s :
  o = Some a → Q a s → wp (expect f o) Q s.
Proof. by intros ->. Qed.

Lemma wp_mono {A} (m : M S A) (P Q : A → S → Prop) s :
  wp m P s → (∀ a s', P a s' → Q a s') → wp m Q s.
Proof. unfold wp. destruct (m s); auto. Qed.

(** A call whose result is not used. *)
Lemma wp_ignore {A} (m : M S A) (P : S → Prop) s :
  wp m (λ _, P) s → wp (bind m (λ _, ret tt)) (λ _, P) s.
Proof. intros. by apply wp_bind. Qed.

Lemma wp_and {A} (m : M S A) (P Q : A → S → Prop) s :
  wp m P s → wlp m Q s → wp m (λ a s, P a s ∧ Q a s) s.
Proof. unfold wp, wlp. destruct (m s); auto. Qed.

Lemma wp_Done {A} (m : M S A) Q s : wp m Q s → ∃ a s', m s = Done a s' ∧ Q a s'.
Proof. unfold wp. destruct (m s) as [a s'|]; [by exists a, s'|done]. Qed.

Lemma Done_wp {A} (m : M S A) (Q : A → S → Prop) s a s' :
  m s = Done a s' → Q a s' → wp m Q s.
Proof. unfold wp. by intros ->. Qed.

Lemma bind_Done {A B} (m : M S A) (k : A → M S B) s a s' :
  m s = Done a s' → bind m k s = k a s'.
Proof. unfold bind. by intros ->. Qed.

Lemma bind_Done_inv {A B} (m : M S A) (k : A → M S B) s b s' :
  bind m k s = Done b s' → ∃ a s1, m s = Done a s1 ∧ k a s1 = Done b s'.
Proof. unfold bind. destruct (m s) as [a s1|]; [by exists a, s1|done]. Qed.

Lemma wlp_ret {A} (a : A) (Q : A → S → Prop) s : Q a s → wlp (ret a) Q s.
Proof. done. Qed.

Lemma wlp_crash {A} f (Q : A → S → Prop) s : wlp (crash f) Q s.
Proof. done. Qed.

Lemma wlp_bind {A B} (m : M S A) (k : A → M S B) Q s :
  wlp m (λ a, wlp (k a) Q) s → wlp (bind m k) Q s.
Proof. unfold wlp, bind. by destruct (m s). Qed.

Lemma wlp_mono {A} (m : M S A) (P Q : A → S → Prop) s :
  wlp m P s → (∀ a s', P a s' → Q a s') → wlp m Q s.
Proof. unfold wlp. destruct (m s); auto. Qed.

Lemma wlp_expect {A} f (o : option A) (Q : A → S → Prop) s :
  (∀ a, o = Some a → Q a s) → wlp (expect f o) Q s.
Proof. intros. destruct o; [by apply wlp_ret; auto|done]. Qed.

Lemma for_each_app {A} (l1 l2 : list A) (body : A → M S unit) s :
  for_each (l1 ++ l2) body s = bind (for_each l1 body) (λ _, for_each l2 body) s.
Proof.
  revert s. induction l1 as [|x l1 IH]; intros s; [done|]. cbn [app for_each]. unfold bind in *.
  by destruct (body x s) as [[] s'|].
Qed.

(** A loop keeps what its body keeps. *)
Lemma wp_for_each {A} (I : S → Prop) (l : list A) (body : A → M S unit) s :
  (∀ x s, x ∈ l → I s → wp (body x) (λ _, I) s) → I s → wp (for_each l body) (λ _, I) s.
Proof.
  revert s. induction l as [|x l IH]; intros s Hb HI; simpl; [done|].
  apply wp_bind. eapply wp_mono; [by apply Hb; [left|]|].
  intros [] s' HI'. apply IH; [|done]. intros y s'' Hy. apply Hb. by right.
Qed.

Lemma wlp_for_each {A} (I : S → Prop) (l : list A) (body : A → M S unit) s :
  (∀ x s, x ∈ l → I s → wlp (body x) (λ _, I) s) → I s → wlp (for_each l body) (λ _, I) s.
Proof.
  revert s. induction l as [|x l IH]; intros s Hb HI; simpl; [done|].
  apply wlp_bind. eapply wlp_mono; [by apply Hb; [left|]|].
  intros [] s' HI'. apply IH; [|done]. intros y s'' Hy. apply Hb. by right.
Qed.
End Rules.

(** ** What code leaves alone *)

Class Keeps {S A B} (f : S → B) (m : M S A) : Prop :=
  keeps : ∀ s a s', m s = Done a s' → f s' = f s.

Section Keeps.
Context {S B : Type} (f : S → B).

#[export] Instance keeps_ret {A} (a : A) : Keeps f (ret a).
Proof. by intros s a' s' [= _ <-]. Qed.

#[export] Instance keeps_crash {A} e : Keeps f (crash (A := A) e).
Proof. by intros s a' s'. Qed.

#[export] Instance keeps_gets {A} (g : S → A) : Keeps f (gets g).
Proof. by intros s a' s' [= _ <-]. Qed.

#[export] Instance keeps_expect {A} e (o : option A) : Keeps f (expect e o).
Proof. destruct o; apply _. Qed.

#[export] Instance keeps_bind {A C} (m : M S A) (k : A → M S C) :
  Keeps f m → (∀ a, Keeps f (k a)) → Keeps f (bind m k).
Proof.
  intros Hm Hk s c s' (a&s1&E1&E2)%bind_Done_inv.
  rewrite (Hk _ _ _ _ E2). by apply (Hm _ _ _ E1).
Qed.

#[export] Instance keeps_if {A} (b : bool) (m1 m2 : M S A) :
  Keeps f m1 → Keeps f m2 → Keeps f (if b then m1 else m2).
Proof. by destruct b. Qed.

#[export] Instance keeps_option {A C} (o : option C) (k : C → M S A) (m : M S A) :
  (∀ c, Keeps f (k c)) → Keeps f m →
  Keeps f (match o with Some c => k c | None => m end).
Proof. by destruct o. Qed.

#[export] Instance keeps_for_each {A} (l : list A) (body : A → M S unit) :
  (∀ x, Keeps f (body x)) → Keeps f (for_each l body).
Proof. intros. induction l; apply _. Qed.

Lemma keeps_modify g : (∀ s, f (g s) = f s) → Keeps f (modify g).
Proof. by intros H s a' s' [= _ <-]. Qed.

Lemma keeps_wlp {A} (m : M S A) s : Keeps f m → wlp m (λ _ s', f s' = f s) s.
Proof. intros Hk. unfold wlp. destruct (m s) as [a s'|] eqn:E; [by apply (Hk _ _ _ E)|done]. Qed.
End Keeps.

#[export] Hint Extern 5 (Keeps _ (modify _)) =>
  (apply keeps_modify; intros; reflexivity) : typeclass_instances.
