(* ===== verification/State.v ===== *)
(** * The data of the stack

    The structures of the headers and source files and their static
    variables, as one state: a record per C structure with the fields of
    the source, a component of [world] per group of static variables.

    Pointers.  A [struct net_device *] is an index into [n_devs], a
    [struct ip_iface *] an index into [n_ifs]: the objects ever allocated,
    in order of allocation.  A singly linked list is the list of its
    elements from the head.  A pointer into a static array is an index
    into it.  A pointer to a function is a constructor of a type that
    lists the functions the sources register.  The [data] of a queue entry
    is stored in the entry; the linked representation of queues is in
    [Queue].

    The environment.  What the operating system and the C library return
    is a parameter: [Env] gives the result of the [k]-th call, and
    [y_calls] counts the calls made. *)

From S2P Require Import Prelude Bytes Clock Addr Monad.

(** ** platform.h *)


(** [struct sched_ctx]; [sc_broadcasts] counts the broadcasts on its condition
    variable. *)
Record sched_ctx := SchedCtx {
  sc_interrupted : Z;
  sc_wc : Z;
  sc_broadcasts : nat
}.

Definition set_sc_interrupted (v : Z) (r : sched_ctx) : sched_ctx :=
  SchedCtx v (sc_wc r) (sc_broadcasts r).
Definition set_sc_wc (v : Z) (r : sched_ctx) : sched_ctx :=
  SchedCtx (sc_interrupted r) v (sc_broadcasts r).
Definition set_sc_broadcasts (v : nat) (r : sched_ctx) : sched_ctx :=
  SchedCtx (sc_interrupted r) (sc_wc r) v.

(** The functions registered with [intr_request_irq]. *)
Inductive isr := IsrDummy | IsrLoopback | IsrEtherTap.

(** [struct irq_entry] of intr.c *)
Record irq_entry := IrqEntry {
  ie_irq : Z;
  ie_handler : isr;
  ie_flags : Z;
  ie_name : bytes;
  ie_dev : nat
}.

(** The mutexes of the program. *)
Inductive mutex := MutexIpId | MutexArp | MutexUdp | MutexTcp | MutexLoopback (dev : nat).

#[export] Instance mutex_eq_dec : EqDecision mutex.
Proof. solve_decision. Defined.

(** The platform: calls made to the environment, mutexes held, signals sent
    with [pthread_kill(tid, .)] in order, whether the interrupt thread runs
    ([tid] is not the initial thread), registered IRQs, the signal mask, the
    frames that wait to be read from the devices' file descriptors, and the
    frames written to them. *)
Record sys_state := SysState {
  y_calls : nat;
  y_locked : list mutex;
  y_raised : list Z;
  y_thread : bool;
  y_irqs : list irq_entry;
  y_sigmask : list Z;
  y_rx : list (nat * bytes);
  y_wire : list (nat * bytes)
}.

Definition set_y_calls (v : nat) (r : sys_state) : sys_state :=
  SysState v (y_locked r) (y_raised r) (y_thread r) (y_irqs r) (y_sigmask r) (y_rx r)
    (y_wire r).
Definition set_y_locked (v : list mutex) (r : sys_state) : sys_state :=
  SysState (y_calls r) v (y_raised r) (y_thread r) (y_irqs r) (y_sigmask r) (y_rx r)
    (y_wire r).
Definition set_y_raised (v : list Z) (r : sys_state) : sys_state :=
  SysState (y_calls r) (y_locked r) v (y_thread r) (y_irqs r) (y_sigmask r) (y_rx r)
    (y_wire r).
Definition set_y_thread (v : bool) (r : sys_state) : sys_state :=
  SysState (y_calls r) (y_locked r) (y_raised r) v (y_irqs r) (y_sigmask r) (y_rx r)
    (y_wire r).
Definition set_y_irqs (v : list irq_entry) (r : sys_state) : sys_state :=
  SysState (y_calls r) (y_locked r) (y_raised r) (y_thread r) v (y_sigmask r) (y_rx r)
    (y_wire r).
Definition set_y_sigmask (v : list Z) (r : sys_state) : sys_state :=
  SysState (y_calls r) (y_locked r) (y_raised r) (y_thread r) (y_irqs r) v (y_rx r)
    (y_wire r).
Definition set_y_rx (v : list (nat * bytes)) (r : sys_state) : sys_state :=
  SysState (y_calls r) (y_locked r) (y_raised r) (y_thread r) (y_irqs r) (y_sigmask r) v
    (y_wire r).
Definition set_y_wire (v : list (nat * bytes)) (r : sys_state) : sys_state :=
  SysState (y_calls r) (y_locked r) (y_raised r) (y_thread r) (y_irqs r) (y_sigmask r)
    (y_rx r) v.

(** ** net.h and net.c *)

Definition NET_DEVICE_TYPE_DUMMY : Z := 0x0000.
Definition NET_DEVICE_TYPE_LOOPBACK : Z := 0x0001.
Definition NET_DEVICE_TYPE_ETHERNET : Z := 0x0002.

Definition NET_DEVICE_FLAG_UP : Z := 0x0001.
Definition NET_DEVICE_FLAG_LOOPBACK : Z := 0x0010.
Definition NET_DEVICE_FLAG_BROADCAST : Z := 0x0020.
Definition NET_DEVICE_FLAG_NEED_ARP : Z := 0x0100.

Definition NET_DEVICE_ADDR_LEN : Z := 16.

Definition NET_PROTOCOL_TYPE_IP : Z := 0x0800.
Definition NET_PROTOCOL_TYPE_ARP : Z := 0x0806.

Definition NET_IFACE_FAMILY_IP : Z := 1.

(** The three static [struct net_device_ops]. *)
Inductive net_device_ops := OpsDummy | OpsLoopback | OpsEtherTap.

(** [struct loopback_queue_entry] *)
Record loopback_queue_entry := LoopbackQueueEntry {
  lqe_type : Z;
  lqe_len : Z;
  lqe_data : bytes
}.

(** [void *priv]: null, a [struct loopback] or a [struct ether_tap]. *)
Inductive device_priv :=
  | PrivNone
  | PrivLoopback (irq : Z) (queue : list loopback_queue_entry)
  | PrivTap (name : bytes) (fd irq : Z).

(** [struct net_device]; [d_ifaces] is the list [ifaces]. *)
Record net_device := NetDevice {
  d_ifaces : list nat;
  d_index : Z;
  d_name : bytes;
  d_type : Z;
  d_mtu : Z;
  d_flags : Z;
  d_hlen : Z;
  d_alen : Z;
  d_addr : bytes;
  d_broadcast : bytes;
  d_ops : option net_device_ops;
  d_priv : device_priv
}.

Definition set_d_ifaces (v : list nat) (r : net_device) : net_device :=
  NetDevice v (d_index r) (d_name r) (d_type r) (d_mtu r) (d_flags r) (d_hlen r) (d_alen r)
    (d_addr r) (d_broadcast r) (d_ops r) (d_priv r).
Definition set_d_index (v : Z) (r : net_device) : net_device :=
  NetDevice (d_ifaces r) v (d_name r) (d_type r) (d_mtu r) (d_flags r) (d_hlen r) (d_alen r)
    (d_addr r) (d_broadcast r) (d_ops r) (d_priv r).
Definition set_d_name (v : bytes) (r : net_device) : net_device :=
  NetDevice (d_ifaces r) (d_index r) v (d_type r) (d_mtu r) (d_flags r) (d_hlen r)
    (d_alen r) (d_addr r) (d_broadcast r) (d_ops r) (d_priv r).
Definition set_d_type (v : Z) (r : net_device) : net_device :=
  NetDevice (d_ifaces r) (d_index r) (d_name r) v (d_mtu r) (d_flags r) (d_hlen r)
    (d_alen r) (d_addr r) (d_broadcast r) (d_ops r) (d_priv r).
Definition set_d_mtu (v : Z) (r : net_device) : net_device :=
  NetDevice (d_ifaces r) (d_index r) (d_name r) (d_type r) v (d_flags r) (d_hlen r)
    (d_alen r) (d_addr r) (d_broadcast r) (d_ops r) (d_priv r).
Definition set_d_flags (v : Z) (r : net_device) : net_device :=
  NetDevice (d_ifaces r) (d_index r) (d_name r) (d_type r) (d_mtu r) v (d_hlen r) (d_alen r)
    (d_addr r) (d_broadcast r) (d_ops r) (d_priv r).
Definition set_d_hlen (v : Z) (r : net_device) : net_device :=
  NetDevice (d_ifaces r) (d_index r) (d_name r) (d_type r) (d_mtu r) (d_flags r) v
    (d_alen r) (d_addr r) (d_broadcast r) (d_ops r) (d_priv r).
Definition set_d_alen (v : Z) (r : net_device) : net_device :=
  NetDevice (d_ifaces r) (d_index r) (d_name r) (d_type r) (d_mtu r) (d_flags r)
    (d_hlen r) v (d_addr r) (d_broadcast r) (d_ops r) (d_priv r).
Definition set_d_addr (v : bytes) (r : net_device) : net_device :=
  NetDevice (d_ifaces r) (d_index r) (d_name r) (d_type r) (d_mtu r) (d_flags r) (d_hlen r)
    (d_alen r) v (d_broadcast r) (d_ops r) (d_priv r).
Definition set_d_broadcast (v : bytes) (r : net_device) : net_device :=
  NetDevice (d_ifaces r) (d_index r) (d_name r) (d_type r) (d_mtu r) (d_flags r) (d_hlen r)
    (d_alen r) (d_addr r) v (d_ops r) (d_priv r).
Definition set_d_ops (v : option net_device_ops) (r : net_device) : net_device :=
  NetDevice (d_ifaces r) (d_index r) (d_name r) (d_type r) (d_mtu r) (d_flags r) (d_hlen r)
    (d_alen r) (d_addr r) (d_broadcast r) v (d_priv r).
Definition set_d_priv (v : device_priv) (r : net_device) : net_device :=
  NetDevice (d_ifaces r) (d_index r) (d_name r) (d_type r) (d_mtu r) (d_flags r) (d_hlen r)
    (d_alen r) (d_addr r) (d_broadcast r) (d_ops r) v.

(** The functions registered with [net_protocol_register]. *)
Inductive net_handler := HandlerIp | HandlerArp.

(** [struct net_protocol_queue_entry] *)
Record net_queue_entry := NetQueueEntry {
  nqe_dev : nat;
  nqe_len : Z;
  nqe_data : bytes
}.

(** [struct net_protocol] *)
Record net_protocol := NetProtocol {
  np_type : Z;
  np_queue : list net_queue_entry;
  np_handler : net_handler
}.

Definition set_np_type (v : Z) (r : net_protocol) : net_protocol :=
  NetProtocol v (np_queue r) (np_handler r).
Definition set_np_queue (v : list net_queue_entry) (r : net_protocol) : net_protocol :=
  NetProtocol (np_type r) v (np_handler r).
Definition set_np_handler (v : net_handler) (r : net_protocol) : net_protocol :=
  NetProtocol (np_type r) (np_queue r) v.

(** The functions registered with [net_timer_register] and
    [net_event_subscribe]. *)
Inductive timer_handler := TimerArp | TimerTcp.
Inductive event_handler := EventUdp | EventTcp.

(** [struct net_timer] *)
Record net_timer := NetTimer {
  nt_interval : timeval;
  nt_last : timeval;
  nt_handler : timer_handler
}.

Definition set_nt_interval (v : timeval) (r : net_timer) : net_timer :=
  NetTimer v (nt_last r) (nt_handler r).
Definition set_nt_last (v : timeval) (r : net_timer) : net_timer :=
  NetTimer (nt_interval r) v (nt_handler r).
Definition set_nt_handler (v : timer_handler) (r : net_timer) : net_timer :=
  NetTimer (nt_interval r) (nt_last r) v.

(** ** ip.h and ip.c *)

(** [struct ip_iface], with the [family] and [dev] of the [struct net_iface]
    it starts with. *)
Record ip_iface := IpIface {
  if_family : Z;
  if_dev : option nat;
  if_unicast : Z;
  if_netmask : Z;
  if_broadcast : Z
}.

Definition set_if_family (v : Z) (r : ip_iface) : ip_iface :=
  IpIface v (if_dev r) (if_unicast r) (if_netmask r) (if_broadcast r).
Definition set_if_dev (v : option nat) (r : ip_iface) : ip_iface :=
  IpIface (if_family r) v (if_unicast r) (if_netmask r) (if_broadcast r).
Definition set_if_unicast (v : Z) (r : ip_iface) : ip_iface :=
  IpIface (if_family r) (if_dev r) v (if_netmask r) (if_broadcast r).
Definition set_if_netmask (v : Z) (r : ip_iface) : ip_iface :=
  IpIface (if_family r) (if_dev r) (if_unicast r) v (if_broadcast r).
Definition set_if_broadcast (v : Z) (r : ip_iface) : ip_iface :=
  IpIface (if_family r) (if_dev r) (if_unicast r) (if_netmask r) v.

(** [struct ip_route] *)
Record ip_route := IpRoute {
  rt_network : Z;
  rt_netmask : Z;
  rt_nexthop : Z;
  rt_iface : nat
}.

(** The functions registered with [ip_protocol_register]. *)
Inductive ip_handler := HandlerIcmp | HandlerUdp | HandlerTcp.

(** [struct ip_protocol] *)
Record ip_protocol := IpProtocol {
  ip_type : Z;
  ip_handler_of : ip_handler
}.

(** Static variables of net.c ([devices], [protocols], [timers], [events], and
    [index] of net_device_register), and the objects behind the pointers. *)
Record net_state := NetState {
  n_devs : list net_device;
  n_devices : list nat;
  n_index : Z;
  n_ifs : list ip_iface;
  n_protocols : list net_protocol;
  n_timers : list net_timer;
  n_events : list event_handler
}.

Definition set_n_devs (v : list net_device) (r : net_state) : net_state :=
  NetState v (n_devices r) (n_index r) (n_ifs r) (n_protocols r) (n_timers r) (n_events r).
Definition set_n_devices (v : list nat) (r : net_state) : net_state :=
  NetState (n_devs r) v (n_index r) (n_ifs r) (n_protocols r) (n_timers r) (n_events r).
Definition set_n_index (v : Z) (r : net_state) : net_state :=
  NetState (n_devs r) (n_devices r) v (n_ifs r) (n_protocols r) (n_timers r) (n_events r).
Definition set_n_ifs (v : list ip_iface) (r : net_state) : net_state :=
  NetState (n_devs r) (n_devices r) (n_index r) v (n_protocols r) (n_timers r) (n_events r).
Definition set_n_protocols (v : list net_protocol) (r : net_state) : net_state :=
  NetState (n_devs r) (n_devices r) (n_index r) (n_ifs r) v (n_timers r) (n_events r).
Definition set_n_timers (v : list net_timer) (r : net_state) : net_state :=
  NetState (n_devs r) (n_devices r) (n_index r) (n_ifs r) (n_protocols r) v (n_events r).
Definition set_n_events (v : list event_handler) (r : net_state) : net_state :=
  NetState (n_devs r) (n_devices r) (n_index r) (n_ifs r) (n_protocols r) (n_timers r) v.

(** Static variables of ip.c: [ifaces], [protocols], [routes], and [id] of
    ip_generate_id. *)
Record ip_state := IpState {
  i_ifaces : list nat;
  i_protocols : list ip_protocol;
  i_routes : list ip_route;
  i_id : Z
}.

Definition set_i_ifaces (v : list nat) (r : ip_state) : ip_state :=
  IpState v (i_protocols r) (i_routes r) (i_id r).
Definition set_i_protocols (v : list ip_protocol) (r : ip_state) : ip_state :=
  IpState (i_ifaces r) v (i_routes r) (i_id r).
Definition set_i_routes (v : list ip_route) (r : ip_state) : ip_state :=
  IpState (i_ifaces r) (i_protocols r) v (i_id r).
Definition set_i_id (v : Z) (r : ip_state) : ip_state :=
  IpState (i_ifaces r) (i_protocols r) (i_routes r) v.

(** ** arp.c *)

(** [struct arp_cache] *)
Record arp_cache := ArpCache {
  ac_state : Z;
  ac_pa : Z;
  ac_ha : bytes;
  ac_timestamp : timeval
}.

Definition set_ac_state (v : Z) (r : arp_cache) : arp_cache :=
  ArpCache v (ac_pa r) (ac_ha r) (ac_timestamp r).
Definition set_ac_pa (v : Z) (r : arp_cache) : arp_cache :=
  ArpCache (ac_state r) v (ac_ha r) (ac_timestamp r).
Definition set_ac_ha (v : bytes) (r : arp_cache) : arp_cache :=
  ArpCache (ac_state r) (ac_pa r) v (ac_timestamp r).
Definition set_ac_timestamp (v : timeval) (r : arp_cache) : arp_cache :=
  ArpCache (ac_state r) (ac_pa r) (ac_ha r) v.

(** ** udp.c *)

(** [struct udp_queue_entry] *)
Record udp_queue_entry := UdpQueueEntry {
  uqe_foreign : ip_endpoint;
  uqe_len : Z;
  uqe_data : bytes
}.

(** [struct udp_pcb] *)
Record udp_pcb := UdpPcb {
  up_state : Z;
  up_local : ip_endpoint;
  up_queue : list udp_queue_entry;
  up_ctx : sched_ctx
}.

Definition set_up_state (v : Z) (r : udp_pcb) : udp_pcb :=
  UdpPcb v (up_local r) (up_queue r) (up_ctx r).
Definition set_up_local (v : ip_endpoint) (r : udp_pcb) : udp_pcb :=
  UdpPcb (up_state r) v (up_queue r) (up_ctx r).
Definition set_up_queue (v : list udp_queue_entry) (r : udp_pcb) : udp_pcb :=
  UdpPcb (up_state r) (up_local r) v (up_ctx r).
Definition set_up_ctx (v : sched_ctx) (r : udp_pcb) : udp_pcb :=
  UdpPcb (up_state r) (up_local r) (up_queue r) v.

(** ** tcp.c *)

(** [struct tcp_queue_entry] *)
Record tcp_queue_entry := TcpQueueEntry {
  tqe_first : timeval;
  tqe_last : timeval;
  tqe_rto : Z;
  tqe_seq : Z;
  tqe_flg : Z;
  tqe_len : Z;
  tqe_data : bytes
}.

Definition set_tqe_last (v : timeval) (r : tcp_queue_entry) : tcp_queue_entry :=
  TcpQueueEntry (tqe_first r) v (tqe_rto r) (tqe_seq r) (tqe_flg r) (tqe_len r)
    (tqe_data r).
Definition set_tqe_rto (v : Z) (r : tcp_queue_entry) : tcp_queue_entry :=
  TcpQueueEntry (tqe_first r) (tqe_last r) v (tqe_seq r) (tqe_flg r) (tqe_len r)
    (tqe_data r).

(** [struct tcp_pcb] *)
Record tcp_pcb := TcpPcb {
  tp_state : Z;
  tp_local : ip_endpoint;
  tp_foreign : ip_endpoint;
  snd_nxt : Z;
  snd_una : Z;
  snd_wnd : Z;
  snd_up : Z;
  snd_wl1 : Z;
  snd_wl2 : Z;
  tp_iss : Z;
  rcv_nxt : Z;
  rcv_wnd : Z;
  rcv_up : Z;
  tp_irs : Z;
  tp_mtu : Z;
  tp_mss : Z;
  tp_buf : bytes;
  tp_ctx : sched_ctx;
  tp_queue : list tcp_queue_entry
}.

Definition set_tp_state (v : Z) (r : tcp_pcb) : tcp_pcb :=
  TcpPcb v (tp_local r) (tp_foreign r) (snd_nxt r) (snd_una r) (snd_wnd r) (snd_up r)
    (snd_wl1 r) (snd_wl2 r) (tp_iss r) (rcv_nxt r) (rcv_wnd r) (rcv_up r) (tp_irs r)
    (tp_mtu r) (tp_mss r) (tp_buf r) (tp_ctx r) (tp_queue r).
Definition set_tp_local (v : ip_endpoint) (r : tcp_pcb) : tcp_pcb :=
  TcpPcb (tp_state r) v (tp_foreign r) (snd_nxt r) (snd_una r) (snd_wnd r) (snd_up r)
    (snd_wl1 r) (snd_wl2 r) (tp_iss r) (rcv_nxt r) (rcv_wnd r) (rcv_up r) (tp_irs r)
    (tp_mtu r) (tp_mss r) (tp_buf r) (tp_ctx r) (tp_queue r).
Definition set_tp_foreign (v : ip_endpoint) (r : tcp_pcb) : tcp_pcb :=
  TcpPcb (tp_state r) (tp_local r) v (snd_nxt r) (snd_una r) (snd_wnd r) (snd_up r)
    (snd_wl1 r) (snd_wl2 r) (tp_iss r) (rcv_nxt r) (rcv_wnd r) (rcv_up r) (tp_irs r)
    (tp_mtu r) (tp_mss r) (tp_buf r) (tp_ctx r) (tp_queue r).
Definition set_snd_nxt (v : Z) (r : tcp_pcb) : tcp_pcb :=
  TcpPcb (tp_state r) (tp_local r) (tp_foreign r) v (snd_una r) (snd_wnd r) (snd_up r)
    (snd_wl1 r) (snd_wl2 r) (tp_iss r) (rcv_nxt r) (rcv_wnd r) (rcv_up r) (tp_irs r)
    (tp_mtu r) (tp_mss r) (tp_buf r) (tp_ctx r) (tp_queue r).
Definition set_snd_una (v : Z) (r : tcp_pcb) : tcp_pcb :=
  TcpPcb (tp_state r) (tp_local r) (tp_foreign r) (snd_nxt r) v (snd_wnd r) (snd_up r)
    (snd_wl1 r) (snd_wl2 r) (tp_iss r) (rcv_nxt r) (rcv_wnd r) (rcv_up r) (tp_irs r)
    (tp_mtu r) (tp_mss r) (tp_buf r) (tp_ctx r) (tp_queue r).
Definition set_snd_wnd (v : Z) (r : tcp_pcb) : tcp_pcb :=
  TcpPcb (tp_state r) (tp_local r) (tp_foreign r) (snd_nxt r) (snd_una r) v (snd_up r)
    (snd_wl1 r) (snd_wl2 r) (tp_iss r) (rcv_nxt r) (rcv_wnd r) (rcv_up r) (tp_irs r)
    (tp_mtu r) (tp_mss r) (tp_buf r) (tp_ctx r) (tp_queue r).
Definition set_snd_up (v : Z) (r : tcp_pcb) : tcp_pcb :=
  TcpPcb (tp_state r) (tp_local r) (tp_foreign r) (snd_nxt r) (snd_una r) (snd_wnd r) v
    (snd_wl1 r) (snd_wl2 r) (tp_iss r) (rcv_nxt r) (rcv_wnd r) (rcv_up r) (tp_irs r)
    (tp_mtu r) (tp_mss r) (tp_buf r) (tp_ctx r) (tp_queue r).
Definition set_snd_wl1 (v : Z) (r : tcp_pcb) : tcp_pcb :=
  TcpPcb (tp_state r) (tp_local r) (tp_foreign r) (snd_nxt r) (snd_una r) (snd_wnd r)
    (snd_up r) v (snd_wl2 r) (tp_iss r) (rcv_nxt r) (rcv_wnd r) (rcv_up r) (tp_irs r)
    (tp_mtu r) (tp_mss r) (tp_buf r) (tp_ctx r) (tp_queue r).
Definition set_snd_wl2 (v : Z) (r : tcp_pcb) : tcp_pcb :=
  TcpPcb (tp_state r) (tp_local r) (tp_foreign r) (snd_nxt r) (snd_una r) (snd_wnd r)
    (snd_up r) (snd_wl1 r) v (tp_iss r) (rcv_nxt r) (rcv_wnd r) (rcv_up r) (tp_irs r)
    (tp_mtu r) (tp_mss r) (tp_buf r) (tp_ctx r) (tp_queue r).
Definition set_tp_iss (v : Z) (r : tcp_pcb) : tcp_pcb :=
  TcpPcb (tp_state r) (tp_local r) (tp_foreign r) (snd_nxt r) (snd_una r) (snd_wnd r)
    (snd_up r) (snd_wl1 r) (snd_wl2 r) v (rcv_nxt r) (rcv_wnd r) (rcv_up r) (tp_irs r)
    (tp_mtu r) (tp_mss r) (tp_buf r) (tp_ctx r) (tp_queue r).
Definition set_rcv_nxt (v : Z) (r : tcp_pcb) : tcp_pcb :=
  TcpPcb (tp_state r) (tp_local r) (tp_foreign r) (snd_nxt r) (snd_una r) (snd_wnd r)
    (snd_up r) (snd_wl1 r) (snd_wl2 r) (tp_iss r) v (rcv_wnd r) (rcv_up r) (tp_irs r)
    (tp_mtu r) (tp_mss r) (tp_buf r) (tp_ctx r) (tp_queue r).
Definition set_rcv_wnd (v : Z) (r : tcp_pcb) : tcp_pcb :=
  TcpPcb (tp_state r) (tp_local r) (tp_foreign r) (snd_nxt r) (snd_una r) (snd_wnd r)
    (snd_up r) (snd_wl1 r) (snd_wl2 r) (tp_iss r) (rcv_nxt r) v (rcv_up r) (tp_irs r)
    (tp_mtu r) (tp_mss r) (tp_buf r) (tp_ctx r) (tp_queue r).
Definition set_rcv_up (v : Z) (r : tcp_pcb) : tcp_pcb :=
  TcpPcb (tp_state r) (tp_local r) (tp_foreign r) (snd_nxt r) (snd_una r) (snd_wnd r)
    (snd_up r) (snd_wl1 r) (snd_wl2 r) (tp_iss r) (rcv_nxt r) (rcv_wnd r) v (tp_irs r)
    (tp_mtu r) (tp_mss r) (tp_buf r) (tp_ctx r) (tp_queue r).
Definition set_tp_irs (v : Z) (r : tcp_pcb) : tcp_pcb :=
  TcpPcb (tp_state r) (tp_local r) (tp_foreign r) (snd_nxt r) (snd_una r) (snd_wnd r)
    (snd_up r) (snd_wl1 r) (snd_wl2 r) (tp_iss r) (rcv_nxt r) (rcv_wnd r) (rcv_up r) v
    (tp_mtu r) (tp_mss r) (tp_buf r) (tp_ctx r) (tp_queue r).
Definition set_tp_mtu (v : Z) (r : tcp_pcb) : tcp_pcb :=
  TcpPcb (tp_state r) (tp_local r) (tp_foreign r) (snd_nxt r) (snd_una r) (snd_wnd r)
    (snd_up r) (snd_wl1 r) (snd_wl2 r) (tp_iss r) (rcv_nxt r) (rcv_wnd r) (rcv_up r)
    (tp_irs r) v (tp_mss r) (tp_buf r) (tp_ctx r) (tp_queue r).
Definition set_tp_mss (v : Z) (r : tcp_pcb) : tcp_pcb :=
  TcpPcb (tp_state r) (tp_local r) (tp_foreign r) (snd_nxt r) (snd_una r) (snd_wnd r)
    (snd_up r) (snd_wl1 r) (snd_wl2 r) (tp_iss r) (rcv_nxt r) (rcv_wnd r) (rcv_up r)
    (tp_irs r) (tp_mtu r) v (tp_buf r) (tp_ctx r) (tp_queue r).
Definition set_tp_buf (v : bytes) (r : tcp_pcb) : tcp_pcb :=
  TcpPcb (tp_state r) (tp_local r) (tp_foreign r) (snd_nxt r) (snd_una r) (snd_wnd r)
    (snd_up r) (snd_wl1 r) (snd_wl2 r) (tp_iss r) (rcv_nxt r) (rcv_wnd r) (rcv_up r)
    (tp_irs r) (tp_mtu r) (tp_mss r) v (tp_ctx r) (tp_queue r).
Definition set_tp_ctx (v : sched_ctx) (r : tcp_pcb) : tcp_pcb :=
  TcpPcb (tp_state r) (tp_local r) (tp_foreign r) (snd_nxt r) (snd_una r) (snd_wnd r)
    (snd_up r) (snd_wl1 r) (snd_wl2 r) (tp_iss r) (rcv_nxt r) (rcv_wnd r) (rcv_up r)
    (tp_irs r) (tp_mtu r) (tp_mss r) (tp_buf r) v (tp_queue r).
Definition set_tp_queue (v : list tcp_queue_entry) (r : tcp_pcb) : tcp_pcb :=
  TcpPcb (tp_state r) (tp_local r) (tp_foreign r) (snd_nxt r) (snd_una r) (snd_wnd r)
    (snd_up r) (snd_wl1 r) (snd_wl2 r) (tp_iss r) (rcv_nxt r) (rcv_wnd r) (rcv_up r)
    (tp_irs r) (tp_mtu r) (tp_mss r) (tp_buf r) (tp_ctx r) v.

(** ** All of it *)

Record world := World {
  w_sys : sys_state;
  w_net : net_state;
  w_ip : ip_state;
  w_arp : list arp_cache;
  w_udp : list udp_pcb;
  w_tcp : list tcp_pcb
}.

Definition set_w_sys (v : sys_state) (r : world) : world :=
  World v (w_net r) (w_ip r) (w_arp r) (w_udp r) (w_tcp r).
Definition set_w_net (v : net_state) (r : world) : world :=
  World (w_sys r) v (w_ip r) (w_arp r) (w_udp r) (w_tcp r).
Definition set_w_ip (v : ip_state) (r : world) : world :=
  World (w_sys r) (w_net r) v (w_arp r) (w_udp r) (w_tcp r).
Definition set_w_arp (v : list arp_cache) (r : world) : world :=
  World (w_sys r) (w_net r) (w_ip r) v (w_udp r) (w_tcp r).
Definition set_w_udp (v : list udp_pcb) (r : world) : world :=
  World (w_sys r) (w_net r) (w_ip r) (w_arp r) v (w_tcp r).
Definition set_w_tcp (v : list tcp_pcb) (r : world) : world :=
  World (w_sys r) (w_net r) (w_ip r) (w_arp r) (w_udp r) v.

(** Code of the stack. *)
Notation C := (M world).

(** ** Access *)

Definition sys_modify (f : sys_state → sys_state) : C unit :=
  modify (λ w, set_w_sys (f (w_sys w)) w).
Definition net_modify (f : net_state → net_state) : C unit :=
  modify (λ w, set_w_net (f (w_net w)) w).
Definition ip_modify (f : ip_state → ip_state) : C unit :=
  modify (λ w, set_w_ip (f (w_ip w)) w).

(** Dereference and update of an array element or object. *)
Definition get_dev (d : nat) : C net_device :=
  o <- gets (λ w, n_devs (w_net w) !! d);; expect FaultNull o.
Definition put_dev (d : nat) (v : net_device) : C unit :=
  net_modify (λ n, set_n_devs (<[d := v]> (n_devs n)) n).
Definition get_if (i : nat) : C ip_iface :=
  o <- gets (λ w, n_ifs (w_net w) !! i);; expect FaultNull o.
Definition put_if (i : nat) (v : ip_iface) : C unit :=
  net_modify (λ n, set_n_ifs (<[i := v]> (n_ifs n)) n).
Definition get_cache (i : nat) : C arp_cache :=
  o <- gets (λ w, w_arp w !! i);; expect FaultBounds o.
Definition put_cache (i : nat) (v : arp_cache) : C unit :=
  modify (λ w, set_w_arp (<[i := v]> (w_arp w)) w).
Definition get_udp (i : nat) : C udp_pcb :=
  o <- gets (λ w, w_udp w !! i);; expect FaultBounds o.
Definition put_udp (i : nat) (v : udp_pcb) : C unit :=
  modify (λ w, set_w_udp (<[i := v]> (w_udp w)) w).
Definition get_tcp (i : nat) : C tcp_pcb :=
  o <- gets (λ w, w_tcp w !! i);; expect FaultBounds o.
Definition put_tcp (i : nat) (v : tcp_pcb) : C unit :=
  modify (λ w, set_w_tcp (<[i := v]> (w_tcp w)) w).

(** [pcb->field = ...] *)
Definition upd_tcp (i : nat) (f : tcp_pcb → tcp_pcb) : C unit :=
  p <- get_tcp i;; put_tcp i (f p).
Definition upd_udp (i : nat) (f : udp_pcb → udp_pcb) : C unit :=
  p <- get_udp i;; put_udp i (f p).
Definition upd_dev (d : nat) (f : net_device → net_device) : C unit :=
  p <- get_dev d;; put_dev d (f p).
