(* ===== verification/Platform.v ===== *)
(** * The platform layer

    [src/src/platform/linux/platform.h], [sched.c] and the registration and
    raising of IRQs of [intr.c].  What calloc, gettimeofday, random,
    pthread_cond_destroy and the system calls return is given by [Env], and
    what their manuals promise of it by [EnvOk]. *)

From S2P Require Import Prelude Bytes Clock Monad State.

Class Env := {
  env_calloc : nat → bool;              (** whether calloc succeeds *)
  env_gettimeofday : nat → timeval;
  env_random : nat → Z;
  env_cond_destroy : nat → Z;           (** result of pthread_cond_destroy *)
  env_sys : nat → Z;                    (** result of a system call *)
  env_pthread : nat → Z;                (** result of pthread_sigmask or pthread_create *)
  env_write : nat → Z → Z;              (** result of write(2), given the number of bytes *)
  env_fails : nat → option bool;        (** whether poll(2) or read(2) fails, and whether with EINTR *)
  env_patience : nat;                   (** how many calls in a row may have a failure among two *)
  env_hwaddr : nat → bytes              (** what ioctl(SIOCGIFHWADDR) stored *)
}.

(** What the manuals say of those functions: [random] returns a value in
    [0, 2^31 - 1], [gettimeofday] a normalised time,
    [pthread_cond_destroy], [pthread_sigmask] and [pthread_create] 0 or a
    positive error number, [write] -1 or at
    most the number of bytes it was given, and a hardware address has six
    bytes.  Failures of poll and read are not permanent:
    among [env_patience + 2] calls in a row two neighbours succeed. *)
Class EnvOk `{Env} : Prop := {
  env_random_range : ∀ k, 0 <= env_random k < 2 ^ 31;
  env_time_ok : ∀ k, tv_ok (env_gettimeofday k);
  env_cond_destroy_nonneg : ∀ k, 0 <= env_cond_destroy k;
  env_pthread_nonneg : ∀ k, 0 <= env_pthread k;
  env_write_range : ∀ k n, 0 <= n → -1 <= env_write k n <= n;
  env_fails_fair : ∀ k, ∃ j, (k <= j <= k + env_patience)%nat
    ∧ env_fails j = None ∧ env_fails (S j) = None;
  env_hwaddr_ok : ∀ k, bytes_ok (env_hwaddr k) ∧ length (env_hwaddr k) = 6%nat
}.

(** Every write takes all it is given. *)
Definition writes_whole `{Env} : Prop := ∀ k n, 0 <= n → env_write k n = n.

(** No poll fails, other than by a signal that interrupts it. *)
Definition polls_succeed `{Env} : Prop := ∀ k, env_fails k ≠ Some false.

(** Memory does not run out. *)
Definition never_fails `{Env} : Prop := ∀ k, env_calloc k = true.

Lemma calloc_failed `{Env} k : env_calloc k = false → ¬ never_fails.
Proof. intros E Hn. by rewrite Hn in E. Qed.

Section Platform.
Context `{Env}.

Definition env_call {A} (f : nat → A) : C A :=
  k <- gets (λ w, y_calls (w_sys w));;
  sys_modify (λ y, set_y_calls (S (y_calls y)) y);;
  ret (f k).

(** Whether the allocation succeeded. *)
Definition memory_alloc : C bool := env_call env_calloc.
Definition gettimeofday : C timeval := env_call env_gettimeofday.
Definition random : C Z := env_call env_random.

Definition mutex_lock (m : mutex) : C unit :=
  locked <- gets (λ w, y_locked (w_sys w));;
  if bool_decide (m ∈ locked) then crash FaultDeadlock
  else sys_modify (λ y, set_y_locked (m :: y_locked y) y).

Definition mutex_unlock (m : mutex) : C unit :=
  locked <- gets (λ w, y_locked (w_sys w));;
  if bool_decide (m ∈ locked)
  then sys_modify (λ y, set_y_locked (filter (λ m', m' ≠ m) (y_locked y)) y)
  else crash FaultUnlock.

(** ** Signals *)

Definition SIGHUP : Z := 1.
Definition SIGUSR1 : Z := 10.
Definition SIGUSR2 : Z := 12.
Definition SIGALRM : Z := 14.
Definition SIGRTMIN : Z := 34.

Definition INTR_IRQ_BASE : Z := SIGRTMIN + 1.
Definition INTR_IRQ_SOFTIRQ : Z := SIGUSR1.
Definition INTR_IRQ_EVENT : Z := SIGUSR2.
Definition INTR_IRQ_SHARED : Z := 0x0001.

(** [pthread_kill(tid, irq)]; no caller looks at the result. *)
Definition intr_raise_irq (irq : Z) : C unit :=
  sys_modify (λ y, set_y_raised (y_raised y ++ [irq]) y).

(** [entry->flags ^ INTR_IRQ_SHARED || flags ^ INTR_IRQ_SHARED] for an
    entry with the same IRQ. *)
Definition irq_conflicts (irq flags : Z) (e : irq_entry) : bool :=
  (ie_irq e =? irq)
  && (nz (Z.lxor (ie_flags e) INTR_IRQ_SHARED) || nz (Z.lxor flags INTR_IRQ_SHARED)).

Definition intr_request_irq (irq : Z) (handler : isr) (flags : Z) (name : bytes) (dev : nat)
  : C Z :=
  irqs <- gets (λ w, y_irqs (w_sys w));;
  if existsb (irq_conflicts irq flags) irqs then ret (-1)
  else
    ok <- memory_alloc;;
    if negb ok then ret (-1)
    else
      sys_modify (λ y, set_y_sigmask (y_sigmask y ++ [irq])
        (set_y_irqs (IrqEntry irq handler flags (take 15 name) dev :: y_irqs y) y));;
      ret 0.

Definition intr_init : C Z :=
  sys_modify (λ y, set_y_sigmask [SIGHUP; SIGUSR1; SIGUSR2; SIGALRM]
                     (set_y_thread false y));;
  ret 0.

(** [pthread_sigmask] and [pthread_create] return 0 or an error number. *)
Definition intr_run : C Z :=
  err <- env_call env_pthread;;
  if nz err then ret (-1)
  else
    err <- env_call env_pthread;;
    if nz err then ret (-1)
    else sys_modify (set_y_thread true);; ret 0.

(** [pthread_join] waits for the end of [intr_thread]. *)
Definition intr_shutdown : C unit :=
  thread <- gets (λ w, y_thread (w_sys w));;
  if negb thread then ret tt else intr_raise_irq SIGHUP.

(** ** sched.c *)

Definition sched_ctx_init (ctx : sched_ctx) : sched_ctx := SchedCtx 0 0 (sc_broadcasts ctx).

Definition sched_ctx_destroy : C Z := env_call env_cond_destroy.

(** [sched_sleep] up to the wait on the condition variable; [None] is the
    immediate return of -1. *)
Definition sched_sleep_enter (ctx : sched_ctx) : option sched_ctx :=
  if nz (sc_interrupted ctx) then None else Some (set_sc_wc (sc_wc ctx + 1) ctx).

(** [sched_sleep] from the return of the wait, which gave [ret]. *)
Definition sched_sleep_leave (ret : Z) (ctx : sched_ctx) : Z * sched_ctx :=
  let ctx := set_sc_wc (sc_wc ctx - 1) ctx in
  if nz (sc_interrupted ctx) then
    (-1, if negb (nz (sc_wc ctx)) then set_sc_interrupted 0 ctx else ctx)
  else (ret, ctx).

Definition sched_wakeup (ctx : sched_ctx) : sched_ctx :=
  set_sc_broadcasts (S (sc_broadcasts ctx)) ctx.

Definition sched_interrupt (ctx : sched_ctx) : sched_ctx :=
  sched_wakeup (set_sc_interrupted 1 ctx).

(** A call that may wait: it returns, or it waits and [k] is what it keeps
    across the wait. *)
Inductive waits (K A : Type) :=
  | Returned (a : A)
  | Blocked (k : K).

(** ** What these operations leave alone *)

(** Everything but the platform's own state. *)
Definition above_sys (w : world) :=
  (w_net w, w_ip w, w_arp w, w_udp w, w_tcp w).

#[export] Instance sys_modify_above f : Keeps above_sys (sys_modify f).
Proof. by apply keeps_modify. Qed.

#[export] Instance env_call_above {A} (f : nat → A) : Keeps above_sys (env_call f).
Proof. unfold env_call. apply _. Qed.

#[export] Instance memory_alloc_above : Keeps above_sys memory_alloc.
Proof. apply env_call_above. Qed.

#[export] Instance gettimeofday_above : Keeps above_sys gettimeofday.
Proof. apply env_call_above. Qed.

#[export] Instance random_above : Keeps above_sys random.
Proof. apply env_call_above. Qed.

#[export] Instance sched_ctx_destroy_above : Keeps above_sys sched_ctx_destroy.
Proof. apply env_call_above. Qed.

#[export] Instance mutex_lock_above m : Keeps above_sys (mutex_lock m).
Proof. unfold mutex_lock. apply _. Qed.

#[export] Instance mutex_unlock_above m : Keeps above_sys (mutex_unlock m).
Proof. unfold mutex_unlock. apply _. Qed.

#[export] Instance intr_raise_irq_above irq : Keeps above_sys (intr_raise_irq irq).
Proof. apply sys_modify_above. Qed.

#[export] Instance intr_request_irq_above irq h flags name dev :
  Keeps above_sys (intr_request_irq irq h flags name dev).
Proof. unfold intr_request_irq. apply _. Qed.

(** ** Rules *)

Definition lock_world (l : list mutex) (w : world) : world :=
  set_w_sys (set_y_locked l (w_sys w)) w.

Definition tick_world (w : world) : world :=
  set_w_sys (set_y_calls (S (y_calls (w_sys w))) (w_sys w)) w.

Lemma wp_env_call {A} (f : nat → A) (Q : A → world → Prop) w :
  Q (f (y_calls (w_sys w))) (tick_world w) → wp (env_call f) Q w.
Proof. done. Qed.

Lemma wp_mutex_lock m (Q : unit → world → Prop) w :
  m ∉ y_locked (w_sys w) → Q tt (lock_world (m :: y_locked (w_sys w)) w) →
  wp (mutex_lock m) Q w.
Proof.
  intros Hm HQ. unfold mutex_lock, wp, bind, gets. by rewrite bool_decide_eq_false_2.
Qed.

Lemma wp_mutex_unlock m (Q : unit → world → Prop) w :
  m ∈ y_locked (w_sys w) →
  Q tt (lock_world (filter (λ m', m' ≠ m) (y_locked (w_sys w))) w) →
  wp (mutex_unlock m) Q w.
Proof.
  intros Hm HQ. unfold mutex_unlock, wp, bind, gets. by rewrite bool_decide_eq_true_2.
Qed.

(** Releasing the mutex taken last. *)
Lemma filter_unlock (m : mutex) l : m ∉ l → filter (λ m', m' ≠ m) (m :: l) = l.
Proof.
  intros Hm. rewrite filter_cons_False by (by intros ?).
  induction l as [|x l IH]; [done|]. rewrite not_elem_of_cons in Hm. destruct Hm as [Hx Hm].
  rewrite filter_cons_True by congruence. f_equal. auto.
Qed.

Lemma wp_intr_raise_irq irq (Q : unit → world → Prop) w :
  Q tt (set_w_sys (set_y_raised (y_raised (w_sys w) ++ [irq]) (w_sys w)) w) →
  wp (intr_raise_irq irq) Q w.
Proof. done. Qed.
End Platform.

Arguments Returned {K A} a.
Arguments Blocked {K A} k.

Lemma wp_get_dev d dev (Q : net_device → world → Prop) w :
  n_devs (w_net w) !! d = Some dev → Q dev w → wp (get_dev d) Q w.
Proof. intros E HQ. unfold get_dev, wp, bind, gets. by rewrite E. Qed.

Lemma wp_get_if i ifc (Q : ip_iface → world → Prop) w :
  n_ifs (w_net w) !! i = Some ifc → Q ifc w → wp (get_if i) Q w.
Proof. intros E HQ. unfold get_if, wp, bind, gets. by rewrite E. Qed.

Lemma wp_get_cache i v (Q : arp_cache → world → Prop) w :
  w_arp w !! i = Some v → Q v w → wp (get_cache i) Q w.
Proof. intros E HQ. unfold get_cache, wp, bind, gets. by rewrite E. Qed.

Lemma wp_get_udp i v (Q : udp_pcb → world → Prop) w :
  w_udp w !! i = Some v → Q v w → wp (get_udp i) Q w.
Proof. intros E HQ. unfold get_udp, wp, bind, gets. by rewrite E. Qed.

Lemma wp_get_tcp i v (Q : tcp_pcb → world → Prop) w :
  w_tcp w !! i = Some v → Q v w → wp (get_tcp i) Q w.
Proof. intros E HQ. unfold get_tcp, wp, bind, gets. by rewrite E. Qed.

Lemma wp_upd_dev d dev f (Q : unit → world → Prop) w :
  n_devs (w_net w) !! d = Some dev →
  Q tt (set_w_net (set_n_devs (<[d := f dev]> (n_devs (w_net w))) (w_net w)) w) →
  wp (upd_dev d f) Q w.
Proof. intros E HQ. unfold upd_dev. apply wp_bind. by eapply wp_get_dev. Qed.

Lemma wp_upd_udp i v f (Q : unit → world → Prop) w :
  w_udp w !! i = Some v → Q tt (set_w_udp (<[i := f v]> (w_udp w)) w) →
  wp (upd_udp i f) Q w.
Proof. intros E HQ. unfold upd_udp. apply wp_bind. by eapply wp_get_udp. Qed.

Lemma wp_upd_tcp i v f (Q : unit → world → Prop) w :
  w_tcp w !! i = Some v → Q tt (set_w_tcp (<[i := f v]> (w_tcp w)) w) →
  wp (upd_tcp i f) Q w.
Proof. intros E HQ. unfold upd_tcp. apply wp_bind. by eapply wp_get_tcp. Qed.

(** The element just written, or one known from the context. *)
Ltac lookup_step :=
  first [ eassumption
        | cbn; apply list_lookup_insert_eq; rewrite ?length_insert; eauto using lookup_lt_Some ].

(** One step of a total-correctness proof. *)
Ltac wp_step :=
  lazymatch goal with
  | |- wp (bind _ _) _ _ => apply wp_bind
  | |- wp (ret _) _ _ => apply wp_ret
  | |- wp (gets _) _ _ => apply wp_gets
  | |- wp (modify _) _ _ => apply wp_modify
  | |- wp (sys_modify _) _ _ => apply wp_modify
  | |- wp (net_modify _) _ _ => apply wp_modify
  | |- wp (ip_modify _) _ _ => apply wp_modify
  | |- wp (put_dev _ _) _ _ => apply wp_modify
  | |- wp (put_if _ _) _ _ => apply wp_modify
  | |- wp (put_cache _ _) _ _ => apply wp_modify
  | |- wp (put_udp _ _) _ _ => apply wp_modify
  | |- wp (put_tcp _ _) _ _ => apply wp_modify
  | |- wp (env_call _) _ _ => apply wp_env_call
  | |- wp memory_alloc _ _ => apply wp_env_call
  | |- wp gettimeofday _ _ => apply wp_env_call
  | |- wp random _ _ => apply wp_env_call
  | |- wp (intr_raise_irq _) _ _ => apply wp_intr_raise_irq
  | |- wp (mutex_lock _) _ _ => apply wp_mutex_lock; [try done|]
  | |- wp (mutex_unlock _) _ _ => apply wp_mutex_unlock; [try done|]
  | |- wp (get_dev _) _ _ => eapply wp_get_dev; [eassumption|]
  | |- wp (get_if _) _ _ => eapply wp_get_if; [eassumption|]
  | |- wp (get_cache _) _ _ => eapply wp_get_cache; [eassumption|]
  | |- wp (get_udp _) _ _ => eapply wp_get_udp; [lookup_step|]
  | |- wp (get_tcp _) _ _ => eapply wp_get_tcp; [lookup_step|]
  | |- wp (upd_dev _ _) _ _ => eapply wp_upd_dev; [lookup_step|]
  | |- wp (upd_udp _ _) _ _ => eapply wp_upd_udp; [lookup_step|]
  | |- wp (upd_tcp _ _) _ _ => eapply wp_upd_tcp; [lookup_step|]
  | |- wp sched_ctx_destroy _ _ => apply wp_env_call
  | |- wp (expect _ (Some _)) _ _ => apply wp_ret
  end;
  cbv beta.
