(* ===== verification/Net.v ===== *)
(** * The protocol and device registries, and the input queues

    The part of [src/src/net.c] below the drivers: registration of devices,
    interfaces, protocols, timers and events, the input queues filled by
    [net_input_handler] and drained by [net_softirq_handler], the timer and
    event loops.  The functions a table holds are run by a parameter
    [call].  Output on a device, which calls its driver, is in [Device]. *)

From S2P Require Import Prelude Bytes Clock Text Addr Monad State Platform Queue.

Section Net.
Context `{Env}.

Definition IFNAMSIZ : Z := 16.

(** What calloc returns for a [struct net_device]. *)
Definition net_device_zero : net_device :=
  NetDevice [] 0 (replicate 16 0) 0 0 0 0 0 (replicate 16 0) (replicate 16 0) None PrivNone.

Definition net_device_alloc : C (option nat) :=
  ok <- memory_alloc;;
  if negb ok then ret None
  else
    d <- gets (λ w, length (n_devs (w_net w)));;
    net_modify (λ n, set_n_devs (n_devs n ++ [net_device_zero]) n);;
    ret (Some d).

(** "net%d" *)
Definition net_name (index : Z) : bytes :=
  snprintf IFNAMSIZ ([110; 101; 116] ++ fmt_d index).

Definition net_device_register (d : nat) : C Z :=
  index <- gets (λ w, n_index (w_net w));;
  net_modify (λ n, set_n_index (u32 (index + 1)) n);;
  upd_dev d (λ dev, set_d_name (net_name index) (set_d_index index dev));;
  net_modify (λ n, set_n_devices (d :: n_devices n) n);;
  ret 0.

(** The first interface of the list with the family. *)
Fixpoint iface_find (ifaces : list nat) (family : Z) : C (option nat) :=
  match ifaces with
  | [] => ret None
  | entry :: ifaces =>
      i <- get_if entry;;
      if if_family i =? family then ret (Some entry) else iface_find ifaces family
  end.

Definition net_device_add_iface (d iface : nat) : C Z :=
  dev <- get_dev d;;
  i <- get_if iface;;
  entry <- iface_find (d_ifaces dev) (if_family i);;
  match entry with
  | Some _ => ret (-1)
  | None =>
      put_if iface (set_if_dev (Some d) i);;
      upd_dev d (λ dev, set_d_ifaces (iface :: d_ifaces dev) dev);;
      ret 0
  end.

Definition net_device_get_iface (d : nat) (family : Z) : C (option nat) :=
  dev <- get_dev d;;
  iface_find (d_ifaces dev) family.

Definition net_protocol_register (type : Z) (handler : net_handler) : C Z :=
  protocols <- gets (λ w, n_protocols (w_net w));;
  if existsb (λ p, type =? np_type p) protocols then ret (-1)
  else
    ok <- memory_alloc;;
    if negb ok then ret (-1)
    else
      net_modify (λ n, set_n_protocols (NetProtocol type [] handler :: n_protocols n) n);;
      ret 0.

Definition net_timer_register (interval : timeval) (handler : timer_handler) : C Z :=
  ok <- memory_alloc;;
  if negb ok then ret (-1)
  else
    last <- gettimeofday;;
    net_modify (λ n, set_n_timers (NetTimer interval last handler :: n_timers n) n);;
    ret 0.

(** The body of the loop of [net_timer_handler] at the [k]-th timer;
    [call] runs a handler. *)
Definition net_timer_step (call : timer_handler → C unit) (k : nat) : C unit :=
  o <- gets (λ w, n_timers (w_net w) !! k);;
  timer <- expect FaultNull o;;
  now <- gettimeofday;;
  let diff := timersub now (nt_last timer) in
  if timercmp Z.ltb (nt_interval timer) diff then
    call (nt_handler timer);;
    net_modify (λ n, set_n_timers (alter (set_nt_last now) k (n_timers n)) n)
  else ret tt.

Definition net_timer_handler (call : timer_handler → C unit) : C Z :=
  n <- gets (λ w, length (n_timers (w_net w)));;
  for_each (seq 0 n) (net_timer_step call);;
  ret 0.

(** Append to the queue of the [k]-th protocol: [queue_push], which
    allocates a cell. *)
Definition proto_queue_push (k : nat) (e : net_queue_entry) : C bool :=
  ok <- memory_alloc;;
  if negb ok then ret false
  else
    net_modify (λ n, set_n_protocols
      (alter (λ p, set_np_queue (Fifo.push (np_queue p) e) p) k (n_protocols n)) n);;
    ret true.

Definition net_input_handler (type : Z) (data : bytes) (len : Z) (dev : nat) : C Z :=
  protocols <- gets (λ w, n_protocols (w_net w));;
  match list_find (λ p, np_type p = type) protocols with
  | None => ret 0
  | Some (k, _) =>
      ok <- memory_alloc;;
      if negb ok then ret (-1)
      else
        copy <- expect FaultBounds (slice 0 len data);;
        pushed <- proto_queue_push k (NetQueueEntry dev len copy);;
        if negb pushed then ret (-1)
        else intr_raise_irq INTR_IRQ_SOFTIRQ;; ret 0
  end.

(** The inner loop of [net_softirq_handler]: pop and handle until the
    queue of the [k]-th protocol is empty. *)
Fixpoint net_softirq_drain (call : net_handler → bytes → Z → nat → C unit)
    (fuel k : nat) : C unit :=
  o <- gets (λ w, n_protocols (w_net w) !! k);;
  proto <- expect FaultNull o;;
  let '(entry, rest) := Fifo.pop (np_queue proto) in
  match entry with
  | None => ret tt
  | Some entry =>
      match fuel with
      | O => crash FaultFuel
      | S fuel =>
          net_modify (λ n, set_n_protocols (alter (set_np_queue rest) k (n_protocols n)) n);;
          call (np_handler proto) (nqe_data entry) (nqe_len entry) (nqe_dev entry);;
          net_softirq_drain call fuel k
      end
  end.

(** One round of the outer loop; the fuel is the length of the queue. *)
Definition net_softirq_proto (call : net_handler → bytes → Z → nat → C unit) (k : nat)
  : C unit :=
  o <- gets (λ w, n_protocols (w_net w) !! k);;
  proto <- expect FaultNull o;;
  net_softirq_drain call (length (np_queue proto)) k.

Definition net_softirq_handler (call : net_handler → bytes → Z → nat → C unit) : C Z :=
  n <- gets (λ w, length (n_protocols (w_net w)));;
  for_each (seq 0 n) (net_softirq_proto call);;
  ret 0.

Definition net_event_subscribe (handler : event_handler) : C Z :=
  ok <- memory_alloc;;
  if negb ok then ret (-1)
  else
    net_modify (λ n, set_n_events (handler :: n_events n) n);;
    ret 0.

Definition net_event_handler (call : event_handler → C unit) : C Z :=
  events <- gets (λ w, n_events (w_net w));;
  for_each events call;;
  ret 0.

Definition net_raise_event : C unit := intr_raise_irq INTR_IRQ_EVENT.

End Net.

(** ** Interfaces of a device *)

(** The first interface of a family on a device. *)
Definition family_iface (n : net_state) (dev : net_device) (family : Z) : option (nat * ip_iface) :=
  head (omap (λ i, ifc ← n_ifs n !! i;
                   if if_family ifc =? family then Some (i, ifc) else None) (d_ifaces dev)).

Lemma family_iface_Some n dev family i ifc :
  family_iface n dev family = Some (i, ifc) →
  i ∈ d_ifaces dev ∧ n_ifs n !! i = Some ifc ∧ if_family ifc = family.
Proof.
  intros E. apply head_Some_elem_of, list_elem_of_omap in E as (j&Hj&E).
  destruct (n_ifs n !! j) as [ifc'|] eqn:Ej; [|done]. cbn in E.
  destruct (Z.eqb_spec (if_family ifc') family); [|done]. by simplify_eq.
Qed.

Lemma net_device_get_iface_wp d dev family (Q : option nat → world → Prop) w :
  n_devs (w_net w) !! d = Some dev →
  (∀ i, i ∈ d_ifaces dev → is_Some (n_ifs (w_net w) !! i)) →
  Q (fst <$> family_iface (w_net w) dev family) w →
  wp (net_device_get_iface d family) Q w.
Proof.
  intros Hd Hifs HQ. unfold net_device_get_iface. repeat wp_step.
  unfold family_iface in HQ. induction (d_ifaces dev) as [|i l IH]; cbn in *; [done|].
  destruct (Hifs i ltac:(left)) as [ifc Hi]. rewrite Hi in HQ. cbn in HQ. repeat wp_step.
  destruct (if_family ifc =? family); [done|]. apply IH; [|done].
  intros j Hj. apply Hifs. by right.
Qed.

(** ** The interface of a driver *)

(** [struct net_device_ops]: a null member is [None]. *)
Class DeviceOps := {
  ops_open : net_device_ops → option (nat → C Z);
  ops_close : net_device_ops → option (nat → C Z);
  ops_transmit : net_device_ops → nat → Z → bytes → Z → bytes → C Z
}.

(** What output may change of a device: the queue of a loopback device. *)
Definition strip_priv (p : device_priv) : device_priv :=
  match p with
  | PrivLoopback irq _ => PrivLoopback irq []
  | p => p
  end.

Definition dev_static (dev : net_device) : net_device :=
  set_d_priv (strip_priv (d_priv dev)) dev.

Definition net_tables (n : net_state) : net_state := set_n_devs [] n.

(** What only registration and the drivers' receive paths change. *)
Definition sys_tables (y : sys_state) : list irq_entry * list (nat * bytes) := (y_irqs y, y_rx y).

Definition locked (w : world) : list mutex := y_locked (w_sys w).

(** The packets in a loopback device's queue: at most 16, each with its
    bytes. *)
Definition loopback_queue (dev : net_device) : list loopback_queue_entry :=
  match d_priv dev with
  | PrivLoopback _ queue => queue
  | _ => []
  end.

Definition loopback_entry_ok (e : loopback_queue_entry) : Prop :=
  zlen (lqe_data e) = lqe_len e ∧ bytes_ok (lqe_data e).

Definition loopback_ok (dev : net_device) : Prop :=
  (length (loopback_queue dev) <= 16)%nat ∧ Forall loopback_entry_ok (loopback_queue dev).

Definition loopbacks_ok (w : world) : Prop := Forall loopback_ok (n_devs (w_net w)).

(** What output on a device leaves alone: everything but the loopback
    queues, which stay well formed, and the platform's counters, signals and
    wire. *)
Record output_frame (w w' : world) : Prop := OutputFrame {
  of_devs : dev_static <$> n_devs (w_net w') = dev_static <$> n_devs (w_net w);
  of_net : net_tables (w_net w') = net_tables (w_net w);
  of_ip : w_ip w' = w_ip w;
  of_arp : w_arp w' = w_arp w;
  of_udp : w_udp w' = w_udp w;
  of_tcp : w_tcp w' = w_tcp w;
  of_locked : locked w' = locked w;
  of_sys : sys_tables (w_sys w') = sys_tables (w_sys w);
  of_queues : loopbacks_ok w → loopbacks_ok w'
}.

#[export] Instance output_frame_preorder : PreOrder output_frame.
Proof.
  split.
  - intros w. by constructor.
  - intros w1 w2 w3 [] []. constructor; [congruence..|auto].
Qed.

(** A device whose driver can transmit: the driver's private data is in
    place, the addresses have their size, and the payloads of an Ethernet
    device fit a frame. *)
Definition dev_wf (dev : net_device) : Prop :=
  length (d_addr dev) = 16%nat ∧ length (d_broadcast dev) = 16%nat
  ∧ bytes_ok (d_addr dev) ∧ bytes_ok (d_broadcast dev)
  ∧ 0 <= d_alen dev <= 16 ∧ is_u16 (d_mtu dev)
  ∧ match d_ops dev, d_priv dev with
    | Some OpsDummy, _ => True
    | Some OpsLoopback, PrivLoopback _ _ => True
    | Some OpsEtherTap, PrivTap _ _ _ => d_mtu dev <= 1500
    | _, _ => False
    end.

Lemma dev_wf_static dev : dev_wf (dev_static dev) ↔ dev_wf dev.
Proof.
  destruct dev as [????????? ? ops priv]. unfold dev_wf, dev_static, strip_priv. simpl.
  by destruct ops as [[]|], priv.
Qed.

Lemma dev_static_insert (devs : list net_device) d dev dev' :
  devs !! d = Some dev → dev_static dev' = dev_static dev →
  dev_static <$> <[d := dev']> devs = dev_static <$> devs.
Proof.
  intros Hd Hs. rewrite list_fmap_insert, Hs. apply list_insert_id.
  by rewrite list_lookup_fmap, Hd.
Qed.

(** The device behind a pointer after output, up to its queue. *)
Lemma static_dev w w' d dev :
  dev_static <$> n_devs (w_net w') = dev_static <$> n_devs (w_net w) →
  n_devs (w_net w) !! d = Some dev → dev_wf dev →
  ∃ dev', n_devs (w_net w') !! d = Some dev' ∧ dev_wf dev' ∧ dev_static dev' = dev_static dev.
Proof.
  intros Hd E Hwf.
  assert ((dev_static <$> n_devs (w_net w')) !! d = Some (dev_static dev)) as E'.
  { by rewrite Hd, list_lookup_fmap, E. }
  rewrite list_lookup_fmap in E'.
  destruct (n_devs (w_net w') !! d) as [dev'|]; [|done]. cbn in E'.
  assert (dev_static dev' = dev_static dev) as Es by congruence.
  exists dev'. split_and!; [done| |done].
  apply dev_wf_static. rewrite Es. by apply dev_wf_static.
Qed.

(** What the layers above a driver rely on: given a device in order, a
    payload of bytes that fits its MTU and lies in its buffer, and the driver's
    mutex free, [transmit] returns 0 or -1 and changes only what
    [output_frame] allows. *)
Class DeviceOpsOk `{DeviceOps} : Prop :=
  ops_transmit_ok : ∀ (w : world) (d : nat) (dev : net_device) (ops : net_device_ops)
      (type : Z) (data : bytes) (len : Z) (dst : bytes),
    n_devs (w_net w) !! d = Some dev → d_ops dev = Some ops → dev_wf dev →
    is_u16 type → 0 <= len <= d_mtu dev → len <= zlen data → bytes_ok data →
    ETHER_ADDR_LEN <= zlen dst → MutexLoopback d ∉ locked w →
    wp (ops_transmit ops d type data len dst)
       (λ r w', (r = 0 ∨ r = -1) ∧ output_frame w w') w.
