(* ===== verification/Ether.v ===== *)
(** * Ethernet framing

    [src/src/ether.h] and [src/src/ether.c]: building a frame from a
    payload, with padding to the minimum size, and taking one apart. *)

From S2P Require Import Prelude Bytes Clock Addr Monad State Platform Net.

Definition ETHER_HDR_SIZE : Z := 14.
Definition ETHER_FRAME_SIZE_MIN : Z := 60.
Definition ETHER_FRAME_SIZE_MAX : Z := 1514.
Definition ETHER_PAYLOAD_SIZE_MIN : Z := ETHER_FRAME_SIZE_MIN - ETHER_HDR_SIZE.
Definition ETHER_PAYLOAD_SIZE_MAX : Z := ETHER_FRAME_SIZE_MAX - ETHER_HDR_SIZE.

Definition ETHER_TYPE_IP : Z := 0x0800.
Definition ETHER_TYPE_ARP : Z := 0x0806.

Section Ether.
Context `{Machine} `{Env}.

(** [struct ether_hdr] *)
Record ether_hdr := EtherHdr {
  eh_dst : bytes;
  eh_src : bytes;
  eh_type : Z
}.

Definition ether_hdr_at (frame : bytes) : option ether_hdr :=
  dst ← slice 0 6 frame;
  src ← slice 6 6 frame;
  t ← slice 12 2 frame;
  match t with
  | [t0; t1] => Some (EtherHdr dst src (load16 t0 t1))
  | _ => None
  end.

(** The frame [ether_transmit_helper] builds and its length. *)
Definition ether_frame (src dst : bytes) (type : Z) (data : bytes) (len : Z)
  : option (bytes * Z) :=
  let frame := replicate (Z.to_nat ETHER_FRAME_SIZE_MAX) 0 in
  frame ← memcpy frame 0 dst ETHER_ADDR_LEN;
  frame ← memcpy frame 6 src ETHER_ADDR_LEN;
  frame ← memcpy frame 12 (store16 (hton16 type)) 2;
  frame ← memcpy frame ETHER_HDR_SIZE data len;
  let pad := if len <? ETHER_PAYLOAD_SIZE_MIN then ETHER_PAYLOAD_SIZE_MIN - len else 0 in
  Some (frame, ETHER_HDR_SIZE + len + pad).

Definition ether_transmit_helper (d : nat) (type : Z) (data : bytes) (len : Z) (dst : bytes)
    (callback : nat → bytes → Z → C Z) : C Z :=
  dev <- get_dev d;;
  built <- expect FaultBounds (ether_frame (d_addr dev) dst type data len);;
  let '(frame, flen) := built in
  r <- callback d frame flen;;
  ret (if r =? flen then 0 else -1).

(** [callback] returns a length and what it stored in the frame buffer. *)
Definition ether_input_helper (d : nat) (callback : nat → Z → C (Z * bytes)) : C Z :=
  got <- callback d ETHER_FRAME_SIZE_MAX;;
  let '(flen, frame) := got in
  if flen <? ETHER_HDR_SIZE then ret (-1)
  else
    hdr <- expect FaultBounds (ether_hdr_at frame);;
    dev <- get_dev d;;
    if negb (bool_decide (take 6 (d_addr dev) = eh_dst hdr))
       && negb (bool_decide (ETHER_ADDR_BROADCAST = eh_dst hdr))
    then ret (-1)
    else net_input_handler (ntoh16 (eh_type hdr)) (drop 14 frame) (flen - ETHER_HDR_SIZE) d.

Definition ether_setup_helper (d : nat) : C unit :=
  dev <- get_dev d;;
  broadcast <- expect FaultBounds (memcpy (d_broadcast dev) 0 ETHER_ADDR_BROADCAST ETHER_ADDR_LEN);;
  put_dev d
    (set_d_broadcast broadcast
    (set_d_alen ETHER_ADDR_LEN
    (set_d_hlen ETHER_HDR_SIZE
    (set_d_flags (Z.lor NET_DEVICE_FLAG_BROADCAST NET_DEVICE_FLAG_NEED_ARP)
    (set_d_mtu ETHER_PAYLOAD_SIZE_MAX
    (set_d_type NET_DEVICE_TYPE_ETHERNET dev)))))).
End Ether.

(** ** Frames *)

Section Frames.
Context `{Machine}.

(** The frame, byte for byte. *)
Lemma ether_frame_eq src dst type data len :
  6 <= zlen src → 6 <= zlen dst → is_u16 type → 0 <= len <= 1500 → len <= zlen data →
  ether_frame src dst type data len
  = Some (take 6 dst ++ take 6 src ++ wire16 type ++ take (Z.to_nat len) data
            ++ replicate (Z.to_nat (1500 - len)) 0, 14 + Z.max len 46).
Proof.
  intros Hs Hd Ht Hl Hdata.
  unfold ether_frame, ETHER_ADDR_LEN. rewrite store16_hton16 by done.
  change ETHER_HDR_SIZE with 14. change ETHER_PAYLOAD_SIZE_MIN with 46.
  change (Z.to_nat ETHER_FRAME_SIZE_MAX) with (6 + (6 + (2 + 1500)))%nat.
  assert (length (take 6 dst) = 6%nat ∧ length (take 6 src) = 6%nat) as [L1 L2].
  { unfold zlen in *. rewrite !length_take. lia. }
  rewrite !replicate_add.
  rewrite memcpy_spec by (rewrite ?zlen_app; unfold zlen in *; rewrite ?length_replicate; lia).
  cbn [mbind option_bind]. change (Z.to_nat 0) with 0%nat. rewrite take_0, app_nil_l.
  change (Z.to_nat (0 + 6)) with 6%nat. change (Z.to_nat 6) with 6%nat.
  rewrite (drop_app_length' (replicate 6 0)) by (by rewrite length_replicate).
  rewrite memcpy_spec
    by (rewrite ?zlen_app; unfold zlen in *; rewrite ?length_replicate, ?L1; lia).
  cbn [mbind option_bind]. change (Z.to_nat 6) with 6%nat. change (Z.to_nat (6 + 6)) with 12%nat.
  rewrite take_app_length' by done.
  rewrite (app_assoc (take 6 dst) (replicate 6 0)).
  rewrite (drop_app_length' (take 6 dst ++ _)) by (rewrite length_app, L1; done).
  rewrite (app_assoc (take 6 dst)).
  assert (length (take 6 dst ++ take 6 src) = 12%nat) as L3 by (rewrite length_app; lia).
  rewrite memcpy_spec
    by (rewrite ?zlen_app; unfold zlen in *; rewrite ?length_replicate, ?L1, ?L2; cbn; lia).
  cbn [mbind option_bind]. change (Z.to_nat 12) with 12%nat.
  change (Z.to_nat (12 + 2)) with 14%nat. change (take (Z.to_nat 2) (wire16 type)) with (wire16 type).
  rewrite (take_app_length' (take 6 dst ++ _)) by done.
  rewrite (app_assoc (take 6 dst ++ _) (replicate 2 0)).
  rewrite (drop_app_length' ((take 6 dst ++ _) ++ _)) by (rewrite length_app, L3; done).
  rewrite (app_assoc (take 6 dst ++ _)).
  assert (length ((take 6 dst ++ take 6 src) ++ wire16 type) = 14%nat) as L4
    by (rewrite length_app, L3; done).
  rewrite memcpy_spec
    by (try (rewrite zlen_app; unfold zlen in *; rewrite L4, length_replicate); lia).
  cbn [mbind option_bind]. rewrite take_app_length' by done.
  replace (Z.to_nat (14 + len)) with (14 + Z.to_nat len)%nat by lia.
  rewrite <- L4 at 1. rewrite drop_app_add, drop_replicate, <- !(assoc_L (++)).
  f_equal. f_equal; [|destruct (Z.ltb_spec len 46); lia]. do 5 f_equal. lia.
Qed.

(** Building a frame stays inside it when the payload fits. *)
Lemma ether_frame_total src dst type data len :
  6 <= zlen src → 6 <= zlen dst → is_u16 type → 0 <= len <= 1500 → len <= zlen data →
  ∃ frame flen, ether_frame src dst type data len = Some (frame, flen)
    ∧ zlen frame = 1514 ∧ flen = 14 + Z.max len 46.
Proof.
  intros. rewrite ether_frame_eq by done. do 2 eexists. split; [done|]. split; [|done].
  unfold zlen in *. rewrite !length_app, !length_take, length_replicate. cbn [length wire16]. lia.
Qed.

(** A frame on the wire: the header, the payload and its padding. *)
Definition ether_wire (src dst : bytes) (type : Z) (data : bytes) : bytes :=
  dst ++ src ++ wire16 type ++ data ++ replicate (Z.to_nat (46 - zlen data)) 0.

Lemma zlen_ether_wire src dst type data :
  length src = 6%nat → length dst = 6%nat → zlen (ether_wire src dst type data) = 14 + Z.max (zlen data) 46.
Proof.
  intros Ls Ld. unfold ether_wire, zlen. rewrite !length_app, length_replicate, Ls, Ld. cbn [length wire16]. lia.
Qed.

(** What [ether_transmit_helper] sends. *)
Lemma ether_frame_wire src dst type data len :
  6 <= zlen src → 6 <= zlen dst → is_u16 type → 0 <= len <= 1500 → len <= zlen data →
  ∃ frame, ether_frame src dst type data len = Some (frame, 14 + Z.max len 46) ∧ zlen frame = 1514
    ∧ take (Z.to_nat (14 + Z.max len 46)) frame
      = ether_wire (take 6 src) (take 6 dst) type (take (Z.to_nat len) data).
Proof.
  intros Hs Hd Ht Hl Hdata. rewrite ether_frame_eq by done. eexists. split; [done|].
  assert (length (take 6 dst) = 6%nat ∧ length (take 6 src) = 6%nat) as [L1 L2].
  { unfold zlen in *. rewrite !length_take. lia. }
  assert (length (take (Z.to_nat len) data) = Z.to_nat len) as L3.
  { unfold zlen in *. rewrite length_take. lia. }
  split.
  - unfold zlen in *. rewrite !length_app, L1, L2, L3, length_replicate. cbn [length wire16]. lia.
  - unfold ether_wire, zlen. rewrite L3.
    replace (Z.to_nat (14 + Z.max len 46))
      with (length (take 6 dst) + (length (take 6 src) + (length (wire16 type)
              + (length (take (Z.to_nat len) data) + Z.to_nat (46 - len)))))%nat
      by (rewrite L1, L2, L3; cbn [length wire16]; lia).
    rewrite !take_app_add, take_replicate. do 5 f_equal; lia.
Qed.

(** What the receiver reads back of the first [n] bytes on the wire. *)
Lemma ether_hdr_at_frame src dst type rest :
  length dst = 6%nat → length src = 6%nat → is_u16 type →
  ∃ t, ether_hdr_at (dst ++ src ++ wire16 type ++ rest) = Some (EtherHdr dst src t)
    ∧ ntoh16 t = type ∧ drop 14 (dst ++ src ++ wire16 type ++ rest) = rest.
Proof.
  intros Ld Ls Ht. unfold ether_hdr_at.
  destruct dst as [|d0 [|d1 [|d2 [|d3 [|d4 [|d5 [|]]]]]]]; try done.
  destruct src as [|s0 [|s1 [|s2 [|s3 [|s4 [|s5 [|]]]]]]]; try done.
  rewrite !slice_spec by (rewrite ?zlen_app; unfold zlen; cbn [length app wire16]; lia).
  eexists. split; [done|]. split; [|done].
  rewrite ntoh16_load16 by mlia. mlia.
Qed.

Context `{Env}.

(** A frame built by [ether_transmit_helper] and read back by
    [ether_input_helper] is handed to [net_input_handler] with the
    sender's type and payload, zero padded to 46 bytes, exactly when it is
    addressed to the device or to the broadcast address; any other frame is
    refused with -1 and no effect.  The theorem holds on hosts of either
    byte order. *)
Lemma ether_frame_delivery src dst type data len frame flen d dev w :
  6 <= zlen src → 6 <= zlen dst → is_u16 type → 0 <= len <= 1500 → len <= zlen data →
  ether_frame src dst type data len = Some (frame, flen) →
  n_devs (w_net w) !! d = Some dev →
  ether_input_helper d (λ _ _, ret (flen, take (Z.to_nat flen) frame)) w
  = if bool_decide (take 6 (d_addr dev) = take 6 dst)
       || bool_decide (ETHER_ADDR_BROADCAST = take 6 dst)
    then net_input_handler type
           (take (Z.to_nat len) data ++ replicate (Z.to_nat (46 - len)) 0)
           (Z.max len 46) d w
    else Done (-1) w.
Proof.
  intros Hs Hd Ht Hl Hdata.
  destruct (ether_frame_wire src dst type data len) as (frame'&->&_&Hwire); [done..|].
  intros Ef%(inj Some) Hdev. apply pair_eq in Ef as [<- <-]. rewrite Hwire. unfold ether_wire.
  assert (length (take 6 dst) = 6%nat ∧ length (take 6 src) = 6%nat) as [L1 L2].
  { unfold zlen in *. rewrite !length_take. lia. }
  assert (zlen (take (Z.to_nat len) data) = len) as -> by (unfold zlen in *; rewrite length_take; lia).
  destruct (ether_hdr_at_frame (take 6 src) (take 6 dst) type
    (take (Z.to_nat len) data ++ replicate (Z.to_nat (46 - len)) 0)) as (t&Et&Hn&Hdrop);
    [done..|].
  unfold ether_input_helper, bind at 1, ret at 1.
  change ETHER_HDR_SIZE with 14. destruct (Z.ltb_spec (14 + Z.max len 46) 14); [lia|].
  rewrite Et, Hdrop. unfold get_dev, bind, gets, expect, ret. rewrite Hdev.
  cbn [eh_dst eh_type]. rewrite Hn.
  replace (14 + Z.max len 46 - 14) with (Z.max len 46) by lia.
  by destruct (bool_decide _), (bool_decide _).
Qed.
End Frames.
