(* ===== verification/Drivers.v ===== *)
(** * Drivers

    [src/src/driver/dummy.c], [src/src/driver/loopback.c] and
    [src/src/platform/linux/driver/ether_tap.c], and their tables of
    operations as an instance of [DeviceOps] that meets [DeviceOpsOk]. *)

From S2P Require Import Prelude Bytes Clock Addr Monad State Platform Queue Net Ether.

Definition DUMMY_MTU : Z := 65535.
Definition DUMMY_IRQ : Z := INTR_IRQ_BASE.

Definition LOOPBACK_MTU : Z := 65535.
Definition LOOPBACK_QUEUE_LIMIT : Z := 16.
Definition LOOPBACK_IRQ : Z := INTR_IRQ_BASE + 1.

Definition ETHER_TAP_IRQ : Z := INTR_IRQ_BASE + 2.

Section Drivers.
Context `{Machine} `{Env}.

(** ** Dummy *)

Definition dummy_transmit (d : nat) (type : Z) (data : bytes) (len : Z) (dst : bytes) : C Z :=
  intr_raise_irq DUMMY_IRQ;; ret 0.

Definition dummy_isr (irq : Z) (d : nat) : C Z := ret 0.

Definition dummy_init : C (option nat) :=
  o <- net_device_alloc;;
  match o with
  | None => ret None
  | Some d =>
      upd_dev d (λ dev, set_d_ops (Some OpsDummy) (set_d_alen 0 (set_d_hlen 0
        (set_d_mtu DUMMY_MTU (set_d_type NET_DEVICE_TYPE_DUMMY dev)))));;
      r <- net_device_register d;;
      if r =? -1 then ret None
      else
        dev <- get_dev d;;
        intr_request_irq DUMMY_IRQ IsrDummy INTR_IRQ_SHARED (d_name dev) d;;
        ret (Some d)
  end.

(** ** Loopback *)

(** [PRIV(dev)] as a [struct loopback] *)
Definition loopback_priv (d : nat) : C (Z * list loopback_queue_entry) :=
  dev <- get_dev d;;
  match d_priv dev with
  | PrivLoopback irq queue => ret (irq, queue)
  | _ => crash FaultNull
  end.

Definition loopback_set_queue (d : nat) (queue : list loopback_queue_entry) : C unit :=
  upd_dev d (λ dev, match d_priv dev with
                    | PrivLoopback irq _ => set_d_priv (PrivLoopback irq queue) dev
                    | _ => dev
                    end).

Definition loopback_transmit (d : nat) (type : Z) (data : bytes) (len : Z) (dst : bytes) : C Z :=
  loopback_priv d;;
  mutex_lock (MutexLoopback d);;
  priv <- loopback_priv d;;
  let '(irq, queue) := priv in
  if Fifo.num queue >=? LOOPBACK_QUEUE_LIMIT then
    mutex_unlock (MutexLoopback d);;
    ret (-1)
  else
    ok <- memory_alloc;;
    if negb ok then
      mutex_unlock (MutexLoopback d);;
      ret (-1)
    else
      copy <- expect FaultBounds (slice 0 len data);;
      pushed <- memory_alloc;;
      (if (pushed : bool)
       then loopback_set_queue d (Fifo.push queue (LoopbackQueueEntry type len copy))
       else ret tt);;
      mutex_unlock (MutexLoopback d);;
      intr_raise_irq irq;;
      ret 0.

(** The loop of [loopback_isr]. *)
Fixpoint loopback_drain (fuel : nat) (d : nat) : C unit :=
  priv <- loopback_priv d;;
  let '(_, queue) := priv in
  let '(entry, rest) := Fifo.pop queue in
  match entry with
  | None => ret tt
  | Some entry =>
      match fuel with
      | O => crash FaultFuel
      | S fuel =>
          loopback_set_queue d rest;;
          net_input_handler (lqe_type entry) (lqe_data entry) (lqe_len entry) d;;
          loopback_drain fuel d
      end
  end.

Definition loopback_isr (irq : Z) (d : nat) : C Z :=
  loopback_priv d;;
  mutex_lock (MutexLoopback d);;
  priv <- loopback_priv d;;
  loopback_drain (length priv.2) d;;
  mutex_unlock (MutexLoopback d);;
  ret 0.

Definition loopback_init : C (option nat) :=
  o <- net_device_alloc;;
  match o with
  | None => ret None
  | Some d =>
      upd_dev d (λ dev, set_d_ops (Some OpsLoopback) (set_d_alen 0 (set_d_hlen 0
        (set_d_flags NET_DEVICE_FLAG_LOOPBACK
        (set_d_mtu LOOPBACK_MTU (set_d_type NET_DEVICE_TYPE_LOOPBACK dev))))));;
      r <- net_device_register d;;
      if r =? -1 then ret None
      else
        ok <- memory_alloc;;
        if negb ok then ret None
        else
          upd_dev d (set_d_priv (PrivLoopback LOOPBACK_IRQ []));;
          dev <- get_dev d;;
          intr_request_irq LOOPBACK_IRQ IsrLoopback INTR_IRQ_SHARED (d_name dev) d;;
          ret (Some d)
  end.

(** ** Tap *)

(** [PRIV(dev)] as a [struct ether_tap] *)
Definition tap_priv (d : nat) : C (bytes * Z * Z) :=
  dev <- get_dev d;;
  match d_priv dev with
  | PrivTap name fd irq => ret (name, fd, irq)
  | _ => crash FaultNull
  end.

(** [socket], [ioctl(SIOCGIFHWADDR)], [close] *)
Definition ether_tap_addr (d : nat) : C Z :=
  soc <- env_call env_sys;;
  if soc =? -1 then ret (-1)
  else
    tap_priv d;;
    r <- env_call env_sys;;
    if r =? -1 then env_call env_sys;; ret (-1)
    else
      hw <- env_call env_hwaddr;;
      dev <- get_dev d;;
      addr <- expect FaultBounds (memcpy (d_addr dev) 0 hw ETHER_ADDR_LEN);;
      put_dev d (set_d_addr addr dev);;
      env_call env_sys;;
      ret 0.

(** The ioctl and fcntl calls of [ether_tap_open], each of which closes
    the descriptor and gives up when it fails. *)
Fixpoint ether_tap_configure (calls : nat) : C bool :=
  match calls with
  | O => ret true
  | S calls =>
      r <- env_call env_sys;;
      if r =? -1 then env_call env_sys;; ret false else ether_tap_configure calls
  end.

Definition ether_tap_open (d : nat) : C Z :=
  priv <- tap_priv d;;
  let '(name, _, irq) := priv in
  fd <- env_call env_sys;;
  upd_dev d (set_d_priv (PrivTap name fd irq));;
  if fd =? -1 then ret (-1)
  else
    configured <- ether_tap_configure 4;;
    if negb configured then ret (-1)
    else
      dev <- get_dev d;;
      if bool_decide (take 6 (d_addr dev) = ETHER_ADDR_ANY) then
        r <- ether_tap_addr d;;
        if r =? -1 then env_call env_sys;; ret (-1) else ret 0
      else ret 0.

Definition ether_tap_close (d : nat) : C Z :=
  tap_priv d;; env_call env_sys;; ret 0.

(** [write(2)]: the bytes it reports written reach the wire. *)
Definition ether_tap_write (d : nat) (frame : bytes) (flen : Z) : C Z :=
  tap_priv d;;
  out <- expect FaultBounds (slice 0 flen frame);;
  r <- env_call (λ k, env_write k flen);;
  (if 0 <=? r
   then sys_modify (λ y, set_y_wire (y_wire y ++ [(d, take (Z.to_nat r) out)]) y)
   else ret tt);;
  ret r.

Definition ether_tap_transmit (d : nat) (type : Z) (buf : bytes) (len : Z) (dst : bytes) : C Z :=
  ether_transmit_helper d type buf len dst ether_tap_write.

(** The first frame that waits at the device's descriptor. *)
Definition tap_frame (d : nat) (rx : list (nat * bytes)) : option (nat * bytes) :=
  p ← list_find (λ f, f.1 = d) rx;
  Some (p.1, p.2.2).

(** [read(2)]: the number of bytes it stored, and the bytes.  It takes one
    frame, of which it stores as much as fits; without a frame it would wait
    for ever. *)
Definition ether_tap_read (d : nat) (size : Z) : C (Z * bytes) :=
  tap_priv d;;
  failed <- env_call env_fails;;
  match failed with
  | Some _ => ret (-1, [])
  | None =>
      rx <- gets (λ w, y_rx (w_sys w));;
      f <- expect FaultDeadlock (tap_frame d rx);;
      sys_modify (set_y_rx (delete f.1 rx));;
      let data := take (Z.to_nat size) f.2 in
      if zlen data <=? 0 then ret (-1, []) else ret (zlen data, data)
  end.

(** The loop of [ether_tap_isr]: poll, and take a frame in when there is
    one. *)
Fixpoint ether_tap_poll (fuel : nat) (d : nat) : C Z :=
  failed <- env_call env_fails;;
  rx <- gets (λ w, y_rx (w_sys w));;
  match failed, tap_frame d rx with
  | Some false, _ => ret (-1)
  | None, None => ret 0
  | Some true, _ =>
      match fuel with
      | O => crash FaultFuel
      | S fuel => ether_tap_poll fuel d
      end
  | None, Some _ =>
      ether_input_helper d ether_tap_read;;
      match fuel with
      | O => crash FaultFuel
      | S fuel => ether_tap_poll fuel d
      end
  end.

(** Every frame is read within [env_patience + 2] rounds. *)
Definition ether_tap_isr (irq : Z) (d : nat) : C Z :=
  tap_priv d;;
  rx <- gets (λ w, y_rx (w_sys w));;
  ether_tap_poll (S (length rx) * (env_patience + 3)) d.

(** [name] and [addr] are terminated strings, [addr] may be null. *)
Definition ether_tap_init (name : bytes) (addr : option bytes) : C (option nat) :=
  o <- net_device_alloc;;
  match o with
  | None => ret None
  | Some d =>
      ether_setup_helper d;;
      valid <- match addr with
               | None => ret true
               | Some addr =>
                   dev <- get_dev d;;
                   res <- expect FaultBounds (ether_addr_pton (Some addr) (Some (d_addr dev)));;
                   let '(r, n) := res in
                   (match n with
                    | Some n => put_dev d (set_d_addr n dev)
                    | None => ret tt
                    end);;
                   ret (negb (r =? -1))
               end;;
      if negb valid then ret None
      else
        upd_dev d (set_d_ops (Some OpsEtherTap));;
        ok <- memory_alloc;;
        if negb ok then ret None
        else
          upd_dev d (set_d_priv (PrivTap (take 15 name) (-1) ETHER_TAP_IRQ));;
          r <- net_device_register d;;
          if r =? -1 then ret None
          else
            dev <- get_dev d;;
            intr_request_irq ETHER_TAP_IRQ IsrEtherTap INTR_IRQ_SHARED (d_name dev) d;;
            ret (Some d)
  end.

(** ** The tables *)

#[export] Instance drivers : DeviceOps := {
  ops_open o := match o with OpsEtherTap => Some ether_tap_open | _ => None end;
  ops_close o := match o with OpsEtherTap => Some ether_tap_close | _ => None end;
  ops_transmit o := match o with
                    | OpsDummy => dummy_transmit
                    | OpsLoopback => loopback_transmit
                    | OpsEtherTap => ether_tap_transmit
                    end
}.
End Drivers.

(** ** The contract of transmit *)

Section Transmit.
Context `{Machine} `{Env}.

Lemma wp_loopback_priv d dev irq q (Q : Z * list loopback_queue_entry → world → Prop) w :
  n_devs (w_net w) !! d = Some dev → d_priv dev = PrivLoopback irq q →
  Q (irq, q) w → wp (loopback_priv d) Q w.
Proof. intros E Ep HQ. unfold loopback_priv. repeat wp_step. by rewrite Ep. Qed.

Lemma wp_tap_priv d dev name fd irq (Q : bytes * Z * Z → world → Prop) w :
  n_devs (w_net w) !! d = Some dev → d_priv dev = PrivTap name fd irq →
  Q (name, fd, irq) w → wp (tap_priv d) Q w.
Proof. intros E Ep HQ. unfold tap_priv. repeat wp_step. by rewrite Ep. Qed.

Lemma ether_tap_write_ok w d dev name fd irq frame flen :
  n_devs (w_net w) !! d = Some dev → d_priv dev = PrivTap name fd irq →
  0 <= flen <= zlen frame →
  wp (ether_tap_write d frame flen) (λ _, output_frame w) w.
Proof.
  intros E Ep Hl. unfold ether_tap_write. apply wp_bind. eapply wp_tap_priv; [done..|].
  rewrite (slice_spec 0 flen) by lia. do 4 wp_step. apply wp_bind.
  destruct (_ <=? _); repeat wp_step; by constructor.
Qed.

Lemma ether_tap_transmit_ok w d dev name fd irq type data len dst :
  n_devs (w_net w) !! d = Some dev → d_priv dev = PrivTap name fd irq →
  6 <= zlen (d_addr dev) → 6 <= zlen dst → is_u16 type → 0 <= len <= 1500 → len <= zlen data →
  wp (ether_tap_transmit d type data len dst)
     (λ r w', (r = 0 ∨ r = -1) ∧ output_frame w w') w.
Proof.
  intros E Ep Ha Hd Ht Hl Hdata. unfold ether_tap_transmit, ether_transmit_helper.
  repeat wp_step.
  destruct (ether_frame_total (d_addr dev) dst type data len) as (frame&flen&Ef&Lf&->); [done || lia..|].
  eapply wp_expect; [done|]. apply wp_bind.
  eapply wp_mono; [eapply ether_tap_write_ok; [done..|]; lia|].
  intros r w' Hw. apply wp_ret. split; [|done]. destruct (_ =? _); auto.
Qed.

Lemma loopback_transmit_ok w d dev irq q type data len dst :
  n_devs (w_net w) !! d = Some dev → d_priv dev = PrivLoopback irq q →
  0 <= len <= zlen data → bytes_ok data → MutexLoopback d ∉ locked w →
  wp (loopback_transmit d type data len dst)
     (λ r w', (r = 0 ∨ r = -1) ∧ output_frame w w') w.
Proof.
  intros E Ep Hl Hok Hm. unfold loopback_transmit. apply wp_bind.
  eapply wp_loopback_priv; [done..|]. do 2 wp_step.
  apply wp_bind. eapply wp_loopback_priv; [done..|].
  assert (filter (λ m', m' ≠ MutexLoopback d) (MutexLoopback d :: locked w) = locked w) as Hf
    by (by apply filter_unlock).
  destruct (Fifo.num q >=? LOOPBACK_QUEUE_LIMIT) eqn:Hnum.
  { do 2 wp_step; [by left|]. wp_step. split; [auto|]. by constructor. }
  do 2 wp_step. destruct (negb _).
  { do 2 wp_step; [by left|]. wp_step. split; [auto|]. by constructor. }
  rewrite (slice_spec 0 len) by lia. do 4 wp_step. apply wp_bind.
  destruct (env_calloc _).
  - unfold loopback_set_queue, upd_dev. repeat wp_step; [by left|]. split; [auto|].
    constructor; try done.
    + cbn. rewrite Ep. eapply dev_static_insert; [done|]. unfold dev_static. by rewrite Ep.
    + intros Hq. apply Forall_insert; [done|]. rewrite Ep. unfold loopbacks_ok in Hq.
      rewrite Forall_lookup in Hq. specialize (Hq d dev E). unfold loopback_ok in *.
      unfold loopback_queue in *. rewrite Ep in Hq. cbn [d_priv set_d_priv]. unfold Fifo.push.
      destruct Hq as [Hlen Hq]. split.
      * rewrite length_app. unfold Fifo.num, LOOPBACK_QUEUE_LIMIT, zlen in Hnum. cbn [length].
        rewrite u32_small in Hnum by ulia. lia.
      * apply Forall_app_2; [done|]. apply Forall_singleton. split; cbn.
        -- unfold zlen in *. rewrite length_take, length_drop. lia.
        -- by apply Forall_take, Forall_drop.
  - repeat wp_step; [by left|]. split; [auto|]. by constructor.
Qed.

#[export] Instance drivers_ok : DeviceOpsOk.
Proof.
  intros w d dev ops type data len dst E Eo (Ha&Hb&_&_&_&_&Hp) Ht Hl Hdata Hok Hd Hm.
  rewrite Eo in Hp. unfold ETHER_ADDR_LEN in *. destruct ops; cbn [ops_transmit drivers].
  - unfold dummy_transmit. repeat wp_step. split; [auto|]. by constructor.
  - destruct (d_priv dev) as [|irq q|] eqn:Ep; [done| |done].
    eapply loopback_transmit_ok; [done..| |done|done]. lia.
  - destruct (d_priv dev) as [| |name fd irq] eqn:Ep; [done..|].
    eapply ether_tap_transmit_ok; [done..| |done|done|lia|done]. unfold zlen. lia.
Qed.
End Transmit.
