(* ===== verification/Device.v ===== *)
(** * Devices

    The part of [src/src/net.c] above the drivers: opening and closing a
    device, output on it, [net_run] and [net_shutdown].  Proofs of the
    layers above rest on [net_device_output_wp], which rests on
    [DeviceOpsOk] alone. *)

From S2P Require Import Prelude Bytes Clock Text Addr Monad State Platform Queue Net.

Section Device.
Context `{Env} `{DeviceOps}.

Definition NET_DEVICE_IS_UP (dev : net_device) : bool :=
  nz (Z.land (d_flags dev) NET_DEVICE_FLAG_UP).

Definition net_device_open (d : nat) : C Z :=
  dev <- get_dev d;;
  if NET_DEVICE_IS_UP dev then ret (-1)
  else
    ops <- expect FaultNull (d_ops dev);;
    r <- match ops_open ops with Some open => open d | None => ret 0 end;;
    if r =? -1 then ret (-1)
    else
      upd_dev d (λ dev, set_d_flags (Z.lor (d_flags dev) NET_DEVICE_FLAG_UP) dev);;
      ret 0.

Definition net_device_close (d : nat) : C Z :=
  dev <- get_dev d;;
  if negb (NET_DEVICE_IS_UP dev) then ret (-1)
  else
    ops <- expect FaultNull (d_ops dev);;
    r <- match ops_close ops with Some close => close d | None => ret 0 end;;
    if r =? -1 then ret (-1)
    else
      upd_dev d (λ dev, set_d_flags (u16 (Z.land (d_flags dev)
                                            (Z.lnot NET_DEVICE_FLAG_UP))) dev);;
      ret 0.

Definition net_device_output (d : nat) (type : Z) (data : bytes) (len : Z) (dst : bytes) : C Z :=
  dev <- get_dev d;;
  if negb (NET_DEVICE_IS_UP dev) then ret (-1)
  else if len >? d_mtu dev then ret (-1)
  else
    ops <- expect FaultNull (d_ops dev);;
    r <- ops_transmit ops d type data len dst;;
    if r =? -1 then ret (-1) else ret 0.

Definition net_run : C Z :=
  r <- intr_run;;
  if r =? -1 then ret (-1)
  else
    devices <- gets (λ w, n_devices (w_net w));;
    for_each devices (λ d, net_device_open d;; ret tt);;
    ret 0.

Definition net_shutdown : C unit :=
  devices <- gets (λ w, n_devices (w_net w));;
  for_each devices (λ d, net_device_close d;; ret tt);;
  intr_shutdown.
End Device.

(** ** Output *)

Section Output.
Context `{Env} `{DeviceOpsOk}.

(** Output on a device in order never faults, and leaves everything but
    loopback queues and the platform's state alone. *)
Lemma net_device_output_wp w d dev type data len dst :
  n_devs (w_net w) !! d = Some dev → dev_wf dev → is_u16 type →
  0 <= len <= zlen data → bytes_ok data → ETHER_ADDR_LEN <= zlen dst → MutexLoopback d ∉ locked w →
  wp (net_device_output d type data len dst)
     (λ r w', (r = 0 ∨ r = -1) ∧ output_frame w w') w.
Proof.
  intros E Hwf Ht Hl Hok Hd Hm. unfold net_device_output. repeat wp_step.
  destruct (negb _); [by wp_step; split; [auto|]|].
  destruct (Z.gtb_spec len (d_mtu dev)); [by wp_step; split; [auto|]|].
  assert (∃ ops, d_ops dev = Some ops) as [ops Eo].
  { destruct Hwf as (_&_&_&_&_&_&Hp). destruct (d_ops dev); [eauto|done]. }
  rewrite Eo. do 2 wp_step. apply wp_bind.
  eapply wp_mono; [by eapply ops_transmit_ok; eauto; lia|].
  intros r w' [Hr Hw]. destruct (_ =? _); apply wp_ret; auto.
Qed.
End Output.
