(* ===== verification/Sample.v ===== *)
(** * A sample host

    A concrete environment and a concrete state, on which the theorems'
    hypotheses are checked: a little-endian host with a tap device
    (192.0.2.2/24, default gateway 192.0.2.1) and a loopback device
    (127.0.0.1/8). *)

From S2P Require Import Prelude Bytes Clock Text Addr Monad State Platform Queue Net Ether.
From S2P Require Import Drivers Device.

Definition sample_machine : Machine := LittleEndian.

(** Memory never runs out, a second passes between two calls, and a write
    to the tap device sends the whole frame. *)
Definition sample_env : Env := {|
  env_calloc _ := true;
  env_gettimeofday k := Timeval (Z.of_nat k) 0;
  env_random _ := 12345;
  env_cond_destroy _ := 0;
  env_sys _ := 3;
  env_pthread _ := 0;
  env_write _ n := n;
  env_fails _ := None;
  env_patience := 0;
  env_hwaddr _ := [0; 0; 94; 0; 83; 1]
|}.

Lemma sample_env_ok : @EnvOk sample_env.
Proof.
  split; cbn; try lia.
  - intros k. unfold tv_ok. cbn. lia.
  - intros k. exists k. split; [lia|done].
  - intros _. split; [|done]. by repeat apply Forall_cons_2.
Qed.

Definition sample_ops : DeviceOps := @drivers sample_machine sample_env.

Lemma sample_ops_ok : @DeviceOpsOk sample_ops.
Proof. apply (@drivers_ok sample_machine sample_env). Qed.

(** Addresses as the little-endian host loads them. *)
Definition addr_tap : Z := 0x020200c0.       (** 192.0.2.2 *)
Definition addr_gw : Z := 0x010200c0.        (** 192.0.2.1 *)
Definition addr_lo : Z := 0x0100007f.        (** 127.0.0.1 *)
Definition mac_tap : bytes := [0; 0; 94; 0; 83; 1].
Definition mac_gw : bytes := [0; 0; 94; 0; 83; 2].

Definition sample_tap : net_device :=
  NetDevice [0%nat] 0 (net_name 0) NET_DEVICE_TYPE_ETHERNET 1500
    (Z.lor NET_DEVICE_FLAG_UP (Z.lor NET_DEVICE_FLAG_BROADCAST NET_DEVICE_FLAG_NEED_ARP)) 14 6
    (mac_tap ++ replicate 10 0) (ETHER_ADDR_BROADCAST ++ replicate 10 0) (Some OpsEtherTap)
    (PrivTap [116; 97; 112; 48] 3 ETHER_TAP_IRQ).

Definition sample_lo : net_device :=
  NetDevice [1%nat] 1 (net_name 1) NET_DEVICE_TYPE_LOOPBACK LOOPBACK_MTU
    (Z.lor NET_DEVICE_FLAG_UP NET_DEVICE_FLAG_LOOPBACK) 0 0
    (replicate 16 0) (replicate 16 0) (Some OpsLoopback) (PrivLoopback LOOPBACK_IRQ []).

Definition sample_net : net_state :=
  NetState [sample_tap; sample_lo] [1%nat; 0%nat] 2
    [IpIface NET_IFACE_FAMILY_IP (Some 0%nat) addr_tap 0x00ffffff 0x000200c0;
     IpIface NET_IFACE_FAMILY_IP (Some 1%nat) addr_lo 0x000000ff 0x0000007f]
    [NetProtocol NET_PROTOCOL_TYPE_IP [] HandlerIp; NetProtocol NET_PROTOCOL_TYPE_ARP [] HandlerArp]
    [NetTimer (Timeval 1 0) (Timeval 0 0) TimerArp] [EventUdp; EventTcp].

Definition sample_ip : ip_state :=
  IpState [1%nat; 0%nat]
    [IpProtocol 6 HandlerTcp; IpProtocol 17 HandlerUdp; IpProtocol 1 HandlerIcmp]
    [IpRoute 0 0 addr_gw 0; IpRoute 0x0000007f 0x000000ff 0 1;
     IpRoute 0x000200c0 0x00ffffff 0 0] 128.

(** A cache that knows the gateway. *)
Definition sample_arp : list arp_cache :=
  ArpCache 2 addr_gw mac_gw (Timeval 0 0)
    :: replicate 31 (ArpCache 0 0 ETHER_ADDR_ANY (Timeval 0 0)).

Definition sample_ctx : sched_ctx := SchedCtx 0 0 0.

(** The first control block is bound to 127.0.0.1:49152, the second is open
    and not bound. *)
Definition sample_udp : list udp_pcb :=
  UdpPcb 1 (IpEndpoint addr_lo 0x00c0) [] sample_ctx
    :: UdpPcb 1 (IpEndpoint 0 0) [] sample_ctx
    :: replicate 14 (UdpPcb 0 (IpEndpoint 0 0) [] sample_ctx).

Definition sample_sys : sys_state := SysState 0 [] [] true [] [] [] [].

Definition sample_world (tcp : list tcp_pcb) : world :=
  World sample_sys sample_net sample_ip sample_arp sample_udp tcp.

Lemma sample_tap_wf : dev_wf sample_tap.
Proof.
  split_and!; try done; try (vm_compute; done); repeat apply Forall_cons_2; try apply Forall_nil_2;
    ulia.
Qed.

Lemma sample_lo_wf : dev_wf sample_lo.
Proof.
  split_and!; try done; try (vm_compute; done); repeat apply Forall_cons_2; try apply Forall_nil_2;
    ulia.
Qed.

(** A frame with three bytes of payload for the sample host, padded by the
    sender, reaches [net_input_handler]. *)
Lemma ether_frame_delivery_witness :
  ∃ frame flen,
    @ether_frame sample_machine mac_gw mac_tap ETHER_TYPE_IP [1; 2; 3] 3 = Some (frame, flen) ∧
    @ether_input_helper sample_machine sample_env 0
      (λ _ _, ret (flen, take (Z.to_nat flen) frame)) (sample_world [])
    = @net_input_handler sample_env ETHER_TYPE_IP ([1; 2; 3] ++ replicate 43 0) 46 0
        (sample_world []).
Proof.
  destruct (@ether_frame_total sample_machine mac_gw mac_tap ETHER_TYPE_IP [1; 2; 3] 3)
    as (frame&flen&E&_); try (vm_compute; done).
  exists frame, flen. split; [exact E|].
  rewrite (@ether_frame_delivery sample_machine sample_env mac_gw mac_tap ETHER_TYPE_IP [1; 2; 3] 3
             frame flen 0 sample_tap (sample_world [])); try (vm_compute; done).
Defined.

Lemma sample_never_fails : @never_fails sample_env.
Proof. done. Qed.
