(* ===== verification/Receive.v ===== *)
(** * The receive path below the protocols

    From a driver's interrupt handler to the protocols' handlers:
    [net_input_handler] and [net_softirq_handler] of [src/src/net.c],
    [loopback_isr] of [src/src/driver/loopback.c] and [ether_tap_isr] of
    [src/src/platform/linux/driver/ether_tap.c].  The lemmas say what each
    changes; the theorems that no packet is lost, doubled or reordered on
    the way, and that the loops end. *)

From S2P Require Import Prelude Bytes Clock Text Addr Monad State Platform Queue Net Ether.
From S2P Require Import Drivers Device Sample.

(** ** What the receive path changes *)

(** A packet in an input queue: it has its bytes, and a device. *)
Definition input_entry_ok (w : world) (e : net_queue_entry) : Prop :=
  zlen (nqe_data e) = nqe_len e ∧ bytes_ok (nqe_data e)
  ∧ (nqe_dev e < length (n_devs (w_net w)))%nat.

Definition inputs_ok (w : world) : Prop :=
  Forall (λ p, Forall (input_entry_ok w) (np_queue p)) (n_protocols (w_net w)).

Definition frames_ok (w : world) : Prop := Forall (λ f, bytes_ok f.2) (y_rx (w_sys w)).

(** The tables of net.c without the contents of the input queues. *)
Definition net_registry (n : net_state) : net_state :=
  set_n_protocols (set_np_queue [] <$> n_protocols n) (net_tables n).

(** The receive path moves packets between the queues and raises signals;
    nothing else changes. *)
Record receive_frame (w w' : world) : Prop := ReceiveFrame {
  rf_devs : dev_static <$> n_devs (w_net w') = dev_static <$> n_devs (w_net w);
  rf_net : net_registry (w_net w') = net_registry (w_net w);
  rf_ip : w_ip w' = w_ip w;
  rf_arp : w_arp w' = w_arp w;
  rf_udp : w_udp w' = w_udp w;
  rf_tcp : w_tcp w' = w_tcp w;
  rf_locked : locked w' = locked w;
  rf_irqs : y_irqs (w_sys w') = y_irqs (w_sys w);
  rf_wire : y_wire (w_sys w') = y_wire (w_sys w);
  rf_loopbacks : loopbacks_ok w → loopbacks_ok w';
  rf_inputs : inputs_ok w → inputs_ok w';
  rf_frames : frames_ok w → frames_ok w'
}.

#[export] Instance receive_frame_preorder : PreOrder receive_frame.
Proof.
  split.
  - intros w. by constructor.
  - intros w1 w2 w3 [] []. constructor; (congruence || auto).
Qed.

Lemma static_length w w' :
  dev_static <$> n_devs (w_net w') = dev_static <$> n_devs (w_net w) →
  length (n_devs (w_net w')) = length (n_devs (w_net w)).
Proof. intros E%(f_equal length). by rewrite !length_fmap in E. Qed.

Lemma inputs_ok_same w w' :
  n_protocols (w_net w') = n_protocols (w_net w) →
  dev_static <$> n_devs (w_net w') = dev_static <$> n_devs (w_net w) →
  inputs_ok w → inputs_ok w'.
Proof.
  intros Hp Hd. unfold inputs_ok, input_entry_ok. by rewrite Hp, (static_length _ _ Hd).
Qed.

(** ** net_input_handler *)

Definition push_world (k : nat) (e : net_queue_entry) (w : world) : world :=
  set_w_net (set_n_protocols
    (alter (λ p, set_np_queue (np_queue p ++ [e]) p) k (n_protocols (w_net w))) (w_net w)) w.

Lemma registry_alter (n : net_state) (k : nat) (q : net_protocol → list net_queue_entry) :
  net_registry (set_n_protocols (alter (λ p, set_np_queue (q p) p) k (n_protocols n)) n)
  = net_registry n.
Proof.
  unfold net_registry. apply (f_equal (λ l, set_n_protocols l (net_tables n))). cbn. generalize (n_protocols n). intros l.
  revert k. induction l as [|p l IH]; intros [|k]; [done..|]. cbn. f_equal. apply IH.
Qed.

Lemma inputs_ok_push k e w : input_entry_ok w e → inputs_ok w → inputs_ok (push_world k e w).
Proof.
  intros He Hw. unfold inputs_ok. cbn. apply Forall_alter; [exact Hw|].
  intros p _ Hp. cbn. apply Forall_app_2; [exact Hp|]. by apply Forall_singleton.
Qed.

Section Input.
Context `{Env}.

Definition raise_world (irq : Z) (w : world) : world :=
  set_w_sys (set_y_raised (y_raised (w_sys w) ++ [irq]) (w_sys w)) w.

(** A packet of a registered type is appended to its queue with a copy of
    its bytes, and the software interrupt raised, unless memory runs out. *)
Lemma net_input_handler_eq type data len d w :
  0 <= len <= zlen data →
  net_input_handler type data len d w
  = match list_find (λ p, np_type p = type) (n_protocols (w_net w)) with
    | None => Done 0 w
    | Some (k, _) =>
        if env_calloc (y_calls (w_sys w)) then
          if env_calloc (S (y_calls (w_sys w))) then
            Done 0 (raise_world INTR_IRQ_SOFTIRQ
              (push_world k (NetQueueEntry d len (take (Z.to_nat len) data))
                 (tick_world (tick_world w))))
          else Done (-1) (tick_world (tick_world w))
        else Done (-1) (tick_world w)
    end.
Proof.
  intros Hl. unfold net_input_handler, proto_queue_push.
  unfold bind at 1, gets. destruct (list_find _ _) as [[k p]|]; [|done].
  unfold memory_alloc, env_call. cbn. destruct (env_calloc _); [|done]. cbn.
  rewrite slice_spec by lia. unfold expect, ret, bind, gets, sys_modify, modify. cbn.
  by destruct (env_calloc _).
Qed.

Lemma net_input_handler_wp type data len d w :
  0 <= len <= zlen data → bytes_ok data → (d < length (n_devs (w_net w)))%nat →
  wp (net_input_handler type data len d) (λ _, receive_frame w) w.
Proof.
  intros Hl Hok Hd. unfold wp. rewrite net_input_handler_eq by done.
  destruct (list_find _ _) as [[k p]|]; [|done].
  destruct (env_calloc _); [|by constructor]. destruct (env_calloc _); [|by constructor].
  constructor; try done.
  - apply (registry_alter (w_net w)).
  - intros Hw. eapply (inputs_ok_push k (NetQueueEntry d len (take (Z.to_nat len) data)) w); [|done].
    split_and!; cbn; [|by apply Forall_take|done]. unfold zlen in *. rewrite length_take. lia.
Qed.
End Input.

(** ** net_softirq_handler *)

(** The packets in the input queues, in the order they are handled in. *)
Definition pending (ps : list net_protocol) : list (net_handler * net_queue_entry) :=
  ps ≫= λ p, pair (np_handler p) <$> np_queue p.

Definition queue_world (k : nat) (q : list net_queue_entry) (w : world) : world :=
  set_w_net (set_n_protocols (alter (set_np_queue q) k (n_protocols (w_net w))) (w_net w)) w.

Lemma alter_queue_id (l : list net_protocol) (k : nat) (p : net_protocol) (q : list net_queue_entry) :
  l !! k = Some p → np_queue p = q → alter (set_np_queue q) k l = l.
Proof.
  intros Hp <-. rewrite <- (list_alter_id id l k) at 2 by done.
  apply list_alter_ext; [|done]. intros p' Hp'. replace p' with p by congruence. by destruct p.
Qed.

(** Taking the next packet off its queue. *)
Lemma pending_pop ps k p e q :
  ps !! k = Some p → np_queue p = e :: q → pending (take k ps) = [] →
  pending ps = (np_handler p, e) :: pending (alter (set_np_queue q) k ps).
Proof.
  intros Hp Hq He. pose proof (lookup_lt_Some _ _ _ Hp).
  assert (alter (set_np_queue q) k ps = take k ps ++ set_np_queue q p :: drop (S k) ps) as ->.
  { rewrite <- (take_drop_middle ps k p Hp) at 1.
    by rewrite alter_app_r_alt, length_take_le, Nat.sub_diag by (rewrite ?length_take; lia). }
  rewrite <- (take_drop_middle ps k p Hp) at 1. unfold pending in *. rewrite !bind_app, !He.
  cbn. by rewrite Hq.
Qed.

Section Softirq.
Context (call : net_handler → bytes → Z → nat → C unit).
Context (I : list (net_handler * net_queue_entry) → world → Prop).

(** [I done] holds once the packets of [done] have been handled: handling
    the next one, taken off its queue when the queues before that are empty,
    adds it to [done]; the handler leaves the input queues alone. *)
Definition handles : Prop :=
  ∀ done k p e q w, I done w → n_protocols (w_net w) !! k = Some p → np_queue p = e :: q →
    pending (take k (n_protocols (w_net w))) = [] →
    wp (call (np_handler p) (nqe_data e) (nqe_len e) (nqe_dev e))
       (λ _ w', n_protocols (w_net w') = n_protocols (w_net (queue_world k q w))
                ∧ I (done ++ [(np_handler p, e)]) w') (queue_world k q w).

Hypothesis Hcall : handles.

Lemma softirq_drain_wp fuel k p done w :
  (length (np_queue p) <= fuel)%nat → n_protocols (w_net w) !! k = Some p →
  pending (take k (n_protocols (w_net w))) = [] → I done w →
  wp (net_softirq_drain call fuel k)
     (λ _ w', n_protocols (w_net w') = alter (set_np_queue []) k (n_protocols (w_net w))
              ∧ I (done ++ (pair (np_handler p) <$> np_queue p)) w') w.
Proof.
  revert p done w. induction fuel as [|fuel IH]; intros p done w Hl Hp He HI;
    cbn [net_softirq_drain]; do 2 wp_step; rewrite Hp; do 2 wp_step;
    destruct (np_queue p) as [|e q] eqn:Eq; cbn [Fifo.pop fmap list_fmap]; cbn in Hl; try lia.
  1,2: wp_step; rewrite app_nil_r; split; [|exact HI]; symmetry; by eapply alter_queue_id.
  do 2 wp_step. change (wp ?m ?Q _) with (wp m Q (queue_world k q w)). apply wp_bind.
  eapply wp_mono; [by apply Hcall|]. intros [] w1 [Hn HI1].
  eapply wp_mono; [eapply (IH (set_np_queue q p)); [cbn; lia| | |exact HI1]|].
  - rewrite Hn. cbn. by rewrite list_lookup_alter_eq, Hp.
  - rewrite Hn. cbn [w_net queue_world set_w_net n_protocols set_n_protocols]. by rewrite take_alter_ge by lia.
  - intros [] w' [-> HI']. split.
    + rewrite Hn. cbn. rewrite list_alter_alter_eq. by apply list_alter_ext.
    + by rewrite <- app_assoc in HI'.
Qed.

Lemma softirq_loop_wp pre ps done w :
  n_protocols (w_net w) = pre ++ ps → pending pre = [] → I done w →
  wp (for_each (seq (length pre) (length ps)) (net_softirq_proto call))
     (λ _ w', n_protocols (w_net w') = pre ++ (set_np_queue [] <$> ps)
              ∧ I (done ++ pending ps) w') w.
Proof.
  revert pre done w. induction ps as [|p ps IH]; intros pre done w Hw He HI;
    cbn [length seq for_each].
  { wp_step. split; [done|]. unfold pending. cbn. by rewrite app_nil_r. }
  assert (n_protocols (w_net w) !! length pre = Some p) as Hp by (by rewrite Hw, list_lookup_middle).
  wp_step. unfold net_softirq_proto. do 2 wp_step. rewrite Hp. do 2 wp_step.
  eapply wp_mono; [apply softirq_drain_wp; [done|done|by rewrite Hw, take_app_length|done]|]. intros [] w1 [Hn HI1].
  specialize (IH (pre ++ [set_np_queue [] p])). rewrite length_app, Nat.add_comm in IH.
  eapply wp_mono; [apply IH; [| |exact HI1]|].
  - rewrite Hn, Hw, <- app_assoc. by rewrite alter_app_r_alt, Nat.sub_diag by lia.
  - unfold pending in *. by rewrite bind_app, He.
  - intros [] w' [-> HI']. by rewrite <- !app_assoc in *.
Qed.

Lemma net_softirq_wp w :
  I [] w →
  wp (net_softirq_handler call) (λ r w', r = 0 ∧ I (pending (n_protocols (w_net w))) w'
    ∧ n_protocols (w_net w') = set_np_queue [] <$> n_protocols (w_net w)) w.
Proof.
  intros HI. unfold net_softirq_handler. do 3 wp_step.
  eapply wp_mono; [by apply (softirq_loop_wp [])|]. intros [] w' [Hn HI']. by wp_step.
Qed.

(** The software interrupt handler delivers exactly once and in order:
    every packet in the input queues when it starts is taken off its queue
    and handed to its protocol's handler once, protocol by protocol and in
    the order of arrival; no other packet is handled, and the queues end up
    empty.  The invariant [I], indexed by the packets handled, is what the
    handlers maintain. *)
Lemma net_softirq_delivers w :
  I [] w →
  wp (net_softirq_handler call) (λ r w', r = 0 ∧ I (pending (n_protocols (w_net w))) w'
    ∧ n_protocols (w_net w') = set_np_queue [] <$> n_protocols (w_net w)) w.
Proof. apply net_softirq_wp. Qed.
End Softirq.

(** ** Loopback *)

(** A packet that reaches the queue of its type. *)
Definition proto_receive (type : Z) (e : net_queue_entry) (ps : list net_protocol)
  : list net_protocol :=
  match list_find (λ p, np_type p = type) ps with
  | Some (k, _) => alter (λ p, set_np_queue (np_queue p ++ [e]) p) k ps
  | None => ps
  end.

(** The packets of a loopback queue, in order. *)
Definition loopback_receive (d : nat) (q : list loopback_queue_entry) (ps : list net_protocol)
  : list net_protocol :=
  foldl (λ ps e, proto_receive (lqe_type e) (NetQueueEntry d (lqe_len e) (lqe_data e)) ps) ps q.

(** A device whose queue is replaced. *)
Definition with_queue (q : list loopback_queue_entry) (dev : net_device) : net_device :=
  match d_priv dev with
  | PrivLoopback irq _ => set_d_priv (PrivLoopback irq q) dev
  | _ => dev
  end.

Lemma with_queue_static q dev : dev_static (with_queue q dev) = dev_static dev.
Proof. unfold with_queue, dev_static. by destruct (d_priv dev) as [| |] eqn:E; cbn; rewrite ?E. Qed.

Lemma with_queue_priv q dev irq q0 :
  d_priv dev = PrivLoopback irq q0 → d_priv (with_queue q dev) = PrivLoopback irq q.
Proof. unfold with_queue. by intros ->. Qed.

(** Dropping packets from a device's queue is a step of the receive path. *)
Lemma receive_queue w d dev irq q rest :
  n_devs (w_net w) !! d = Some dev → d_priv dev = PrivLoopback irq (q ++ rest) →
  receive_frame w (set_w_net (set_n_devs (<[d := with_queue rest dev]> (n_devs (w_net w))) (w_net w)) w).
Proof.
  intros Hd Hp. assert (dev_static <$> <[d:=with_queue rest dev]> (n_devs (w_net w))
    = dev_static <$> n_devs (w_net w)) as Hs.
  { eapply dev_static_insert; [done|]. apply with_queue_static. }
  constructor; try done.
  - intros Hl. apply Forall_insert; [done|]. unfold loopbacks_ok in Hl. rewrite Forall_lookup in Hl.
    specialize (Hl d dev Hd). unfold loopback_ok, loopback_queue in *.
    rewrite (with_queue_priv _ _ _ _ Hp). rewrite Hp in Hl. rewrite length_app, Forall_app in Hl.
    split; [lia|]. apply Hl.
  - by apply inputs_ok_same.
Qed.

Section Loopback.
Context `{Env}.

Lemma loopback_drain_wp fuel d dev irq q w :
  n_devs (w_net w) !! d = Some dev → d_priv dev = PrivLoopback irq q → (length q <= fuel)%nat →
  Forall loopback_entry_ok q →
  wp (loopback_drain fuel d) (λ _ w', receive_frame w w'
    ∧ n_devs (w_net w') = <[d := with_queue [] dev]> (n_devs (w_net w))
    ∧ (never_fails → n_protocols (w_net w') = loopback_receive d q (n_protocols (w_net w)))) w.
Proof.
  revert dev q w. induction fuel as [|fuel IH]; intros dev q w Hd Hp Hl Hq; cbn [loopback_drain];
    apply wp_bind; (eapply wp_loopback_priv; [done..|]);
    destruct q as [|e q]; cbn [Fifo.pop]; try (cbn in Hl; lia).
  1,2: wp_step; split_and!; [done| |done];
    rewrite list_insert_id; [done|]; rewrite Hd; f_equal; unfold with_queue; rewrite Hp;
    destruct dev; cbn in Hp; by rewrite <- Hp.
  unfold loopback_set_queue. fold (with_queue q). do 2 wp_step.
  apply Forall_cons in Hq as [[Hlen Hok] Hq].
  pose proof (receive_queue w d dev irq [e] q Hd Hp) as Hf1.
  match goal with |- wp _ _ ?w0 => set (w1 := w0) in * end.
  assert (n_devs (w_net w1) !! d = Some (with_queue q dev)) as Hd1.
  { apply list_lookup_insert_eq. by eapply lookup_lt_Some. }
  pose proof (zlen_nonneg (lqe_data e)). apply wp_bind.
  apply (wp_mono _ (λ _ w2, receive_frame w1 w2 ∧ n_devs (w_net w2) = n_devs (w_net w1)
    ∧ (never_fails → n_protocols (w_net w2)
       = proto_receive (lqe_type e) (NetQueueEntry d (lqe_len e) (lqe_data e))
           (n_protocols (w_net w1))))).
  { apply wp_and; [apply net_input_handler_wp; [lia|done|by eapply lookup_lt_Some]|].
    unfold wlp. rewrite net_input_handler_eq by lia. unfold proto_receive.
    destruct (list_find _ _) as [[k p]|]; [|done].
    destruct (env_calloc (y_calls _)) eqn:E1; [|split; [done|intros Hn; by rewrite Hn in E1]].
    destruct (env_calloc (S _)) eqn:E2; [|split; [done|intros Hn; by rewrite Hn in E2]].
    split; [done|]. intros _. cbn. rewrite take_ge by (unfold zlen in Hlen; lia). done. }
  intros _ w2 (Hf2&Hn2&Hp2).
  assert (d_priv (with_queue q dev) = PrivLoopback irq q) as Hpq by (by eapply with_queue_priv).
  eapply wp_mono; [eapply (IH (with_queue q dev) q w2); [by rewrite Hn2|done|cbn in Hl; lia|done]|].
  intros [] w' (Hf&Hn&Hpr). split_and!.
  - by etrans; [|etrans].
  - rewrite Hn, Hn2. cbn. rewrite list_insert_insert_eq. f_equal. unfold with_queue.
    by rewrite Hp.
  - intros Hnf. rewrite Hpr, Hp2 by done. done.
Qed.

Lemma receive_frame_relock L w w' :
  receive_frame (lock_world L w) w' → receive_frame w (lock_world (locked w) w').
Proof. intros []. by constructor. Qed.

Lemma loopback_isr_wp irq' d dev irq q w :
  n_devs (w_net w) !! d = Some dev → d_priv dev = PrivLoopback irq q → loopback_ok dev →
  MutexLoopback d ∉ locked w →
  wp (loopback_isr irq' d) (λ r w', r = 0 ∧ receive_frame w w'
    ∧ n_devs (w_net w') = <[d := with_queue [] dev]> (n_devs (w_net w))
    ∧ (never_fails → n_protocols (w_net w') = loopback_receive d q (n_protocols (w_net w)))) w.
Proof.
  intros Hd Hp [_ Hok] Hm. unfold loopback_queue in Hok. rewrite Hp in Hok.
  unfold loopback_isr. apply wp_bind. eapply wp_loopback_priv; [done..|]. do 2 wp_step.
  apply wp_bind. eapply wp_loopback_priv; [done..|]. apply wp_bind.
  eapply wp_mono; [by eapply (loopback_drain_wp (length q) d dev irq q)|].
  intros [] w2 (Hf&Hn&Hpr). pose proof (rf_locked _ _ Hf) as Hl. unfold locked in Hl. cbn in Hl.
  do 2 wp_step; [rewrite Hl; by left|]. wp_step. rewrite Hl, filter_unlock by done.
  split_and!; [done| |done|done]. by eapply receive_frame_relock.
Qed.

(** Sending on a loopback device with room in its queue. *)
Lemma loopback_transmit_push d dev irq q type data len dst w :
  never_fails → n_devs (w_net w) !! d = Some dev → d_priv dev = PrivLoopback irq q →
  (length q < 16)%nat → 0 <= len <= zlen data → MutexLoopback d ∉ locked w →
  wp (loopback_transmit d type data len dst) (λ r w', r = 0 ∧ locked w' = locked w
    ∧ n_devs (w_net w')
      = <[d := with_queue (q ++ [LoopbackQueueEntry type len (take (Z.to_nat len) data)]) dev]>
          (n_devs (w_net w))
    ∧ n_protocols (w_net w') = n_protocols (w_net w)) w.
Proof.
  intros Hnf Hd Hp Hlt Hl Hm. unfold loopback_transmit. apply wp_bind.
  eapply wp_loopback_priv; [done..|]. do 2 wp_step. apply wp_bind.
  eapply wp_loopback_priv; [done..|].
  destruct (Z.geb_spec (Fifo.num q) LOOPBACK_QUEUE_LIMIT) as [Hge|_].
  { unfold Fifo.num, LOOPBACK_QUEUE_LIMIT, zlen in Hge. rewrite u32_small in Hge by ulia. lia. }
  do 2 wp_step. rewrite Hnf. cbn [negb]. rewrite slice_spec by lia. do 4 wp_step. rewrite Hnf.
  unfold loopback_set_queue. do 2 wp_step. do 2 wp_step; [by left|]. do 3 wp_step.
  split_and!; [done|by apply filter_unlock|done|done].
Qed.
End Loopback.

Section LoopbackDelivers.
Context `{Env}.

(** The packets of [ps], as the loopback queue holds them. *)
Definition looped (p : Z * bytes) : loopback_queue_entry :=
  LoopbackQueueEntry p.1 (zlen p.2) p.2.

Lemma loopback_transmits d dev irq q ps dst w :
  never_fails → n_devs (w_net w) !! d = Some dev → d_priv dev = PrivLoopback irq q →
  (length q + length ps <= 16)%nat → MutexLoopback d ∉ locked w →
  wp (for_each ps (λ p, loopback_transmit d p.1 p.2 (zlen p.2) dst;; ret tt)) (λ _ w',
    locked w' = locked w
    ∧ n_devs (w_net w') = <[d := with_queue (q ++ (looped <$> ps)) dev]> (n_devs (w_net w))
    ∧ n_protocols (w_net w') = n_protocols (w_net w)) w.
Proof.
  intros Hnf. revert dev q w. induction ps as [|p ps IH]; intros dev q w Hd Hp Hl Hm; cbn [for_each].
  { wp_step. split_and!; [done| |done]. rewrite app_nil_r, list_insert_id; [done|]. rewrite Hd.
    f_equal. unfold with_queue. rewrite Hp. destruct dev. cbn in Hp. by rewrite <- Hp. }
  pose proof (zlen_nonneg p.2). do 2 apply wp_bind. cbn in Hl.
  eapply wp_mono; [by apply (loopback_transmit_push d dev irq q); try lia|].
  intros r w1 (_&Hl1&Hn1&Hp1). wp_step. rewrite take_ge in Hn1 by (unfold zlen; lia).
  eapply wp_mono.
  - eapply (IH _ (q ++ [looped p])); [rewrite Hn1; apply list_lookup_insert_eq; by eapply lookup_lt_Some
      |by eapply with_queue_priv|rewrite length_app; cbn; lia|by rewrite Hl1].
  - intros [] w' (Hl'&Hn'&Hp'). split_and!; [congruence| |congruence].
    rewrite Hn', Hn1, list_insert_insert_eq. f_equal. unfold with_queue. rewrite Hp. cbn.
    by rewrite <- app_assoc.
Qed.

(** The loopback device is a bounded FIFO.  Packets sent on it, as many
    as its sixteen places hold, come back in at the next interrupt: each is
    appended once to the input queue of its type, after those sent before
    it, and the device's queue is empty again. *)
Lemma loopback_delivers d dev irq irq' q ps dst w :
  never_fails → n_devs (w_net w) !! d = Some dev → d_priv dev = PrivLoopback irq q →
  Forall loopback_entry_ok q → Forall (λ p, bytes_ok p.2) ps →
  (length q + length ps <= 16)%nat → MutexLoopback d ∉ locked w →
  wp (for_each ps (λ p, loopback_transmit d p.1 p.2 (zlen p.2) dst;; ret tt);; loopback_isr irq' d)
    (λ r w', r = 0
       ∧ n_protocols (w_net w') = loopback_receive d (q ++ (looped <$> ps)) (n_protocols (w_net w))
       ∧ n_devs (w_net w') = <[d := with_queue [] dev]> (n_devs (w_net w))) w.
Proof.
  intros Hnf Hd Hp Hq Hps Hl Hm. apply wp_bind.
  eapply wp_mono; [by eapply loopback_transmits|]. intros [] w1 (Hl1&Hn1&Hp1).
  set (dev1 := with_queue (q ++ (looped <$> ps)) dev) in *.
  assert (d_priv dev1 = PrivLoopback irq (q ++ (looped <$> ps))) as Hpd by (by eapply with_queue_priv).
  eapply wp_mono.
  - eapply (loopback_isr_wp irq' d dev1); [rewrite Hn1; apply list_lookup_insert_eq;
      by eapply lookup_lt_Some|done| |by rewrite Hl1].
    unfold loopback_ok, loopback_queue. rewrite Hpd, length_app, length_fmap. split; [lia|].
    apply Forall_app_2; [done|]. apply Forall_fmap. eapply Forall_impl; [done|]. by intros p Hb.
  - intros r w' (->&_&Hn&Hr). split_and!; [done|by rewrite Hr, Hp1|].
    rewrite Hn, Hn1, list_insert_insert_eq. f_equal. unfold dev1, with_queue. by rewrite Hp.
Qed.
End LoopbackDelivers.

(** ** Tap *)

(** The frames that wait at a device, oldest first. *)
Definition waiting (d : nat) (rx : list (nat * bytes)) : list bytes :=
  snd <$> filter (λ f, f.1 = d) rx.

Lemma tap_frame_waiting d rx :
  match tap_frame d rx with
  | None => waiting d rx = []
  | Some (i, f) => (i < length rx)%nat ∧ waiting d rx = f :: waiting d (delete i rx)
  end.
Proof.
  unfold tap_frame, waiting. induction rx as [|[d' f] rx IH]; [done|].
  rewrite filter_cons. cbn [list_find fst snd]. destruct (decide (d' = d)) as [->|Hne]; cbn.
  - by split; [lia|].
  - destruct (list_find _ rx) as [[i [d2 f2]]|]; cbn in *; [|done].
    destruct IH as [Hi IH]. split; [lia|]. by rewrite decide_False.
Qed.

Section Tap.
Context `{Machine} `{EnvOk}.

(** What [ether_input_helper] takes in: the type and the payload of a frame
    for the address [addr] or for everyone. *)
Definition ether_accept (addr frame : bytes) : option (Z * bytes) :=
  h ← ether_hdr_at frame;
  if bool_decide (take 6 addr = eh_dst h) || bool_decide (ETHER_ADDR_BROADCAST = eh_dst h)
  then Some (ntoh16 (eh_type h), drop 14 frame) else None.

(** The frames of a device, in order. *)
Definition tap_receive (d : nat) (addr : bytes) (frames : list bytes) (ps : list net_protocol)
  : list net_protocol :=
  foldl (λ ps f,
    match ether_accept addr (take (Z.to_nat ETHER_FRAME_SIZE_MAX) f) with
    | Some (type, data) => proto_receive type (NetQueueEntry d (zlen data) data) ps
    | None => ps
    end) ps frames.

Lemma ether_hdr_at_short frame : zlen frame < 14 → ether_hdr_at frame = None.
Proof.
  unfold zlen. intros Hl. do 14 (destruct frame as [|? frame]; [done|]). cbn in Hl. lia.
Qed.

Lemma ether_hdr_at_long frame : 14 <= zlen frame → ∃ h, ether_hdr_at frame = Some h.
Proof.
  intros Hl. unfold ether_hdr_at. rewrite !slice_spec by lia. cbn [mbind option_bind].
  assert (length (take (Z.to_nat 2) (drop (Z.to_nat 12) frame)) = 2%nat) as L.
  { unfold zlen in Hl. rewrite length_take, length_drop. lia. }
  destruct (take _ (drop (Z.to_nat 12) frame)) as [|t0 [|t1 []]]; try done. by eexists.
Qed.

(** One frame, as the callback of [ether_input_helper] reads it. *)
Definition read_world (i : nat) (w : world) : world :=
  set_w_sys (set_y_rx (delete i (y_rx (w_sys w))) (w_sys w)) w.

Lemma ether_input_tap_wp d dev name fd irq i f w :
  n_devs (w_net w) !! d = Some dev → d_priv dev = PrivTap name fd irq →
  env_fails (y_calls (w_sys w)) = None → tap_frame d (y_rx (w_sys w)) = Some (i, f) → bytes_ok f →
  wp (ether_input_helper d ether_tap_read) (λ _ w',
    receive_frame (read_world i (tick_world w)) w'
    ∧ n_devs (w_net w') = n_devs (w_net w) ∧ y_rx (w_sys w') = delete i (y_rx (w_sys w))
    ∧ (never_fails → n_protocols (w_net w')
        = tap_receive d (d_addr dev) [f] (n_protocols (w_net w)))) w.
Proof.
  intros Hd Hp Hs Hf Hok. unfold ether_input_helper, ether_tap_read. do 2 apply wp_bind.
  eapply wp_tap_priv; [done..|]. do 2 wp_step. rewrite Hs. do 2 wp_step. cbn [y_rx w_sys tick_world
    set_w_sys set_y_calls]. rewrite Hf. do 4 wp_step. cbn [fst snd].
  change (set_w_sys _ (tick_world w)) with (read_world i (tick_world w)).
  set (w1 := read_world i (tick_world w)).
  assert (tap_receive d (d_addr dev) [f] (n_protocols (w_net w))
    = match ether_accept (d_addr dev) (take (Z.to_nat ETHER_FRAME_SIZE_MAX) f) with
      | Some (type, data) => proto_receive type (NetQueueEntry d (zlen data) data)
                               (n_protocols (w_net w))
      | None => n_protocols (w_net w)
      end) as -> by done.
  set (frame := take (Z.to_nat ETHER_FRAME_SIZE_MAX) f).
  assert (bytes_ok frame) as Hfr by (by apply Forall_take).
  pose proof (zlen_nonneg frame). unfold ether_accept, ETHER_HDR_SIZE.
  destruct (Z.leb_spec (zlen frame) 0) as [Hz|Hz]; wp_step.
  { rewrite (ether_hdr_at_short frame) by lia. destruct (Z.ltb_spec (-1) 14); [by wp_step|lia]. }
  destruct (Z.ltb_spec (zlen frame) 14) as [Hs14|Hs14].
  { rewrite (ether_hdr_at_short frame) by lia. by wp_step. }
  destruct (ether_hdr_at_long frame Hs14) as [h Hh]. rewrite Hh. do 2 wp_step. cbn [mbind option_bind].
  wp_step. eapply wp_get_dev; [exact Hd|].
  destruct (bool_decide (take 6 (d_addr dev) = _)) eqn:E1, (bool_decide (ETHER_ADDR_BROADCAST = _)) eqn:E2;
    cbn [negb andb orb]; [| | |by wp_step].
  all: assert (zlen (drop 14 frame) = zlen frame - 14) as Hz14
         by (unfold zlen in *; rewrite length_drop; lia).
  all: apply wp_and; [apply net_input_handler_wp; [lia|by apply Forall_drop|by eapply lookup_lt_Some]|].
  all: unfold wlp; rewrite net_input_handler_eq by lia; unfold proto_receive.
  all: change (n_protocols (w_net w1)) with (n_protocols (w_net w)).
  all: destruct (list_find _ _) as [[k p]|]; [|done].
  all: destruct (env_calloc (y_calls _)) eqn:C1; [|split_and!; try done; intros Hn; by rewrite Hn in C1].
  all: destruct (env_calloc (S _)) eqn:C2; [|split_and!; try done; intros Hn; by rewrite Hn in C2].
  all: split_and!; try done; intros _; cbn; rewrite Hz14, take_ge by (unfold zlen in *; lia); done.
Qed.

Lemma ether_input_tap_fails d dev name fd irq b w :
  n_devs (w_net w) !! d = Some dev → d_priv dev = PrivTap name fd irq →
  env_fails (y_calls (w_sys w)) = Some b →
  wp (ether_input_helper d ether_tap_read) (λ _ w', w' = tick_world w) w.
Proof.
  intros Hd Hp Hs. unfold ether_input_helper, ether_tap_read. do 2 apply wp_bind.
  eapply wp_tap_priv; [done..|]. do 2 wp_step. rewrite Hs. wp_step.
  destruct (Z.ltb_spec (-1) ETHER_HDR_SIZE) as [_|Hc]; [by wp_step|by unfold ETHER_HDR_SIZE in Hc].
Qed.

Lemma receive_read i w : receive_frame w (read_world i (tick_world w)).
Proof. constructor; try done. intros Hf. by apply Forall_delete. Qed.

Lemma receive_tick w : receive_frame w (tick_world w).
Proof. by constructor. Qed.

(** The outcome of the loop: the [k] oldest frames have been taken in. *)
Definition tap_read (d : nat) (dev : net_device) (w : world) (r : Z) (w' : world) : Prop :=
  receive_frame w w' ∧ n_devs (w_net w') = n_devs (w_net w)
  ∧ ∃ k, waiting d (y_rx (w_sys w')) = drop k (waiting d (y_rx (w_sys w)))
    ∧ (never_fails → n_protocols (w_net w')
        = tap_receive d (d_addr dev) (take k (waiting d (y_rx (w_sys w)))) (n_protocols (w_net w)))
    ∧ (r = 0 ∧ (length (waiting d (y_rx (w_sys w))) <= k)%nat ∨ r = -1 ∧ ¬ polls_succeed).

Lemma tap_read_tick d dev w r w' : tap_read d dev (tick_world w) r w' → tap_read d dev w r w'.
Proof. intros (Hf&Hrest). split; [|exact Hrest]. etrans; [apply receive_tick|done]. Qed.

(** A round that took in a frame. *)
Lemma tap_read_frame d dev i f w w1 r w' :
  tap_frame d (y_rx (w_sys w)) = Some (i, f) →
  receive_frame (read_world i (tick_world w)) w1 → n_devs (w_net w1) = n_devs (w_net w) →
  y_rx (w_sys w1) = delete i (y_rx (w_sys w)) →
  (never_fails → n_protocols (w_net w1) = tap_receive d (d_addr dev) [f] (n_protocols (w_net w))) →
  tap_read d dev w1 r w' → tap_read d dev w r w'.
Proof.
  intros Hf Hf1 Hn1 Hr1 Hp1 (Hf2&Hn2&k&Hw&Hp&Hr). pose proof (tap_frame_waiting d (y_rx (w_sys w))) as Hx.
  rewrite Hf in Hx. destruct Hx as [_ Hx]. rewrite Hr1 in *. split_and!.
  - etrans; [apply (receive_read i)|]. by etrans.
  - congruence.
  - exists (S k). rewrite Hx. cbn [drop take length]. split_and!; [done| |].
    + intros Hnf. by rewrite Hp, Hp1 by done.
    + destruct Hr as [[-> Hr]|Hr]; [left; split; [done|lia]|by right].
Qed.

Ltac rx_lia := cbn [y_calls y_rx w_sys tick_world set_w_sys set_y_calls]; lia.

Lemma ether_tap_poll_wp fuel j d dev name fd irq w :
  n_devs (w_net w) !! d = Some dev → d_priv dev = PrivTap name fd irq → frames_ok w →
  (y_calls (w_sys w) <= j)%nat → env_fails j = None → env_fails (S j) = None →
  (length (waiting d (y_rx (w_sys w))) * (env_patience + 3) + (j - y_calls (w_sys w)) < fuel)%nat →
  wp (ether_tap_poll fuel d) (tap_read d dev w) w.
Proof.
  revert j w. induction fuel as [|fuel IH]; intros j w Hd Hp Hok Hj Hs1 Hs2 Hfuel; [lia|].
  cbn [ether_tap_poll]. do 4 wp_step. cbn [y_rx w_sys tick_world set_w_sys set_y_calls].
  pose proof (tap_frame_waiting d (y_rx (w_sys w))) as Hx.
  destruct (env_fails (y_calls (w_sys w))) as [[]|] eqn:Ek.
  - assert (y_calls (w_sys w) ≠ j) by congruence. eapply wp_mono; [eapply (IH j); try done; rx_lia|].
    intros r w'. apply tap_read_tick.
  - wp_step. split_and!; [apply receive_tick|done|]. exists 0%nat. split_and!; [done..|right].
    split; [done|]. intros Hpoll. by apply (Hpoll (y_calls (w_sys w))).
  - destruct (tap_frame d (y_rx (w_sys w))) as [[i f]|] eqn:Ef.
    2:{ wp_step. split_and!; [apply receive_tick|done|]. exists 0%nat. rewrite Hx. by split_and!; [..|left]. }
    destruct Hx as [Hi Hx]. pose proof Hx as Hx'%(f_equal length). cbn [length] in Hx'. apply wp_bind.
    destruct (env_fails (S (y_calls (w_sys w)))) as [b|] eqn:Ek'.
    + assert (S (y_calls (w_sys w)) ≠ j) by congruence. assert (y_calls (w_sys w) ≠ j) by congruence.
      eapply wp_mono; [by eapply (ether_input_tap_fails d dev _ _ _ b)|]. intros _ w1 ->.
      eapply wp_mono; [eapply (IH j); try done; rx_lia|].
      intros r w' Hr. by do 2 apply tap_read_tick.
    + assert (bytes_ok f) as Hfok.
      { unfold tap_frame in Ef. destruct (list_find _ _) as [[i' [d' f']]|] eqn:El; [|done].
        cbn in Ef. apply (inj Some), pair_eq in Ef as [-> ->].
        apply list_find_Some in El as (El&_). unfold frames_ok in Hok. rewrite Forall_lookup in Hok.
        by apply (Hok _ _ El). }
      eapply wp_mono; [by eapply (ether_input_tap_wp d dev _ _ _ i f)|].
      intros _ w1 (Hf1&Hn1&Hr1&Hp1). destruct (env_fails_fair (y_calls (w_sys w1))) as (j'&Hj'&?&?).
      eapply wp_mono; [eapply (IH j'); try done|].
      * by rewrite Hn1.
      * eapply rf_frames; [exact Hf1|]. by apply Forall_delete.
      * lia.
      * rewrite Hr1. rx_lia.
      * intros r w' Hr. apply tap_read_tick. by eapply tap_read_frame.
Qed.

Lemma ether_tap_isr_wp irq' d dev name fd irq w :
  n_devs (w_net w) !! d = Some dev → d_priv dev = PrivTap name fd irq → frames_ok w →
  wp (ether_tap_isr irq' d) (tap_read d dev w) w.
Proof.
  intros Hd Hp Hok. unfold ether_tap_isr. apply wp_bind. eapply wp_tap_priv; [done..|]. do 2 wp_step.
  destruct (env_fails_fair (y_calls (w_sys w))) as (j&Hj&?&?).
  eapply (ether_tap_poll_wp _ j); try done; [lia|].
  assert (length (waiting d (y_rx (w_sys w))) <= length (y_rx (w_sys w)))%nat.
  { unfold waiting. rewrite length_fmap. apply length_filter. }
  nia.
Qed.

(** The tap driver's interrupt handler takes in every waiting frame.  It
    always ends; unless a poll fails for good, no frame is left waiting,
    and the frames for this host or for everyone have been appended to the
    input queues of their types, once each and in order of arrival; a frame
    for another host or too short to have a header has no effect.  When a
    poll fails, the frames taken in are the oldest ones. *)
Lemma ether_tap_isr_reads irq' d dev name fd irq w :
  n_devs (w_net w) !! d = Some dev → d_priv dev = PrivTap name fd irq → frames_ok w →
  wp (ether_tap_isr irq' d) (tap_read d dev w) w.
Proof. apply ether_tap_isr_wp. Qed.
End Tap.

(** ** On the sample host *)

Definition sample_entry (data : bytes) : net_queue_entry := NetQueueEntry 0 (zlen data) data.

(** Two IP packets and an ARP packet wait for the protocols. *)
Definition sample_queued : world :=
  set_w_net (set_n_protocols
    [NetProtocol NET_PROTOCOL_TYPE_IP [sample_entry [1]; sample_entry [2; 3]] HandlerIp;
     NetProtocol NET_PROTOCOL_TYPE_ARP [sample_entry [4]] HandlerArp] sample_net) (sample_world []).

Lemma net_softirq_delivers_witness :
  wp (net_softirq_handler (λ _ _ _ _, ret tt)) (λ r w', r = 0
    ∧ n_protocols (w_net w') = set_np_queue [] <$> n_protocols (w_net sample_queued)) sample_queued.
Proof.
  eapply wp_mono.
  - apply (net_softirq_delivers (λ _ _ _ _, ret tt)
      (λ done w, done ++ pending (n_protocols (w_net w)) = pending (n_protocols (w_net sample_queued)))).
    + intros done k p e q w HI Hp Hq He. wp_step. split; [done|].
      rewrite <- HI, <- app_assoc. f_equal. symmetry. by apply pending_pop.
    + done.
  - by intros r w' (->&_&->).
Defined.

Lemma loopback_delivers_witness :
  wp (for_each [(NET_PROTOCOL_TYPE_IP, [1; 2]); (NET_PROTOCOL_TYPE_ARP, [3]); (NET_PROTOCOL_TYPE_IP, [4])]
        (λ p, @loopback_transmit sample_env 1 p.1 p.2 (zlen p.2) [];; ret tt);;
      @loopback_isr sample_env LOOPBACK_IRQ 1)
    (λ _ w', np_queue <$> n_protocols (w_net w')
       = [[NetQueueEntry 1 2 [1; 2]; NetQueueEntry 1 1 [4]]; [NetQueueEntry 1 1 [3]]]) (sample_world []).
Proof.
  eapply wp_mono.
  - apply (@loopback_delivers sample_env 1 sample_lo LOOPBACK_IRQ LOOPBACK_IRQ []); try done.
    + repeat apply Forall_cons_2; try apply Forall_nil_2; done.
    + cbn. lia.
    + by apply not_elem_of_nil.
  - intros r w' (_&->&_). vm_compute. reflexivity.
Defined.

(** A frame for the host, one for another host, and one for everyone. *)
Definition sample_frames : list (nat * bytes) :=
  [(0%nat, mac_tap ++ mac_gw ++ [8; 0; 1; 2]); (0%nat, mac_gw ++ mac_tap ++ [8; 0; 3]);
   (0%nat, ETHER_ADDR_BROADCAST ++ mac_gw ++ [8; 6; 4])].

Definition sample_framed : world :=
  set_w_sys (set_y_rx sample_frames sample_sys) (sample_world []).

Lemma ether_tap_isr_reads_witness :
  wp (@ether_tap_isr sample_machine sample_env ETHER_TAP_IRQ 0)
    (λ r w', r = 0 ∧ np_queue <$> n_protocols (w_net w')
       = [[NetQueueEntry 0 2 [1; 2]]; [NetQueueEntry 0 1 [4]]]) sample_framed.
Proof.
  eapply wp_mono.
  - apply (@ether_tap_isr_reads sample_machine sample_env sample_env_ok ETHER_TAP_IRQ 0 sample_tap
      [116; 97; 112; 48] 3 ETHER_TAP_IRQ sample_framed); try done.
    repeat apply Forall_cons_2; try apply Forall_nil_2; repeat apply Forall_cons_2; try apply Forall_nil_2;
      ulia.
  - intros r w' (_&_&k&_&Hp&[[-> Hk]|[_ Hn]]); [|by destruct Hn].
    split; [done|]. rewrite Hp by done. rewrite take_ge by exact Hk. vm_compute. reflexivity.
Defined.
