(* ===== verification/Timers.v ===== *)
(** * Timers and events

    [net_timer_handler] and [net_event_handler] of [src/src/net.c]: which of
    the registered functions they call, how often and in which order. *)

From S2P Require Import Prelude Clock Monad State Platform Net Sample.

(** ** Timers *)

Definition timer_ok (t : net_timer) : Prop := tv_ok (nt_interval t) ∧ tv_ok (nt_last t).

(** More than the interval has passed since the last call. *)
Definition timer_due (t : net_timer) (now : timeval) : bool :=
  tv_us (nt_interval t) <? tv_us now - tv_us (nt_last t).

Definition timer_after (t : net_timer) (now : timeval) : net_timer :=
  if timer_due t now then set_nt_last now t else t.

(** The functions of the timers that are due, when the timers are looked at
    at the readings [nows] of the clock. *)
Definition timers_due (ts : list net_timer) (nows : list timeval) : list timer_handler :=
  mjoin (zip_with (λ t now, if timer_due t now then [nt_handler t] else []) ts nows).

Definition timers_world (ts : list net_timer) (w : world) : world :=
  set_w_net (set_n_timers ts (w_net w)) w.

(** Calls of the environment made one after the other, from the [c]-th on. *)
Fixpoint calls_from (c : nat) (cs : list nat) : Prop :=
  match cs with
  | [] => True
  | c' :: cs => (c <= c')%nat ∧ calls_from (S c') cs
  end.

Lemma calls_from_mono c c' cs : (c <= c')%nat → calls_from c' cs → calls_from c cs.
Proof. destruct cs as [|c'' cs]; [done|]. intros Hc [? ?]. split; [lia|done]. Qed.

Section Timers.
Context `{EnvOk} (call : timer_handler → C unit) (I : list timer_handler → world → Prop).

(** [I fired] holds once the functions of [fired] have been called, whatever
    the clock and the times of the last calls; a function leaves the timers
    alone. *)
Record fires : Prop := Fires {
  fi_call : ∀ fired h w, I fired w →
    wp (call h) (λ _ w', n_timers (w_net w') = n_timers (w_net w)
                         ∧ (y_calls (w_sys w) <= y_calls (w_sys w'))%nat
                         ∧ I (fired ++ [h]) w') w;
  fi_tick : ∀ fired w, I fired w → I fired (tick_world w);
  fi_last : ∀ fired ts w, I fired w → I fired (timers_world ts w)
}.

Hypothesis Hcall : fires.

Lemma timer_step_wp pre t ts fired w :
  n_timers (w_net w) = pre ++ t :: ts → timer_ok t → I fired w →
  let now := env_gettimeofday (y_calls (w_sys w)) in
  wp (net_timer_step call (length pre)) (λ _ w',
    n_timers (w_net w') = pre ++ timer_after t now :: ts
    ∧ (y_calls (w_sys w) < y_calls (w_sys w'))%nat
    ∧ I (fired ++ if timer_due t now then [nt_handler t] else []) w') w.
Proof.
  intros Ets [Hint Hlast] HI now. assert (tv_ok now) as Hnow by apply env_time_ok.
  destruct (timersub_spec now (nt_last t) Hnow Hlast) as [Hd Eus].
  unfold net_timer_step. do 2 wp_step. rewrite Ets, list_lookup_middle by done.
  wp_step. wp_step. wp_step. apply wp_env_call. fold now.
  rewrite timercmp_ltb, Eus by done. fold (timer_due t now). unfold timer_after.
  destruct (timer_due t now).
  - apply wp_bind. eapply wp_mono; [apply (fi_call Hcall fired), (fi_tick Hcall), HI|].
    intros [] w1 (Et & Hc & HI1). wp_step. cbn in Et, Hc |- *.
    split_and!; [|lia|by apply (fi_last Hcall)].
    by rewrite Et, Ets, alter_app_r_alt, Nat.sub_diag by lia.
  - wp_step. cbn. rewrite app_nil_r. split_and!; [done|lia|by apply (fi_tick Hcall)].
Qed.

Lemma timer_loop_wp pre ts fired w :
  n_timers (w_net w) = pre ++ ts → Forall timer_ok ts → I fired w →
  wp (for_each (seq (length pre) (length ts)) (net_timer_step call)) (λ _ w', ∃ cs,
    calls_from (y_calls (w_sys w)) cs ∧ length cs = length ts
    ∧ n_timers (w_net w') = pre ++ zip_with timer_after ts (env_gettimeofday <$> cs)
    ∧ I (fired ++ timers_due ts (env_gettimeofday <$> cs)) w') w.
Proof.
  revert pre fired w. induction ts as [|t ts IH]; intros pre fired w Ets Hok HI; cbn [seq length for_each].
  { wp_step. exists []. by rewrite !app_nil_r in *. }
  apply Forall_cons in Hok as [Ht Hok]. apply wp_bind.
  eapply wp_mono; [by eapply timer_step_wp|]. intros [] w1 (E1 & Hc & HI1).
  set (now := env_gettimeofday _) in *.
  replace (S (length pre)) with (length (pre ++ [timer_after t now])) by (rewrite length_app; cbn; lia).
  eapply wp_mono; [eapply IH; [by rewrite E1, <- app_assoc|done|exact HI1]|].
  intros [] w2 (cs & Hcs & El & E2 & HI2). exists (y_calls (w_sys w) :: cs). split_and!.
  - split; [lia|]. eapply calls_from_mono; [|exact Hcs]. lia.
  - cbn. congruence.
  - by rewrite E2, <- app_assoc.
  - by rewrite <- app_assoc in HI2.
Qed.

(** C23. [net_timer_handler] looks at every timer once, in the order of the
    list, each at a reading of the clock of its own.  It calls exactly the
    functions of the timers whose last call is more than their interval
    before the reading, sets the time of the last call of these to the
    reading, and changes no other timer; it returns 0. *)
Theorem net_timer_fires w :
  Forall timer_ok (n_timers (w_net w)) → I [] w →
  wp (net_timer_handler call) (λ r w', r = 0 ∧ ∃ cs,
    calls_from (y_calls (w_sys w)) cs ∧ length cs = length (n_timers (w_net w))
    ∧ n_timers (w_net w') = zip_with timer_after (n_timers (w_net w)) (env_gettimeofday <$> cs)
    ∧ I (timers_due (n_timers (w_net w)) (env_gettimeofday <$> cs)) w') w.
Proof.
  intros Hok HI. unfold net_timer_handler. do 2 wp_step. apply wp_bind.
  eapply wp_mono; [by apply (timer_loop_wp [] _ [] w eq_refl)|].
  intros [] w' Hw'. by wp_step.
Qed.
End Timers.

(** Two timers on the sample host, at second 5: that of ARP was last called
    at 0, that of TCP at 6; a call leaves a signal of its own. *)
Definition timer_mark (h : timer_handler) : Z :=
  match h with TimerArp => 1 | TimerTcp => 2 end.

Definition sample_timers : list net_timer :=
  [NetTimer (Timeval 0 100000) (Timeval 6 0) TimerTcp; NetTimer (Timeval 1 0) (Timeval 0 0) TimerArp].

Definition timers_sample : world :=
  timers_world sample_timers
    (set_w_sys (set_y_calls 5 sample_sys) (sample_world [])).

Definition marked (fired : list timer_handler) (w : world) : Prop :=
  y_raised (w_sys w) = timer_mark <$> fired.

Lemma marks_fire : fires (λ h, intr_raise_irq (timer_mark h)) marked.
Proof.
  constructor; [|done..]. intros fired h w Hw. apply wp_intr_raise_irq. unfold marked in *. cbn.
  by rewrite Hw, fmap_app.
Qed.

Lemma net_timer_fires_witness :
  @wp world Z (@net_timer_handler sample_env (λ h, intr_raise_irq (timer_mark h))) (λ r w',
    r = 0 ∧ ∃ cs, calls_from 5 cs ∧ length cs = 2%nat
      ∧ n_timers (w_net w')
        = zip_with timer_after sample_timers (@env_gettimeofday sample_env <$> cs)
      ∧ marked (timers_due sample_timers (@env_gettimeofday sample_env <$> cs)) w') timers_sample.
Proof.
  refine (@net_timer_fires sample_env sample_env_ok _ marked marks_fire timers_sample _ _).
  - repeat constructor; cbn; lia.
  - done.
Defined.
