(* ===== verification/Arp.v ===== *)
(** * ARP

    [src/src/arp.c]: the cache, requests and replies, resolution, input and
    the expiry timer.  The theorems give the cache a well-formedness
    invariant kept by every operation, and describe what resolution, input
    and the timer do to the mapping from protocol to hardware addresses. *)

From S2P Require Import Prelude Bytes Clock Text Addr Monad State Platform Queue Net Ether Device.
From S2P Require Import Sample.

Definition ARP_HRD_ETHER : Z := 0x0001.
Definition ARP_PRO_IP : Z := ETHER_TYPE_IP.
Definition ARP_OP_REQUEST : Z := 1.
Definition ARP_OP_REPLY : Z := 2.

Definition ARP_CACHE_SIZE : nat := 32.
Definition ARP_CACHE_TIMEOUT : Z := 30.

Definition ARP_CACHE_STATE_FREE : Z := 0.
Definition ARP_CACHE_STATE_INCOMPLETE : Z := 1.
Definition ARP_CACHE_STATE_RESOLVED : Z := 2.
Definition ARP_CACHE_STATE_STATIC : Z := 3.

Definition ARP_RESOLVE_ERROR : Z := -1.
Definition ARP_RESOLVE_INCOMPLETE : Z := 0.
Definition ARP_RESOLVE_FOUND : Z := 1.

(** [struct arp_ether_ip] with its header, fields as they are in memory:
    16-bit fields and addresses loaded in the byte order of the host. *)
Record arp_ether_ip := ArpEtherIp {
  arp_hrd : Z;
  arp_pro : Z;
  arp_hln : Z;
  arp_pln : Z;
  arp_op : Z;
  arp_sha : bytes;
  arp_spa : Z;
  arp_tha : bytes;
  arp_tpa : Z
}.

Definition ARP_ETHER_IP_SIZE : Z := 28.

Section Arp.
Context `{Machine} `{Env} `{DeviceOps}.

(** The structure as 28 bytes of memory, and back. *)
Definition arp_ether_ip_bytes (m : arp_ether_ip) : bytes :=
  store16 (arp_hrd m) ++ store16 (arp_pro m) ++ [arp_hln m; arp_pln m] ++ store16 (arp_op m)
    ++ arp_sha m ++ store32 (arp_spa m) ++ arp_tha m ++ store32 (arp_tpa m).

Definition arp_ether_ip_at (data : bytes) : option arp_ether_ip :=
  match data with
  | h0 :: h1 :: p0 :: p1 :: hln :: pln :: o0 :: o1
      :: s0 :: s1 :: s2 :: s3 :: s4 :: s5 :: a0 :: a1 :: a2 :: a3
      :: t0 :: t1 :: t2 :: t3 :: t4 :: t5 :: b0 :: b1 :: b2 :: b3 :: _ =>
      Some (ArpEtherIp (load16 h0 h1) (load16 p0 p1) hln pln (load16 o0 o1)
              [s0; s1; s2; s3; s4; s5] (load32 a0 a1 a2 a3)
              [t0; t1; t2; t3; t4; t5] (load32 b0 b1 b2 b3))
  | _ => None
  end.

(** ** The cache *)

Definition arp_cache_zero : arp_cache := ArpCache ARP_CACHE_STATE_FREE 0 ETHER_ADDR_ANY (Timeval 0 0).

Definition arp_cache_delete (cache : nat) : C unit :=
  get_cache cache;; put_cache cache arp_cache_zero.

(** The loop of [arp_cache_alloc] from index [i]: a free entry, or the
    oldest one. *)
Fixpoint arp_cache_scan (i : nat) (entries : list arp_cache) (oldest : option (nat * arp_cache))
  : nat + option nat :=
  match entries with
  | [] => inr (fst <$> oldest)
  | entry :: entries =>
      if ac_state entry =? ARP_CACHE_STATE_FREE then inl i
      else
        arp_cache_scan (S i) entries
          (match oldest with
           | None => Some (i, entry)
           | Some (_, o) =>
               if timercmp Z.gtb (ac_timestamp o) (ac_timestamp entry)
               then Some (i, entry) else oldest
           end)
  end.

Definition arp_cache_alloc : C nat :=
  caches <- gets w_arp;;
  match arp_cache_scan 0 caches None with
  | inl entry => ret entry
  | inr oldest =>
      oldest <- expect FaultNull oldest;;
      arp_cache_delete oldest;;
      ret oldest
  end.

Definition arp_entry_for (pa : Z) (entry : arp_cache) : Prop :=
  ac_state entry ≠ ARP_CACHE_STATE_FREE ∧ ac_pa entry = pa.

#[export] Instance arp_entry_for_dec pa entry : Decision (arp_entry_for pa entry).
Proof. unfold arp_entry_for. apply _. Defined.

Definition arp_cache_select (pa : Z) : C (option nat) :=
  caches <- gets w_arp;;
  ret (fst <$> list_find (arp_entry_for pa) caches).

(** [memcpy(cache->ha, ha, ETHER_ADDR_LEN)] and the timestamp *)
Definition arp_cache_fill (cache : nat) (ha : bytes) : C unit :=
  c <- get_cache cache;;
  ha <- expect FaultBounds (memcpy (ac_ha c) 0 ha ETHER_ADDR_LEN);;
  now <- gettimeofday;;
  put_cache cache (set_ac_timestamp now (set_ac_ha ha c)).

Definition arp_cache_update (pa : Z) (ha : bytes) : C (option nat) :=
  cache <- arp_cache_select pa;;
  match cache with
  | None => ret None
  | Some cache =>
      c <- get_cache cache;;
      put_cache cache (set_ac_state ARP_CACHE_STATE_RESOLVED c);;
      arp_cache_fill cache ha;;
      ret (Some cache)
  end.

Definition arp_cache_insert (pa : Z) (ha : bytes) : C nat :=
  cache <- arp_cache_alloc;;
  c <- get_cache cache;;
  put_cache cache (set_ac_pa pa (set_ac_state ARP_CACHE_STATE_RESOLVED c));;
  arp_cache_fill cache ha;;
  ret cache.

(** ** Messages *)

Definition arp_request (iface : nat) (tpa : Z) : C Z :=
  i <- get_if iface;;
  d <- expect FaultNull (if_dev i);;
  dev <- get_dev d;;
  sha <- expect FaultBounds (slice 0 ETHER_ADDR_LEN (d_addr dev));;
  let request := ArpEtherIp (hton16 ARP_HRD_ETHER) (hton16 ARP_PRO_IP) ETHER_ADDR_LEN IP_ADDR_LEN
                   (hton16 ARP_OP_REQUEST) sha (if_unicast i) ETHER_ADDR_ANY tpa in
  net_device_output d ETHER_TYPE_ARP (arp_ether_ip_bytes request) ARP_ETHER_IP_SIZE
    (d_broadcast dev).

Definition arp_reply (iface : nat) (tha : bytes) (tpa : Z) (dst : bytes) : C Z :=
  i <- get_if iface;;
  d <- expect FaultNull (if_dev i);;
  dev <- get_dev d;;
  sha <- expect FaultBounds (slice 0 ETHER_ADDR_LEN (d_addr dev));;
  tha <- expect FaultBounds (slice 0 ETHER_ADDR_LEN tha);;
  let reply := ArpEtherIp (hton16 ARP_HRD_ETHER) (hton16 ARP_PRO_IP) ETHER_ADDR_LEN IP_ADDR_LEN
                 (hton16 ARP_OP_REPLY) sha (if_unicast i) tha tpa in
  net_device_output d ETHER_TYPE_ARP (arp_ether_ip_bytes reply) ARP_ETHER_IP_SIZE dst.

(** The result and the memory at [ha] afterwards. *)
Definition arp_resolve (iface : nat) (pa : Z) (ha : bytes) : C (Z * bytes) :=
  i <- get_if iface;;
  d <- expect FaultNull (if_dev i);;
  dev <- get_dev d;;
  if negb (d_type dev =? NET_DEVICE_TYPE_ETHERNET) then ret (ARP_RESOLVE_ERROR, ha)
  else if negb (if_family i =? NET_IFACE_FAMILY_IP) then ret (ARP_RESOLVE_ERROR, ha)
  else
    mutex_lock MutexArp;;
    cache <- arp_cache_select pa;;
    match cache with
    | None =>
        cache <- arp_cache_alloc;;
        c <- get_cache cache;;
        now <- gettimeofday;;
        put_cache cache (set_ac_timestamp now
          (set_ac_pa pa (set_ac_state ARP_RESOLVE_INCOMPLETE c)));;
        mutex_unlock MutexArp;;
        arp_request iface pa;;
        ret (ARP_RESOLVE_INCOMPLETE, ha)
    | Some cache =>
        c <- get_cache cache;;
        if ac_state c =? ARP_CACHE_STATE_INCOMPLETE then
          mutex_unlock MutexArp;;
          arp_request iface pa;;
          ret (ARP_RESOLVE_INCOMPLETE, ha)
        else
          ha <- expect FaultBounds (memcpy ha 0 (ac_ha c) ETHER_ADDR_LEN);;
          mutex_unlock MutexArp;;
          ret (ARP_RESOLVE_FOUND, ha)
    end.

(** [arp_input] from the point where the message has been checked. *)
Definition arp_process (msg : arp_ether_ip) (dev : nat) : C unit :=
  mutex_lock MutexArp;;
  updated <- arp_cache_update (arp_spa msg) (arp_sha msg);;
  mutex_unlock MutexArp;;
  iface <- net_device_get_iface dev NET_IFACE_FAMILY_IP;;
  match iface with
  | None => ret tt
  | Some iface =>
      i <- get_if iface;;
      if if_unicast i =? arp_tpa msg then
        (when (bool_decide (updated = None)) then
          (mutex_lock MutexArp;;
           arp_cache_insert (arp_spa msg) (arp_sha msg);;
           mutex_unlock MutexArp));;
        (when (ntoh16 (arp_op msg) =? ARP_OP_REQUEST) then
          (arp_reply iface (arp_sha msg) (arp_spa msg) (arp_sha msg);; ret tt))
      else ret tt
  end.

Definition arp_input (data : bytes) (len : Z) (dev : nat) : C unit :=
  if len <? ARP_ETHER_IP_SIZE then ret tt
  else
    msg <- expect FaultBounds (arp_ether_ip_at data);;
    if negb (ntoh16 (arp_hrd msg) =? ARP_HRD_ETHER) || negb (arp_hln msg =? ETHER_ADDR_LEN)
    then ret tt
    else if negb (ntoh16 (arp_pro msg) =? ARP_PRO_IP) || negb (arp_pln msg =? IP_ADDR_LEN)
    then ret tt
    else arp_process msg dev.

(** The body of the loop of [arp_timer_handler]. *)
Definition arp_timer_entry (now : timeval) (k : nat) : C unit :=
  entry <- get_cache k;;
  if negb (ac_state entry =? ARP_CACHE_STATE_FREE)
     && negb (ac_state entry =? ARP_CACHE_STATE_STATIC) then
    let diff := timersub now (ac_timestamp entry) in
    if tv_sec diff >? ARP_CACHE_TIMEOUT then arp_cache_delete k else ret tt
  else ret tt.

Definition arp_timer_handler : C unit :=
  mutex_lock MutexArp;;
  now <- gettimeofday;;
  n <- gets (λ w, length (w_arp w));;
  for_each (seq 0 n) (arp_timer_entry now);;
  mutex_unlock MutexArp.

Definition arp_init : C Z :=
  r <- net_protocol_register NET_PROTOCOL_TYPE_ARP HandlerArp;;
  if r =? -1 then ret (-1)
  else
    r <- net_timer_register (Timeval 1 0) TimerArp;;
    if r =? -1 then ret (-1) else ret 0.
End Arp.

(** ** The cache as a mapping *)

(** What the cache knows of a protocol address. *)
Definition arp_lookup (caches : list arp_cache) (pa : Z) : option bytes :=
  (λ x, ac_ha x.2) <$> list_find (arp_entry_for pa) caches.

(** An entry: free or resolved, with a six-byte address and a normalised
    time. *)
Definition arp_entry_ok (e : arp_cache) : Prop :=
  (ac_state e = ARP_CACHE_STATE_FREE ∨ ac_state e = ARP_CACHE_STATE_RESOLVED)
  ∧ length (ac_ha e) = 6%nat ∧ bytes_ok (ac_ha e) ∧ tv_ok (ac_timestamp e).

(** At most one entry in use per protocol address. *)
Definition arp_unique (caches : list arp_cache) : Prop :=
  ∀ i j e f pa, caches !! i = Some e → caches !! j = Some f →
    arp_entry_for pa e → arp_entry_for pa f → i = j.

Definition arp_wf (caches : list arp_cache) : Prop :=
  length caches = ARP_CACHE_SIZE ∧ Forall arp_entry_ok caches ∧ arp_unique caches.

(** The entry that gives way when all are in use: an oldest one. *)
Definition arp_victim (caches : list arp_cache) (i : nat) : Prop :=
  Forall (λ e, ac_state e ≠ ARP_CACHE_STATE_FREE) caches
  ∧ ∃ v, caches !! i = Some v
    ∧ Forall (λ e, tv_us (ac_timestamp v) <= tv_us (ac_timestamp e)) caches.

Lemma arp_lookup_Some caches pa ha :
  arp_unique caches →
  arp_lookup caches pa = Some ha ↔
  ∃ i e, caches !! i = Some e ∧ arp_entry_for pa e ∧ ac_ha e = ha.
Proof.
  intros Hu. unfold arp_lookup. split.
  - destruct (list_find _ caches) as [[i e]|] eqn:E; [|done]. intros [= <-].
    apply list_find_Some in E as (?&?&_). eauto.
  - intros (i&e&Hi&He&<-).
    destruct (list_find (arp_entry_for pa) caches) as [[j f]|] eqn:E.
    + apply list_find_Some in E as (Hj&Hf&_).
      assert (i = j) as -> by (by eapply Hu). cbn. congruence.
    + apply list_find_None in E. rewrite Forall_lookup in E. by destruct (E i e Hi).
Qed.

Lemma arp_lookup_None caches pa :
  arp_lookup caches pa = None ↔ ∀ i e, caches !! i = Some e → ¬ arp_entry_for pa e.
Proof.
  unfold arp_lookup. rewrite fmap_None, list_find_None, Forall_lookup. done.
Qed.

Lemma arp_unique_insert caches i e :
  arp_unique caches →
  (∀ j f pa, caches !! j = Some f → arp_entry_for pa e → arp_entry_for pa f → j = i) →
  arp_unique (<[i := e]> caches).
Proof.
  intros Hu He j k f g pa Hj Hk Hf Hg.
  apply list_lookup_insert_Some in Hj as [(<-&->&_)|[Hij Hj]];
    apply list_lookup_insert_Some in Hk as [(<-&->&_)|[Hik Hk]]; eauto using eq_sym.
Qed.

Lemma arp_wf_insert caches i e :
  arp_wf caches → arp_entry_ok e →
  (∀ j f pa, caches !! j = Some f → arp_entry_for pa e → arp_entry_for pa f → j = i) →
  arp_wf (<[i := e]> caches).
Proof.
  intros (Hl&Hf&Hu) He Hn. split; [by rewrite length_insert|]. split.
  - by apply Forall_insert.
  - by apply arp_unique_insert.
Qed.

(** Overwriting a free entry, or freeing one. *)
Lemma arp_wf_insert_free caches i e :
  arp_wf caches → arp_entry_ok e → ac_state e = ARP_CACHE_STATE_FREE →
  arp_wf (<[i := e]> caches).
Proof. intros ?? Hs. apply arp_wf_insert; [done..|]. by intros j f pa _ [? _]. Qed.

(** What overwriting an entry does to the mapping. *)
Lemma arp_lookup_insert caches i e old pa :
  arp_wf caches → caches !! i = Some old → arp_wf (<[i := e]> caches) →
  arp_lookup (<[i := e]> caches) pa
  = if decide (arp_entry_for pa e) then Some (ac_ha e)
    else if decide (arp_entry_for pa old) then None
    else arp_lookup caches pa.
Proof.
  intros (_&_&Hu) Hi (_&_&Hu'). assert (i < length caches)%nat as Hlt by (by eapply lookup_lt_Some).
  destruct (decide (arp_entry_for pa e)).
  { apply arp_lookup_Some; [done|]. exists i, e. by rewrite list_lookup_insert_eq. }
  destruct (decide (arp_entry_for pa old)) as [Ho|Ho].
  - apply arp_lookup_None. intros j f [(<-&->&_)|[Hij Hj]]%list_lookup_insert_Some Hf; [done|].
    apply Hij. by eapply (Hu i j old f pa).
  - apply option_eq. intros ha. rewrite !arp_lookup_Some by done. split.
    + intros (j&f&[(<-&->&_)|[Hij Hj]]%list_lookup_insert_Some&Hf&<-); [done|eauto].
    + intros (j&f&Hj&Hf&<-). destruct (decide (i = j)) as [<-|Hij]; [congruence|].
      exists j, f. by rewrite list_lookup_insert_ne.
Qed.

(** The scan of [arp_cache_alloc] past the entries [pre]. *)
Lemma arp_cache_scan_spec pre entries oldest :
  Forall (λ e, ac_state e ≠ ARP_CACHE_STATE_FREE) pre → Forall (λ e, tv_ok (ac_timestamp e)) (pre ++ entries) →
  match oldest with
  | None => pre = []
  | Some (k, v) => pre !! k = Some v
      ∧ Forall (λ e, tv_us (ac_timestamp v) <= tv_us (ac_timestamp e)) pre
  end →
  match arp_cache_scan (length pre) entries oldest with
  | inl i => ∃ e, (pre ++ entries) !! i = Some e ∧ ac_state e = ARP_CACHE_STATE_FREE
  | inr (Some i) => arp_victim (pre ++ entries) i
  | inr None => pre ++ entries = []
  end.
Proof.
  revert pre oldest. induction entries as [|e entries IH]; intros pre oldest Hpre Hok Ho; cbn.
  { destruct oldest as [[k v]|]; cbn; rewrite app_nil_r; [|done].
    destruct Ho as [Hk Hv]. split; [done|]. eauto. }
  destruct (Z.eqb_spec (ac_state e) ARP_CACHE_STATE_FREE) as [Hs|Hs].
  { exists e. split; [|done]. by rewrite list_lookup_middle. }
  rewrite cons_middle, app_assoc in Hok. rewrite cons_middle, app_assoc.
  replace (S (length pre)) with (length (pre ++ [e])) by (rewrite length_app; cbn; lia).
  apply IH; [by apply Forall_app_2; auto|done|].
  assert (tv_ok (ac_timestamp e)) as Hte.
  { rewrite !Forall_app, Forall_singleton in Hok. tauto. }
  destruct oldest as [[k v]|].
  - destruct Ho as [Hk Hv].
    assert (tv_ok (ac_timestamp v)) as Htv.
    { rewrite !Forall_app in Hok. destruct Hok as [[Hp _] _].
      rewrite Forall_lookup in Hp. by eapply Hp. }
    rewrite timercmp_gtb by done. destruct (Z.gtb_spec (tv_us (ac_timestamp v)) (tv_us (ac_timestamp e))).
    + split; [by rewrite list_lookup_middle|]. apply Forall_app_2.
      * eapply Forall_impl; [done|]. cbn. lia.
      * by apply Forall_singleton.
    + split; [by apply lookup_app_l_Some|]. apply Forall_app_2; [done|].
      by apply Forall_singleton.
  - subst pre. split; [done|]. by apply Forall_singleton.
Qed.

(** ** What sending leaves alone *)

Definition ip_tables (i : ip_state) : ip_state := set_i_id 0 i.

(** Sending a packet changes loopback queues, the ARP cache, which stays
    well formed, the IP identification and the platform's state. *)
Record send_frame (w w' : world) : Prop := SendFrame {
  sf_devs : dev_static <$> n_devs (w_net w') = dev_static <$> n_devs (w_net w);
  sf_net : net_tables (w_net w') = net_tables (w_net w);
  sf_ip : ip_tables (w_ip w') = ip_tables (w_ip w);
  sf_id : is_u16 (i_id (w_ip w)) → is_u16 (i_id (w_ip w'));
  sf_arp : arp_wf (w_arp w) → arp_wf (w_arp w');
  sf_udp : w_udp w' = w_udp w;
  sf_tcp : w_tcp w' = w_tcp w;
  sf_locked : locked w' = locked w;
  sf_sys : sys_tables (w_sys w') = sys_tables (w_sys w);
  sf_queues : loopbacks_ok w → loopbacks_ok w'
}.

#[export] Instance send_frame_preorder : PreOrder send_frame.
Proof.
  split.
  - intros w. by constructor.
  - intros w1 w2 w3 [] []. constructor; (congruence || auto).
Qed.

Lemma output_send_frame w w' : output_frame w w' → send_frame w w'.
Proof. intros []. constructor; (congruence || auto). Qed.

(** What sending, receiving and the timers leave alone of the layers they
    run on. *)
Record link_frame (w w' : world) : Prop := LinkFrame {
  lf_devs : dev_static <$> n_devs (w_net w') = dev_static <$> n_devs (w_net w);
  lf_net : net_tables (w_net w') = net_tables (w_net w);
  lf_ip : ip_tables (w_ip w') = ip_tables (w_ip w);
  lf_sys : sys_tables (w_sys w') = sys_tables (w_sys w);
  lf_queues : loopbacks_ok w → loopbacks_ok w'
}.

#[export] Instance link_frame_preorder : PreOrder link_frame.
Proof.
  split.
  - intros w. by constructor.
  - intros w1 w2 w3 [] []. constructor; (congruence || auto).
Qed.

Lemma send_link_frame w w' : send_frame w w' → link_frame w w'.
Proof. intros []. by constructor. Qed.

(** An interface on a device that can transmit. *)
Definition iface_wf (w : world) (i : nat) : Prop :=
  ∃ ifc d dev, n_ifs (w_net w) !! i = Some ifc ∧ if_dev ifc = Some d
    ∧ n_devs (w_net w) !! d = Some dev ∧ dev_wf dev
    ∧ is_u32 (if_unicast ifc) ∧ is_u32 (if_netmask ifc) ∧ is_u32 (if_broadcast ifc).

Lemma iface_wf_frame w w' i :
  dev_static <$> n_devs (w_net w') = dev_static <$> n_devs (w_net w) →
  net_tables (w_net w') = net_tables (w_net w) → iface_wf w i → iface_wf w' i.
Proof.
  intros Hd Hn (ifc&d&dev&Hi&Hdev&Hd'&Hwf&Hu).
  assert (n_ifs (w_net w') = n_ifs (w_net w)) as Hifs by (by injection Hn).
  destruct (static_dev w w' d dev) as (dev'&Ed&Hwf'&_); [done..|].
  exists ifc, d, dev'. by rewrite Hifs.
Qed.

(** The mutexes that sending takes. *)
Definition link_free (w : world) : Prop :=
  MutexArp ∉ locked w ∧ MutexIpId ∉ locked w ∧ ∀ d, MutexLoopback d ∉ locked w.

Lemma link_free_frame w w' : locked w' = locked w → link_free w → link_free w'.
Proof. unfold link_free. by intros ->. Qed.

(** ** Operations on the cache *)

Section Cache.
Context `{Machine} `{EnvOk}.

(** The entry the next call of gettimeofday makes. *)
Definition arp_resolved (w : world) (pa : Z) (ha : bytes) : arp_cache :=
  ArpCache ARP_CACHE_STATE_RESOLVED pa (take 6 ha) (env_gettimeofday (y_calls (w_sys w))).

Definition arp_put (i : nat) (e : arp_cache) (w : world) : world :=
  set_w_arp (<[i := e]> (w_arp w)) w.

Lemma arp_put_id i e w : w_arp w !! i = Some e → arp_put i e w = w.
Proof. intros. unfold arp_put. rewrite list_insert_id by done. by destruct w. Qed.

Lemma arp_entry_zero_ok : arp_entry_ok arp_cache_zero.
Proof.
  split; [by left|]. split; [done|]. split; [|unfold tv_ok; cbn; lia].
  repeat constructor; lia.
Qed.

Lemma arp_resolved_ok w pa ha : 6 <= zlen ha → bytes_ok ha → arp_entry_ok (arp_resolved w pa ha).
Proof.
  intros Hl Hok. split; [by right|]. cbn. unfold zlen in Hl. rewrite length_take.
  split; [lia|]. split; [by apply Forall_take|]. apply env_time_ok.
Qed.

Lemma arp_cache_alloc_wp w :
  arp_wf (w_arp w) →
  wp arp_cache_alloc (λ i w', ∃ old e, w_arp w !! i = Some old ∧ w' = arp_put i e w
    ∧ arp_entry_ok e ∧ ac_state e = ARP_CACHE_STATE_FREE
    ∧ (old = e ∨ arp_victim (w_arp w) i)) w.
Proof.
  intros (Hl&Hf&Hu). unfold arp_cache_alloc. do 2 wp_step.
  assert (Forall (λ e, tv_ok (ac_timestamp e)) (w_arp w)) as Ht.
  { eapply Forall_impl; [done|]. unfold arp_entry_ok. tauto. }
  pose proof (arp_cache_scan_spec [] (w_arp w) None ltac:(done) Ht eq_refl) as Hs. cbn in Hs.
  destruct (arp_cache_scan 0 (w_arp w) None) as [i|[i|]].
  - destruct Hs as (e&Hi&Hfree). wp_step. exists e, e. rewrite arp_put_id by done.
    rewrite Forall_lookup in Hf. eauto 10.
  - pose proof Hs as (_&v&Hi&_). do 2 wp_step. unfold arp_cache_delete. repeat wp_step.
    exists v, arp_cache_zero. split_and!; auto using arp_entry_zero_ok.
  - by rewrite Hs in Hl.
Qed.

Lemma arp_cache_select_wp pa (Q : option nat → world → Prop) w :
  Q (fst <$> list_find (arp_entry_for pa) (w_arp w)) w → wp (arp_cache_select pa) Q w.
Proof. done. Qed.

Lemma arp_cache_fill_wp i c ha w (Q : unit → world → Prop) :
  w_arp w !! i = Some c → length (ac_ha c) = 6%nat → 6 <= zlen ha →
  Q tt (tick_world (arp_put i (ArpCache (ac_state c) (ac_pa c) (take 6 ha)
                                 (env_gettimeofday (y_calls (w_sys w)))) w)) →
  wp (arp_cache_fill i ha) Q w.
Proof.
  intros Hi Hc Hh HQ. unfold arp_cache_fill. do 2 wp_step.
  rewrite memcpy_whole by (unfold ETHER_ADDR_LEN, zlen in *; lia). by repeat wp_step.
Qed.

(** Writing twice to the same entry. *)
Lemma arp_put_put i e f w : arp_put i f (arp_put i e w) = arp_put i f w.
Proof. unfold arp_put. cbn. by rewrite list_insert_insert_eq. Qed.

Lemma arp_cache_update_wp pa ha w :
  arp_wf (w_arp w) → 6 <= zlen ha →
  wp (arp_cache_update pa ha) (λ r w',
    match list_find (arp_entry_for pa) (w_arp w) with
    | None => r = None ∧ w' = w
    | Some (i, _) => r = Some i ∧ w' = tick_world (arp_put i (arp_resolved w pa ha) w)
    end) w.
Proof.
  intros (Hl&Hf&Hu) Hh. unfold arp_cache_update. apply wp_bind, arp_cache_select_wp.
  destruct (list_find _ (w_arp w)) as [[i c]|] eqn:E; cbn [fmap option_fmap option_map fst];
    [|by wp_step].
  apply list_find_Some in E as (Hi&[_ Hpa]&_). repeat wp_step.
  assert (i < length (w_arp w))%nat by (by eapply lookup_lt_Some).
  rewrite Forall_lookup in Hf. destruct (Hf i c Hi) as (_&Hc&_).
  eapply arp_cache_fill_wp; [cbn; by apply list_lookup_insert_eq|done..|].
  cbn [ac_state ac_pa set_ac_state]. wp_step. split; [done|].
  f_equal. rewrite <- Hpa. apply (arp_put_put i).
Qed.

Lemma arp_cache_insert_wp pa ha w :
  arp_wf (w_arp w) → 6 <= zlen ha →
  wp (arp_cache_insert pa ha) (λ i w', ∃ old, w_arp w !! i = Some old
    ∧ (ac_state old = ARP_CACHE_STATE_FREE ∨ arp_victim (w_arp w) i)
    ∧ w' = tick_world (arp_put i (arp_resolved w pa ha) w)) w.
Proof.
  intros Hwf Hh. unfold arp_cache_insert. apply wp_bind.
  eapply wp_mono; [by apply arp_cache_alloc_wp|].
  intros i w' (old&e&Hi&->&He&Hfree&Hold).
  assert (i < length (w_arp w))%nat by (by eapply lookup_lt_Some).
  assert (w_arp (arp_put i e w) !! i = Some e) as Hi' by (by apply list_lookup_insert_eq).
  repeat wp_step.
  eapply arp_cache_fill_wp; [by apply list_lookup_insert_eq; cbn; rewrite length_insert| |done|].
  { by destruct He as (_&?&_). }
  wp_step. exists old. split; [done|]. split; [by destruct Hold as [->|]; auto|].
  f_equal. cbn [ac_state ac_pa set_ac_pa set_ac_state].
  etrans; [apply (arp_put_put i)|]. apply arp_put_put.
Qed.
End Cache.

(** ** Learning *)

(** [caches'] is [caches] with [pa] at [ha]; at most one other address is
    forgotten, and only when every entry was in use and it was the oldest. *)
Record arp_learnt (caches : list arp_cache) (pa : Z) (ha : bytes) (caches' : list arp_cache)
  : Prop := ArpLearnt {
  al_wf : arp_wf caches';
  al_new : arp_lookup caches' pa = Some ha;
  al_others : ∀ pa', pa' ≠ pa →
    arp_lookup caches' pa' = arp_lookup caches pa'
    ∨ (arp_lookup caches' pa' = None
       ∧ ∃ i v, arp_victim caches i ∧ caches !! i = Some v ∧ ac_pa v = pa')
}.

Section Learning.
Context `{Machine} `{EnvOk}.

(** Overwriting an entry with a resolved one: the entry of the address
    itself, or, when the address has none, a free entry or the victim. *)
Lemma arp_learnt_put caches w i old pa ha :
  arp_wf caches → caches !! i = Some old → length ha = 6%nat → bytes_ok ha →
  arp_entry_for pa old
  ∨ arp_lookup caches pa = None
    ∧ (ac_state old = ARP_CACHE_STATE_FREE ∨ arp_victim caches i) →
  arp_learnt caches pa ha (<[i := arp_resolved w pa ha]> caches).
Proof.
  intros Hwf Hi Hl Hok Hold.
  assert (take 6 ha = ha) as Htk by (rewrite take_ge; [done|lia]).
  assert (arp_wf (<[i := arp_resolved w pa ha]> caches)) as Hwf'.
  { apply arp_wf_insert; [done|apply arp_resolved_ok; [unfold zlen; lia|done]|].
    intros j f pa' Hj [_ <-] Hf. destruct Hold as [Hold|[Hnone _]].
    - destruct Hwf as (_&_&Hu). by eapply Hu.
    - rewrite arp_lookup_None in Hnone. by destruct (Hnone j f Hj). }
  split; [done| |].
  - erewrite arp_lookup_insert by done. rewrite decide_True by done. cbn. by rewrite Htk.
  - intros pa' Hne. erewrite arp_lookup_insert by done.
    rewrite decide_False by (intros [_ ?]; cbn in *; congruence).
    destruct (decide (arp_entry_for pa' old)) as [Ho|Ho]; [|by left].
    destruct Ho as [Hs <-]. destruct Hold as [[_ ?]|[_ [?|Hv]]]; [done|done|].
    right. split; [done|]. exists i, old. done.
Qed.

(** What a received message does to the cache. *)
Definition arp_effect (targeted : bool) (spa : Z) (sha : bytes) (caches caches' : list arp_cache)
  : Prop :=
  if targeted || bool_decide (is_Some (arp_lookup caches spa))
  then arp_learnt caches spa sha caches'
  else caches' = caches.

Context `{!DeviceOps} `{!DeviceOpsOk}.

Definition arp_msg_ok (m : arp_ether_ip) : Prop :=
  length (arp_sha m) = 6%nat ∧ bytes_ok (arp_sha m) ∧ is_u32 (arp_spa m) ∧ is_u32 (arp_tpa m)
  ∧ length (arp_tha m) = 6%nat.

Lemma zlen_arp_ether_ip_bytes m :
  length (arp_sha m) = 6%nat → length (arp_tha m) = 6%nat →
  zlen (arp_ether_ip_bytes m) = ARP_ETHER_IP_SIZE.
Proof.
  intros Hs Ht. unfold arp_ether_ip_bytes. rewrite !zlen_app, !zlen_store16, !zlen_store32.
  unfold zlen. rewrite Hs, Ht. done.
Qed.

Lemma arp_ether_ip_bytes_ok m :
  bytes_ok (arp_sha m) → bytes_ok (arp_tha m) → is_u8 (arp_hln m) → is_u8 (arp_pln m) →
  bytes_ok (arp_ether_ip_bytes m).
Proof.
  intros Hs Ht Hh Hp. unfold arp_ether_ip_bytes.
  repeat (apply bytes_ok_app; split); auto with stack; by repeat apply Forall_cons_2.
Qed.

Lemma dev_wf_addr dev : dev_wf dev → zlen (d_addr dev) = 16 ∧ zlen (d_broadcast dev) = 16.
Proof. unfold dev_wf, zlen. lia. Qed.

Lemma arp_reply_wp w i tha tpa dst :
  iface_wf w i → 6 <= zlen tha → bytes_ok tha → 6 <= zlen dst → link_free w →
  wp (arp_reply i tha tpa dst) (λ _, output_frame w) w.
Proof.
  intros (ifc&d&dev&Hi&Hd&Hdev&Hwf&_) Ht Hok Hl (_&_&Hlock).
  destruct (dev_wf_addr dev Hwf) as [La Lb]. unfold arp_reply, ETHER_ADDR_LEN.
  do 2 wp_step. rewrite Hd. do 4 wp_step. rewrite !slice_spec by lia. do 4 wp_step.
  eapply wp_mono; [eapply net_device_output_wp; try done|by intros ?? []].
  - rewrite zlen_arp_ether_ip_bytes; [done|..]; cbn [arp_sha arp_tha];
      rewrite length_take, length_drop; unfold zlen in *; lia.
  - apply arp_ether_ip_bytes_ok; cbn [arp_sha arp_tha arp_hln arp_pln]; try done;
      apply Forall_take, Forall_drop; [apply Hwf|done].
Qed.

Lemma arp_request_wp w i tpa :
  iface_wf w i → link_free w →
  wp (arp_request i tpa) (λ _, output_frame w) w.
Proof.
  intros (ifc&d&dev&Hi&Hd&Hdev&Hwf&_) (_&_&Hlock).
  destruct (dev_wf_addr dev Hwf) as [La Lb]. unfold arp_request, ETHER_ADDR_LEN.
  do 2 wp_step. rewrite Hd. do 4 wp_step. rewrite slice_spec by lia. do 2 wp_step.
  eapply wp_mono; [eapply net_device_output_wp; try done|by intros ?? []].
  - rewrite zlen_arp_ether_ip_bytes; [done|..]; cbn [arp_sha]; [|done].
    rewrite length_take, length_drop; unfold zlen in *; lia.
  - apply arp_ether_ip_bytes_ok; cbn [arp_sha arp_tha arp_hln arp_pln]; try done.
    + apply Forall_take, Forall_drop, Hwf.
    + by repeat apply Forall_cons_2.
  - unfold ETHER_ADDR_LEN. lia.
Qed.

(** What a lookup that misses costs: the slot it takes for the address. *)
Definition arp_forgot (caches caches' : list arp_cache) : Prop :=
  ∀ pa, arp_lookup caches' pa = arp_lookup caches pa
    ∨ (arp_lookup caches' pa = None
       ∧ ∃ i v, arp_victim caches i ∧ caches !! i = Some v ∧ ac_pa v = pa).

(** Freeing an entry that was free or the victim. *)
Lemma arp_forgot_put caches i old e :
  arp_wf caches → caches !! i = Some old → arp_entry_ok e →
  ac_state e = ARP_CACHE_STATE_FREE →
  (ac_state old = ARP_CACHE_STATE_FREE ∨ arp_victim caches i) →
  arp_wf (<[i := e]> caches) ∧ arp_forgot caches (<[i := e]> caches).
Proof.
  intros Hwf Hi He Hs Hold.
  assert (arp_wf (<[i := e]> caches)) as Hwf' by (by apply arp_wf_insert_free).
  split; [done|]. intros pa. erewrite arp_lookup_insert by done.
  rewrite decide_False by (by intros [? _]).
  destruct (decide (arp_entry_for pa old)) as [[Ho <-]|Ho]; [|by left].
  destruct Hold as [?|Hv]; [done|]. right. split; [done|]. by exists i, old.
Qed.

Lemma arp_resolve_wp w i ifc d dev pa ha :
  arp_wf (w_arp w) → link_free w → iface_wf w i →
  n_ifs (w_net w) !! i = Some ifc → if_dev ifc = Some d → n_devs (w_net w) !! d = Some dev →
  6 <= zlen ha →
  wp (arp_resolve i pa ha) (λ r w', send_frame w w' ∧
    if (d_type dev =? NET_DEVICE_TYPE_ETHERNET) && (if_family ifc =? NET_IFACE_FAMILY_IP) then
      match arp_lookup (w_arp w) pa with
      | Some h => r = (ARP_RESOLVE_FOUND, h ++ drop 6 ha) ∧ w_arp w' = w_arp w
      | None => r = (ARP_RESOLVE_INCOMPLETE, ha) ∧ arp_forgot (w_arp w) (w_arp w')
      end
    else r = (ARP_RESOLVE_ERROR, ha) ∧ w' = w) w.
Proof.
  intros Hwf Hfree Hif Hi Hd Hdev Hh. unfold arp_resolve.
  do 2 wp_step. rewrite Hd. do 4 wp_step.
  destruct (d_type dev =? _); cbn [negb andb]; [|by wp_step].
  destruct (if_family ifc =? _); cbn [negb]; [|by wp_step]. pose proof Hfree as (Hm&_). do 2 wp_step. apply wp_bind, arp_cache_select_wp.
  cbn [w_arp lock_world set_w_sys]. unfold arp_lookup.
  assert (filter (λ m', m' ≠ MutexArp) (MutexArp :: locked w) = locked w) as Hf
    by (by apply filter_unlock).
  destruct (list_find _ (w_arp w)) as [[k c]|] eqn:E; cbn [fmap option_fmap option_map fst snd].
  - apply list_find_Some in E as (Hk&[Hs _]&_).
    destruct Hwf as (_&Hok&_). rewrite Forall_lookup in Hok. destruct (Hok k c Hk) as (Hst&Hc&_).
    repeat wp_step. destruct (Z.eqb_spec (ac_state c) ARP_CACHE_STATE_INCOMPLETE) as [E|_].
    { exfalso. unfold ARP_CACHE_STATE_FREE, ARP_CACHE_STATE_RESOLVED,
        ARP_CACHE_STATE_INCOMPLETE in *. lia. }
    rewrite memcpy_spec by (unfold zlen, ETHER_ADDR_LEN in *; lia).
    repeat wp_step; [by left|]. split; [by constructor|]. split; [|done].
    change (Z.to_nat 0) with 0%nat. change (Z.to_nat ETHER_ADDR_LEN) with 6%nat.
    by rewrite take_0, app_nil_l, (take_ge (ac_ha c)) by lia.
  - apply wp_bind. eapply wp_mono; [by apply arp_cache_alloc_wp|].
    intros k w1 (old&e&Hk&->&He&Hfr&Hold).
    assert (k < length (w_arp w))%nat by (by eapply lookup_lt_Some).
    assert (w_arp (arp_put k e (lock_world (MutexArp :: y_locked (w_sys w)) w)) !! k = Some e)
      as Hk' by (by apply list_lookup_insert_eq).
    repeat wp_step; [by left|].
    destruct (arp_forgot_put (w_arp w) k old
      (ArpCache ARP_RESOLVE_INCOMPLETE pa (ac_ha e)
         (env_gettimeofday (y_calls (w_sys w))))) as [Hwf' Hforgot]; try done.
    { split; [by left|]. destruct He as (_&?&?&_). split_and!; [done..|]. apply env_time_ok. }
    { destruct Hold as [->|]; auto. }
    eapply wp_mono; [apply arp_request_wp; [exact Hif|]|].
    + by apply (link_free_frame w).
    + intros r w' Hw. wp_step.
      assert (w_arp w' = <[k := ArpCache ARP_RESOLVE_INCOMPLETE pa (ac_ha e)
         (env_gettimeofday (y_calls (w_sys w)))]> (w_arp w)) as Ew.
      { rewrite (of_arp _ _ Hw). cbn. by rewrite list_insert_insert_eq. }
      split; [|by rewrite Ew].
      apply output_send_frame in Hw. etrans; [|exact Hw]. constructor; try done.
      intros _. cbn. by rewrite list_insert_insert_eq.
Qed.

(** The device's IP interface has the address the message asks for. *)
Definition arp_targeted (w : world) (dev : net_device) (tpa : Z) : bool :=
  match family_iface (w_net w) dev NET_IFACE_FAMILY_IP with
  | Some (_, ifc) => if_unicast ifc =? tpa
  | None => false
  end.

(** The learning step of [arp_process], on its first branch. *)
Lemma arp_update_effect w pa ha :
  arp_wf (w_arp w) → length ha = 6%nat → bytes_ok ha →
  wp (arp_cache_update pa ha) (λ r w',
    ∃ y l, w' = set_w_sys y (set_w_arp l w) ∧ y_locked y = locked w ∧ sys_tables y = sys_tables (w_sys w) ∧
    if bool_decide (is_Some (arp_lookup (w_arp w) pa))
    then r ≠ None ∧ arp_learnt (w_arp w) pa ha l
    else r = None ∧ l = w_arp w) w.
Proof.
  intros Hwf Hl Hok.
  eapply wp_mono; [apply arp_cache_update_wp; [done|unfold zlen; lia]|].
  intros r w' Hr. unfold arp_lookup. destruct (list_find _ (w_arp w)) as [[i c]|] eqn:E.
  - apply list_find_Some in E as (Hi&Hc&_). destruct Hr as [-> ->].
    rewrite bool_decide_eq_true_2 by (by eexists). do 2 eexists. split; [done|].
    split; [done|]. split; [done|]. split; [done|]. by eapply arp_learnt_put; [..|by left].
  - destruct Hr as [-> ->]. rewrite bool_decide_eq_false_2 by (by intros []).
    exists (w_sys w), (w_arp w). split_and!; try done. by destruct w.
Qed.

(** The same for an insertion, when the cache does not have the address. *)
Lemma arp_insert_effect w pa ha :
  arp_wf (w_arp w) → length ha = 6%nat → bytes_ok ha → arp_lookup (w_arp w) pa = None →
  wp (arp_cache_insert pa ha) (λ _ w',
    ∃ y l, w' = set_w_sys y (set_w_arp l w) ∧ y_locked y = locked w ∧ sys_tables y = sys_tables (w_sys w)
    ∧ arp_learnt (w_arp w) pa ha l) w.
Proof.
  intros Hwf Hl Hok Hn.
  eapply wp_mono; [apply arp_cache_insert_wp; [done|unfold zlen; lia]|].
  intros i w' (old&Hi&Hold&->). do 2 eexists. split; [done|]. split; [done|]. split; [done|].
  by eapply arp_learnt_put; [..|by right].
Qed.

Lemma arp_process_wp w msg d dev :
  arp_wf (w_arp w) → link_free w → n_devs (w_net w) !! d = Some dev →
  (∀ i, i ∈ d_ifaces dev → iface_wf w i) → arp_msg_ok msg →
  wp (arp_process msg d) (λ _ w', send_frame w w' ∧
    arp_effect (arp_targeted w dev (arp_tpa msg)) (arp_spa msg) (arp_sha msg)
      (w_arp w) (w_arp w')) w.
Proof.
  intros Hwf Hfree Hdev Hifs (Hl&Hok&_). pose proof Hfree as (Hm&_).
  assert (filter (λ m', m' ≠ MutexArp) (MutexArp :: locked w) = locked w) as Hf
    by (by apply filter_unlock).
  unfold arp_process. do 2 wp_step. apply wp_bind.
  eapply wp_mono; [by apply arp_update_effect|]. cbn [w_arp lock_world set_w_sys].
  intros updated w1 (y&l&->&Hy&Hirq&Hup). do 2 wp_step; [cbn; rewrite Hy; by left|].
  cbn [y_locked w_sys set_w_sys]. rewrite Hy. unfold locked at 1. cbn [w_sys lock_world set_w_sys set_y_locked y_locked].
  setoid_rewrite Hf.
  match goal with |- wp _ _ ?w0 => set (w1 := w0) end.
  apply wp_bind. apply (net_device_get_iface_wp d dev); [done| |].
  { intros i Hi. destruct (Hifs i Hi) as (ifc&?&?&?&_). by eexists. }
  change (w_net w1) with (w_net w). unfold arp_effect, arp_targeted.
  assert (send_frame w w1 ∧ (if bool_decide (is_Some (arp_lookup (w_arp w) (arp_spa msg)))
    then arp_learnt (w_arp w) (arp_spa msg) (arp_sha msg) (w_arp w1) else w_arp w1 = w_arp w))
    as [Hframe Heff].
  { destruct (bool_decide _); destruct Hup as [_ Hup]; (split; [|done]).
    - destruct Hup. by constructor.
    - subst l. by constructor. }
  destruct (family_iface _ dev _) as [[i ifc]|] eqn:Eif;
    cbn [fmap option_fmap option_map fst]; [|by wp_step].
  apply family_iface_Some in Eif as (Hin&Hi&_).
  do 2 wp_step. destruct (if_unicast ifc =? _); [|by wp_step]. cbn [orb].
  assert (iface_wf w1 i) as Hiwf by (by apply Hifs).
  assert (wp (when (bool_decide (updated = None)) then
            (mutex_lock MutexArp;; arp_cache_insert (arp_spa msg) (arp_sha msg);;
             mutex_unlock MutexArp))
    (λ _ w2, send_frame w w2 ∧ w_net w2 = w_net w ∧
             arp_learnt (w_arp w) (arp_spa msg) (arp_sha msg) (w_arp w2)) w1) as Hins.
  { destruct (bool_decide (is_Some _)) eqn:Eb.
    - destruct Hup as [Hn _]. rewrite bool_decide_eq_false_2 by done. wp_step. done.
    - destruct Hup as [-> ->]. rewrite bool_decide_eq_true_2 by done.
      apply bool_decide_eq_false, eq_None_not_Some in Eb. do 2 wp_step. apply wp_bind.
      eapply wp_mono; [by apply arp_insert_effect|]. intros _ w2 (y2&l2&->&Hy2&Hirq2&Hl2).
      wp_step; [cbn; rewrite Hy2; by left|].
      cbn [y_locked w_sys set_w_sys]. rewrite Hy2. unfold locked at 1.
      cbn [w_sys lock_world set_w_sys set_y_locked y_locked w1]. setoid_rewrite Hf.
      split; [|done]. destruct Hl2. constructor; try done. by etrans. }
  apply wp_bind. eapply wp_mono; [exact Hins|]. intros [] w2 (Hf2&Hn2&Hl2).
  destruct (_ =? ARP_OP_REQUEST); [|by wp_step].
  apply wp_bind. eapply wp_mono.
  { apply arp_reply_wp; [|unfold zlen; lia|done|unfold zlen; lia|].
    - unfold iface_wf. rewrite Hn2. exact Hiwf.
    - by apply (link_free_frame w); [apply Hf2|]. }
  intros r w3 Hw3. wp_step. split.
  - etrans; [exact Hf2|]. by apply output_send_frame.
  - by rewrite (of_arp _ _ Hw3).
Qed.

Lemma arp_ether_ip_at_ok data :
  ARP_ETHER_IP_SIZE <= zlen data → bytes_ok data →
  ∃ msg, arp_ether_ip_at data = Some msg ∧ arp_msg_ok msg.
Proof.
  intros Hl Hok. unfold zlen, ARP_ETHER_IP_SIZE in Hl.
  do 28 (destruct data as [|? data]; [cbn in Hl; lia|]). eexists. split; [done|].
  unfold bytes_ok in Hok. rewrite !Forall_cons in Hok. destruct_and! Hok.
  split_and!; try done; cbn [arp_sha arp_spa arp_tpa]; [by repeat apply Forall_cons_2|..];
    by apply load32_range.
Qed.

(** A message for Ethernet and IPv4. *)
Definition arp_valid (msg : arp_ether_ip) : bool :=
  (ntoh16 (arp_hrd msg) =? ARP_HRD_ETHER) && (arp_hln msg =? ETHER_ADDR_LEN)
  && (ntoh16 (arp_pro msg) =? ARP_PRO_IP) && (arp_pln msg =? IP_ADDR_LEN).

Lemma arp_input_wp w data len d dev :
  arp_wf (w_arp w) → link_free w → n_devs (w_net w) !! d = Some dev →
  (∀ i, i ∈ d_ifaces dev → iface_wf w i) → bytes_ok data → len <= zlen data →
  wp (arp_input data len d) (λ _ w', send_frame w w' ∧
    match arp_ether_ip_at data with
    | Some msg =>
        if (ARP_ETHER_IP_SIZE <=? len) && arp_valid msg
        then arp_effect (arp_targeted w dev (arp_tpa msg)) (arp_spa msg) (arp_sha msg)
               (w_arp w) (w_arp w')
        else w' = w
    | None => w' = w
    end) w.
Proof.
  intros Hwf Hfree Hdev Hifs Hok Hlen. unfold arp_input.
  destruct (Z.ltb_spec len ARP_ETHER_IP_SIZE) as [Hs|Hs].
  { wp_step. split; [done|]. destruct (arp_ether_ip_at data); [|done].
    destruct (Z.leb_spec ARP_ETHER_IP_SIZE len); [lia|done]. }
  destruct (arp_ether_ip_at_ok data) as (msg&->&Hmsg); [lia|done|]. do 2 wp_step.
  destruct (Z.leb_spec ARP_ETHER_IP_SIZE len); [|lia]. cbn [andb]. unfold arp_valid.
  destruct (_ =? ARP_HRD_ETHER), (arp_hln msg =? _); cbn [negb orb andb]; try by wp_step.
  destruct (_ =? ARP_PRO_IP), (arp_pln msg =? _); cbn [negb orb andb]; try by wp_step.
  by apply arp_process_wp.
Qed.

(** [arp_input] on any received bytes returns without a fault, with the
    mutexes as they were and nothing but the ARP cache, the loopback queues
    and the platform changed.  A valid message addressed to the device's IP
    address puts the sender's address pair in the cache; a valid message for
    someone else only refreshes a pair already known; any other message
    changes nothing.  No other address is forgotten, except the oldest one
    when all 32 entries are in use. *)
Lemma arp_input_learns w data len d dev :
  arp_wf (w_arp w) → link_free w → n_devs (w_net w) !! d = Some dev →
  (∀ i, i ∈ d_ifaces dev → iface_wf w i) → bytes_ok data → len <= zlen data →
  wp (arp_input data len d) (λ _ w', send_frame w w' ∧ arp_wf (w_arp w') ∧
    match arp_ether_ip_at data with
    | Some msg =>
        if (ARP_ETHER_IP_SIZE <=? len) && arp_valid msg
        then arp_effect (arp_targeted w dev (arp_tpa msg)) (arp_spa msg) (arp_sha msg)
               (w_arp w) (w_arp w')
        else w' = w
    | None => w' = w
    end) w.
Proof.
  intros Hwf ?????. eapply wp_mono; [by apply arp_input_wp|].
  intros [] w' [Hf He]. split; [done|]. split; [by apply (sf_arp _ _ Hf)|done].
Qed.

(** [arp_resolve] on an Ethernet device either returns the hardware
    address the cache has for the protocol address and leaves the cache
    alone, or reports the resolution as incomplete after taking a slot,
    which forgets at most the oldest address of a full cache.  In no case
    does it fault or leave a mutex locked. *)
Lemma arp_resolve_finds w i ifc d dev pa ha :
  arp_wf (w_arp w) → link_free w → iface_wf w i →
  n_ifs (w_net w) !! i = Some ifc → if_dev ifc = Some d → n_devs (w_net w) !! d = Some dev →
  d_type dev = NET_DEVICE_TYPE_ETHERNET → if_family ifc = NET_IFACE_FAMILY_IP →
  6 <= zlen ha →
  wp (arp_resolve i pa ha) (λ r w', send_frame w w' ∧
    match arp_lookup (w_arp w) pa with
    | Some h => r = (ARP_RESOLVE_FOUND, h ++ drop 6 ha) ∧ w_arp w' = w_arp w
    | None => r = (ARP_RESOLVE_INCOMPLETE, ha) ∧ arp_forgot (w_arp w) (w_arp w')
    end) w.
Proof.
  intros Hwf Hf Hif Hi Hd Hdev Ht Hfam Hh.
  eapply wp_mono; [by eapply arp_resolve_wp|]. intros r w'. by rewrite Ht, Hfam.
Qed.
End Learning.

(** ** Expiry *)

Section Expiry.
Context `{EnvOk}.

(** What the timer makes of an entry. *)
Definition arp_expire (now : timeval) (e : arp_cache) : arp_cache :=
  if negb (ac_state e =? ARP_CACHE_STATE_FREE) && negb (ac_state e =? ARP_CACHE_STATE_STATIC)
     && (tv_sec (timersub now (ac_timestamp e)) >? ARP_CACHE_TIMEOUT)
  then arp_cache_zero else e.

(** The loop, past the entries [pre]. *)
Lemma arp_timer_loop now pre entries w :
  w_arp w = pre ++ entries →
  wp (for_each (seq (length pre) (length entries)) (arp_timer_entry now))
     (λ _ w', w' = set_w_arp (pre ++ (arp_expire now <$> entries)) w) w.
Proof.
  revert pre w. induction entries as [|e entries IH]; intros pre w Hw; cbn.
  { rewrite <- Hw. by destruct w. }
  assert (w_arp w !! length pre = Some e) as Hi by (by rewrite Hw, list_lookup_middle).
  wp_step. eapply (wp_mono _ (λ _ w', w' = set_w_arp (pre ++ arp_expire now e :: entries) w)).
  - unfold arp_timer_entry, arp_expire. do 2 wp_step.
    destruct (negb (ac_state e =? _) && negb _); cbn [andb]; [destruct (_ >? _)|].
    + unfold arp_cache_delete. repeat wp_step. rewrite Hw.
      by rewrite insert_app_r_alt, Nat.sub_diag by lia.
    + wp_step. rewrite <- Hw. by destruct w.
    + wp_step. rewrite <- Hw. by destruct w.
  - intros [] w' ->. specialize (IH (pre ++ [arp_expire now e])).
    rewrite length_app, Nat.add_comm in IH. eapply wp_mono; [apply IH|].
    + cbn. by rewrite <- app_assoc.
    + intros [] w' ->. by rewrite <- app_assoc.
Qed.

Definition arp_fresh (now : timeval) (e : arp_cache) : Prop :=
  tv_us now - tv_us (ac_timestamp e) < 31000000.

(** The timer keeps the entries in use that are fresh, as they are. *)
Lemma arp_expire_for now e pa :
  tv_ok now → arp_entry_ok e →
  (arp_entry_for pa (arp_expire now e) ↔ arp_entry_for pa e ∧ arp_fresh now e)
  ∧ (arp_entry_for pa (arp_expire now e) → arp_expire now e = e).
Proof.
  intros Hn (Hs&_&_&Ht). unfold arp_expire, arp_fresh. rewrite timersub_sec by done.
  unfold ARP_CACHE_TIMEOUT, arp_entry_for, ARP_CACHE_STATE_RESOLVED, ARP_CACHE_STATE_STATIC,
    ARP_CACHE_STATE_FREE in *.
  set (x := tv_us now - tv_us (ac_timestamp e)).
  pose proof (Z.mul_succ_div_gt x 1000000). pose proof (Z.mul_div_le x 1000000).
  destruct (Z.eqb_spec (ac_state e) 0), (Z.eqb_spec (ac_state e) 3); try lia; cbn [negb andb].
  - split; [|done]. intuition lia.
  - rewrite Z.gtb_ltb. destruct (Z.ltb_spec 30 (x / 1000000)); cbn; intuition lia.
Qed.

Lemma arp_expire_ok now e : arp_entry_ok e → arp_entry_ok (arp_expire now e).
Proof. intros. unfold arp_expire. destruct (_ && _); [apply arp_entry_zero_ok|done]. Qed.

Lemma arp_wf_expire now caches : tv_ok now → arp_wf caches → arp_wf (arp_expire now <$> caches).
Proof.
  intros Hn (Hl&Hok&Hu). split; [by rewrite length_fmap|]. split.
  - apply Forall_fmap. eapply Forall_impl; [done|]. apply arp_expire_ok.
  - rewrite Forall_lookup in Hok.
    intros i j e f pa (e0&->&Hi)%list_lookup_fmap_Some (f0&->&Hj)%list_lookup_fmap_Some He Hf.
    eapply arp_expire_for in He as [He _], Hf as [Hf _]; eauto.
Qed.

Lemma arp_timer_handler_wp w :
  arp_wf (w_arp w) → MutexArp ∉ locked w →
  wp arp_timer_handler (λ _ w', send_frame w w'
    ∧ w_arp w' = arp_expire (env_gettimeofday (y_calls (w_sys w))) <$> w_arp w) w.
Proof.
  intros Hwf Hm. unfold arp_timer_handler. do 6 wp_step. apply wp_bind.
  eapply wp_mono; [by apply (arp_timer_loop _ [])|].
  intros [] w' ->. wp_step; [by left|]. cbn [app w_arp set_w_arp lock_world set_w_sys].
  split; [|done]. constructor; try done; [|by apply filter_unlock].
  intros. apply arp_wf_expire; [apply env_time_ok|done].
Qed.

(** C27. The timer removes exactly the addresses last heard of 31 seconds
    ago or more and keeps every other one; the cache stays well formed and
    the mutex is released. *)
Theorem arp_timer_expires w :
  arp_wf (w_arp w) → MutexArp ∉ locked w →
  let now := env_gettimeofday (y_calls (w_sys w)) in
  wp arp_timer_handler (λ _ w', send_frame w w' ∧ arp_wf (w_arp w') ∧
    ∀ pa ha, arp_lookup (w_arp w') pa = Some ha ↔
      ∃ i e, w_arp w !! i = Some e ∧ arp_entry_for pa e ∧ ac_ha e = ha
        ∧ tv_us now - tv_us (ac_timestamp e) < 31000000) w.
Proof.
  intros Hwf Hm now. eapply wp_mono; [by apply arp_timer_handler_wp|]. intros [] w' [Hsf ->]. fold now.
  assert (tv_ok now) as Hnow by apply env_time_ok.
  pose proof (arp_wf_expire now _ Hnow Hwf) as Hwf'. split; [done|]. split; [done|].
  destruct Hwf as (_&Hok&_). rewrite Forall_lookup in Hok.
  intros pa ha. rewrite arp_lookup_Some by apply Hwf'. split.
  - intros (i&e&(e0&->&Hi)%list_lookup_fmap_Some&He&<-).
    destruct (arp_expire_for now e0 pa) as [Hiff Heq]; eauto.
    apply Hiff in He as Hf. destruct Hf. exists i, e0. split_and!; try done.
    by f_equal; symmetry; apply Heq.
  - intros (i&e&Hi&He&<-&Hlt). destruct (arp_expire_for now e pa) as [Hiff Heq]; eauto.
    assert (arp_entry_for pa (arp_expire now e)) as He' by (by apply Hiff).
    exists i, e. split; [|done]. apply list_lookup_fmap_Some. exists e. split; [|done].
    by symmetry; apply Heq.
Qed.
End Expiry.

(** ** On the sample host *)

Lemma sample_arp_wf : arp_wf sample_arp.
Proof.
  split; [done|]. split.
  - apply Forall_cons_2.
    + split_and!; [by right|done|by repeat apply Forall_cons_2|done].
    + apply Forall_replicate. split_and!; [by left|done|by repeat apply Forall_cons_2|done].
  - assert (∀ i e pa, sample_arp !! i = Some e → arp_entry_for pa e → i = 0%nat) as H0.
    { intros [|i] e pa Hi [Hs _]; [done|].
      change (replicate 31 (ArpCache 0 0 ETHER_ADDR_ANY (Timeval 0 0)) !! i = Some e) in Hi.
      apply lookup_replicate in Hi as [-> _]. done. }
    intros i j e f pa Hi Hj He Hf. rewrite (H0 i e pa), (H0 j f pa); done.
Qed.

Lemma sample_link_free tcp : link_free (sample_world tcp).
Proof. split_and!; [..|intros d]; cbn; by apply not_elem_of_nil. Qed.

Lemma sample_iface_wf tcp i : (i < 2)%nat → iface_wf (sample_world tcp) i.
Proof.
  intros Hi. destruct i as [|[|]]; [| |lia].
  - do 3 eexists. split_and!; try done. apply sample_tap_wf.
  - do 3 eexists. split_and!; try done. apply sample_lo_wf.
Qed.

(** The gateway asks for 192.0.2.2. *)
Definition sample_arp_request : bytes :=
  @arp_ether_ip_bytes sample_machine
    (ArpEtherIp 0x0100 0x0008 6 4 0x0100 mac_gw addr_gw ETHER_ADDR_ANY addr_tap).

Lemma arp_input_learns_witness :
  ∃ w', @arp_input sample_machine sample_env sample_ops sample_arp_request 28 0 (sample_world [])
        = Done tt w'
    ∧ arp_wf (w_arp w') ∧ arp_lookup (w_arp w') addr_gw = Some mac_gw.
Proof.
  pose proof (@arp_input_learns sample_machine sample_env sample_env_ok sample_ops sample_ops_ok
    (sample_world []) sample_arp_request 28 0 sample_tap sample_arp_wf (sample_link_free [])
    eq_refl) as Hw.
  destruct (wp_Done _ _ _ (Hw ltac:(intros i ->%list_elem_of_singleton; apply sample_iface_wf; lia)
    ltac:(by repeat apply Forall_cons_2) ltac:(vm_compute; done))) as ([]&w'&E&_&Hwf&Heff).
  exists w'. split; [exact E|]. split; [exact Hwf|]. vm_compute in Heff. apply Heff.
Defined.

Lemma arp_resolve_finds_witness :
  ∃ w', @arp_resolve sample_machine sample_env sample_ops 0 addr_gw (replicate 16 0)
          (sample_world []) = Done (ARP_RESOLVE_FOUND, mac_gw ++ replicate 10 0) w'.
Proof.
  pose proof (@arp_resolve_finds sample_machine sample_env sample_env_ok sample_ops sample_ops_ok
    (sample_world []) 0 (IpIface NET_IFACE_FAMILY_IP (Some 0%nat) addr_tap 0x00ffffff 0x000200c0)
    0 sample_tap addr_gw (replicate 16 0) sample_arp_wf (sample_link_free [])
    (sample_iface_wf [] 0 ltac:(lia)) eq_refl eq_refl eq_refl eq_refl eq_refl
    ltac:(vm_compute; done)) as (r&w'&E&_&Hr)%wp_Done.
  exists w'. rewrite E. f_equal. apply Hr.
Defined.

Lemma arp_timer_expires_witness :
  ∃ w', @arp_timer_handler sample_env (sample_world []) = Done tt w'
    ∧ arp_wf (w_arp w') ∧ arp_lookup (w_arp w') addr_gw = Some mac_gw.
Proof.
  pose proof (@arp_timer_expires sample_env sample_env_ok (sample_world []) sample_arp_wf
    ltac:(apply sample_link_free)) as ([]&w'&E&_&Hwf&Hl)%wp_Done.
  exists w'. split; [exact E|]. split; [exact Hwf|]. apply Hl.
  exists 0%nat, (ArpCache 2 addr_gw mac_gw (Timeval 0 0)). by split_and!.
Defined.
