(* ===== verification/Ip.v ===== *)
(** * IP

    [src/src/ip.c] above the addresses: routes, interfaces, protocols,
    input and output.  The handler of an IP protocol is run by a parameter
    [call] of [ip_input].  The theorems are longest-match routing, the round
    trip of a packet through output and input, the safety of both, and what
    input does on a header whose lengths disagree. *)

From S2P Require Import Prelude Bytes Checksum Clock Text Addr Monad State Platform Queue Net.
From S2P Require Import Ether Device Sample Arp.

Definition IP_VERSION_IPV4 : Z := 4.
Definition IP_HDR_SIZE_MIN : Z := 20.
Definition IP_HDR_SIZE_MAX : Z := 60.
Definition IP_TOTAL_SIZE_MAX : Z := 65535.
Definition IP_PAYLOAD_SIZE_MAX : Z := IP_TOTAL_SIZE_MAX - IP_HDR_SIZE_MIN.

Definition IP_PROTOCOL_ICMP : Z := 1.
Definition IP_PROTOCOL_TCP : Z := 6.
Definition IP_PROTOCOL_UDP : Z := 17.

(** [struct ip_hdr], fields as loaded by the host *)
Record ip_hdr := IpHdr {
  ih_vhl : Z;
  ih_tos : Z;
  ih_total : Z;
  ih_id : Z;
  ih_offset : Z;
  ih_ttl : Z;
  ih_protocol : Z;
  ih_sum : Z;
  ih_src : Z;
  ih_dst : Z
}.

Section Ip.
Context `{Machine} `{Env} `{DeviceOps}.

Definition ip_hdr_bytes (h : ip_hdr) : bytes :=
  [ih_vhl h; ih_tos h] ++ store16 (ih_total h) ++ store16 (ih_id h) ++ store16 (ih_offset h)
    ++ [ih_ttl h; ih_protocol h] ++ store16 (ih_sum h) ++ store32 (ih_src h)
    ++ store32 (ih_dst h).

Definition ip_hdr_at (data : bytes) : option ip_hdr :=
  match data with
  | vhl :: tos :: t0 :: t1 :: i0 :: i1 :: o0 :: o1 :: ttl :: protocol :: s0 :: s1
      :: a0 :: a1 :: a2 :: a3 :: b0 :: b1 :: b2 :: b3 :: _ =>
      Some (IpHdr vhl tos (load16 t0 t1) (load16 i0 i1) (load16 o0 o1) ttl protocol
              (load16 s0 s1) (load32 a0 a1 a2 a3) (load32 b0 b1 b2 b3))
  | _ => None
  end.

(** ** Routes *)

Definition ip_route_add (network netmask nexthop : Z) (iface : nat) : C bool :=
  ok <- memory_alloc;;
  if negb ok then ret false
  else
    ip_modify (λ s, set_i_routes (IpRoute network netmask nexthop iface :: i_routes s) s);;
    i <- get_if iface;;
    d <- expect FaultNull (if_dev i);;
    get_dev d;;
    ret true.

(** The loop of [ip_route_lookup]. *)
Definition ip_route_better (dst : Z) (candidate : option ip_route) (route : ip_route)
  : option ip_route :=
  if Z.land dst (rt_netmask route) =? rt_network route then
    match candidate with
    | None => Some route
    | Some c =>
        if ntoh32 (rt_netmask c) <? ntoh32 (rt_netmask route) then Some route else candidate
    end
  else candidate.

Definition ip_route_select (routes : list ip_route) (dst : Z) : option ip_route :=
  fold_left (ip_route_better dst) routes None.

Definition ip_route_lookup (dst : Z) : C (option ip_route) :=
  gets (λ w, ip_route_select (i_routes (w_ip w)) dst).

Definition ip_route_set_default_gateway (iface : nat) (gateway : bytes) : C Z :=
  res <- expect FaultBounds (ip_addr_pton gateway [0; 0; 0; 0]);;
  let '(r, gw) := res in
  if r =? -1 then ret (-1)
  else
    gw <- expect FaultBounds (load32_at gw);;
    ok <- ip_route_add IP_ADDR_ANY IP_ADDR_ANY gw iface;;
    if negb ok then ret (-1) else ret 0.

Definition ip_route_get_iface (dst : Z) : C (option nat) :=
  route <- ip_route_lookup dst;;
  ret (rt_iface <$> route).

(** ** Interfaces and protocols *)

(** [(unicast & netmask) | !netmask] *)
Definition ip_iface_broadcast (unicast netmask : Z) : Z :=
  Z.lor (Z.land unicast netmask) (if nz netmask then 0 else 1).

(** An object freed again is not added to the heap. *)
Definition ip_iface_alloc (unicast netmask : bytes) : C (option nat) :=
  ok <- memory_alloc;;
  if negb ok then ret None
  else
    res <- expect FaultBounds (ip_addr_pton unicast [0; 0; 0; 0]);;
    let '(r, u) := res in
    if nz r then ret None
    else
      unicast_addr <- expect FaultBounds (load32_at u);;
      res <- expect FaultBounds (ip_addr_pton netmask [0; 0; 0; 0]);;
      let '(r, m) := res in
      if nz r then ret None
      else
        netmask_addr <- expect FaultBounds (load32_at m);;
        iface <- gets (λ w, length (n_ifs (w_net w)));;
        net_modify (λ n, set_n_ifs (n_ifs n ++
          [IpIface NET_IFACE_FAMILY_IP None unicast_addr netmask_addr
             (ip_iface_broadcast unicast_addr netmask_addr)]) n);;
        ret (Some iface).

Definition ip_iface_register (dev iface : nat) : C Z :=
  r <- net_device_add_iface dev iface;;
  if r =? -1 then ret (-1)
  else
    i <- get_if iface;;
    ok <- ip_route_add (Z.land (if_unicast i) (if_netmask i)) (if_netmask i) IP_ADDR_ANY iface;;
    if negb ok then ret (-1)
    else
      ip_modify (λ s, set_i_ifaces (iface :: i_ifaces s) s);;
      ret 0.

(** The loop of [ip_iface_select]. *)
Fixpoint ip_iface_find (ifaces : list nat) (addr : Z) : C (option nat) :=
  match ifaces with
  | [] => ret None
  | iface :: ifaces =>
      i <- get_if iface;;
      if if_unicast i =? addr then ret (Some iface) else ip_iface_find ifaces addr
  end.

Definition ip_iface_select (addr : Z) : C (option nat) :=
  ifaces <- gets (λ w, i_ifaces (w_ip w));;
  ip_iface_find ifaces addr.

Definition ip_protocol_register (type : Z) (handler : ip_handler) : C Z :=
  protocols <- gets (λ w, i_protocols (w_ip w));;
  if existsb (λ entry, ip_type entry =? type) protocols then ret (-1)
  else
    ok <- memory_alloc;;
    if negb ok then ret (-1)
    else
      ip_modify (λ s, set_i_protocols (IpProtocol type handler :: i_protocols s) s);;
      ret 0.

(** ** Input *)

(** The arguments of a handler: data, len, src, dst, iface. *)
Definition ip_call := ip_handler → bytes → Z → Z → Z → nat → C unit.

(** The last loop of [ip_input]. *)
Definition ip_dispatch (call : ip_call) (hdr : ip_hdr) (data : bytes) (hlen total : Z) (iface : nat)
  : C unit :=
  protocols <- gets (λ w, i_protocols (w_ip w));;
  match list_find (λ p, ip_type p = ih_protocol hdr) protocols with
  | Some (_, protocol) =>
      call (ip_handler_of protocol) (drop (Z.to_nat hlen) data) (u64 (total - hlen))
        (ih_src hdr) (ih_dst hdr) iface
  | None => ret tt
  end.

Definition ip_input (call : ip_call) (data : bytes) (len : Z) (dev : nat) : C unit :=
  if len <? IP_HDR_SIZE_MIN then ret tt
  else
    hdr <- expect FaultBounds (ip_hdr_at data);;
    let v := Z.shiftr (ih_vhl hdr) 4 in
    if negb (v =? IP_VERSION_IPV4) then ret tt
    else
      let hlen := Z.shiftl (Z.land (ih_vhl hdr) 0x0f) 2 in
      if len <? hlen then ret tt
      else
        let total := ntoh16 (ih_total hdr) in
        if len <? total then ret tt
        else
          sum <- expect FaultBounds (cksum16 data hlen 0);;
          if negb (sum =? 0) then ret tt
          else
            let offset := ntoh16 (ih_offset hdr) in
            if nz (Z.land offset 0x2000) || nz (Z.land offset 0x1fff) then ret tt
            else
              iface <- net_device_get_iface dev NET_IFACE_FAMILY_IP;;
              match iface with
              | None => ret tt
              | Some iface =>
                  i <- get_if iface;;
                  if negb (ih_dst hdr =? if_unicast i) && negb (ih_dst hdr =? IP_ADDR_BROADCAST)
                     && negb (ih_dst hdr =? if_broadcast i)
                  then ret tt
                  else ip_dispatch call hdr data hlen total iface
              end.

(** ** Output *)

Definition ip_output_device (iface : nat) (data : bytes) (len dst : Z) : C Z :=
  let hwaddr := replicate (Z.to_nat NET_DEVICE_ADDR_LEN) 0 in
  i <- get_if iface;;
  d <- expect FaultNull (if_dev i);;
  dev <- get_dev d;;
  res <-
    (if nz (Z.land (d_flags dev) NET_DEVICE_FLAG_NEED_ARP) then
       if (dst =? if_broadcast i) || (dst =? IP_ADDR_BROADCAST) then
         hwaddr <- expect FaultBounds (memcpy hwaddr 0 (d_broadcast dev) (d_alen dev));;
         ret (ARP_RESOLVE_FOUND, hwaddr)
       else arp_resolve iface dst hwaddr
     else ret (ARP_RESOLVE_FOUND, hwaddr));;
  let '(r, hwaddr) := res in
  if negb (r =? ARP_RESOLVE_FOUND) then ret r
  else net_device_output d NET_PROTOCOL_TYPE_IP data len hwaddr.

(** The packet [ip_output_core] builds in a buffer of [IP_TOTAL_SIZE_MAX]
    bytes. *)
Definition ip_packet (protocol : Z) (data : bytes) (len src dst id offset : Z) : option bytes :=
  let hlen := IP_HDR_SIZE_MIN in
  let vhl := Z.lor (Z.land (Z.shiftl IP_VERSION_IPV4 4) 0xf0) (Z.land (Z.shiftr hlen 2) 0x0f) in
  let total := u16 (hlen + len) in
  let hdr sum := IpHdr vhl 0 (hton16 total) (hton16 id) (hton16 offset) 255 protocol sum src dst in
  sum ← cksum16 (ip_hdr_bytes (hdr 0)) hlen 0;
  payload ← slice 0 len data;
  if hlen + len <=? IP_TOTAL_SIZE_MAX then Some (ip_hdr_bytes (hdr sum) ++ payload) else None.

Definition ip_output_core (iface : nat) (protocol : Z) (data : bytes) (len src dst nexthop id offset : Z)
  : C Z :=
  buf <- expect FaultBounds (ip_packet protocol data len src dst id offset);;
  ip_output_device iface buf (u16 (IP_HDR_SIZE_MIN + len)) nexthop.

Definition ip_generate_id : C Z :=
  mutex_lock MutexIpId;;
  r <- gets (λ w, i_id (w_ip w));;
  ip_modify (set_i_id (u16 (r + 1)));;
  mutex_unlock MutexIpId;;
  ret r.

Definition ip_output (protocol : Z) (data : bytes) (len src dst : Z) : C Z :=
  if (src =? IP_ADDR_ANY) && (dst =? IP_ADDR_BROADCAST) then ret (-1)
  else
    route <- ip_route_lookup dst;;
    match route with
    | None => ret (-1)
    | Some route =>
        let iface := rt_iface route in
        i <- get_if iface;;
        if negb (src =? IP_ADDR_ANY) && negb (src =? if_unicast i) then ret (-1)
        else
          let nexthop := if negb (rt_nexthop route =? IP_ADDR_ANY) then rt_nexthop route else dst in
          d <- expect FaultNull (if_dev i);;
          dev <- get_dev d;;
          if d_mtu dev <? u64 (IP_HDR_SIZE_MIN + len) then ret (-1)
          else
            id <- ip_generate_id;;
            r <- ip_output_core iface protocol data len (if_unicast i) dst nexthop id 0;;
            if r =? -1 then ret (-1) else ret len
    end.

Definition ip_init : C Z :=
  r <- net_protocol_register NET_PROTOCOL_TYPE_IP HandlerIp;;
  if r =? -1 then ret (-1) else ret 0.
End Ip.

(** ** Routing *)

(** The netmask of a prefix of [n] bits, as a number. *)
Definition prefix_mask (n : Z) : Z := 2 ^ 32 - 2 ^ (32 - n).

Section Routing.
Context `{Machine}.

Definition route_matches (dst : Z) (r : ip_route) : Prop :=
  Z.land dst (rt_netmask r) = rt_network r.

(** The candidate after a scan: the first of the widest netmasks among the
    routes that match. *)
Definition route_best (dst : Z) (routes : list ip_route) (o : option ip_route) : Prop :=
  match o with
  | None => Forall (λ r, ¬ route_matches dst r) routes
  | Some c => ∃ k, routes !! k = Some c ∧ route_matches dst c ∧
      ∀ j r, routes !! j = Some r → route_matches dst r →
        ntoh32 (rt_netmask r) <= ntoh32 (rt_netmask c)
        ∧ ((j < k)%nat → ntoh32 (rt_netmask r) < ntoh32 (rt_netmask c))
  end.

Lemma route_best_snoc dst routes o r :
  route_best dst routes o → route_best dst (routes ++ [r]) (ip_route_better dst o r).
Proof.
  unfold ip_route_better, route_best.
  destruct (Z.eqb_spec (Z.land dst (rt_netmask r)) (rt_network r)) as [Hm|Hm].
  - assert ((routes ++ [r]) !! length routes = Some r) as Hr by (by apply list_lookup_middle).
    destruct o as [c|]; cbn.
    + intros (k&Hk&Hc&Hbest). apply lookup_lt_Some in Hk as Hlt.
      destruct (Z.ltb_spec (ntoh32 (rt_netmask c)) (ntoh32 (rt_netmask r))) as [Hw|Hw]; cbn.
      * exists (length routes). split; [done|]. split; [done|]. intros j r' Hj Hr'.
        apply lookup_app_Some in Hj as [Hj|[Hge Hj]].
        { destruct (Hbest j r' Hj Hr'). lia. }
        apply list_lookup_singleton_Some in Hj as [Hj <-]. split; lia.
      * exists k. split; [by apply lookup_app_l_Some|]. split; [done|]. intros j r' Hj Hr'.
        apply lookup_app_Some in Hj as [Hj|[Hge Hj]]; [by apply Hbest|].
        apply list_lookup_singleton_Some in Hj as [Hj <-]. split; lia.
    + rewrite Forall_lookup. intros Hnone. exists (length routes). split; [done|].
      split; [done|]. intros j r' Hj Hr'. apply lookup_app_Some in Hj as [Hj|[Hge Hj]].
      { by destruct (Hnone j r'). }
      apply list_lookup_singleton_Some in Hj as [Hj <-]. split; lia.
  - destruct o as [c|]; cbn.
    + intros (k&Hk&Hc&Hbest). exists k. split; [by apply lookup_app_l_Some|]. split; [done|].
      intros j r' Hj Hr'. apply lookup_app_Some in Hj as [Hj|[Hge Hj]]; [by apply Hbest|].
      apply list_lookup_singleton_Some in Hj as [Hj <-]. done.
    + intros Hnone. apply Forall_app_2; [done|]. by apply Forall_singleton.
Qed.

Lemma ip_route_select_best routes dst : route_best dst routes (ip_route_select routes dst).
Proof.
  induction routes as [|r routes IH] using rev_ind; [by apply Forall_nil|].
  unfold ip_route_select. rewrite fold_left_app. cbn [fold_left].
  by apply route_best_snoc.
Qed.

(** *** Prefixes *)

Lemma prefix_mask_ones n : 0 <= n <= 32 → prefix_mask n = Z.shiftl (Z.ones n) (32 - n).
Proof.
  intros Hn. unfold prefix_mask. rewrite Z.shiftl_mul_pow2, Z.ones_equiv by lia.
  unfold Z.pred. rewrite Z.mul_add_distr_r, <- Z.pow_add_r by lia.
  replace (n + (32 - n)) with 32 by lia. lia.
Qed.

Lemma land_prefix v n :
  is_u32 v → 0 <= n <= 32 → Z.land v (prefix_mask n) = v / 2 ^ (32 - n) * 2 ^ (32 - n).
Proof.
  intros Hv Hn. rewrite prefix_mask_ones, land_field by lia. f_equal.
  apply Z.mod_small. assert (0 < 2 ^ (32 - n)) by (apply Z.pow_pos_nonneg; lia). split.
  - apply Z.div_pos; [apply Hv|done].
  - apply Z.div_lt_upper_bound; [done|]. rewrite <- Z.pow_add_r by lia.
    replace (32 - n + n) with 32 by lia. apply Hv.
Qed.

Lemma prefix_mask_le m n :
  0 <= m <= 32 → 0 <= n <= 32 → prefix_mask m <= prefix_mask n ↔ m <= n.
Proof.
  intros Hm Hn. unfold prefix_mask. split; intros.
  - destruct (Z.le_gt_cases m n); [done|].
    assert (2 ^ (32 - m) < 2 ^ (32 - n)) by (apply Z.pow_lt_mono_r; lia). lia.
  - assert (2 ^ (32 - n) <= 2 ^ (32 - m)) by (apply Z.pow_le_mono_r; lia). lia.
Qed.

(** A route for the [n]-bit prefix of its network. *)
Definition route_prefix (r : ip_route) (n : Z) : Prop :=
  0 <= n <= 32 ∧ is_u32 (rt_network r) ∧ is_u32 (rt_netmask r)
  ∧ ntoh32 (rt_netmask r) = prefix_mask n ∧ ntoh32 (rt_network r) mod 2 ^ (32 - n) = 0.

(** The address and the network share the first [n] bits. *)
Definition in_prefix (dst network n : Z) : Prop :=
  ntoh32 dst / 2 ^ (32 - n) = ntoh32 network / 2 ^ (32 - n).

Lemma route_matches_prefix dst r n :
  is_u32 dst → route_prefix r n → route_matches dst r ↔ in_prefix dst (rt_network r) n.
Proof.
  intros Hd (Hn&Hnet&Hm&Emask&Ehost). unfold route_matches, in_prefix.
  assert (0 < 2 ^ (32 - n)) as Hp by (apply Z.pow_pos_nonneg; lia).
  assert (Z.land dst (rt_netmask r) = rt_network r
          ↔ ntoh32 (Z.land dst (rt_netmask r)) = ntoh32 (rt_network r)) as ->.
  { split; [by intros ->|]. apply ntoh32_inj; [|done]. by apply land_u32. }
  rewrite ntoh32_land, Emask, land_prefix by (done || by apply hton32_range).
  pose proof (Z.div_mod (ntoh32 (rt_network r)) (2 ^ (32 - n)) ltac:(lia)) as Hdm.
  rewrite Ehost in Hdm. rewrite Hdm at 1. rewrite Z.add_0_r, (Z.mul_comm (2 ^ (32 - n))).
  split; [|by intros ->]. intros E. apply Z.mul_cancel_r in E; lia.
Qed.

(** C25. Route lookup is longest-prefix match: in a table of prefix routes,
    [ip_route_lookup] fails only if no route's prefix contains the
    destination; otherwise it returns a route whose prefix does, no
    matching route has a longer prefix, and routes of equal length are
    taken in table order. *)
Theorem ip_route_longest_prefix routes dst (plen : ip_route → Z) :
  is_u32 dst → Forall (λ r, route_prefix r (plen r)) routes →
  match ip_route_select routes dst with
  | None => ∀ r, r ∈ routes → ¬ in_prefix dst (rt_network r) (plen r)
  | Some c => ∃ k, routes !! k = Some c ∧ in_prefix dst (rt_network c) (plen c) ∧
      ∀ j r, routes !! j = Some r → in_prefix dst (rt_network r) (plen r) →
        plen r <= plen c ∧ ((j < k)%nat → plen r < plen c)
  end.
Proof.
  intros Hd Hp. rewrite Forall_forall in Hp.
  pose proof (ip_route_select_best routes dst) as Hb.
  destruct (ip_route_select routes dst) as [c|]; cbn in Hb.
  - destruct Hb as (k&Hk&Hc&Hbest). pose proof (Hp c ltac:(by eapply list_elem_of_lookup_2)) as Hpc.
    exists k. split; [done|]. split; [by apply route_matches_prefix|].
    intros j r Hj Hr. pose proof (Hp r ltac:(by eapply list_elem_of_lookup_2)) as Hpr.
    apply route_matches_prefix in Hr; [|done..].
    destruct (Hbest j r Hj Hr) as [Hle Hlt]. destruct Hpc as (?&_&_&Ec&_), Hpr as (?&_&_&Er&_).
    rewrite Ec, Er in Hle, Hlt. split; [by apply prefix_mask_le|].
    intros Hjk. apply Z.lt_nge. intros Hge. apply prefix_mask_le in Hge; [|done..].
    specialize (Hlt Hjk). lia.
  - rewrite Forall_forall in Hb. intros r Hr Hin. apply (Hb r Hr).
    by apply (route_matches_prefix _ _ (plen r)); auto.
Qed.
End Routing.

(** ** Packets *)

Section Packet.
Context `{Machine}.

Definition ip_hdr_ok (h : ip_hdr) : Prop :=
  is_u8 (ih_vhl h) ∧ is_u8 (ih_tos h) ∧ is_u16 (ih_total h) ∧ is_u16 (ih_id h)
  ∧ is_u16 (ih_offset h) ∧ is_u8 (ih_ttl h) ∧ is_u8 (ih_protocol h) ∧ is_u16 (ih_sum h)
  ∧ is_u32 (ih_src h) ∧ is_u32 (ih_dst h).

Lemma zlen_ip_hdr_bytes h : zlen (ip_hdr_bytes h) = IP_HDR_SIZE_MIN.
Proof. unfold ip_hdr_bytes. by rewrite !zlen_app, !zlen_store16, !zlen_store32. Qed.

Lemma ip_hdr_bytes_ok h : ip_hdr_ok h → bytes_ok (ip_hdr_bytes h).
Proof.
  intros (?&?&_&_&_&?&?&_). unfold ip_hdr_bytes.
  repeat (apply bytes_ok_app; split); auto with stack; by repeat apply Forall_cons_2.
Qed.

Lemma ip_hdr_at_bytes h rest : ip_hdr_ok h → ip_hdr_at (ip_hdr_bytes h ++ rest) = Some h.
Proof.
  destruct h as [vhl tos total id offset ttl protocol sum src dst]. unfold ip_hdr_ok, ip_hdr_bytes.
  cbn [ih_vhl ih_tos ih_total ih_id ih_offset ih_ttl ih_protocol ih_sum ih_src ih_dst].
  intros (?&?&H1&H2&H3&?&?&H4&H5&H6).
  destruct (store16_loads total H1) as (?&?&->&_&_&<-), (store16_loads id H2) as (?&?&->&_&_&<-),
    (store16_loads offset H3) as (?&?&->&_&_&<-), (store16_loads sum H4) as (?&?&->&_&_&<-),
    (store32_loads src H5) as (?&?&?&?&->&_&_&_&_&<-),
    (store32_loads dst H6) as (?&?&?&?&->&_&_&_&_&<-). done.
Qed.

(** The header of an outgoing packet. *)
Definition ip_hdr_out (protocol len src dst id offset sum : Z) : ip_hdr :=
  IpHdr 69 0 (hton16 (IP_HDR_SIZE_MIN + len)) (hton16 id) (hton16 offset) 255 protocol sum src dst.

Lemma ip_hdr_out_ok protocol len src dst id offset sum :
  is_u8 protocol → 0 <= len → IP_HDR_SIZE_MIN + len <= IP_TOTAL_SIZE_MAX → is_u32 src →
  is_u32 dst → is_u16 id → is_u16 offset → is_u16 sum →
  ip_hdr_ok (ip_hdr_out protocol len src dst id offset sum).
Proof.
  unfold IP_HDR_SIZE_MIN, IP_TOTAL_SIZE_MAX. intros.
  unfold ip_hdr_ok, ip_hdr_out, IP_HDR_SIZE_MIN.
  cbn [ih_vhl ih_tos ih_total ih_id ih_offset ih_ttl ih_protocol ih_sum ih_src ih_dst].
  split_and!; try done; try (apply hton16_range; ulia); ulia.
Qed.

(** The packet [ip_output_core] builds, and that its header checks. *)
Lemma ip_packet_eq protocol data len src dst id offset :
  is_u8 protocol → 0 <= len <= zlen data → IP_HDR_SIZE_MIN + len <= IP_TOTAL_SIZE_MAX →
  is_u32 src → is_u32 dst → is_u16 id → is_u16 offset →
  ∃ sum, is_u16 sum
    ∧ ip_packet protocol data len src dst id offset
      = Some (ip_hdr_bytes (ip_hdr_out protocol len src dst id offset sum)
                ++ take (Z.to_nat len) data)
    ∧ cksum16 (ip_hdr_bytes (ip_hdr_out protocol len src dst id offset sum)) IP_HDR_SIZE_MIN 0
      = Some 0.
Proof.
  intros Hp Hl Ht Hs Hd Hi Ho. unfold IP_HDR_SIZE_MIN, IP_TOTAL_SIZE_MAX in *.
  set (h := ip_hdr_out protocol len src dst id offset).
  assert (∀ sum, ip_hdr_bytes (h sum)
    = ([69; 0] ++ store16 (ih_total (h 0)) ++ store16 (ih_id (h 0)) ++ store16 (ih_offset (h 0))
         ++ [255; protocol]) ++ store16 sum ++ (store32 src ++ store32 dst)) as Hsplit.
  { intros sum. unfold ip_hdr_bytes. cbn. by rewrite <- !app_assoc. }
  set (pre := [69; 0] ++ _) in Hsplit. set (post := store32 src ++ store32 dst) in Hsplit.
  assert (length pre = 10%nat) as Lpre
    by (unfold pre; by rewrite !length_app, !length_store16).
  assert (zlen pre = 10 ∧ zlen post = 8) as [Zpre Zpost].
  { split; [unfold zlen; lia|]. unfold post. by rewrite zlen_app, !zlen_store32. }
  assert (bytes_ok pre ∧ bytes_ok post) as [Opre Opost].
  { split; unfold pre, post; repeat (apply bytes_ok_app; split); auto with stack;
      repeat apply Forall_cons_2; try apply Forall_nil_2; (done || ulia). }
  destruct (cksum16 (ip_hdr_bytes (h 0)) 20 0) as [sum|] eqn:E.
  2:{ rewrite Hsplit, cksum16_eq in E; [done| |ulia| |ulia].
      - apply bytes_ok_app. split; [done|]. apply bytes_ok_app. split; [apply store16_ok|done].
      - rewrite !zlen_app, zlen_store16. lia. }
  pose proof E as E'. rewrite Hsplit in E'.
  replace 20 with (zlen pre + 2 + zlen post) in E' by lia.
  apply cksum16_verifies_eq in E' as [Hsum Hver]; [|done|done|by exists 5%nat|ulia|lia].
  exists sum. split; [done|]. split.
  - unfold ip_packet, IP_HDR_SIZE_MIN, IP_TOTAL_SIZE_MAX. rewrite u16_small by ulia.
    unfold h, ip_hdr_out, IP_HDR_SIZE_MIN in E.
    change (Z.lor _ _) with 69. rewrite E. cbn [mbind option_bind].
    rewrite slice_spec by lia. cbn [mbind option_bind].
    destruct (Z.leb_spec (20 + len) 65535); [done|lia].
  - rewrite Hsplit. by replace 20 with (zlen pre + 2 + zlen post) by lia.
Qed.
End Packet.

(** ** What input accepts *)

Section Input.
Context `{Machine} `{Env}.

Definition ip_hlen (h : ip_hdr) : Z := Z.shiftl (Z.land (ih_vhl h) 0x0f) 2.
Definition ip_total (h : ip_hdr) : Z := ntoh16 (ih_total h).

Lemma ip_hlen_range h : 0 <= ip_hlen h <= 60.
Proof.
  unfold ip_hlen. change 0x0f with (Z.ones 4).
  rewrite Z.land_ones, Z.shiftl_mul_pow2 by lia. pose proof (Z.mod_pos_bound (ih_vhl h) (2 ^ 4)). lia.
Qed.

(** The checks of [ip_input] on the header alone. *)
Definition ip_valid (h : ip_hdr) (data : bytes) (len : Z) : bool :=
  (IP_HDR_SIZE_MIN <=? len) && (Z.shiftr (ih_vhl h) 4 =? IP_VERSION_IPV4)
  && (ip_hlen h <=? len) && (ip_total h <=? len)
  && bool_decide (cksum16 data (ip_hlen h) 0 = Some 0)
  && negb (nz (Z.land (ntoh16 (ih_offset h)) 0x2000) || nz (Z.land (ntoh16 (ih_offset h)) 0x1fff)).

(** The addresses an interface listens on. *)
Definition ip_for (ifc : ip_iface) (dst : Z) : bool :=
  (dst =? if_unicast ifc) || (dst =? IP_ADDR_BROADCAST) || (dst =? if_broadcast ifc).

Lemma ip_hdr_at_ok data :
  IP_HDR_SIZE_MIN <= zlen data → bytes_ok data → ∃ h, ip_hdr_at data = Some h ∧ ip_hdr_ok h.
Proof.
  intros Hl Hok. unfold zlen, IP_HDR_SIZE_MIN in Hl.
  do 20 (destruct data as [|? data]; [cbn in Hl; lia|]). eexists. split; [done|].
  unfold bytes_ok in Hok. rewrite !Forall_cons in Hok. destruct_and! Hok.
  split_and!; cbn; auto using load16_range, load32_range.
Qed.

(** [ip_input] checks, selects the interface, and dispatches. *)
Lemma ip_input_eq call data len d dev w :
  bytes_ok data → len <= zlen data → n_devs (w_net w) !! d = Some dev →
  (∀ i, i ∈ d_ifaces dev → is_Some (n_ifs (w_net w) !! i)) →
  ip_input call data len d w
  = match ip_hdr_at data, family_iface (w_net w) dev NET_IFACE_FAMILY_IP with
    | Some h, Some (i, ifc) =>
        if ip_valid h data len && ip_for ifc (ih_dst h)
        then ip_dispatch call h data (ip_hlen h) (ip_total h) i w
        else Done tt w
    | _, _ => Done tt w
    end.
Proof.
  intros Hok Hlen Hdev Hifs. unfold ip_input.
  destruct (Z.ltb_spec len IP_HDR_SIZE_MIN) as [Hs|Hs].
  { destruct (ip_hdr_at data) as [h|]; [|done]. destruct (family_iface _ _ _) as [[i ifc]|]; [|done].
    unfold ip_valid. by destruct (Z.leb_spec IP_HDR_SIZE_MIN len); [lia|]. }
  destruct (ip_hdr_at_ok data) as (h&->&Hh); [lia|done|]. unfold bind at 1, expect, ret at 1.
  unfold ip_valid. fold (ip_hlen h) (ip_total h). pose proof (ip_hlen_range h).
  destruct (Z.leb_spec IP_HDR_SIZE_MIN len); [|lia]. cbn [andb].
  destruct (Z.shiftr _ _ =? _); cbn [negb andb]; [|by destruct (family_iface _ _ _) as [[]|]].
  destruct (Z.ltb_spec len (ip_hlen h)) as [?|?], (Z.leb_spec (ip_hlen h) len) as [?|?];
    try lia; cbn [andb]; [by destruct (family_iface _ _ _) as [[]|]|].
  destruct (Z.ltb_spec len (ip_total h)) as [?|?], (Z.leb_spec (ip_total h) len) as [?|?];
    try lia; cbn [andb]; [by destruct (family_iface _ _ _) as [[]|]|].
  destruct (cksum16 data (ip_hlen h) 0) as [sum|] eqn:E.
  2:{ rewrite cksum16_eq in E; [done|done|ulia|lia|ulia]. }
  unfold bind at 1, expect, ret at 1.
  destruct (Z.eqb_spec sum 0) as [->|Hne]; cbn [negb andb].
  2:{ rewrite bool_decide_eq_false_2 by congruence. by destruct (family_iface _ _ _) as [[]|]. }
  rewrite bool_decide_eq_true_2 by done. cbn [andb].
  destruct (_ || _); cbn [negb andb]; [by destruct (family_iface _ _ _) as [[]|]|].
  pose proof (net_device_get_iface_wp d dev NET_IFACE_FAMILY_IP
    (λ o w', o = fst <$> family_iface (w_net w) dev NET_IFACE_FAMILY_IP ∧ w' = w) w
    Hdev Hifs ltac:(done)) as (o&w'&Eo&->&->)%wp_Done.
  rewrite (bind_Done _ _ _ _ _ Eo).
  destruct (family_iface _ _ _) as [[i ifc]|] eqn:Eif; [|done]. cbn [fmap option_fmap option_map fst].
  apply family_iface_Some in Eif as (_&Hi&_).
  unfold get_if, bind at 1 2, gets. rewrite Hi. unfold expect, ret at 1, ip_for.
  by destruct (ih_dst h =? _), (ih_dst h =? _), (ih_dst h =? _).
Qed.

Lemma ip_input_packet call protocol data len src dst id pkt pad d dev i ifc w :
  is_u8 protocol → 0 <= len <= zlen data → IP_HDR_SIZE_MIN + len <= IP_TOTAL_SIZE_MAX →
  is_u32 src → is_u32 dst → is_u16 id → bytes_ok data → bytes_ok pad →
  n_devs (w_net w) !! d = Some dev →
  (∀ i, i ∈ d_ifaces dev → is_Some (n_ifs (w_net w) !! i)) →
  family_iface (w_net w) dev NET_IFACE_FAMILY_IP = Some (i, ifc) →
  ip_packet protocol data len src dst id 0 = Some pkt →
  ip_input call (pkt ++ pad) (zlen (pkt ++ pad)) d w
  = match ip_for ifc dst, list_find (λ p, ip_type p = protocol) (i_protocols (w_ip w)) with
    | true, Some (_, p) =>
        call (ip_handler_of p) (take (Z.to_nat len) data ++ pad) len src dst i w
    | _, _ => Done tt w
    end.
Proof.
  intros Hp Hl Ht Hs Hd Hi Hok Hpad Hdev Hifs Hif.
  destruct (ip_packet_eq protocol data len src dst id 0) as (sum&Hsum&->&Hck); try done.
  intros Epkt%(inj Some). subst pkt.
  pose proof (ip_hdr_out_ok protocol len src dst id 0 sum Hp ltac:(lia) Ht Hs Hd Hi ltac:(ulia) Hsum)
    as Hh. set (h := ip_hdr_out protocol len src dst id 0 sum) in *.
  assert (bytes_ok (ip_hdr_bytes h)) as Hhb by (by apply ip_hdr_bytes_ok).
  assert (bytes_ok (take (Z.to_nat len) data ++ pad)) as Hrest
    by (apply bytes_ok_app; auto with stack).
  rewrite <- app_assoc.
  assert (zlen (ip_hdr_bytes h ++ take (Z.to_nat len) data ++ pad) = 20 + len + zlen pad) as Hz.
  { rewrite !zlen_app, zlen_ip_hdr_bytes. unfold zlen in *. rewrite length_take.
    unfold IP_HDR_SIZE_MIN. lia. }
  erewrite ip_input_eq; [|by apply bytes_ok_app|done..].
  rewrite (ip_hdr_at_bytes h) by done. rewrite Hif. change (ih_dst h) with dst.
  unfold IP_HDR_SIZE_MIN, IP_TOTAL_SIZE_MAX in *. pose proof (zlen_nonneg pad).
  assert (ip_total h = 20 + len) as Htot.
  { unfold ip_total. cbn [ih_total h ip_hdr_out]. apply ntoh16_hton16. ulia. }
  assert (ip_valid h (ip_hdr_bytes h ++ take (Z.to_nat len) data ++ pad)
            (zlen (ip_hdr_bytes h ++ take (Z.to_nat len) data ++ pad)) = true) as ->.
  { unfold ip_valid, IP_HDR_SIZE_MIN. rewrite Htot, Hz. change (ip_hlen h) with 20.
    rewrite cksum16_prefix by (try done; try ulia; rewrite zlen_ip_hdr_bytes; done).
    rewrite bool_decide_eq_true_2 by done. cbn [ih_offset h ip_hdr_out].
    rewrite ntoh16_hton16 by ulia. cbn [nz Z.land negb orb].
    repeat (apply andb_true_intro; split); try done; by apply Z.leb_le; lia. }
  cbn [andb]. unfold ip_dispatch. rewrite Htot. change (ip_hlen h) with 20.
  destruct (ip_for ifc dst); [|done]. unfold bind, gets. change (ih_protocol h) with protocol.
  destruct (list_find _ _) as [[k p]|]; [|done].
  rewrite drop_app_length' by (pose proof (zlen_ip_hdr_bytes h) as E; unfold zlen, IP_HDR_SIZE_MIN in E; lia).
  replace (20 + len - 20) with len by lia. by rewrite u64_small by ulia.
Qed.

(** C24. What [ip_output_core] builds, [ip_input] delivers: a packet for an
    address of the receiving interface reaches the handler registered for
    its protocol with the sender's payload, length and addresses, whatever
    padding the link added; a packet for another address, or of a protocol
    without a handler, is dropped without effect.  The header checksum
    verifies on hosts of either byte order. *)
Theorem ip_packet_delivered call protocol data len src dst id pkt pad d dev i ifc w :
  is_u8 protocol → 0 <= len <= zlen data → IP_HDR_SIZE_MIN + len <= IP_TOTAL_SIZE_MAX →
  is_u32 src → is_u32 dst → is_u16 id → bytes_ok data → bytes_ok pad →
  n_devs (w_net w) !! d = Some dev →
  (∀ i, i ∈ d_ifaces dev → is_Some (n_ifs (w_net w) !! i)) →
  family_iface (w_net w) dev NET_IFACE_FAMILY_IP = Some (i, ifc) →
  ip_packet protocol data len src dst id 0 = Some pkt →
  ip_input call (pkt ++ pad) (zlen (pkt ++ pad)) d w
  = match ip_for ifc dst, list_find (λ p, ip_type p = protocol) (i_protocols (w_ip w)) with
    | true, Some (_, p) =>
        call (ip_handler_of p) (take (Z.to_nat len) data ++ pad) len src dst i w
    | _, _ => Done tt w
    end.
Proof. apply ip_input_packet. Qed.

(** Input is safe if the handlers are, on packets whose header has at least
    20 bytes and lies inside the total length: a handler is only run on a
    payload inside the packet, for an address of the interface. *)
Lemma ip_input_wp (call : ip_call) data len d dev w (Q : unit → world → Prop) :
  bytes_ok data → len <= zlen data → n_devs (w_net w) !! d = Some dev →
  (∀ i, i ∈ d_ifaces dev → is_Some (n_ifs (w_net w) !! i)) →
  (∀ h, ip_hdr_at data = Some h → ip_valid h data len = true →
     IP_HDR_SIZE_MIN <= ip_hlen h <= ip_total h) →
  (∀ p h i ifc, let payload := drop (Z.to_nat (ip_hlen h)) data in
     let plen := ip_total h - ip_hlen h in
     ip_hdr_at data = Some h → ip_valid h data len = true →
     family_iface (w_net w) dev NET_IFACE_FAMILY_IP = Some (i, ifc) →
     p ∈ i_protocols (w_ip w) → ip_type p = ih_protocol h → ip_hdr_ok h → bytes_ok payload →
     plen <= IP_PAYLOAD_SIZE_MAX → 0 <= plen <= zlen payload →
     wp (call (ip_handler_of p) payload plen (ih_src h) (ih_dst h) i) Q w) →
  Q tt w → wp (ip_input call data len d) Q w.
Proof.
  intros Hok Hlen Hdev Hifs Hhl Hcall HQ. unfold wp. erewrite ip_input_eq by done.
  destruct (ip_hdr_at data) as [h|] eqn:Eh; [|done].
  destruct (family_iface _ _ _) as [[i ifc]|] eqn:Eif; [|done].
  destruct (ip_valid h data len) eqn:Ev; [|done]. destruct (ip_for ifc _) eqn:Ef; [|done].
  cbn [andb]. unfold ip_dispatch, bind, gets.
  destruct (list_find _ _) as [[k p]|] eqn:Ep; [|done].
  apply list_find_Some in Ep as (Hp%list_elem_of_lookup_2&Htype&_).
  pose proof Ev as Ev'. unfold ip_valid in Ev'. rewrite !andb_true_iff, !Z.leb_le in Ev'.
  destruct Ev' as (((((Hl20&_)&?)&Htot)&_)&_). specialize (Hhl h eq_refl Ev).
  unfold IP_HDR_SIZE_MIN in Hl20, Hhl.
  destruct (ip_hdr_at_ok data) as (h'&E'&Hh); [unfold IP_HDR_SIZE_MIN; lia|done|].
  replace h' with h in * by congruence. pose proof (ip_hlen_range h).
  assert (is_u16 (ip_total h)) as Ht16 by (apply hton16_range, Hh).
  rewrite u64_small by ulia. eapply Hcall; try done.
  - by apply Forall_drop.
  - unfold IP_PAYLOAD_SIZE_MAX, IP_TOTAL_SIZE_MAX, IP_HDR_SIZE_MIN. ulia.
  - unfold zlen in *. rewrite length_drop. lia.
Qed.

(** A packet that says 0 bytes in total, for the address [dst]. *)
Definition ip_short_total (src dst sum : Z) : bytes :=
  ip_hdr_bytes (IpHdr 69 0 0 0 0 255 IP_PROTOCOL_UDP sum src dst).

(** C34. Input does not compare the total length with the header length: a
    packet with a valid checksum that announces 0 bytes in total is handed
    to its protocol with a length of 2^64 - 20, although its payload is
    empty. *)
Theorem ip_input_total_underflow call src dst sum d dev i ifc k p w :
  is_u32 src → is_u32 dst → is_u16 sum →
  cksum16 (ip_short_total src dst sum) IP_HDR_SIZE_MIN 0 = Some 0 →
  n_devs (w_net w) !! d = Some dev →
  (∀ i, i ∈ d_ifaces dev → is_Some (n_ifs (w_net w) !! i)) →
  family_iface (w_net w) dev NET_IFACE_FAMILY_IP = Some (i, ifc) → if_unicast ifc = dst →
  list_find (λ p, ip_type p = IP_PROTOCOL_UDP) (i_protocols (w_ip w)) = Some (k, p) →
  ip_input call (ip_short_total src dst sum) IP_HDR_SIZE_MIN d w
  = call (ip_handler_of p) [] (2 ^ 64 - 20) src dst i w.
Proof.
  intros Hs Hd Hsum Hck Hdev Hifs Hif Hu Hp. unfold ip_short_total in *.
  set (h := IpHdr 69 0 0 0 0 255 IP_PROTOCOL_UDP sum src dst) in *.
  assert (ip_hdr_ok h) as Hh by (split_and!; (done || ulia)).
  pose proof (zlen_ip_hdr_bytes h) as Hz.
  erewrite ip_input_eq; [|by apply ip_hdr_bytes_ok|by rewrite Hz|done..].
  assert (ip_hdr_at (ip_hdr_bytes h) = Some h) as ->
    by (rewrite <- (app_nil_r (ip_hdr_bytes h)); by apply ip_hdr_at_bytes).
  rewrite Hif. change (ip_hlen h) with 20. change (ih_dst h) with dst.
  assert (ntoh16 0 = 0) as E0
    by (rewrite ntoh16_hton16_same, hton16_eq by ulia; by destruct mach_endian).
  assert (ip_valid h (ip_hdr_bytes h) IP_HDR_SIZE_MIN = true) as ->.
  { unfold ip_valid, ip_total. change (ip_hlen h) with 20. cbn [ih_total ih_offset h].
    rewrite E0. by rewrite bool_decide_eq_true_2. }
  assert (ip_for ifc dst = true) as -> by (unfold ip_for; rewrite Hu; by rewrite Z.eqb_refl).
  cbn [andb]. unfold ip_dispatch, bind, gets, ip_total. cbn [ih_protocol ih_total h].
  rewrite Hp, E0. rewrite drop_ge; [done|]. unfold zlen, IP_HDR_SIZE_MIN in Hz. lia.
Qed.
End Input.

(** ** Broadcast *)

Lemma ip_iface_broadcast_eq unicast netmask :
  netmask ≠ 0 → ip_iface_broadcast unicast netmask = Z.land unicast netmask.
Proof.
  intros Hn. unfold ip_iface_broadcast, nz. destruct (Z.eqb_spec netmask 0); [done|].
  apply Z.lor_0_r.
Qed.

(** The broadcast address of a network: the host bits set. *)
Definition directed_broadcast (unicast netmask : Z) : Z :=
  Z.lor (Z.land unicast netmask) (Z.ldiff (Z.ones 32) netmask).

Lemma ldiff_ones_0 m : is_u32 m → Z.ldiff (Z.ones 32) m = 0 → m = Z.ones 32.
Proof.
  intros Hm E. apply Z.bits_inj'. intros n Hn. destruct (Z.lt_ge_cases n 32).
  - assert (Z.testbit (Z.ldiff (Z.ones 32) m) n = false) as Hb by (by rewrite E, Z.bits_0).
    rewrite Z.ldiff_spec, Z.ones_spec_low in Hb by lia.
    rewrite Z.ones_spec_low by lia. by destruct (Z.testbit m n).
  - rewrite Z.ones_spec_high by lia. rewrite <- (Z.mod_small m (2 ^ 32)) by (unfold is_u32 in *; lia).
    by apply Z.mod_pow2_bits_high.
Qed.


(** ** Output *)

(** The state output relies on: a well-formed ARP cache, and routes over
    interfaces in order. *)
Record ip_wf (w : world) : Prop := IpWf {
  iw_arp : arp_wf (w_arp w);
  iw_id : is_u16 (i_id (w_ip w));
  iw_routes : Forall (λ r, iface_wf w (rt_iface r) ∧ is_u32 (rt_nexthop r)) (i_routes (w_ip w))
}.

Section Output.
Context `{Machine} `{EnvOk} `{!DeviceOps} `{!DeviceOpsOk}.

Lemma ip_output_device_wp w i data len dst :
  arp_wf (w_arp w) → link_free w → iface_wf w i → 0 <= len <= zlen data → bytes_ok data →
  wp (ip_output_device i data len dst) (λ r w', (r = 0 ∨ r = -1) ∧ send_frame w w') w.
Proof.
  intros Harp Hfree Hif Hl Hok. pose proof Hif as (ifc&d&dev&Hi&Hd&Hdev&Hwf&_).
  destruct (dev_wf_addr dev Hwf) as [La Lb].
  unfold ip_output_device. do 2 wp_step. rewrite Hd. do 4 wp_step. apply wp_bind.
  assert (∀ hw w1, zlen hw = 16 → send_frame w w1 →
    wp (net_device_output d NET_PROTOCOL_TYPE_IP data len hw)
       (λ r w', (r = 0 ∨ r = -1) ∧ send_frame w w') w1) as Hout.
  { intros hw w1 Hhw Hf. pose proof (sf_devs _ _ Hf) as Hdevs. pose proof (sf_locked _ _ Hf) as Hlock.
    destruct (static_dev w w1 d dev) as (dev1&Ed&Hwf1&_); [done..|].
    eapply wp_mono.
    - eapply net_device_output_wp; try done; [unfold ETHER_ADDR_LEN; lia|].
      rewrite Hlock. apply Hfree.
    - intros r w' [Hr Hw]. split; [done|]. etrans; [done|]. by apply output_send_frame. }
  assert (zlen (replicate (Z.to_nat NET_DEVICE_ADDR_LEN) 0) = 16) as Hrep by done.
  destruct (nz _); [destruct (_ || _)|].
  - destruct (memcpy (replicate (Z.to_nat NET_DEVICE_ADDR_LEN) 0) 0 (d_broadcast dev) (d_alen dev))
      as [hw|] eqn:E.
    2:{ rewrite memcpy_spec in E; [done|lia|apply Hwf|rewrite Hrep; apply Hwf|rewrite Lb; apply Hwf]. }
    do 3 wp_step. apply Hout; [|done]. apply memcpy_length in E. unfold zlen. by rewrite E.
  - eapply wp_mono; [by eapply arp_resolve_wp|].
    intros [r hw] w1 [Hf Hr].
    assert ((r = 0 ∨ r = -1) ∧ hw = replicate (Z.to_nat NET_DEVICE_ADDR_LEN) 0
            ∨ r = ARP_RESOLVE_FOUND ∧ zlen hw = 16) as [[Hr' ->]|[-> Hhw]].
    { destruct (_ && _); [|destruct Hr as [Hr _]; injection Hr as -> ->; auto].
      destruct (arp_lookup (w_arp w) dst) as [h|] eqn:Eh; destruct Hr as [Hr _].
      - injection Hr as -> ->. right. split; [done|].
        destruct Harp as (_&Harp&Hu). apply arp_lookup_Some in Eh as (k&e&Hk&_&<-); [|done].
        rewrite Forall_lookup in Harp. destruct (Harp k e Hk) as (_&Hlen&_).
        unfold zlen. rewrite length_app, Hlen. done.
      - injection Hr as -> ->. auto. }
    + destruct Hr' as [->| ->]; cbn [negb Z.eqb ARP_RESOLVE_FOUND]; wp_step; auto.
    + by apply Hout.
  - wp_step. by apply Hout.
Qed.

Lemma ip_generate_id_wp w :
  MutexIpId ∉ locked w → is_u16 (i_id (w_ip w)) →
  wp ip_generate_id (λ id w', id = i_id (w_ip w) ∧ is_u16 id ∧ send_frame w w'
    ∧ w_net w' = w_net w ∧ w_arp w' = w_arp w ∧ i_id (w_ip w') = u16 (id + 1)) w.
Proof.
  intros Hm Hid. unfold ip_generate_id. repeat wp_step; [by left|].
  split_and!; try done; try apply Hid. constructor; try done; [|by apply filter_unlock].
  intros _. apply u16_range.
Qed.

Lemma ip_wf_frame w w' :
  send_frame w w' → ip_wf w → ip_wf w'.
Proof.
  intros Hf [Harp Hid Hr]. split; [by apply (sf_arp _ _ Hf)|by apply (sf_id _ _ Hf)|].
  assert (i_routes (w_ip w') = i_routes (w_ip w)) as ->.
  { pose proof (sf_ip _ _ Hf) as E. by injection E. }
  eapply Forall_impl; [done|]. intros r [Hi Hn]. split; [|done].
  by eapply iface_wf_frame; [apply Hf..|].
Qed.

(** Sending keeps the state in order, and changes nothing above IP. *)
Lemma ip_output_wp w protocol data len src dst :
  ip_wf w → link_free w → is_u8 protocol → 0 <= len <= zlen data → zlen data < 2 ^ 32 →
  bytes_ok data → is_u32 dst →
  wp (ip_output protocol data len src dst)
     (λ r w', (r = -1 ∨ r = len) ∧ send_frame w w') w.
Proof.
  intros Hwf Hfree Hp Hl Hbig Hok Hdst. pose proof Hwf as [Harp Hid Hroutes]. unfold ip_output.
  destruct (_ && _); [by wp_step; split; [auto|]|]. unfold ip_route_lookup. do 2 wp_step.
  pose proof (ip_route_select_best (i_routes (w_ip w)) dst) as Hbest.
  destruct (ip_route_select _ dst) as [r|]; [|by wp_step; split; [auto|]].
  destruct Hbest as (k&Hk&_). rewrite Forall_lookup in Hroutes.
  destruct (Hroutes k r Hk) as [Hif Hnh]. pose proof Hif as (ifc&d&dev&Hi&Hd&Hdev&Hdwf&Hu&_).
  do 2 wp_step. destruct (_ && _); [by wp_step; split; [auto|]|]. rewrite Hd. do 4 wp_step.
  assert (is_u16 (d_mtu dev)) as Hmtu by (by destruct Hdwf as (_&_&_&_&_&?&_)).
  unfold IP_HDR_SIZE_MIN. rewrite u64_small by ulia.
  destruct (Z.ltb_spec (d_mtu dev) (20 + len)); [by wp_step; split; [auto|]|]. apply wp_bind.
  eapply wp_mono; [apply ip_generate_id_wp; [apply Hfree|done]|].
  intros id w1 (->&_&Hf1&Hn1&Ha1&Hid1). unfold ip_output_core.
  destruct (ip_packet_eq protocol data len (if_unicast ifc) dst (i_id (w_ip w)) 0)
    as (sum&Hsum&->&_); try done; [unfold IP_HDR_SIZE_MIN, IP_TOTAL_SIZE_MAX; ulia|].
  unfold IP_HDR_SIZE_MIN. rewrite u16_small by ulia. do 3 wp_step.
  eapply wp_mono; [apply ip_output_device_wp|].
  - by rewrite Ha1.
  - by apply (link_free_frame w); [apply Hf1|].
  - unfold iface_wf. by rewrite Hn1.
  - rewrite zlen_app, zlen_ip_hdr_bytes. unfold zlen in *. rewrite length_take.
    unfold IP_HDR_SIZE_MIN. lia.
  - apply bytes_ok_app. split; [|by apply Forall_take]. apply ip_hdr_bytes_ok, ip_hdr_out_ok; try done;
      unfold IP_HDR_SIZE_MIN, IP_TOTAL_SIZE_MAX; ulia.
  - intros r' w2 [Hr Hf2]. assert (send_frame w w2) by (by etrans).
    destruct (_ =? _); wp_step; auto.
Qed.

(** [ip_output] is safe and frames the rest of the stack: for any data
    inside its buffer it returns -1 or the length, never faults (the packet
    fits its buffer, resolution and the driver stay inside theirs), releases
    every mutex it takes, keeps the ARP cache well formed and the routes
    usable, and leaves the tables of net.c and ip.c and every UDP and TCP
    control block alone. *)
Lemma ip_output_safe w protocol data len src dst :
  ip_wf w → link_free w → is_u8 protocol → 0 <= len <= zlen data → zlen data < 2 ^ 32 →
  bytes_ok data → is_u32 dst →
  wp (ip_output protocol data len src dst)
     (λ r w', (r = -1 ∨ r = len) ∧ send_frame w w' ∧ ip_wf w') w.
Proof.
  intros Hwf ??????. eapply wp_mono; [by apply ip_output_wp|].
  intros r w' [Hr Hf]. split_and!; [done..|]. by eapply ip_wf_frame.
Qed.
End Output.

(** ** On the sample host *)

Lemma sample_ip_wf tcp : ip_wf (sample_world tcp).
Proof.
  split; [apply sample_arp_wf|cbn; ulia|].
  repeat apply Forall_cons_2; try apply Forall_nil_2;
    (split; [apply sample_iface_wf; cbn; lia|done]).
Qed.

Definition sample_plen (r : ip_route) : Z :=
  if rt_netmask r =? 0 then 0 else if rt_netmask r =? 0xff then 8 else 24.

(** 192.0.2.77 goes over the attached network, not to the gateway. *)
Lemma ip_route_longest_prefix_witness :
  ∃ k c, @ip_route_select sample_machine (i_routes sample_ip) 0x4d0200c0 = Some c
    ∧ i_routes sample_ip !! k = Some c ∧ rt_nexthop c = 0
    ∧ @in_prefix sample_machine 0x4d0200c0 (rt_network c) (sample_plen c)
    ∧ ∀ j r, i_routes sample_ip !! j = Some r →
        @in_prefix sample_machine 0x4d0200c0 (rt_network r) (sample_plen r) →
        sample_plen r <= sample_plen c.
Proof.
  assert (Forall (λ r, @route_prefix sample_machine r (sample_plen r)) (i_routes sample_ip)) as Hp.
  { repeat apply Forall_cons_2; try apply Forall_nil_2; (split_and!; vm_compute; done). }
  assert (@ip_route_select sample_machine (i_routes sample_ip) 0x4d0200c0
          = Some (IpRoute 0x000200c0 0x00ffffff 0 0)) as E by (vm_compute; done).
  pose proof (@ip_route_longest_prefix sample_machine (i_routes sample_ip) 0x4d0200c0 sample_plen
    ltac:(done) Hp) as Hr. rewrite E in Hr. destruct Hr as (k&Hk&Hin&Hbest).
  exists k. eexists. split; [exact E|]. split_and!; [exact Hk|done|exact Hin|].
  intros j r Hj Hr. by destruct (Hbest j r Hj Hr).
Defined.

(** A handler that is seen to run. *)
Definition sample_call : ip_call := λ _ _ _ _ _ _, crash FaultFuel.

Lemma ip_packet_delivered_witness :
  ∃ pkt, @ip_packet sample_machine IP_PROTOCOL_UDP [1; 2; 3] 3 addr_gw addr_tap 128 0 = Some pkt ∧
    @ip_input sample_machine sample_call (pkt ++ replicate 23 0) (zlen (pkt ++ replicate 23 0)) 0
      (sample_world []) = Fault FaultFuel.
Proof.
  destruct (@ip_packet sample_machine IP_PROTOCOL_UDP [1; 2; 3] 3 addr_gw addr_tap 128 0)
    as [pkt|] eqn:E; [|vm_compute in E; discriminate E].
  exists pkt. split; [done|].
  rewrite (@ip_packet_delivered sample_machine sample_call IP_PROTOCOL_UDP [1; 2; 3] 3
    addr_gw addr_tap 128 pkt (replicate 23 0) 0 sample_tap 0
    (IpIface NET_IFACE_FAMILY_IP (Some 0%nat) addr_tap 0x00ffffff 0x000200c0) (sample_world []));
    try done.
  - by repeat apply Forall_cons_2.
  - by apply Forall_replicate.
  - intros i ->%list_elem_of_singleton. by eexists.
Defined.

Lemma ip_input_total_underflow_witness :
  @ip_input sample_machine sample_call (@ip_short_total sample_machine addr_gw addr_tap 0xe937)
    IP_HDR_SIZE_MIN 0 (sample_world []) = Fault FaultFuel.
Proof.
  rewrite (@ip_input_total_underflow sample_machine sample_call addr_gw addr_tap 0xe937 0
    sample_tap 0 (IpIface NET_IFACE_FAMILY_IP (Some 0%nat) addr_tap 0x00ffffff 0x000200c0) 1
    (IpProtocol 17 HandlerUdp) (sample_world [])); try done.
  intros i ->%list_elem_of_singleton. by eexists.
Defined.


Lemma ip_output_safe_witness :
  ∃ r w', @ip_output sample_machine sample_env sample_ops IP_PROTOCOL_UDP [1; 2; 3] 3 0 addr_gw
            (sample_world []) = Done r w' ∧ ip_wf w'.
Proof.
  pose proof (@ip_output_safe sample_machine sample_env sample_env_ok sample_ops sample_ops_ok
    (sample_world []) IP_PROTOCOL_UDP [1; 2; 3] 3 0 addr_gw (sample_ip_wf []) (sample_link_free [])
    ltac:(done) ltac:(vm_compute; done) ltac:(vm_compute; done)
    ltac:(by repeat apply Forall_cons_2) ltac:(done))
    as (r&w'&E&_&_&Hwf)%wp_Done.
  exists r, w'. by split.
Defined.
