(* ===== verification/Icmp.v ===== *)
(** * ICMP

    [src/src/icmp.c].  The theorems: the echo reply carries the identifier,
    sequence number and payload of the request under a checksum that
    verifies, and messages are handled without a fault. *)

From S2P Require Import Prelude Bytes Checksum Clock Text Addr Monad State Platform Queue Net.
From S2P Require Import Ether Device Sample Arp Ip.

Definition ICMP_HDR_SIZE : Z := 8.
Definition ICMP_BUFSIZ : Z := IP_PAYLOAD_SIZE_MAX.
Definition ICMP_TYPE_ECHOREPLY : Z := 0.
Definition ICMP_TYPE_ECHO : Z := 8.

(** [struct icmp_hdr] *)
Record icmp_hdr := IcmpHdr {
  icmp_type : Z;
  icmp_code : Z;
  icmp_sum : Z;
  icmp_values : Z
}.

Section Icmp.
Context `{Machine} `{Env} `{DeviceOps}.

Definition icmp_hdr_bytes (h : icmp_hdr) : bytes :=
  [icmp_type h; icmp_code h] ++ store16 (icmp_sum h) ++ store32 (icmp_values h).

Definition icmp_hdr_at (data : bytes) : option icmp_hdr :=
  match data with
  | type :: code :: s0 :: s1 :: v0 :: v1 :: v2 :: v3 :: _ =>
      Some (IcmpHdr type code (load16 s0 s1) (load32 v0 v1 v2 v3))
  | _ => None
  end.

(** The message [icmp_output] builds in a buffer of [ICMP_BUFSIZ] bytes. *)
Definition icmp_message (type code values : Z) (data : bytes) (len : Z) : option bytes :=
  payload ← slice 0 len data;
  if ICMP_HDR_SIZE + len <=? ICMP_BUFSIZ then
    let msg_len := ICMP_HDR_SIZE + len in
    sum ← cksum16 (icmp_hdr_bytes (IcmpHdr type code 0 values) ++ payload) msg_len 0;
    Some (icmp_hdr_bytes (IcmpHdr type code sum values) ++ payload)
  else None.

Definition icmp_output (type code values : Z) (data : bytes) (len src dst : Z) : C Z :=
  buf <- expect FaultBounds (icmp_message type code values data len);;
  ip_output IP_PROTOCOL_ICMP buf (ICMP_HDR_SIZE + len) src dst.

Definition icmp_input (data : bytes) (len src dst : Z) (iface : nat) : C unit :=
  if len <? ICMP_HDR_SIZE then ret tt
  else
    hdr <- expect FaultBounds (icmp_hdr_at data);;
    sum <- expect FaultBounds (cksum16 data len 0);;
    if negb (sum =? 0) then ret tt
    else if icmp_type hdr =? ICMP_TYPE_ECHO then
      i <- get_if iface;;
      icmp_output ICMP_TYPE_ECHOREPLY (icmp_code hdr) (icmp_values hdr)
        (drop (Z.to_nat ICMP_HDR_SIZE) data) (len - ICMP_HDR_SIZE) (if_unicast i) src;;
      ret tt
    else ret tt.

Definition icmp_init : C Z :=
  r <- ip_protocol_register IP_PROTOCOL_ICMP HandlerIcmp;;
  if r =? -1 then ret (-1) else ret 0.
End Icmp.

Section Messages.
Context `{Machine}.

Lemma zlen_icmp_hdr_bytes h : zlen (icmp_hdr_bytes h) = ICMP_HDR_SIZE.
Proof. unfold icmp_hdr_bytes. by rewrite !zlen_app, zlen_store16, zlen_store32. Qed.

Lemma length_icmp_hdr_bytes h : length (icmp_hdr_bytes h) = 8%nat.
Proof. pose proof (zlen_icmp_hdr_bytes h) as E. unfold zlen, ICMP_HDR_SIZE in E. lia. Qed.

Lemma icmp_hdr_bytes_ok h : is_u8 (icmp_type h) → is_u8 (icmp_code h) → bytes_ok (icmp_hdr_bytes h).
Proof.
  intros Ht Hc. unfold icmp_hdr_bytes. repeat (apply bytes_ok_app; split);
    auto with stack. by repeat apply Forall_cons_2.
Qed.

Lemma icmp_hdr_at_bytes h rest :
  is_u16 (icmp_sum h) → is_u32 (icmp_values h) →
  icmp_hdr_at (icmp_hdr_bytes h ++ rest) = Some h.
Proof.
  destruct h as [type code sum values]. cbn [icmp_sum icmp_values]. intros Hs Hv.
  unfold icmp_hdr_bytes. cbn [icmp_type icmp_code icmp_sum icmp_values].
  destruct (store16_loads sum Hs) as (?&?&->&_&_&<-),
    (store32_loads values Hv) as (?&?&?&?&->&_&_&_&_&<-). done.
Qed.

(** The message, and that its checksum verifies. *)
Lemma icmp_message_eq type code values data len :
  is_u8 type → is_u8 code → is_u32 values → bytes_ok data → 0 <= len <= zlen data →
  ICMP_HDR_SIZE + len <= ICMP_BUFSIZ →
  ∃ sum, is_u16 sum
    ∧ icmp_message type code values data len
      = Some (icmp_hdr_bytes (IcmpHdr type code sum values) ++ take (Z.to_nat len) data)
    ∧ cksum16 (icmp_hdr_bytes (IcmpHdr type code sum values) ++ take (Z.to_nat len) data)
        (ICMP_HDR_SIZE + len) 0 = Some 0.
Proof.
  intros Ht Hc Hv Hok Hl Hb. change ICMP_BUFSIZ with 65515 in *. unfold ICMP_HDR_SIZE in *.
  set (p := take (Z.to_nat len) data).
  assert (zlen p = len) as Zp by (unfold p, zlen in *; rewrite length_take; lia).
  assert (∀ sum, icmp_hdr_bytes (IcmpHdr type code sum values) ++ p
    = [type; code] ++ store16 sum ++ (store32 values ++ p)) as Hsplit.
  { intros sum. unfold icmp_hdr_bytes. cbn [icmp_type icmp_code icmp_sum icmp_values].
    by rewrite <- !app_assoc. }
  assert (zlen (store32 values ++ p) = 4 + len) as Zpost by (rewrite zlen_app, zlen_store32; lia).
  assert (bytes_ok [type; code]) as Opre by (by repeat apply Forall_cons_2).
  assert (bytes_ok (store32 values ++ p)) as Opost.
  { apply bytes_ok_app. split; [apply store32_ok|]. by apply Forall_take. }
  assert (8 + len = zlen [type; code] + 2 + zlen (store32 values ++ p)) as Hlen
    by (rewrite Zpost; change (zlen [type; code]) with 2; lia).
  destruct (cksum16 (icmp_hdr_bytes (IcmpHdr type code 0 values) ++ p) (8 + len) 0) as [sum|] eqn:E.
  2:{ rewrite Hsplit, cksum16_eq in E; [done| |ulia| |ulia].
      - apply bytes_ok_app. split; [done|]. apply bytes_ok_app. split; [apply store16_ok|done].
      - rewrite zlen_app, (zlen_app (store16 0)), zlen_store16, Zpost.
        change (zlen [type; code]) with 2. lia. }
  pose proof E as E'. rewrite Hsplit, Hlen in E'.
  apply cksum16_verifies_eq in E' as [Hsum Hver]; [|done|done|by exists 1%nat|ulia|lia].
  exists sum. split; [done|]. split; [|by rewrite Hsplit, Hlen].
  unfold icmp_message. rewrite slice_spec by lia. cbn [mbind option_bind].
  change ICMP_BUFSIZ with 65515. unfold ICMP_HDR_SIZE.
  destruct (Z.leb_spec (8 + len) 65515); [|lia].
  change (take (Z.to_nat len) (drop (Z.to_nat 0) data)) with p. by rewrite E.
Qed.

Context `{Env} `{DeviceOps}.

Lemma icmp_message_ok type code values data len msg :
  is_u8 type → is_u8 code → is_u32 values → bytes_ok data → 0 <= len <= zlen data →
  ICMP_HDR_SIZE + len <= ICMP_BUFSIZ → icmp_message type code values data len = Some msg →
  zlen msg = ICMP_HDR_SIZE + len ∧ bytes_ok msg.
Proof.
  intros Ht Hc Hv Hok Hl Hb E.
  destruct (icmp_message_eq type code values data len) as (s&_&E'&_); [done..|].
  rewrite E in E'. apply (inj Some) in E' as ->. rewrite zlen_app, zlen_icmp_hdr_bytes. split.
  - unfold zlen in *. rewrite length_take. lia.
  - apply bytes_ok_app. split; [by apply icmp_hdr_bytes_ok|by apply Forall_take].
Qed.

(** [icmp_input] on an echo request, padded or not. *)
Lemma icmp_input_echo code values data len pad src dst i ifc w request :
  is_u8 code → is_u32 values → bytes_ok data → bytes_ok pad → 0 <= len <= zlen data →
  ICMP_HDR_SIZE + len <= ICMP_BUFSIZ → n_ifs (w_net w) !! i = Some ifc →
  icmp_message ICMP_TYPE_ECHO code values data len = Some request →
  ∃ reply, icmp_message ICMP_TYPE_ECHOREPLY code values data len = Some reply
    ∧ zlen reply = ICMP_HDR_SIZE + len ∧ bytes_ok reply
    ∧ cksum16 reply (ICMP_HDR_SIZE + len) 0 = Some 0
    ∧ drop 4 reply = drop 4 request
    ∧ icmp_input (request ++ pad) (ICMP_HDR_SIZE + len) src dst i w
      = (ip_output IP_PROTOCOL_ICMP reply (ICMP_HDR_SIZE + len) (if_unicast ifc) src;; ret tt) w.
Proof.
  intros Hc Hv Hok Hpad Hl Hb Hi. pose proof (zlen_nonneg pad).
  assert (zlen (take (Z.to_nat len) data) = len) as Ztk by (unfold zlen in *; rewrite length_take; lia).
  destruct (icmp_message_eq ICMP_TYPE_ECHO code values data len) as (s1&Hs1&E1&Hk1);
    [unfold ICMP_TYPE_ECHO; ulia|done..|].
  destruct (icmp_message_eq ICMP_TYPE_ECHOREPLY code values data len) as (s0&Hs0&E0&Hk0);
    [unfold ICMP_TYPE_ECHOREPLY; ulia|done..|].
  rewrite E1. intros Er%(inj Some). subst request.
  destruct (icmp_message_ok ICMP_TYPE_ECHO code values data len _ ltac:(done) Hc Hv Hok Hl Hb E1) as [Z1 O1].
  destruct (icmp_message_ok ICMP_TYPE_ECHOREPLY code values data len _ ltac:(done) Hc Hv Hok Hl Hb E0) as [Z0 O0].
  eexists. split_and!; [exact E0|done..| |].
  { assert (∀ t s, drop 4 (icmp_hdr_bytes (IcmpHdr t code s values) ++ take (Z.to_nat len) data)
                   = store32 values ++ take (Z.to_nat len) data) as Hd4; [|by rewrite !Hd4].
    intros t s. unfold icmp_hdr_bytes. rewrite <- !app_assoc. cbn [icmp_type icmp_code icmp_sum icmp_values].
    rewrite (app_assoc [t; code]). apply drop_app_length'. by rewrite length_app, length_store16. }
  change ICMP_BUFSIZ with 65515 in *. unfold icmp_input, ICMP_HDR_SIZE in *.
  destruct (Z.ltb_spec (8 + len) 8); [lia|].
  rewrite cksum16_prefix, Hk1 by (done || ulia). rewrite <- app_assoc.
  rewrite icmp_hdr_at_bytes by done. unfold bind at 1, expect at 1, ret at 1.
  unfold bind at 1, expect at 1, ret at 1. cbn [Z.eqb negb icmp_type icmp_code icmp_values ICMP_TYPE_ECHO Pos.eqb].
  unfold get_if, bind at 1 2 3, gets. rewrite Hi. unfold expect at 1, ret at 1.
  unfold icmp_output, bind, ICMP_HDR_SIZE.
  rewrite drop_app_length' by (by rewrite length_icmp_hdr_bytes).
  replace (8 + len - 8) with len by lia.
  assert (icmp_message ICMP_TYPE_ECHOREPLY code values (take (Z.to_nat len) data ++ pad) len
          = icmp_message ICMP_TYPE_ECHOREPLY code values data len) as ->.
  { unfold icmp_message. rewrite !slice_spec by (rewrite ?zlen_app; lia).
    change (Z.to_nat 0) with 0%nat. rewrite !drop_0, take_app_length'; [done|].
    unfold zlen in Ztk. lia. }
  rewrite E0. done.
Qed.

(** An echo request built by [icmp_output] is answered with the echo
    reply that [icmp_output] builds from the same code, identifier, sequence
    number and payload, sent from the receiving interface's address to the
    requester; the reply's checksum verifies.  What follows the request in
    the buffer, as the padding of a frame does, has no effect. *)
Lemma icmp_echo_reply code values data len pad src dst i ifc w request :
  is_u8 code → is_u32 values → bytes_ok data → bytes_ok pad → 0 <= len <= zlen data →
  ICMP_HDR_SIZE + len <= ICMP_BUFSIZ → n_ifs (w_net w) !! i = Some ifc →
  icmp_message ICMP_TYPE_ECHO code values data len = Some request →
  ∃ reply, icmp_message ICMP_TYPE_ECHOREPLY code values data len = Some reply
    ∧ cksum16 reply (ICMP_HDR_SIZE + len) 0 = Some 0
    ∧ drop 4 reply = drop 4 request
    ∧ icmp_input (request ++ pad) (ICMP_HDR_SIZE + len) src dst i w
      = (ip_output IP_PROTOCOL_ICMP reply (ICMP_HDR_SIZE + len) (if_unicast ifc) src;; ret tt) w.
Proof.
  intros Hc Hv Hok Hpad Hl Hb Hi Er.
  destruct (icmp_input_echo code values data len pad src dst i ifc w request)
    as (reply&?&_&_&?&?&?); [done..|]. by exists reply.
Qed.
End Messages.

Section Safety.
Context `{Machine} `{EnvOk} `{!DeviceOps} `{!DeviceOpsOk}.

Lemma icmp_hdr_at_ok data :
  ICMP_HDR_SIZE <= zlen data → bytes_ok data →
  ∃ h, icmp_hdr_at data = Some h ∧ is_u8 (icmp_code h) ∧ is_u32 (icmp_values h).
Proof.
  intros Hl Hok. unfold zlen, ICMP_HDR_SIZE in Hl.
  do 8 (destruct data as [|? data]; [cbn in Hl; lia|]). eexists. split; [done|].
  unfold bytes_ok in Hok. rewrite !Forall_cons in Hok. destruct_and! Hok.
  split; cbn; auto using load32_range.
Qed.

Lemma icmp_input_wp w data len src dst i :
  ip_wf w → link_free w → iface_wf w i → bytes_ok data → 0 <= len <= zlen data →
  len <= IP_PAYLOAD_SIZE_MAX → is_u32 src →
  wp (icmp_input data len src dst i) (λ _, send_frame w) w.
Proof.
  intros Hwf Hfree (ifc&_&_&Hi&_) Hok Hl Hmax Hs. unfold icmp_input.
  change IP_PAYLOAD_SIZE_MAX with 65515 in *.
  destruct (Z.ltb_spec len ICMP_HDR_SIZE); [by wp_step|].
  destruct (icmp_hdr_at_ok data) as (h&->&Hc&Hv); [lia|done|]. do 2 wp_step.
  destruct (cksum16 data len 0) as [sum|] eqn:E.
  2:{ rewrite cksum16_eq in E; [done|done|ulia|lia|ulia]. }
  do 2 wp_step. destruct (negb _); [by wp_step|]. destruct (_ =? _); [|by wp_step].
  do 3 wp_step. unfold icmp_output, ICMP_HDR_SIZE in *.
  destruct (icmp_message_eq ICMP_TYPE_ECHOREPLY (icmp_code h) (icmp_values h)
    (drop (Z.to_nat 8) data) (len - 8)) as (s&_&->&_); try done.
  { by apply Forall_drop. } { unfold zlen in *. rewrite length_drop. lia. }
  { change ICMP_BUFSIZ with 65515. unfold ICMP_HDR_SIZE. lia. }
  do 2 wp_step.
  assert (zlen (icmp_hdr_bytes (IcmpHdr ICMP_TYPE_ECHOREPLY (icmp_code h) s (icmp_values h))
            ++ take (Z.to_nat (len - 8)) (drop (Z.to_nat 8) data)) = len) as Hz.
  { rewrite zlen_app, zlen_icmp_hdr_bytes. unfold zlen, ICMP_HDR_SIZE in *.
    rewrite length_take, length_drop. lia. }
  eapply wp_mono; [apply ip_output_wp; try (done || lia)|].
  { apply bytes_ok_app. split; [by apply icmp_hdr_bytes_ok|]. by apply Forall_take, Forall_drop. }
  intros r w' [_ Hf]. by wp_step.
Qed.
End Safety.

(** ** On the sample host *)

Lemma icmp_echo_reply_witness :
  ∃ request reply,
    @icmp_message sample_machine ICMP_TYPE_ECHO 0 0x01000100 [97; 98; 99] 3 = Some request ∧
    @icmp_input sample_machine sample_env sample_ops (request ++ [0; 0]) 11 addr_gw addr_tap 0 (sample_world [])
    = (@ip_output sample_machine sample_env sample_ops IP_PROTOCOL_ICMP reply 11 addr_tap addr_gw;;
       ret tt) (sample_world []).
Proof.
  destruct (@icmp_message sample_machine ICMP_TYPE_ECHO 0 0x01000100 [97; 98; 99] 3)
    as [request|] eqn:E; [|vm_compute in E; discriminate E].
  destruct (@icmp_echo_reply sample_machine sample_env sample_ops 0 0x01000100 [97; 98; 99] 3 [0; 0]
    addr_gw addr_tap 0 (IpIface NET_IFACE_FAMILY_IP (Some 0%nat) addr_tap 0x00ffffff 0x000200c0)
    (sample_world []) request) as (reply&_&_&_&Hin); try done.
  - by repeat apply Forall_cons_2.
  - by repeat apply Forall_cons_2.
  - by exists request, reply.
Defined.
