(* ===== verification/Pseudo.v ===== *)
(** * The pseudo header

    [struct pseudo_hdr] of [src/src/udp.c] and [src/src/tcp.c] and the
    checksum of a UDP datagram or TCP segment over it. *)

From S2P Require Import Prelude Bytes Checksum.

(** [struct pseudo_hdr] *)
Record pseudo_hdr := PseudoHdr {
  ph_src : Z;
  ph_dst : Z;
  ph_zero : Z;
  ph_protocol : Z;
  ph_len : Z
}.

Section Pseudo.
Context `{Machine}.

Definition pseudo_hdr_bytes (h : pseudo_hdr) : bytes :=
  store32 (ph_src h) ++ store32 (ph_dst h) ++ [ph_zero h; ph_protocol h] ++ store16 (ph_len h).

Definition PSEUDO_HDR_SIZE : Z := 12.

(** [psum = ~cksum16(&pseudo, sizeof(pseudo), 0)] as a [uint16_t] *)
Definition pseudo_sum (h : pseudo_hdr) : option Z :=
  sum ← cksum16 (pseudo_hdr_bytes h) PSEUDO_HDR_SIZE 0; Some (u16 (Z.lnot sum)).

Lemma u16_lnot c : is_u16 c → u16 (Z.lnot c) = 65535 - c.
Proof.
  intros Hc. unfold u16. replace (Z.lnot c) with (65535 - c + (-1) * 65536)
    by (unfold Z.lnot; lia). rewrite Z.mod_add by lia. apply Z.mod_small. ulia.
Qed.

Lemma zlen_pseudo_hdr_bytes h : zlen (pseudo_hdr_bytes h) = PSEUDO_HDR_SIZE.
Proof. unfold pseudo_hdr_bytes. by rewrite !zlen_app, !zlen_store32, zlen_store16. Qed.

Lemma pseudo_hdr_bytes_ok h :
  is_u8 (ph_zero h) → is_u8 (ph_protocol h) → bytes_ok (pseudo_hdr_bytes h).
Proof.
  intros. unfold pseudo_hdr_bytes. repeat (apply bytes_ok_app; split); auto with stack.
  by repeat apply Forall_cons_2.
Qed.

Lemma pseudo_sum_total h :
  is_u8 (ph_zero h) → is_u8 (ph_protocol h) → ∃ psum, pseudo_sum h = Some psum ∧ is_u16 psum.
Proof.
  intros Hz Hp. unfold pseudo_sum.
  rewrite cksum16_eq; [|by apply pseudo_hdr_bytes_ok| |by rewrite zlen_pseudo_hdr_bytes|ulia].
  - eexists. split; [done|]. apply u16_range.
  - unfold PSEUDO_HDR_SIZE. ulia.
Qed.

(** Filling in the checksum of a message: [pre] is even, and the field of
    two bytes is between [pre] and [post]. *)
Lemma message_checksum pre post psum count :
  bytes_ok pre → bytes_ok post → Nat.Even (length pre) → is_u16 psum →
  count = zlen pre + 2 + zlen post → count < 65536 →
  ∃ sum, is_u16 sum
    ∧ cksum16 (pre ++ store16 0 ++ post) count psum = Some sum
    ∧ cksum16 (pre ++ store16 sum ++ post) count psum = Some 0.
Proof.
  intros Hpre Hpost He Hp -> Hc. pose proof (zlen_nonneg pre). pose proof (zlen_nonneg post).
  destruct (cksum16 (pre ++ store16 0 ++ post) (zlen pre + 2 + zlen post) psum) as [sum|] eqn:E.
  - exists sum. destruct (cksum16_verifies_eq pre post psum sum) as [??]; auto.
  - rewrite cksum16_eq in E; [done| |ulia| |done].
    + apply bytes_ok_app. split; [done|]. apply bytes_ok_app. split; [apply store16_ok|done].
    + rewrite zlen_app, (zlen_app (store16 0)), zlen_store16. lia.
Qed.
End Pseudo.
