(* ===== verification/Udp.v ===== *)
(** * UDP

    [src/src/udp.c]: control blocks, input, output and the user commands.
    [udp_recvfrom] can wait on a condition variable: it returns [Blocked]
    there, and [udp_recvfrom_wake] is the call from the return of the wait.
    The theorems: a datagram sent is the datagram received, the receive
    queue is a FIFO with truncation, binding keeps endpoints apart, a port
    is always found, and every sequence of operations keeps the control
    blocks well formed without a fault. *)

From S2P Require Import Prelude Bytes Checksum Clock Text Addr Monad State Platform Queue Net.
From S2P Require Import Ether Device Sample Arp Ip Pseudo.

Definition UDP_PCB_SIZE : Z := 16.

Definition UDP_PCB_STATE_FREE : Z := 0.
Definition UDP_PCB_STATE_OPEN : Z := 1.
Definition UDP_PCB_STATE_CLOSING : Z := 2.

Definition UDP_SOURCE_PORT_MIN : Z := 49152.
Definition UDP_SOURCE_PORT_MAX : Z := 65535.

Definition UDP_HDR_SIZE : Z := 8.

(** [struct udp_hdr] *)
Record udp_hdr := UdpHdr {
  uh_src : Z;
  uh_dst : Z;
  uh_len : Z;
  uh_sum : Z
}.

Section Udp.
Context `{Machine} `{Env} `{DeviceOps}.

Definition udp_hdr_bytes (h : udp_hdr) : bytes :=
  store16 (uh_src h) ++ store16 (uh_dst h) ++ store16 (uh_len h) ++ store16 (uh_sum h).

Definition udp_hdr_at (data : bytes) : option udp_hdr :=
  match data with
  | s0 :: s1 :: d0 :: d1 :: l0 :: l1 :: c0 :: c1 :: _ =>
      Some (UdpHdr (load16 s0 s1) (load16 d0 d1) (load16 l0 l1) (load16 c0 c1))
  | _ => None
  end.

(** ** Control blocks *)

Definition udp_pcb_alloc : C (option nat) :=
  pcbs <- gets w_udp;;
  match list_find (λ pcb, up_state pcb = UDP_PCB_STATE_FREE) pcbs with
  | None => ret None
  | Some (i, pcb) =>
      put_udp i (set_up_ctx (sched_ctx_init (up_ctx pcb)) (set_up_state UDP_PCB_STATE_OPEN pcb));;
      ret (Some i)
  end.

(** The loop at the end empties the queue. *)
Definition udp_pcb_release (i : nat) : C unit :=
  upd_udp i (set_up_state UDP_PCB_STATE_CLOSING);;
  r <- sched_ctx_destroy;;
  if r =? -1 then upd_udp i (λ pcb, set_up_ctx (sched_wakeup (up_ctx pcb)) pcb)
  else
    upd_udp i (λ pcb, set_up_queue [] (set_up_local (IpEndpoint IP_ADDR_ANY 0)
      (set_up_state UDP_PCB_STATE_FREE pcb))).

(** The condition of [udp_pcb_select]. *)
Definition udp_pcb_matches (addr port : Z) (pcb : udp_pcb) : Prop :=
  up_state pcb = UDP_PCB_STATE_OPEN
  ∧ (ep_addr (up_local pcb) = IP_ADDR_ANY ∨ addr = IP_ADDR_ANY ∨ ep_addr (up_local pcb) = addr)
  ∧ ep_port (up_local pcb) = port.

#[export] Instance udp_pcb_matches_dec addr port pcb : Decision (udp_pcb_matches addr port pcb).
Proof. unfold udp_pcb_matches. apply _. Defined.

Definition udp_pcb_select (addr port : Z) : C (option nat) :=
  pcbs <- gets w_udp;;
  ret (fst <$> list_find (udp_pcb_matches addr port) pcbs).

Definition udp_pcb_get (id : Z) : C (option nat) :=
  if (id <? 0) || (id >=? UDP_PCB_SIZE) then ret None
  else
    pcb <- get_udp (Z.to_nat id);;
    if negb (up_state pcb =? UDP_PCB_STATE_OPEN) then ret None
    else ret (Some (Z.to_nat id)).

(** ** Input and output *)

Definition udp_pseudo (src dst len : Z) : pseudo_hdr :=
  PseudoHdr src dst 0 IP_PROTOCOL_UDP (hton16 (u16 len)).

(** [udp_input] from the point where the datagram has been checked. *)
Definition udp_deliver (hdr : udp_hdr) (data : bytes) (data_len src dst : Z) : C unit :=
  mutex_lock MutexUdp;;
  pcb <- udp_pcb_select dst (uh_dst hdr);;
  match pcb with
  | None => mutex_unlock MutexUdp
  | Some i =>
      ok <- memory_alloc;;
      if negb ok then mutex_unlock MutexUdp
      else
        payload <- expect FaultBounds (slice UDP_HDR_SIZE data_len data);;
        pushed <- memory_alloc;;
        if negb pushed then mutex_unlock MutexUdp
        else
          upd_udp i (λ pcb, set_up_queue
            (Fifo.push (up_queue pcb)
               (UdpQueueEntry (IpEndpoint src (uh_src hdr)) (u16 data_len) payload)) pcb);;
          upd_udp i (λ pcb, set_up_ctx (sched_wakeup (up_ctx pcb)) pcb);;
          mutex_unlock MutexUdp
  end.

Definition udp_input (data : bytes) (len src dst : Z) (iface : nat) : C unit :=
  if len <? UDP_HDR_SIZE then ret tt
  else
    hdr <- expect FaultBounds (udp_hdr_at data);;
    if negb (len =? ntoh16 (uh_len hdr)) then ret tt
    else
      psum <- expect FaultBounds (pseudo_sum (udp_pseudo src dst len));;
      sum <- expect FaultBounds (cksum16 data len psum);;
      if negb (sum =? 0) then ret tt
      else udp_deliver hdr data (len - UDP_HDR_SIZE) src dst.

(** The datagram [udp_output] builds in a buffer of [IP_PAYLOAD_SIZE_MAX]
    bytes. *)
Definition udp_datagram (src dst : ip_endpoint) (data : bytes) (len : Z) : option bytes :=
  let udp_len := u16 (UDP_HDR_SIZE + len) in
  psum ← pseudo_sum (udp_pseudo (ep_addr src) (ep_addr dst) udp_len);
  payload ← slice 0 len data;
  if UDP_HDR_SIZE + len <=? IP_PAYLOAD_SIZE_MAX then
    let hdr sum := UdpHdr (ep_port src) (ep_port dst) (hton16 udp_len) sum in
    sum ← cksum16 (udp_hdr_bytes (hdr 0) ++ payload) udp_len psum;
    Some (udp_hdr_bytes (hdr sum) ++ payload)
  else None.

Definition udp_output (src dst : ip_endpoint) (data : bytes) (len : Z) : C Z :=
  if len >? IP_PAYLOAD_SIZE_MAX - UDP_HDR_SIZE then ret (-1)
  else
    buf <- expect FaultBounds (udp_datagram src dst data len);;
    r <- ip_output IP_PROTOCOL_UDP buf (u16 (UDP_HDR_SIZE + len)) (ep_addr src) (ep_addr dst);;
    if r =? -1 then ret (-1) else ret len.

(** [event_handler] of udp.c *)
Definition udp_event_handler : C unit :=
  mutex_lock MutexUdp;;
  n <- gets (λ w, length (w_udp w));;
  for_each (seq 0 n) (λ i,
    pcb <- get_udp i;;
    if up_state pcb =? UDP_PCB_STATE_OPEN
    then put_udp i (set_up_ctx (sched_interrupt (up_ctx pcb)) pcb)
    else ret tt);;
  mutex_unlock MutexUdp.

Definition udp_init : C Z :=
  r <- ip_protocol_register IP_PROTOCOL_UDP HandlerUdp;;
  if r =? -1 then ret (-1)
  else
    r <- net_event_subscribe EventUdp;;
    if r =? -1 then ret (-1) else ret 0.

(** ** User commands *)

Definition udp_open : C Z :=
  mutex_lock MutexUdp;;
  pcb <- udp_pcb_alloc;;
  match pcb with
  | None => mutex_unlock MutexUdp;; ret (-1)
  | Some i => mutex_unlock MutexUdp;; ret (Z.of_nat i)
  end.

Definition udp_close (id : Z) : C Z :=
  mutex_lock MutexUdp;;
  pcb <- udp_pcb_get id;;
  match pcb with
  | None => mutex_unlock MutexUdp;; ret (-1)
  | Some i => udp_pcb_release i;; mutex_unlock MutexUdp;; ret 0
  end.

Definition udp_bind (id : Z) (local : ip_endpoint) : C Z :=
  mutex_lock MutexUdp;;
  pcb <- udp_pcb_get id;;
  match pcb with
  | None => mutex_unlock MutexUdp;; ret (-1)
  | Some i =>
      duplicated <- udp_pcb_select (ep_addr local) (ep_port local);;
      match duplicated with
      | Some _ => mutex_unlock MutexUdp;; ret (-1)
      | None =>
          upd_udp i (set_up_local local);;
          mutex_unlock MutexUdp;;
          ret 0
      end
  end.

(** The loop over the dynamic ports from [p], with [fuel] ports left: the
    first that is free. *)
Fixpoint udp_port_scan (fuel : nat) (p addr : Z) : C (option Z) :=
  match fuel with
  | O => ret None
  | S fuel =>
      used <- udp_pcb_select addr (hton16 p);;
      match used with
      | None => ret (Some (hton16 p))
      | Some _ => udp_port_scan fuel (p + 1) addr
      end
  end.

(** [UDP_SOURCE_PORT_MIN <= p <= UDP_SOURCE_PORT_MAX] *)
Definition UDP_SOURCE_PORTS : nat := 16384.

Definition udp_sendto (id : Z) (data : bytes) (len : Z) (foreign : ip_endpoint) : C Z :=
  mutex_lock MutexUdp;;
  pcb <- udp_pcb_get id;;
  match pcb with
  | None => mutex_unlock MutexUdp;; ret (-1)
  | Some i =>
      pcb <- get_udp i;;
      addr <- (if ep_addr (up_local pcb) =? IP_ADDR_ANY then
                 iface <- ip_route_get_iface (ep_addr foreign);;
                 match iface with
                 | None => ret None
                 | Some iface => ifc <- get_if iface;; ret (Some (if_unicast ifc))
                 end
               else ret (Some (ep_addr (up_local pcb))));;
      match addr with
      | None => mutex_unlock MutexUdp;; ret (-1)
      | Some addr =>
          (when (negb (nz (ep_port (up_local pcb)))) then
            (port <- udp_port_scan UDP_SOURCE_PORTS UDP_SOURCE_PORT_MIN addr;;
             match port with
             | Some port =>
                 upd_udp i (λ pcb, set_up_local (IpEndpoint (ep_addr (up_local pcb)) port) pcb)
             | None => ret tt
             end));;
          pcb <- get_udp i;;
          if negb (nz (ep_port (up_local pcb))) then mutex_unlock MutexUdp;; ret (-1)
          else
            mutex_unlock MutexUdp;;
            udp_output (IpEndpoint addr (ep_port (up_local pcb))) foreign data len
      end
  end.

(** What [udp_recvfrom] gives: its result, and when it is not -1 the
    sender and the bytes stored at [buf]. *)
Definition recv_result : Type := Z * option (ip_endpoint * bytes).

(** The loop of [udp_recvfrom] up to the next wait. *)
Definition udp_recvfrom_loop (i : nat) (size : Z) : C (waits unit recv_result) :=
  pcb <- get_udp i;;
  let '(entry, rest) := Fifo.pop (up_queue pcb) in
  match entry with
  | Some entry =>
      put_udp i (set_up_queue rest pcb);;
      mutex_unlock MutexUdp;;
      let len := Z.min size (uqe_len entry) in
      out <- expect FaultBounds (slice 0 len (uqe_data entry));;
      ret (Returned (len, Some (uqe_foreign entry, out)))
  | None =>
      match sched_sleep_enter (up_ctx pcb) with
      | None => mutex_unlock MutexUdp;; ret (Returned (-1, None))
      | Some ctx =>
          put_udp i (set_up_ctx ctx pcb);;
          mutex_unlock MutexUdp;;
          ret (Blocked tt)
      end
  end.

Definition udp_recvfrom (id size : Z) : C (waits unit recv_result) :=
  mutex_lock MutexUdp;;
  pcb <- udp_pcb_get id;;
  match pcb with
  | None => mutex_unlock MutexUdp;; ret (Returned (-1, None))
  | Some i => udp_recvfrom_loop i size
  end.

(** [udp_recvfrom] from the return of the wait, which gave [err]. *)
Definition udp_recvfrom_wake (err : Z) (i : nat) (size : Z) : C (waits unit recv_result) :=
  mutex_lock MutexUdp;;
  pcb <- get_udp i;;
  let '(err, ctx) := sched_sleep_leave err (up_ctx pcb) in
  put_udp i (set_up_ctx ctx pcb);;
  if nz err then mutex_unlock MutexUdp;; ret (Returned (-1, None))
  else if up_state pcb =? UDP_PCB_STATE_CLOSING then
    udp_pcb_release i;;
    mutex_unlock MutexUdp;;
    ret (Returned (-1, None))
  else udp_recvfrom_loop i size.
End Udp.

(** ** Datagrams *)

Section Datagram.
Context `{Machine}.

Definition endpoint_ok (e : ip_endpoint) : Prop := is_u32 (ep_addr e) ∧ is_u16 (ep_port e).

Lemma zlen_udp_hdr_bytes h : zlen (udp_hdr_bytes h) = UDP_HDR_SIZE.
Proof. unfold udp_hdr_bytes. by rewrite !zlen_app, !zlen_store16. Qed.

Lemma udp_hdr_at_bytes h rest :
  is_u16 (uh_src h) → is_u16 (uh_dst h) → is_u16 (uh_len h) → is_u16 (uh_sum h) →
  udp_hdr_at (udp_hdr_bytes h ++ rest) = Some h.
Proof.
  destruct h as [src dst len sum]. cbn [uh_src uh_dst uh_len uh_sum]. intros Hs Hd Hl Hc.
  unfold udp_hdr_bytes. cbn [uh_src uh_dst uh_len uh_sum].
  destruct (store16_loads src Hs) as (?&?&->&_&_&<-), (store16_loads dst Hd) as (?&?&->&_&_&<-),
    (store16_loads len Hl) as (?&?&->&_&_&<-), (store16_loads sum Hc) as (?&?&->&_&_&<-). done.
Qed.

Lemma udp_hdr_at_ok data :
  UDP_HDR_SIZE <= zlen data → bytes_ok data →
  ∃ h, udp_hdr_at data = Some h ∧ is_u16 (uh_src h) ∧ is_u16 (uh_dst h) ∧ is_u16 (uh_len h).
Proof.
  intros Hl Hok. unfold zlen, UDP_HDR_SIZE in Hl.
  do 8 (destruct data as [|? data]; [cbn in Hl; lia|]). eexists. split; [done|].
  unfold bytes_ok in Hok. rewrite !Forall_cons in Hok. destruct_and! Hok.
  split_and!; cbn; auto using load16_range.
Qed.

(** The datagram on the wire. *)
Definition udp_wire (src dst : ip_endpoint) (data : bytes) (len sum : Z) : bytes :=
  udp_hdr_bytes (UdpHdr (ep_port src) (ep_port dst) (hton16 (UDP_HDR_SIZE + len)) sum)
    ++ take (Z.to_nat len) data.

Lemma zlen_udp_wire src dst data len sum :
  0 <= len <= zlen data → zlen (udp_wire src dst data len sum) = UDP_HDR_SIZE + len.
Proof.
  intros Hl. unfold udp_wire. rewrite zlen_app, zlen_udp_hdr_bytes. unfold zlen in *.
  rewrite length_take. lia.
Qed.

Lemma udp_wire_ok src dst data len sum : bytes_ok data → bytes_ok (udp_wire src dst data len sum).
Proof.
  intros Hok. unfold udp_wire, udp_hdr_bytes. repeat (apply bytes_ok_app; split);
    auto using store16_ok. by apply Forall_take.
Qed.

(** What [udp_output] builds, and that its checksum verifies. *)
Lemma udp_datagram_eq src dst data len :
  endpoint_ok src → endpoint_ok dst → bytes_ok data → 0 <= len <= zlen data →
  UDP_HDR_SIZE + len <= IP_PAYLOAD_SIZE_MAX →
  ∃ sum psum, is_u16 sum ∧ is_u16 psum
    ∧ udp_datagram src dst data len = Some (udp_wire src dst data len sum)
    ∧ pseudo_sum (udp_pseudo (ep_addr src) (ep_addr dst) (UDP_HDR_SIZE + len)) = Some psum
    ∧ cksum16 (udp_wire src dst data len sum) (UDP_HDR_SIZE + len) psum = Some 0.
Proof.
  intros [_ Hsp] [_ Hdp] Hok Hl Hmax. change IP_PAYLOAD_SIZE_MAX with 65515 in *.
  unfold udp_datagram, udp_wire, UDP_HDR_SIZE in *. rewrite u16_small by ulia.
  destruct (pseudo_sum_total (udp_pseudo (ep_addr src) (ep_addr dst) (8 + len)))
    as (psum&->&Hpsum); [done|done|].
  set (p := take (Z.to_nat len) data).
  assert (zlen p = len) as Zp by (unfold p, zlen in *; rewrite length_take; lia).
  set (pre := store16 (ep_port src) ++ store16 (ep_port dst) ++ store16 (hton16 (8 + len))).
  assert (∀ sum, udp_hdr_bytes (UdpHdr (ep_port src) (ep_port dst) (hton16 (8 + len)) sum) ++ p
                 = pre ++ store16 sum ++ p) as Hsplit.
  { intros sum. unfold udp_hdr_bytes, pre. cbn [uh_src uh_dst uh_len uh_sum].
    by rewrite <- !app_assoc. }
  assert (length pre = 6%nat) as Lpre by (unfold pre; by rewrite !length_app, !length_store16).
  destruct (message_checksum pre p psum (8 + len)) as (sum&Hsum&E&Hver).
  { unfold pre. repeat (apply bytes_ok_app; split); apply store16_ok. }
  { by apply Forall_take. } { by exists 3%nat; rewrite Lpre. } { done. }
  { unfold zlen in *. lia. } { lia. }
  exists sum, psum. split; [done|]. split; [done|]. split; [|split; [done|by rewrite Hsplit]].
  cbn [mbind option_bind]. rewrite slice_spec by lia. cbn [mbind option_bind].
  change IP_PAYLOAD_SIZE_MAX with 65515. destruct (Z.leb_spec (8 + len) 65515); [|lia].
  change (take (Z.to_nat len) (drop (Z.to_nat 0) data)) with p. rewrite Hsplit, E. done.
Qed.

Context `{Env}.

(** What [udp_output] builds passes every check of [udp_input]. *)
Lemma udp_input_datagram src dst data len dgram i w :
  endpoint_ok src → endpoint_ok dst → bytes_ok data → 0 <= len <= zlen data →
  UDP_HDR_SIZE + len <= IP_PAYLOAD_SIZE_MAX → udp_datagram src dst data len = Some dgram →
  ∀ pad, bytes_ok pad → ∃ hdr,
  uh_src hdr = ep_port src ∧ uh_dst hdr = ep_port dst ∧
  udp_input (dgram ++ pad) (UDP_HDR_SIZE + len) (ep_addr src) (ep_addr dst) i w
  = udp_deliver hdr (dgram ++ pad) len (ep_addr src) (ep_addr dst) w
  ∧ slice UDP_HDR_SIZE len (dgram ++ pad) = Some (take (Z.to_nat len) data).
Proof.
  intros Hs Hd Hok Hl Hmax Edg pad Hpad.
  destruct (udp_datagram_eq src dst data len) as (sum&psum&Hsum&Hpsum&E&Ep&Hck); try done.
  rewrite E in Edg. apply (inj Some) in Edg. subst dgram.
  pose proof (zlen_udp_wire src dst data len sum Hl) as Hz. unfold udp_wire in Hz, Hck |- *.
  set (hdr := UdpHdr _ _ _ sum) in *. exists hdr. split; [done|]. split; [done|].
  change IP_PAYLOAD_SIZE_MAX with 65515 in *. unfold UDP_HDR_SIZE in *.
  assert (is_u16 (8 + len)) as Hu by ulia.
  assert (bytes_ok (udp_hdr_bytes hdr ++ take (Z.to_nat len) data)) as Hdg.
  { apply bytes_ok_app. split; [|by apply Forall_take].
    unfold udp_hdr_bytes. repeat (apply bytes_ok_app; split); apply store16_ok. }
  assert (length (udp_hdr_bytes hdr) = 8%nat) as Lh.
  { pose proof (zlen_udp_hdr_bytes hdr) as E8. unfold zlen, UDP_HDR_SIZE in E8. lia. }
  split.
  - unfold udp_input, UDP_HDR_SIZE. destruct (Z.ltb_spec (8 + len) 8); [lia|].
    rewrite <- app_assoc, udp_hdr_at_bytes by (try done; try apply Hs; try apply Hd; cbn; auto with stack).
    unfold bind at 1, expect at 1, ret at 1. cbn [uh_len hdr].
    rewrite ntoh16_hton16, Z.eqb_refl by done. cbn [negb]. rewrite Ep.
    unfold bind at 1, expect at 1, ret at 1. rewrite app_assoc, cksum16_prefix by (done || lia).
    rewrite Hck. unfold bind at 1, expect at 1, ret at 1. cbn [negb Z.eqb].
    by replace (8 + len - 8) with len by lia.
  - rewrite slice_spec by (rewrite ?zlen_app in *; pose proof (zlen_nonneg pad); lia).
    f_equal. rewrite <- app_assoc, (drop_app_length' (udp_hdr_bytes hdr)) by (by rewrite Lh).
    rewrite take_app_le by (unfold zlen in *; rewrite length_take; lia).
    by rewrite take_take, Nat.min_id.
Qed.
End Datagram.

(** ** Delivery *)

(** What stays the same when only UDP's state changes. *)
Record udp_frame (w w' : world) : Prop := UdpFrame {
  ufr_net : w_net w' = w_net w;
  ufr_ip : w_ip w' = w_ip w;
  ufr_arp : w_arp w' = w_arp w;
  ufr_tcp : w_tcp w' = w_tcp w;
  ufr_locked : locked w' = locked w;
  ufr_sys : sys_tables (w_sys w') = sys_tables (w_sys w)
}.

#[export] Instance udp_frame_preorder : PreOrder udp_frame.
Proof.
  split.
  - intros w. by constructor.
  - intros w1 w2 w3 [] []. constructor; congruence.
Qed.

Lemma udp_link_frame w w' : udp_frame w w' → link_frame w w'.
Proof.
  intros [Hn Hi _ _ _ Hy]. constructor; try done; try by rewrite ?Hn, ?Hi.
  unfold loopbacks_ok. by rewrite Hn.
Qed.

(** A control block with one more datagram in its queue, its sleepers woken. *)
Definition udp_enqueue (e : udp_queue_entry) (pcb : udp_pcb) : udp_pcb :=
  set_up_ctx (sched_wakeup (up_ctx pcb)) (set_up_queue (up_queue pcb ++ [e]) pcb).

Section Delivery.
Context `{Machine} `{Env}.

Lemma udp_deliver_wp hdr data len src dst payload w :
  MutexUdp ∉ locked w → slice UDP_HDR_SIZE len data = Some payload →
  wp (udp_deliver hdr data len src dst) (λ _ w', udp_frame w w' ∧
    w_udp w' = match list_find (udp_pcb_matches dst (uh_dst hdr)) (w_udp w) with
               | Some (k, pcb) =>
                   if env_calloc (y_calls (w_sys w)) && env_calloc (S (y_calls (w_sys w)))
                   then <[k := udp_enqueue (UdpQueueEntry (IpEndpoint src (uh_src hdr)) (u16 len) payload)
                                 pcb]> (w_udp w)
                   else w_udp w
               | None => w_udp w
               end) w.
Proof.
  intros Hm Hsl. unfold udp_deliver, udp_pcb_select. do 6 wp_step.
  assert (filter (λ m', m' ≠ MutexUdp) (MutexUdp :: locked w) = locked w) as Hf
    by (by apply filter_unlock).
  cbn [w_udp lock_world set_w_sys].
  destruct (list_find _ (w_udp w)) as [[k pcb]|] eqn:E; cbn [fmap option_fmap option_map fst].
  2:{ wp_step; [by left|]. by split. }
  apply list_find_Some in E as (Hk&_&_). do 2 wp_step. cbn [y_calls w_sys lock_world set_w_sys set_y_locked].
  destruct (env_calloc (y_calls (w_sys w))); cbn [negb andb].
  2:{ wp_step; [by left|]. by split. }
  rewrite Hsl. do 4 wp_step. cbn [y_calls w_sys tick_world lock_world set_w_sys set_y_locked set_y_calls].
  destruct (env_calloc (S (y_calls (w_sys w)))); cbn [negb].
  2:{ wp_step; [by left|]. by split. }
  repeat wp_step; [by left|]. split; [by constructor|].
  cbn. by rewrite list_insert_insert_eq.
Qed.

Lemma udp_input_received src dst data len dgram pad i w :
  endpoint_ok src → endpoint_ok dst → bytes_ok data → bytes_ok pad → 0 <= len <= zlen data →
  UDP_HDR_SIZE + len <= IP_PAYLOAD_SIZE_MAX → udp_datagram src dst data len = Some dgram →
  MutexUdp ∉ locked w →
  wp (udp_input (dgram ++ pad) (UDP_HDR_SIZE + len) (ep_addr src) (ep_addr dst) i) (λ _ w',
    udp_frame w w' ∧
    w_udp w' = match list_find (udp_pcb_matches (ep_addr dst) (ep_port dst)) (w_udp w) with
               | Some (k, pcb) =>
                   if env_calloc (y_calls (w_sys w)) && env_calloc (S (y_calls (w_sys w)))
                   then <[k := udp_enqueue (UdpQueueEntry src len (take (Z.to_nat len) data)) pcb]>
                          (w_udp w)
                   else w_udp w
               | None => w_udp w
               end) w.
Proof.
  intros Hs Hd Hok Hpad Hl Hmax Edg Hm.
  destruct (udp_input_datagram src dst data len dgram i w Hs Hd Hok Hl Hmax Edg pad Hpad)
    as (hdr&Esrc&Edst&Ein&Esl).
  unfold wp. rewrite Ein. pose proof (udp_deliver_wp hdr _ _ (ep_addr src) (ep_addr dst) _ w Hm Esl) as Hw.
  rewrite Esrc, Edst in Hw. change IP_PAYLOAD_SIZE_MAX with 65515 in Hmax.
  unfold UDP_HDR_SIZE in Hmax. rewrite u16_small in Hw by ulia. by destruct src.
Qed.

(** A datagram sent is the datagram received.  What [udp_output] builds
    from a payload passes every check of [udp_input] at the destination,
    on hosts of either byte order and whatever padding follows it, and is
    appended to the receive queue of the first control block bound to the
    destination endpoint, with the sender's endpoint, length and payload;
    its sleepers are woken.  Without such a control block, or when memory
    runs out, the datagram is dropped; in every case the other control
    blocks and the rest of the stack are unchanged and the mutex is
    released. *)
Lemma udp_datagram_received src dst data len dgram pad i w :
  endpoint_ok src → endpoint_ok dst → bytes_ok data → bytes_ok pad → 0 <= len <= zlen data →
  UDP_HDR_SIZE + len <= IP_PAYLOAD_SIZE_MAX → udp_datagram src dst data len = Some dgram →
  MutexUdp ∉ locked w →
  wp (udp_input (dgram ++ pad) (UDP_HDR_SIZE + len) (ep_addr src) (ep_addr dst) i) (λ _ w',
    udp_frame w w' ∧
    w_udp w' = match list_find (udp_pcb_matches (ep_addr dst) (ep_port dst)) (w_udp w) with
               | Some (k, pcb) =>
                   if env_calloc (y_calls (w_sys w)) && env_calloc (S (y_calls (w_sys w)))
                   then <[k := udp_enqueue (UdpQueueEntry src len (take (Z.to_nat len) data)) pcb]>
                          (w_udp w)
                   else w_udp w
               | None => w_udp w
               end) w.
Proof. apply udp_input_received. Qed.
End Delivery.

(** ** Well-formed control blocks *)

Definition udp_entry_ok (e : udp_queue_entry) : Prop :=
  endpoint_ok (uqe_foreign e) ∧ is_u16 (uqe_len e) ∧ zlen (uqe_data e) = uqe_len e
  ∧ bytes_ok (uqe_data e).

Definition udp_pcb_ok (pcb : udp_pcb) : Prop :=
  up_state pcb ∈ [UDP_PCB_STATE_FREE; UDP_PCB_STATE_OPEN; UDP_PCB_STATE_CLOSING]
  ∧ endpoint_ok (up_local pcb) ∧ Forall udp_entry_ok (up_queue pcb)
  ∧ (up_state pcb = UDP_PCB_STATE_FREE →
     up_local pcb = IpEndpoint IP_ADDR_ANY 0 ∧ up_queue pcb = []).

Definition udp_wf (pcbs : list udp_pcb) : Prop :=
  length pcbs = Z.to_nat UDP_PCB_SIZE ∧ Forall udp_pcb_ok pcbs.

Lemma udp_wf_insert pcbs i pcb : udp_wf pcbs → udp_pcb_ok pcb → udp_wf (<[i := pcb]> pcbs).
Proof. intros [Hl Hf] Hp. split; [by rewrite length_insert|]. by apply Forall_insert. Qed.

Lemma udp_wf_lookup pcbs i pcb : udp_wf pcbs → pcbs !! i = Some pcb → udp_pcb_ok pcb.
Proof. intros [_ Hf] Hi. rewrite Forall_lookup in Hf. eauto. Qed.

(** The state between two calls. *)
Record udp_ok (w : world) : Prop := UdpOk {
  uo_wf : udp_wf (w_udp w);
  uo_ip : ip_wf w;
  uo_free : link_free w;
  uo_mutex : MutexUdp ∉ locked w
}.

Lemma udp_ok_frame w w' : udp_frame w w' → udp_wf (w_udp w') → udp_ok w → udp_ok w'.
Proof.
  intros [Hn Hi Ha _ Hl _] Hwf [_ [Harp Hid Hr] Hf Hm]. split; [done| | |by rewrite Hl].
  - split; [by rewrite Ha|by rewrite Hi|]. rewrite Hi. unfold iface_wf. by rewrite Hn.
  - by apply (link_free_frame w).
Qed.

Lemma udp_ok_send w w' : send_frame w w' → udp_ok w → udp_ok w'.
Proof.
  intros Hf [Hwf Hip Hfree Hm]. split.
  - by rewrite (sf_udp _ _ Hf).
  - by eapply ip_wf_frame.
  - by apply (link_free_frame w); [apply Hf|].
  - by rewrite (sf_locked _ _ Hf).
Qed.

(** What a call keeps. *)
Record udp_keeps (w w' : world) : Prop := UdpKeeps {
  uk_ok : udp_ok w';
  uk_locked : locked w' = locked w;
  uk_tcp : w_tcp w' = w_tcp w;
  uk_frame : link_frame w w'
}.

Lemma udp_keeps_frame w w' :
  udp_ok w → udp_frame w w' → udp_wf (w_udp w') → udp_keeps w w'.
Proof.
  intros Hok Hf Hwf. split; [by eapply udp_ok_frame|apply Hf|apply Hf|by apply udp_link_frame].
Qed.

(** A call that ends with the mutex released and the blocks well formed. *)
Lemma udp_keeps_unlock w w' :
  udp_ok w → w_net w' = w_net w → w_ip w' = w_ip w → w_arp w' = w_arp w → w_tcp w' = w_tcp w →
  locked w' = filter (λ m', m' ≠ MutexUdp) (MutexUdp :: locked w) →
  sys_tables (w_sys w') = sys_tables (w_sys w) → udp_wf (w_udp w') →
  udp_keeps w w'.
Proof.
  intros Hok ??????. apply udp_keeps_frame; [done|]. split; try done.
  etrans; [done|]. apply filter_unlock, Hok.
Qed.

Ltac udp_done Hok := eapply (udp_keeps_unlock _ _ Hok); try reflexivity.

Section Commands.
Context `{Machine} `{EnvOk} `{!DeviceOps} `{!DeviceOpsOk}.

(** [udp_pcb_get] gives an open control block of the array. *)
Lemma udp_pcb_get_wp id w (Q : option nat → world → Prop) :
  udp_wf (w_udp w) →
  (∀ i pcb, w_udp w !! i = Some pcb → up_state pcb = UDP_PCB_STATE_OPEN → id = Z.of_nat i →
     Q (Some i) w) →
  Q None w → wp (udp_pcb_get id) Q w.
Proof.
  intros [Hl _] HS HN. unfold udp_pcb_get, UDP_PCB_SIZE in *.
  rewrite Z.geb_leb.
  destruct (Z.ltb_spec id 0), (Z.leb_spec 16 id); cbn [orb]; try by wp_step.
  destruct (lookup_lt_is_Some_2 (w_udp w) (Z.to_nat id)) as [pcb Hpcb]; [lia|].
  do 2 wp_step. destruct (Z.eqb_spec (up_state pcb) UDP_PCB_STATE_OPEN); cbn [negb]; wp_step; [|done].
  eapply HS; [done..|lia].
Qed.

Lemma udp_pcb_get_open i pcb w (Q : option nat → world → Prop) :
  udp_wf (w_udp w) → w_udp w !! i = Some pcb → up_state pcb = UDP_PCB_STATE_OPEN →
  Q (Some i) w → wp (udp_pcb_get (Z.of_nat i)) Q w.
Proof.
  intros [Hl _] Hi Hs HQ. apply lookup_lt_Some in Hi as Hlt.
  unfold udp_pcb_get, UDP_PCB_SIZE in *. rewrite Z.geb_leb.
  destruct (Z.ltb_spec (Z.of_nat i) 0), (Z.leb_spec 16 (Z.of_nat i)); try lia. cbn [orb].
  rewrite Nat2Z.id. do 2 wp_step. rewrite Hs, Z.eqb_refl. cbn [negb]. by wp_step.
Qed.

Lemma udp_open_keeps w : udp_ok w → wp udp_open (λ _, udp_keeps w) w.
Proof.
  intros Hok. unfold udp_open, udp_pcb_alloc. do 2 wp_step; [apply Hok|]. do 3 wp_step.
  cbn [w_udp lock_world set_w_sys].
  destruct (list_find _ (w_udp w)) as [[i pcb]|] eqn:E.
  - apply list_find_Some in E as (Hi&Hs&_).
    destruct (udp_wf_lookup _ _ _ (uo_wf _ Hok) Hi) as (_&Hl&Hq&_).
    repeat wp_step; [by left|]. udp_done Hok. apply udp_wf_insert; [apply Hok|].
    split_and!; try done. right; left.
  - repeat wp_step; [by left|]. udp_done Hok. apply Hok.
Qed.

Lemma udp_pcb_release_wp i pcb w (Q : unit → world → Prop) :
  w_udp w !! i = Some pcb → udp_pcb_ok pcb →
  (∀ pcb' w', udp_pcb_ok pcb' → w' = tick_world (set_w_udp (<[i := pcb']> (w_udp w)) w) → Q tt w') →
  wp (udp_pcb_release i) Q w.
Proof.
  intros Hi (_&Hl&Hq&_) HQ. unfold udp_pcb_release. do 4 wp_step.
  destruct (_ =? -1); wp_step; cbn; rewrite list_insert_insert_eq.
  - eapply HQ; [|done]. split_and!; try done. right; right; left.
  - eapply HQ; [|done]. split_and!; try done. left.
Qed.

Lemma udp_close_keeps id w : udp_ok w → wp (udp_close id) (λ _, udp_keeps w) w.
Proof.
  intros Hok. unfold udp_close. do 2 wp_step; [apply Hok|]. wp_step.
  apply udp_pcb_get_wp; [apply Hok| |].
  - intros i pcb Hi Hs _. wp_step. pose proof (udp_wf_lookup _ _ _ (uo_wf _ Hok) Hi) as Hp.
    eapply udp_pcb_release_wp; [done..|]. intros pcb' w' Hp' ->.
    repeat wp_step; [by left|]. udp_done Hok. apply udp_wf_insert; [apply Hok|done].
  - repeat wp_step; [by left|]. udp_done Hok. apply Hok.
Qed.

Lemma udp_bind_keeps id local w :
  endpoint_ok local → udp_ok w → wp (udp_bind id local) (λ _, udp_keeps w) w.
Proof.
  intros Hep Hok. unfold udp_bind. do 2 wp_step; [apply Hok|]. wp_step.
  apply udp_pcb_get_wp; [apply Hok| |].
  - intros i pcb Hi Hs _. unfold udp_pcb_select. do 4 wp_step.
    destruct (udp_wf_lookup _ _ _ (uo_wf _ Hok) Hi) as (Hst&Hl&Hq&_).
    destruct (fst <$> _).
    + repeat wp_step; [by left|]. udp_done Hok. apply Hok.
    + repeat wp_step; [by left|]. udp_done Hok. apply udp_wf_insert; [apply Hok|].
      split_and!; try done; try apply Hep. cbn. by rewrite Hs.
  - repeat wp_step; [by left|]. udp_done Hok. apply Hok.
Qed.

Lemma udp_recvfrom_loop_wp w i size w0 :
  udp_ok w0 → udp_wf (w_udp w) → (i < length (w_udp w))%nat → 0 <= size →
  w_net w = w_net w0 → w_ip w = w_ip w0 → w_arp w = w_arp w0 → w_tcp w = w_tcp w0 →
  locked w = MutexUdp :: locked w0 → sys_tables (w_sys w) = sys_tables (w_sys w0) →
  wp (udp_recvfrom_loop i size) (λ _, udp_keeps w0) w.
Proof.
  intros Hok Hwf Hi Hsz ???? Hlk ?. apply lookup_lt_is_Some_2 in Hi as [pcb Hpcb].
  pose proof (udp_wf_lookup _ _ _ Hwf Hpcb) as Hp. pose proof Hp as (Hst&Hl&Hq&Hfree).
  assert (MutexUdp ∈ y_locked (w_sys w)) as Hin by (unfold locked in Hlk; rewrite Hlk; by left).
  unfold udp_recvfrom_loop. do 2 wp_step.
  destruct (up_queue pcb) as [|e q] eqn:Eq; cbn [Fifo.pop].
  - destruct (sched_sleep_enter (up_ctx pcb)) as [ctx|].
    + repeat wp_step. udp_done Hok; try done.
      * cbn. unfold locked in *. by rewrite Hlk.
      * apply udp_wf_insert; [done|]. exact Hp.
    + repeat wp_step. udp_done Hok; try done.
      cbn. unfold locked in *. by rewrite Hlk.
  - apply Forall_cons in Hq as [(_&Hel&Hed&_) Hq]. do 4 wp_step.
    rewrite slice_spec by (unfold is_u16 in *; lia). repeat wp_step.
    udp_done Hok; try done.
    + cbn. unfold locked in *. by rewrite Hlk.
    + apply udp_wf_insert; [done|]. split_and!; try done.
      cbn. intros Hs. destruct (Hfree Hs) as [_ ?]. congruence.
Qed.

Lemma udp_recvfrom_keeps id size w :
  0 <= size → udp_ok w → wp (udp_recvfrom id size) (λ _, udp_keeps w) w.
Proof.
  intros Hsz Hok. unfold udp_recvfrom. do 2 wp_step; [apply Hok|]. wp_step.
  apply udp_pcb_get_wp; [apply Hok| |].
  - intros i pcb Hi Hs _. apply udp_recvfrom_loop_wp; try done; [apply Hok|].
    by eapply lookup_lt_Some.
  - repeat wp_step; [by left|]. udp_done Hok. apply Hok.
Qed.

Lemma udp_recvfrom_wake_keeps err i size w :
  0 <= size → (i < 16)%nat → udp_ok w → wp (udp_recvfrom_wake err i size) (λ _, udp_keeps w) w.
Proof.
  intros Hsz Hi Hok. unfold udp_recvfrom_wake. do 2 wp_step; [apply Hok|].
  destruct (lookup_lt_is_Some_2 (w_udp w) i) as [pcb Hpcb].
  { destruct (uo_wf _ Hok) as [-> _]. unfold UDP_PCB_SIZE. lia. }
  pose proof (udp_wf_lookup _ _ _ (uo_wf _ Hok) Hpcb) as Hp.
  do 2 wp_step. destruct (sched_sleep_leave err (up_ctx pcb)) as [err' ctx]. do 2 wp_step.
  assert (udp_pcb_ok (set_up_ctx ctx pcb)) as Hp' by exact Hp.
  assert (udp_wf (<[i := set_up_ctx ctx pcb]> (w_udp w))) as Hwf'
    by (apply udp_wf_insert; [apply Hok|done]).
  destruct (nz err').
  { repeat wp_step; [by left|]. by udp_done Hok. }
  destruct (_ =? UDP_PCB_STATE_CLOSING).
  - wp_step. eapply udp_pcb_release_wp; [lookup_step|done|]. intros pcb' w' Hp'' ->.
    repeat wp_step; [by left|]. udp_done Hok. by apply udp_wf_insert.
  - apply udp_recvfrom_loop_wp; try done. cbn. rewrite length_insert. by eapply lookup_lt_Some.
Qed.

Lemma udp_event_keeps w : udp_ok w → wp udp_event_handler (λ _, udp_keeps w) w.
Proof.
  intros Hok. unfold udp_event_handler. do 2 wp_step; [apply Hok|]. do 3 wp_step.
  cbn [w_udp lock_world set_w_sys]. set (w0 := lock_world _ w).
  apply (wp_mono _ (λ _ w', ∃ l, udp_wf l ∧ w' = set_w_udp l w0)).
  - apply (wp_for_each (λ w', ∃ l, udp_wf l ∧ w' = set_w_udp l w0)).
    + intros i w1 Hi%elem_of_seq (l&Hwf&->).
      destruct (lookup_lt_is_Some_2 l i) as [pcb Hpcb].
      { destruct Hwf as [-> _]. destruct (uo_wf _ Hok) as [Hl _]. rewrite Hl in Hi. lia. }
      wp_step. eapply wp_get_udp; [exact Hpcb|].
      destruct (_ =? _); wp_step; [|eauto]. eexists. split; [|done].
      apply udp_wf_insert; [done|]. by apply (udp_wf_lookup _ _ _ Hwf Hpcb).
    + exists (w_udp w). split; [apply Hok|]. by destruct w.
  - intros [] w1 (l&Hwf&->). wp_step; [by left|]. by udp_done Hok.
Qed.
End Commands.

(** ** Dynamic ports *)

Section Ports.
Context `{Machine}.

(** Port [q] is in use at [addr]. *)
Definition udp_port_used (pcbs : list udp_pcb) (addr q : Z) : Prop :=
  ∃ i pcb, pcbs !! i = Some pcb ∧ udp_pcb_matches addr (hton16 q) pcb.

Lemma udp_select_None pcbs addr q :
  list_find (udp_pcb_matches addr (hton16 q)) pcbs = None ↔ ¬ udp_port_used pcbs addr q.
Proof.
  rewrite list_find_None, Forall_lookup. unfold udp_port_used. split.
  - intros Hn (i&pcb&Hi&Hm). by apply (Hn i pcb).
  - intros Hn i pcb Hi Hm. apply Hn. eauto.
Qed.

Lemma udp_port_scan_spec fuel p addr w (Q : option Z → world → Prop) :
  (∀ q, p <= q < p + Z.of_nat fuel → ¬ udp_port_used (w_udp w) addr q →
        (∀ r, p <= r < q → udp_port_used (w_udp w) addr r) → Q (Some (hton16 q)) w) →
  ((∀ r, p <= r < p + Z.of_nat fuel → udp_port_used (w_udp w) addr r) → Q None w) →
  wp (udp_port_scan fuel p addr) Q w.
Proof.
  revert p. induction fuel as [|fuel IH]; intros p HS HN.
  - apply HN. lia.
  - cbn [udp_port_scan]. unfold udp_pcb_select. do 4 wp_step.
    destruct (list_find (udp_pcb_matches addr (hton16 p)) (w_udp w)) as [[k pcb]|] eqn:E;
      cbn [fmap option_fmap option_map fst].
    + assert (udp_port_used (w_udp w) addr p) as Hp.
      { apply list_find_Some in E as (?&?&_). by exists k, pcb. }
      apply IH.
      * intros q Hq Hfree Hused. apply HS; [lia|done|]. intros r Hr.
        destruct (Z.eq_dec r p) as [->|]; [done|apply Hused; lia].
      * intros Hused. apply HN. intros r Hr.
        destruct (Z.eq_dec r p) as [->|]; [done|apply Hused; lia].
    + wp_step. apply HS; [lia|by apply udp_select_None|lia].
Qed.

Lemma hton16_inj a b : is_u16 a → is_u16 b → hton16 a = hton16 b → a = b.
Proof. intros Ha Hb E. rewrite <- (ntoh16_hton16 a), <- (ntoh16_hton16 b) by done. by rewrite E. Qed.

(** More ports than control blocks cannot all be in use. *)
Lemma udp_ports_pigeonhole pcbs addr p n :
  0 <= p → p + Z.of_nat n <= 65536 → (length pcbs < n)%nat →
  ¬ (∀ r, p <= r < p + Z.of_nat n → udp_port_used pcbs addr r).
Proof.
  intros Hp Hn Hl Hall.
  assert (length (hton16 <$> seqZ p (Z.of_nat n)) <= length ((λ pcb, ep_port (up_local pcb)) <$> pcbs))%nat.
  { apply submseteq_length, NoDup_submseteq.
    - apply NoDup_fmap_2_strong; [|apply NoDup_seqZ].
      intros a b Ha%elem_of_seqZ Hb%elem_of_seqZ. apply hton16_inj; ulia.
    - intros x (r&->&Hr%elem_of_seqZ)%list_elem_of_fmap.
      destruct (Hall r Hr) as (i&pcb&Hi&_&_&<-). apply list_elem_of_fmap.
      exists pcb. split; [done|]. by eapply list_elem_of_lookup_2. }
  rewrite !length_fmap, length_seqZ in *. lia.
Qed.

(** The search for a dynamic port always succeeds, and the port it
    gives is the lowest of 49152..65535 not in use at the address: sixteen
    control blocks cannot hold 16384 ports. *)
Lemma udp_port_scan_finds addr w :
  udp_wf (w_udp w) →
  wp (udp_port_scan UDP_SOURCE_PORTS UDP_SOURCE_PORT_MIN addr) (λ r w', w' = w ∧
    ∃ q, r = Some (hton16 q) ∧ UDP_SOURCE_PORT_MIN <= q <= UDP_SOURCE_PORT_MAX
      ∧ ¬ udp_port_used (w_udp w) addr q
      ∧ ∀ r, UDP_SOURCE_PORT_MIN <= r < q → udp_port_used (w_udp w) addr r) w.
Proof.
  intros [Hl _].
  assert (UDP_SOURCE_PORT_MIN = 49152 ∧ UDP_SOURCE_PORT_MAX = 65535
          ∧ Z.of_nat UDP_SOURCE_PORTS = 16384) as (->&->&Hfuel) by (split_and!; done).
  apply udp_port_scan_spec; rewrite Hfuel.
  - intros q Hq Hfree Hused. split; [done|]. exists q. split_and!; (done || lia).
  - intros Hall. exfalso. eapply (udp_ports_pigeonhole (w_udp w) addr 49152 UDP_SOURCE_PORTS);
      [lia|lia| |by rewrite Hfuel].
    rewrite Hl. apply Nat2Z.inj_lt. rewrite Hfuel. done.
Qed.
End Ports.

(** ** Sending, and every sequence of operations *)

(** The operations on UDP: the user commands, the end of a wait, input
    from IP, and the event handler. *)
Inductive udp_op :=
  | UdpOpen
  | UdpClose (id : Z)
  | UdpBind (id : Z) (local : ip_endpoint)
  | UdpSendto (id : Z) (data : bytes) (len : Z) (foreign : ip_endpoint)
  | UdpRecvfrom (id size : Z)
  | UdpWake (err : Z) (i : nat) (size : Z)
  | UdpInput (data : bytes) (len src dst : Z) (iface : nat)
  | UdpEvent.

Definition udp_op_ok (op : udp_op) : Prop :=
  match op with
  | UdpOpen | UdpClose _ | UdpEvent => True
  | UdpBind _ local => endpoint_ok local
  | UdpSendto _ data len foreign => endpoint_ok foreign ∧ bytes_ok data ∧ 0 <= len <= zlen data
  | UdpRecvfrom _ size => 0 <= size
  | UdpWake _ i size => (i < 16)%nat ∧ 0 <= size
  | UdpInput data len src _ _ => bytes_ok data ∧ 0 <= len <= zlen data ∧ is_u32 src
  end.

Section Operations.
Context `{Machine} `{EnvOk} `{!DeviceOps} `{!DeviceOpsOk}.

Definition udp_run (op : udp_op) : C unit :=
  match op with
  | UdpOpen => udp_open;; ret tt
  | UdpClose id => udp_close id;; ret tt
  | UdpBind id local => udp_bind id local;; ret tt
  | UdpSendto id data len foreign => udp_sendto id data len foreign;; ret tt
  | UdpRecvfrom id size => udp_recvfrom id size;; ret tt
  | UdpWake err i size => udp_recvfrom_wake err i size;; ret tt
  | UdpInput data len src dst iface => udp_input data len src dst iface
  | UdpEvent => udp_event_handler
  end.

Lemma udp_input_keeps data len src dst i w :
  bytes_ok data → 0 <= len <= zlen data → is_u32 src → udp_ok w →
  wp (udp_input data len src dst i) (λ _, udp_keeps w) w.
Proof.
  intros Hok Hl Hs Hw. unfold udp_input, UDP_HDR_SIZE.
  destruct (Z.ltb_spec len 8); [by wp_step; apply udp_keeps_frame; [|done|apply Hw]|].
  destruct (udp_hdr_at_ok data) as (h&->&Hps&Hpd&Hpl); [unfold UDP_HDR_SIZE; lia|done|].
  do 2 wp_step. destruct (Z.eqb_spec len (ntoh16 (uh_len h))) as [Hlen|]; cbn [negb].
  2:{ wp_step. by apply udp_keeps_frame; [|done|apply Hw]. }
  assert (is_u16 len) as Hu by (rewrite Hlen; by apply hton16_range).
  destruct (pseudo_sum_total (udp_pseudo src dst len)) as (psum&->&Hp); [done|done|].
  do 2 wp_step. destruct (cksum16 data len psum) as [sum|] eqn:E.
  2:{ rewrite cksum16_eq in E; (done || lia). }
  do 2 wp_step. destruct (negb _); [by wp_step; apply udp_keeps_frame; [|done|apply Hw]|].
  eapply wp_mono.
  - apply udp_deliver_wp; [apply Hw|]. apply slice_spec; unfold UDP_HDR_SIZE; lia.
  - intros [] w' [Hf Hu']. apply udp_keeps_frame; [done..|]. rewrite Hu'.
    destruct (list_find _ (w_udp w)) as [[k pcb]|] eqn:Ef; [|apply Hw].
    destruct (_ && _); [|apply Hw]. apply udp_wf_insert; [apply Hw|].
    apply list_find_Some in Ef as (Hk&[Hst _]&_).
    destruct (udp_wf_lookup _ _ _ (uo_wf _ Hw) Hk) as (Hs1&Hs2&Hs3&_).
    split_and!; try done; [|cbn; by rewrite Hst].
    apply Forall_app_2; [done|]. apply Forall_singleton. unfold UDP_HDR_SIZE.
    rewrite u16_small by ulia. split_and!; cbn; try done; try ulia.
    + unfold zlen in *. rewrite length_take, length_drop. lia.
    + by apply Forall_take, Forall_drop.
Qed.

Lemma udp_output_wp src dst data len w :
  endpoint_ok src → endpoint_ok dst → bytes_ok data → 0 <= len <= zlen data → udp_ok w →
  wp (udp_output src dst data len) (λ r w', (r = -1 ∨ r = len) ∧ send_frame w w') w.
Proof.
  intros Hs Hd Hok Hl Hw. unfold udp_output. rewrite Z.gtb_ltb.
  destruct (Z.ltb_spec (IP_PAYLOAD_SIZE_MAX - UDP_HDR_SIZE) len); [by wp_step; split; [auto|]|].
  destruct (udp_datagram_eq src dst data len) as (sum&_&_&_&->&_); try done; [lia|].
  pose proof (zlen_udp_wire src dst data len sum Hl) as Hz.
  change IP_PAYLOAD_SIZE_MAX with 65515 in *. unfold UDP_HDR_SIZE in *.
  do 2 wp_step. rewrite u16_small by ulia. wp_step.
  eapply wp_mono; [apply ip_output_wp; try apply Hw; try apply Hd; try (done || lia)|].
  { by apply udp_wire_ok. }
  intros r w' [Hr Hf]. destruct (_ =? -1); wp_step; auto.
Qed.

Lemma udp_keeps_send w w1 w2 : udp_keeps w w1 → send_frame w1 w2 → udp_keeps w w2.
Proof.
  intros [Hok Hl Ht Hk] Hf. split; [by eapply udp_ok_send|..].
  - by rewrite (sf_locked _ _ Hf).
  - by rewrite (sf_tcp _ _ Hf).
  - etrans; [done|]. by apply send_link_frame.
Qed.

(** The source address [udp_sendto] chooses. *)
Lemma udp_sendto_keeps id data len foreign w :
  endpoint_ok foreign → bytes_ok data → 0 <= len <= zlen data → udp_ok w →
  wp (udp_sendto id data len foreign) (λ _, udp_keeps w) w.
Proof.
  intros Hfor Hok Hl Hw. unfold udp_sendto. do 2 wp_step; [apply Hw|]. wp_step.
  apply udp_pcb_get_wp; [apply Hw| |].
  2:{ repeat wp_step; [by left|]. udp_done Hw. apply Hw. }
  intros i pcb Hi Hst _. change (w_udp w !! i = Some pcb) in Hi.
  destruct (udp_wf_lookup _ _ _ (uo_wf _ Hw) Hi) as (Hs&Hep&Hq&_).
  set (w0 := lock_world _ w). do 3 wp_step.
  apply (wp_mono _ (λ addr w', w' = w0 ∧ ∀ a, addr = Some a → is_u32 a)).
  { destruct (_ =? IP_ADDR_ANY); [|wp_step; split; [done|]; intros a [= <-]; apply Hep].
    unfold ip_route_get_iface, ip_route_lookup. do 4 wp_step.
    pose proof (ip_route_select_best (i_routes (w_ip w)) (ep_addr foreign)) as Hbest.
    cbn [w_ip w0 lock_world set_w_sys].
    destruct (ip_route_select _ _) as [r|]; cbn [fmap option_fmap option_map]; [|by wp_step].
    destruct Hbest as (k&Hk&_). pose proof (iw_routes _ (uo_ip _ Hw)) as Hr.
    rewrite Forall_lookup in Hr. destruct (Hr k r Hk) as [(ifc&_&_&Hifc&_&_&_&Hu&_) _].
    wp_step. eapply wp_get_if; [exact Hifc|]. wp_step. split; [done|]. by intros a [= <-]. }
  intros addr w' [-> Ha]. destruct addr as [addr|].
  2:{ repeat wp_step; [by left|]. udp_done Hw. apply Hw. }
  specialize (Ha addr eq_refl). wp_step.
  apply (wp_mono _ (λ _ w', ∃ port, is_u16 port ∧ w' = set_w_udp
    (<[i := set_up_local (IpEndpoint (ep_addr (up_local pcb)) port) pcb]> (w_udp w)) w0)).
  { destruct (negb _).
    - wp_step. apply udp_port_scan_spec.
      + intros q Hrange _ _.
        assert (Z.of_nat UDP_SOURCE_PORTS = 16384 ∧ UDP_SOURCE_PORT_MIN = 49152) as [E1 E2] by done.
        wp_step. eexists. split; [|done]. apply hton16_range. ulia.
      + intros _. wp_step. exists (ep_port (up_local pcb)). split; [apply Hep|].
        rewrite list_insert_id; [by destruct w|]. rewrite Hi. f_equal.
        by destruct pcb as [? [] ? ?].
    - wp_step. exists (ep_port (up_local pcb)). split; [apply Hep|].
      rewrite list_insert_id; [by destruct w|]. rewrite Hi. f_equal.
      by destruct pcb as [? [] ? ?]. }
  intros [] w' (port&Hport&->). do 2 wp_step. set (pcb' := set_up_local _ pcb).
  assert (udp_wf (<[i := pcb']> (w_udp w))) as Hwf'.
  { apply udp_wf_insert; [apply Hw|]. split_and!; try done; [split; [apply Hep|done]|]. cbn. by rewrite Hst. }
  destruct (negb _); repeat wp_step; [by left|by udp_done Hw|by left|].
  match goal with |- wp _ _ ?w1 => assert (udp_keeps w w1) as Hk by (by udp_done Hw) end.
  eapply wp_mono; [apply udp_output_wp; try done; apply Hk|].
  intros r w' [_ Hf]. by eapply udp_keeps_send.
Qed.

Lemma udp_run_keeps op w :
  udp_ok w → udp_op_ok op → wp (udp_run op) (λ _, udp_keeps w) w.
Proof.
  intros Hw Hop. destruct op; cbn in *; try apply wp_ignore; try destruct_and! Hop.
  - by apply udp_open_keeps.
  - by apply udp_close_keeps.
  - by apply udp_bind_keeps.
  - by apply udp_sendto_keeps.
  - by apply udp_recvfrom_keeps.
  - by apply udp_recvfrom_wake_keeps.
  - by apply udp_input_keeps.
  - by apply udp_event_keeps.
Qed.

(** UDP is safe: from any well-formed state, every sequence of opens,
    closes, binds, sends, receives, wake-ups, events and inputs of arbitrary
    bytes runs without a fault (no access outside an object, no double lock
    or stray unlock, every loop ends), and leaves the control blocks well
    formed, every mutex as it was, and TCP untouched. *)
Lemma udp_ops_safe ops w :
  udp_ok w → Forall udp_op_ok ops →
  wp (for_each ops udp_run) (λ _ w', udp_keeps w w') w.
Proof.
  intros Hw Hops. rewrite Forall_forall in Hops.
  apply wp_for_each; [|by split].
  intros op w1 Hop [Hw1 Hl Ht Hk]. specialize (Hops op Hop).
  eapply wp_mono; [by apply udp_run_keeps|]. intros [] w2 []. split; [|congruence|congruence|by etrans].
  done.
Qed.
End Operations.

(** ** Receiving and binding *)

Section Receive.
Context `{Machine} `{EnvOk}.

(** The receive queue is a FIFO: [udp_recvfrom] on an open control block
    takes the oldest datagram, returns its sender and its payload truncated
    to the caller's buffer, and leaves the later ones in order; on an empty
    queue it waits, unless it has been interrupted. *)
Lemma udp_recvfrom_fifo i pcb size w :
  udp_ok w → w_udp w !! i = Some pcb → up_state pcb = UDP_PCB_STATE_OPEN → 0 <= size →
  wp (udp_recvfrom (Z.of_nat i) size) (λ r w', udp_frame w w' ∧
    match up_queue pcb with
    | e :: q =>
        r = Returned (Z.min size (uqe_len e),
              Some (uqe_foreign e, take (Z.to_nat size) (uqe_data e)))
        ∧ w_udp w' = <[i := set_up_queue q pcb]> (w_udp w)
    | [] =>
        if nz (sc_interrupted (up_ctx pcb))
        then r = Returned (-1, None) ∧ w_udp w' = w_udp w
        else r = Blocked tt
             ∧ w_udp w' = <[i := set_up_ctx (set_sc_wc (sc_wc (up_ctx pcb) + 1) (up_ctx pcb)) pcb]>
                            (w_udp w)
    end) w.
Proof.
  intros Hok Hi Hs Hsz. unfold udp_recvfrom. do 2 wp_step; [apply Hok|]. wp_step.
  assert (filter (λ m', m' ≠ MutexUdp) (MutexUdp :: locked w) = locked w) as Hf
    by (apply filter_unlock, Hok).
  destruct (udp_wf_lookup _ _ _ (uo_wf _ Hok) Hi) as (_&_&Hq&_).
  eapply udp_pcb_get_open; [apply Hok|exact Hi|done|]. unfold udp_recvfrom_loop. do 2 wp_step.
  destruct (up_queue pcb) as [|e q]; cbn [Fifo.pop].
  - unfold sched_sleep_enter. destruct (nz _).
    + repeat wp_step; [by left|]. by split.
    + repeat wp_step; [by left|]. by split.
  - apply Forall_cons in Hq as [(_&Hel&Hed&_) _]. do 4 wp_step; [by left|].
    rewrite slice_spec by (unfold is_u16 in *; lia). repeat wp_step.
    split; [by constructor|]. split; [|done]. do 4 f_equal. rewrite drop_0.
    destruct (Z.min_spec size (uqe_len e)) as [[? ->]|[? ->]]; [done|].
    rewrite !take_ge; [done|..]; unfold zlen in Hed; lia.
Qed.

(** The end of the wait, when a datagram has come. *)
Lemma udp_recvfrom_woken i pcb e q size w :
  udp_ok w → w_udp w !! i = Some pcb → up_state pcb = UDP_PCB_STATE_OPEN → up_queue pcb = e :: q →
  sc_interrupted (up_ctx pcb) = 0 → 0 <= size →
  wp (udp_recvfrom_wake 0 i size) (λ r w', udp_frame w w' ∧ y_wire (w_sys w') = y_wire (w_sys w)
    ∧ r = Returned (Z.min size (uqe_len e), Some (uqe_foreign e, take (Z.to_nat size) (uqe_data e)))
    ∧ w_udp w' = <[i := set_up_queue q (set_up_ctx (set_sc_wc (sc_wc (up_ctx pcb) - 1) (up_ctx pcb)) pcb)]>
                   (w_udp w)) w.
Proof.
  intros Hok Hi Hs Hq Hint Hsz. unfold udp_recvfrom_wake. do 2 wp_step; [apply Hok|].
  assert (filter (λ m', m' ≠ MutexUdp) (MutexUdp :: locked w) = locked w) as Hf
    by (apply filter_unlock, Hok).
  destruct (udp_wf_lookup _ _ _ (uo_wf _ Hok) Hi) as (_&_&Hqs&_). rewrite Hq in Hqs.
  apply Forall_cons in Hqs as [(_&Hel&Hed&_) _].
  do 2 wp_step. unfold sched_sleep_leave, nz. cbn [sc_interrupted set_sc_wc]. rewrite Hint. cbn [Z.eqb negb].
  do 2 wp_step. rewrite Hs. change (_ =? _) with false. cbv iota. unfold udp_recvfrom_loop.
  wp_step. eapply wp_get_udp; [cbn; apply list_lookup_insert_eq; by eapply lookup_lt_Some|].
  cbn [up_queue set_up_ctx]. rewrite Hq. cbn [Fifo.pop]. do 4 wp_step; [by left|].
  rewrite slice_spec by (unfold is_u16 in *; lia). repeat wp_step.
  split; [by constructor|]. split; [done|]. split; [|cbn; by rewrite list_insert_insert_eq]. do 4 f_equal. rewrite drop_0.
  destruct (Z.min_spec size (uqe_len e)) as [[? ->]|[? ->]]; [done|].
  rewrite !take_ge; [done|..]; unfold zlen in Hed; lia.
Qed.

(** Open control blocks with a port have different endpoints, where the
    wildcard address overlaps every address. *)
Definition udp_distinct (pcbs : list udp_pcb) : Prop :=
  ∀ i j p q, pcbs !! i = Some p → pcbs !! j = Some q →
    up_state p = UDP_PCB_STATE_OPEN → up_state q = UDP_PCB_STATE_OPEN →
    ep_port (up_local p) = ep_port (up_local q) → ep_port (up_local p) ≠ 0 →
    ep_addr (up_local p) = IP_ADDR_ANY ∨ ep_addr (up_local q) = IP_ADDR_ANY
      ∨ ep_addr (up_local p) = ep_addr (up_local q) →
    i = j.

Lemma udp_distinct_bind pcbs i pcb local :
  udp_distinct pcbs → pcbs !! i = Some pcb →
  list_find (udp_pcb_matches (ep_addr local) (ep_port local)) pcbs = None →
  udp_distinct (<[i := set_up_local local pcb]> pcbs).
Proof.
  intros Hd Hi Hnone. apply list_find_None in Hnone. rewrite Forall_lookup in Hnone.
  intros j k p q Hj Hk Hsp Hsq Hport Hnz Hov.
  apply list_lookup_insert_Some in Hj as [(<-&<-&_)|[Hij Hj]];
    apply list_lookup_insert_Some in Hk as [(<-&<-&_)|[Hik Hk]]; cbn in *.
  - done.
  - destruct (Hnone k q Hk). split_and!; [done| |done]. intuition.
  - destruct (Hnone j p Hj). split_and!; [done| |done]. intuition.
  - by eapply (Hd j k).
Qed.

(** Binding is exclusive: if the endpoints in use do not overlap, they
    do not after [udp_bind] either; the call either fails and changes no
    control block, or binds the named one and changes nothing else. *)
Lemma udp_bind_exclusive id local w :
  udp_ok w → udp_distinct (w_udp w) →
  wp (udp_bind id local) (λ r w', udp_frame w w' ∧ udp_distinct (w_udp w') ∧
    (r = -1 ∧ w_udp w' = w_udp w ∨
     r = 0 ∧ ∃ i pcb, id = Z.of_nat i ∧ w_udp w !! i = Some pcb
       ∧ up_state pcb = UDP_PCB_STATE_OPEN ∧ w_udp w' = <[i := set_up_local local pcb]> (w_udp w))) w.
Proof.
  intros Hok Hd. unfold udp_bind. do 2 wp_step; [apply Hok|]. wp_step.
  assert (filter (λ m', m' ≠ MutexUdp) (MutexUdp :: locked w) = locked w) as Hf
    by (apply filter_unlock, Hok).
  apply udp_pcb_get_wp; [apply Hok| |].
  2:{ repeat wp_step; [by left|]. split; [by constructor|]. auto. }
  intros i pcb Hi Hs ->. change (w_udp w !! i = Some pcb) in Hi.
  unfold udp_pcb_select. do 4 wp_step. cbn [w_udp lock_world set_w_sys].
  destruct (list_find _ (w_udp w)) as [[k p]|] eqn:E; cbn [fmap option_fmap option_map fst].
  - repeat wp_step; [by left|]. split; [by constructor|]. auto.
  - repeat wp_step; [by left|]. split; [by constructor|].
    split; [by apply udp_distinct_bind|]. right. split; [done|]. by exists i, pcb.
Qed.
End Receive.

(** ** On the sample host *)

Lemma sample_udp_wf : udp_wf sample_udp.
Proof.
  split; [done|]. repeat apply Forall_cons_2; try apply Forall_nil_2.
  all: split_and!; try done; cbn; try (by left); try (by right; left).
Qed.

Lemma sample_udp_ok tcp : udp_ok (sample_world tcp).
Proof.
  split; [apply sample_udp_wf|apply sample_ip_wf|apply sample_link_free|].
  cbn. by apply not_elem_of_nil.
Qed.

Definition sample_peer : ip_endpoint := IpEndpoint addr_gw 0x0900.   (** 192.0.2.1:9 *)

Lemma udp_datagram_received_witness :
  ∃ dgram w', @udp_datagram sample_machine sample_peer (IpEndpoint addr_lo 0x00c0) [1; 2; 3] 3
              = Some dgram
    ∧ @udp_input sample_machine sample_env (dgram ++ []) 11 addr_gw addr_lo 1 (sample_world [])
      = Done tt w'
    ∧ up_queue <$> w_udp w' !! 0%nat = Some [UdpQueueEntry sample_peer 3 [1; 2; 3]].
Proof.
  destruct (@udp_datagram sample_machine sample_peer (IpEndpoint addr_lo 0x00c0) [1; 2; 3] 3)
    as [dgram|] eqn:E; [|vm_compute in E; discriminate E].
  destruct (wp_Done _ _ _ (@udp_datagram_received sample_machine sample_env sample_peer
    (IpEndpoint addr_lo 0x00c0) [1; 2; 3] 3 dgram [] 1 (sample_world []) ltac:(done) ltac:(done)
    ltac:(by repeat apply Forall_cons_2) ltac:(by apply Forall_nil_2) ltac:(done) ltac:(done) E
    ltac:(apply sample_udp_ok))) as ([]&w'&E'&_&Hu).
  exists dgram, w'. split; [done|]. split; [exact E'|]. by rewrite Hu.
Defined.

Lemma udp_port_scan_finds_witness :
  ∃ w', @udp_port_scan sample_machine UDP_SOURCE_PORTS UDP_SOURCE_PORT_MIN addr_tap (sample_world [])
        = Done (Some 0x00c0) w'.
Proof.
  destruct (wp_Done _ _ _ (@udp_port_scan_finds sample_machine addr_tap (sample_world [])
    sample_udp_wf)) as (r&w'&E&->&q&->&Hq&_&Hused).
  exists (sample_world []). rewrite E. do 2 f_equal.
  assert (q = 49152) as ->; [|done]. destruct (Z.eq_dec q 49152) as [|Hne]; [done|].
  destruct (Hused 49152 ltac:(unfold UDP_SOURCE_PORT_MIN in *; lia)) as (i&pcb&Hi&Hst&Hm&Hp).
  exfalso. apply list_elem_of_lookup_2 in Hi. revert Hst Hm Hp.
  apply (Forall_forall (λ pcb, up_state pcb = 1 →
    (ep_addr (up_local pcb) = 0 ∨ addr_tap = 0 ∨ ep_addr (up_local pcb) = addr_tap) →
    ep_port (up_local pcb) = 192 → False) sample_udp); [|exact Hi].
  repeat apply Forall_cons_2; try apply Forall_nil_2; cbn; try done.
  by intros _ [?|[?|?]].
Defined.

Lemma udp_ops_safe_witness :
  ∃ w', for_each [UdpSendto 1 [1; 2; 3] 3 sample_peer; UdpRecvfrom 1 100; UdpEvent; UdpWake 0 1 100;
                  UdpClose 1; UdpOpen]
          (@udp_run sample_machine sample_env sample_ops) (sample_world []) = Done tt w'
    ∧ udp_ok w'.
Proof.
  destruct (wp_Done _ _ _ (@udp_ops_safe sample_machine sample_env sample_env_ok sample_ops
    sample_ops_ok [UdpSendto 1 [1; 2; 3] 3 sample_peer; UdpRecvfrom 1 100; UdpEvent;
      UdpWake 0 1 100; UdpClose 1; UdpOpen] (sample_world []) (sample_udp_ok [])
    ltac:(repeat apply Forall_cons_2; try apply Forall_nil_2; cbn; split_and?; try done; try lia;
          by repeat apply Forall_cons_2))) as ([]&w'&E&[Hok _ _]).
  exists w'. by split.
Defined.

Lemma sample_udp_distinct : udp_distinct sample_udp.
Proof.
  assert (∀ i p, sample_udp !! i = Some p → ep_port (up_local p) ≠ 0 → i = 0%nat) as H0.
  { intros i p Hi Hp. destruct i as [|[|i]]; [done|by injection Hi as <-|].
    change (replicate 14 (UdpPcb 0 (IpEndpoint 0 0) [] sample_ctx) !! i = Some p) in Hi.
    apply lookup_replicate in Hi as [-> _]. done. }
  intros i j p q Hi Hj _ _ Hpq Hnz _. rewrite (H0 i p), (H0 j q); congruence.
Qed.

Lemma udp_bind_exclusive_witness :
  ∃ w', udp_bind 1 (IpEndpoint addr_lo 0x00c0) (sample_world []) = Done (-1) w'
    ∧ udp_distinct (w_udp w').
Proof.
  destruct (wp_Done _ _ _ (udp_bind_exclusive 1 (IpEndpoint addr_lo 0x00c0) (sample_world [])
    (sample_udp_ok []) sample_udp_distinct)) as (r&w'&E&_&Hd&_).
  exists w'. split; [|done]. vm_compute in E |- *. injection E as <- <-. done.
Defined.

