(* ===== verification/Tcp.v ===== *)
(** * TCP: control blocks, output and segments

    The part of [src/src/tcp.c] up to [tcp_segment_arrives] and
    [tcp_input].  [tcp_segment_arrives] is split along its own numbered
    steps.  Sequence numbers are 32-bit integers compared as the code
    compares them, without modular arithmetic. *)

From S2P Require Import Prelude Bytes Checksum Clock Text Addr Monad State Platform Queue Net.
From S2P Require Import Ether Device Arp Ip Pseudo.

Definition TCP_FLG_FIN : Z := 0x01.
Definition TCP_FLG_SYN : Z := 0x02.
Definition TCP_FLG_RST : Z := 0x04.
Definition TCP_FLG_PSH : Z := 0x08.
Definition TCP_FLG_ACK : Z := 0x10.
Definition TCP_FLG_URG : Z := 0x20.

Definition TCP_FLG_ISSET (x y : Z) : bool := nz (Z.land (Z.land x 0x3f) y).

Definition TCP_PCB_SIZE : Z := 16.

Definition TCP_PCB_STATE_FREE : Z := 0.
Definition TCP_PCB_STATE_CLOSED : Z := 1.
Definition TCP_PCB_STATE_LISTEN : Z := 2.
Definition TCP_PCB_STATE_SYN_SENT : Z := 3.
Definition TCP_PCB_STATE_SYN_RECEIVED : Z := 4.
Definition TCP_PCB_STATE_ESTABLISHED : Z := 5.
Definition TCP_PCB_STATE_FIN_WAIT1 : Z := 6.
Definition TCP_PCB_STATE_FIN_WAIT2 : Z := 7.
Definition TCP_PCB_STATE_CLOSING : Z := 8.
Definition TCP_PCB_STATE_TIME_WAIT : Z := 9.
Definition TCP_PCB_STATE_CLOSE_WAIT : Z := 10.
Definition TCP_PCB_STATE_LAST_ACK : Z := 11.

Definition TCP_DEFAULT_RTO : Z := 200000.
Definition TCP_RETRANSMIT_DEADLINE : Z := 12.

Definition TCP_HDR_SIZE : Z := 20.
Definition TCP_BUFSIZ : Z := 65535.

(** [struct tcp_hdr] *)
Record tcp_hdr := TcpHdr {
  th_src : Z;
  th_dst : Z;
  th_seq : Z;
  th_ack : Z;
  th_off : Z;
  th_flg : Z;
  th_wnd : Z;
  th_sum : Z;
  th_up : Z
}.

(** [struct tcp_segment_info] *)
Record tcp_segment_info := TcpSegmentInfo {
  seg_seq : Z;
  seg_ack : Z;
  seg_len : Z;
  seg_wnd : Z;
  seg_up : Z
}.

Section Tcp.
Context `{Machine} `{Env} `{DeviceOps}.

Definition tcp_hdr_bytes (h : tcp_hdr) : bytes :=
  store16 (th_src h) ++ store16 (th_dst h) ++ store32 (th_seq h) ++ store32 (th_ack h)
    ++ [th_off h; th_flg h] ++ store16 (th_wnd h) ++ store16 (th_sum h) ++ store16 (th_up h).

Definition tcp_hdr_at (data : bytes) : option tcp_hdr :=
  match data with
  | s0 :: s1 :: d0 :: d1 :: q0 :: q1 :: q2 :: q3 :: a0 :: a1 :: a2 :: a3 :: off :: flg
      :: w0 :: w1 :: c0 :: c1 :: u0 :: u1 :: _ =>
      Some (TcpHdr (load16 s0 s1) (load16 d0 d1) (load32 q0 q1 q2 q3) (load32 a0 a1 a2 a3)
              off flg (load16 w0 w1) (load16 c0 c1) (load16 u0 u1))
  | _ => None
  end.

(** ** Control blocks *)

(** The memory of a control block set to zero. *)
Definition tcp_pcb_zero : tcp_pcb :=
  TcpPcb TCP_PCB_STATE_FREE (IpEndpoint 0 0) (IpEndpoint 0 0) 0 0 0 0 0 0 0 0 0 0 0 0 0
    (replicate (Z.to_nat TCP_BUFSIZ) 0) (SchedCtx 0 0 0) [].

Definition tcp_pcb_alloc : C (option nat) :=
  pcbs <- gets w_tcp;;
  match list_find (λ pcb, tp_state pcb = TCP_PCB_STATE_FREE) pcbs with
  | None => ret None
  | Some (i, pcb) =>
      put_tcp i (set_tp_ctx (sched_ctx_init (tp_ctx pcb)) (set_tp_state TCP_PCB_STATE_CLOSED pcb));;
      ret (Some i)
  end.

Definition tcp_wakeup (i : nat) : C unit :=
  upd_tcp i (λ pcb, set_tp_ctx (sched_wakeup (tp_ctx pcb)) pcb).

Definition tcp_pcb_release (i : nat) : C unit :=
  r <- sched_ctx_destroy;;
  if r =? -1 then tcp_wakeup i
  else upd_tcp i (λ _, tcp_pcb_zero).

Definition tcp_local_matches (local : ip_endpoint) (pcb : tcp_pcb) : bool :=
  ((ep_addr (tp_local pcb) =? IP_ADDR_ANY) || (ep_addr (tp_local pcb) =? ep_addr local))
  && (ep_port (tp_local pcb) =? ep_port local).

(** The loop of [tcp_pcb_select] from index [i]; [foreign] may be null. *)
Fixpoint tcp_pcb_scan (i : nat) (pcbs : list tcp_pcb) (local : ip_endpoint)
    (foreign : option ip_endpoint) (listen : option nat) : option nat :=
  match pcbs with
  | [] => listen
  | pcb :: pcbs =>
      if tcp_local_matches local pcb then
        match foreign with
        | None => Some i
        | Some f =>
            if (ep_addr (tp_foreign pcb) =? ep_addr f) && (ep_port (tp_foreign pcb) =? ep_port f)
            then Some i
            else
              tcp_pcb_scan (S i) pcbs local foreign
                (if (tp_state pcb =? TCP_PCB_STATE_LISTEN)
                    && (ep_addr (tp_foreign pcb) =? IP_ADDR_ANY) && (ep_port (tp_foreign pcb) =? 0)
                 then Some i else listen)
        end
      else tcp_pcb_scan (S i) pcbs local foreign listen
  end.

Definition tcp_pcb_select (local : ip_endpoint) (foreign : option ip_endpoint) : C (option nat) :=
  gets (λ w, tcp_pcb_scan 0 (w_tcp w) local foreign None).

Definition tcp_pcb_get (id : Z) : C (option nat) :=
  if (id <? 0) || (id >=? TCP_PCB_SIZE) then ret None
  else
    pcb <- get_tcp (Z.to_nat id);;
    if tp_state pcb =? TCP_PCB_STATE_FREE then ret None
    else ret (Some (Z.to_nat id)).

(** ** Output *)

Definition tcp_pseudo (src dst len : Z) : pseudo_hdr :=
  PseudoHdr src dst 0 IP_PROTOCOL_TCP (hton16 (u16 len)).

(** The segment [tcp_output_segment] builds in a buffer of
    [IP_PAYLOAD_SIZE_MAX] bytes. *)
Definition tcp_segment (seq ack flg wnd : Z) (data : bytes) (len : Z) (local foreign : ip_endpoint)
  : option bytes :=
  let total := u16 (TCP_HDR_SIZE + len) in
  psum ← pseudo_sum (tcp_pseudo (ep_addr local) (ep_addr foreign) total);
  payload ← slice 0 len data;
  if TCP_HDR_SIZE + len <=? IP_PAYLOAD_SIZE_MAX then
    let hdr sum := TcpHdr (ep_port local) (ep_port foreign) (hton32 seq) (hton32 ack)
                     (Z.shiftl (Z.shiftr TCP_HDR_SIZE 2) 4) flg (hton16 wnd) sum 0 in
    sum ← cksum16 (tcp_hdr_bytes (hdr 0) ++ payload) total psum;
    Some (tcp_hdr_bytes (hdr sum) ++ payload)
  else None.

Definition tcp_output_segment (seq ack flg wnd : Z) (data : bytes) (len : Z)
    (local foreign : ip_endpoint) : C Z :=
  buf <- expect FaultBounds (tcp_segment seq ack flg wnd data len local foreign);;
  r <- ip_output IP_PROTOCOL_TCP buf (u16 (TCP_HDR_SIZE + len)) (ep_addr local) (ep_addr foreign);;
  if r =? -1 then ret (-1) else ret len.

Definition tcp_retransmit_queue_add (i : nat) (seq flg : Z) (data : bytes) (len : Z) : C Z :=
  ok <- memory_alloc;;
  if negb ok then ret (-1)
  else
    copy <- expect FaultBounds (slice 0 len data);;
    first <- gettimeofday;;
    pushed <- memory_alloc;;
    if negb pushed then ret (-1)
    else
      upd_tcp i (λ pcb, set_tp_queue (Fifo.push (tp_queue pcb)
        (TcpQueueEntry first first TCP_DEFAULT_RTO seq flg len copy)) pcb);;
      ret 0.

(** The entries at the head of the queue with a sequence number below
    [una] are removed. *)
Fixpoint tcp_queue_cleanup (queue : list tcp_queue_entry) (una : Z) : list tcp_queue_entry :=
  match queue with
  | [] => []
  | entry :: rest => if tqe_seq entry >=? una then queue else tcp_queue_cleanup rest una
  end.

Definition tcp_retransmit_queue_cleanup (i : nat) : C unit :=
  upd_tcp i (λ pcb, set_tp_queue (tcp_queue_cleanup (tp_queue pcb) (snd_una pcb)) pcb).

(** The [k]-th entry of the retransmit queue of control block [i]. *)
Definition tcp_retransmit_queue_emit (i k : nat) : C unit :=
  pcb <- get_tcp i;;
  entry <- expect FaultNull (tp_queue pcb !! k);;
  now <- gettimeofday;;
  let diff := timersub now (tqe_first entry) in
  if tv_sec diff >=? TCP_RETRANSMIT_DEADLINE then
    upd_tcp i (set_tp_state TCP_PCB_STATE_CLOSED);;
    tcp_wakeup i
  else
    let timeout := timeval_add_usec (tqe_last entry) (tqe_rto entry) in
    if timercmp Z.gtb now timeout then
      tcp_output_segment (tqe_seq entry) (rcv_nxt pcb) (tqe_flg entry) (rcv_wnd pcb)
        (tqe_data entry) (tqe_len entry) (tp_local pcb) (tp_foreign pcb);;
      upd_tcp i (λ pcb, set_tp_queue
        (<[k := set_tqe_rto (u32 (tqe_rto entry * 2)) (set_tqe_last now entry)]> (tp_queue pcb)) pcb)
    else ret tt.

Definition tcp_output (i : nat) (flg : Z) (data : bytes) (len : Z) : C Z :=
  pcb <- get_tcp i;;
  let seq := if TCP_FLG_ISSET flg TCP_FLG_SYN then tp_iss pcb else snd_nxt pcb in
  (when (TCP_FLG_ISSET flg (Z.lor TCP_FLG_SYN TCP_FLG_FIN) || nz len) then
    (tcp_retransmit_queue_add i seq flg data len;; ret tt));;
  tcp_output_segment seq (rcv_nxt pcb) flg (rcv_wnd pcb) data len (tp_local pcb) (tp_foreign pcb).

(** ** SEGMENT ARRIVES *)

(** No control block, or a closed one. *)
Definition tcp_no_connection (seg : tcp_segment_info) (flags : Z) (local foreign : ip_endpoint)
  : C unit :=
  if TCP_FLG_ISSET flags TCP_FLG_RST then ret tt
  else if negb (TCP_FLG_ISSET flags TCP_FLG_ACK) then
    tcp_output_segment 0 (u32 (seg_seq seg + seg_len seg)) (Z.lor TCP_FLG_RST TCP_FLG_ACK) 0
      [] 0 local foreign;;
    ret tt
  else
    tcp_output_segment (seg_ack seg) 0 TCP_FLG_RST 0 [] 0 local foreign;;
    ret tt.

(** [case TCP_PCB_STATE_LISTEN] *)
Definition tcp_listen_arrives (i : nat) (seg : tcp_segment_info) (flags : Z)
    (local foreign : ip_endpoint) : C unit :=
  if TCP_FLG_ISSET flags TCP_FLG_RST then ret tt
  else if TCP_FLG_ISSET flags TCP_FLG_ACK then
    tcp_output_segment (seg_ack seg) 0 TCP_FLG_RST 0 [] 0 local foreign;;
    ret tt
  else if TCP_FLG_ISSET flags TCP_FLG_SYN then
    upd_tcp i (λ pcb, set_tp_irs (seg_seq seg) (set_rcv_nxt (u32 (seg_seq seg + 1))
      (set_rcv_wnd TCP_BUFSIZ (set_tp_foreign foreign (set_tp_local local pcb)))));;
    iss <- random;;
    upd_tcp i (set_tp_iss (u32 iss));;
    tcp_output i (Z.lor TCP_FLG_SYN TCP_FLG_ACK) [] 0;;
    upd_tcp i (λ pcb, set_tp_state TCP_PCB_STATE_SYN_RECEIVED (set_snd_una (tp_iss pcb)
      (set_snd_nxt (u32 (tp_iss pcb + 1)) pcb)))
  else ret tt.

(** [case TCP_PCB_STATE_SYN_SENT] from the SYN bit on. *)
Definition tcp_syn_sent_syn (i : nat) (seg : tcp_segment_info) (flags : Z) (acceptable : bool)
  : C unit :=
  if TCP_FLG_ISSET flags TCP_FLG_SYN then
    upd_tcp i (λ pcb, set_tp_irs (seg_seq seg) (set_rcv_nxt (u32 (seg_seq seg + 1)) pcb));;
    (when acceptable then
      (upd_tcp i (set_snd_una (seg_ack seg));; tcp_retransmit_queue_cleanup i));;
    pcb <- get_tcp i;;
    if snd_una pcb >? tp_iss pcb then
      upd_tcp i (set_tp_state TCP_PCB_STATE_ESTABLISHED);;
      tcp_output i TCP_FLG_ACK [] 0;;
      upd_tcp i (λ pcb, set_snd_wl2 (seg_ack seg) (set_snd_wl1 (seg_seq seg)
        (set_snd_wnd (seg_wnd seg) pcb)));;
      tcp_wakeup i
    else
      upd_tcp i (set_tp_state TCP_PCB_STATE_SYN_RECEIVED);;
      tcp_output i (Z.lor TCP_FLG_SYN TCP_FLG_ACK) [] 0;;
      ret tt
  else ret tt.

(** [case TCP_PCB_STATE_SYN_SENT] *)
Definition tcp_syn_sent_arrives (i : nat) (seg : tcp_segment_info) (flags : Z)
    (local foreign : ip_endpoint) : C unit :=
  pcb <- get_tcp i;;
  if TCP_FLG_ISSET flags TCP_FLG_ACK then
    if (seg_ack seg <=? tp_iss pcb) || (seg_ack seg >? snd_nxt pcb) then
      tcp_output_segment (seg_ack seg) 0 TCP_FLG_RST 0 [] 0 local foreign;;
      ret tt
    else
      tcp_syn_sent_syn i seg flags
        ((snd_una pcb <=? seg_ack seg) && (seg_ack seg <=? snd_nxt pcb))
  else tcp_syn_sent_syn i seg flags false.

(** 1st: check sequence number *)
Definition tcp_acceptable (pcb : tcp_pcb) (seg : tcp_segment_info) : bool :=
  if bool_decide (tp_state pcb ∈ [TCP_PCB_STATE_SYN_RECEIVED; TCP_PCB_STATE_ESTABLISHED;
       TCP_PCB_STATE_FIN_WAIT1; TCP_PCB_STATE_FIN_WAIT2; TCP_PCB_STATE_CLOSE_WAIT;
       TCP_PCB_STATE_LAST_ACK]) then
    let right := u32 (rcv_nxt pcb + rcv_wnd pcb) in
    if negb (nz (seg_len seg)) then
      if negb (nz (rcv_wnd pcb)) then seg_seq seg =? rcv_nxt pcb
      else (rcv_nxt pcb <=? seg_seq seg) && (seg_seq seg <? right)
    else if negb (nz (rcv_wnd pcb)) then false
    else
      let last := u32 (seg_seq seg + seg_len seg - 1) in
      ((rcv_nxt pcb <=? seg_seq seg) && (seg_seq seg <? right))
      || ((rcv_nxt pcb <=? last) && (last <? right))
  else false.

(** 5th: check the ACK field, in the states ESTABLISHED to CLOSE_WAIT; the
    result is whether to go on. *)
Definition tcp_ack_established (i : nat) (seg : tcp_segment_info) : C bool :=
  pcb <- get_tcp i;;
  let step2 : C bool :=
    pcb <- get_tcp i;;
    (when ((tp_state pcb =? TCP_PCB_STATE_FIN_WAIT1) && (seg_ack seg =? snd_nxt pcb)) then
      upd_tcp i (set_tp_state TCP_PCB_STATE_FIN_WAIT2));;
    ret true in
  if (snd_una pcb <? seg_ack seg) && (seg_ack seg <=? snd_nxt pcb) then
    upd_tcp i (set_snd_una (seg_ack seg));;
    tcp_retransmit_queue_cleanup i;;
    (when ((snd_wl1 pcb <? seg_seq seg)
           || ((snd_wl1 pcb =? seg_seq seg) && (snd_wl2 pcb <=? seg_ack seg))) then
      upd_tcp i (λ pcb, set_snd_wl2 (seg_ack seg) (set_snd_wl1 (seg_seq seg)
        (set_snd_wnd (seg_wnd seg) pcb))));;
    tcp_wakeup i;;
    step2
  else if seg_ack seg <? snd_una pcb then step2
  else if seg_ack seg >? snd_nxt pcb then
    tcp_output i TCP_FLG_ACK [] 0;;
    ret false
  else step2.

(** 5th: check the ACK field; the result is whether to go on. *)
Definition tcp_check_ack (i : nat) (seg : tcp_segment_info) (flags : Z) (local foreign : ip_endpoint)
  : C bool :=
  if negb (TCP_FLG_ISSET flags TCP_FLG_ACK) then ret false
  else
    pcb <- get_tcp i;;
    if tp_state pcb =? TCP_PCB_STATE_SYN_RECEIVED then
      if (snd_una pcb <=? seg_ack seg) && (seg_ack seg <=? snd_nxt pcb) then
        upd_tcp i (set_tp_state TCP_PCB_STATE_ESTABLISHED);;
        tcp_wakeup i;;
        tcp_ack_established i seg
      else
        tcp_output_segment (seg_ack seg) 0 TCP_FLG_RST 0 [] 0 local foreign;;
        ret false
    else if bool_decide (tp_state pcb ∈ [TCP_PCB_STATE_ESTABLISHED; TCP_PCB_STATE_FIN_WAIT1;
              TCP_PCB_STATE_FIN_WAIT2; TCP_PCB_STATE_CLOSE_WAIT]) then
      tcp_ack_established i seg
    else if tp_state pcb =? TCP_PCB_STATE_LAST_ACK then
      (when (seg_ack seg =? snd_nxt pcb) then
        (upd_tcp i (set_tp_state TCP_PCB_STATE_CLOSED);; tcp_pcb_release i));;
      ret false
    else ret true.

(** 7th: process the segment text *)
Definition tcp_process_text (i : nat) (seg : tcp_segment_info) (data : bytes) (len : Z) : C unit :=
  pcb <- get_tcp i;;
  if bool_decide (tp_state pcb ∈ [TCP_PCB_STATE_ESTABLISHED; TCP_PCB_STATE_FIN_WAIT1;
       TCP_PCB_STATE_FIN_WAIT2]) then
    (when (nz len) then
      (buf <- expect FaultBounds (memcpy (tp_buf pcb) (TCP_BUFSIZ - rcv_wnd pcb) data len);;
       put_tcp i (set_rcv_wnd (u16 (rcv_wnd pcb - len))
         (set_rcv_nxt (u32 (seg_seq seg + seg_len seg)) (set_tp_buf buf pcb)));;
       tcp_output i TCP_FLG_ACK [] 0;;
       tcp_wakeup i))
  else ret tt.

(** 8th: check the FIN bit *)
Definition tcp_process_fin (i : nat) (seg : tcp_segment_info) (flags : Z) : C unit :=
  if TCP_FLG_ISSET flags TCP_FLG_FIN then
    pcb <- get_tcp i;;
    if (tp_state pcb =? TCP_PCB_STATE_CLOSED) || (tp_state pcb =? TCP_PCB_STATE_LISTEN) then ret tt
    else
      upd_tcp i (set_rcv_nxt (u32 (seg_seq seg + 1)));;
      tcp_output i TCP_FLG_ACK [] 0;;
      pcb <- get_tcp i;;
      if (tp_state pcb =? TCP_PCB_STATE_SYN_RECEIVED) || (tp_state pcb =? TCP_PCB_STATE_ESTABLISHED)
      then
        upd_tcp i (set_tp_state TCP_PCB_STATE_CLOSE_WAIT);;
        tcp_wakeup i
      else if tp_state pcb =? TCP_PCB_STATE_FIN_WAIT1 then
        if seg_ack seg =? snd_nxt pcb
        then upd_tcp i (set_tp_state TCP_PCB_STATE_TIME_WAIT)
        else upd_tcp i (set_tp_state TCP_PCB_STATE_CLOSING)
      else if tp_state pcb =? TCP_PCB_STATE_FIN_WAIT2 then
        upd_tcp i (set_tp_state TCP_PCB_STATE_TIME_WAIT)
      else ret tt
  else ret tt.

Definition tcp_segment_arrives (seg : tcp_segment_info) (flags : Z) (data : bytes) (len : Z)
    (local foreign : ip_endpoint) : C unit :=
  o <- tcp_pcb_select local (Some foreign);;
  match o with
  | None => tcp_no_connection seg flags local foreign
  | Some i =>
      pcb <- get_tcp i;;
      if tp_state pcb =? TCP_PCB_STATE_CLOSED then tcp_no_connection seg flags local foreign
      else if tp_state pcb =? TCP_PCB_STATE_LISTEN then tcp_listen_arrives i seg flags local foreign
      else if tp_state pcb =? TCP_PCB_STATE_SYN_SENT then
        tcp_syn_sent_arrives i seg flags local foreign
      else if negb (tcp_acceptable pcb seg) then
        (when (negb (TCP_FLG_ISSET flags TCP_FLG_RST)) then
          (tcp_output i TCP_FLG_ACK [] 0;; ret tt))
      else
        go <- tcp_check_ack i seg flags local foreign;;
        if negb go then ret tt
        else
          tcp_process_text i seg data len;;
          tcp_process_fin i seg flags
  end.

(** The segment of a received header: [seg] in [tcp_input]. *)
Definition tcp_seg_info (hdr : tcp_hdr) (len hlen : Z) : tcp_segment_info :=
  let seg_len := u16 (len - hlen) in
  let seg_len := if TCP_FLG_ISSET (th_flg hdr) TCP_FLG_SYN then u16 (seg_len + 1) else seg_len in
  let seg_len := if TCP_FLG_ISSET (th_flg hdr) TCP_FLG_FIN then u16 (seg_len + 1) else seg_len in
  TcpSegmentInfo (ntoh32 (th_seq hdr)) (ntoh32 (th_ack hdr)) seg_len (ntoh16 (th_wnd hdr))
    (ntoh16 (th_up hdr)).

Definition tcp_input (data : bytes) (len src dst : Z) (iface : nat) : C unit :=
  if len <? TCP_HDR_SIZE then ret tt
  else
    psum <- expect FaultBounds (pseudo_sum (tcp_pseudo src dst len));;
    hdr <- expect FaultBounds (tcp_hdr_at data);;
    sum <- expect FaultBounds (cksum16 data len psum);;
    if negb (sum =? 0) then ret tt
    else
      i <- get_if iface;;
      if (src =? IP_ADDR_BROADCAST) || (src =? if_broadcast i) || (dst =? IP_ADDR_BROADCAST)
         || (dst =? if_broadcast i) then ret tt
      else
        let local := IpEndpoint dst (th_dst hdr) in
        let foreign := IpEndpoint src (th_src hdr) in
        let hlen := Z.shiftl (Z.shiftr (th_off hdr) 4) 2 in
        mutex_lock MutexTcp;;
        tcp_segment_arrives (tcp_seg_info hdr len hlen) (th_flg hdr) (drop (Z.to_nat hlen) data)
          (u64 (len - hlen)) local foreign;;
        mutex_unlock MutexTcp.

(** ** Timer, events, initialisation *)

Definition tcp_timer_pcb (i : nat) : C unit :=
  pcb <- get_tcp i;;
  if tp_state pcb =? TCP_PCB_STATE_FREE then ret tt
  else for_each (seq 0 (length (tp_queue pcb))) (tcp_retransmit_queue_emit i).

Definition tcp_timer : C unit :=
  mutex_lock MutexTcp;;
  n <- gets (λ w, length (w_tcp w));;
  for_each (seq 0 n) tcp_timer_pcb;;
  mutex_unlock MutexTcp.

(** [event_handler] of tcp.c *)
Definition tcp_event_handler : C unit :=
  mutex_lock MutexTcp;;
  n <- gets (λ w, length (w_tcp w));;
  for_each (seq 0 n) (λ i,
    pcb <- get_tcp i;;
    if negb (tp_state pcb =? TCP_PCB_STATE_FREE)
    then put_tcp i (set_tp_ctx (sched_interrupt (tp_ctx pcb)) pcb)
    else ret tt);;
  mutex_unlock MutexTcp.

(** The result of [net_event_subscribe] is not looked at. *)
Definition tcp_init : C Z :=
  r <- ip_protocol_register IP_PROTOCOL_TCP HandlerTcp;;
  if r =? -1 then ret (-1)
  else
    r <- net_timer_register (Timeval 0 100000) TimerTcp;;
    if r =? -1 then ret (-1)
    else
      net_event_subscribe EventTcp;;
      ret 0.
End Tcp.
