(* ===== verification/Dump.v ===== *)
(** * Dumps of headers

    The functions that print a header to the standard error stream:
    [ether_dump] of [src/src/ether.c], [arp_dump] of [src/src/arp.c],
    [ip_dump] of [src/src/ip.c], [icmp_dump] of [src/src/icmp.c],
    [udp_dump] of [src/src/udp.c], [tcp_dump] of [src/src/tcp.c], and the
    names they print, as the text they write; [None] is an access outside
    the message.  The theorem is that every message the layers dump, on
    input and on output, has what the dump reads. *)

From Stdlib Require Import String.
From S2P Require Import Prelude Bytes Checksum Clock Text Log Addr Monad State Platform Queue Net.
From S2P Require Import Ether Drivers Device Arp Ip Icmp Pseudo Udp Tcp.

Definition ICMP_TYPE_DEST_UNREACH : Z := 3.
Definition ICMP_TYPE_SOURCE_QUENCH : Z := 4.
Definition ICMP_TYPE_REDIRECT : Z := 5.
Definition ICMP_TYPE_TIME_EXCEEDED : Z := 11.
Definition ICMP_TYPE_PARAM_PROBLEM : Z := 12.
Definition ICMP_TYPE_TIMESTAMP : Z := 13.
Definition ICMP_TYPE_TIMESTAMPREPLY : Z := 14.
Definition ICMP_TYPE_INFO_REQUEST : Z := 15.
Definition ICMP_TYPE_INFO_REPLY : Z := 16.

(** A string in a buffer, up to its NUL, as [%s] prints it. *)
Definition fmt_s (s : bytes) : bytes := take (length s - 1) s.

Section Dump.
Context `{Machine} (HEXDUMP : bool).

(** The lines, and the data behind them in a build with dumps. *)
Definition dump_lines (lines : list (list bytes)) (data : bytes) (len : Z) : option bytes :=
  hex ← debugdump HEXDUMP data len;
  Some (mjoin (line <$> lines) ++ hex).

(** ** Ethernet *)

Definition ether_dump (frame : bytes) (flen : Z) : option bytes :=
  hdr ← ether_hdr_at frame;
  src ← ether_addr_ntop (Some (eh_src hdr)) ETHER_ADDR_STR_LEN;
  dst ← ether_addr_ntop (Some (eh_dst hdr)) ETHER_ADDR_STR_LEN;
  dump_lines
    [[txt "        src: "; fmt_s src];
     [txt "        dst: "; fmt_s dst];
     [txt "       type: 0x"; fmt_04x (ntoh16 (eh_type hdr))]] frame flen.

(** ** ARP *)

Definition arp_opcode_ntoa (opcode : Z) : bytes :=
  if ntoh16 opcode =? ARP_OP_REQUEST then txt "Request"
  else if ntoh16 opcode =? ARP_OP_REPLY then txt "Reply"
  else txt "Unknown".

Definition arp_dump (data : bytes) (len : Z) : option bytes :=
  message ← arp_ether_ip_at data;
  sha ← ether_addr_ntop (Some (arp_sha message)) 128;
  tha ← ether_addr_ntop (Some (arp_tha message)) 128;
  dump_lines
    [[txt "        hrd: 0x"; fmt_04x (ntoh16 (arp_hrd message))];
     [txt "        pro: 0x"; fmt_04x (ntoh16 (arp_pro message))];
     [txt "        hln: "; fmt_u (arp_hln message)];
     [txt "        pln: "; fmt_u (arp_pln message)];
     [txt "         op: "; fmt_u (ntoh16 (arp_op message)); txt " (";
      arp_opcode_ntoa (arp_op message); txt ")"];
     [txt "        sha: "; fmt_s sha];
     [txt "        spa: "; fmt_s (ip_addr_ntop (arp_spa message) 128)];
     [txt "        tha: "; fmt_s tha];
     [txt "        tpa: "; fmt_s (ip_addr_ntop (arp_tpa message) 128)]] data len.

(** ** IP *)

Definition ip_dump (data : bytes) (len : Z) : option bytes :=
  hdr ← ip_hdr_at data;
  let v := Z.shiftr (Z.land (ih_vhl hdr) 0xf0) 4 in
  let hl := Z.land (ih_vhl hdr) 0x0f in
  let hlen := u8 (Z.shiftl hl 2) in
  let total := ntoh16 (ih_total hdr) in
  let offset := ntoh16 (ih_offset hdr) in
  dump_lines
    [[txt "        vhl: 0x"; fmt_02x (ih_vhl hdr); txt " [v: "; fmt_u v; txt ", hl: "; fmt_u hl;
      txt " ("; fmt_u hlen; txt ")]"];
     [txt "        tos: 0x"; fmt_02x (ih_tos hdr)];
     [txt "      total: "; fmt_u total; txt " (payload: "; fmt_u (u32 (total - hlen)); txt ")"];
     [txt "         id: "; fmt_u (ntoh16 (ih_id hdr))];
     [txt "     offset: 0x"; fmt_04x offset; txt " [flags=";
      fmt_x (Z.shiftr (Z.land offset 0xe000) 13); txt ", offset="; fmt_u (Z.land offset 0x1fff); txt "]"];
     [txt "        ttl: "; fmt_u (ih_ttl hdr)];
     [txt "   protocol: "; fmt_u (ih_protocol hdr)];
     [txt "        sum: 0x"; fmt_04x (ntoh16 (ih_sum hdr))];
     [txt "        src: "; fmt_s (ip_addr_ntop (ih_src hdr) IP_ADDR_STR_LEN)];
     [txt "        dst: "; fmt_s (ip_addr_ntop (ih_dst hdr) IP_ADDR_STR_LEN)]] data len.

(** ** ICMP *)

Definition icmp_type_ntoa (type : Z) : bytes :=
  if type =? ICMP_TYPE_ECHOREPLY then txt "EchoReply"
  else if type =? ICMP_TYPE_DEST_UNREACH then txt "DestinationUnreachable"
  else if type =? ICMP_TYPE_SOURCE_QUENCH then txt "SourceQuench"
  else if type =? ICMP_TYPE_REDIRECT then txt "Redirect"
  else if type =? ICMP_TYPE_ECHO then txt "Echo"
  else if type =? ICMP_TYPE_TIME_EXCEEDED then txt "TimeExceeded"
  else if type =? ICMP_TYPE_PARAM_PROBLEM then txt "ParameterProblem"
  else if type =? ICMP_TYPE_TIMESTAMP then txt "Timestamp"
  else if type =? ICMP_TYPE_TIMESTAMPREPLY then txt "TimestampReply"
  else if type =? ICMP_TYPE_INFO_REQUEST then txt "InformationRequest"
  else if type =? ICMP_TYPE_INFO_REPLY then txt "InformationReply"
  else txt "Unknown".

(** [struct icmp_echo] over an ICMP message: [id] and [seq]. *)
Definition icmp_echo_at (data : bytes) : option (Z * Z) :=
  id ← slice 4 2 data;
  seq ← slice 6 2 data;
  match id, seq with
  | [i0; i1], [s0; s1] => Some (load16 i0 i1, load16 s0 s1)
  | _, _ => None
  end.

Definition icmp_dump (data : bytes) (len : Z) : option bytes :=
  hdr ← icmp_hdr_at data;
  rest ←
    (if (icmp_type hdr =? ICMP_TYPE_ECHOREPLY) || (icmp_type hdr =? ICMP_TYPE_ECHO) then
       '(id, seq) ← icmp_echo_at data;
       Some [[txt "         id: "; fmt_u (ntoh16 id)]; [txt "        seq: "; fmt_u (ntoh16 seq)]]
     else Some [[txt "     values: 0x"; fmt_08x (ntoh32 (icmp_values hdr))]]);
  dump_lines
    ([[txt "       type: "; fmt_u (icmp_type hdr); txt " ("; icmp_type_ntoa (icmp_type hdr); txt ")"];
      [txt "       code: "; fmt_u (icmp_code hdr)];
      [txt "        sum: 0x"; fmt_04x (ntoh16 (icmp_sum hdr))]] ++ rest) data len.

(** ** UDP *)

Definition udp_dump (data : bytes) (len : Z) : option bytes :=
  hdr ← udp_hdr_at data;
  dump_lines
    [[txt "        src: "; fmt_u (ntoh16 (uh_src hdr))];
     [txt "        dst: "; fmt_u (ntoh16 (uh_dst hdr))];
     [txt "        len: "; fmt_u (ntoh16 (uh_len hdr))];
     [txt "        sum: 0x"; fmt_04x (ntoh16 (uh_sum hdr))]] data len.

(** ** TCP *)

(** The contents of the static buffer. *)
Definition tcp_flg_ntoa (flg : Z) : bytes :=
  let mark f c := if TCP_FLG_ISSET flg f then txt c else txt "-" in
  snprintf 9 (txt "--" ++ mark TCP_FLG_URG "U"%string ++ mark TCP_FLG_ACK "A"%string
    ++ mark TCP_FLG_PSH "P"%string ++ mark TCP_FLG_RST "R"%string ++ mark TCP_FLG_SYN "S"%string
    ++ mark TCP_FLG_FIN "F"%string).

Definition tcp_dump (data : bytes) (len : Z) : option bytes :=
  hdr ← tcp_hdr_at data;
  dump_lines
    [[txt "        src: "; fmt_u (ntoh16 (th_src hdr))];
     [txt "        dst: "; fmt_u (ntoh16 (th_dst hdr))];
     [txt "        seq: "; fmt_u (ntoh32 (th_seq hdr))];
     [txt "        ack: "; fmt_u (ntoh32 (th_ack hdr))];
     [txt "        off: 0x"; fmt_02x (th_off hdr); txt " (";
      fmt_d (Z.shiftl (Z.shiftr (th_off hdr) 4) 2); txt ")"];
     [txt "        flg: 0x"; fmt_02x (th_flg hdr); txt " ("; fmt_s (tcp_flg_ntoa (th_flg hdr)); txt ")"];
     [txt "        wnd: "; fmt_u (ntoh16 (th_wnd hdr))];
     [txt "        sum: 0x"; fmt_04x (ntoh16 (th_sum hdr))];
     [txt "         up: "; fmt_u (ntoh16 (th_up hdr))]] data len.
End Dump.

(** ** Safety *)

Section Safety.
Context `{Machine} (HEXDUMP : bool).

Lemma dump_lines_safe lines data len :
  bytes_ok data → 0 <= len <= zlen data → len <= 65536 →
  is_Some (dump_lines HEXDUMP lines data len).
Proof.
  intros Hok Hl Hmax. unfold dump_lines, debugdump. destruct HEXDUMP; [|by eexists].
  destruct (hexdump_shown data len Hok Hl Hmax) as (text&->&_). by eexists.
Qed.

Lemma ether_hdr_at_total frame :
  ETHER_HDR_SIZE <= zlen frame → is_Some (ether_hdr_at frame).
Proof.
  intros Hl. unfold zlen, ETHER_HDR_SIZE in Hl. do 14 (destruct frame as [|? frame]; [cbn in Hl; lia|]).
  unfold ether_hdr_at. rewrite !slice_spec by (unfold zlen; cbn; lia). by eexists.
Qed.

Lemma udp_hdr_at_total data : UDP_HDR_SIZE <= zlen data → is_Some (udp_hdr_at data).
Proof.
  intros Hl. unfold zlen, UDP_HDR_SIZE in Hl. do 8 (destruct data as [|? data]; [cbn in Hl; lia|]).
  by eexists.
Qed.

Lemma tcp_hdr_at_total data : TCP_HDR_SIZE <= zlen data → is_Some (tcp_hdr_at data).
Proof.
  intros Hl. unfold zlen, TCP_HDR_SIZE in Hl. do 20 (destruct data as [|? data]; [cbn in Hl; lia|]).
  by eexists.
Qed.

Lemma icmp_echo_at_total data : ICMP_HDR_SIZE <= zlen data → is_Some (icmp_echo_at data).
Proof.
  intros Hl. unfold zlen, ICMP_HDR_SIZE in Hl. do 8 (destruct data as [|? data]; [cbn in Hl; lia|]).
  unfold icmp_echo_at. rewrite !slice_spec by (unfold zlen; cbn; lia). by eexists.
Qed.

(** The dumps stay inside their messages: whatever bytes arrive or are
    sent, a message in memory that has the header of its protocol, which
    every caller has checked or built, and the [len] bytes it is said to
    have is dumped without an access outside it, with and without the
    hexadecimal dump of its data. *)
Lemma dumps_safe data len :
  bytes_ok data → 0 <= len <= zlen data → len <= 65536 →
  (ETHER_HDR_SIZE <= zlen data → is_Some (ether_dump HEXDUMP data len))
  ∧ (ARP_ETHER_IP_SIZE <= zlen data → is_Some (arp_dump HEXDUMP data len))
  ∧ (IP_HDR_SIZE_MIN <= zlen data → is_Some (ip_dump HEXDUMP data len))
  ∧ (ICMP_HDR_SIZE <= zlen data → is_Some (icmp_dump HEXDUMP data len))
  ∧ (UDP_HDR_SIZE <= zlen data → is_Some (udp_dump HEXDUMP data len))
  ∧ (TCP_HDR_SIZE <= zlen data → is_Some (tcp_dump HEXDUMP data len)).
Proof.
  intros Hok Hl Hmax. split_and!; intros Hh.
  - destruct (ether_hdr_at_total data) as [h E]; [lia|]. unfold ether_dump. rewrite E.
    by apply dump_lines_safe.
  - destruct (arp_ether_ip_at_ok data) as (m&E&_); [lia|done|]. unfold arp_dump. rewrite E.
    by apply dump_lines_safe.
  - destruct (ip_hdr_at_ok data) as (h&E&_); [lia|done|]. unfold ip_dump. rewrite E.
    by apply dump_lines_safe.
  - destruct (icmp_hdr_at_ok data) as (h&E&_); [lia|done|]. unfold icmp_dump. rewrite E.
    destruct (icmp_echo_at_total data) as [[id seq] E']; [lia|]. cbn [mbind option_bind].
    destruct (_ || _); [rewrite E'|]; by apply dump_lines_safe.
  - destruct (udp_hdr_at_total data) as [h E]; [lia|]. unfold udp_dump. rewrite E.
    by apply dump_lines_safe.
  - destruct (tcp_hdr_at_total data) as [h E]; [lia|]. unfold tcp_dump. rewrite E.
    by apply dump_lines_safe.
Qed.
End Safety.

Lemma dumps_safe_witness :
  is_Some (@tcp_dump LittleEndian true (replicate 24 7) 20)
  ∧ is_Some (@ip_dump BigEndian true (replicate 24 7) 0).
Proof.
  split.
  - apply (@dumps_safe LittleEndian true (replicate 24 7) 20); [by apply bytes_ok_replicate|done..].
  - apply (@dumps_safe BigEndian true (replicate 24 7) 0); [by apply bytes_ok_replicate|done..].
Defined.
