(* ===== verification/TcpUser.v ===== *)
(** * TCP: user commands

    [tcp_open_rfc793], [tcp_close], [tcp_send] and [tcp_receive] of
    [src/src/tcp.c].  Each runs up to the next wait on the control block's
    condition variable; the [_wake] definitions continue from the return of
    the wait with what the call kept across it. *)

From S2P Require Import Prelude Bytes Checksum Clock Text Addr Monad State Platform Queue Net.
From S2P Require Import Ether Device Arp Ip Pseudo Tcp.

Section User.
Context `{Machine} `{Env} `{DeviceOps}.

(** [sched_sleep(&pcb->ctx, &mutex, NULL)] up to the wait: whether it
    returned -1 at once. *)
Definition tcp_sleep (i : nat) : C bool :=
  pcb <- get_tcp i;;
  match sched_sleep_enter (tp_ctx pcb) with
  | None => ret true
  | Some ctx => put_tcp i (set_tp_ctx ctx pcb);; mutex_unlock MutexTcp;; ret false
  end.

(** [sched_sleep] from the return of the wait, which gave [err], with the
    mutex taken again. *)
Definition tcp_awake (i : nat) (err : Z) : C Z :=
  mutex_lock MutexTcp;;
  pcb <- get_tcp i;;
  let '(r, ctx) := sched_sleep_leave err (tp_ctx pcb) in
  put_tcp i (set_tp_ctx ctx pcb);;
  ret r.

(** [pcb->state = TCP_PCB_STATE_CLOSED; tcp_pcb_release(pcb);
    mutex_unlock(&mutex); return -1;] *)
Definition tcp_abandon {K} (i : nat) : C (waits K Z) :=
  upd_tcp i (set_tp_state TCP_PCB_STATE_CLOSED);;
  tcp_pcb_release i;;
  mutex_unlock MutexTcp;;
  ret (Returned (-1)).

(** ** Open *)

(** What a call of [tcp_open_rfc793] keeps across a wait: the control block
    and the state it waits to leave. *)
Definition tcp_opening : Type := nat * Z.

Definition tcp_open_sleep (i : nat) (state : Z) : C (waits tcp_opening Z) :=
  interrupted <- tcp_sleep i;;
  if (interrupted : bool) then tcp_abandon i else ret (Blocked (i, state)).

(** From the loop condition on. *)
Definition tcp_open_loop (i : nat) (state : Z) : C (waits tcp_opening Z) :=
  pcb <- get_tcp i;;
  if tp_state pcb =? state then tcp_open_sleep i state
  else if negb (tp_state pcb =? TCP_PCB_STATE_ESTABLISHED) then
    if tp_state pcb =? TCP_PCB_STATE_SYN_RECEIVED then tcp_open_sleep i TCP_PCB_STATE_SYN_RECEIVED
    else tcp_abandon i
  else
    mutex_unlock MutexTcp;;
    ret (Returned (Z.of_nat i)).

Definition tcp_open_wake (err : Z) (k : tcp_opening) : C (waits tcp_opening Z) :=
  let '(i, state) := k in
  r <- tcp_awake i err;;
  if r =? -1 then tcp_abandon i else tcp_open_loop i state.

(** The active open, up to the first wait. *)
Definition tcp_open_active (i : nat) (local foreign : ip_endpoint) : C (waits tcp_opening Z) :=
  upd_tcp i (λ pcb, set_rcv_wnd TCP_BUFSIZ (set_tp_foreign foreign (set_tp_local local pcb)));;
  iss <- random;;
  upd_tcp i (set_tp_iss (u32 iss));;
  r <- tcp_output i TCP_FLG_SYN [] 0;;
  if r =? -1 then tcp_abandon i
  else
    upd_tcp i (λ pcb, set_tp_state TCP_PCB_STATE_SYN_SENT (set_snd_nxt (u32 (tp_iss pcb + 1))
      (set_snd_una (tp_iss pcb) pcb)));;
    tcp_open_sleep i TCP_PCB_STATE_SYN_SENT.

(** The passive open, up to the first wait; [foreign] may be null. *)
Definition tcp_open_passive (i : nat) (local : ip_endpoint) (foreign : option ip_endpoint)
  : C (waits tcp_opening Z) :=
  upd_tcp i (set_tp_local local);;
  (match foreign with
   | Some foreign => upd_tcp i (set_tp_foreign foreign)
   | None => ret tt
   end);;
  upd_tcp i (set_tp_state TCP_PCB_STATE_LISTEN);;
  tcp_open_sleep i TCP_PCB_STATE_LISTEN.

(** An active open dereferences [foreign]. *)
Definition tcp_open_rfc793 (local : ip_endpoint) (foreign : option ip_endpoint) (active : bool)
  : C (waits tcp_opening Z) :=
  mutex_lock MutexTcp;;
  o <- tcp_pcb_alloc;;
  match o with
  | None => mutex_unlock MutexTcp;; ret (Returned (-1))
  | Some i =>
      if active then
        foreign <- expect FaultNull foreign;;
        tcp_open_active i local foreign
      else tcp_open_passive i local foreign
  end.

(** ** Close *)

Definition tcp_close_fin (i : nat) (state : Z) : C Z :=
  tcp_output i (Z.lor TCP_FLG_ACK TCP_FLG_FIN) [] 0;;
  upd_tcp i (λ pcb, set_tp_state state (set_snd_nxt (u32 (snd_nxt pcb + 1)) pcb));;
  pcb <- get_tcp i;;
  (if tp_state pcb =? TCP_PCB_STATE_CLOSED then tcp_pcb_release i else tcp_wakeup i);;
  mutex_unlock MutexTcp;;
  ret 0.

Definition tcp_close (id : Z) : C Z :=
  mutex_lock MutexTcp;;
  o <- tcp_pcb_get id;;
  match o with
  | None => mutex_unlock MutexTcp;; ret (-1)
  | Some i =>
      pcb <- get_tcp i;;
      if tp_state pcb =? TCP_PCB_STATE_ESTABLISHED then tcp_close_fin i TCP_PCB_STATE_FIN_WAIT1
      else if tp_state pcb =? TCP_PCB_STATE_CLOSE_WAIT then tcp_close_fin i TCP_PCB_STATE_LAST_ACK
      else mutex_unlock MutexTcp;; ret (-1)
  end.

(** ** Send *)

(** What a call of [tcp_send] keeps across a wait: the control block and
    how much it has sent. *)
Definition tcp_sending : Type := nat * Z.

(** [snd.wnd - (snd.nxt - snd.una)] *)
Definition tcp_send_cap (pcb : tcp_pcb) : Z :=
  u32 (snd_wnd pcb - u32 (snd_nxt pcb - snd_una pcb)).

(** The inner loop of [tcp_send]; a round sends at least one byte. *)
Fixpoint tcp_send_loop (fuel i : nat) (mss : Z) (data : bytes) (len sent : Z)
  : C (waits tcp_sending Z) :=
  if sent <? len then
    pcb <- get_tcp i;;
    let cap := tcp_send_cap pcb in
    if negb (nz cap) then
      interrupted <- tcp_sleep i;;
      if (interrupted : bool) then
        mutex_unlock MutexTcp;;
        ret (Returned (if negb (nz sent) then -1 else sent))
      else ret (Blocked (i, sent))
    else
      match fuel with
      | O => crash FaultFuel
      | S fuel =>
          let slen := Z.min (Z.min mss (len - sent)) cap in
          r <- tcp_output i (Z.lor TCP_FLG_ACK TCP_FLG_PSH) (drop (Z.to_nat sent) data) slen;;
          if r =? -1 then tcp_abandon i
          else
            upd_tcp i (λ pcb, set_snd_nxt (u32 (snd_nxt pcb + slen)) pcb);;
            tcp_send_loop fuel i mss data len (sent + slen)
      end
  else
    mutex_unlock MutexTcp;;
    ret (Returned sent).

(** From the label RETRY. *)
Definition tcp_send_retry (i : nat) (data : bytes) (len sent : Z) : C (waits tcp_sending Z) :=
  pcb <- get_tcp i;;
  if (tp_state pcb =? TCP_PCB_STATE_ESTABLISHED) || (tp_state pcb =? TCP_PCB_STATE_CLOSE_WAIT) then
    iface <- ip_route_get_iface (ep_addr (tp_foreign pcb));;
    match iface with
    | None => mutex_unlock MutexTcp;; ret (Returned (-1))
    | Some iface =>
        ifc <- get_if iface;;
        d <- expect FaultNull (if_dev ifc);;
        dev <- get_dev d;;
        let mss := u64 (d_mtu dev - (IP_HDR_SIZE_MIN + TCP_HDR_SIZE)) in
        tcp_send_loop (Z.to_nat (len - sent)) i mss data len sent
    end
  else mutex_unlock MutexTcp;; ret (Returned (-1)).

Definition tcp_send (id : Z) (data : bytes) (len : Z) : C (waits tcp_sending Z) :=
  mutex_lock MutexTcp;;
  o <- tcp_pcb_get id;;
  match o with
  | None => mutex_unlock MutexTcp;; ret (Returned (-1))
  | Some i => tcp_send_retry i data len 0
  end.

Definition tcp_send_wake (err : Z) (k : tcp_sending) (data : bytes) (len : Z)
  : C (waits tcp_sending Z) :=
  let '(i, sent) := k in
  r <- tcp_awake i err;;
  if r =? -1 then
    mutex_unlock MutexTcp;;
    ret (Returned (if negb (nz sent) then -1 else sent))
  else tcp_send_retry i data len sent.

(** ** Receive *)

(** [memmove(buf, buf + len, remain - len)] *)
Definition tcp_buf_shift (buf : bytes) (len remain : Z) : option bytes :=
  moved ← slice len (remain - len) buf;
  memcpy buf 0 moved (remain - len).

(** The result and the bytes stored at [buf]. *)
Definition tcp_receive_copy (i : nat) (size remain : Z) : C (waits nat (Z * bytes)) :=
  pcb <- get_tcp i;;
  let len := Z.min size remain in
  out <- expect FaultBounds (slice 0 len (tp_buf pcb));;
  buf <- expect FaultBounds (tcp_buf_shift (tp_buf pcb) len remain);;
  put_tcp i (set_rcv_wnd (u16 (rcv_wnd pcb + len)) (set_tp_buf buf pcb));;
  mutex_unlock MutexTcp;;
  ret (Returned (len, out)).

(** From the label RETRY. *)
Definition tcp_receive_retry (i : nat) (size : Z) : C (waits nat (Z * bytes)) :=
  pcb <- get_tcp i;;
  let remain := TCP_BUFSIZ - rcv_wnd pcb in
  if tp_state pcb =? TCP_PCB_STATE_ESTABLISHED then
    if negb (nz remain) then
      interrupted <- tcp_sleep i;;
      if (interrupted : bool) then mutex_unlock MutexTcp;; ret (Returned (-1, []))
      else ret (Blocked i)
    else tcp_receive_copy i size remain
  else if tp_state pcb =? TCP_PCB_STATE_CLOSE_WAIT then
    if nz remain then tcp_receive_copy i size remain
    else mutex_unlock MutexTcp;; ret (Returned (0, []))
  else mutex_unlock MutexTcp;; ret (Returned (-1, [])).

Definition tcp_receive (id size : Z) : C (waits nat (Z * bytes)) :=
  mutex_lock MutexTcp;;
  o <- tcp_pcb_get id;;
  match o with
  | None => mutex_unlock MutexTcp;; ret (Returned (-1, []))
  | Some i => tcp_receive_retry i size
  end.

Definition tcp_receive_wake (err : Z) (i : nat) (size : Z) : C (waits nat (Z * bytes)) :=
  r <- tcp_awake i err;;
  if r =? -1 then mutex_unlock MutexTcp;; ret (Returned (-1, []))
  else tcp_receive_retry i size.
End User.
