(* ===== verification/TcpLogic.v ===== *)
(** * A program logic for one control block

    Code that holds the TCP mutex works on one control block and sends
    segments.  [pwp i w0 m Q pcb L] says: run [m] in any state that is [w0]
    with control block [i] replaced by [pcb], up to what sending changes,
    and with the mutexes [L] held; it does not fault, and ends in such a
    state with the block [pcb'] and mutexes [L'] such that [Q a pcb' L'].
    The rules describe each primitive by what it does to the block, so a
    proof about TCP never looks at the rest of the stack; what they promise
    of the rest is [tcp_inv] and [tcp_touch]. *)

From S2P Require Import Prelude Bytes Checksum Clock Text Addr Monad State Platform Queue Net.
From S2P Require Import Ether Device Sample Arp Ip Pseudo Udp Tcp TcpUser.

(** ** Well-formed control blocks *)

(** Segments of at most 65495 bytes fit an IP packet. *)
Definition TCP_TEXT_MAX : Z := IP_PAYLOAD_SIZE_MAX - TCP_HDR_SIZE.

(** An entry that has been sent again [n] times: the interval has doubled
    as often, and the last time was within the deadline. *)
Definition tcp_backoff (e : tcp_queue_entry) : Prop :=
  ∃ n, 0 <= n <= 5 ∧ tqe_rto e = TCP_DEFAULT_RTO * 2 ^ n
    ∧ TCP_DEFAULT_RTO * (2 ^ n - 1) <= tv_us (tqe_last e) - tv_us (tqe_first e)
    ∧ tv_us (tqe_last e) - tv_us (tqe_first e) < TCP_RETRANSMIT_DEADLINE * 1000000.

Definition tcp_entry_ok (e : tcp_queue_entry) : Prop :=
  tv_ok (tqe_first e) ∧ tv_ok (tqe_last e) ∧ is_u32 (tqe_rto e) ∧ is_u32 (tqe_seq e)
  ∧ is_u8 (tqe_flg e) ∧ 0 <= tqe_len e <= TCP_TEXT_MAX ∧ zlen (tqe_data e) = tqe_len e
  ∧ bytes_ok (tqe_data e) ∧ tcp_backoff e.

Lemma tcp_backoff_fresh t seq flg len data :
  tcp_backoff (TcpQueueEntry t t TCP_DEFAULT_RTO seq flg len data).
Proof. exists 0. unfold TCP_DEFAULT_RTO, TCP_RETRANSMIT_DEADLINE. cbn. lia. Qed.

(** Sent once more, when the interval has passed and the deadline has not. *)
Lemma tcp_backoff_again e now :
  tv_ok (tqe_first e) → tv_ok (tqe_last e) → tv_ok now → tcp_backoff e →
  tv_sec (timersub now (tqe_first e)) < TCP_RETRANSMIT_DEADLINE →
  timercmp Z.gtb now (timeval_add_usec (tqe_last e) (tqe_rto e)) = true →
  tcp_backoff (set_tqe_rto (u32 (tqe_rto e * 2)) (set_tqe_last now e)).
Proof.
  intros Hf Hl Hn (n&Hn5&Hr&Hlo&Hhi) Hdead Hcmp. rewrite timersub_sec in Hdead by done.
  assert (0 < 2 ^ n <= 32) as H2 by (split; [|change 32 with (2 ^ 5); apply Z.pow_le_mono_r]; lia).
  destruct (timeval_add_usec_spec (tqe_last e) (tqe_rto e)) as [Hok Hus];
    [done|unfold TCP_DEFAULT_RTO in *; lia|].
  rewrite timercmp_gtb, Hus, Z.gtb_ltb, Z.ltb_lt in Hcmp by done.
  unfold TCP_DEFAULT_RTO, TCP_RETRANSMIT_DEADLINE in *.
  pose proof (Z.mul_succ_div_gt (tv_us now - tv_us (tqe_first e)) 1000000 ltac:(lia)).
  assert (n <= 4). { destruct (Z.eq_dec n 5) as [->|]; [|lia]. change (2 ^ 5) with 32 in *. lia. }
  exists (n + 1). rewrite Z.pow_add_r, Z.pow_1_r by lia.
  cbn [tqe_rto tqe_last tqe_first set_tqe_rto set_tqe_last]. rewrite u32_small by ulia.
  unfold TCP_DEFAULT_RTO, TCP_RETRANSMIT_DEADLINE. lia.
Qed.

Record tcp_pcb_ok (pcb : tcp_pcb) : Prop := TcpPcbOk {
  tpo_state : 0 <= tp_state pcb <= 11;
  tpo_local : endpoint_ok (tp_local pcb);
  tpo_foreign : endpoint_ok (tp_foreign pcb);
  tpo_snd : is_u32 (snd_nxt pcb) ∧ is_u32 (snd_una pcb) ∧ is_u16 (snd_wnd pcb);
  tpo_wl : is_u32 (snd_wl1 pcb) ∧ is_u32 (snd_wl2 pcb);
  tpo_iss : is_u32 (tp_iss pcb) ∧ is_u32 (tp_irs pcb);
  tpo_rcv : is_u32 (rcv_nxt pcb) ∧ is_u16 (rcv_wnd pcb);
  tpo_buf : zlen (tp_buf pcb) = TCP_BUFSIZ ∧ bytes_ok (tp_buf pcb);
  tpo_queue : Forall tcp_entry_ok (tp_queue pcb)
}.

Definition tcp_wf (pcbs : list tcp_pcb) : Prop :=
  length pcbs = Z.to_nat TCP_PCB_SIZE ∧ Forall tcp_pcb_ok pcbs.

Record tcp_inv (w : world) : Prop := TcpInv {
  ti_wf : tcp_wf (w_tcp w);
  ti_ip : ip_wf w;
  ti_free : link_free w
}.

(** What code that holds the TCP mutex leaves alone. *)
Record tcp_frame (w w' : world) : Prop := TcpFrame {
  tf_devs : dev_static <$> n_devs (w_net w') = dev_static <$> n_devs (w_net w);
  tf_net : net_tables (w_net w') = net_tables (w_net w);
  tf_ip : ip_tables (w_ip w') = ip_tables (w_ip w);
  tf_udp : w_udp w' = w_udp w;
  tf_sys : sys_tables (w_sys w') = sys_tables (w_sys w);
  tf_queues : loopbacks_ok w → loopbacks_ok w'
}.

#[export] Instance tcp_frame_preorder : PreOrder tcp_frame.
Proof.
  split.
  - intros w. by constructor.
  - intros w1 w2 w3 [] []. constructor; (congruence || auto).
Qed.

Lemma tcp_link_frame w w' : tcp_frame w w' → link_frame w w'.
Proof. intros []. by constructor. Qed.

Lemma send_tcp_frame w w' : send_frame w w' → tcp_frame w w'.
Proof. intros []. by constructor. Qed.

(** [w'] is [w] with control block [i] replaced by [pcb]. *)
Definition tcp_touch (i : nat) (w w' : world) (pcb : tcp_pcb) : Prop :=
  (i < length (w_tcp w))%nat ∧ tcp_frame w w' ∧ w_tcp w' = <[i := pcb]> (w_tcp w).

Lemma tcp_touch_lookup i w w' pcb : tcp_touch i w w' pcb → w_tcp w' !! i = Some pcb.
Proof. intros (Hi&_&->). by apply list_lookup_insert_eq. Qed.

Lemma tcp_inv_same w w' :
  tcp_wf (w_tcp w') → w_net w' = w_net w → w_ip w' = w_ip w → w_arp w' = w_arp w →
  link_free w' → tcp_inv w → tcp_inv w'.
Proof.
  intros Hwf Hn Hi Ha Hf [_ [Harp Hid Hr] _]. split; [done| |done].
  split; [by rewrite Ha|by rewrite Hi|]. rewrite Hi. unfold iface_wf. by rewrite Hn.
Qed.

Lemma tcp_inv_send w w' : send_frame w w' → tcp_inv w → tcp_inv w'.
Proof.
  intros Hf [Hwf Hip Hfree]. split.
  - by rewrite (sf_tcp _ _ Hf).
  - by eapply ip_wf_frame.
  - by apply (link_free_frame w); [apply Hf|].
Qed.

(** Taking and giving back the TCP mutex. *)
Lemma tcp_inv_relock L w :
  (∀ m, m ∈ L → m = MutexTcp ∨ m ∈ locked w) → tcp_inv w → tcp_inv (lock_world L w).
Proof.
  intros HL Hi. apply (tcp_inv_same w); try done; [apply Hi|].
  destruct (ti_free _ Hi) as (H1&H2&H3). unfold link_free, locked in *. cbn.
  split_and!; [..|intros d]; intros Hin; destruct (HL _ Hin) as [|Hin']; try done.
  by apply (H3 d).
Qed.

Section Logic.
Context `{Machine} `{EnvOk} `{!DeviceOps} `{!DeviceOpsOk}.

Definition pwp {A} (i : nat) (w0 : world) (m : C A) (Q : A → tcp_pcb → list mutex → Prop)
    (pcb : tcp_pcb) (L : list mutex) : Prop :=
  ∀ w, tcp_inv w → tcp_touch i w0 w pcb → locked w = L →
    wp m (λ a w', ∃ pcb' L', tcp_inv w' ∧ tcp_touch i w0 w' pcb' ∧ locked w' = L' ∧ Q a pcb' L') w.

Context {i : nat} {w0 : world}.

Lemma pwp_ret {A} (a : A) Q pcb L : Q a pcb L → pwp i w0 (ret a) Q pcb L.
Proof. intros HQ w Hi Ht HL. by exists pcb, L. Qed.

Lemma pwp_bind {A B} (m : C A) (k : A → C B) Q pcb L :
  pwp i w0 m (λ a, pwp i w0 (k a) Q) pcb L → pwp i w0 (bind m k) Q pcb L.
Proof.
  intros Hm w Hi Ht HL. apply wp_bind. eapply wp_mono; [by apply Hm|].
  intros a w' (pcb'&L'&Hi'&Ht'&HL'&Hk). by apply Hk.
Qed.

Lemma pwp_mono {A} (m : C A) (P Q : A → tcp_pcb → list mutex → Prop) pcb L :
  pwp i w0 m P pcb L → (∀ a p l, P a p l → Q a p l) → pwp i w0 m Q pcb L.
Proof.
  intros Hm HPQ w Hi Ht HL. eapply wp_mono; [by apply Hm|].
  intros a w' (pcb'&L'&?&?&?&?). exists pcb', L'. auto.
Qed.

Lemma pwp_expect {A} f (o : option A) a Q pcb L :
  o = Some a → Q a pcb L → pwp i w0 (expect f o) Q pcb L.
Proof. intros -> HQ. by apply pwp_ret. Qed.

Lemma pwp_ok {A} (m : C A) Q pcb L :
  (tcp_pcb_ok pcb → pwp i w0 m Q pcb L) → pwp i w0 m Q pcb L.
Proof.
  intros Hm w Hi Ht HL. apply Hm; try done.
  destruct (ti_wf _ Hi) as [_ Hf]. rewrite Forall_lookup in Hf.
  by eapply Hf, tcp_touch_lookup.
Qed.

Lemma pwp_get Q pcb L : Q pcb pcb L → pwp i w0 (get_tcp i) Q pcb L.
Proof.
  intros HQ w Hi Ht HL. eapply wp_get_tcp; [by eapply tcp_touch_lookup|]. by exists pcb, L.
Qed.

Lemma pwp_put v Q pcb L : tcp_pcb_ok v → Q tt v L → pwp i w0 (put_tcp i v) Q pcb L.
Proof.
  intros Hv HQ w Hi (Hlt&Hf&E) HL. unfold put_tcp. wp_step. exists v, L. split_and!; try done.
  - apply (tcp_inv_same w); try done; [|by apply (link_free_frame w); [|apply Hi]].
    destruct (ti_wf _ Hi) as [Hl Hwf]. split; cbn; [by rewrite length_insert|by apply Forall_insert].
  - split_and!; [done|destruct Hf; by constructor|]. cbn. by rewrite E, list_insert_insert_eq.
Qed.

Lemma pwp_upd f Q pcb L :
  tcp_pcb_ok (f pcb) → Q tt (f pcb) L → pwp i w0 (upd_tcp i f) Q pcb L.
Proof. intros. unfold upd_tcp. apply pwp_bind, pwp_get, pwp_put; done. Qed.

(** Calls that change nothing but the platform's state. *)
Lemma pwp_env_call {A} (f : nat → A) Q pcb L :
  (∀ k, Q (f k) pcb L) → pwp i w0 (env_call f) Q pcb L.
Proof.
  intros HQ w Hi (Hlt&Hf&E) HL. wp_step. exists pcb, L. split_and!; try done.
  - apply (tcp_inv_same w); try done; [apply Hi|]. by apply (link_free_frame w); [|apply Hi].
  - split_and!; [done|destruct Hf; by constructor|done].
Qed.

(** Calls that send. *)
Lemma pwp_send {A} (m : C A) (P : A → Prop) Q pcb L :
  (∀ w, tcp_inv w → wp m (λ a w', P a ∧ send_frame w w') w) →
  (∀ a, P a → Q a pcb L) → pwp i w0 m Q pcb L.
Proof.
  intros Hm HQ w Hi (Hlt&Hf&E) HL. eapply wp_mono; [by apply Hm|].
  intros a w' [HP Hs]. exists pcb, L. split_and!; auto.
  - by eapply tcp_inv_send.
  - split_and!; [done| |by rewrite (sf_tcp _ _ Hs)]. etrans; [done|]. by apply send_tcp_frame.
  - by rewrite (sf_locked _ _ Hs).
Qed.

Lemma pwp_unlock Q pcb L :
  MutexTcp ∉ L → Q tt pcb L → pwp i w0 (mutex_unlock MutexTcp) Q pcb (MutexTcp :: L).
Proof.
  intros HL HQ w Hi (Hlt&Hf&E) Hlk. unfold locked in Hlk. wp_step; [rewrite Hlk; by left|].
  assert (y_locked (w_sys (lock_world (filter (λ m', m' ≠ MutexTcp) (y_locked (w_sys w))) w)) = L)
    as HL' by (cbn; rewrite Hlk; by apply filter_unlock).
  exists pcb, L. split_and!; try done.
  - apply tcp_inv_relock; [|done]. intros m Hm. right. unfold locked. rewrite Hlk in *.
    rewrite filter_unlock in Hm by done. by right.
  - split_and!; [done|destruct Hf; by constructor|done].
Qed.

Lemma pwp_lock Q pcb L :
  MutexTcp ∉ L → Q tt pcb (MutexTcp :: L) → pwp i w0 (mutex_lock MutexTcp) Q pcb L.
Proof.
  intros HL HQ w Hi (Hlt&Hf&E) Hlk. unfold locked in Hlk. wp_step; [by rewrite Hlk|].
  exists pcb, (MutexTcp :: L). split_and!; try done.
  - apply tcp_inv_relock; [|done]. intros m [->|Hm]%elem_of_cons; auto.
  - split_and!; [done|destruct Hf; by constructor|done].
  - unfold locked. cbn. by rewrite Hlk.
Qed.

Lemma pwp_gets {A} (f : list tcp_pcb → A) Q pcb L :
  Q (f (<[i := pcb]> (w_tcp w0))) pcb L → pwp i w0 (gets (λ w, f (w_tcp w))) Q pcb L.
Proof.
  intros HQ w Hi (Hlt&Hf&E) HL. wp_step. exists pcb, L. by rewrite E.
Qed.
End Logic.

(** ** Segments *)

Section Segment.
Context `{Machine}.

Definition tcp_hdr_ok (h : tcp_hdr) : Prop :=
  is_u16 (th_src h) ∧ is_u16 (th_dst h) ∧ is_u32 (th_seq h) ∧ is_u32 (th_ack h)
  ∧ is_u8 (th_off h) ∧ is_u8 (th_flg h) ∧ is_u16 (th_wnd h) ∧ is_u16 (th_sum h) ∧ is_u16 (th_up h).

Lemma zlen_tcp_hdr_bytes h : zlen (tcp_hdr_bytes h) = TCP_HDR_SIZE.
Proof. unfold tcp_hdr_bytes. by rewrite !zlen_app, !zlen_store16, !zlen_store32. Qed.

Lemma length_tcp_hdr_bytes h : length (tcp_hdr_bytes h) = 20%nat.
Proof. pose proof (zlen_tcp_hdr_bytes h) as E. unfold zlen, TCP_HDR_SIZE in E. lia. Qed.

Lemma tcp_hdr_bytes_ok h : is_u8 (th_off h) → is_u8 (th_flg h) → bytes_ok (tcp_hdr_bytes h).
Proof.
  intros. unfold tcp_hdr_bytes. repeat (apply bytes_ok_app; split); auto with stack.
  by repeat apply Forall_cons_2.
Qed.

Lemma tcp_hdr_at_bytes h rest : tcp_hdr_ok h → tcp_hdr_at (tcp_hdr_bytes h ++ rest) = Some h.
Proof.
  destruct h as [src dst seq ack off flg wnd sum up]. unfold tcp_hdr_ok, tcp_hdr_bytes.
  cbn [th_src th_dst th_seq th_ack th_off th_flg th_wnd th_sum th_up].
  intros (Hs&Hd&Hq&Ha&_&_&Hw&Hc&Hu).
  destruct (store16_loads src Hs) as (?&?&->&_&_&<-), (store16_loads dst Hd) as (?&?&->&_&_&<-),
    (store32_loads seq Hq) as (?&?&?&?&->&_&_&_&_&<-),
    (store32_loads ack Ha) as (?&?&?&?&->&_&_&_&_&<-),
    (store16_loads wnd Hw) as (?&?&->&_&_&<-), (store16_loads sum Hc) as (?&?&->&_&_&<-),
    (store16_loads up Hu) as (?&?&->&_&_&<-). done.
Qed.

Lemma tcp_hdr_at_ok data :
  TCP_HDR_SIZE <= zlen data → bytes_ok data → ∃ h, tcp_hdr_at data = Some h ∧ tcp_hdr_ok h.
Proof.
  intros Hl Hok. unfold zlen, TCP_HDR_SIZE in Hl.
  do 20 (destruct data as [|? data]; [cbn in Hl; lia|]). eexists. split; [done|].
  unfold bytes_ok in Hok. rewrite !Forall_cons in Hok. destruct_and! Hok.
  split_and!; cbn; auto using load16_range, load32_range.
Qed.

(** The header of an outgoing segment. *)
Definition tcp_hdr_out (seq ack flg wnd : Z) (local foreign : ip_endpoint) (sum : Z) : tcp_hdr :=
  TcpHdr (ep_port local) (ep_port foreign) (hton32 seq) (hton32 ack) 80 flg (hton16 wnd) sum 0.

Lemma tcp_hdr_out_ok seq ack flg wnd local foreign sum :
  is_u32 seq → is_u32 ack → is_u8 flg → is_u16 wnd → endpoint_ok local → endpoint_ok foreign →
  is_u16 sum → tcp_hdr_ok (tcp_hdr_out seq ack flg wnd local foreign sum).
Proof.
  intros ???? [_ ?] [_ ?] ?. unfold tcp_hdr_ok, tcp_hdr_out.
  cbn [th_src th_dst th_seq th_ack th_off th_flg th_wnd th_sum th_up].
  split_and!; auto using hton16_range, hton32_range; ulia.
Qed.

(** What [tcp_output_segment] builds, and that its checksum verifies. *)
Lemma tcp_segment_eq seq ack flg wnd data len local foreign :
  is_u8 flg → bytes_ok data → 0 <= len <= zlen data → len <= TCP_TEXT_MAX →
  ∃ sum psum, is_u16 sum ∧ is_u16 psum
    ∧ tcp_segment seq ack flg wnd data len local foreign
      = Some (tcp_hdr_bytes (tcp_hdr_out seq ack flg wnd local foreign sum)
                ++ take (Z.to_nat len) data)
    ∧ pseudo_sum (tcp_pseudo (ep_addr local) (ep_addr foreign) (TCP_HDR_SIZE + len)) = Some psum
    ∧ cksum16 (tcp_hdr_bytes (tcp_hdr_out seq ack flg wnd local foreign sum)
                 ++ take (Z.to_nat len) data) (TCP_HDR_SIZE + len) psum = Some 0.
Proof.
  intros Hf Hok Hl Hmax. change TCP_TEXT_MAX with 65495 in *.
  unfold tcp_segment, TCP_HDR_SIZE in *. rewrite u16_small by ulia.
  destruct (pseudo_sum_total (tcp_pseudo (ep_addr local) (ep_addr foreign) (20 + len)))
    as (psum&->&Hpsum); [done|done|].
  set (p := take (Z.to_nat len) data).
  assert (zlen p = len) as Zp by (unfold p, zlen in *; rewrite length_take; lia).
  set (pre := store16 (ep_port local) ++ store16 (ep_port foreign) ++ store32 (hton32 seq)
    ++ store32 (hton32 ack) ++ [80; flg] ++ store16 (hton16 wnd)).
  assert (∀ sum, tcp_hdr_bytes (tcp_hdr_out seq ack flg wnd local foreign sum) ++ p
                 = pre ++ store16 sum ++ (store16 0 ++ p)) as Hsplit.
  { intros sum. unfold tcp_hdr_bytes, tcp_hdr_out, pre.
    cbn [th_src th_dst th_seq th_ack th_off th_flg th_wnd th_sum th_up].
    by rewrite <- !app_assoc. }
  assert (length pre = 16%nat) as Lpre
    by (unfold pre; by rewrite !length_app, !length_store16, !length_store32).
  destruct (message_checksum pre (store16 0 ++ p) psum (20 + len)) as (sum&Hsum&E&Hver).
  { unfold pre. repeat (apply bytes_ok_app; split); auto with stack.
    repeat apply Forall_cons_2; try apply Forall_nil_2; (done || ulia). }
  { apply bytes_ok_app. split; [apply store16_ok|by apply Forall_take]. }
  { by exists 8%nat; rewrite Lpre. } { done. }
  { rewrite zlen_app, zlen_store16. unfold zlen in *. lia. } { lia. }
  exists sum, psum. split; [done|]. split; [done|]. split; [|split; [done|by rewrite Hsplit]].
  cbn [mbind option_bind]. rewrite slice_spec by lia. cbn [mbind option_bind].
  change IP_PAYLOAD_SIZE_MAX with 65515. destruct (Z.leb_spec (20 + len) 65515); [|lia].
  change (Z.shiftl (Z.shiftr 20 2) 4) with 80.
  fold (tcp_hdr_out seq ack flg wnd local foreign 0).
  change (take (Z.to_nat len) (drop (Z.to_nat 0) data)) with p. rewrite Hsplit, E. done.
Qed.
End Segment.

(** ** Rules for the primitives of tcp.c *)

Section Rules.
Context `{Machine} `{EnvOk} `{!DeviceOps} `{!DeviceOpsOk} {i : nat} {w0 : world}.

Lemma tcp_output_segment_wp seq ack flg wnd data len local foreign w :
  is_u8 flg → bytes_ok data → 0 <= len <= zlen data → len <= TCP_TEXT_MAX →
  endpoint_ok foreign → tcp_inv w →
  wp (tcp_output_segment seq ack flg wnd data len local foreign)
     (λ r w', (r = -1 ∨ r = len) ∧ send_frame w w') w.
Proof.
  intros Hf Hok Hl Hmax [Hfor _] Hi. unfold tcp_output_segment.
  destruct (tcp_segment_eq seq ack flg wnd data len local foreign) as (sum&_&_&_&->&_); try done.
  change TCP_TEXT_MAX with 65495 in *.
  assert (zlen (tcp_hdr_bytes (tcp_hdr_out seq ack flg wnd local foreign sum)
            ++ take (Z.to_nat len) data) = 20 + len) as Hz.
  { rewrite zlen_app, zlen_tcp_hdr_bytes. unfold zlen, TCP_HDR_SIZE in *. rewrite length_take. lia. }
  unfold TCP_HDR_SIZE. rewrite u16_small by ulia. do 3 wp_step.
  eapply wp_mono; [apply ip_output_wp; try apply Hi; try (done || lia)|].
  { apply bytes_ok_app. split; [by apply tcp_hdr_bytes_ok|]. by apply Forall_take. }
  intros r w' [_ Hs]. destruct (_ =? -1); wp_step; auto.
Qed.

Lemma pwp_output_segment seq ack flg wnd data len local foreign Q pcb L :
  is_u8 flg → bytes_ok data → 0 <= len <= zlen data → len <= TCP_TEXT_MAX →
  endpoint_ok foreign → (∀ r, r = -1 ∨ r = len → Q r pcb L) →
  pwp i w0 (tcp_output_segment seq ack flg wnd data len local foreign) Q pcb L.
Proof.
  intros Hf Hok Hl Hmax Hfor HQ. eapply pwp_send; [|exact HQ].
  intros w Hw. by apply tcp_output_segment_wp.
Qed.

(** What sending does to the retransmit queue: one entry at the end, for the
    flags and text sent, or nothing, if the segment takes no sequence number
    or there is no memory. *)
Definition tcp_queued (pcb : tcp_pcb) (flg : Z) (data : bytes) (len : Z)
    (queue : list tcp_queue_entry) : Prop :=
  (queue = tp_queue pcb
   ∧ (TCP_FLG_ISSET flg (Z.lor TCP_FLG_SYN TCP_FLG_FIN) || nz len = false ∨ ¬ never_fails)) ∨
  (TCP_FLG_ISSET flg (Z.lor TCP_FLG_SYN TCP_FLG_FIN) || nz len = true ∧
   ∃ t, tv_ok t ∧ queue = tp_queue pcb ++
     [TcpQueueEntry t t TCP_DEFAULT_RTO
        (if TCP_FLG_ISSET flg TCP_FLG_SYN then tp_iss pcb else snd_nxt pcb)
        flg len (take (Z.to_nat len) data)]).

Lemma tcp_pcb_ok_queue pcb queue :
  tcp_pcb_ok pcb → Forall tcp_entry_ok queue → tcp_pcb_ok (set_tp_queue queue pcb).
Proof. intros []. by constructor. Qed.

Lemma tcp_queued_ok pcb flg data len queue :
  tcp_pcb_ok pcb → is_u8 flg → bytes_ok data → 0 <= len <= zlen data → len <= TCP_TEXT_MAX →
  tcp_queued pcb flg data len queue → tcp_pcb_ok (set_tp_queue queue pcb).
Proof.
  intros Hp Hf Hok Hl Hmax Hq. apply tcp_pcb_ok_queue; [done|].
  destruct Hp as [_ _ _ (?&?&?) _ (?&?) _ _ Hold].
  destruct Hq as [[-> _]|(_&t&Ht&->)]; [done|]. apply Forall_app_2; [done|].
  apply Forall_singleton. split_and!; cbn; try done; try lia.
  - by destruct (TCP_FLG_ISSET flg TCP_FLG_SYN).
  - unfold zlen in *. rewrite length_take. lia.
  - by apply Forall_take.
  - apply tcp_backoff_fresh.
Qed.

Lemma set_tp_queue_id pcb : set_tp_queue (tp_queue pcb) pcb = pcb.
Proof. by destruct pcb. Qed.

Lemma pwp_queue_add seq flg data len Q pcb L :
  is_u8 flg → bytes_ok data → 0 <= len <= zlen data → len <= TCP_TEXT_MAX → is_u32 seq →
  (¬ never_fails → ∀ r, Q r pcb L) →
  (∀ t, tv_ok t → Q 0 (set_tp_queue (tp_queue pcb ++
     [TcpQueueEntry t t TCP_DEFAULT_RTO seq flg len (take (Z.to_nat len) data)]) pcb) L) →
  pwp i w0 (tcp_retransmit_queue_add i seq flg data len) Q pcb L.
Proof.
  intros Hf Hok Hl Hmax Hseq HQ0 HQ1. unfold tcp_retransmit_queue_add.
  apply pwp_ok. intros Hp.
  apply pwp_bind, pwp_env_call. intros k1.
  destruct (env_calloc k1) eqn:E1; cbn [negb]; [|by eapply pwp_ret, HQ0, calloc_failed].
  rewrite slice_spec by lia. apply pwp_bind, pwp_ret. apply pwp_bind, pwp_env_call. intros k2.
  apply pwp_bind, pwp_env_call. intros k3.
  destruct (env_calloc k3) eqn:E3; cbn [negb]; [|by eapply pwp_ret, HQ0, calloc_failed].
  change (drop (Z.to_nat 0) data) with data.
  apply pwp_bind, pwp_upd; [|apply pwp_ret, HQ1, env_time_ok].
  apply tcp_pcb_ok_queue; [done|]. apply Forall_app_2; [apply Hp|]. apply Forall_singleton.
  split_and!; cbn; try done; try apply env_time_ok; try lia.
  - unfold zlen in *. rewrite length_take. lia.
  - by apply Forall_take.
  - apply tcp_backoff_fresh.
Qed.

Lemma pwp_output flg data len Q pcb L :
  is_u8 flg → bytes_ok data → 0 <= len <= zlen data → len <= TCP_TEXT_MAX →
  (∀ r queue, r = -1 ∨ r = len → tcp_queued pcb flg data len queue →
     Q r (set_tp_queue queue pcb) L) →
  pwp i w0 (tcp_output i flg data len) Q pcb L.
Proof.
  intros Hf Hok Hl Hmax HQ. unfold tcp_output. apply pwp_ok. intros Hp.
  pose proof Hp as [_ Hloc Hfor (?&?&?) _ (?&?) _ _ _].
  apply pwp_bind, pwp_get, pwp_bind. cbv zeta.
  set (seq := if TCP_FLG_ISSET flg TCP_FLG_SYN then tp_iss pcb else snd_nxt pcb).
  assert (∀ queue, tcp_queued pcb flg data len queue →
    pwp i w0 (tcp_output_segment seq (rcv_nxt pcb) flg (rcv_wnd pcb) data len (tp_local pcb)
                (tp_foreign pcb)) Q (set_tp_queue queue pcb) L) as Hseg.
  { intros queue Hq. apply pwp_output_segment; auto. }
  assert (TCP_FLG_ISSET flg (Z.lor TCP_FLG_SYN TCP_FLG_FIN) || nz len = false ∨ ¬ never_fails →
    pwp i w0 (tcp_output_segment seq (rcv_nxt pcb) flg (rcv_wnd pcb) data len (tp_local pcb)
                (tp_foreign pcb)) Q pcb L) as Hsame.
  { intros Hno. rewrite <- (set_tp_queue_id pcb). apply Hseg. by left. }
  destruct (_ || _) eqn:E.
  - apply pwp_bind, pwp_queue_add; try done.
    + unfold seq. by destruct (TCP_FLG_ISSET flg TCP_FLG_SYN).
    + intros Hno r. apply pwp_ret, Hsame. by right.
    + intros t Ht. apply pwp_ret, Hseg. right. split; [done|]. by exists t.
  - apply pwp_ret, Hsame. by left.
Qed.

Lemma pwp_wakeup Q pcb L :
  Q tt (set_tp_ctx (sched_wakeup (tp_ctx pcb)) pcb) L → pwp i w0 (tcp_wakeup i) Q pcb L.
Proof.
  intros HQ. apply pwp_ok. intros []. unfold tcp_wakeup. by apply pwp_upd; [constructor|].
Qed.

Lemma tcp_pcb_zero_ok : tcp_pcb_ok tcp_pcb_zero.
Proof.
  constructor; try done. unfold tcp_pcb_zero. cbn [tp_buf].
  split; [unfold zlen; by rewrite length_replicate|].
  apply Forall_replicate. ulia.
Qed.

Lemma pwp_release Q pcb L : Q tt tcp_pcb_zero L → pwp i w0 (tcp_pcb_release i) Q pcb L.
Proof.
  intros HQ. unfold tcp_pcb_release. apply pwp_bind, pwp_env_call. intros k.
  pose proof (env_cond_destroy_nonneg k). destruct (Z.eqb_spec (env_cond_destroy k) (-1)); [lia|].
  apply pwp_upd; [apply tcp_pcb_zero_ok|done].
Qed.

Lemma tcp_queue_cleanup_ok queue una :
  Forall tcp_entry_ok queue → Forall tcp_entry_ok (tcp_queue_cleanup queue una).
Proof.
  induction 1 as [|e q He Hq IH]; cbn; [done|]. destruct (_ >=? _); [by constructor|done].
Qed.

Lemma pwp_queue_cleanup Q pcb L :
  Q tt (set_tp_queue (tcp_queue_cleanup (tp_queue pcb) (snd_una pcb)) pcb) L →
  pwp i w0 (tcp_retransmit_queue_cleanup i) Q pcb L.
Proof.
  intros HQ. apply pwp_ok. intros Hp. unfold tcp_retransmit_queue_cleanup.
  apply pwp_upd; [|done]. apply tcp_pcb_ok_queue; [done|]. apply tcp_queue_cleanup_ok, Hp.
Qed.

Lemma pwp_random Q pcb L :
  (∀ r, 0 <= r < 2 ^ 31 → Q r pcb L) → pwp i w0 random Q pcb L.
Proof. intros HQ. apply pwp_env_call. intros k. apply HQ, env_random_range. Qed.

(** An update whose result is well-formed because the block is. *)
Lemma pwp_update f Q pcb L :
  (tcp_pcb_ok pcb → tcp_pcb_ok (f pcb)) → Q tt (f pcb) L → pwp i w0 (upd_tcp i f) Q pcb L.
Proof. intros Hf HQ. apply pwp_ok. intros Hp. by apply pwp_upd; [apply Hf|]. Qed.

Lemma pwp_output_ack Q pcb L :
  (∀ r, r = -1 ∨ r = 0 → Q r pcb L) → pwp i w0 (tcp_output i TCP_FLG_ACK [] 0) Q pcb L.
Proof.
  intros HQ. apply pwp_output; [done|by apply Forall_nil_2|done|done|]. 
  intros r queue Hr [[-> _]|[E _]]; [|by vm_compute in E].
  rewrite set_tp_queue_id. by apply HQ.
Qed.

Lemma pwp_reset seq ack flg local foreign Q pcb L :
  is_u8 flg → endpoint_ok foreign → (∀ r, Q r pcb L) →
  pwp i w0 (tcp_output_segment seq ack flg 0 [] 0 local foreign) Q pcb L.
Proof. intros. apply pwp_output_segment; [done|by apply Forall_nil_2|done..|auto]. Qed.
End Rules.

(** [pcb_fields Hp] proves that a block is well-formed field by field, with
    those it shares with the block of [Hp]; [pcb_ok] that an update keeps
    any block well-formed. *)
Ltac pcb_fields Hp :=
  destruct Hp; destruct_and?; constructor; cbn; split_and?; try done; try lia; auto with stack.

Ltac pcb_ok :=
  let Hp := fresh "Hp" in
  lazymatch goal with |- tcp_pcb_ok ?p → _ => generalize p end;
  intros ? Hp; pcb_fields Hp.

(** [pwp_step] makes one step of a program on one block. *)
Ltac pwp_step :=
  lazymatch goal with
  | |- pwp _ _ (bind _ _) _ _ _ => apply pwp_bind
  | |- pwp _ _ (ret _) _ _ _ => apply pwp_ret
  | |- pwp _ _ (get_tcp _) _ _ _ => apply pwp_get
  | |- pwp _ _ (upd_tcp _ _) _ _ _ => apply pwp_update; [try (by pcb_ok)|]
  | |- pwp _ _ (tcp_wakeup _) _ _ _ => apply pwp_wakeup
  | |- pwp _ _ (tcp_pcb_release _) _ _ _ => apply pwp_release
  | |- pwp _ _ (tcp_retransmit_queue_cleanup _) _ _ _ => apply pwp_queue_cleanup
  | |- pwp _ _ (tcp_output _ TCP_FLG_ACK [] 0) _ _ _ =>
      let r := fresh "r" in let Hr := fresh "Hr" in apply pwp_output_ack; intros r Hr
  | |- pwp _ _ (tcp_output_segment _ _ _ 0 [] 0 _ _) _ _ _ =>
      let r := fresh "r" in apply pwp_reset; [done|try done|intros r]
  | |- pwp _ _ (mutex_lock _) _ _ _ => apply pwp_lock; [try done|]
  | |- pwp _ _ (mutex_unlock _) _ _ _ => apply pwp_unlock; [try done|]
  | |- pwp _ _ random _ _ _ =>
      let r := fresh "iss" in let Hr := fresh "Hiss" in apply pwp_random; intros r Hr
  end; cbv beta.
