(* ===== verification/TcpConn.v ===== *)
(** * TCP: the abstract connection

    What a control block stands for, without its representation: the
    receive buffer and its window become the sequence of bytes that have
    arrived and not been read, the retransmit queue becomes the list of
    segments not yet acknowledged, without timers.  The transitions are those of RFC 793,
    section 3.9, as [src/src/tcp.c] implements them.  They are the
    specification that the code of [Tcp] and [TcpUser] refines; buffers,
    locks and the other control blocks do not occur in them. *)

From S2P Require Import Prelude Bytes Checksum Clock Addr State Platform Net Ether Ip Pseudo Tcp.

(** The cases of membership in an explicit list. *)
Ltac elem_cases H :=
  repeat (apply elem_of_cons in H as [H|H]); [..|by apply elem_of_nil in H].

(** Unacknowledged segments are a sequence number, flags and a text. *)
Record conn := Conn {
  c_state : Z;
  c_local : ip_endpoint;
  c_foreign : ip_endpoint;
  c_iss : Z;
  c_una : Z;
  c_nxt : Z;
  c_wnd : Z;
  c_wl1 : Z;
  c_wl2 : Z;
  c_irs : Z;
  c_rcv : Z;
  c_unread : bytes;
  c_rexmit : list (Z * Z * bytes)
}.

Definition set_c_state (v : Z) (c : conn) : conn :=
  Conn v (c_local c) (c_foreign c) (c_iss c) (c_una c) (c_nxt c) (c_wnd c) (c_wl1 c) (c_wl2 c) (c_irs c) (c_rcv c) (c_unread c) (c_rexmit c).
Definition set_c_local (v : ip_endpoint) (c : conn) : conn :=
  Conn (c_state c) v (c_foreign c) (c_iss c) (c_una c) (c_nxt c) (c_wnd c) (c_wl1 c) (c_wl2 c) (c_irs c) (c_rcv c) (c_unread c) (c_rexmit c).
Definition set_c_foreign (v : ip_endpoint) (c : conn) : conn :=
  Conn (c_state c) (c_local c) v (c_iss c) (c_una c) (c_nxt c) (c_wnd c) (c_wl1 c) (c_wl2 c) (c_irs c) (c_rcv c) (c_unread c) (c_rexmit c).
Definition set_c_iss (v : Z) (c : conn) : conn :=
  Conn (c_state c) (c_local c) (c_foreign c) v (c_una c) (c_nxt c) (c_wnd c) (c_wl1 c) (c_wl2 c) (c_irs c) (c_rcv c) (c_unread c) (c_rexmit c).
Definition set_c_una (v : Z) (c : conn) : conn :=
  Conn (c_state c) (c_local c) (c_foreign c) (c_iss c) v (c_nxt c) (c_wnd c) (c_wl1 c) (c_wl2 c) (c_irs c) (c_rcv c) (c_unread c) (c_rexmit c).
Definition set_c_nxt (v : Z) (c : conn) : conn :=
  Conn (c_state c) (c_local c) (c_foreign c) (c_iss c) (c_una c) v (c_wnd c) (c_wl1 c) (c_wl2 c) (c_irs c) (c_rcv c) (c_unread c) (c_rexmit c).
Definition set_c_wnd (v : Z) (c : conn) : conn :=
  Conn (c_state c) (c_local c) (c_foreign c) (c_iss c) (c_una c) (c_nxt c) v (c_wl1 c) (c_wl2 c) (c_irs c) (c_rcv c) (c_unread c) (c_rexmit c).
Definition set_c_wl1 (v : Z) (c : conn) : conn :=
  Conn (c_state c) (c_local c) (c_foreign c) (c_iss c) (c_una c) (c_nxt c) (c_wnd c) v (c_wl2 c) (c_irs c) (c_rcv c) (c_unread c) (c_rexmit c).
Definition set_c_wl2 (v : Z) (c : conn) : conn :=
  Conn (c_state c) (c_local c) (c_foreign c) (c_iss c) (c_una c) (c_nxt c) (c_wnd c) (c_wl1 c) v (c_irs c) (c_rcv c) (c_unread c) (c_rexmit c).
Definition set_c_irs (v : Z) (c : conn) : conn :=
  Conn (c_state c) (c_local c) (c_foreign c) (c_iss c) (c_una c) (c_nxt c) (c_wnd c) (c_wl1 c) (c_wl2 c) v (c_rcv c) (c_unread c) (c_rexmit c).
Definition set_c_rcv (v : Z) (c : conn) : conn :=
  Conn (c_state c) (c_local c) (c_foreign c) (c_iss c) (c_una c) (c_nxt c) (c_wnd c) (c_wl1 c) (c_wl2 c) (c_irs c) v (c_unread c) (c_rexmit c).
Definition set_c_unread (v : bytes) (c : conn) : conn :=
  Conn (c_state c) (c_local c) (c_foreign c) (c_iss c) (c_una c) (c_nxt c) (c_wnd c) (c_wl1 c) (c_wl2 c) (c_irs c) (c_rcv c) v (c_rexmit c).
Definition set_c_rexmit (v : list (Z * Z * bytes)) (c : conn) : conn :=
  Conn (c_state c) (c_local c) (c_foreign c) (c_iss c) (c_una c) (c_nxt c) (c_wnd c) (c_wl1 c) (c_wl2 c) (c_irs c) (c_rcv c) (c_unread c) v.

(** The released control block. *)
Definition conn_free : conn :=
  Conn TCP_PCB_STATE_FREE (IpEndpoint 0 0) (IpEndpoint 0 0) 0 0 0 0 0 0 0 0 [] [].

(** ** Sending *)

Definition conn_seq (flg : Z) (c : conn) : Z :=
  if TCP_FLG_ISSET flg TCP_FLG_SYN then c_iss c else c_nxt c.

(** A segment that takes sequence numbers is kept for retransmission, unless
    there is no memory for it. *)
Definition conn_sent `{Env} (flg : Z) (text : bytes) (c c' : conn) : Prop :=
  (c' = c ∧ (TCP_FLG_ISSET flg (Z.lor TCP_FLG_SYN TCP_FLG_FIN) = false ∧ text = [] ∨ ¬ never_fails)) ∨
  ((TCP_FLG_ISSET flg (Z.lor TCP_FLG_SYN TCP_FLG_FIN) = true ∨ text ≠ [])
   ∧ c' = set_c_rexmit (c_rexmit c ++ [(conn_seq flg c, flg, text)]) c).

(** ** Arrival in a synchronised state *)

Definition conn_rwnd (c : conn) : Z := TCP_BUFSIZ - zlen (c_unread c).

(** States whose segments are checked against the window. *)
Definition conn_windowed : list Z :=
  [TCP_PCB_STATE_SYN_RECEIVED; TCP_PCB_STATE_ESTABLISHED; TCP_PCB_STATE_FIN_WAIT1;
   TCP_PCB_STATE_FIN_WAIT2; TCP_PCB_STATE_CLOSE_WAIT; TCP_PCB_STATE_LAST_ACK].

(** States that take text. *)
Definition conn_receiving : list Z :=
  [TCP_PCB_STATE_ESTABLISHED; TCP_PCB_STATE_FIN_WAIT1; TCP_PCB_STATE_FIN_WAIT2].

Definition in_window (c : conn) (seq : Z) : bool :=
  (c_rcv c <=? seq) && (seq <? u32 (c_rcv c + conn_rwnd c)).

Definition conn_acceptable (seg : tcp_segment_info) (c : conn) : bool :=
  bool_decide (c_state c ∈ conn_windowed)
  && (if seg_len seg =? 0 then
        if conn_rwnd c =? 0 then seg_seq seg =? c_rcv c else in_window c (seg_seq seg)
      else
        negb (conn_rwnd c =? 0)
        && (in_window c (seg_seq seg) || in_window c (u32 (seg_seq seg + seg_len seg - 1)))).

(** The segments still unacknowledged when all before [una] are. *)
Fixpoint conn_unacked (una : Z) (rexmit : list (Z * Z * bytes)) : list (Z * Z * bytes) :=
  match rexmit with
  | [] => []
  | entry :: rest => if entry.1.1 >=? una then rexmit else conn_unacked una rest
  end.

(** An acknowledgement of new data. *)
Definition conn_acked (ack : Z) (c : conn) : conn :=
  set_c_rexmit (conn_unacked ack (c_rexmit c)) (set_c_una ack c).

(** The send window of a segment that is not older than the last one. *)
Definition conn_window (seg : tcp_segment_info) (c : conn) : conn :=
  if (c_wl1 c <? seg_seq seg) || ((c_wl1 c =? seg_seq seg) && (c_wl2 c <=? seg_ack seg))
  then set_c_wnd (seg_wnd seg) (set_c_wl1 (seg_seq seg) (set_c_wl2 (seg_ack seg) c))
  else c.

(** Our FIN is acknowledged. *)
Definition conn_fin_acked (seg : tcp_segment_info) (c : conn) : conn :=
  if (c_state c =? TCP_PCB_STATE_FIN_WAIT1) && (seg_ack seg =? c_nxt c)
  then set_c_state TCP_PCB_STATE_FIN_WAIT2 c else c.

(** The result says whether the segment is processed further. *)
Definition conn_ack_established (seg : tcp_segment_info) (c : conn) : conn * bool :=
  if (c_una c <? seg_ack seg) && (seg_ack seg <=? c_nxt c) then
    (conn_fin_acked seg (conn_window seg (conn_acked (seg_ack seg) c)), true)
  else if (c_una c <=? seg_ack seg) && (c_nxt c <? seg_ack seg) then (c, false)
  else (conn_fin_acked seg c, true).

Definition conn_ack (seg : tcp_segment_info) (c : conn) : conn * bool :=
  if c_state c =? TCP_PCB_STATE_SYN_RECEIVED then
    if (c_una c <=? seg_ack seg) && (seg_ack seg <=? c_nxt c)
    then conn_ack_established seg (set_c_state TCP_PCB_STATE_ESTABLISHED c)
    else (c, false)
  else if c_state c =? TCP_PCB_STATE_LAST_ACK then
    (if seg_ack seg =? c_nxt c then conn_free else c, false)
  else conn_ack_established seg c.

Definition conn_text (seg : tcp_segment_info) (text : bytes) (c : conn) : conn :=
  if bool_decide (c_state c ∈ conn_receiving ∧ text ≠ []) then
    set_c_unread (c_unread c ++ text) (set_c_rcv (u32 (seg_seq seg + seg_len seg)) c)
  else c.

(** The state after the other side's FIN. *)
Definition conn_fin_state (seg : tcp_segment_info) (c : conn) : Z :=
  if (c_state c =? TCP_PCB_STATE_SYN_RECEIVED) || (c_state c =? TCP_PCB_STATE_ESTABLISHED)
  then TCP_PCB_STATE_CLOSE_WAIT
  else if c_state c =? TCP_PCB_STATE_FIN_WAIT1 then
    if seg_ack seg =? c_nxt c then TCP_PCB_STATE_TIME_WAIT else TCP_PCB_STATE_CLOSING
  else if c_state c =? TCP_PCB_STATE_FIN_WAIT2 then TCP_PCB_STATE_TIME_WAIT
  else c_state c.

Definition conn_fin (seg : tcp_segment_info) (flags : Z) (c : conn) : conn :=
  if TCP_FLG_ISSET flags TCP_FLG_FIN
  then set_c_state (conn_fin_state seg c) (set_c_rcv (u32 (seg_seq seg + 1)) c)
  else c.

Definition conn_arrives (seg : tcp_segment_info) (flags : Z) (text : bytes) (c : conn) : conn :=
  if conn_acceptable seg c && TCP_FLG_ISSET flags TCP_FLG_ACK then
    let '(c', go) := conn_ack seg c in
    if go then conn_fin seg flags (conn_text seg text c') else c'
  else c.

(** ** Arrival in any state *)

Definition conn_opening : list Z :=
  [TCP_PCB_STATE_CLOSED; TCP_PCB_STATE_LISTEN; TCP_PCB_STATE_SYN_SENT].

(** A SYN for a listening connection: the initial send sequence number is
    chosen by the environment. *)
Definition conn_listen_syn (seg : tcp_segment_info) (local foreign : ip_endpoint) (iss : Z)
    (c : conn) : conn :=
  set_c_local local (set_c_foreign foreign (set_c_rcv (u32 (seg_seq seg + 1))
    (set_c_irs (seg_seq seg) (set_c_iss iss c)))).

Definition conn_syn_received (c : conn) : conn :=
  set_c_state TCP_PCB_STATE_SYN_RECEIVED (set_c_nxt (u32 (c_iss c + 1)) (set_c_una (c_iss c) c)).

(** A SYN in SYN-SENT, with an acceptable acknowledgement of ours if [acked]. *)
Definition conn_syn_seen (seg : tcp_segment_info) (acked : bool) (c : conn) : conn :=
  let c := set_c_rcv (u32 (seg_seq seg + 1)) (set_c_irs (seg_seq seg) c) in
  if acked then conn_acked (seg_ack seg) c else c.

Definition conn_syn_acked (seg : tcp_segment_info) (c : conn) : conn :=
  set_c_state TCP_PCB_STATE_ESTABLISHED
    (set_c_wnd (seg_wnd seg) (set_c_wl1 (seg_seq seg) (set_c_wl2 (seg_ack seg) c))).

(** In SYN-SENT: the segment carries an acknowledgement that is not of our
    SYN. *)
Definition conn_bad_ack (seg : tcp_segment_info) (flags : Z) (c : conn) : bool :=
  TCP_FLG_ISSET flags TCP_FLG_ACK
  && ((seg_ack seg <=? c_iss c) || (seg_ack seg >? c_nxt c)).

(** In SYN-SENT: the acknowledgement is taken. *)
Definition conn_good_ack (seg : tcp_segment_info) (flags : Z) (c : conn) : bool :=
  TCP_FLG_ISSET flags TCP_FLG_ACK && ((c_una c <=? seg_ack seg) && (seg_ack seg <=? c_nxt c)).

Inductive conn_arrival `{Env} (seg : tcp_segment_info) (flags : Z) (text : bytes)
    (local foreign : ip_endpoint) : conn → conn → Prop :=
| arrival_closed c :
    c_state c = TCP_PCB_STATE_CLOSED → conn_arrival seg flags text local foreign c c
| arrival_listen_other c :
    c_state c = TCP_PCB_STATE_LISTEN →
    TCP_FLG_ISSET flags TCP_FLG_RST || TCP_FLG_ISSET flags TCP_FLG_ACK
      || negb (TCP_FLG_ISSET flags TCP_FLG_SYN) = true →
    conn_arrival seg flags text local foreign c c
| arrival_listen_syn c iss c' :
    c_state c = TCP_PCB_STATE_LISTEN →
    TCP_FLG_ISSET flags TCP_FLG_RST = false → TCP_FLG_ISSET flags TCP_FLG_ACK = false →
    TCP_FLG_ISSET flags TCP_FLG_SYN = true → 0 <= iss < 2 ^ 31 →
    conn_sent (Z.lor TCP_FLG_SYN TCP_FLG_ACK) [] (conn_listen_syn seg local foreign iss c) c' →
    conn_arrival seg flags text local foreign c (conn_syn_received c')
| arrival_syn_sent_other c :
    c_state c = TCP_PCB_STATE_SYN_SENT →
    conn_bad_ack seg flags c || negb (TCP_FLG_ISSET flags TCP_FLG_SYN) = true →
    conn_arrival seg flags text local foreign c c
| arrival_syn_sent_ack c :
    c_state c = TCP_PCB_STATE_SYN_SENT → conn_bad_ack seg flags c = false →
    TCP_FLG_ISSET flags TCP_FLG_SYN = true →
    let c' := conn_syn_seen seg (conn_good_ack seg flags c) c in
    c_iss c' < c_una c' →
    conn_arrival seg flags text local foreign c (conn_syn_acked seg c')
| arrival_syn_sent_syn c c'' :
    c_state c = TCP_PCB_STATE_SYN_SENT → conn_bad_ack seg flags c = false →
    TCP_FLG_ISSET flags TCP_FLG_SYN = true →
    let c' := conn_syn_seen seg (conn_good_ack seg flags c) c in
    c_una c' <= c_iss c' →
    conn_sent (Z.lor TCP_FLG_SYN TCP_FLG_ACK) [] (set_c_state TCP_PCB_STATE_SYN_RECEIVED c') c'' →
    conn_arrival seg flags text local foreign c c''
| arrival_synchronised c :
    c_state c ∉ conn_opening →
    conn_arrival seg flags text local foreign c (conn_arrives seg flags text c).

(** ** The connection a segment is for *)

Definition conn_local_matches (local : ip_endpoint) (c : conn) : bool :=
  ((ep_addr (c_local c) =? IP_ADDR_ANY) || (ep_addr (c_local c) =? ep_addr local))
  && (ep_port (c_local c) =? ep_port local).

Definition conn_exact (local foreign : ip_endpoint) (c : conn) : bool :=
  conn_local_matches local c
  && ((ep_addr (c_foreign c) =? ep_addr foreign) && (ep_port (c_foreign c) =? ep_port foreign)).

(** Listening for any foreign endpoint. *)
Definition conn_listener (local : ip_endpoint) (c : conn) : bool :=
  conn_local_matches local c
  && ((c_state c =? TCP_PCB_STATE_LISTEN)
      && (ep_addr (c_foreign c) =? IP_ADDR_ANY) && (ep_port (c_foreign c) =? 0)).

Fixpoint find_first {A} (P : A → bool) (l : list A) : option nat :=
  match l with
  | [] => None
  | x :: l => if P x then Some O else S <$> find_first P l
  end.

Fixpoint find_last {A} (P : A → bool) (l : list A) : option nat :=
  match l with
  | [] => None
  | x :: l =>
      match find_last P l with
      | Some k => Some (S k)
      | None => if P x then Some O else None
      end
  end.

(** The first connection with these endpoints, or else the last listener. *)
Definition conn_select (local foreign : ip_endpoint) (conns : list conn) : option nat :=
  match find_first (conn_exact local foreign) conns with
  | Some k => Some k
  | None => find_last (conn_listener local) conns
  end.

(** A segment arrives: one connection moves, or there is none. *)
Definition conns_arrival `{Env} (seg : tcp_segment_info) (flags : Z) (text : bytes)
    (local foreign : ip_endpoint) (conns conns' : list conn) : Prop :=
  match conn_select local foreign conns with
  | None => conns' = conns
  | Some i =>
      ∃ c c', conns !! i = Some c ∧ conns' = <[i := c']> conns
        ∧ conn_arrival seg flags text local foreign c c'
  end.

(** The text of a segment that the connection it is for accepts fits the
    window. *)
Definition text_fits (seg : tcp_segment_info) (local foreign : ip_endpoint) (len : Z)
    (conns : list conn) : Prop :=
  ∀ i c, conn_select local foreign conns = Some i → conns !! i = Some c →
    conn_acceptable seg c = true → len <= conn_rwnd c.

(** ** Input *)

(** The length of a header, from its offset field. *)
Definition tcp_doff (h : tcp_hdr) : Z := Z.shiftl (Z.shiftr (th_off h) 4) 2.

Section Input.
Context `{Machine} `{Env}.

Definition tcp_checksum_ok (data : bytes) (len src dst : Z) : bool :=
  bool_decide ((psum ← pseudo_sum (tcp_pseudo src dst len); cksum16 data len psum) = Some 0).

Definition tcp_unicast (src dst : Z) (ifc : ip_iface) : bool :=
  negb ((src =? IP_ADDR_BROADCAST) || (src =? if_broadcast ifc) || (dst =? IP_ADDR_BROADCAST)
        || (dst =? if_broadcast ifc)).

(** The header and the text of a segment that is not discarded. *)
Definition tcp_accepted (data : bytes) (len src dst : Z) (ifc : ip_iface)
  : option (tcp_hdr * bytes) :=
  if TCP_HDR_SIZE <=? len then
    h ← tcp_hdr_at data;
    if tcp_checksum_ok data len src dst && tcp_unicast src dst ifc
    then Some (h, take (Z.to_nat (len - tcp_doff h)) (drop (Z.to_nat (tcp_doff h)) data))
    else None
  else None.

Definition conns_input (data : bytes) (len src dst : Z) (ifc : ip_iface) (conns conns' : list conn)
  : Prop :=
  match tcp_accepted data len src dst ifc with
  | None => conns' = conns
  | Some (h, text) =>
      conns_arrival (tcp_seg_info h len (tcp_doff h)) (th_flg h) text
        (IpEndpoint dst (th_dst h)) (IpEndpoint src (th_src h)) conns conns'
  end.

(** A segment whose header is inside it and whose text fits the window. *)
Definition input_fits (data : bytes) (len src dst : Z) (ifc : ip_iface) (conns : list conn) : Prop :=
  match tcp_accepted data len src dst ifc with
  | None => True
  | Some (h, text) =>
      tcp_doff h <= len
      ∧ text_fits (tcp_seg_info h len (tcp_doff h)) (IpEndpoint dst (th_dst h))
          (IpEndpoint src (th_src h)) (len - tcp_doff h) conns
  end.
End Input.

(** ** User commands

    The failing outcomes of an operation are nondeterministic: whether a
    wait is interrupted or a packet can be sent is not the connection's
    matter. *)

Definition conn_active (local foreign : ip_endpoint) (iss : Z) (c : conn) : conn :=
  set_c_local local (set_c_foreign foreign (set_c_iss iss (set_c_state TCP_PCB_STATE_CLOSED c))).

Definition conn_syn_sent (c : conn) : conn :=
  set_c_state TCP_PCB_STATE_SYN_SENT (set_c_nxt (u32 (c_iss c + 1)) (set_c_una (c_iss c) c)).

Definition conn_passive (local : ip_endpoint) (foreign : option ip_endpoint) (c : conn) : conn :=
  set_c_state TCP_PCB_STATE_LISTEN
    (set_c_local local (set_c_foreign (default (c_foreign c) foreign) c)).

(** An open of the free block [i]. *)
Inductive conn_open `{Env} (i : nat) (local : ip_endpoint) (foreign : option ip_endpoint) (c : conn)
  : bool → waits (nat * Z) Z → conn → Prop :=
| open_active f iss c' :
    foreign = Some f → 0 <= iss < 2 ^ 31 →
    conn_sent TCP_FLG_SYN [] (conn_active local f iss c) c' →
    conn_open i local foreign c true (Blocked (i, TCP_PCB_STATE_SYN_SENT)) (conn_syn_sent c')
| open_active_fails : conn_open i local foreign c true (Returned (-1)) conn_free
| open_passive :
    conn_open i local foreign c false (Blocked (i, TCP_PCB_STATE_LISTEN))
      (conn_passive local foreign c).

(** An open: the first free block is used. *)
Definition conns_open `{Env} (local : ip_endpoint) (foreign : option ip_endpoint) (active : bool)
    (conns : list conn) (r : waits (nat * Z) Z) (conns' : list conn) : Prop :=
  match find_first (λ c, c_state c =? TCP_PCB_STATE_FREE) conns with
  | None => r = Returned (-1) ∧ conns' = conns
  | Some i =>
      ∃ c c', conns !! i = Some c ∧ conns' = <[i := c']> conns
        ∧ conn_open i local foreign c active r c'
  end.

(** An operation on the connection of a descriptor; [-1] if there is none. *)
Definition conns_at {A} (id : Z) (fail : A) (step : nat → conn → A → conn → Prop)
    (conns : list conn) (r : A) (conns' : list conn) : Prop :=
  match conns !! Z.to_nat id with
  | Some c =>
      if (0 <=? id) && (id <? TCP_PCB_SIZE) && negb (c_state c =? TCP_PCB_STATE_FREE) then
        ∃ c', conns' = <[Z.to_nat id := c']> conns ∧ step (Z.to_nat id) c r c'
      else r = fail ∧ conns' = conns
  | None => r = fail ∧ conns' = conns
  end.

(** The end of a wait for leaving [state]. *)
Inductive conn_open_wake (i : nat) (state : Z) (c : conn) : waits (nat * Z) Z → conn → Prop :=
| open_established :
    c_state c = TCP_PCB_STATE_ESTABLISHED → state ≠ TCP_PCB_STATE_ESTABLISHED →
    conn_open_wake i state c (Returned (Z.of_nat i)) c
| open_waits : c_state c = state → conn_open_wake i state c (Blocked (i, state)) c
| open_syn_received :
    c_state c = TCP_PCB_STATE_SYN_RECEIVED →
    conn_open_wake i state c (Blocked (i, TCP_PCB_STATE_SYN_RECEIVED)) c
| open_fails : conn_open_wake i state c (Returned (-1)) conn_free.

(** The state a connection closes into. *)
Definition conn_close_state (state : Z) : option Z :=
  if state =? TCP_PCB_STATE_ESTABLISHED then Some TCP_PCB_STATE_FIN_WAIT1
  else if state =? TCP_PCB_STATE_CLOSE_WAIT then Some TCP_PCB_STATE_LAST_ACK
  else None.

Inductive conn_close `{Env} (c : conn) : Z → conn → Prop :=
| close_fin state c' :
    conn_close_state (c_state c) = Some state →
    conn_sent (Z.lor TCP_FLG_ACK TCP_FLG_FIN) [] c c' →
    conn_close c 0 (set_c_state state (set_c_nxt (u32 (c_nxt c' + 1)) c'))
| close_fails : conn_close_state (c_state c) = None → conn_close c (-1) c.

(** The bytes the other side's window still has room for. *)
Definition conn_cap (c : conn) : Z := u32 (c_wnd c - u32 (c_nxt c - c_una c)).

(** Sending [data] from offset [sent] on, in segments of at most [mss]
    bytes, until it is sent or the window is full. *)
Inductive conn_send `{Env} (i : nat) (mss : Z) (data : bytes) (len : Z)
  : Z → conn → waits (nat * Z) Z → conn → Prop :=
| send_done sent c : len <= sent → conn_send i mss data len sent c (Returned sent) c
| send_blocks sent c :
    sent < len → conn_cap c = 0 → conn_send i mss data len sent c (Blocked (i, sent)) c
| send_interrupted sent c :
    sent < len → conn_cap c = 0 →
    conn_send i mss data len sent c (Returned (if sent =? 0 then -1 else sent)) c
| send_fails sent c :
    sent < len → conn_cap c ≠ 0 → conn_send i mss data len sent c (Returned (-1)) conn_free
| send_segment sent c c' r c'' :
    sent < len → conn_cap c ≠ 0 →
    let slen := Z.min (Z.min mss (len - sent)) (conn_cap c) in
    conn_sent (Z.lor TCP_FLG_ACK TCP_FLG_PSH) (take (Z.to_nat slen) (drop (Z.to_nat sent) data)) c c' →
    conn_send i mss data len (sent + slen) (set_c_nxt (u32 (c_nxt c + slen)) c') r c'' →
    conn_send i mss data len sent c r c''.

Definition conn_can_send (c : conn) : bool :=
  (c_state c =? TCP_PCB_STATE_ESTABLISHED) || (c_state c =? TCP_PCB_STATE_CLOSE_WAIT).

(** A send, or what is left of one after a wait; [mss] is the largest text
    the device on the route takes, [None] if there is no route. *)
Inductive conn_send_retry `{Env} (i : nat) (mss : option Z) (data : bytes) (len sent : Z) (c : conn)
  : waits (nat * Z) Z → conn → Prop :=
| send_tries m r c' :
    conn_can_send c = true → mss = Some m →
    conn_send i m data len sent c r c' → conn_send_retry i mss data len sent c r c'
| send_no_route :
    conn_can_send c = true → mss = None → conn_send_retry i mss data len sent c (Returned (-1)) c
| send_refused :
    conn_can_send c = false → conn_send_retry i mss data len sent c (Returned (-1)) c.

Definition conn_can_receive (c : conn) : bool :=
  (c_state c =? TCP_PCB_STATE_ESTABLISHED) || (c_state c =? TCP_PCB_STATE_CLOSE_WAIT).

Inductive conn_receive (i : nat) (size : Z) (c : conn)
  : waits nat (Z * bytes) → conn → Prop :=
| receive_text :
    conn_can_receive c = true → c_unread c ≠ [] →
    let out := take (Z.to_nat size) (c_unread c) in
    conn_receive i size c (Returned (zlen out, out))
      (set_c_unread (drop (Z.to_nat size) (c_unread c)) c)
| receive_blocks :
    c_state c = TCP_PCB_STATE_ESTABLISHED → c_unread c = [] →
    conn_receive i size c (Blocked i) c
| receive_interrupted :
    c_state c = TCP_PCB_STATE_ESTABLISHED → c_unread c = [] →
    conn_receive i size c (Returned (-1, [])) c
| receive_eof :
    c_state c = TCP_PCB_STATE_CLOSE_WAIT → c_unread c = [] →
    conn_receive i size c (Returned (0, [])) c
| receive_fails :
    conn_can_receive c = false → conn_receive i size c (Returned (-1, [])) c.

(** The end of a wait in a send and in a receive. *)
Definition conn_send_wake `{Env} (i : nat) (mss : option Z) (data : bytes) (len sent : Z) (c : conn)
    (r : waits (nat * Z) Z) (c' : conn) : Prop :=
  (r = Returned (if sent =? 0 then -1 else sent) ∧ c' = c)
  ∨ conn_send_retry i mss data len sent c r c'.

Definition conn_receive_wake (i : nat) (size : Z) (c : conn) (r : waits nat (Z * bytes))
    (c' : conn) : Prop :=
  (r = Returned (-1, []) ∧ c' = c) ∨ conn_receive i size c r c'.

(** The retransmission timer: nothing, or the deadline of an unacknowledged
    segment closes the connection. *)
Definition conn_expired (c : conn) : conn :=
  set_c_unread [] (set_c_state TCP_PCB_STATE_CLOSED c).

Definition conn_timer (c c' : conn) : Prop :=
  c' = c ∨ (c_state c ≠ TCP_PCB_STATE_FREE ∧ c_rexmit c ≠ [] ∧ c' = conn_expired c).

#[export] Instance conn_timer_preorder : PreOrder conn_timer.
Proof.
  split; [by left|]. intros c1 c2 c3 [-> | (?&?&->)] [-> | (?&?&->)]; [by left|by right..].
Qed.
