(* ===== verification/TcpArrive.v ===== *)
(** * TCP: an arriving segment refines the abstract connection

    [abs] reads the abstract connection off a control block.  The lemmas
    show that the code run for an arriving segment moves it as
    [TcpConn.conn_arrival] says, without a fault as long as the text fits
    the receive window. *)

From S2P Require Import Prelude Bytes Checksum Clock Text Addr Monad State Platform Queue Net.
From S2P Require Import Ether Device Sample Arp Ip Pseudo Udp Tcp TcpUser TcpLogic TcpConn.

(** ** The abstraction *)

(** The unread text at the front of the receive buffer. *)
Definition tcp_unread (pcb : tcp_pcb) : bytes :=
  take (Z.to_nat (TCP_BUFSIZ - rcv_wnd pcb)) (tp_buf pcb).

(** States in which the buffer holds text; before that the window is not
    set. *)
Definition tcp_buffered (state : Z) : bool :=
  bool_decide (state ∉ [TCP_PCB_STATE_FREE; TCP_PCB_STATE_CLOSED; TCP_PCB_STATE_LISTEN]).

Definition entry_abs (e : tcp_queue_entry) : Z * Z * bytes := (tqe_seq e, tqe_flg e, tqe_data e).

Definition abs (pcb : tcp_pcb) : conn :=
  Conn (tp_state pcb) (tp_local pcb) (tp_foreign pcb) (tp_iss pcb) (snd_una pcb) (snd_nxt pcb)
    (snd_wnd pcb) (snd_wl1 pcb) (snd_wl2 pcb) (tp_irs pcb) (rcv_nxt pcb)
    (if tcp_buffered (tp_state pcb) then tcp_unread pcb else [])
    (entry_abs <$> tp_queue pcb).

Lemma zlen_tcp_unread pcb : tcp_pcb_ok pcb → zlen (tcp_unread pcb) = TCP_BUFSIZ - rcv_wnd pcb.
Proof.
  intros [_ _ _ _ _ _ (_&Hw) (Hb&_) _]. unfold tcp_unread, zlen, TCP_BUFSIZ in *.
  rewrite length_take. unfold is_u16 in *. lia.
Qed.

Lemma conn_rwnd_abs pcb :
  tcp_pcb_ok pcb → tcp_buffered (tp_state pcb) = true → conn_rwnd (abs pcb) = rcv_wnd pcb.
Proof.
  intros Hp Hb. unfold conn_rwnd. cbn [abs c_unread]. rewrite Hb, zlen_tcp_unread by done. lia.
Qed.

Lemma buffered_windowed state : state ∈ conn_windowed → tcp_buffered state = true.
Proof.
  unfold conn_windowed. intros Hin. by elem_cases Hin; subst.
Qed.

Lemma buffered_receiving state : state ∈ conn_receiving → tcp_buffered state = true.
Proof. unfold conn_receiving. intros Hin. by elem_cases Hin; subst. Qed.

(** Text copied behind the unread bytes is unread. *)
Lemma take_text (buf text : bytes) (off len : Z) (rest : bytes) :
  0 <= off <= zlen buf → 0 <= len <= zlen text →
  take (Z.to_nat (off + len)) (take (Z.to_nat off) buf ++ take (Z.to_nat len) text ++ rest)
  = take (Z.to_nat off) buf ++ take (Z.to_nat len) text.
Proof.
  unfold zlen. intros Ho Hl. rewrite app_assoc, take_app_le.
  - apply take_ge. rewrite length_app, !length_take. lia.
  - rewrite length_app, !length_take. lia.
Qed.

Lemma tcp_acceptable_abs pcb seg :
  tcp_pcb_ok pcb → tcp_acceptable pcb seg = conn_acceptable seg (abs pcb).
Proof.
  intros Hp. unfold tcp_acceptable, conn_acceptable. change (c_state (abs pcb)) with (tp_state pcb).
  fold conn_windowed. case_bool_decide as Hin; [|done].
  unfold in_window. rewrite conn_rwnd_abs by auto using buffered_windowed.
  change (c_rcv (abs pcb)) with (rcv_nxt pcb). unfold nz. rewrite !negb_involutive.
  destruct (seg_len seg =? 0), (rcv_wnd pcb =? 0); done.
Qed.

Lemma entry_abs_cleanup queue una :
  entry_abs <$> tcp_queue_cleanup queue una = conn_unacked una (entry_abs <$> queue).
Proof.
  induction queue as [|e q IH]; [done|]. cbn [tcp_queue_cleanup fmap list_fmap conn_unacked].
  cbn [entry_abs fst]. by destruct (_ >=? _).
Qed.

Lemma tcp_queued_abs `{Env} pcb flg data len queue :
  0 <= len <= zlen data → tcp_queued pcb flg data len queue →
  conn_sent flg (take (Z.to_nat len) data) (abs pcb) (abs (set_tp_queue queue pcb)).
Proof.
  intros Hl [[-> Hno]|(Hc&t&_&->)].
  { left. split; [by rewrite set_tp_queue_id|]. destruct Hno as [[E ?]%orb_false_elim|?]; [|by right].
    left. split; [done|]. unfold nz in *. by destruct (Z.eqb_spec len 0); subst. }
  right. split.
  - apply orb_prop in Hc as [Hc|Hc]; [by left|]. right. intros E. apply (f_equal length) in E.
    rewrite length_take in E. unfold nz, zlen in *. cbn in E.
    destruct (Z.eqb_spec len 0); [done|lia].
  - unfold abs, set_c_rexmit, conn_seq. cbn. by rewrite fmap_app.
Qed.

Lemma abs_state s pcb :
  tcp_buffered s = tcp_buffered (tp_state pcb) →
  abs (set_tp_state s pcb) = set_c_state s (abs pcb).
Proof. intros E. unfold abs, set_c_state. cbn. by rewrite E. Qed.

Lemma abs_listen_syn seg local foreign iss pcb :
  tcp_buffered (tp_state pcb) = false →
  abs (set_tp_iss iss (set_tp_irs (seg_seq seg) (set_rcv_nxt (u32 (seg_seq seg + 1))
    (set_rcv_wnd TCP_BUFSIZ (set_tp_foreign foreign (set_tp_local local pcb))))))
  = conn_listen_syn seg local foreign iss (abs pcb).
Proof. intros E. unfold abs. cbn. by rewrite E. Qed.

Lemma abs_syn_received pcb :
  rcv_wnd pcb = TCP_BUFSIZ → tcp_buffered (tp_state pcb) = false →
  abs (set_tp_state TCP_PCB_STATE_SYN_RECEIVED (set_snd_una (tp_iss pcb)
    (set_snd_nxt (u32 (tp_iss pcb + 1)) pcb))) = conn_syn_received (abs pcb).
Proof.
  intros Hw E. unfold abs, conn_syn_received, tcp_unread. cbn. by rewrite E, Hw.
Qed.

Lemma abs_zero : abs tcp_pcb_zero = conn_free.
Proof. done. Qed.

(** ** The steps of SEGMENT ARRIVES *)

Section Arrive.
Context `{Machine} `{EnvOk} `{!DeviceOps} `{!DeviceOpsOk} {i : nat} {w0 : world}.

Definition seg_ok (seg : tcp_segment_info) : Prop :=
  is_u32 (seg_seq seg) ∧ is_u32 (seg_ack seg) ∧ is_u16 (seg_len seg) ∧ is_u16 (seg_wnd seg).

(** The postcondition "the block is left alone but for [P]". *)
Definition lands {A} (L : list mutex) (P : A → tcp_pcb → Prop) (a : A) (pcb : tcp_pcb)
    (L' : list mutex) : Prop :=
  L' = L ∧ P a pcb.

Lemma no_connection_pwp seg flags local foreign pcb L :
  endpoint_ok foreign →
  pwp i w0 (tcp_no_connection seg flags local foreign) (lands L (λ _ p, p = pcb)) pcb L.
Proof.
  intros Hf. unfold tcp_no_connection.
  destruct (TCP_FLG_ISSET flags TCP_FLG_RST); [by pwp_step|].
  destruct (TCP_FLG_ISSET flags TCP_FLG_ACK); cbn [negb]; repeat pwp_step; done.
Qed.

Lemma fin_acked_pwp seg pcb L :
  pwp i w0 (pcb <- get_tcp i;;
            (when ((tp_state pcb =? TCP_PCB_STATE_FIN_WAIT1) && (seg_ack seg =? snd_nxt pcb)) then
              upd_tcp i (set_tp_state TCP_PCB_STATE_FIN_WAIT2));;
            ret true)
    (lands L (λ go p, go = true ∧ abs p = conn_fin_acked seg (abs pcb))) pcb L.
Proof.
  unfold conn_fin_acked. cbn [abs c_state c_nxt]. do 3 pwp_step.
  destruct (Z.eqb_spec (tp_state pcb) TCP_PCB_STATE_FIN_WAIT1) as [Hs|]; cbn [andb];
    [|by repeat pwp_step].
  destruct (seg_ack seg =? snd_nxt pcb); repeat pwp_step; [|done].
  split_and!; [done..|]. apply abs_state. by rewrite Hs.
Qed.

Lemma ack_established_pwp seg pcb L :
  seg_ok seg →
  pwp i w0 (tcp_ack_established i seg)
    (lands L (λ go p, (abs p, go) = conn_ack_established seg (abs pcb))) pcb L.
Proof.
  intros (Hs&Ha&_&Hw). unfold tcp_ack_established, conn_ack_established. do 2 pwp_step. cbv zeta.
  change (c_una (abs pcb)) with (snd_una pcb). change (c_nxt (abs pcb)) with (snd_nxt pcb).
  destruct ((snd_una pcb <? seg_ack seg) && _).
  - do 4 pwp_step. set (p1 := set_tp_queue _ _).
    assert (abs p1 = conn_acked (seg_ack seg) (abs pcb)) as E1.
    { unfold abs, conn_acked, set_c_rexmit, p1. cbn. by rewrite entry_abs_cleanup. }
    unfold conn_window.
    change (c_wl1 (conn_acked (seg_ack seg) (abs pcb))) with (snd_wl1 pcb).
    change (c_wl2 (conn_acked (seg_ack seg) (abs pcb))) with (snd_wl2 pcb).
    rewrite <- E1. clearbody p1. pwp_step.
    destruct (_ || _); do 3 pwp_step.
    + eapply pwp_mono; [apply fin_acked_pwp|]. intros go p l (->&->&E). split; [done|]. by rewrite E.
    + eapply pwp_mono; [apply fin_acked_pwp|]. intros go p l (->&->&E). split; [done|]. by rewrite E.
  - replace ((snd_una pcb <=? seg_ack seg) && (snd_nxt pcb <? seg_ack seg))
      with (negb (seg_ack seg <? snd_una pcb) && (seg_ack seg >? snd_nxt pcb))
      by (rewrite Z.gtb_ltb; f_equal; destruct (Z.ltb_spec (seg_ack seg) (snd_una pcb)); cbn; lia).
    destruct (seg_ack seg <? snd_una pcb); cbn [negb andb].
    { eapply pwp_mono; [apply fin_acked_pwp|]. intros go p l (->&->&E). split; [done|]. by rewrite E. }
    destruct (seg_ack seg >? snd_nxt pcb); [by repeat pwp_step|].
    eapply pwp_mono; [apply fin_acked_pwp|]. intros go p l (->&->&E). split; [done|]. by rewrite E.
Qed.

Lemma check_ack_pwp seg flags local foreign pcb L :
  seg_ok seg → endpoint_ok foreign → tp_state pcb ∈ conn_windowed →
  pwp i w0 (tcp_check_ack i seg flags local foreign)
    (lands L (λ go p, (abs p, go) =
       if TCP_FLG_ISSET flags TCP_FLG_ACK then conn_ack seg (abs pcb) else (abs pcb, false))) pcb L.
Proof.
  intros Hseg Hfor Hin. unfold tcp_check_ack, conn_ack.
  destruct (TCP_FLG_ISSET flags TCP_FLG_ACK); cbn [negb]; [|by pwp_step].
  change (c_state (abs pcb)) with (tp_state pcb). change (c_una (abs pcb)) with (snd_una pcb).
  change (c_nxt (abs pcb)) with (snd_nxt pcb). do 2 pwp_step.
  destruct (Z.eqb_spec (tp_state pcb) TCP_PCB_STATE_SYN_RECEIVED) as [Es|Es].
  - destruct (_ && _); [|by repeat pwp_step].
    do 4 pwp_step. eapply pwp_mono; [by apply ack_established_pwp|].
    intros go p l (->&E'). split; [done|]. rewrite E'. f_equal. apply abs_state. by rewrite Es.
  - case_bool_decide as Hest.
    + eapply pwp_mono; [by apply ack_established_pwp|]. intros go p l (->&E'). split; [done|]. rewrite E'.
      destruct (Z.eqb_spec (tp_state pcb) TCP_PCB_STATE_LAST_ACK) as [E|]; [|done].
      rewrite E in Hest. by elem_cases Hest.
    + assert (tp_state pcb = TCP_PCB_STATE_LAST_ACK) as E.
      { unfold conn_windowed in Hin. elem_cases Hin; try done.
        all: destruct Hest; rewrite Hin, !elem_of_cons; auto. }
      rewrite E, Z.eqb_refl. destruct (seg_ack seg =? snd_nxt pcb); by repeat pwp_step.
Qed.

Lemma process_text_pwp seg data len pcb L :
  seg_ok seg → 0 <= len <= rcv_wnd pcb → len <= zlen data → bytes_ok data →
  pwp i w0 (tcp_process_text i seg data len)
    (lands L (λ _ p, abs p = conn_text seg (take (Z.to_nat len) data) (abs pcb))) pcb L.
Proof.
  intros (Hs&_&Hsl&_) Hl Hz Hok. apply pwp_ok. intros Hp. unfold tcp_process_text, conn_text.
  do 2 pwp_step. change (c_state (abs pcb)) with (tp_state pcb). fold conn_receiving.
  case_bool_decide as Hin; [|rewrite bool_decide_eq_false_2 by tauto; by pwp_step].
  unfold nz. destruct (Z.eqb_spec len 0) as [->|Hnz]; cbn [negb].
  { rewrite bool_decide_eq_false_2; [by pwp_step|]. by intros [_ []]. }
  rewrite bool_decide_eq_true_2.
  2:{ split; [done|]. intros E. apply (f_equal length) in E. rewrite length_take in E.
      unfold zlen in Hz. cbn in E. lia. }
  pose proof (tpo_rcv _ Hp) as (Hnxt&Hwnd). pose proof (tpo_buf _ Hp) as (Hbl&Hbo).
  set (off := TCP_BUFSIZ - rcv_wnd pcb).
  assert (memcpy (tp_buf pcb) off data len = Some (take (Z.to_nat off) (tp_buf pcb)
    ++ take (Z.to_nat len) data ++ drop (Z.to_nat (off + len)) (tp_buf pcb))) as Em.
  { unfold off, TCP_BUFSIZ in *. apply memcpy_spec; ulia. }
  pwp_step. eapply pwp_expect; [exact Em|]. pwp_step.
  pose proof (memcpy_length _ _ _ _ _ Em) as Hbl'. pose proof (memcpy_ok _ _ _ _ _ Em Hbo Hok) as Hbo'.
  apply pwp_put; [|do 3 pwp_step; split; [done|]].
  { pcb_fields Hp. unfold zlen in *. by rewrite Hbl'. }
  cbv beta. unfold abs, set_c_unread, tcp_unread. cbn.
  rewrite buffered_receiving by done. f_equal. fold off. rewrite u16_small by ulia.
  replace (TCP_BUFSIZ - (rcv_wnd pcb - len)) with (off + len) by (unfold off; lia).
  apply take_text; unfold off, zlen, TCP_BUFSIZ in *; ulia.
Qed.

Lemma process_fin_pwp seg flags pcb L :
  seg_ok seg → tp_state pcb ∉ [TCP_PCB_STATE_FREE; TCP_PCB_STATE_CLOSED; TCP_PCB_STATE_LISTEN] →
  pwp i w0 (tcp_process_fin i seg flags)
    (lands L (λ _ p, abs p = conn_fin seg flags (abs pcb))) pcb L.
Proof.
  intros (Hs&_) Hin. unfold tcp_process_fin, conn_fin, conn_fin_state.
  destruct (TCP_FLG_ISSET flags TCP_FLG_FIN); [|by pwp_step].
  change (c_state (abs pcb)) with (tp_state pcb). change (c_nxt (abs pcb)) with (snd_nxt pcb).
  rewrite !not_elem_of_cons in Hin. destruct Hin as (Hn0&Hn1&Hn2&_). do 2 pwp_step.
  rewrite (proj2 (Z.eqb_neq _ _) Hn1), (proj2 (Z.eqb_neq _ _) Hn2). cbn [orb].
  do 6 pwp_step. set (p1 := set_rcv_nxt _ pcb).
  change (tp_state p1) with (tp_state pcb). change (snd_nxt p1) with (snd_nxt pcb).
  change (set_c_rcv (u32 (seg_seq seg + 1)) (abs pcb)) with (abs p1).
  assert (tcp_buffered (tp_state p1) = true) as Hb.
  { change (tp_state p1) with (tp_state pcb). apply bool_decide_eq_true_2.
    rewrite !not_elem_of_cons. by split_and!; [..|apply not_elem_of_nil]. }
  assert (∀ s, tcp_buffered s = true → abs (set_tp_state s p1) = set_c_state s (abs p1)) as Habs.
  { intros s E. apply abs_state. by rewrite E. }
  repeat case_match; repeat pwp_step; (split; [done|]); 
    first [done|by apply Habs|by apply (Habs TCP_PCB_STATE_CLOSE_WAIT)].
Qed.

(** A listening connection. *)
Lemma listen_pwp seg flags text local foreign pcb L :
  seg_ok seg → endpoint_ok local → endpoint_ok foreign → tp_state pcb = TCP_PCB_STATE_LISTEN →
  pwp i w0 (tcp_listen_arrives i seg flags local foreign)
    (lands L (λ _ p, conn_arrival seg flags text local foreign (abs pcb) (abs p))) pcb L.
Proof.
  intros (Hs&_) Hl Hf Hst. unfold tcp_listen_arrives.
  destruct (TCP_FLG_ISSET flags TCP_FLG_RST) eqn:Er.
  { pwp_step. split; [done|]. apply arrival_listen_other; [done|]. by rewrite Er. }
  destruct (TCP_FLG_ISSET flags TCP_FLG_ACK) eqn:Ea.
  { repeat pwp_step. split; [done|]. apply arrival_listen_other; [done|]. by rewrite Er, Ea. }
  destruct (TCP_FLG_ISSET flags TCP_FLG_SYN) eqn:Es.
  2:{ pwp_step. split; [done|]. apply arrival_listen_other; [done|]. by rewrite Er, Ea, Es. }
  do 7 pwp_step. apply pwp_output; [done|by apply Forall_nil_2|done|done|].
  intros r queue _ Hq. pwp_step. split; [done|]. set (p1 := set_tp_iss _ _) in *.
  apply tcp_queued_abs in Hq; [|done]. cbv beta.
  assert (abs p1 = conn_listen_syn seg local foreign iss (abs pcb)) as E1.
  { unfold p1. rewrite (u32_small iss) by ulia. apply abs_listen_syn. by rewrite Hst. }
  rewrite E1 in Hq.
  replace (abs (set_tp_state _ _)) with (conn_syn_received (abs (set_tp_queue queue p1)));
    [by apply arrival_listen_syn with iss|].
  symmetry. apply abs_syn_received; [done|]. change (tp_state (set_tp_queue queue p1)) with (tp_state pcb).
  by rewrite Hst.
Qed.

(** A connection that has sent its SYN. *)
Lemma syn_sent_syn_pwp seg flags text local foreign pcb L :
  seg_ok seg → tp_state pcb = TCP_PCB_STATE_SYN_SENT → conn_bad_ack seg flags (abs pcb) = false →
  pwp i w0 (tcp_syn_sent_syn i seg flags (conn_good_ack seg flags (abs pcb)))
    (lands L (λ _ p, conn_arrival seg flags text local foreign (abs pcb) (abs p))) pcb L.
Proof.
  intros (Hs&Ha&_&Hw) Hst Hbad. unfold tcp_syn_sent_syn.
  destruct (TCP_FLG_ISSET flags TCP_FLG_SYN) eqn:Es.
  2:{ pwp_step. split; [done|]. apply arrival_syn_sent_other; [done|]. by rewrite Hbad, Es. }
  do 3 pwp_step.
  match goal with |- pwp _ _ ?m ?Q ?p L =>
    assert (pwp i w0 m (lands L (λ _ p', tp_state p' = TCP_PCB_STATE_SYN_SENT
      ∧ abs p' = conn_syn_seen seg (conn_good_ack seg flags (abs pcb)) (abs pcb))) p L) as Hseen end.
  { unfold conn_syn_seen. destruct (conn_good_ack _ _ _); repeat pwp_step; split_and!; try done.
    unfold abs, conn_acked, set_c_rexmit. cbn. by rewrite entry_abs_cleanup. }
  eapply pwp_mono; [exact Hseen|]. clear Hseen. intros [] p l (->&Hst'&E). do 2 pwp_step.
  change (snd_una p) with (c_una (abs p)). change (tp_iss p) with (c_iss (abs p)). rewrite E.
  rewrite Z.gtb_ltb.
  set (c' := conn_syn_seen _ _ _) in *. destruct (Z.ltb_spec (c_iss c') (c_una c')).
  - repeat pwp_step. split; [done|]. cbv beta.
    replace (abs (set_tp_ctx _ _)) with (conn_syn_acked seg (abs p)).
    { rewrite E. by apply arrival_syn_sent_ack. }
    unfold abs, conn_syn_acked, set_c_state. cbn. by rewrite Hst'.
  - do 3 pwp_step. apply pwp_output; [done|by apply Forall_nil_2|done|done|].
    intros r queue _ Hq. pwp_step. split; [done|]. apply tcp_queued_abs in Hq; [|done].
    eapply arrival_syn_sent_syn; [done|done|done|done|].
    fold c'. rewrite <- E, <- abs_state; [done|].
    by rewrite Hst'.
Qed.

Lemma syn_sent_pwp seg flags text local foreign pcb L :
  seg_ok seg → endpoint_ok foreign → tp_state pcb = TCP_PCB_STATE_SYN_SENT →
  pwp i w0 (tcp_syn_sent_arrives i seg flags local foreign)
    (lands L (λ _ p, conn_arrival seg flags text local foreign (abs pcb) (abs p))) pcb L.
Proof.
  intros Hseg Hf Hst. unfold tcp_syn_sent_arrives. do 2 pwp_step.
  pose proof (syn_sent_syn_pwp seg flags text local foreign pcb L Hseg Hst) as Hsyn.
  pose proof (arrival_syn_sent_other seg flags text local foreign (abs pcb) Hst) as Hother.
  unfold conn_bad_ack, conn_good_ack in *. cbn [abs c_iss c_una c_nxt] in Hsyn, Hother.
  destruct (TCP_FLG_ISSET flags TCP_FLG_ACK); cbn [andb] in *; [|by apply Hsyn].
  destruct (_ || _); [|by apply Hsyn].
  repeat pwp_step. split; [done|]. by apply Hother.
Qed.

(** ** The other states *)

Lemma conn_ack_go seg c c' :
  c_state c ∈ conn_windowed → conn_ack seg c = (c', true) →
  c_unread c' = c_unread c ∧ c_rcv c' = c_rcv c ∧
  c_state c' ∈ [TCP_PCB_STATE_ESTABLISHED; TCP_PCB_STATE_FIN_WAIT1; TCP_PCB_STATE_FIN_WAIT2;
                TCP_PCB_STATE_CLOSE_WAIT].
Proof.
  assert (∀ c0, c_state c0 ∈ [TCP_PCB_STATE_ESTABLISHED; TCP_PCB_STATE_FIN_WAIT1;
      TCP_PCB_STATE_FIN_WAIT2; TCP_PCB_STATE_CLOSE_WAIT] →
    conn_ack_established seg c0 = (c', true) →
    c_unread c' = c_unread c0 ∧ c_rcv c' = c_rcv c0 ∧ c_state c' ∈ [TCP_PCB_STATE_ESTABLISHED;
      TCP_PCB_STATE_FIN_WAIT1; TCP_PCB_STATE_FIN_WAIT2; TCP_PCB_STATE_CLOSE_WAIT]) as Hest.
  { intros c0 Hin. unfold conn_ack_established, conn_fin_acked, conn_window.
    repeat case_match; intros [= <-]; cbn; split_and!; try done; by rewrite !elem_of_cons; auto. }
  intros Hin. unfold conn_ack.
  destruct (Z.eqb_spec (c_state c) TCP_PCB_STATE_SYN_RECEIVED) as [|Hs].
  { destruct (_ && _); [|done]. intros E. apply Hest in E; [done|]. by left. }
  destruct (Z.eqb_spec (c_state c) TCP_PCB_STATE_LAST_ACK) as [|Hs']; [by repeat case_match|].
  apply Hest. unfold conn_windowed in Hin. rewrite !elem_of_cons in *. tauto.
Qed.

Lemma synchronised_pwp seg flags data len local foreign pcb L :
  seg_ok seg → endpoint_ok foreign → bytes_ok data → 0 <= len <= zlen data →
  (conn_acceptable seg (abs pcb) = true → len <= conn_rwnd (abs pcb)) →
  pwp i w0
    (if negb (tcp_acceptable pcb seg) then
       (when (negb (TCP_FLG_ISSET flags TCP_FLG_RST)) then (tcp_output i TCP_FLG_ACK [] 0;; ret tt))
     else
       go <- tcp_check_ack i seg flags local foreign;;
       if negb go then ret tt
       else tcp_process_text i seg data len;; tcp_process_fin i seg flags)
    (lands L (λ _ p, abs p = conn_arrives seg flags (take (Z.to_nat len) data) (abs pcb))) pcb L.
Proof.
  intros Hseg Hf Hok Hz Hl. apply pwp_ok. intros Hp. rewrite tcp_acceptable_abs by done.
  unfold conn_arrives. destruct (conn_acceptable seg (abs pcb)) eqn:Eacc; cbn [negb andb].
  2:{ destruct (negb _); by repeat pwp_step. }
  assert (tp_state pcb ∈ conn_windowed) as Hin.
  { apply andb_prop in Eacc as [Eacc _]. by apply bool_decide_eq_true_1 in Eacc. }
  pwp_step. eapply pwp_mono; [by apply check_ack_pwp|]. intros go p l (->&E).
  destruct (TCP_FLG_ISSET flags TCP_FLG_ACK).
  2:{ apply pair_eq in E as [E ->]. cbn [negb]. by pwp_step. }
  rewrite <- E. destruct go; cbn [negb]; [|by pwp_step].
  symmetry in E. apply conn_ack_go in E as (Eu&Er&Hst); [|done].
  assert (c_state (abs p) ∈ conn_windowed) as Hin'.
  { unfold conn_windowed. rewrite !elem_of_cons in *. tauto. }
  apply pwp_ok. intros Hp'.
  assert (len <= rcv_wnd p) as Hlp.
  { rewrite <- (conn_rwnd_abs p) by auto using buffered_windowed. unfold conn_rwnd in *.
    rewrite Eu. auto. }
  pwp_step. eapply pwp_mono; [apply process_text_pwp; (done || lia)|]. intros [] p' l (->&E').
  eapply pwp_mono; [apply process_fin_pwp; [done|]|].
  { change (tp_state p') with (c_state (abs p')). rewrite E'.
    replace (c_state (conn_text _ _ _)) with (c_state (abs p))
      by (unfold conn_text; by case_bool_decide).
    apply buffered_windowed in Hin'. by apply bool_decide_eq_true_1 in Hin'. }
  intros [] p'' l (->&E''). split; [done|]. by rewrite E'', E'.
Qed.

(** The control block a segment is for. *)
Lemma arrives_pwp seg flags data len local foreign pcb L :
  seg_ok seg → endpoint_ok local → endpoint_ok foreign → bytes_ok data →
  0 <= len <= zlen data → (conn_acceptable seg (abs pcb) = true → len <= conn_rwnd (abs pcb)) →
  pwp i w0
    (pcb <- get_tcp i;;
      if tp_state pcb =? TCP_PCB_STATE_CLOSED then tcp_no_connection seg flags local foreign
      else if tp_state pcb =? TCP_PCB_STATE_LISTEN then tcp_listen_arrives i seg flags local foreign
      else if tp_state pcb =? TCP_PCB_STATE_SYN_SENT then
        tcp_syn_sent_arrives i seg flags local foreign
      else if negb (tcp_acceptable pcb seg) then
        (when (negb (TCP_FLG_ISSET flags TCP_FLG_RST)) then
          (tcp_output i TCP_FLG_ACK [] 0;; ret tt))
      else
        go <- tcp_check_ack i seg flags local foreign;;
        if negb go then ret tt
        else
          tcp_process_text i seg data len;;
          tcp_process_fin i seg flags)
    (lands L (λ _ p, conn_arrival seg flags (take (Z.to_nat len) data) local foreign
                       (abs pcb) (abs p))) pcb L.
Proof.
  intros Hseg Hl Hf Hok Hz Hlen. do 2 pwp_step.
  destruct (Z.eqb_spec (tp_state pcb) TCP_PCB_STATE_CLOSED) as [E|N1].
  { eapply pwp_mono; [by apply no_connection_pwp|]. intros [] p l (->&->). split; [done|].
    by apply arrival_closed. }
  destruct (Z.eqb_spec (tp_state pcb) TCP_PCB_STATE_LISTEN) as [E|N2]; [by apply listen_pwp|].
  destruct (Z.eqb_spec (tp_state pcb) TCP_PCB_STATE_SYN_SENT) as [E|N3]; [by apply syn_sent_pwp|].
  eapply pwp_mono; [by apply synchronised_pwp|]. intros [] p l (->&E). split; [done|].
  rewrite E. apply arrival_synchronised. unfold conn_opening.
  rewrite !not_elem_of_cons. by split_and!; [..|apply not_elem_of_nil].
Qed.
End Arrive.

(** ** Selection *)

Lemma tcp_pcb_scan_spec local foreign pcbs i listen :
  tcp_pcb_scan i pcbs local (Some foreign) listen
  = match find_first (conn_exact local foreign) (abs <$> pcbs) with
    | Some k => Some (i + k)%nat
    | None =>
        match find_last (conn_listener local) (abs <$> pcbs) with
        | Some k => Some (i + k)%nat
        | None => listen
        end
    end.
Proof.
  revert i listen. induction pcbs as [|pcb pcbs IH]; intros i listen; [done|].
  cbn [tcp_pcb_scan fmap list_fmap find_first find_last].
  unfold conn_exact at 1, conn_listener at 2, conn_local_matches.
  cbn [abs c_local c_foreign c_state]. fold (tcp_local_matches local pcb).
  destruct (tcp_local_matches local pcb); cbn [andb]; rewrite !IH.
  - destruct (_ && (ep_port _ =? ep_port _)); [by rewrite Nat.add_0_r|].
    destruct (find_first _ _); cbn; [f_equal; lia|].
    destruct (find_last _ _); [f_equal; lia|]. destruct (_ && _); [f_equal; lia|done].
  - destruct (find_first _ _); cbn; [f_equal; lia|].
    destruct (find_last _ _); [f_equal; lia|done].
Qed.

Lemma tcp_pcb_scan_abs local foreign pcbs :
  tcp_pcb_scan 0 pcbs local (Some foreign) None = conn_select local foreign (abs <$> pcbs).
Proof.
  rewrite tcp_pcb_scan_spec. unfold conn_select. destruct (find_first _ _); [done|].
  by destruct (find_last _ _).
Qed.

Lemma find_first_Some {A} (P : A → bool) l k :
  find_first P l = Some k →
  ∃ x, l !! k = Some x ∧ P x = true ∧ ∀ j y, (j < k)%nat → l !! j = Some y → P y = false.
Proof.
  revert k. induction l as [|x l IH]; intros k; [done|]. cbn. destruct (P x) eqn:E.
  - intros [= <-]. exists x. split_and!; [done..|lia].
  - intros (k'&E'&->)%fmap_Some. destruct (IH _ E') as (y&?&?&Hlt). exists y. split_and!; [done..|].
    intros [|j] z Hj; cbn; [by intros [= <-]|]. apply Hlt. lia.
Qed.

Lemma find_first_None {A} (P : A → bool) l k x :
  find_first P l = None → l !! k = Some x → P x = false.
Proof.
  revert k. induction l as [|y l IH]; intros k; [done|]. cbn. destruct (P y) eqn:E; [done|].
  intros Hn%fmap_None. destruct k as [|k]; cbn; [by intros [= <-]|by apply IH].
Qed.

Lemma find_first_here {A} (P : A → bool) l k x :
  l !! k = Some x → P x = true → (∀ j y, (j < k)%nat → l !! j = Some y → P y = false) →
  find_first P l = Some k.
Proof.
  revert k. induction l as [|z l IH]; intros k Hx HP Hlt; [done|]. cbn. destruct k as [|k].
  - injection Hx as ->. by rewrite HP.
  - rewrite (Hlt 0%nat z) by (done || lia). rewrite (IH k); [done|done|done|].
    intros j y Hj Hy. apply (Hlt (S j)); [lia|done].
Qed.

Lemma find_last_Some {A} (P : A → bool) l k :
  find_last P l = Some k → ∃ x, l !! k = Some x ∧ P x = true.
Proof.
  revert k. induction l as [|x l IH]; intros k; [done|]. cbn.
  destruct (find_last P l) as [k'|]; [intros [= <-]; by apply IH|].
  destruct (P x) eqn:E; [|done]. intros [= <-]. by exists x.
Qed.

Lemma conn_select_lookup local foreign conns i :
  conn_select local foreign conns = Some i → is_Some (conns !! i).
Proof.
  unfold conn_select. destruct (find_first _ _) eqn:E.
  - intros [= <-]. apply find_first_Some in E as (x&->&_). by eexists.
  - intros (x&->&_)%find_last_Some. by eexists.
Qed.

(** ** Arrival in the whole table *)

Definition conns (w : world) : list conn := abs <$> w_tcp w.

Lemma conns_lookup w i pcb : w_tcp w !! i = Some pcb → conns w !! i = Some (abs pcb).
Proof. intros E. unfold conns. by rewrite list_lookup_fmap, E. Qed.

Section Table.
Context `{Machine} `{EnvOk} `{!DeviceOps} `{!DeviceOpsOk}.

(** What an operation of TCP promises of the rest of the stack. *)
Definition tcp_keeps (w w' : world) : Prop :=
  tcp_inv w' ∧ tcp_frame w w' ∧ locked w' = locked w.

(** Running a program on one block. *)
Lemma pwp_run {A} i (m : C A) (P : A → tcp_pcb → Prop) pcb w :
  tcp_inv w → w_tcp w !! i = Some pcb → pwp i w m (lands (locked w) P) pcb (locked w) →
  wp m (λ a w', tcp_keeps w w' ∧ ∃ pcb', w_tcp w' = <[i := pcb']> (w_tcp w) ∧ P a pcb') w.
Proof.
  intros Hi Hl Hm. eapply wp_mono.
  - apply Hm; [done| |done]. split_and!; [by eapply lookup_lt_Some|done|].
    by rewrite list_insert_id.
  - intros a w' (pcb'&L'&Hi'&(_&Hf&E)&HL&(->&HP)). split; [by split_and!|]. by exists pcb'.
Qed.

(** Code between taking the TCP mutex and giving it back. *)
Definition tcp_locked (w : world) : world := lock_world (MutexTcp :: locked w) w.

Lemma tcp_locked_inv w : tcp_inv w → tcp_inv (tcp_locked w).
Proof.
  intros Hi. apply tcp_inv_relock; [|done]. intros m' [->|Hm']%elem_of_cons; auto.
Qed.

Lemma tcp_unlock_wp (R : list tcp_pcb → Prop) w w2 :
  MutexTcp ∉ locked w → tcp_keeps (tcp_locked w) w2 → R (w_tcp w2) →
  wp (mutex_unlock MutexTcp) (λ _ w', tcp_keeps w w' ∧ R (w_tcp w')) w2.
Proof.
  intros HL (Hi2&Hf2&Hlk) HR. unfold locked in Hlk. cbn in Hlk.
  wp_step; [rewrite Hlk; by left|]. split; [|done]. rewrite Hlk, filter_unlock by done. split_and!.
  - apply tcp_inv_relock; [|done]. intros m' Hm'. right. unfold locked. rewrite Hlk. by right.
  - etrans; [|destruct Hf2; by constructor]. done.
  - done.
Qed.

Lemma tcp_segment_arrives_wp seg flags data len local foreign w :
  seg_ok seg → endpoint_ok local → endpoint_ok foreign → bytes_ok data → 0 <= len <= zlen data →
  text_fits seg local foreign len (conns w) → tcp_inv w →
  wp (tcp_segment_arrives seg flags data len local foreign)
    (λ _ w', tcp_keeps w w' ∧
       conns_arrival seg flags (take (Z.to_nat len) data) local foreign (conns w) (conns w')) w.
Proof.
  intros Hseg Hl Hf Hok Hlen Hfit Hi. unfold tcp_segment_arrives, tcp_pcb_select, conns_arrival.
  do 2 wp_step. rewrite tcp_pcb_scan_abs. fold (conns w).
  destruct (conn_select local foreign (conns w)) as [i|] eqn:Esel.
  - destruct (conn_select_lookup _ _ _ _ Esel) as [c Hc]. pose proof Hc as Hc'.
    unfold conns in Hc'. rewrite list_lookup_fmap in Hc'. apply fmap_Some in Hc' as (pcb&Hp&->).
    eapply wp_mono; [eapply (pwp_run i); [done|exact Hp|apply arrives_pwp; try done]|].
    + by apply (Hfit i).
    + intros [] w' (Hk&pcb'&E&Ha). split; [done|]. exists (abs pcb), (abs pcb'). split_and!; [done| |done].
      unfold conns. by rewrite E, list_fmap_insert.
  - destruct (ti_wf _ Hi) as [Hlt _]. destruct (lookup_lt_is_Some_2 (w_tcp w) 0%nat) as [pcb Hp].
    { rewrite Hlt. unfold TCP_PCB_SIZE. lia. }
    eapply wp_mono; [by eapply (pwp_run 0%nat); [done|exact Hp|apply no_connection_pwp]|].
    intros [] w' (Hk&pcb'&E&->). split; [done|]. unfold conns. by rewrite E, list_insert_id.
Qed.

Lemma tcp_doff_nonneg h : is_u8 (th_off h) → 0 <= tcp_doff h.
Proof. intros Hu. unfold tcp_doff. apply Z.shiftl_nonneg, Z.shiftr_nonneg. ulia. Qed.

Lemma tcp_seg_info_ok h len hlen : tcp_hdr_ok h → seg_ok (tcp_seg_info h len hlen).
Proof.
  intros (_&_&Hs&Ha&_&_&Hw&_&_). unfold seg_ok, tcp_seg_info. cbn.
  split_and!; auto using hton32_range, hton16_range with stack.
  repeat case_match; auto with stack.
Qed.

Lemma tcp_input_wp data len src dst iface ifc w :
  bytes_ok data → 0 <= len <= zlen data → is_u16 len → is_u32 src → is_u32 dst →
  n_ifs (w_net w) !! iface = Some ifc → input_fits data len src dst ifc (conns w) →
  MutexTcp ∉ locked w → tcp_inv w →
  wp (tcp_input data len src dst iface)
    (λ _ w', tcp_keeps w w' ∧ conns_input data len src dst ifc (conns w) (conns w')) w.
Proof.
  intros Hok Hl Hu Hs Hd Hif Hfit HL Hi. unfold tcp_input, conns_input, input_fits, tcp_accepted in *.
  assert (tcp_keeps w w) as Hkw by by split_and!.
  rewrite Z.leb_antisym in *. destruct (Z.ltb_spec len TCP_HDR_SIZE); cbn [negb] in *; [by wp_step|].
  destruct (tcp_hdr_at_ok data) as (h&Eh&Hh); [lia|done|]. rewrite Eh in *. cbn [mbind option_bind] in *.
  unfold tcp_checksum_ok in *.
  destruct (pseudo_sum_total (tcp_pseudo src dst len)) as (psum&Ep&Hp); [done|done|].
  rewrite Ep in *. cbn [mbind option_bind] in *. destruct (cksum16 data len psum) as [sum|] eqn:Ec.
  2:{ rewrite cksum16_eq in Ec; (done || lia). }
  do 4 wp_step. rewrite Ec. do 2 wp_step. destruct (Z.eqb_spec sum 0) as [->|Hsum]; cbn [negb].
  2:{ wp_step. rewrite bool_decide_eq_false_2 by (by intros [= ]). done. }
  rewrite bool_decide_eq_true_2 in * by done. cbn [andb] in *. do 2 wp_step.
  fold (tcp_unicast src dst ifc).
  unfold tcp_unicast in *. destruct (_ || _); cbn [negb] in *; [by wp_step|].
  fold (tcp_doff h). destruct Hfit as [Hdoff Hfit].
  pose proof Hh as (Hps&Hpd&_&_&Ho&_). pose proof (tcp_doff_nonneg h Ho).
  rewrite u64_small by ulia.
  do 3 wp_step. fold (locked w) (tcp_locked w). eapply wp_mono.
  - apply tcp_segment_arrives_wp; try done.
    + by apply tcp_seg_info_ok.
    + by apply Forall_drop.
    + unfold zlen in *. rewrite length_drop. lia.
    + by apply tcp_locked_inv.
  - intros [] w2 (Hk&HR).
    by apply (tcp_unlock_wp (λ pcbs, conns_arrival _ _ _ _ _ (conns w) (abs <$> pcbs)) w w2).
Qed.
End Table.
