(* ===== verification/TcpOps.v ===== *)
(** * TCP: user commands, timer and events refine the abstract connection

    The other entry points of [src/src/tcp.c], each with the transition of
    [TcpConn] it makes. *)

From S2P Require Import Prelude Bytes Checksum Clock Text Addr Monad State Platform Queue Net.
From S2P Require Import Ether Device Sample Arp Ip Pseudo Udp Tcp TcpUser TcpLogic TcpConn TcpArrive.

(** ** The segment size of a route *)

Section Mss.
Context `{Machine}.

Definition route_mss (w : world) (dst : Z) : option Z :=
  route ← ip_route_select (i_routes (w_ip w)) dst;
  ifc ← n_ifs (w_net w) !! rt_iface route;
  d ← if_dev ifc;
  dev ← (dev_static <$> n_devs (w_net w)) !! d;
  Some (d_mtu dev - (IP_HDR_SIZE_MIN + TCP_HDR_SIZE)).

Lemma route_mss_frame w w' dst : tcp_frame w w' → route_mss w' dst = route_mss w dst.
Proof.
  intros [Hd Hn Hi _]. unfold route_mss. rewrite Hd.
  assert (n_ifs (w_net w') = n_ifs (w_net w)) as -> by (by injection Hn).
  assert (i_routes (w_ip w') = i_routes (w_ip w)) as -> by (by injection Hi). done.
Qed.

(** Every route leads to a device that takes more than the headers. *)
Definition mtu_ok (w : world) : Prop :=
  ∀ r ifc d dev, r ∈ i_routes (w_ip w) → n_ifs (w_net w) !! rt_iface r = Some ifc →
    if_dev ifc = Some d → (dev_static <$> n_devs (w_net w)) !! d = Some dev →
    IP_HDR_SIZE_MIN + TCP_HDR_SIZE < d_mtu dev.

Lemma mtu_ok_frame w w' : tcp_frame w w' → mtu_ok w → mtu_ok w'.
Proof.
  intros [Hd Hn Hi _ _ _]. unfold mtu_ok. rewrite Hd.
  assert (n_ifs (w_net w') = n_ifs (w_net w)) as -> by (by injection Hn).
  assert (i_routes (w_ip w') = i_routes (w_ip w)) as -> by (by injection Hi). done.
Qed.
End Mss.

Section Commands.
Context `{Machine} `{EnvOk} `{!DeviceOps} `{!DeviceOpsOk} {i : nat} {w0 : world}.

(** ** Waiting *)

Lemma pwp_sleep Q pcb L :
  MutexTcp ∉ L → (sc_interrupted (tp_ctx pcb) ≠ 0 → Q true pcb (MutexTcp :: L)) →
  (∀ ctx, Q false (set_tp_ctx ctx pcb) L) →
  pwp i w0 (tcp_sleep i) Q pcb (MutexTcp :: L).
Proof.
  intros HL Ht Hf. unfold tcp_sleep. apply pwp_ok. intros Hp. do 2 pwp_step.
  unfold sched_sleep_enter, nz. destruct (Z.eqb_spec (sc_interrupted (tp_ctx pcb)) 0); cbn [negb].
  2:{ pwp_step. auto. }
  pwp_step. apply pwp_put; [by destruct Hp|]. repeat pwp_step. apply Hf.
Qed.

Lemma pwp_awake err Q pcb L :
  MutexTcp ∉ L → (∀ r ctx, Q r (set_tp_ctx ctx pcb) (MutexTcp :: L)) →
  pwp i w0 (tcp_awake i err) Q pcb L.
Proof.
  intros HL HQ. unfold tcp_awake. apply pwp_ok. intros Hp. do 4 pwp_step.
  destruct (sched_sleep_leave err (tp_ctx pcb)) as [r ctx].
  pwp_step. apply pwp_put; [by destruct Hp|]. pwp_step. apply HQ.
Qed.

Lemma pwp_abandon {K} Q pcb L :
  MutexTcp ∉ L → Q (Returned (-1)) tcp_pcb_zero L →
  pwp i w0 (tcp_abandon (K := K) i) Q pcb (MutexTcp :: L).
Proof. intros. unfold tcp_abandon. by repeat pwp_step. Qed.

(** ** Open *)

Lemma open_sleep_pwp state P pcb L :
  MutexTcp ∉ L → (sc_interrupted (tp_ctx pcb) ≠ 0 → P (Returned (-1)) conn_free) →
  P (Blocked (i, state)) (abs pcb) →
  pwp i w0 (tcp_open_sleep i state) (lands L (λ r p, P r (abs p))) pcb (MutexTcp :: L).
Proof.
  intros HL Hfail Hblock. unfold tcp_open_sleep. pwp_step. apply pwp_sleep; [done| |].
  - intros Hint. apply pwp_abandon; [done|]. split; [done|auto].
  - intros ctx. by pwp_step.
Qed.

Lemma open_wake_pwp err state pcb L :
  MutexTcp ∉ L →
  pwp i w0 (tcp_open_wake err (i, state))
    (lands L (λ r p, conn_open_wake i state (abs pcb) r (abs p))) pcb L.
Proof.
  intros HL. unfold tcp_open_wake. pwp_step. apply pwp_awake; [done|]. intros r ctx.
  pose proof (open_fails i state (abs pcb)) as Hfail.
  destruct (r =? -1); [by apply pwp_abandon|]. unfold tcp_open_loop. do 2 pwp_step.
  change (tp_state (set_tp_ctx ctx pcb)) with (c_state (abs pcb)).
  destruct (Z.eqb_spec (c_state (abs pcb)) state) as [E|N].
  { apply open_sleep_pwp; [done|done|]. by apply open_waits. }
  destruct (Z.eqb_spec (c_state (abs pcb)) TCP_PCB_STATE_ESTABLISHED) as [E|N']; cbn [negb].
  { repeat pwp_step. split; [done|]. apply open_established; [done|]. intros ->. by apply N. }
  destruct (Z.eqb_spec (c_state (abs pcb)) TCP_PCB_STATE_SYN_RECEIVED) as [E|].
  - apply open_sleep_pwp; [done|done|]. by apply open_syn_received.
  - by apply pwp_abandon.
Qed.

Lemma abs_active local foreign iss pcb :
  tcp_buffered (tp_state pcb) = false →
  abs (set_tp_iss iss (set_rcv_wnd TCP_BUFSIZ (set_tp_foreign foreign (set_tp_local local pcb))))
  = set_c_local local (set_c_foreign foreign (set_c_iss iss (abs pcb))).
Proof. intros E. unfold abs, set_c_local. cbn. by rewrite E. Qed.

Lemma abs_syn_sent pcb :
  rcv_wnd pcb = TCP_BUFSIZ → tcp_buffered (tp_state pcb) = false →
  abs (set_tp_state TCP_PCB_STATE_SYN_SENT (set_snd_nxt (u32 (tp_iss pcb + 1))
    (set_snd_una (tp_iss pcb) pcb))) = conn_syn_sent (abs pcb).
Proof. intros Hw E. unfold abs, conn_syn_sent, tcp_unread. cbn. by rewrite E, Hw. Qed.

Lemma open_active_pwp local foreign c pcb L :
  MutexTcp ∉ L → endpoint_ok local → endpoint_ok foreign →
  abs pcb = set_c_state TCP_PCB_STATE_CLOSED c →
  pwp i w0 (tcp_open_active i local foreign)
    (lands L (λ r p, conn_open i local (Some foreign) c true r (abs p))) pcb (MutexTcp :: L).
Proof.
  intros HL Hl Hf Hc. unfold tcp_open_active. do 7 pwp_step.
  assert (tp_state pcb = TCP_PCB_STATE_CLOSED) as Hst by exact (f_equal c_state Hc).
  apply pwp_output; [done|by apply Forall_nil_2|done|done|]. intros r queue _ Hq.
  apply tcp_queued_abs in Hq; [|done]. rewrite (u32_small iss) in * by ulia.
  set (p1 := set_tp_iss _ _) in *.
  assert (tcp_buffered (tp_state (set_tp_queue queue p1)) = false) as Hb
    by (change (tp_state (set_tp_queue queue p1)) with (tp_state pcb); by rewrite Hst).
  unfold p1 at 1 in Hq. rewrite abs_active, Hc in Hq by (by rewrite Hst).
  pose proof (open_active_fails i local (Some foreign) c) as Hfail.
  destruct (r =? -1); [by apply pwp_abandon|].
  do 2 pwp_step. set (p2 := set_tp_state _ _).
  assert (abs p2 = conn_syn_sent (abs (set_tp_queue queue p1))) as E2 by (by apply abs_syn_sent).
  clearbody p2. apply open_sleep_pwp; [done|done|]. rewrite E2.
  by apply (open_active i local (Some foreign) c foreign iss).
Qed.

Lemma open_passive_pwp local foreign c pcb L :
  MutexTcp ∉ L → endpoint_ok local → (∀ f, foreign = Some f → endpoint_ok f) →
  sc_interrupted (tp_ctx pcb) = 0 → abs pcb = set_c_state TCP_PCB_STATE_CLOSED c →
  pwp i w0 (tcp_open_passive i local foreign)
    (lands L (λ r p, conn_open i local foreign c false r (abs p))) pcb (MutexTcp :: L).
Proof.
  intros HL Hl Hf Hctx Hc. unfold tcp_open_passive.
  assert (tp_state pcb = TCP_PCB_STATE_CLOSED) as Hst by exact (f_equal c_state Hc).
  assert (∀ p, tp_ctx p = tp_ctx pcb →
    abs p = set_c_local local (set_c_foreign (default (c_foreign c) foreign) (abs pcb)) →
    pwp i w0 (upd_tcp i (set_tp_state TCP_PCB_STATE_LISTEN);; tcp_open_sleep i TCP_PCB_STATE_LISTEN)
      (lands L (λ r p, conn_open i local foreign c false r (abs p))) p (MutexTcp :: L)) as Hrest.
  { intros p Ep Ea. do 2 pwp_step. apply open_sleep_pwp; [done|by cbn; rewrite Ep|].
    rewrite abs_state, Ea, Hc; [apply open_passive|].
    change (tp_state p) with (c_state (abs p)). by rewrite Ea, Hc. }
  do 3 pwp_step. destruct foreign as [f|]; pwp_step.
  - apply Hrest; done.
  - apply Hrest; [done|]. change (default (c_foreign c) None) with (c_foreign (set_c_state TCP_PCB_STATE_CLOSED c)).
    by rewrite <- Hc.
Qed.

(** ** Close *)

Lemma close_fin_pwp state pcb L :
  MutexTcp ∉ L → conn_close_state (c_state (abs pcb)) = Some state →
  pwp i w0 (tcp_close_fin i state) (lands L (λ r p, conn_close (abs pcb) r (abs p)))
    pcb (MutexTcp :: L).
Proof.
  intros HL Hst. unfold tcp_close_fin. pwp_step.
  apply pwp_output; [done|by apply Forall_nil_2|done|done|]. intros r queue _ Hq.
  apply tcp_queued_abs in Hq; [|done]. set (p1 := set_tp_queue queue pcb) in *.
  assert ((state = TCP_PCB_STATE_FIN_WAIT1 ∨ state = TCP_PCB_STATE_LAST_ACK)
          ∧ tcp_buffered (tp_state p1) = true) as [Hs Hb].
  { change (tp_state p1) with (c_state (abs pcb)). unfold conn_close_state in Hst.
    destruct (Z.eqb_spec (c_state (abs pcb)) TCP_PCB_STATE_ESTABLISHED) as [->|];
      [injection Hst as <-; auto|].
    destruct (Z.eqb_spec (c_state (abs pcb)) TCP_PCB_STATE_CLOSE_WAIT) as [->|];
      [injection Hst as <-; auto|done]. }
  pwp_step. apply pwp_update; [destruct Hs as [-> | ->]; pcb_ok|]. do 3 pwp_step.
  match goal with |- context [tp_state ?p =? _] => change (tp_state p) with state end.
  replace (state =? TCP_PCB_STATE_CLOSED) with false by (by destruct Hs as [-> | ->]).
  repeat pwp_step. split; [done|]. cbv beta.
  pose proof (close_fin (abs pcb) state _ Hst Hq) as Hc.
  replace (abs (set_tp_ctx _ _)) with (set_c_state state (set_c_nxt (u32 (c_nxt (abs p1) + 1)) (abs p1)));
    [done|]. symmetry. refine (abs_state state (set_snd_nxt (u32 (snd_nxt p1 + 1)) p1) _).
  change (tp_state (set_snd_nxt _ p1)) with (tp_state p1). rewrite Hb. by destruct Hs as [-> | ->].
Qed.

Lemma close_pwp pcb L :
  MutexTcp ∉ L →
  pwp i w0
    (pcb <- get_tcp i;;
      if tp_state pcb =? TCP_PCB_STATE_ESTABLISHED then tcp_close_fin i TCP_PCB_STATE_FIN_WAIT1
      else if tp_state pcb =? TCP_PCB_STATE_CLOSE_WAIT then tcp_close_fin i TCP_PCB_STATE_LAST_ACK
      else mutex_unlock MutexTcp;; ret (-1))
    (lands L (λ r p, conn_close (abs pcb) r (abs p))) pcb (MutexTcp :: L).
Proof.
  intros HL. do 2 pwp_step. change (tp_state pcb) with (c_state (abs pcb)).
  pose proof (close_fin_pwp TCP_PCB_STATE_FIN_WAIT1 pcb L HL) as H1'.
  pose proof (close_fin_pwp TCP_PCB_STATE_LAST_ACK pcb L HL) as H2'.
  pose proof (close_fails (abs pcb)) as H3'. unfold conn_close_state in *.
  destruct (_ =? TCP_PCB_STATE_ESTABLISHED); [by apply H1'|].
  destruct (_ =? TCP_PCB_STATE_CLOSE_WAIT); [by apply H2'|].
  repeat pwp_step. split; [done|]. by apply H3'.
Qed.

(** ** Send *)

Lemma send_loop_pwp fuel mss data len sent pcb L :
  MutexTcp ∉ L → bytes_ok data → len <= zlen data → 0 <= sent → (Z.to_nat (len - sent) <= fuel)%nat →
  0 < mss <= TCP_TEXT_MAX →
  pwp i w0 (tcp_send_loop fuel i mss data len sent)
    (lands L (λ r p, conn_send i mss data len sent (abs pcb) r (abs p))) pcb (MutexTcp :: L).
Proof.
  intros HL Hok Hl Hs Hfuel Hmss. revert sent pcb Hs Hfuel.
  induction fuel as [|fuel IH]; intros sent pcb Hs Hfuel; cbn [tcp_send_loop];
    (destruct (Z.ltb_spec sent len) as [Hlt|Hge];
     [|repeat pwp_step; split; [done|]; by apply send_done]); [lia|].
  do 2 pwp_step. change (tcp_send_cap pcb) with (conn_cap (abs pcb)). unfold nz.
  destruct (Z.eqb_spec (conn_cap (abs pcb)) 0) as [Ec|Nc]; cbn [negb].
  { pwp_step. apply pwp_sleep; [done| |].
    - intros _. repeat pwp_step. split; [done|]. rewrite negb_involutive. by apply send_interrupted.
    - intros ctx. pwp_step. split; [done|]. by apply send_blocks. }
  assert (0 <= conn_cap (abs pcb)) as Hcap by apply u32_range.
  cbv zeta. set (slen := Z.min (Z.min mss (len - sent)) (conn_cap (abs pcb))).
  assert (0 < slen <= len - sent ∧ slen <= mss) as [Hsl Hsm] by lia.
  pwp_step. apply pwp_output; [done|by apply Forall_drop| |lia|].
  { unfold zlen in *. rewrite length_drop. lia. }
  intros r queue _ Hq. apply tcp_queued_abs in Hq.
  2:{ unfold zlen in *. rewrite length_drop. lia. }
  destruct (r =? -1).
  - apply pwp_abandon; [done|]. split; [done|]. by apply send_fails.
  - do 2 pwp_step. eapply pwp_mono; [apply IH; lia|]. intros r' p l (->&Hr). split; [done|].
    by eapply send_segment.
Qed.

Lemma send_retry_pwp data len sent pcb L :
  MutexTcp ∉ L → mtu_ok w0 → bytes_ok data → len <= zlen data → 0 <= sent →
  pwp i w0 (tcp_send_retry i data len sent)
    (lands L (λ r p, conn_send_retry i (route_mss w0 (ep_addr (c_foreign (abs pcb)))) data len sent
                       (abs pcb) r (abs p))) pcb (MutexTcp :: L).
Proof.
  intros HL Hmtu Hok Hl Hs. unfold tcp_send_retry. do 2 pwp_step.
  change (_ || _) with (conn_can_send (abs pcb)). destruct (conn_can_send (abs pcb)) eqn:Ecan.
  2:{ repeat pwp_step. split; [done|]. by apply send_refused. }
  change (tp_foreign pcb) with (c_foreign (abs pcb)). set (dst := ep_addr _).
  intros w Hi Ht HL'. pose proof Ht as (_&Hf&_). rewrite <- (route_mss_frame _ _ _ Hf).
  apply (mtu_ok_frame _ _ Hf) in Hmtu.
  unfold ip_route_get_iface, ip_route_lookup. do 3 wp_step.
  pose proof (ip_route_select_best (i_routes (w_ip w)) dst) as Hbest. unfold route_mss.
  destruct (ip_route_select _ dst) as [r|]; cbn [mbind option_bind]; wp_step; cbn [fmap option_fmap option_map].
  2:{ assert (pwp i w0 (mutex_unlock MutexTcp;; ret (Returned (K := tcp_sending) (-1)))
        (lands L (λ r p, r = Returned (-1) ∧ p = pcb)) pcb (MutexTcp :: L)) as Hfail
        by (by repeat pwp_step).
      eapply wp_mono; [by apply Hfail|].
      intros r w' (p&L'&Hi'&Ht'&HL1&->&->&->). exists pcb, L. split_and!; try done.
      split; [done|]. by apply send_no_route. }
  destruct Hbest as (k&Hk&_). pose proof (iw_routes _ (ti_ip _ Hi)) as Hroutes.
  rewrite Forall_lookup in Hroutes.
  destruct (Hroutes k r Hk) as [(ifc&d&dev&Hifc&Hd&Hdev&Hdwf&_) _].
  do 2 wp_step. rewrite Hifc. cbn [mbind option_bind]. rewrite Hd. do 4 wp_step.
  cbn [mbind option_bind]. rewrite list_lookup_fmap, Hdev. cbn [fmap option_fmap option_map mbind option_bind].
  change (d_mtu (dev_static dev)) with (d_mtu dev).
  assert (IP_HDR_SIZE_MIN + TCP_HDR_SIZE < d_mtu dev <= 65535) as Hm.
  { split; [|destruct Hdwf as (_&_&_&_&_&?&_); ulia].
    apply list_elem_of_lookup_2 in Hk. apply (Hmtu r ifc d (dev_static dev) Hk Hifc Hd).
    by rewrite list_lookup_fmap, Hdev. }
  unfold IP_HDR_SIZE_MIN, TCP_HDR_SIZE in *. rewrite u64_small by ulia.
  eapply wp_mono; [apply send_loop_pwp; try done; change TCP_TEXT_MAX with 65495; lia|].
  intros r' w' (p&L'&Hi'&Ht'&HL1&->&Hr). exists p, L. split_and!; try done.
  split; [done|]. by eapply send_tries.
Qed.

(** ** Receive *)

Lemma tcp_buf_shift_spec buf len remain :
  0 <= len <= remain → remain <= zlen buf →
  tcp_buf_shift buf len remain
  = Some (take (Z.to_nat (remain - len)) (drop (Z.to_nat len) buf)
          ++ drop (Z.to_nat (remain - len)) buf).
Proof.
  intros Hl Hr. unfold tcp_buf_shift. rewrite slice_spec by lia. cbn [mbind option_bind].
  rewrite memcpy_spec; try lia.
  - cbn [Z.to_nat take app]. rewrite Z.add_0_l. by rewrite take_take, Nat.min_id.
  - unfold zlen in *. rewrite length_take, length_drop. lia.
Qed.

Lemma receive_copy_pwp size pcb L :
  MutexTcp ∉ L → 0 <= size → tcp_buffered (tp_state pcb) = true →
  pwp i w0 (tcp_receive_copy i size (TCP_BUFSIZ - rcv_wnd pcb))
    (lands L (λ r p, let out := take (Z.to_nat size) (c_unread (abs pcb)) in
       r = Returned (zlen out, out)
       ∧ abs p = set_c_unread (drop (Z.to_nat size) (c_unread (abs pcb))) (abs pcb)
       ∧ tp_ctx p = tp_ctx pcb))
    pcb (MutexTcp :: L).
Proof.
  intros HL Hsz Hb. unfold tcp_receive_copy. apply pwp_ok. intros Hp.
  pose proof (tpo_rcv _ Hp) as (_&Hw). pose proof (tpo_buf _ Hp) as (Hz&Hbo).
  set (remain := TCP_BUFSIZ - rcv_wnd pcb). set (len := Z.min size remain).
  assert (0 <= len <= remain ∧ remain <= zlen (tp_buf pcb)) as [Hl Hr]
    by (unfold len, remain, TCP_BUFSIZ in *; ulia).
  do 3 pwp_step. eapply pwp_expect; [apply slice_spec; unfold zlen in *; lia|].
  pwp_step. eapply pwp_expect; [by apply tcp_buf_shift_spec|]. pwp_step.
  apply pwp_put.
  { pcb_fields Hp.
    - unfold zlen in *. rewrite length_app, length_take, !length_drop. lia.
    - apply Forall_app_2; [by apply Forall_take, Forall_drop|by apply Forall_drop]. }
  assert (c_unread (abs pcb) = take (Z.to_nat remain) (tp_buf pcb)) as Eu.
  { unfold remain. cbn. by rewrite Hb. }
  assert (take (Z.to_nat size) (c_unread (abs pcb)) = take (Z.to_nat len) (tp_buf pcb)) as Eo.
  { rewrite Eu, take_take. f_equal. unfold len. lia. }
  repeat pwp_step. split; [done|]. cbv beta zeta. rewrite Eo. split_and!; [| |done].
  - change (drop (Z.to_nat 0) (tp_buf pcb)) with (tp_buf pcb). do 2 f_equal.
    unfold zlen in *. rewrite length_take. lia.
  - unfold abs at 1, set_c_unread, tcp_unread. cbn [tp_state set_rcv_wnd set_tp_buf].
    cbn. rewrite Hb. f_equal. fold (abs pcb). rewrite u16_small by (unfold remain, TCP_BUFSIZ in *; ulia).
    replace (TCP_BUFSIZ - (rcv_wnd pcb + len)) with (remain - len) by (unfold remain; lia).
    rewrite take_app_le by (unfold zlen in *; rewrite length_take, length_drop; lia).
    rewrite take_take, Nat.min_id. fold (tcp_unread pcb). unfold tcp_unread. fold remain.
    rewrite take_drop_commute.
    replace (Z.to_nat len + Z.to_nat (remain - len))%nat with (Z.to_nat remain) by lia.
    destruct (Z.le_ge_cases size remain) as [Hle|Hge].
    + by replace len with size by (unfold len; lia).
    + rewrite !drop_ge; [done| |]; rewrite length_take; unfold len; lia.
Qed.

Lemma receive_retry_pwp size pcb L :
  MutexTcp ∉ L → 0 <= size →
  pwp i w0 (tcp_receive_retry i size)
    (lands L (λ r p, conn_receive i size (abs pcb) r (abs p))) pcb (MutexTcp :: L).
Proof.
  intros HL Hsz. unfold tcp_receive_retry. apply pwp_ok. intros Hp. do 2 pwp_step. cbv zeta.
  change (tp_state pcb) with (c_state (abs pcb)).
  pose proof (zlen_tcp_unread pcb Hp) as Hz.
  assert (tcp_buffered (c_state (abs pcb)) = true → c_unread (abs pcb) = tcp_unread pcb) as Hu.
  { intros E. change (c_state (abs pcb)) with (tp_state pcb) in E. cbn. by rewrite E. }
  assert (c_state (abs pcb) = TCP_PCB_STATE_ESTABLISHED ∨ c_state (abs pcb) = TCP_PCB_STATE_CLOSE_WAIT →
    TCP_BUFSIZ - rcv_wnd pcb ≠ 0 →
    pwp i w0 (tcp_receive_copy i size (TCP_BUFSIZ - rcv_wnd pcb))
      (lands L (λ r p, conn_receive i size (abs pcb) r (abs p))) pcb (MutexTcp :: L)) as Hcopy.
  { intros Hst Hne. assert (tcp_buffered (c_state (abs pcb)) = true) as Hb
      by (by destruct Hst as [-> | ->]).
    eapply pwp_mono; [by apply receive_copy_pwp|]. intros r p l (->&Hr&Ep&_). split; [done|].
    rewrite Hr, Ep. apply receive_text.
    - unfold conn_can_receive. by destruct Hst as [-> | ->].
    - rewrite Hu by done. intros E. rewrite E in Hz. change (zlen []) with 0 in Hz. lia. }
  unfold nz. destruct (Z.eqb_spec (c_state (abs pcb)) TCP_PCB_STATE_ESTABLISHED) as [Hst|N1].
  { destruct (Z.eqb_spec (TCP_BUFSIZ - rcv_wnd pcb) 0) as [E0|]; cbn [negb]; [|auto].
    assert (c_unread (abs pcb) = []) as E.
    { rewrite Hu by (by rewrite Hst). apply nil_length_inv. unfold zlen in Hz. lia. }
    pwp_step. apply pwp_sleep; [done| |].
    - intros _. repeat pwp_step. split; [done|]. by apply receive_interrupted.
    - intros ctx. pwp_step. split; [done|]. by apply receive_blocks. }
  destruct (Z.eqb_spec (c_state (abs pcb)) TCP_PCB_STATE_CLOSE_WAIT) as [Hst|N2].
  { destruct (Z.eqb_spec (TCP_BUFSIZ - rcv_wnd pcb) 0) as [E0|]; cbn [negb]; [|auto].
    repeat pwp_step. split; [done|]. apply receive_eof; [done|].
    rewrite Hu by (by rewrite Hst). apply nil_length_inv. unfold zlen in Hz. lia. }
  repeat pwp_step. split; [done|]. apply receive_fails. unfold conn_can_receive.
  by rewrite (proj2 (Z.eqb_neq _ _) N1), (proj2 (Z.eqb_neq _ _) N2).
Qed.

(** ** Retransmission *)

Lemma pwp_for_each {B} (l : list B) (f : B → C unit) (I : tcp_pcb → Prop) pcb L :
  (∀ x p, x ∈ l → I p → pwp i w0 (f x) (lands L (λ _ p', I p')) p L) → I pcb →
  pwp i w0 (for_each l f) (lands L (λ _ p, I p)) pcb L.
Proof.
  revert pcb. induction l as [|x l IH]; intros pcb Hf HI; cbn; [by pwp_step|].
  pwp_step. eapply pwp_mono; [apply Hf; [by left|done]|]. intros [] p l' (->&HI').
  apply IH; [|done]. intros y p' Hy. apply Hf. by right.
Qed.

Lemma abs_expired pcb : abs (set_tp_state TCP_PCB_STATE_CLOSED pcb) = conn_expired (abs pcb).
Proof. done. Qed.

Lemma emit_pwp k pcb L :
  tp_state pcb ≠ TCP_PCB_STATE_FREE → (k < length (tp_queue pcb))%nat →
  pwp i w0 (tcp_retransmit_queue_emit i k)
    (lands L (λ _ p, length (tp_queue p) = length (tp_queue pcb) ∧ conn_timer (abs pcb) (abs p)))
    pcb L.
Proof.
  intros Hst Hk. unfold tcp_retransmit_queue_emit. apply pwp_ok. intros Hp.
  destruct (lookup_lt_is_Some_2 _ _ Hk) as [e He].
  pose proof (tpo_queue _ Hp) as Hq. rewrite Forall_lookup in Hq.
  pose proof (Hq _ _ He) as (Hf&Hla&Hr&Hs&Hg&Hl&Hz&Hd&Hb).
  do 3 pwp_step. eapply pwp_expect; [done|]. pwp_step. apply pwp_env_call. intros n. cbv zeta.
  destruct (Z.geb_spec (tv_sec (timersub (env_gettimeofday n) (tqe_first e))) TCP_RETRANSMIT_DEADLINE)
    as [_|Hdead].
  { repeat pwp_step. split_and!; [done..|]. right. split_and!; [done| |done].
    cbn. intros E. apply (f_equal length) in E. rewrite length_fmap in E. cbn in E. lia. }
  destruct (timercmp _ _ _) eqn:Hcmp; [|pwp_step; split_and!; [done..|]; by left].
  pwp_step. apply pwp_output_segment; [done|done|lia|lia|by destruct Hp|]. intros r _.
  apply pwp_upd.
  - apply tcp_pcb_ok_queue; [done|]. apply Forall_insert; [by destruct Hp|].
    split_and!; cbn; try done; try lia; auto with stack; [apply env_time_ok|].
    apply tcp_backoff_again; (done || apply env_time_ok).
  - split_and!; [done|cbn; by rewrite length_insert|]. left. unfold abs. cbn. f_equal.
    rewrite list_fmap_insert, list_insert_id; [done|]. rewrite list_lookup_fmap, He. done.
Qed.

Lemma timer_pwp pcb L :
  pwp i w0 (tcp_timer_pcb i) (lands L (λ _ p, conn_timer (abs pcb) (abs p))) pcb L.
Proof.
  unfold tcp_timer_pcb. do 2 pwp_step.
  destruct (Z.eqb_spec (tp_state pcb) TCP_PCB_STATE_FREE) as [|Hst].
  { pwp_step. split; [done|]. by left. }
  eapply pwp_mono.
  - apply (pwp_for_each _ _ (λ p, tp_state p ≠ TCP_PCB_STATE_FREE
      ∧ length (tp_queue p) = length (tp_queue pcb) ∧ conn_timer (abs pcb) (abs p))); [|done].
    intros k p Hk (Hp&Hl&Ht). eapply pwp_mono; [apply emit_pwp; [done|]|].
    { rewrite Hl. apply elem_of_seq in Hk. lia. }
    intros [] p' l (->&Hl'&Ht'). split_and!; [done| |congruence|by etrans].
    change (tp_state p') with (c_state (abs p')). by destruct Ht' as [-> | (_&_&->)].
  - intros [] p l (->&_&_&Ht). done.
Qed.
End Commands.


(** ** From one block to the table *)

Lemma Forall2_insert_one {A} (R : A → A → Prop) `{!Reflexive R} l i x y :
  l !! i = Some x → R x y → Forall2 R l (<[i := y]> l).
Proof.
  intros Hx HR. apply Forall2_same_length_lookup_2; [by rewrite length_insert|].
  intros j a b Ha Hb. destruct (decide (j = i)) as [->|Hne].
  - rewrite list_lookup_insert_eq in Hb by (by eapply lookup_lt_Some). by simplify_eq.
  - rewrite list_lookup_insert_ne in Hb by done. by simplify_eq.
Qed.

Lemma list_find_first (P : tcp_pcb → Prop) `{∀ x, Decision (P x)} (f : conn → bool) pcbs :
  (∀ pcb, f (abs pcb) = bool_decide (P pcb)) →
  find_first f (abs <$> pcbs) = fst <$> list_find P pcbs.
Proof.
  intros E. induction pcbs as [|pcb pcbs IH]; [done|]. cbn [fmap list_fmap find_first list_find].
  rewrite E. destruct (decide (P pcb)) as [Hp|Hp].
  - by rewrite bool_decide_eq_true_2.
  - rewrite bool_decide_eq_false_2 by done. rewrite IH. by destruct (list_find P pcbs) as [[]|].
Qed.

Section Entry.
Context `{Machine} `{EnvOk} `{!DeviceOps} `{!DeviceOpsOk}.

(** An operation that moves connection [i] and gives back the mutex. *)
Lemma pwp_conns {A} i (m : C A) (P : A → conn → Prop) pcb w :
  tcp_inv w → w_tcp w !! i = Some pcb →
  pwp i w m (lands (locked w) (λ a p, P a (abs p))) pcb (locked w) →
  wp m (λ a w', tcp_keeps w w' ∧ ∃ c', conns w' = <[i := c']> (conns w) ∧ P a c') w.
Proof.
  intros Hi Hp Hm. eapply wp_mono; [by eapply pwp_run|].
  intros a w' (Hk&pcb'&E&HP). split; [done|]. exists (abs pcb'). split; [|done].
  unfold conns. by rewrite E, list_fmap_insert.
Qed.

(** An operation that leaves the connections alone. *)
Lemma pwp_same {A} (m : C A) (P : A → Prop) w :
  tcp_inv w →
  (∀ pcb, w_tcp w !! 0%nat = Some pcb →
     pwp 0 w m (lands (locked w) (λ a p, p = pcb ∧ P a)) pcb (locked w)) →
  wp m (λ a w', tcp_keeps w w' ∧ conns w' = conns w ∧ P a) w.
Proof.
  intros Hi Hm. destruct (ti_wf _ Hi) as [Hl _].
  destruct (lookup_lt_is_Some_2 (w_tcp w) 0%nat) as [pcb Hp]; [rewrite Hl; unfold TCP_PCB_SIZE; lia|].
  eapply wp_mono; [by eapply pwp_run; [|exact Hp|by apply Hm]|].
  intros a w' (Hk&pcb'&E&->&HP). split_and!; [done| |done]. unfold conns.
  by rewrite E, list_insert_id.
Qed.

Lemma tcp_open_wp local foreign active w :
  MutexTcp ∉ locked w → tcp_inv w → endpoint_ok local →
  (∀ f, foreign = Some f → endpoint_ok f) → (active = true → foreign ≠ None) →
  wp (tcp_open_rfc793 local foreign active)
    (λ r w', tcp_keeps w w' ∧ conns_open local foreign active (conns w) r (conns w')) w.
Proof.
  intros HL Hi Hl Hf Hact. unfold conns_open.
  unfold conns at 1. rewrite (list_find_first (λ pcb, tp_state pcb = TCP_PCB_STATE_FREE)).
  2:{ intros pcb. change (c_state (abs pcb)) with (tp_state pcb). by case_bool_decide; bool_to_prop. }
  destruct (list_find _ (w_tcp w)) as [[i pcb]|] eqn:Efind; cbn [fmap option_fmap option_map fst].
  - pose proof Efind as (Hp&Hst&_)%list_find_Some.
    eapply wp_mono.
    + apply (pwp_conns i _ (conn_open i local foreign (abs pcb) active) pcb); [done|done|].
      unfold tcp_open_rfc793. apply pwp_ok. intros Hok. do 3 pwp_step. unfold tcp_pcb_alloc. pwp_step.
      apply (pwp_gets (λ l, l)). rewrite list_insert_id by done. rewrite Efind. pwp_step.
      apply pwp_put; [pcb_fields Hok|]. pwp_step. set (p1 := set_tp_ctx _ _).
      assert (abs p1 = set_c_state TCP_PCB_STATE_CLOSED (abs pcb)) as E1
        by (apply abs_state; by rewrite Hst).
      destruct active.
      * destruct foreign as [f|]; [|by destruct Hact]. pwp_step. eapply pwp_expect; [done|].
        apply open_active_pwp; auto.
      * by apply open_passive_pwp.
    + intros r w' (Hk&c'&E&Ho). split; [done|]. exists (abs pcb), c'. split_and!; [|done|done].
      by apply conns_lookup.
  - eapply wp_mono; [apply (pwp_same _ (λ r, r = Returned (-1))); [done|]|].
    + intros pcb Hp. unfold tcp_open_rfc793, tcp_pcb_alloc. do 4 pwp_step.
      apply (pwp_gets (λ l, l)). rewrite list_insert_id by done. rewrite Efind. by repeat pwp_step.
    + intros r w' (Hk&E&->). by split_and!.
Qed.

(** An operation on the block of a descriptor. *)
Lemma at_wp {A} id (fail : A) (k : nat → C A) (step : nat → conn → A → conn → Prop) w :
  MutexTcp ∉ locked w → tcp_inv w →
  (∀ i pcb, w_tcp w !! i = Some pcb →
     pwp i w (k i) (lands (locked w) (λ a p, step i (abs pcb) a (abs p))) pcb
       (MutexTcp :: locked w)) →
  wp (mutex_lock MutexTcp;;
      o <- tcp_pcb_get id;;
      match o with
      | None => mutex_unlock MutexTcp;; ret fail
      | Some i => k i
      end)
    (λ r w', tcp_keeps w w' ∧ conns_at id fail step (conns w) r (conns w')) w.
Proof.
  intros HL Hi Hk. unfold conns_at, tcp_pcb_get.
  assert (∀ m : C (option nat),
    (∀ pcb, w_tcp w !! 0%nat = Some pcb →
       pwp 0 w m (lands (MutexTcp :: locked w) (λ o p, p = pcb ∧ o = None)) pcb (MutexTcp :: locked w)) →
    wp (mutex_lock MutexTcp;; o <- m;;
        match o with None => mutex_unlock MutexTcp;; ret fail | Some i => k i end)
      (λ r w', tcp_keeps w w' ∧ conns w' = conns w ∧ r = fail) w) as Hnone.
  { intros m Hm. apply (pwp_same _ (λ r, r = fail)); [done|]. intros pcb Hp. do 3 pwp_step.
    eapply pwp_mono; [by apply Hm|]. intros o p l (->&->&->). by repeat pwp_step. }
  destruct (Z.ltb_spec id 0) as [Hneg|Hpos]; cbn [orb].
  { eapply wp_mono; [apply Hnone; by intros; pwp_step|]. intros r w' (?&?&?). split; [done|].
    destruct (Z.leb_spec 0 id); [lia|]. cbn. by destruct (conns w !! _). }
  rewrite Z.geb_leb. destruct (Z.leb_spec TCP_PCB_SIZE id) as [Hbig|Hlt].
  { eapply wp_mono; [apply Hnone; by intros; pwp_step|]. intros r w' (?&?&?). split; [done|].
    destruct (Z.ltb_spec id TCP_PCB_SIZE); [lia|]. rewrite andb_false_r. cbn.
    by destruct (conns w !! _). }
  set (i := Z.to_nat id). destruct (ti_wf _ Hi) as [Hlen _].
  destruct (lookup_lt_is_Some_2 (w_tcp w) i) as [pcb Hp]; [rewrite Hlen; lia|].
  rewrite (conns_lookup _ _ _ Hp). destruct (Z.leb_spec 0 id); [|lia].
  destruct (Z.ltb_spec id TCP_PCB_SIZE); [|lia]. cbn [andb].
  change (c_state (abs pcb)) with (tp_state pcb).
  destruct (Z.eqb_spec (tp_state pcb) TCP_PCB_STATE_FREE) as [Hfree|Hused]; cbn [negb].
  - eapply wp_mono; [eapply (pwp_run i _ (λ r p, p = pcb ∧ r = fail)); [done|exact Hp|]|].
    + do 5 pwp_step. rewrite Hfree, Z.eqb_refl. by repeat pwp_step.
    + intros r w' (Hk'&p&E&->&->). split_and!; try done. unfold conns.
      by rewrite E, list_insert_id.
  - apply (pwp_conns i _ (step i (abs pcb)) pcb); [done|done|]. do 5 pwp_step.
    rewrite (proj2 (Z.eqb_neq _ _) Hused). pwp_step. by apply Hk.
Qed.

Lemma tcp_close_wp id w :
  MutexTcp ∉ locked w → tcp_inv w →
  wp (tcp_close id)
    (λ r w', tcp_keeps w w' ∧ conns_at id (-1) (λ _, conn_close) (conns w) r (conns w')) w.
Proof. intros HL Hi. apply at_wp; [done|done|]. intros i pcb Hp. by apply close_pwp. Qed.

Lemma tcp_send_wp id data len w :
  MutexTcp ∉ locked w → tcp_inv w → mtu_ok w → bytes_ok data → len <= zlen data →
  wp (tcp_send id data len)
    (λ r w', tcp_keeps w w' ∧ conns_at id (Returned (-1))
       (λ i c, conn_send_retry i (route_mss w (ep_addr (c_foreign c))) data len 0 c)
       (conns w) r (conns w')) w.
Proof. intros HL Hi Hm Hok Hl. apply at_wp; [done|done|]. intros i pcb Hp. by apply send_retry_pwp. Qed.

Lemma tcp_receive_wp id size w :
  MutexTcp ∉ locked w → tcp_inv w → 0 <= size →
  wp (tcp_receive id size)
    (λ r w', tcp_keeps w w' ∧ conns_at id (Returned (-1, [])) (λ i, conn_receive i size)
       (conns w) r (conns w')) w.
Proof. intros HL Hi Hsz. apply at_wp; [done|done|]. intros i pcb Hp. by apply receive_retry_pwp. Qed.

(** ** The end of a wait *)

Lemma tcp_open_wake_wp err i state pcb w :
  MutexTcp ∉ locked w → tcp_inv w → w_tcp w !! i = Some pcb →
  wp (tcp_open_wake err (i, state))
    (λ r w', tcp_keeps w w' ∧ ∃ c', conns w' = <[i := c']> (conns w)
       ∧ conn_open_wake i state (abs pcb) r c') w.
Proof. intros HL Hi Hp. eapply pwp_conns; [done|done|]. by apply open_wake_pwp. Qed.

Lemma tcp_send_wake_wp err i sent data len pcb w :
  MutexTcp ∉ locked w → tcp_inv w → mtu_ok w → bytes_ok data → len <= zlen data → 0 <= sent →
  w_tcp w !! i = Some pcb →
  wp (tcp_send_wake err (i, sent) data len)
    (λ r w', tcp_keeps w w' ∧ ∃ c', conns w' = <[i := c']> (conns w)
       ∧ conn_send_wake i (route_mss w (ep_addr (c_foreign (abs pcb)))) data len sent (abs pcb) r c') w.
Proof.
  intros HL Hi Hm Hok Hl Hs Hp. eapply pwp_conns; [done|done|]. unfold tcp_send_wake. pwp_step.
  apply pwp_awake; [done|]. intros r ctx. destruct (r =? -1).
  - repeat pwp_step. split; [done|]. unfold nz. rewrite negb_involutive. by left.
  - eapply pwp_mono; [by apply send_retry_pwp|]. intros r' p l (->&Hr). split; [done|]. by right.
Qed.

Lemma tcp_receive_wake_wp err i size pcb w :
  MutexTcp ∉ locked w → tcp_inv w → 0 <= size → w_tcp w !! i = Some pcb →
  wp (tcp_receive_wake err i size)
    (λ r w', tcp_keeps w w' ∧ ∃ c', conns w' = <[i := c']> (conns w)
       ∧ conn_receive_wake i size (abs pcb) r c') w.
Proof.
  intros HL Hi Hsz Hp. eapply pwp_conns; [done|done|]. unfold tcp_receive_wake. pwp_step.
  apply pwp_awake; [done|]. intros r ctx. destruct (r =? -1).
  - repeat pwp_step. split; [done|]. by left.
  - eapply pwp_mono; [by apply receive_retry_pwp|]. intros r' p l (->&Hr). split; [done|]. by right.
Qed.

(** ** Timer and events *)

Lemma tcp_keeps_trans w1 w2 w3 : tcp_keeps w1 w2 → tcp_keeps w2 w3 → tcp_keeps w1 w3.
Proof. intros (_&Hf&Hl) (Hi'&Hf'&Hl'). split_and!; [done|by etrans|congruence]. Qed.

(** A loop over the table whose round [i] works on block [i]. *)
Lemma for_pcbs_wp (f : nat → C unit) (R : conn → conn → Prop) `{!PreOrder R} (l : list nat) w :
  tcp_inv w → Forall (λ i, (i < length (w_tcp w))%nat) l →
  (∀ i pcb w0 L, pwp i w0 (f i) (lands L (λ _ p, R (abs pcb) (abs p))) pcb L) →
  wp (for_each l f) (λ _ w', tcp_keeps w w' ∧ Forall2 R (conns w) (conns w')) w.
Proof.
  intros Hi Hl Hf. revert w Hi Hl. induction l as [|i l IH]; intros w Hi Hl; cbn [for_each]; wp_step.
  { split; [by split_and!|done]. }
  apply Forall_cons in Hl as [Hlt Hl]. destruct (lookup_lt_is_Some_2 _ _ Hlt) as [pcb Hp].
  eapply wp_mono; [apply (pwp_conns i (f i) (λ _, R (abs pcb)) pcb); [done|done|apply Hf]|]. intros [] w1 (Hk1&c1&E1&HR).
  assert (length (w_tcp w1) = length (w_tcp w)) as El.
  { apply (f_equal length) in E1. unfold conns in E1. by rewrite length_insert, !length_fmap in E1. }
  eapply wp_mono; [apply IH; [apply Hk1|by rewrite El]|]. intros [] w2 (Hk2&HR2).
  split; [by eapply tcp_keeps_trans|]. etrans; [|done]. rewrite E1.
  by apply (Forall2_insert_one R _ _ (abs pcb)); [apply conns_lookup|].
Qed.

Lemma tcp_timer_wp w :
  MutexTcp ∉ locked w → tcp_inv w →
  wp tcp_timer (λ _ w', tcp_keeps w w' ∧ Forall2 conn_timer (conns w) (conns w')) w.
Proof.
  intros HL Hi. unfold tcp_timer. do 5 wp_step. fold (locked w) (tcp_locked w). eapply wp_mono.
  - apply (for_pcbs_wp _ conn_timer); [by apply tcp_locked_inv| |].
    + apply Forall_forall. intros i [_ Hin]%elem_of_seq. exact Hin.
    + intros. apply timer_pwp.
  - intros [] w2 (Hk&HR).
    by apply (tcp_unlock_wp (λ pcbs, Forall2 conn_timer (conns w) (abs <$> pcbs)) w w2).
Qed.

Lemma tcp_event_handler_wp w :
  MutexTcp ∉ locked w → tcp_inv w →
  wp tcp_event_handler (λ _ w', tcp_keeps w w' ∧ conns w' = conns w) w.
Proof.
  intros HL Hi. unfold tcp_event_handler. do 5 wp_step. fold (locked w) (tcp_locked w).
  eapply wp_mono.
  - apply (for_pcbs_wp _ eq); [by apply tcp_locked_inv| |].
    + apply Forall_forall. intros i [_ Hin]%elem_of_seq. exact Hin.
    + intros i pcb w0 L. apply pwp_ok. intros Hp. do 2 pwp_step. destruct (negb _); [|by pwp_step].
      by apply pwp_put; [destruct Hp|].
  - intros [] w2 (Hk&HR%list_eq_Forall2).
    by apply (tcp_unlock_wp (λ pcbs, abs <$> pcbs = conns w) w w2).
Qed.
End Entry.
