(* ===== verification/TcpProps.v ===== *)
(** * TCP: what the operations guarantee

    The operations of [src/src/tcp.c] as one transition system, its
    refinement of the abstract connections, and what follows for the
    users of a connection. *)

From S2P Require Import Prelude Bytes Checksum Clock Text Addr Monad State Platform Queue Net.
From S2P Require Import Ether Drivers Device Sample Arp Ip Pseudo Udp Tcp TcpUser TcpLogic TcpConn TcpArrive TcpOps.

(** ** The operations *)

(** Input from IP, the timer, the event handler, the user commands, and the
    end of the wait of each command that waits. *)
Inductive tcp_op :=
  | TcpInput (data : bytes) (len src dst : Z) (iface : nat)
  | TcpTimer
  | TcpEvent
  | TcpOpen (local : ip_endpoint) (foreign : option ip_endpoint) (active : bool)
  | TcpOpenWake (err : Z) (i : nat) (state : Z)
  | TcpClose (id : Z)
  | TcpSend (id : Z) (data : bytes) (len : Z)
  | TcpSendWake (err : Z) (i : nat) (sent : Z) (data : bytes) (len : Z)
  | TcpReceive (id size : Z)
  | TcpReceiveWake (err : Z) (i : nat) (size : Z).

Inductive tcp_result :=
  | ResNone
  | ResInt (r : Z)
  | ResWaits (r : waits (nat * Z) Z)
  | ResText (r : waits nat (Z * bytes)).

Section Operations.
Context `{Machine} `{EnvOk} `{!DeviceOps} `{!DeviceOpsOk}.

Definition tcp_run (op : tcp_op) : C tcp_result :=
  match op with
  | TcpInput data len src dst iface => tcp_input data len src dst iface;; ret ResNone
  | TcpTimer => tcp_timer;; ret ResNone
  | TcpEvent => tcp_event_handler;; ret ResNone
  | TcpOpen local foreign active => r <- tcp_open_rfc793 local foreign active;; ret (ResWaits r)
  | TcpOpenWake err i state => r <- tcp_open_wake err (i, state);; ret (ResWaits r)
  | TcpClose id => r <- tcp_close id;; ret (ResInt r)
  | TcpSend id data len => r <- tcp_send id data len;; ret (ResWaits r)
  | TcpSendWake err i sent data len => r <- tcp_send_wake err (i, sent) data len;; ret (ResWaits r)
  | TcpReceive id size => r <- tcp_receive id size;; ret (ResText r)
  | TcpReceiveWake err i size => r <- tcp_receive_wake err i size;; ret (ResText r)
  end.

(** What the caller has to provide.  A segment must not carry more text than
    the window it is for has room for; [tcp_input] does not check that. *)
Definition tcp_op_ok (w : world) (op : tcp_op) : Prop :=
  match op with
  | TcpInput data len src dst iface =>
      bytes_ok data ∧ 0 <= len <= zlen data ∧ is_u16 len ∧ is_u32 src ∧ is_u32 dst
      ∧ ∃ ifc, n_ifs (w_net w) !! iface = Some ifc ∧ input_fits data len src dst ifc (conns w)
  | TcpTimer | TcpEvent | TcpClose _ => True
  | TcpOpen local foreign active =>
      endpoint_ok local ∧ (∀ f, foreign = Some f → endpoint_ok f) ∧ (active = true → foreign ≠ None)
  | TcpOpenWake _ i _ => (i < Z.to_nat TCP_PCB_SIZE)%nat
  | TcpSend _ data len => bytes_ok data ∧ len <= zlen data
  | TcpSendWake _ i sent data len =>
      (i < Z.to_nat TCP_PCB_SIZE)%nat ∧ 0 <= sent ∧ bytes_ok data ∧ len <= zlen data
  | TcpReceive _ size => 0 <= size
  | TcpReceiveWake _ i size => (i < Z.to_nat TCP_PCB_SIZE)%nat ∧ 0 <= size
  end.

(** One connection moves. *)
Definition conns_one {A} (i : nat) (step : conn → A → conn → Prop) (conns : list conn) (r : A)
    (conns' : list conn) : Prop :=
  ∃ c c', conns !! i = Some c ∧ conns' = <[i := c']> conns ∧ step c r c'.

(** The abstract operations: [mss] is the segment size of a route, [ifs] the
    interfaces. *)
Inductive tcp_spec (mss : Z → option Z) (ifs : list ip_iface) (conns : list conn)
  : tcp_op → tcp_result → list conn → Prop :=
| spec_input data len src dst iface ifc conns' :
    ifs !! iface = Some ifc → conns_input data len src dst ifc conns conns' →
    tcp_spec mss ifs conns (TcpInput data len src dst iface) ResNone conns'
| spec_timer conns' :
    Forall2 conn_timer conns conns' → tcp_spec mss ifs conns TcpTimer ResNone conns'
| spec_event : tcp_spec mss ifs conns TcpEvent ResNone conns
| spec_open local foreign active r conns' :
    conns_open local foreign active conns r conns' →
    tcp_spec mss ifs conns (TcpOpen local foreign active) (ResWaits r) conns'
| spec_open_wake err i state r conns' :
    conns_one i (conn_open_wake i state) conns r conns' →
    tcp_spec mss ifs conns (TcpOpenWake err i state) (ResWaits r) conns'
| spec_close id r conns' :
    conns_at id (-1) (λ _, conn_close) conns r conns' →
    tcp_spec mss ifs conns (TcpClose id) (ResInt r) conns'
| spec_send id data len r conns' :
    conns_at id (Returned (-1))
      (λ i c, conn_send_retry i (mss (ep_addr (c_foreign c))) data len 0 c) conns r conns' →
    tcp_spec mss ifs conns (TcpSend id data len) (ResWaits r) conns'
| spec_send_wake err i sent data len r conns' :
    conns_one i (λ c, conn_send_wake i (mss (ep_addr (c_foreign c))) data len sent c) conns r conns' →
    tcp_spec mss ifs conns (TcpSendWake err i sent data len) (ResWaits r) conns'
| spec_receive id size r conns' :
    conns_at id (Returned (-1, [])) (λ i, conn_receive i size) conns r conns' →
    tcp_spec mss ifs conns (TcpReceive id size) (ResText r) conns'
| spec_receive_wake err i size r conns' :
    conns_one i (conn_receive_wake i size) conns r conns' →
    tcp_spec mss ifs conns (TcpReceiveWake err i size) (ResText r) conns'.

(** The states TCP runs in. *)
Record tcp_ready (w : world) : Prop := TcpReady {
  tr_inv : tcp_inv w;
  tr_mtu : mtu_ok w;
  tr_lock : MutexTcp ∉ locked w
}.

Lemma tcp_ready_keeps w w' : tcp_ready w → tcp_keeps w w' → tcp_ready w'.
Proof.
  intros [_ Hm HL] (Hi&Hf&Hl). split; [done|by eapply mtu_ok_frame|by rewrite Hl].
Qed.

Lemma tcp_ready_lookup w i :
  tcp_ready w → (i < Z.to_nat TCP_PCB_SIZE)%nat → ∃ pcb, w_tcp w !! i = Some pcb.
Proof. intros [Hi _ _] Hlt. apply lookup_lt_is_Some_2. by rewrite (proj1 (ti_wf _ Hi)). Qed.

Lemma tcp_run_spec w op :
  tcp_ready w → tcp_op_ok w op →
  wp (tcp_run op)
    (λ r w', tcp_keeps w w' ∧ tcp_spec (route_mss w) (n_ifs (w_net w)) (conns w) op r (conns w')) w.
Proof.
  intros Hr Hop. pose proof Hr as [Hi Hm HL]. destruct op; cbn [tcp_run tcp_op_ok] in *; apply wp_bind.
  - destruct Hop as (?&?&?&?&?&ifc&Hif&Hfit). eapply wp_mono; [by apply tcp_input_wp|].
    intros [] w' (Hk&Hc). wp_step. split; [done|]. by eapply spec_input.
  - eapply wp_mono; [by apply tcp_timer_wp|]. intros [] w' (Hk&Hc). wp_step. split; [done|].
    by apply spec_timer.
  - eapply wp_mono; [by apply tcp_event_handler_wp|]. intros [] w' (Hk&Hc). wp_step. split; [done|].
    rewrite Hc. apply spec_event.
  - destruct Hop as (?&?&?). eapply wp_mono; [by apply tcp_open_wp|]. intros r w' (Hk&Hc). wp_step.
    split; [done|]. by apply spec_open.
  - destruct (tcp_ready_lookup w i Hr Hop) as [pcb Hp].
    eapply wp_mono; [by apply tcp_open_wake_wp|]. intros r w' (Hk&c'&E&Hc). wp_step.
    split; [done|]. apply spec_open_wake. exists (abs pcb), c'. split_and!; [|done..]. by apply conns_lookup.
  - eapply wp_mono; [by apply tcp_close_wp|]. intros r w' (Hk&Hc). wp_step. split; [done|].
    by apply spec_close.
  - destruct Hop as (?&?). eapply wp_mono; [by apply tcp_send_wp|]. intros r w' (Hk&Hc). wp_step.
    split; [done|]. by apply spec_send.
  - destruct Hop as (Hlt&?&?&?). destruct (tcp_ready_lookup w i Hr Hlt) as [pcb Hp].
    eapply wp_mono; [by apply tcp_send_wake_wp|]. intros r w' (Hk&c'&E&Hc). wp_step.
    split; [done|]. apply spec_send_wake. exists (abs pcb), c'. split_and!; [|done..]. by apply conns_lookup.
  - eapply wp_mono; [by apply tcp_receive_wp|]. intros r w' (Hk&Hc). wp_step. split; [done|].
    by apply spec_receive.
  - destruct Hop as (Hlt&?). destruct (tcp_ready_lookup w i Hr Hlt) as [pcb Hp].
    eapply wp_mono; [by apply tcp_receive_wake_wp|]. intros r w' (Hk&c'&E&Hc). wp_step.
    split; [done|]. apply spec_receive_wake. exists (abs pcb), c'. split_and!; [|done..]. by apply conns_lookup.
Qed.

(** The states an execution of operations goes through. *)
Inductive tcp_reaches : world → world → Prop :=
| reaches_here w : tcp_reaches w w
| reaches_op w op r w1 w2 :
    tcp_op_ok w op → tcp_run op w = Done r w1 → tcp_reaches w1 w2 → tcp_reaches w w2.

Lemma tcp_reaches_ready w w' :
  tcp_ready w → tcp_reaches w w' → tcp_ready w' ∧ tcp_frame w w'.
Proof.
  intros Hr Hreach. induction Hreach as [|w op r w1 w2 Hop Hrun _ IH]; [done|].
  pose proof (tcp_run_spec w op Hr Hop) as Hwp. unfold wp in Hwp. rewrite Hrun in Hwp.
  destruct Hwp as [Hk _]. destruct IH as [Hr2 Hf]; [by eapply tcp_ready_keeps|].
  split; [done|]. by etrans; [apply Hk|].
Qed.
End Operations.

(** ** The transitions of RFC 793 *)

(** The edges of the state diagram that the code has; CLOSED is not an edge,
    since a control block is only ever in it while its open fails or after
    its retransmissions have. *)
Definition rfc793_edges : list (Z * Z) :=
  [(TCP_PCB_STATE_FREE, TCP_PCB_STATE_LISTEN); (TCP_PCB_STATE_FREE, TCP_PCB_STATE_SYN_SENT);
   (TCP_PCB_STATE_LISTEN, TCP_PCB_STATE_SYN_RECEIVED);
   (TCP_PCB_STATE_SYN_SENT, TCP_PCB_STATE_SYN_RECEIVED);
   (TCP_PCB_STATE_SYN_SENT, TCP_PCB_STATE_ESTABLISHED);
   (TCP_PCB_STATE_SYN_RECEIVED, TCP_PCB_STATE_ESTABLISHED);
   (TCP_PCB_STATE_SYN_RECEIVED, TCP_PCB_STATE_CLOSE_WAIT);
   (TCP_PCB_STATE_ESTABLISHED, TCP_PCB_STATE_FIN_WAIT1);
   (TCP_PCB_STATE_ESTABLISHED, TCP_PCB_STATE_CLOSE_WAIT);
   (TCP_PCB_STATE_FIN_WAIT1, TCP_PCB_STATE_FIN_WAIT2);
   (TCP_PCB_STATE_FIN_WAIT1, TCP_PCB_STATE_CLOSING);
   (TCP_PCB_STATE_FIN_WAIT1, TCP_PCB_STATE_TIME_WAIT);
   (TCP_PCB_STATE_FIN_WAIT2, TCP_PCB_STATE_TIME_WAIT);
   (TCP_PCB_STATE_CLOSE_WAIT, TCP_PCB_STATE_LAST_ACK);
   (TCP_PCB_STATE_LAST_ACK, TCP_PCB_STATE_FREE)].

Definition rfc793_edge (s s' : Z) : bool := (s =? s') || bool_decide ((s, s') ∈ rfc793_edges).

(** A connection takes an edge, or is given up: by an operation of its user,
    or by the timer. *)
Definition conn_moves (op : tcp_op) (c c' : conn) : Prop :=
  rfc793_edge (c_state c) (c_state c') = true
  ∨ match op with
    | TcpOpenWake _ _ _ => c' = conn_free
    | TcpSend _ _ _ | TcpSendWake _ _ _ _ _ => conn_can_send c = true ∧ c' = conn_free
    | TcpTimer => c_rexmit c ≠ [] ∧ c' = conn_expired c
    | _ => False
    end.

#[export] Instance conn_moves_reflexive op : Reflexive (conn_moves op).
Proof. intros c. left. unfold rfc793_edge. by rewrite Z.eqb_refl. Qed.

Lemma conn_sent_state `{Env} flg text c c' : conn_sent flg text c c' → c_state c' = c_state c.
Proof. by intros [[-> _] | (_&->)]. Qed.

Lemma conn_arrives_edge seg flags text c :
  c_state c ∉ conn_opening →
  rfc793_edge (c_state c) (c_state (conn_arrives seg flags text c)) = true.
Proof.
  intros _. unfold conn_arrives. destruct (_ && _) eqn:E.
  2:{ unfold rfc793_edge. by rewrite Z.eqb_refl. }
  apply andb_prop in E as [[Hin%bool_decide_eq_true_1 _]%andb_prop _]. destruct c. cbn in Hin.
  unfold conn_windowed in Hin.
  elem_cases Hin; subst; unfold conn_ack, conn_ack_established, conn_window, conn_fin_acked;
    cbn; repeat case_match; simplify_eq; unfold conn_fin, conn_text, conn_fin_state;
    cbn; repeat case_match; cbn; try done.
Qed.

Lemma conn_arrival_edge `{Env} seg flags text local foreign c c' :
  conn_arrival seg flags text local foreign c c' → rfc793_edge (c_state c) (c_state c') = true.
Proof.
  assert (∀ s, rfc793_edge s s = true) as Hrefl by (intros; unfold rfc793_edge; by rewrite Z.eqb_refl).
  destruct 1 as [c|c|c iss c' E|c|c E|c c'' E _ _ ? _ Hs|c Hc]; try done.
  - by rewrite E.
  - by rewrite E.
  - by rewrite (conn_sent_state _ _ _ _ Hs), E.
  - by apply conn_arrives_edge.
Qed.

Lemma conn_send_moves `{Env} i mss data len sent c r c' :
  conn_send i mss data len sent c r c' → c_state c' = c_state c ∨ c' = conn_free.
Proof.
  induction 1 as [| | | |sent c c' r c'' Hlt Hcap slen Hs _ [IH|IH]]; auto.
  left. rewrite IH. by apply conn_sent_state in Hs.
Qed.

Lemma conn_send_retry_moves `{Env} i mss data len sent c r c' :
  conn_send_retry i mss data len sent c r c' →
  c_state c' = c_state c ∨ conn_can_send c = true ∧ c' = conn_free.
Proof.
  destruct 1 as [m r c' Hc _ Hs| |]; [|by left..].
  destruct (conn_send_moves _ _ _ _ _ _ _ _ Hs); auto.
Qed.

Lemma conn_receive_state i size c r c' : conn_receive i size c r c' → c_state c' = c_state c.
Proof. by destruct 1. Qed.

Section Moves.
Context `{Machine} `{Env}.

Lemma conns_at_moves {A} id (fail : A) step conns r conns' (R : conn → conn → Prop) `{!Reflexive R} :
  conns_at id fail step conns r conns' → (∀ i c r c', step i c r c' → R c c') → Forall2 R conns conns'.
Proof.
  unfold conns_at. intros Hat HR. destruct (conns !! Z.to_nat id) as [c|] eqn:E.
  - destruct (_ && _); [|by destruct Hat as [_ ->]]. destruct Hat as (c'&->&Hs).
    apply (Forall2_insert_one R _ _ c); eauto.
  - by destruct Hat as [_ ->].
Qed.

Lemma conns_one_moves {A} i (step : conn → A → conn → Prop) conns r conns' (R : conn → conn → Prop)
    `{!Reflexive R} :
  conns_one i step conns r conns' → (∀ c r c', step c r c' → R c c') → Forall2 R conns conns'.
Proof.
  intros (c&c'&Hc&->&Hs) HR. apply (Forall2_insert_one R _ _ c); eauto.
Qed.

Lemma edge_same op c c' : c_state c' = c_state c → conn_moves op c c'.
Proof. intros E. left. unfold rfc793_edge. by rewrite E, Z.eqb_refl. Qed.

Lemma tcp_spec_moves mss ifs conns op r conns' :
  tcp_spec mss ifs conns op r conns' → Forall2 (conn_moves op) conns conns'.
Proof.
  destruct 1 as [data len src dst iface ifc conns' _ Hin|conns' Ht| |local foreign active r conns' Ho
    |err i state r conns' Ho|id r conns' Hc|id data len r conns' Hs|err i sent data len r conns' Hs
    |id size r conns' Hr|err i size r conns' Hr].
  - unfold conns_input, conns_arrival in Hin. destruct (tcp_accepted _ _ _ _ _) as [[h text]|]; [|by subst].
    destruct (conn_select _ _ _) as [i|]; [|by subst]. destruct Hin as (c&c'&Hc&->&Ha).
    apply (Forall2_insert_one _ _ _ c); [done|]. left. by eapply conn_arrival_edge.
  - eapply Forall2_impl; [exact Ht|]. intros c c' [-> | (_&?&->)]; [by apply edge_same|by right].
  - done.
  - unfold conns_open in Ho. destruct (find_first _ _) as [i|] eqn:E; [|by destruct Ho as [_ ->]].
    destruct Ho as (c&c'&Hc&->&Ho). apply (Forall2_insert_one _ _ _ c); [done|].
    apply find_first_Some in E as (c0&Hc0&Hst%Z.eqb_eq&_). simplify_eq. left. rewrite Hst.
    by destruct Ho as [f iss c' _ _ Hs| |].
  - eapply conns_one_moves; [apply _|exact Ho|]. intros c r' c' Hw.
    destruct Hw; (by apply edge_same) || by right.
  - eapply conns_at_moves; [apply _|exact Hc|]. intros i c r' c' Hcl.
    destruct Hcl as [state c' Hst Hs|]; [|done]. left. unfold conn_close_state in Hst.
    destruct (Z.eqb_spec (c_state c) TCP_PCB_STATE_ESTABLISHED) as [E|];
      [injection Hst as <-; by rewrite E|].
    destruct (Z.eqb_spec (c_state c) TCP_PCB_STATE_CLOSE_WAIT) as [E|];
      [injection Hst as <-; by rewrite E|done].
  - eapply conns_at_moves; [apply _|exact Hs|]. intros i c r' c' [?|?]%conn_send_retry_moves;
      [by apply edge_same|by right].
  - eapply conns_one_moves; [apply _|exact Hs|].
    intros c r' c' [[_ ->]|[?|?]%conn_send_retry_moves]; [done|by apply edge_same|by right].
  - eapply conns_at_moves; [apply _|exact Hr|]. intros i c r' c' Hw%conn_receive_state.
    by apply edge_same.
  - eapply conns_one_moves; [apply _|exact Hr|].
    intros c r' c' [[_ ->]|Hw%conn_receive_state]; [done|]. by apply edge_same.
Qed.
End Moves.

(** ** Connections that have ended *)

(** The states in which a connection waits for old segments to disappear,
    with nothing left to retransmit. *)
Definition conn_ended (c : conn) : Prop :=
  c_state c ∈ [TCP_PCB_STATE_CLOSING; TCP_PCB_STATE_TIME_WAIT] ∧ c_rexmit c = [].

Definition conn_stays (c c' : conn) : Prop := conn_ended c → c' = c.

#[export] Instance conn_stays_reflexive : Reflexive conn_stays.
Proof. by intros c. Qed.

Lemma conn_ended_arrival `{Env} seg flags text local foreign c c' :
  conn_arrival seg flags text local foreign c c' → conn_stays c c'.
Proof.
  intros Ha [Hin _]. rewrite !elem_of_cons, elem_of_nil in Hin.
  destruct Ha as [c E|c E|c iss c' E|c E|c E|c c'' E|c E]; try (done || by rewrite E in Hin; naive_solver).
  unfold conn_arrives, conn_acceptable. rewrite bool_decide_eq_false_2; [done|].
  unfold conn_windowed. rewrite !elem_of_cons, elem_of_nil.
  by destruct Hin as [->|[->|[]]]; naive_solver.
Qed.

Lemma conn_ended_refused c :
  conn_ended c →
  conn_can_send c = false ∧ conn_can_receive c = false ∧ conn_close_state (c_state c) = None
  ∧ (c_state c =? TCP_PCB_STATE_FREE) = false.
Proof.
  intros [Hin _]. rewrite !elem_of_cons, elem_of_nil in Hin.
  unfold conn_can_send, conn_can_receive. by destruct Hin as [->|[->|[]]].
Qed.

Lemma conn_ended_send `{Env} i mss data len sent c r c' :
  conn_send_retry i mss data len sent c r c' → conn_stays c c'.
Proof.
  intros Hs (E&_)%conn_ended_refused. destruct Hs; congruence.
Qed.

Lemma conn_ended_receive i size c r c' : conn_receive i size c r c' → conn_stays c c'.
Proof. intros Hr (_&E&_)%conn_ended_refused. destruct Hr; congruence. Qed.

Lemma tcp_spec_stays `{Machine} `{Env} mss ifs conns op r conns' :
  (∀ err i state, op ≠ TcpOpenWake err i state) →
  tcp_spec mss ifs conns op r conns' → Forall2 conn_stays conns conns'.
Proof.
  intros Hop Hs. destruct Hs as [data len src dst iface ifc conns' _ Hin|conns' Ht|
    |local foreign active r conns' Ho|err i state r conns' _|id r conns' Hc|id data len r conns' Hs
    |err i sent data len r conns' Hs|id size r conns' Hr|err i size r conns' Hr].
  - unfold conns_input, conns_arrival in Hin. destruct (tcp_accepted _ _ _ _ _) as [[h text]|]; [|by subst].
    destruct (conn_select _ _ _) as [i|]; [|by subst]. destruct Hin as (c&c'&Hc&->&Ha).
    apply (Forall2_insert_one _ _ _ c); [done|]. by eapply conn_ended_arrival.
  - eapply Forall2_impl; [exact Ht|]. intros c c' [-> | (_&?&->)]; [done|by intros []].
  - done.
  - unfold conns_open in Ho. destruct (find_first _ _) as [i|] eqn:E; [|by destruct Ho as [_ ->]].
    destruct Ho as (c&c'&Hc&->&Ho). apply (Forall2_insert_one _ _ _ c); [done|].
    apply find_first_Some in E as (c0&Hc0&Hst&_). simplify_eq.
    intros (_&_&_&E)%conn_ended_refused. congruence.
  - by destruct (Hop err i state).
  - eapply conns_at_moves; [apply _|exact Hc|]. intros i c r' c' Hcl (_&_&E&_)%conn_ended_refused.
    destruct Hcl; congruence.
  - eapply conns_at_moves; [apply _|exact Hs|]. intros i c r' c'. apply conn_ended_send.
  - eapply conns_one_moves; [apply _|exact Hs|]. intros c r' c' [[_ ->]|Hw]; [done|by eapply conn_ended_send].
  - eapply conns_at_moves; [apply _|exact Hr|]. intros i c r' c'. apply conn_ended_receive.
  - eapply conns_one_moves; [apply _|exact Hr|].
    intros c r' c' [[_ ->]|Hw]; [done|by eapply conn_ended_receive].
Qed.

Section Guarantees.
Context `{Machine} `{EnvOk} `{!DeviceOps} `{!DeviceOpsOk}.


(** C17. Connections follow the state diagram of RFC 793: whatever operation
    runs in a reachable state, every control block stays in its state or
    takes an edge of the diagram, unless its user's open or send gives it up
    and releases it, or the timer closes it while segments are
    unacknowledged. *)
Theorem tcp_transitions w0 w op r w' i pcb :
  tcp_ready w0 → tcp_reaches w0 w → tcp_op_ok w op → tcp_run op w = Done r w' →
  w_tcp w !! i = Some pcb →
  ∃ pcb', w_tcp w' !! i = Some pcb' ∧ conn_moves op (abs pcb) (abs pcb').
Proof.
  intros H0' Hreach Hop Hrun Hp. destruct (tcp_reaches_ready _ _ H0' Hreach) as [Hr _].
  pose proof (tcp_run_spec w op Hr Hop) as Hwp. unfold wp in Hwp. rewrite Hrun in Hwp.
  destruct Hwp as [_ Hs%tcp_spec_moves].
  destruct (Forall2_lookup_l _ _ _ i (abs pcb) Hs) as (c'&Hc'&Hm); [by apply conns_lookup|].
  unfold conns in Hc'. rewrite list_lookup_fmap in Hc'. apply fmap_Some in Hc' as (pcb'&E&->).
  by exists pcb'.
Qed.

(** C32. An ended connection keeps its control block.  In a reachable state,
    a control block in CLOSING or TIME-WAIT with nothing to retransmit is
    left as it is by every input, timer tick, event and user command; only
    the end of a wait in open could release it.  The timer that RFC 793
    starts on entering TIME-WAIT is commented out in the code, so the table
    of sixteen blocks fills with ended connections. *)
Theorem tcp_ended_kept w0 w op r w' i pcb :
  tcp_ready w0 → tcp_reaches w0 w → tcp_op_ok w op → tcp_run op w = Done r w' →
  (∀ err j state, op ≠ TcpOpenWake err j state) →
  w_tcp w !! i = Some pcb → conn_ended (abs pcb) →
  ∃ pcb', w_tcp w' !! i = Some pcb' ∧ abs pcb' = abs pcb.
Proof.
  intros H0' Hreach Hop Hrun Hno Hp He. destruct (tcp_reaches_ready _ _ H0' Hreach) as [Hr _].
  pose proof (tcp_run_spec w op Hr Hop) as Hwp. unfold wp in Hwp. rewrite Hrun in Hwp.
  destruct Hwp as [_ Hs%tcp_spec_stays]; [|done].
  destruct (Forall2_lookup_l _ _ _ i (abs pcb) Hs) as (c'&Hc'&Hm); [by apply conns_lookup|].
  unfold conns in Hc'. rewrite list_lookup_fmap in Hc'. apply fmap_Some in Hc' as (pcb'&E&->).
  exists pcb'. auto.
Qed.

(** C26. Retransmission backs off and is bounded.  In every reachable state,
    an entry of a retransmission queue has been sent again at most five
    times: its interval is the default of 200 ms doubled once for each
    time, the intervals that have passed since the first transmission add
    up, and the last transmission was within the deadline of 12 seconds. *)
Theorem tcp_backoff_bounded w0 w i pcb e :
  tcp_ready w0 → tcp_reaches w0 w → w_tcp w !! i = Some pcb → e ∈ tp_queue pcb →
  ∃ n, 0 <= n <= 5 ∧ tqe_rto e = 200000 * 2 ^ n
    ∧ 200000 * (2 ^ n - 1) <= tv_us (tqe_last e) - tv_us (tqe_first e) < 12000000.
Proof.
  intros H0' Hreach Hp He. destruct (tcp_reaches_ready _ _ H0' Hreach) as [Hr _].
  pose proof (tpo_queue _ (Forall_lookup_1 _ _ _ _ (proj2 (ti_wf _ (tr_inv _ Hr))) Hp)) as Hq.
  rewrite Forall_forall in Hq. destruct (Hq e He) as (_&_&_&_&_&_&_&_&n&?&?&?&?).
  by exists n.
Qed.
End Guarantees.
