(* ===== verification/TcpWire.v ===== *)
(** * TCP: segments on the wire

    What one host's [tcp_output_segment] builds is what another host's
    [tcp_input] hands to [tcp_segment_arrives]; what follows for the opening
    of a connection and for the text sent on it. *)

From S2P Require Import Prelude Bytes Checksum Clock Text Addr Monad State Platform Queue Net.
From S2P Require Import Ether Drivers Device Sample Arp Ip Pseudo Udp Tcp TcpUser TcpLogic TcpConn TcpArrive TcpOps TcpProps.

Section Wire.
Context `{Machine} `{Env} `{DeviceOps}.

Lemma ntoh16_0 : ntoh16 0 = 0.
Proof. rewrite ntoh16_hton16_same. by destruct H. Qed.

(** The sequence numbers a segment takes. *)
Definition tcp_seg_len (flg len : Z) : Z :=
  len + (if TCP_FLG_ISSET flg TCP_FLG_SYN then 1 else 0)
      + (if TCP_FLG_ISSET flg TCP_FLG_FIN then 1 else 0).

Lemma tcp_seg_info_out seq ack flg wnd local foreign sum len :
  is_u32 seq → is_u32 ack → is_u16 wnd → 0 <= len <= TCP_TEXT_MAX →
  tcp_seg_info (tcp_hdr_out seq ack flg wnd local foreign sum) (TCP_HDR_SIZE + len) TCP_HDR_SIZE
  = TcpSegmentInfo seq ack (tcp_seg_len flg len) wnd 0.
Proof.
  intros Hs Ha Hw Hl. change TCP_TEXT_MAX with 65495 in Hl. unfold tcp_seg_info, tcp_hdr_out, tcp_seg_len.
  cbn [th_seq th_ack th_wnd th_flg th_up]. rewrite ntoh32_hton32, ntoh32_hton32, ntoh16_hton16 by done.
  replace (TCP_HDR_SIZE + len - TCP_HDR_SIZE) with len by lia.
  f_equal; [|apply ntoh16_0]. rewrite (u16_small len) by ulia.
  destruct (TCP_FLG_ISSET flg TCP_FLG_SYN), (TCP_FLG_ISSET flg TCP_FLG_FIN);
    rewrite ?(u16_small (len + 1)) by ulia; rewrite ?u16_small by ulia; lia.
Qed.

(** The checks of [tcp_input] on a segment followed by [pad], and what it
    reads from it. *)
Lemma tcp_segment_read seq ack flg wnd data len local foreign pad :
  is_u32 seq → is_u32 ack → is_u8 flg → is_u16 wnd → endpoint_ok local → endpoint_ok foreign →
  bytes_ok data → bytes_ok pad → 0 <= len <= zlen data → len <= TCP_TEXT_MAX →
  ∃ seg h psum, tcp_segment seq ack flg wnd data len local foreign = Some seg
    ∧ zlen seg = TCP_HDR_SIZE + len ∧ bytes_ok seg
    ∧ tcp_hdr_at (seg ++ pad) = Some h
    ∧ pseudo_sum (tcp_pseudo (ep_addr local) (ep_addr foreign) (TCP_HDR_SIZE + len)) = Some psum
    ∧ cksum16 (seg ++ pad) (TCP_HDR_SIZE + len) psum = Some 0
    ∧ tcp_doff h = TCP_HDR_SIZE ∧ th_flg h = flg ∧ th_src h = ep_port local
    ∧ th_dst h = ep_port foreign
    ∧ tcp_seg_info h (TCP_HDR_SIZE + len) TCP_HDR_SIZE
      = TcpSegmentInfo seq ack (tcp_seg_len flg len) wnd 0
    ∧ drop (Z.to_nat TCP_HDR_SIZE) (seg ++ pad) = take (Z.to_nat len) data ++ pad.
Proof.
  intros Hs Ha Hf Hw Hl Hfo Hok Hpad Hlen Hmax.
  destruct (tcp_segment_eq seq ack flg wnd data len local foreign)
    as (sum&psum&Hsum&Hps&Eseg&Epseudo&Ever); try done.
  pose proof (tcp_hdr_out_ok seq ack flg wnd local foreign sum Hs Ha Hf Hw Hl Hfo Hsum) as Hh.
  pose proof (tcp_seg_info_out seq ack flg wnd local foreign sum len Hs Ha Hw) as Hinfo.
  set (h := tcp_hdr_out seq ack flg wnd local foreign sum) in *.
  set (text := take (Z.to_nat len) data) in *.
  assert (zlen (tcp_hdr_bytes h ++ text) = TCP_HDR_SIZE + len) as Hz.
  { rewrite zlen_app, zlen_tcp_hdr_bytes. unfold text, zlen in *. rewrite length_take. lia. }
  assert (bytes_ok (tcp_hdr_bytes h ++ text)) as Hb.
  { apply Forall_app_2; [|by apply Forall_take]. by apply tcp_hdr_bytes_ok. }
  exists (tcp_hdr_bytes h ++ text), h, psum. split_and!; try done.
  - rewrite <- app_assoc. by apply tcp_hdr_at_bytes.
  - change TCP_TEXT_MAX with 65495 in *.
    rewrite cksum16_prefix; [done|done|done|unfold TCP_HDR_SIZE; ulia|lia|done].
  - apply Hinfo. lia.
  - rewrite <- app_assoc. apply drop_app_length'. by rewrite length_tcp_hdr_bytes.
Qed.

(** What a host sends is what its peer's TCP gets: the bytes built by
    [tcp_output_segment], with any padding behind them, pass the checks of
    [tcp_input], which hands [tcp_segment_arrives] the sequence number,
    acknowledgement, flags, window and text that were sent, and the
    endpoints as the receiver sees them. *)
Lemma tcp_segment_delivered seq ack flg wnd data len local foreign pad iface ifc w :
  is_u32 seq → is_u32 ack → is_u8 flg → is_u16 wnd → endpoint_ok local → endpoint_ok foreign →
  bytes_ok data → bytes_ok pad → 0 <= len <= zlen data → len <= TCP_TEXT_MAX →
  n_ifs (w_net w) !! iface = Some ifc →
  tcp_unicast (ep_addr local) (ep_addr foreign) ifc = true →
  ∃ seg, tcp_segment seq ack flg wnd data len local foreign = Some seg
    ∧ tcp_input (seg ++ pad) (TCP_HDR_SIZE + len) (ep_addr local) (ep_addr foreign) iface w
      = (mutex_lock MutexTcp;;
         tcp_segment_arrives (TcpSegmentInfo seq ack (tcp_seg_len flg len) wnd 0) flg
           (take (Z.to_nat len) data ++ pad) len foreign local;;
         mutex_unlock MutexTcp) w.
Proof.
  intros Hs Ha Hf Hw Hl Hfo Hok Hpad Hlen Hmax Hif Huni.
  destruct (tcp_segment_read seq ack flg wnd data len local foreign pad)
    as (seg&h&psum&Eseg&_&_&Eh&Ep&Ec&Ed&Ef&Es&Edst&Ei&Et); try done.
  exists seg. split; [exact Eseg|]. unfold tcp_input.
  destruct (Z.ltb_spec (TCP_HDR_SIZE + len) TCP_HDR_SIZE); [lia|]. rewrite Ep, Eh.
  assert (get_if iface w = Done ifc w) as Eif by (unfold get_if, bind, gets; by rewrite Hif).
  do 2 (erewrite bind_Done; [|reflexivity]). rewrite Ec. erewrite bind_Done; [|reflexivity].
  cbn [Z.eqb negb]. erewrite bind_Done; [|exact Eif].
  unfold tcp_unicast in Huni. apply negb_true_iff in Huni. rewrite Huni.
  fold (tcp_doff h). rewrite Ed, Ef, Es, Edst, Ei, Et.
  change TCP_TEXT_MAX with 65495 in *. unfold TCP_HDR_SIZE.
  rewrite u64_small by ulia. replace (20 + len - 20) with len by lia. by destruct local, foreign.
Qed.
End Wire.

Section Arrival.
Context `{Machine} `{EnvOk} `{!DeviceOps} `{!DeviceOpsOk}.

(** The peer's segment, padded or not, moves the connection it is for. *)
Lemma tcp_padded_moves seq ack flg wnd data len local foreign pad iface ifc w :
  is_u32 seq → is_u32 ack → is_u8 flg → is_u16 wnd → endpoint_ok local → endpoint_ok foreign →
  bytes_ok data → bytes_ok pad → 0 <= len <= zlen data → len <= TCP_TEXT_MAX →
  n_ifs (w_net w) !! iface = Some ifc →
  tcp_unicast (ep_addr local) (ep_addr foreign) ifc = true →
  tcp_ready w →
  text_fits (TcpSegmentInfo seq ack (tcp_seg_len flg len) wnd 0) foreign local len (conns w) →
  ∃ seg, tcp_segment seq ack flg wnd data len local foreign = Some seg
    ∧ wp (tcp_input (seg ++ pad) (TCP_HDR_SIZE + len) (ep_addr local) (ep_addr foreign) iface)
        (λ _ w', tcp_keeps w w' ∧
           conns_arrival (TcpSegmentInfo seq ack (tcp_seg_len flg len) wnd 0) flg
             (take (Z.to_nat len) data) foreign local (conns w) (conns w')) w.
Proof.
  intros Hs Ha Hf Hw Hl Hfo Hok Hpad Hlen Hmax Hif Huni [Hi _ HL] Hfit.
  destruct (tcp_segment_read seq ack flg wnd data len local foreign pad)
    as (seg&h&psum&Eseg&Hz&Hb&Eh&Ep&Ec&Ed&Ef&Es&Edst&Ei&Et); try done.
  exists seg. split; [exact Eseg|].
  assert (tcp_accepted (seg ++ pad) (TCP_HDR_SIZE + len) (ep_addr local) (ep_addr foreign) ifc
          = Some (h, take (Z.to_nat len) data)) as Eacc.
  { unfold tcp_accepted. destruct (Z.leb_spec TCP_HDR_SIZE (TCP_HDR_SIZE + len)); [|lia].
    rewrite Eh. cbn [mbind option_bind]. rewrite Huni.
    unfold tcp_checksum_ok. rewrite Ep. cbn [mbind option_bind]. rewrite bool_decide_eq_true_2 by done.
    cbn [andb]. rewrite Ed, Et. replace (TCP_HDR_SIZE + len - TCP_HDR_SIZE) with len by lia.
    rewrite take_app_le by (unfold zlen in Hlen; rewrite length_take; lia).
    by rewrite take_take, Nat.min_id. }
  change TCP_TEXT_MAX with 65495 in *.
  assert (IpEndpoint (ep_addr foreign) (th_dst h) = foreign) as E1 by (rewrite Edst; by destruct foreign).
  assert (IpEndpoint (ep_addr local) (th_src h) = local) as E2 by (rewrite Es; by destruct local).
  eapply wp_mono; [apply (tcp_input_wp _ _ _ _ _ ifc); try done|].
  - apply bytes_ok_app. by split.
  - rewrite zlen_app, Hz. pose proof (zlen_nonneg pad). unfold TCP_HDR_SIZE. lia.
  - unfold TCP_HDR_SIZE. ulia.
  - apply Hl.
  - apply Hfo.
  - unfold input_fits. rewrite Eacc, Ed, E1, E2, Ei.
    replace (TCP_HDR_SIZE + len - TCP_HDR_SIZE) with len by lia. split; [lia|done].
  - intros [] w' (Hk&Hc). split; [done|]. unfold conns_input in Hc.
    by rewrite Eacc, Ed, E1, E2, Ei, Ef in Hc.
Qed.

Lemma tcp_segment_moves seq ack flg wnd data len local foreign iface ifc w :
  is_u32 seq → is_u32 ack → is_u8 flg → is_u16 wnd → endpoint_ok local → endpoint_ok foreign →
  bytes_ok data → 0 <= len <= zlen data → len <= TCP_TEXT_MAX →
  n_ifs (w_net w) !! iface = Some ifc →
  tcp_unicast (ep_addr local) (ep_addr foreign) ifc = true →
  tcp_ready w →
  text_fits (TcpSegmentInfo seq ack (tcp_seg_len flg len) wnd 0) foreign local len (conns w) →
  ∃ seg, tcp_segment seq ack flg wnd data len local foreign = Some seg
    ∧ wp (tcp_input seg (TCP_HDR_SIZE + len) (ep_addr local) (ep_addr foreign) iface)
        (λ _ w', tcp_keeps w w' ∧
           conns_arrival (TcpSegmentInfo seq ack (tcp_seg_len flg len) wnd 0) flg
             (take (Z.to_nat len) data) foreign local (conns w) (conns w')) w.
Proof.
  intros. destruct (tcp_padded_moves seq ack flg wnd data len local foreign [] iface ifc w)
    as (seg&E&Hwp); try done; [by apply Forall_nil_2|]. rewrite app_nil_r in Hwp. by exists seg.
Qed.
End Arrival.

(** ** Opening a connection *)

Lemma conn_select_insert local foreign conns j c' :
  conn_select local foreign conns = Some j → conn_exact local foreign c' = true →
  conn_select local foreign (<[j := c']> conns) = Some j.
Proof.
  intros Hsel Hex. pose proof (conn_select_lookup _ _ _ _ Hsel) as [c Hc].
  assert (∀ k y, (k < j)%nat → conns !! k = Some y → conn_exact local foreign y = false) as Hbefore.
  { unfold conn_select in Hsel. destruct (find_first _ conns) as [k'|] eqn:E.
    - injection Hsel as ->. by destruct (find_first_Some _ _ _ E) as (_&_&_&Hlt).
    - intros k y _ Hy. by eapply find_first_None. }
  unfold conn_select. rewrite (find_first_here _ _ j c'); [done| |done|].
  - apply list_lookup_insert_eq. by eapply lookup_lt_Some.
  - intros k y Hk Hy. rewrite list_lookup_insert_ne in Hy by lia. by eapply Hbefore.
Qed.

Lemma conn_window_same {A} (f : conn → A) seg c :
  (∀ v c, f (set_c_wnd v c) = f c) → (∀ v c, f (set_c_wl1 v c) = f c) →
  (∀ v c, f (set_c_wl2 v c) = f c) → f (conn_window seg c) = f c.
Proof. intros E1 E2 E3. unfold conn_window. destruct (_ || _); [|done]. by rewrite E1, E2, E3. Qed.

(** An acknowledgement of something new, other than of our FIN. *)
Lemma conn_ack_new seg c :
  c_state c ≠ TCP_PCB_STATE_FIN_WAIT1 → c_una c < seg_ack seg <= c_nxt c →
  conn_ack_established seg c = (conn_window seg (conn_acked (seg_ack seg) c), true).
Proof.
  intros Hst Hack. unfold conn_ack_established, conn_fin_acked.
  rewrite (conn_window_same c_state) by done. change (c_state (conn_acked _ c)) with (c_state c).
  destruct (Z.ltb_spec (c_una c) (seg_ack seg)), (Z.leb_spec (seg_ack seg) (c_nxt c)); try lia.
  by destruct (Z.eqb_spec (c_state c) TCP_PCB_STATE_FIN_WAIT1).
Qed.

Lemma conn_unacked_all una q : Forall (λ e, e.1.1 < una) q → conn_unacked una q = [].
Proof.
  induction 1 as [|e q He _ IH]; cbn; [done|]. by destruct (Z.geb_spec e.1.1 una); [lia|].
Qed.

(** The three steps of the handshake, from the connection's side: [a] and
    [b] are the initial sequence numbers of the client and the server. *)
Section Handshake.
Context `{Env} (local foreign : ip_endpoint) (a b ack wnd : Z).

Lemma handshake_syn d d1 :
  0 <= a < 2 ^ 31 → c_state d = TCP_PCB_STATE_LISTEN → c_rexmit d = [] →
  conn_arrival (TcpSegmentInfo a ack 1 wnd 0) TCP_FLG_SYN [] local foreign d d1 →
  ∃ b, 0 <= b < 2 ^ 31 ∧ c_state d1 = TCP_PCB_STATE_SYN_RECEIVED
    ∧ c_local d1 = local ∧ c_foreign d1 = foreign
    ∧ c_iss d1 = b ∧ c_una d1 = b ∧ c_nxt d1 = b + 1 ∧ c_rcv d1 = a + 1 ∧ c_unread d1 = c_unread d
    ∧ Forall (λ e, e.1.1 = b) (c_rexmit d1).
Proof.
  intros Ha Hst Hq Harr. destruct Harr as [c E|c E F|c iss c' E _ _ _ Hiss Hs|c E|c E|c c'' E|c E];
    try (rewrite Hst in E; discriminate E).
  - by vm_compute in F.
  - exists iss. split; [done|].
    assert (c_rexmit c' = [] ∨ c_rexmit c' = [(iss, Z.lor TCP_FLG_SYN TCP_FLG_ACK, [])]) as Hr.
    { destruct Hs as [[-> _] | [_ ->]]; cbn; rewrite Hq; [by left|by right]. }
    assert (u32 (iss + 1) = iss + 1 ∧ u32 (a + 1) = a + 1) as [E1 E2].
    { split; apply u32_small; ulia. }
    destruct Hs as [[-> _] | [_ ->]]; cbn in Hr |- *; rewrite E1, E2; split_and!; try done;
      destruct Hr as [-> | ->]; by repeat constructor.
  - destruct E. rewrite Hst. unfold conn_opening. rewrite !elem_of_cons. auto.
Qed.

Lemma handshake_syn_ack c c1 :
  0 <= a < 2 ^ 31 → 0 <= b < 2 ^ 31 → c_state c = TCP_PCB_STATE_SYN_SENT →
  c_iss c = a → c_una c = a → c_nxt c = a + 1 → Forall (λ e, e.1.1 = a) (c_rexmit c) →
  conn_arrival (TcpSegmentInfo b (a + 1) 1 wnd 0) (Z.lor TCP_FLG_SYN TCP_FLG_ACK) [] local foreign c c1 →
  c_state c1 = TCP_PCB_STATE_ESTABLISHED ∧ c_una c1 = a + 1 ∧ c_nxt c1 = a + 1
  ∧ c_rcv c1 = b + 1 ∧ c_local c1 = c_local c ∧ c_foreign c1 = c_foreign c ∧ c_rexmit c1 = [].
Proof.
  intros Ha Hb Hst Hiss Huna Hnxt Hq Harr.
  assert (conn_good_ack (TcpSegmentInfo b (a + 1) 1 wnd 0) (Z.lor TCP_FLG_SYN TCP_FLG_ACK) c = true) as Hgood.
  { unfold conn_good_ack. rewrite Huna, Hnxt. apply andb_true_intro. split; [done|]. cbn [seg_ack]. lia. }
  assert (conn_bad_ack (TcpSegmentInfo b (a + 1) 1 wnd 0) (Z.lor TCP_FLG_SYN TCP_FLG_ACK) c = false) as Hbad.
  { unfold conn_bad_ack. rewrite Hiss, Hnxt. apply andb_false_intro2. cbn [seg_ack]. lia. }
  destruct Harr as [c E|c E|c iss c' E|c E F|c E _ _ c' Hlt|c c'' E _ _ c' Hle|c E];
    try (rewrite Hst in E; discriminate E).
  - rewrite Hbad in F. by vm_compute in F.
  - unfold c'. rewrite Hgood. cbn. rewrite u32_small by ulia. split_and!; try done.
    apply conn_unacked_all. eapply Forall_impl; [exact Hq|]. cbn. lia.
  - exfalso. revert Hle. unfold c'. rewrite Hgood. cbn. lia.
  - destruct E. rewrite Hst. unfold conn_opening. rewrite !elem_of_cons. auto.
Qed.

Lemma handshake_ack d1 d2 :
  0 <= a < 2 ^ 31 → 0 <= b < 2 ^ 31 → c_state d1 = TCP_PCB_STATE_SYN_RECEIVED →
  c_una d1 = b → c_nxt d1 = b + 1 → c_rcv d1 = a + 1 → c_unread d1 = [] →
  Forall (λ e, e.1.1 = b) (c_rexmit d1) →
  conn_arrival (TcpSegmentInfo (a + 1) (b + 1) 0 wnd 0) TCP_FLG_ACK [] local foreign d1 d2 →
  c_state d2 = TCP_PCB_STATE_ESTABLISHED ∧ c_una d2 = b + 1 ∧ c_nxt d2 = b + 1
  ∧ c_rcv d2 = a + 1 ∧ c_rexmit d2 = [].
Proof.
  intros Ha Hb Hst Huna Hnxt Hrcv Hun Hq Harr.
  destruct Harr as [c E|c E|c iss c' E|c E|c E|c c'' E|c E]; try (rewrite Hst in E; discriminate E).
  set (seg := TcpSegmentInfo (a + 1) (b + 1) 0 wnd 0).
  assert (conn_acceptable seg c = true) as Hacc.
  { unfold conn_acceptable, in_window, conn_rwnd. rewrite Hst, Hun, Hrcv.
    change (TCP_BUFSIZ - zlen []) with 65535. rewrite bool_decide_eq_true_2 by (by left).
    cbn [seg_len seg_seq seg Z.eqb andb]. rewrite u32_small by ulia. lia. }
  set (c1 := set_c_state TCP_PCB_STATE_ESTABLISHED c).
  assert (conn_ack seg c = (conn_window seg (conn_acked (b + 1) c1), true)) as Hack.
  { unfold conn_ack. rewrite Hst, Huna, Hnxt, Z.eqb_refl. fold c1.
    rewrite conn_ack_new by (done || cbn; lia). cbn [seg_ack seg].
    destruct (Z.leb_spec b (b + 1)), (Z.leb_spec (b + 1) (b + 1)); (done || lia). }
  unfold conn_arrives. rewrite Hacc, Hack. cbn [andb].
  change (TCP_FLG_ISSET TCP_FLG_ACK TCP_FLG_ACK) with true. unfold conn_fin, conn_text.
  change (TCP_FLG_ISSET TCP_FLG_ACK TCP_FLG_FIN) with false. cbv iota.
  rewrite bool_decide_eq_false_2 by (by intros [_ []]).
  rewrite !(conn_window_same c_state), !(conn_window_same c_una), !(conn_window_same c_nxt),
    !(conn_window_same c_rcv), !(conn_window_same c_rexmit) by done.
  split_and!; try done. cbn. apply conn_unacked_all. eapply Forall_impl; [exact Hq|]. cbn. lia.
Qed.
End Handshake.

Lemma tcp_frame_ifs w w' : tcp_frame w w' → n_ifs (w_net w') = n_ifs (w_net w).
Proof. intros [_ Hn _ _]. by injection Hn. Qed.

Lemma tcp_inv_pcb w i pcb : tcp_inv w → w_tcp w !! i = Some pcb → tcp_pcb_ok pcb.
Proof. intros Hi. destruct (ti_wf _ Hi) as [_ Hf]. rewrite Forall_lookup in Hf. by apply Hf. Qed.

Lemma conns_lookup_inv w i c : conns w !! i = Some c → ∃ pcb, w_tcp w !! i = Some pcb ∧ c = abs pcb.
Proof. unfold conns. rewrite list_lookup_fmap. intros (pcb&E&->)%fmap_Some. by exists pcb. Qed.

Lemma conn_rwnd_nonneg pcb : tcp_pcb_ok pcb → 0 <= conn_rwnd (abs pcb).
Proof.
  intros Hp. destruct (tcp_buffered (tp_state pcb)) eqn:E.
  - rewrite conn_rwnd_abs by done. destruct (tpo_rcv _ Hp) as [_ Hw]. ulia.
  - unfold conn_rwnd. cbn. by rewrite E.
Qed.

Lemma text_fits_0 seg local foreign w : tcp_inv w → text_fits seg local foreign 0 (conns w).
Proof.
  intros Hi i c _ (pcb&Hp&->)%conns_lookup_inv _. eapply conn_rwnd_nonneg, tcp_inv_pcb; eauto.
Qed.

(** The segment [tcp_output] sends for a control block. *)
Definition tcp_emits `{Machine} (pcb : tcp_pcb) (flg : Z) (data : bytes) (len : Z) : option bytes :=
  tcp_segment (if TCP_FLG_ISSET flg TCP_FLG_SYN then tp_iss pcb else snd_nxt pcb) (rcv_nxt pcb) flg
    (rcv_wnd pcb) data len (tp_local pcb) (tp_foreign pcb).

Section Open.
Context `{Machine} `{EnvOk} `{!DeviceOps} `{!DeviceOpsOk}.

(** What a segment without text, sent by one block, does to the block it
    reaches. *)
Lemma tcp_emits_moves flg p iface ifc j q w :
  tcp_pcb_ok p → is_u8 flg → n_ifs (w_net w) !! iface = Some ifc →
  tcp_unicast (ep_addr (tp_local p)) (ep_addr (tp_foreign p)) ifc = true → tcp_ready w →
  conn_select (tp_foreign p) (tp_local p) (conns w) = Some j → w_tcp w !! j = Some q →
  ∃ seg, tcp_emits p flg [] 0 = Some seg
    ∧ wp (tcp_input seg TCP_HDR_SIZE (ep_addr (tp_local p)) (ep_addr (tp_foreign p)) iface)
        (λ _ w', tcp_ready w' ∧ tcp_frame w w' ∧ ∃ q', w_tcp w' !! j = Some q'
           ∧ conns w' = <[j := abs q']> (conns w)
           ∧ conn_arrival (TcpSegmentInfo (if TCP_FLG_ISSET flg TCP_FLG_SYN then tp_iss p else snd_nxt p)
               (rcv_nxt p) (tcp_seg_len flg 0) (rcv_wnd p) 0) flg [] (tp_foreign p) (tp_local p)
               (abs q) (abs q')) w.
Proof.
  intros Hp Hf Hif Hu Hr Hsel Hq. pose proof Hp as [_ Hl Hfo (Hn&_&_) _ (Hi&_) (Hrn&Hrw) _ _].
  set (seq := if TCP_FLG_ISSET flg TCP_FLG_SYN then tp_iss p else snd_nxt p).
  destruct (tcp_segment_moves seq (rcv_nxt p) flg (rcv_wnd p) [] 0 (tp_local p) (tp_foreign p) iface ifc w)
    as (seg&E&Hwp); try done.
  { unfold seq. by destruct (TCP_FLG_ISSET flg TCP_FLG_SYN). } { by apply Forall_nil_2. }
  { apply text_fits_0, Hr. }
  exists seg. split; [exact E|]. eapply wp_mono; [exact Hwp|]. intros [] w' (Hk&Ha).
  unfold conns_arrival in Ha. rewrite Hsel in Ha. destruct Ha as (c&c'&Hc&Ec&Ha).
  rewrite (conns_lookup _ _ _ Hq) in Hc. injection Hc as <-.
  assert (conns w' !! j = Some c') as (q'&Hq'&->)%conns_lookup_inv.
  { rewrite Ec. apply list_lookup_insert_eq. by eapply lookup_lt_Some, conns_lookup. }
  split_and!; [by eapply tcp_ready_keeps|apply Hk|]. by exists q'.
Qed.

(** The blocks agree on the sequence numbers of both directions, and
    nothing is unacknowledged. *)
Definition tcp_synchronised (p q : tcp_pcb) : Prop :=
  tp_state p = TCP_PCB_STATE_ESTABLISHED ∧ tp_state q = TCP_PCB_STATE_ESTABLISHED
  ∧ snd_nxt p = rcv_nxt q ∧ snd_nxt q = rcv_nxt p
  ∧ snd_una p = snd_nxt p ∧ snd_una q = snd_nxt q
  ∧ tp_queue p = [] ∧ tp_queue q = [].

(** The three-way handshake synchronises the two ends.  A host whose
    block [pc] has sent its SYN and a host whose block [ps] listens exchange
    the three segments that their [tcp_output] sends: the listener answers
    in SYN-RECEIVED, the opener becomes ESTABLISHED, then the listener does,
    and each side expects exactly the sequence number the other sends next,
    with both retransmission queues empty. *)
Lemma tcp_handshake i j pc ps kc ks ifc ifs wc ws :
  tcp_ready wc → tcp_ready ws → w_tcp wc !! i = Some pc → w_tcp ws !! j = Some ps →
  conn_select (tp_local pc) (tp_foreign pc) (conns wc) = Some i →
  conn_select (tp_foreign pc) (tp_local pc) (conns ws) = Some j →
  n_ifs (w_net wc) !! kc = Some ifc → n_ifs (w_net ws) !! ks = Some ifs →
  tcp_unicast (ep_addr (tp_foreign pc)) (ep_addr (tp_local pc)) ifc = true →
  tcp_unicast (ep_addr (tp_local pc)) (ep_addr (tp_foreign pc)) ifs = true →
  tp_state pc = TCP_PCB_STATE_SYN_SENT → 0 <= tp_iss pc < 2 ^ 31 → snd_una pc = tp_iss pc →
  snd_nxt pc = tp_iss pc + 1 → Forall (λ e, tqe_seq e = tp_iss pc) (tp_queue pc) →
  tp_state ps = TCP_PCB_STATE_LISTEN → tp_queue ps = [] →
  ∃ syn, tcp_emits pc TCP_FLG_SYN [] 0 = Some syn ∧
  wp (tcp_input syn TCP_HDR_SIZE (ep_addr (tp_local pc)) (ep_addr (tp_foreign pc)) ks) (λ _ ws1,
    ∃ ps1, w_tcp ws1 !! j = Some ps1 ∧ tp_state ps1 = TCP_PCB_STATE_SYN_RECEIVED
    ∧ tp_local ps1 = tp_foreign pc ∧ tp_foreign ps1 = tp_local pc ∧
    ∃ syn_ack, tcp_emits ps1 (Z.lor TCP_FLG_SYN TCP_FLG_ACK) [] 0 = Some syn_ack ∧
    wp (tcp_input syn_ack TCP_HDR_SIZE (ep_addr (tp_local ps1)) (ep_addr (tp_foreign ps1)) kc) (λ _ wc1,
      ∃ pc1, w_tcp wc1 !! i = Some pc1 ∧ tp_state pc1 = TCP_PCB_STATE_ESTABLISHED ∧
      ∃ ack, tcp_emits pc1 TCP_FLG_ACK [] 0 = Some ack ∧
      wp (tcp_input ack TCP_HDR_SIZE (ep_addr (tp_local pc1)) (ep_addr (tp_foreign pc1)) ks) (λ _ ws2,
        ∃ ps2, w_tcp ws2 !! j = Some ps2 ∧ tcp_synchronised pc1 ps2) ws1) wc) ws.
Proof.
  intros Hrc Hrs Hpc Hps Hselc Hsels Hifc Hifs Huc Hus Hst Hiss Huna Hnxt Hq Hlst Hlq.
  pose proof (tcp_inv_pcb _ _ _ (tr_inv _ Hrc) Hpc) as Hokc.
  destruct (tcp_emits_moves TCP_FLG_SYN pc ks ifs j ps ws) as (syn&Esyn&Hsyn); try done.
  exists syn. split; [exact Esyn|]. eapply wp_mono; [exact Hsyn|].
  intros [] ws1 (Hrs1&Hfs1&ps1&Hps1&Es1&Harr1).
  apply handshake_syn in Harr1 as (b&Hb&S1&S2&S3&S4&S5&S6&S7&S8&S9); try done;
    [|cbn; by rewrite Hlq]. cbn in S1, S2, S3, S4, S5, S6, S7.
  exists ps1. split_and!; try done.
  pose proof (tcp_inv_pcb _ _ _ (tr_inv _ Hrs1) Hps1) as Hoks1.
  destruct (tcp_emits_moves (Z.lor TCP_FLG_SYN TCP_FLG_ACK) ps1 kc ifc i pc wc)
    as (syn_ack&Esa&Hsa); rewrite ?S2, ?S3; try done.
  rewrite S2, S3 in Hsa.
  exists syn_ack. split; [exact Esa|]. eapply wp_mono; [exact Hsa|].
  intros [] wc1 (Hrc1&Hfc1&pc1&Hpc1&Ec1&Harr2).
  change (if TCP_FLG_ISSET (Z.lor TCP_FLG_SYN TCP_FLG_ACK) TCP_FLG_SYN then tp_iss ps1 else snd_nxt ps1)
    with (tp_iss ps1) in Harr2. rewrite S4, S7 in Harr2.
  apply handshake_syn_ack in Harr2 as (C1&C2&C3&C4&C5&C6&C7); try done.
  2:{ cbn. by apply Forall_fmap. }
  cbn in C1, C2, C3, C4, C5, C6. exists pc1. split_and!; try done.
  pose proof (tcp_inv_pcb _ _ _ (tr_inv _ Hrc1) Hpc1) as Hokc1.
  destruct (tcp_emits_moves TCP_FLG_ACK pc1 ks ifs j ps1 ws1) as (ack&Eack&Hack);
    rewrite ?C5, ?C6; try done.
  { by rewrite (tcp_frame_ifs _ _ Hfs1). }
  { rewrite Es1. apply conn_select_insert; [done|]. unfold conn_exact, conn_local_matches. cbn.
    rewrite S2, S3, !Z.eqb_refl. by rewrite orb_true_r. }
  rewrite C5, C6 in Hack.
  exists ack. split; [exact Eack|]. eapply wp_mono; [exact Hack|].
  intros [] ws2 (Hrs2&Hfs2&ps2&Hps2&_&Harr3).
  change (if TCP_FLG_ISSET TCP_FLG_ACK TCP_FLG_SYN then tp_iss pc1 else snd_nxt pc1)
    with (snd_nxt pc1) in Harr3. rewrite C3, C4 in Harr3.
  apply handshake_ack in Harr3 as (D1&D2&D3&D4&D5); try done.
  2:{ rewrite S8. cbn. by rewrite Hlst. }
  exists ps2. split; [done|]. cbn in D1, D2, D3, D4. split_and!; try done; try congruence.
  - by apply fmap_nil_inv in C7.
  - by apply fmap_nil_inv in D5.
Qed.
End Open.
