(* ===== verification/TcpTeardown.v ===== *)
(** * TCP: closing a connection

    The four segments that close a connection from both ends, sent by one
    host's [tcp_output] and received by the other's [tcp_input]. *)

From S2P Require Import Prelude Bytes Checksum Clock Text Addr Monad State Platform Queue Net.
From S2P Require Import Ether Drivers Device Sample Arp Ip Pseudo Udp Tcp TcpUser TcpLogic TcpConn.
From S2P Require Import TcpArrive TcpOps TcpProps TcpWire.

(** ** The steps, from the connection's side *)

(** A segment for a synchronised connection. *)
Lemma arrival_windowed `{Env} seg flags text local foreign c c' :
  c_state c ∈ conn_windowed → conn_arrival seg flags text local foreign c c' →
  c' = conn_arrives seg flags text c.
Proof.
  intros Hin Harr. unfold conn_windowed in Hin. rewrite !elem_of_cons, elem_of_nil in Hin.
  destruct Harr as [c E|c E|c iss c' E|c E|c E|c c'' E|c E]; try done;
    exfalso; rewrite E in Hin; naive_solver.
Qed.

(** The next segment expected is acceptable when it fits the window. *)
Lemma acceptable_next c seg :
  c_state c ∈ conn_windowed → seg_seq seg = c_rcv c → 0 <= seg_len seg <= 1 → 0 <= c_rcv c →
  seg_len seg <= conn_rwnd c → c_rcv c + TCP_BUFSIZ < 2 ^ 32 → 0 <= conn_rwnd c →
  conn_acceptable seg c = true.
Proof.
  intros Hin Hseq Hlen Hrcv Hfit Hwrap Hrw. unfold conn_acceptable, in_window.
  rewrite bool_decide_eq_true_2 by done. rewrite Hseq. cbn [andb].
  assert (conn_rwnd c <= TCP_BUFSIZ) by (unfold conn_rwnd; pose proof (zlen_nonneg (c_unread c)); lia).
  rewrite u32_small by ulia.
  destruct (Z.eqb_spec (seg_len seg) 0); destruct (Z.eqb_spec (conn_rwnd c) 0); cbn [negb andb]; try lia.
Qed.

(** A connection with nothing unacknowledged, whose next sequence numbers to
    send and to receive are [n] and [m]. *)
Record quiet (state n m : Z) (c : conn) : Prop := Quiet {
  q_state : c_state c = state;
  q_una : c_una c = n;
  q_nxt : c_nxt c = n;
  q_rcv : c_rcv c = m;
  q_rexmit : c_rexmit c = []
}.

(** The same after its FIN, which has the number [n]. *)
Record closing (state n m : Z) (c : conn) : Prop := Closing {
  cl_state : c_state c = state;
  cl_una : c_una c = n;
  cl_nxt : c_nxt c = n + 1;
  cl_rcv : c_rcv c = m;
  cl_rexmit : Forall (λ e, e.1.1 = n) (c_rexmit c)
}.

(** What no segment without text changes. *)
Definition conn_room (c : conn) : ip_endpoint * ip_endpoint * bytes := (c_local c, c_foreign c, c_unread c).

Lemma conn_room_rwnd c c' : conn_room c' = conn_room c → conn_rwnd c' = conn_rwnd c.
Proof. unfold conn_room, conn_rwnd. congruence. Qed.

Lemma close_quiet `{Env} state state' n m c r c' :
  quiet state n m c → conn_close_state state = Some state' → 0 <= n → n + 1 < 2 ^ 32 →
  conn_close c r c' → r = 0 ∧ closing state' n m c' ∧ conn_room c' = conn_room c.
Proof.
  intros [Hst Hu Hn Hr Hq] Hs Hn0 Hn1 Hc. destruct Hc as [s c' Es Hsent|Es]; [|congruence].
  rewrite Hst, Hs in Es. injection Es as <-. split; [done|].
  destruct Hsent as [[-> _] | [_ ->]]; cbn; rewrite ?Hn, ?u32_small by ulia; (split; [constructor; cbn|done]);
    try done; rewrite Hq; repeat constructor. done.
Qed.

Section Segments.
Context `{Env} (local foreign : ip_endpoint) (n m wnd : Z).

(** The other side's FIN, with nothing new acknowledged. *)
Lemma quiet_fin state state' c c' :
  quiet state m n c → (state, state') ∈ [(TCP_PCB_STATE_ESTABLISHED, TCP_PCB_STATE_CLOSE_WAIT);
                                         (TCP_PCB_STATE_FIN_WAIT2, TCP_PCB_STATE_TIME_WAIT)] →
  0 <= n → n + TCP_BUFSIZ < 2 ^ 32 → 0 < conn_rwnd c →
  conn_arrival (TcpSegmentInfo n m 1 wnd 0) (Z.lor TCP_FLG_ACK TCP_FLG_FIN) [] local foreign c c' →
  quiet state' m (n + 1) c' ∧ conn_room c' = conn_room c.
Proof.
  intros [Hst Hu Hn Hr Hq] Hs Hn0 Hwrap Hrw Harr. change TCP_BUFSIZ with 65535 in Hwrap.
  assert (state ∈ conn_windowed ∧ (state =? TCP_PCB_STATE_SYN_RECEIVED) = false
    ∧ (state =? TCP_PCB_STATE_LAST_ACK) = false ∧ (state =? TCP_PCB_STATE_FIN_WAIT1) = false)
    as (Hwin&E1&E2&E3).
  { rewrite !elem_of_cons, elem_of_nil in Hs. unfold conn_windowed.
    destruct Hs as [[= -> ->]|[[= -> ->]|[]]]; rewrite !elem_of_cons; split_and!; auto 10. }
  apply arrival_windowed in Harr; [|by rewrite Hst]. subst c'. unfold conn_arrives.
  rewrite acceptable_next; cbn [seg_seq seg_len]; try (rewrite ?Hst; done || lia).
  2:{ change TCP_BUFSIZ with 65535. lia. }
  change (TCP_FLG_ISSET (Z.lor TCP_FLG_ACK TCP_FLG_FIN) TCP_FLG_ACK) with true. cbn [andb].
  unfold conn_ack, conn_ack_established, conn_fin_acked. rewrite Hst, Hu, Hn, E1, E2, E3. cbn [seg_ack].
  rewrite Z.ltb_irrefl, andb_false_r. cbn [andb]. unfold conn_text.
  rewrite bool_decide_eq_false_2 by (by intros [_ []]). unfold conn_fin.
  change (TCP_FLG_ISSET (Z.lor TCP_FLG_ACK TCP_FLG_FIN) TCP_FLG_FIN) with true. cbv iota.
  split; [|done]. constructor; cbn; try done; [|apply u32_small; ulia].
  unfold conn_fin_state. rewrite Hst.
  rewrite !elem_of_cons, elem_of_nil in Hs. by destruct Hs as [[= -> ->]|[[= -> ->]|[]]].
Qed.

(** The acknowledgement of our FIN. *)
Lemma closing_ack c c' :
  closing TCP_PCB_STATE_FIN_WAIT1 m n c → 0 <= n → n + TCP_BUFSIZ < 2 ^ 32 → 0 <= conn_rwnd c →
  conn_arrival (TcpSegmentInfo n (m + 1) 0 wnd 0) TCP_FLG_ACK [] local foreign c c' →
  quiet TCP_PCB_STATE_FIN_WAIT2 (m + 1) n c' ∧ conn_room c' = conn_room c.
Proof.
  intros [Hst Hu Hn Hr Hq] Hn0 Hwrap Hrw Harr.
  assert (c_state c ∈ conn_windowed) as Hwin.
  { rewrite Hst. unfold conn_windowed. rewrite !elem_of_cons. auto. }
  apply arrival_windowed in Harr; [|done]. subst c'. unfold conn_arrives.
  rewrite acceptable_next; cbn [seg_seq seg_len]; try (done || lia).
  change (TCP_FLG_ISSET TCP_FLG_ACK TCP_FLG_ACK) with true. cbn [andb].
  set (seg := TcpSegmentInfo n (m + 1) 0 wnd 0).
  assert (conn_ack seg c
    = (set_c_state TCP_PCB_STATE_FIN_WAIT2 (conn_window seg (conn_acked (m + 1) c)), true)) as ->.
  { assert (conn_ack seg c = conn_ack_established seg c) as -> by (unfold conn_ack; by rewrite Hst).
    unfold conn_ack_established, conn_fin_acked. change (seg_ack seg) with (m + 1).
    rewrite Hu, Hn, Z.leb_refl, (proj2 (Z.ltb_lt m (m + 1))) by lia. cbn [andb].
    rewrite (conn_window_same c_state), (conn_window_same c_nxt) by done.
    change (c_state (conn_acked (m + 1) c)) with (c_state c).
    change (c_nxt (conn_acked (m + 1) c)) with (c_nxt c). by rewrite Hst, Hn, !Z.eqb_refl. }
  unfold conn_text. rewrite bool_decide_eq_false_2 by (by intros [_ []]). unfold conn_fin.
  change (TCP_FLG_ISSET TCP_FLG_ACK TCP_FLG_FIN) with false. cbv iota. split.
  - constructor; cbn; [done|..].
    + by rewrite (conn_window_same c_una).
    + by rewrite (conn_window_same c_nxt).
    + by rewrite (conn_window_same c_rcv).
    + rewrite (conn_window_same c_rexmit) by done. cbn. apply conn_unacked_all.
      eapply Forall_impl; [exact Hq|]. cbn. lia.
  - unfold conn_room. cbn. by rewrite (conn_window_same c_local), (conn_window_same c_foreign),
      (conn_window_same c_unread) by done.
Qed.

Lemma last_ack c c' :
  closing TCP_PCB_STATE_LAST_ACK m n c → 0 <= n → n + TCP_BUFSIZ < 2 ^ 32 → 0 <= conn_rwnd c →
  conn_arrival (TcpSegmentInfo n (m + 1) 0 wnd 0) TCP_FLG_ACK [] local foreign c c' → c' = conn_free.
Proof.
  intros [Hst Hu Hn Hr Hq] Hn0 Hwrap Hrw Harr.
  assert (c_state c ∈ conn_windowed) as Hwin.
  { rewrite Hst. unfold conn_windowed. rewrite !elem_of_cons. auto 10. }
  apply arrival_windowed in Harr; [|done]. subst c'. unfold conn_arrives.
  rewrite acceptable_next; cbn [seg_seq seg_len]; try (done || lia).
  change (TCP_FLG_ISSET TCP_FLG_ACK TCP_FLG_ACK) with true. cbn [andb].
  unfold conn_ack. rewrite Hst, Hn. cbn [seg_ack]. by rewrite !Z.eqb_refl.
Qed.
End Segments.

(** ** The exchange *)

Section Teardown.
Context `{Machine} `{EnvOk} `{!DeviceOps} `{!DeviceOpsOk}.

(** A command on a control block in use. *)
Lemma at_moves {A} i p (m : C A) fail step w :
  tcp_ready w → w_tcp w !! i = Some p → tp_state p ≠ TCP_PCB_STATE_FREE →
  wp m (λ r w', tcp_keeps w w' ∧ conns_at (Z.of_nat i) fail step (conns w) r (conns w')) w →
  wp m (λ r w', tcp_ready w' ∧ tcp_frame w w' ∧ ∃ p', w_tcp w' !! i = Some p'
    ∧ conns w' = <[i := abs p']> (conns w) ∧ step i (abs p) r (abs p')) w.
Proof.
  intros Hr Hp Hst Hm. pose proof (conns_lookup _ _ _ Hp) as Hc.
  eapply wp_mono; [exact Hm|]. intros r w' (Hk&Hat). unfold conns_at in Hat.
  rewrite Nat2Z.id, Hc in Hat. pose proof (lookup_lt_Some _ _ _ Hp) as Hlt.
  rewrite (proj1 (ti_wf _ (tr_inv _ Hr))) in Hlt. unfold TCP_PCB_SIZE in *.
  rewrite (proj2 (Z.leb_le 0 (Z.of_nat i))), (proj2 (Z.ltb_lt (Z.of_nat i) 16)) in Hat by lia.
  destruct (Z.eqb_spec (c_state (abs p)) TCP_PCB_STATE_FREE) as [|_]; [done|].
  destruct Hat as (c'&Ec&Hcl).
  assert (conns w' !! i = Some c') as (p'&Hp'&->)%conns_lookup_inv.
  { rewrite Ec. apply list_lookup_insert_eq. by eapply lookup_lt_Some. }
  split_and!; [by eapply tcp_ready_keeps|apply Hk|]. by exists p'.
Qed.

(** One end of a connection: block [i], reached over interface [k], between
    the endpoints [l] and [f]. *)
Record tcp_end (k : nat) (ifc : ip_iface) (i : nat) (l f : ip_endpoint) (p : tcp_pcb) (w : world)
  : Prop := TcpEnd {
  te_ready : tcp_ready w;
  te_pcb : w_tcp w !! i = Some p;
  te_local : tp_local p = l;
  te_foreign : tp_foreign p = f;
  te_select : conn_select l f (conns w) = Some i;
  te_if : n_ifs (w_net w) !! k = Some ifc;
  te_unicast : tcp_unicast (ep_addr f) (ep_addr l) ifc = true
}.

Lemma tcp_end_ok k ifc i l f p w : tcp_end k ifc i l f p w → tcp_pcb_ok p.
Proof. intros He. eapply tcp_inv_pcb; [apply He|apply He]. Qed.

Lemma tcp_end_step k ifc i l f p p' w w' :
  tcp_end k ifc i l f p w → tcp_ready w' → tcp_frame w w' → w_tcp w' !! i = Some p' →
  conns w' = <[i := abs p']> (conns w) → conn_room (abs p') = conn_room (abs p) →
  tcp_end k ifc i l f p' w'.
Proof.
  intros [Hr Hp Hl Hf Hs Hi Hu] Hr' Hfr Hp' Ec Hroom. injection Hroom as El Ef _.
  split; try done; [congruence|congruence| |by rewrite (tcp_frame_ifs _ _ Hfr)].
  rewrite Ec. apply conn_select_insert; [done|]. unfold conn_exact, conn_local_matches. cbn.
  by rewrite El, Ef, Hl, Hf, !Z.eqb_refl, orb_true_r.
Qed.

(** A segment that one end sends arrives at the other. *)
Lemma tcp_end_receives flg p k ifc i l f q w :
  tcp_pcb_ok p → tp_local p = f → tp_foreign p = l → is_u8 flg →
  TCP_FLG_ISSET flg TCP_FLG_SYN = false → tcp_end k ifc i l f q w →
  ∃ seg, tcp_emits p flg [] 0 = Some seg ∧
    wp (tcp_input seg TCP_HDR_SIZE (ep_addr f) (ep_addr l) k) (λ _ w', ∃ q',
      conn_arrival (TcpSegmentInfo (snd_nxt p) (rcv_nxt p) (tcp_seg_len flg 0) (rcv_wnd p) 0) flg [] l f
        (abs q) (abs q')
      ∧ (conn_room (abs q') = conn_room (abs q) → tcp_end k ifc i l f q' w')
      ∧ w_tcp w' !! i = Some q') w.
Proof.
  intros Hok Hl Hf Hflg Hsyn He. pose proof He as [Hr Hq _ _ Hs Hi Hu].
  destruct (tcp_emits_moves flg p k ifc i q w) as (seg&E&Hwp); rewrite ?Hl, ?Hf; try done.
  exists seg. split; [exact E|]. rewrite Hl, Hf in Hwp. eapply wp_mono; [exact Hwp|].
  intros [] w' (Hr'&Hfr&q'&Hq'&Ec&Ha). rewrite Hsyn in Ha. exists q'. split_and!; [exact Ha| |done].
  intros Hroom. by eapply tcp_end_step.
Qed.

Lemma tcp_end_closes k ifc i l f p state state' n m w :
  tcp_end k ifc i l f p w → quiet state n m (abs p) → conn_close_state state = Some state' →
  0 <= n → n + 1 < 2 ^ 32 →
  wp (tcp_close (Z.of_nat i)) (λ r w', r = 0 ∧ ∃ p', tcp_end k ifc i l f p' w'
    ∧ closing state' n m (abs p') ∧ conn_room (abs p') = conn_room (abs p)) w.
Proof.
  intros He Hq Hst Hn0 Hn1. assert (tp_state p ≠ TCP_PCB_STATE_FREE) as Hne.
  { pose proof (q_state _ _ _ _ Hq) as Es. cbn in Es. rewrite Es. intros ->. done. }
  eapply wp_mono; [eapply at_moves; [apply He|apply He|done|apply tcp_close_wp; apply He]|].
  intros r w' (Hr'&Hfr&p'&Hp'&Ec&Hcl). eapply close_quiet in Hcl as (->&Hc&Hroom); [|done..].
  split; [done|]. exists p'. split_and!; [|done..]. by eapply tcp_end_step.
Qed.

(** What a closing end's FIN carries. *)
Lemma synchronised_quiet p q :
  tcp_synchronised p q →
  quiet TCP_PCB_STATE_ESTABLISHED (snd_nxt p) (snd_nxt q) (abs p)
  ∧ quiet TCP_PCB_STATE_ESTABLISHED (snd_nxt q) (snd_nxt p) (abs q).
Proof.
  intros (S1&S2&S3&S4&S5&S6&S7&S8). split; constructor; cbn; try done.
  - by rewrite S7. - by rewrite S8.
Qed.

(** The three kinds of segments, from their sender to their effect. *)
Lemma end_fin k ifc i l f p q state state' n m w :
  tcp_pcb_ok p → tp_local p = f → tp_foreign p = l → snd_nxt p = n → rcv_nxt p = m →
  tcp_end k ifc i l f q w → quiet state m n (abs q) →
  (state, state') ∈ [(TCP_PCB_STATE_ESTABLISHED, TCP_PCB_STATE_CLOSE_WAIT);
                     (TCP_PCB_STATE_FIN_WAIT2, TCP_PCB_STATE_TIME_WAIT)] →
  n + TCP_BUFSIZ < 2 ^ 32 → 0 < conn_rwnd (abs q) →
  ∃ fin, tcp_emits p (Z.lor TCP_FLG_ACK TCP_FLG_FIN) [] 0 = Some fin ∧
    wp (tcp_input fin TCP_HDR_SIZE (ep_addr f) (ep_addr l) k) (λ _ w', ∃ q', tcp_end k ifc i l f q' w'
      ∧ quiet state' m (n + 1) (abs q') ∧ conn_room (abs q') = conn_room (abs q)) w.
Proof.
  intros Hok Hl Hf Hn Hm He Hq Hs Hwrap Hrw.
  destruct (tcp_end_receives (Z.lor TCP_FLG_ACK TCP_FLG_FIN) p k ifc i l f q w) as (fin&E&Hwp); try done.
  exists fin. split; [exact E|]. eapply wp_mono; [exact Hwp|]. intros [] w' (q'&Ha&He'&_).
  rewrite Hn, Hm in Ha. change (tcp_seg_len _ 0) with 1 in Ha.
  assert (0 <= n) by (destruct (tpo_snd _ Hok) as (?&_); ulia).
  eapply quiet_fin in Ha as [Hq' Hroom]; [|done..]. exists q'. auto.
Qed.

Lemma end_ack k ifc i l f p q n m w :
  tcp_pcb_ok p → tp_local p = f → tp_foreign p = l → snd_nxt p = n → rcv_nxt p = m + 1 →
  tcp_end k ifc i l f q w → closing TCP_PCB_STATE_FIN_WAIT1 m n (abs q) → n + TCP_BUFSIZ < 2 ^ 32 →
  ∃ ack, tcp_emits p TCP_FLG_ACK [] 0 = Some ack ∧
    wp (tcp_input ack TCP_HDR_SIZE (ep_addr f) (ep_addr l) k) (λ _ w', ∃ q', tcp_end k ifc i l f q' w'
      ∧ quiet TCP_PCB_STATE_FIN_WAIT2 (m + 1) n (abs q') ∧ conn_room (abs q') = conn_room (abs q)) w.
Proof.
  intros Hok Hl Hf Hn Hm He Hq Hwrap. pose proof (conn_rwnd_nonneg _ (tcp_end_ok _ _ _ _ _ _ _ He)) as Hrw.
  destruct (tcp_end_receives TCP_FLG_ACK p k ifc i l f q w) as (ack&E&Hwp); try done.
  exists ack. split; [exact E|]. eapply wp_mono; [exact Hwp|]. intros [] w' (q'&Ha&He'&_).
  rewrite Hn, Hm in Ha. change (tcp_seg_len _ 0) with 0 in Ha.
  assert (0 <= n) by (destruct (tpo_snd _ Hok) as (?&_); ulia).
  eapply closing_ack in Ha as [Hq' Hroom]; [|done..]. exists q'. auto.
Qed.

Lemma end_last_ack k ifc i l f p q n m w :
  tcp_pcb_ok p → tp_local p = f → tp_foreign p = l → snd_nxt p = n → rcv_nxt p = m + 1 →
  tcp_end k ifc i l f q w → closing TCP_PCB_STATE_LAST_ACK m n (abs q) → n + TCP_BUFSIZ < 2 ^ 32 →
  ∃ ack, tcp_emits p TCP_FLG_ACK [] 0 = Some ack ∧
    wp (tcp_input ack TCP_HDR_SIZE (ep_addr f) (ep_addr l) k) (λ _ w', ∃ q', w_tcp w' !! i = Some q'
      ∧ tp_state q' = TCP_PCB_STATE_FREE) w.
Proof.
  intros Hok Hl Hf Hn Hm He Hq Hwrap. pose proof (conn_rwnd_nonneg _ (tcp_end_ok _ _ _ _ _ _ _ He)) as Hrw.
  destruct (tcp_end_receives TCP_FLG_ACK p k ifc i l f q w) as (ack&E&Hwp); try done.
  exists ack. split; [exact E|]. eapply wp_mono; [exact Hwp|]. intros [] w' (q'&Ha&_&Hq').
  rewrite Hn, Hm in Ha. change (tcp_seg_len _ 0) with 0 in Ha.
  assert (0 <= n) by (destruct (tpo_snd _ Hok) as (?&_); ulia).
  eapply last_ack in Ha; [|done..]. exists q'. split; [done|]. exact (f_equal c_state Ha).
Qed.

(** The second half: the other end closes too. *)
Lemma teardown_second i j pa pb ka kb ifa ifb la lb n m wa wb :
  tcp_end ka ifa i la lb pa wa → tcp_end kb ifb j lb la pb wb →
  quiet TCP_PCB_STATE_FIN_WAIT2 n m (abs pa) → quiet TCP_PCB_STATE_CLOSE_WAIT m n (abs pb) →
  0 < conn_rwnd (abs pa) → n + TCP_BUFSIZ < 2 ^ 32 → m + 1 + TCP_BUFSIZ < 2 ^ 32 →
  ∃ fin_b, tcp_emits pb (Z.lor TCP_FLG_ACK TCP_FLG_FIN) [] 0 = Some fin_b ∧
  wp (tcp_close (Z.of_nat j)) (λ r wb2, r = 0 ∧
    (∃ pb2, w_tcp wb2 !! j = Some pb2 ∧ tp_state pb2 = TCP_PCB_STATE_LAST_ACK) ∧
    wp (tcp_input fin_b TCP_HDR_SIZE (ep_addr lb) (ep_addr la) ka) (λ _ wa3, ∃ pa3,
      w_tcp wa3 !! i = Some pa3 ∧ tp_state pa3 = TCP_PCB_STATE_TIME_WAIT ∧
      ∃ ack_a, tcp_emits pa3 TCP_FLG_ACK [] 0 = Some ack_a ∧
      wp (tcp_input ack_a TCP_HDR_SIZE (ep_addr la) (ep_addr lb) kb) (λ _ wb3, ∃ pb3,
        w_tcp wb3 !! j = Some pb3 ∧ tp_state pb3 = TCP_PCB_STATE_FREE) wb2) wa) wb.
Proof.
  intros Ha Hb Qa Qb Hrw Hn Hm. change TCP_BUFSIZ with 65535 in Hn, Hm.
  pose proof (tcp_end_ok _ _ _ _ _ _ _ Hb) as Hokb.
  assert (0 <= m). { pose proof (q_nxt _ _ _ _ Qb) as E. cbn in E. destruct (tpo_snd _ Hokb) as (?&_). ulia. }
  destruct (end_fin ka ifa i la lb pb pa TCP_PCB_STATE_FIN_WAIT2 TCP_PCB_STATE_TIME_WAIT m n wa)
    as (fin_b&Efb&Hfb); try done; try apply Hb; try apply Qb.
  { right. left. } { change TCP_BUFSIZ with 65535. lia. }
  exists fin_b. split; [exact Efb|].
  eapply wp_mono; [by eapply (tcp_end_closes kb ifb j lb la pb _ _ _ _ wb Hb Qb); [|lia..]|].
  intros r wb2 (->&pb2&Hb2&Cb2&_). split; [done|]. split; [exists pb2; split; [apply Hb2|apply Cb2]|].
  eapply wp_mono; [exact Hfb|]. intros [] wa3 (pa3&Ha3&Qa3&_). exists pa3.
  split; [apply Ha3|]. split; [apply Qa3|]. pose proof (tcp_end_ok _ _ _ _ _ _ _ Ha3) as Hoka3.
  apply (end_last_ack kb ifb j lb la pa3 pb2 n m wb2); try done; try apply Ha3; try apply Qa3.
Qed.

End Teardown.
