(* ===== verification/TcpStream.v ===== *)
(** * TCP: the byte stream of an established connection

    Segments the peer sends in order, some of them again, and reads by the
    user, interleaved in any way, with reads that wait and are woken. *)

From S2P Require Import Prelude Bytes Checksum Clock Text Addr Monad State Platform Queue Net.
From S2P Require Import Ether Drivers Device Sample Arp Ip Pseudo Udp Tcp TcpUser TcpLogic TcpConn TcpArrive TcpOps TcpProps TcpWire TcpTeardown.

(** The next segment of the peer, an earlier one again, a read and the end of
    the wait of a read. *)
Inductive stream_op :=
  | Deliver (text : bytes)
  | Again (seq : Z) (text : bytes)
  | Read (size : Z)
  | Wake (err size : Z).

(** The text the peer sends. *)
Definition stream_in (ops : list stream_op) : bytes :=
  mjoin ((λ op, match op with Deliver text => text | _ => [] end) <$> ops).

(** The peer keeps to the window: [unread] bytes wait to be read, and [seq] is
    the next number expected.  What comes again has come before. *)
Fixpoint stream_fits (unread seq : Z) (ops : list stream_op) : Prop :=
  match ops with
  | [] => True
  | Deliver text :: ops =>
      bytes_ok text ∧ zlen text <= TCP_TEXT_MAX ∧ unread + zlen text <= TCP_BUFSIZ
      ∧ stream_fits (unread + zlen text) (seq + zlen text) ops
  | Again old text :: ops =>
      bytes_ok text ∧ 0 < zlen text <= TCP_TEXT_MAX ∧ 0 <= old ∧ old + zlen text <= seq
      ∧ stream_fits unread seq ops
  | Read size :: ops => 0 <= size ∧ stream_fits (Z.max 0 (unread - size)) seq ops
  | Wake err size :: ops =>
      0 <= size ∧ stream_fits unread seq ops ∧ stream_fits (Z.max 0 (unread - size)) seq ops
  end.

Definition stream_out {K} (r : waits K (Z * bytes)) : bytes :=
  match r with
  | Returned (_, out) => out
  | Blocked _ => []
  end.

Section Stream.
Context `{Machine} `{EnvOk} `{!DeviceOps} `{!DeviceOpsOk}.

(** Block [i] has the endpoints [local] and [foreign]; the peer's segments
    start at [seq], acknowledge [ack] and announce the window [wnd].  The
    result is what the reads return. *)
Fixpoint stream_run (i : nat) (local foreign : ip_endpoint) (iface : nat) (ack wnd seq : Z)
    (ops : list stream_op) : C bytes :=
  match ops with
  | [] => ret []
  | Deliver text :: ops =>
      seg <- expect FaultBounds (tcp_segment seq ack (Z.lor TCP_FLG_ACK TCP_FLG_PSH) wnd text
                                   (zlen text) foreign local);;
      tcp_input seg (TCP_HDR_SIZE + zlen text) (ep_addr foreign) (ep_addr local) iface;;
      stream_run i local foreign iface ack wnd (seq + zlen text) ops
  | Again old text :: ops =>
      seg <- expect FaultBounds (tcp_segment old ack (Z.lor TCP_FLG_ACK TCP_FLG_PSH) wnd text
                                   (zlen text) foreign local);;
      tcp_input seg (TCP_HDR_SIZE + zlen text) (ep_addr foreign) (ep_addr local) iface;;
      stream_run i local foreign iface ack wnd seq ops
  | Read size :: ops =>
      r <- tcp_receive (Z.of_nat i) size;;
      rest <- stream_run i local foreign iface ack wnd seq ops;;
      ret (stream_out r ++ rest)
  | Wake err size :: ops =>
      r <- tcp_receive_wake err i size;;
      rest <- stream_run i local foreign iface ack wnd seq ops;;
      ret (stream_out r ++ rest)
  end.

(** ** One connection *)

(** What the stream does to the endpoints and the sending side of a
    connection: numbers sent before may be acknowledged. *)
Record stream_kept (c0 c : conn) : Prop := StreamKept {
  sk_local : c_local c = c_local c0;
  sk_foreign : c_foreign c = c_foreign c0;
  sk_nxt : c_nxt c = c_nxt c0;
  sk_una : c_una c0 <= c_una c;
  sk_rexmit : c_rexmit c0 = [] → c_rexmit c = [];
  sk_wnd : c_una c0 = c_nxt c0 → c_wnd c = c_wnd c0
}.

Context (c0 : conn).

Record stream_conn (local foreign : ip_endpoint) (ack seq : Z) (c : conn) : Prop := StreamConn {
  st_state : c_state c = TCP_PCB_STATE_ESTABLISHED;
  st_exact : conn_exact local foreign c = true;
  st_rcv : c_rcv c = seq;
  st_ack : c_una c <= ack <= c_nxt c;
  st_kept : stream_kept c0 c
}.

Lemma stream_acceptable local foreign ack seq wnd (text : bytes) c :
  stream_conn local foreign ack seq c → zlen text <= conn_rwnd c → 0 <= seq →
  seq + TCP_BUFSIZ < 2 ^ 32 →
  conn_acceptable (TcpSegmentInfo seq ack (zlen text) wnd 0) c = true.
Proof.
  intros [Hst _ Hr _ _] Hf Hs Hwrap. pose proof (zlen_nonneg text). pose proof (zlen_nonneg (c_unread c)).
  unfold conn_acceptable, in_window. rewrite Hst, Hr, bool_decide_eq_true_2 by (by right; left).
  assert (u32 (seq + conn_rwnd c) = seq + conn_rwnd c) as ->.
  { apply u32_small. unfold conn_rwnd, TCP_BUFSIZ in *. ulia. }
  cbn [andb seg_len seg_seq]. destruct (Z.eqb_spec (zlen text) 0), (Z.eqb_spec (conn_rwnd c) 0);
    cbn [negb andb]; lia.
Qed.

Lemma stream_deliver local foreign ack seq wnd text c c' :
  stream_conn local foreign ack seq c → zlen text <= conn_rwnd c → 0 <= seq →
  seq + TCP_BUFSIZ < 2 ^ 32 → zlen text <= TCP_TEXT_MAX →
  conn_arrival (TcpSegmentInfo seq ack (tcp_seg_len (Z.lor TCP_FLG_ACK TCP_FLG_PSH) (zlen text)) wnd 0)
    (Z.lor TCP_FLG_ACK TCP_FLG_PSH) text local foreign c c' →
  stream_conn local foreign ack (seq + zlen text) c' ∧ c_unread c' = c_unread c ++ text.
Proof.
  intros Hc Hf Hs Hwrap Hmax Harr. pose proof Hc as [Hst Hex Hr Hack Hk].
  pose proof (stream_acceptable _ _ _ _ wnd text c Hc Hf Hs Hwrap) as Hacc.
  assert (tcp_seg_len (Z.lor TCP_FLG_ACK TCP_FLG_PSH) (zlen text) = zlen text) as El.
  { change (zlen text + 0 + 0 = zlen text). lia. }
  rewrite El in Harr. clear El.
  set (seg := TcpSegmentInfo seq ack (zlen text) wnd 0) in *.
  destruct Harr as [c E|c E|c iss c' E|c E|c E|c c'' E|c E]; try (rewrite Hst in E; discriminate E).
  unfold conn_arrives. rewrite Hacc. change (TCP_FLG_ISSET _ TCP_FLG_ACK) with true. cbn [andb].
  assert (∃ c1, conn_ack seg c = (c1, true) ∧ stream_conn local foreign ack seq c1
    ∧ c_unread c1 = c_unread c) as (c1&->&[Hst1 Hex1 Hr1 Hack1 Hk1]&Hu).
  { unfold conn_ack. rewrite Hst. change (_ =? TCP_PCB_STATE_SYN_RECEIVED) with false.
    change (_ =? TCP_PCB_STATE_LAST_ACK) with false. cbv iota.
    destruct (Z.lt_ge_cases (c_una c) ack) as [Hlt|Hge].
    - rewrite conn_ack_new by (rewrite ?Hst; done || cbn; lia). eexists. split; [done|]. split.
      + split; rewrite ?(conn_window_same c_state), ?(conn_window_same c_una), ?(conn_window_same c_nxt),
          ?(conn_window_same c_rcv), ?(conn_window_same (conn_exact local foreign)) by done; try done.
        * cbn. lia.
        * destruct Hk as [K1 K2 K3 K4 K5 _]. split; rewrite ?(conn_window_same c_local),
            ?(conn_window_same c_foreign), ?(conn_window_same c_nxt), ?(conn_window_same c_una),
            ?(conn_window_same c_rexmit) by done; cbn; [done|done|done|lia| |lia]. intros E0. by rewrite K5.
      + by rewrite (conn_window_same c_unread).
    - exists c. unfold conn_ack_established, conn_fin_acked. rewrite Hst. cbn [seg_ack seg].
      replace (c_una c) with ack by lia. rewrite Z.ltb_irrefl, Z.leb_refl. cbn [andb].
      destruct (Z.ltb_spec (c_nxt c) ack); [lia|]. done. }
  unfold conn_fin. change (TCP_FLG_ISSET _ TCP_FLG_FIN) with false. cbv iota. unfold conn_text.
  change TCP_TEXT_MAX with 65495 in *. unfold TCP_BUFSIZ in *. pose proof (zlen_nonneg text).
  case_bool_decide as Htext.
  - split; [split; try done|]; cbn; [..|by rewrite Hu]; [apply u32_small; ulia|].
    by destruct Hk1.
  - destruct text as [|b text].
    + split; [split; try done|]; [|by rewrite app_nil_r]. cbn. by rewrite Z.add_0_r.
    + destruct Htext. split; [|done]. rewrite Hst1. by left.
Qed.

(** A segment that lies before the next number expected is not accepted. *)
Lemma stream_old local foreign ack seq old wnd (text : bytes) c :
  stream_conn local foreign ack seq c → 0 < zlen text → 0 <= old → old + zlen text <= seq →
  seq < 2 ^ 32 → conn_acceptable (TcpSegmentInfo old ack (zlen text) wnd 0) c = false.
Proof.
  intros [Hst _ Hr _ _] Hpos Hold Hlt Hs. unfold conn_acceptable, in_window. rewrite Hr.
  cbn [seg_len seg_seq]. apply andb_false_intro2. rewrite (u32_small (old + zlen text - 1)) by ulia.
  destruct (Z.eqb_spec (zlen text) 0); [lia|]. destruct (_ =? 0); [done|]. cbn [negb andb].
  by rewrite !(proj2 (Z.leb_gt _ _)) by lia.
Qed.

Lemma stream_again local foreign ack seq old wnd text c c' :
  stream_conn local foreign ack seq c → 0 < zlen text → 0 <= old → old + zlen text <= seq →
  seq < 2 ^ 32 →
  conn_arrival (TcpSegmentInfo old ack (zlen text) wnd 0) (Z.lor TCP_FLG_ACK TCP_FLG_PSH) text
    local foreign c c' → c' = c.
Proof.
  intros Hc Hpos Hold Hlt Hs Harr. pose proof (st_state _ _ _ _ _ Hc) as Hst.
  apply arrival_windowed in Harr as ->; [|rewrite Hst; by right; left].
  unfold conn_arrives. by rewrite (stream_old local foreign _ seq).
Qed.

Lemma stream_read i local foreign ack seq size c r c' :
  0 <= size → stream_conn local foreign ack seq c → conn_receive i size c r c' →
  stream_conn local foreign ack seq c' ∧ stream_out r ++ c_unread c' = c_unread c
  ∧ zlen (c_unread c') = Z.max 0 (zlen (c_unread c) - size).
Proof.
  intros Hsz [Hst Hex Hr Hack Hk] Hrc. pose proof (zlen_nonneg (c_unread c)).
  destruct Hrc as [Hcan Hne out|E Hn|E Hn|E Hn|E]; cbn [stream_out].
  - split; [split; try done; by destruct Hk|]. cbn. split; [apply take_drop|]. unfold zlen. rewrite length_drop. lia.
  - rewrite Hn. split_and!; [by split|done|change (zlen []) with 0; lia].
  - rewrite Hn. split_and!; [by split|done|change (zlen []) with 0; lia].
  - by rewrite Hst in E.
  - unfold conn_can_receive in E. by rewrite Hst in E.
Qed.

(** ** One step of the stream *)

(** Connection [i] of [w] is the connection of the stream. *)
Record stream_at (local foreign : ip_endpoint) (i iface : nat) (ack seq : Z) (c : conn) (w : world)
  : Prop := StreamAt {
  sa_ready : tcp_ready w;
  sa_iface : ∃ ifc, n_ifs (w_net w) !! iface = Some ifc
               ∧ tcp_unicast (ep_addr foreign) (ep_addr local) ifc = true;
  sa_select : conn_select local foreign (conns w) = Some i;
  sa_lookup : conns w !! i = Some c;
  sa_conn : stream_conn local foreign ack seq c
}.

Lemma stream_at_step local foreign i iface ack seq seq' c c' w w' :
  stream_at local foreign i iface ack seq c w → tcp_keeps w w' →
  conns w' = <[i := c']> (conns w) → stream_conn local foreign ack seq' c' →
  stream_at local foreign i iface ack seq' c' w'.
Proof.
  intros [Hr Hif Hsel Hc Hst] Hk E Hst'. split; [by eapply tcp_ready_keeps| | | |done].
  - rewrite (tcp_frame_ifs w); [done|apply Hk].
  - rewrite E. apply conn_select_insert; [done|apply Hst'].
  - rewrite E. apply list_lookup_insert_eq. by eapply lookup_lt_Some.
Qed.

Lemma deliver_wp local foreign i iface ack wnd seq text c w :
  endpoint_ok local → endpoint_ok foreign → is_u32 ack → is_u16 wnd → bytes_ok text →
  zlen text <= TCP_TEXT_MAX → zlen (c_unread c) + zlen text <= TCP_BUFSIZ →
  0 <= seq → seq + TCP_BUFSIZ < 2 ^ 32 → stream_at local foreign i iface ack seq c w →
  wp (seg <- expect FaultBounds (tcp_segment seq ack (Z.lor TCP_FLG_ACK TCP_FLG_PSH) wnd text
                                   (zlen text) foreign local);;
      tcp_input seg (TCP_HDR_SIZE + zlen text) (ep_addr foreign) (ep_addr local) iface)
    (λ _ w', ∃ c', stream_at local foreign i iface ack (seq + zlen text) c' w'
       ∧ c_unread c' = c_unread c ++ text) w.
Proof.
  intros Hl Hfo Hack Hwnd Hok Hmax Hfit Hseq Hwrap Hat.
  pose proof Hat as [Hr (ifc&Hif&Huni) Hsel Hc Hst]. pose proof (zlen_nonneg text).
  destruct (tcp_segment_moves seq ack (Z.lor TCP_FLG_ACK TCP_FLG_PSH) wnd text (zlen text) foreign local
    iface ifc w) as (seg&->&Hwp); try done.
  { unfold TCP_BUFSIZ in *. ulia. }
  { intros j cj Hj Hcj _. assert (cj = c) as -> by congruence. unfold conn_rwnd. lia. }
  do 2 wp_step. eapply wp_mono; [exact Hwp|]. intros [] w1 (Hk&Harr).
  unfold conns_arrival in Harr. rewrite Hsel in Harr. destruct Harr as (cx&c1&Hcx&E1&Harr).
  assert (cx = c) as -> by congruence. rewrite take_ge in Harr by (unfold zlen; lia).
  destruct (stream_deliver local foreign ack seq wnd text c c1) as [Hst1 Hu1]; try done;
    [unfold conn_rwnd; lia|]. exists c1. split; [by eapply stream_at_step|done].
Qed.

Lemma again_wp local foreign i iface ack wnd seq old text c w :
  endpoint_ok local → endpoint_ok foreign → is_u32 ack → is_u16 wnd → bytes_ok text →
  0 < zlen text <= TCP_TEXT_MAX → 0 <= old → old + zlen text <= seq → seq < 2 ^ 32 →
  stream_at local foreign i iface ack seq c w →
  wp (seg <- expect FaultBounds (tcp_segment old ack (Z.lor TCP_FLG_ACK TCP_FLG_PSH) wnd text
                                   (zlen text) foreign local);;
      tcp_input seg (TCP_HDR_SIZE + zlen text) (ep_addr foreign) (ep_addr local) iface)
    (λ _ w', stream_at local foreign i iface ack seq c w') w.
Proof.
  intros Hl Hfo Hack Hwnd Hok Hmax Hold Hlt Hs Hat.
  pose proof Hat as [Hr (ifc&Hif&Huni) Hsel Hc Hst].
  assert (tcp_seg_len (Z.lor TCP_FLG_ACK TCP_FLG_PSH) (zlen text) = zlen text) as El.
  { change (zlen text + 0 + 0 = zlen text). lia. }
  destruct (tcp_segment_moves old ack (Z.lor TCP_FLG_ACK TCP_FLG_PSH) wnd text (zlen text) foreign local
    iface ifc w) as (seg&->&Hwp); try done; [ulia|lia|lia| |].
  { intros j cj Hj Hcj. assert (cj = c) as -> by congruence. rewrite El.
    by rewrite (stream_old local foreign _ seq) by (done || lia). }
  do 2 wp_step. eapply wp_mono; [exact Hwp|]. intros [] w1 (Hk&Harr).
  unfold conns_arrival in Harr. rewrite Hsel in Harr. destruct Harr as (cx&c1&Hcx&E1&Harr).
  assert (cx = c) as -> by congruence. rewrite El, take_ge in Harr by (unfold zlen; lia).
  apply (stream_again _ _ _ seq) in Harr as ->; try (done || lia). by eapply stream_at_step.
Qed.

Lemma receive_wp local foreign i iface ack seq size c w :
  0 <= size → stream_at local foreign i iface ack seq c w →
  wp (tcp_receive (Z.of_nat i) size)
    (λ r w', ∃ c', stream_at local foreign i iface ack seq c' w'
       ∧ stream_out r ++ c_unread c' = c_unread c
       ∧ zlen (c_unread c') = Z.max 0 (zlen (c_unread c) - size)) w.
Proof.
  intros Hsz Hat. pose proof Hat as [[Hi _ HL] _ _ Hc Hst].
  eapply wp_mono; [by apply tcp_receive_wp|]. intros r w1 (Hk&Hr). unfold conns_at in Hr.
  rewrite Nat2Z.id, Hc, (st_state _ _ _ _ _ Hst) in Hr.
  assert (Z.of_nat i < TCP_PCB_SIZE) as Hlt.
  { apply lookup_lt_Some in Hc. unfold conns in Hc. rewrite length_fmap in Hc.
    destruct (ti_wf _ Hi) as [Hlen _]. rewrite Hlen in Hc. unfold TCP_PCB_SIZE in *. lia. }
  destruct (Z.leb_spec 0 (Z.of_nat i)), (Z.ltb_spec (Z.of_nat i) TCP_PCB_SIZE); try lia.
  destruct Hr as (c1&E1&Hr). apply (stream_read _ local foreign ack seq) in Hr as (Hst1&Eu&Ez); try done.
  exists c1. split; [by eapply stream_at_step|done].
Qed.

Lemma wake_wp local foreign i iface ack seq err size c w :
  0 <= size → stream_at local foreign i iface ack seq c w →
  wp (tcp_receive_wake err i size)
    (λ r w', ∃ c', stream_at local foreign i iface ack seq c' w'
       ∧ stream_out r ++ c_unread c' = c_unread c
       ∧ (zlen (c_unread c') = zlen (c_unread c)
          ∨ zlen (c_unread c') = Z.max 0 (zlen (c_unread c) - size))) w.
Proof.
  intros Hsz Hat. pose proof Hat as [[Hi _ HL] _ _ Hc Hst].
  destruct (conns_lookup_inv _ _ _ Hc) as (pcb&Hp&->).
  eapply wp_mono; [by apply tcp_receive_wake_wp|]. intros r w1 (Hk&c1&E1&[[-> ->]|Hr]).
  - exists (abs pcb). split; [by eapply stream_at_step|]. auto.
  - apply (stream_read _ local foreign ack seq) in Hr as (Hst1&Eu&Ez); try done.
    exists c1. split; [by eapply stream_at_step|auto].
Qed.

(** ** The stream *)

Lemma stream_run_wp i local foreign iface ack wnd seq ops c w :
  endpoint_ok local → endpoint_ok foreign → is_u32 ack → is_u16 wnd →
  stream_at local foreign i iface ack seq c w → stream_fits (zlen (c_unread c)) seq ops →
  0 <= seq → seq + zlen (stream_in ops) + TCP_BUFSIZ < 2 ^ 32 →
  wp (stream_run i local foreign iface ack wnd seq ops)
    (λ out w', ∃ c', stream_at local foreign i iface ack (seq + zlen (stream_in ops)) c' w'
       ∧ out ++ c_unread c' = c_unread c ++ stream_in ops) w.
Proof.
  intros Hl Hfo Hack Hwnd. revert seq c w. induction ops as [|op ops IH];
    intros seq c w Hat Hfits Hseq Hwrap; cbn [stream_run].
  { wp_step. exists c. change (stream_in []) with (@nil Z).
    change (zlen []) with 0. rewrite Z.add_0_r, app_nil_r. done. }
  pose proof (zlen_nonneg (stream_in ops)).
  assert (∀ size c1 w1 (r : waits nat (Z * bytes)),
    stream_in (op :: ops) = stream_in ops → stream_at local foreign i iface ack seq c1 w1 →
    stream_out r ++ c_unread c1 = c_unread c → zlen (c_unread c1) = size → stream_fits size seq ops →
    wp (rest <- stream_run i local foreign iface ack wnd seq ops;; ret (stream_out r ++ rest))
      (λ out w', ∃ c', stream_at local foreign i iface ack (seq + zlen (stream_in (op :: ops))) c' w'
       ∧ out ++ c_unread c' = c_unread c ++ stream_in (op :: ops)) w1) as Hread.
  { intros size c1 w1 r Ein Hat1 Eu <- Hfits1. rewrite Ein in *. wp_step.
    eapply wp_mono; [by apply (IH seq c1)|]. intros out w2 (c2&Hat2&E). wp_step. exists c2. split; [done|].
    by rewrite <- app_assoc, E, app_assoc, Eu. }
  destruct op as [text|old text|size|err size]; cbn [stream_fits] in Hfits.
  - destruct Hfits as (Hok&Hmax&Hfit&Hfits). pose proof (zlen_nonneg text).
    change (stream_in (Deliver text :: ops)) with (text ++ stream_in ops) in *. rewrite zlen_app in *.
    refine (wp_bind_assoc _ _ (λ _, stream_run i local foreign iface ack wnd (seq + zlen text) ops) _ _ _).
    wp_step. eapply wp_mono; [apply deliver_wp; (done || lia)|].
    intros [] w1 (c1&Hat1&Hu1). eapply wp_mono; [apply (IH _ c1); try done; try lia; by rewrite Hu1, zlen_app|].
    intros out w2 (c2&Hat2&Eu). exists c2. rewrite Z.add_assoc. split; [done|].
    by rewrite Eu, Hu1, <- app_assoc.
  - destruct Hfits as (Hok&Hmax&Hold&Hlt&Hfits).
    change (stream_in (Again old text :: ops)) with (stream_in ops) in *.
    refine (wp_bind_assoc _ _ (λ _, stream_run i local foreign iface ack wnd seq ops) _ _ _).
    wp_step. eapply wp_mono; [apply (again_wp local foreign i iface ack wnd seq old text c); try done; unfold TCP_BUFSIZ in *; lia|].
    intros [] w1 Hat1. by apply (IH seq c).
  - destruct Hfits as (Hsz&Hfits). wp_step. eapply wp_mono; [by apply receive_wp|].
    intros r w1 (c1&Hat1&Eu&Ez). by eapply Hread.
  - destruct Hfits as (Hsz&Hfits1&Hfits2). wp_step. eapply wp_mono; [by apply wake_wp|].
    intros r w1 (c1&Hat1&Eu&[Ez|Ez]); by eapply Hread.
Qed.

End Stream.

Section Guarantee.
Context `{Machine} `{EnvOk} `{!DeviceOps} `{!DeviceOpsOk}.

Lemma stream_kept_refl c : stream_kept c c.
Proof. by split. Qed.

(** The stream of a control block. *)
Lemma stream_run_pcb i pcb iface ifc ack wnd ops w :
  tcp_ready w → w_tcp w !! i = Some pcb → tp_state pcb = TCP_PCB_STATE_ESTABLISHED →
  conn_select (tp_local pcb) (tp_foreign pcb) (conns w) = Some i →
  n_ifs (w_net w) !! iface = Some ifc →
  tcp_unicast (ep_addr (tp_foreign pcb)) (ep_addr (tp_local pcb)) ifc = true →
  snd_una pcb <= ack <= snd_nxt pcb → is_u16 wnd →
  stream_fits (zlen (tcp_unread pcb)) (rcv_nxt pcb) ops →
  rcv_nxt pcb + zlen (stream_in ops) + TCP_BUFSIZ < 2 ^ 32 →
  wp (stream_run i (tp_local pcb) (tp_foreign pcb) iface ack wnd (rcv_nxt pcb) ops)
    (λ out w', ∃ pcb', w_tcp w' !! i = Some pcb'
       ∧ stream_at (abs pcb) (tp_local pcb) (tp_foreign pcb) i iface ack
           (rcv_nxt pcb + zlen (stream_in ops)) (abs pcb') w'
       ∧ out ++ tcp_unread pcb' = tcp_unread pcb ++ stream_in ops) w.
Proof.
  intros Hr Hp Hst Hsel Hif Huni Hack Hwnd Hfits Hwrap.
  pose proof (tcp_inv_pcb _ _ _ (tr_inv _ Hr) Hp) as [_ Hl Hf (Hnxt&Huna&_) _ _ (Hrn&_) _ _].
  assert (∀ p, tp_state p = TCP_PCB_STATE_ESTABLISHED → c_unread (abs p) = tcp_unread p) as Hu.
  { intros p E. cbn. by rewrite E. }
  assert (stream_at (abs pcb) (tp_local pcb) (tp_foreign pcb) i iface ack (rcv_nxt pcb) (abs pcb) w) as Hat.
  { split; [done|by exists ifc|done|by apply conns_lookup|]. split; try done.
    unfold conn_exact, conn_local_matches. cbn. by rewrite !Z.eqb_refl, orb_true_r. }
  eapply wp_mono; [apply stream_run_wp; try done; try ulia; by rewrite Hu|].
  intros out w' (c'&Hat'&E). pose proof Hat' as [_ _ _ (p'&Hp'&->)%conns_lookup_inv [Hst' _ _ _ _]].
  exists p'. split_and!; try done. by rewrite !Hu in E.
Qed.

(** C6. An established connection is a byte stream.  The peer's segments, as
    its TCP builds them and in order, are fed to [tcp_input], each followed
    by any repetitions of earlier ones, while the user calls [tcp_receive],
    in any interleaving, with calls that wait and are woken or interrupted;
    as long as the peer keeps to the window, nothing faults, the bytes returned by the reads followed by those still
    unread are the bytes that were unread followed by those sent, and the
    connection stays ESTABLISHED and expects the next byte. *)
Theorem tcp_stream i pcb iface ifc ack wnd ops w :
  tcp_ready w → w_tcp w !! i = Some pcb → tp_state pcb = TCP_PCB_STATE_ESTABLISHED →
  conn_select (tp_local pcb) (tp_foreign pcb) (conns w) = Some i →
  n_ifs (w_net w) !! iface = Some ifc →
  tcp_unicast (ep_addr (tp_foreign pcb)) (ep_addr (tp_local pcb)) ifc = true →
  snd_una pcb <= ack <= snd_nxt pcb → is_u16 wnd →
  stream_fits (zlen (tcp_unread pcb)) (rcv_nxt pcb) ops →
  rcv_nxt pcb + zlen (stream_in ops) + TCP_BUFSIZ < 2 ^ 32 →
  wp (stream_run i (tp_local pcb) (tp_foreign pcb) iface ack wnd (rcv_nxt pcb) ops)
    (λ out w', ∃ pcb', w_tcp w' !! i = Some pcb' ∧ tp_state pcb' = TCP_PCB_STATE_ESTABLISHED
       ∧ rcv_nxt pcb' = rcv_nxt pcb + zlen (stream_in ops)
       ∧ out ++ tcp_unread pcb' = tcp_unread pcb ++ stream_in ops) w.
Proof.
  intros. eapply wp_mono; [by apply (stream_run_pcb i pcb iface ifc)|].
  intros out w' (p'&Hp'&[_ _ _ _ [Hst' _ Hr' _ _]]&E). by exists p'.
Qed.
End Guarantee.
