(* ===== verification/TcpTransfer.v ===== *)
(** * TCP: a transfer from one host to another

    [tcp_send] on one host cuts the data into segments and keeps them for
    retransmission; the segments reach the other host's [tcp_input], whose
    user reads them with [tcp_receive], and the acknowledgement of the last
    one comes back. *)

From S2P Require Import Prelude Bytes Checksum Clock Text Addr Monad State Platform Queue Net.
From S2P Require Import Ether Drivers Device Sample Arp Ip Pseudo Udp Tcp TcpUser TcpLogic TcpConn.
From S2P Require Import TcpArrive TcpOps TcpProps TcpWire TcpTeardown TcpStream.

(** ** Segments *)

(** Texts with the sequence numbers from [seq] on, as segments that are kept. *)
Fixpoint segments (seq : Z) (texts : list bytes) : list (Z * Z * bytes) :=
  match texts with
  | [] => []
  | text :: texts => (seq, Z.lor TCP_FLG_ACK TCP_FLG_PSH, text) :: segments (seq + zlen text) texts
  end.

Lemma segments_app texts texts' : ∀ seq,
  segments seq (texts ++ texts') = segments seq texts ++ segments (seq + zlen (mjoin texts)) texts'.
Proof.
  induction texts as [|text texts IH]; intros seq; cbn [app segments].
  { change (zlen (mjoin [])) with 0. by rewrite Z.add_0_r. }
  change (mjoin (text :: texts)) with (text ++ mjoin texts). by rewrite IH, zlen_app, Z.add_assoc.
Qed.

Lemma segments_before seq texts una :
  Forall (λ text : bytes, 0 < zlen text) texts → seq + zlen (mjoin texts) <= una →
  Forall (λ e, e.1.1 < una) (segments seq texts).
Proof.
  revert seq. induction texts as [|text texts IH]; intros seq Hpos Hle; [by apply Forall_nil_2|].
  apply Forall_cons in Hpos as [Hp Hpos]. cbn [mjoin list_join] in Hle.
  change (text ++ _) with (text ++ mjoin texts) in Hle. rewrite zlen_app in Hle.
  pose proof (zlen_nonneg (mjoin texts)). apply Forall_cons_2; [cbn; lia|]. apply IH; [done|lia].
Qed.

(** The texts that are delivered, in order. *)
Definition deliveries (ops : list stream_op) : list bytes :=
  omap (λ op, match op with Deliver text => Some text | _ => None end) ops.

Lemma stream_in_deliveries ops : stream_in ops = mjoin (deliveries ops).
Proof.
  induction ops as [|op ops IH]; [done|].
  destruct op as [text| | |]; [|exact IH..]. exact (f_equal (app text) IH).
Qed.

(** ** The sender *)

Section Send.
Context `{Env} (i : nat) (mss len : Z) (data : bytes).

Lemma conn_cap_eq c :
  0 <= c_una c <= c_nxt c → c_nxt c < 2 ^ 32 → c_nxt c - c_una c <= c_wnd c < 2 ^ 32 →
  conn_cap c = c_wnd c - (c_nxt c - c_una c).
Proof.
  intros. unfold conn_cap. rewrite (u32_small (c_nxt c - c_una c)) by ulia. apply u32_small. ulia.
Qed.

(** With memory and room in the window for all of it, everything is sent, or
    the connection is given up when the link refuses a segment. *)
Lemma conn_send_all sent c r c' :
  never_fails → conn_send i mss data len sent c r c' → 0 < mss → 0 <= sent <= len → len <= zlen data →
  0 <= c_una c <= c_nxt c → c_nxt c + (len - sent) < 2 ^ 32 →
  c_nxt c - c_una c + (len - sent) <= c_wnd c < 2 ^ 32 →
  (r = Returned (-1) ∧ c' = conn_free)
  ∨ r = Returned len ∧ ∃ texts,
      c' = set_c_nxt (c_nxt c + (len - sent)) (set_c_rexmit (c_rexmit c ++ segments (c_nxt c) texts) c)
      ∧ mjoin texts = take (Z.to_nat (len - sent)) (drop (Z.to_nat sent) data)
      ∧ Forall (λ text, 0 < zlen text <= mss) texts.
Proof.
  intros Hmem Hs Hmss. induction Hs as [sent c Hge|sent c Hlt Hcap|sent c Hlt Hcap|sent c Hlt Hcap
    |sent c c1 r c' Hlt Hcap slen Hsent _ IH]; intros Hsent0 Hlen Hun Hwrap Hwnd.
  - right. replace sent with len by lia. split; [done|]. exists []. rewrite Z.sub_diag, Z.add_0_r.
    split_and!; [|done|by apply Forall_nil_2]. cbn. rewrite app_nil_r. by destruct c.
  - rewrite conn_cap_eq in Hcap; lia.
  - rewrite conn_cap_eq in Hcap; lia.
  - by left.
  - assert (conn_cap c = c_wnd c - (c_nxt c - c_una c)) as Ec.
    { apply conn_cap_eq; lia. }
    assert (0 < slen <= len - sent ∧ slen <= mss) as [Hsl Hsm] by (unfold slen; lia).
    set (text := take (Z.to_nat slen) (drop (Z.to_nat sent) data)) in *.
    assert (zlen text = slen) as Hz.
    { unfold text, zlen in *. rewrite length_take, length_drop. lia. }
    destruct Hsent as [[_ [[_ E]|Hno]]|[_ ->]]; [rewrite E in Hz; change (zlen []) with 0 in Hz; lia|done|].
    rewrite u32_small in IH by ulia. destruct IH as [IH|(->&texts&->&Et&Hf)]; cbn [c_nxt c_una c_wnd
      set_c_nxt set_c_rexmit]; [lia|lia|lia|lia|lia|by left|].
    right. split; [done|]. exists (text :: texts). cbn [c_nxt set_c_nxt c_rexmit set_c_rexmit] in *.
    split_and!.
    + unfold set_c_nxt, set_c_rexmit. cbn. rewrite Hz, <- app_assoc. cbn. f_equal; lia.
    + change (mjoin (text :: texts)) with (text ++ mjoin texts). rewrite Et. unfold text.
      replace (Z.to_nat (sent + slen)) with (Z.to_nat sent + Z.to_nat slen)%nat by lia.
      rewrite <- drop_drop. rewrite take_take_drop. f_equal. lia.
    + apply Forall_cons_2; [lia|done].
Qed.

Lemma conn_send_retry_sends sent c r c' :
  conn_can_send c = true → conn_send_retry i (Some mss) data len sent c r c' →
  conn_send i mss data len sent c r c'.
Proof. intros Hcan Hs. destruct Hs as [m r c' _ [= <-] Hs| |]; congruence. Qed.
End Send.

(** An acknowledgement of something new. *)
Lemma established_acked `{Env} local foreign n m a wnd c c' :
  c_state c = TCP_PCB_STATE_ESTABLISHED → c_una c = n → n < a <= c_nxt c → c_rcv c = m →
  0 <= m → m + TCP_BUFSIZ < 2 ^ 32 → 0 <= conn_rwnd c →
  conn_arrival (TcpSegmentInfo m a 0 wnd 0) TCP_FLG_ACK [] local foreign c c' →
  c_state c' = TCP_PCB_STATE_ESTABLISHED ∧ c_una c' = a ∧ c_nxt c' = c_nxt c ∧ c_rcv c' = m
  ∧ c_rexmit c' = conn_unacked a (c_rexmit c) ∧ conn_room c' = conn_room c.
Proof.
  intros Hst Hu Hn Hr Hm Hwrap Hrw Harr.
  assert (c_state c ∈ conn_windowed) as Hwin by (rewrite Hst; by right; left).
  apply arrival_windowed in Harr; [|done]. subst c'. unfold conn_arrives.
  rewrite acceptable_next; cbn [seg_seq seg_len]; try (done || lia).
  change (TCP_FLG_ISSET TCP_FLG_ACK TCP_FLG_ACK) with true. cbn [andb].
  set (seg := TcpSegmentInfo m a 0 wnd 0).
  assert (conn_ack seg c = (conn_window seg (conn_acked a c), true)) as ->.
  { assert (conn_ack seg c = conn_ack_established seg c) as -> by (unfold conn_ack; by rewrite Hst).
    apply conn_ack_new; [by rewrite Hst|]. cbn. lia. }
  unfold conn_text. rewrite bool_decide_eq_false_2 by (by intros [_ []]). unfold conn_fin.
  change (TCP_FLG_ISSET TCP_FLG_ACK TCP_FLG_FIN) with false. cbv iota. unfold conn_room.
  by rewrite ?(conn_window_same c_state), ?(conn_window_same c_una), ?(conn_window_same c_nxt),
    ?(conn_window_same c_rcv), ?(conn_window_same c_rexmit), ?(conn_window_same c_local),
    ?(conn_window_same c_foreign), ?(conn_window_same c_unread) by done.
Qed.

(** An acknowledgement that says nothing new. *)
Lemma established_repeated `{Env} local foreign n m wnd c c' :
  c_state c = TCP_PCB_STATE_ESTABLISHED → c_una c = n → n <= c_nxt c → c_rcv c = m →
  0 <= m → m + TCP_BUFSIZ < 2 ^ 32 → 0 <= conn_rwnd c →
  conn_arrival (TcpSegmentInfo m n 0 wnd 0) TCP_FLG_ACK [] local foreign c c' → c' = c.
Proof.
  intros Hst Hu Hn Hr Hm Hwrap Hrw Harr.
  assert (c_state c ∈ conn_windowed) as Hwin by (rewrite Hst; by right; left).
  apply arrival_windowed in Harr; [|done]. subst c'. unfold conn_arrives.
  rewrite acceptable_next; cbn [seg_seq seg_len]; try (done || lia).
  change (TCP_FLG_ISSET TCP_FLG_ACK TCP_FLG_ACK) with true. cbn [andb].
  set (seg := TcpSegmentInfo m n 0 wnd 0).
  assert (conn_ack seg c = (c, true)) as ->.
  { unfold conn_ack, conn_ack_established, conn_fin_acked. rewrite Hst. cbn [seg_ack seg].
    rewrite Hu, Z.ltb_irrefl, Z.leb_refl. cbn [andb]. by destruct (Z.ltb_spec (c_nxt c) n); [lia|]. }
  unfold conn_text. rewrite bool_decide_eq_false_2 by (by intros [_ []]). done.
Qed.

(** The acknowledgement of everything that was sent. *)
Lemma established_ack `{Env} local foreign n m a wnd c c' :
  c_state c = TCP_PCB_STATE_ESTABLISHED → c_una c = n → c_nxt c = a → c_rcv c = m → n < a →
  Forall (λ e, e.1.1 < a) (c_rexmit c) → 0 <= m → m + TCP_BUFSIZ < 2 ^ 32 → 0 <= conn_rwnd c →
  conn_arrival (TcpSegmentInfo m a 0 wnd 0) TCP_FLG_ACK [] local foreign c c' →
  quiet TCP_PCB_STATE_ESTABLISHED a m c' ∧ conn_room c' = conn_room c.
Proof.
  intros Hst Hu Hn Hr Hlt Hq Hm Hwrap Hrw Harr.
  eapply established_acked in Harr as (E1&E2&E3&E4&E5&E6); [|done|done|lia|done..].
  split; [|done]. constructor; try congruence. rewrite E5. by apply conn_unacked_all.
Qed.

(** ** The transfer *)

Section Transfer.
Context `{Machine} `{EnvOk} `{!DeviceOps} `{!DeviceOpsOk}.

Lemma end_established_ack k ifc i l f p q n m a w :
  tcp_pcb_ok p → tp_local p = f → tp_foreign p = l → snd_nxt p = m → rcv_nxt p = a →
  tcp_end k ifc i l f q w → c_state (abs q) = TCP_PCB_STATE_ESTABLISHED → c_una (abs q) = n →
  c_nxt (abs q) = a → c_rcv (abs q) = m → n < a → Forall (λ e, e.1.1 < a) (c_rexmit (abs q)) →
  m + TCP_BUFSIZ < 2 ^ 32 →
  ∃ ack, tcp_emits p TCP_FLG_ACK [] 0 = Some ack ∧
    wp (tcp_input ack TCP_HDR_SIZE (ep_addr f) (ep_addr l) k) (λ _ w', ∃ q', tcp_end k ifc i l f q' w'
      ∧ quiet TCP_PCB_STATE_ESTABLISHED a m (abs q')) w.
Proof.
  intros Hok Hl Hf Hn Hr He Hst Hu Hnx Hrc Hlt Hq Hwrap.
  pose proof (conn_rwnd_nonneg _ (tcp_end_ok _ _ _ _ _ _ _ He)) as Hrw.
  destruct (tcp_end_receives TCP_FLG_ACK p k ifc i l f q w) as (ack&E&Hwp); try done.
  exists ack. split; [exact E|]. eapply wp_mono; [exact Hwp|]. intros [] w' (q'&Ha&He'&_).
  rewrite Hn, Hr in Ha. change (tcp_seg_len _ 0) with 0 in Ha.
  assert (0 <= m) by (destruct (tpo_snd _ Hok) as (?&_); ulia).
  eapply established_ack in Ha as [Hq' Hroom]; [|done..]. exists q'. auto.
Qed.

(** Sending everything, from the control block's side. *)
Lemma send_all_wp k ifc i l f p mss data w :
  never_fails → tcp_end k ifc i l f p w → tp_state p = TCP_PCB_STATE_ESTABLISHED →
  snd_una p = snd_nxt p → tp_queue p = [] → route_mss w (ep_addr f) = Some mss → 0 < mss →
  bytes_ok data → zlen data <= snd_wnd p → snd_nxt p + zlen data < 2 ^ 32 →
  wp (tcp_send (Z.of_nat i) data (zlen data)) (λ r w', ∃ p', w_tcp w' !! i = Some p' ∧
    ((r = Returned (-1) ∧ tp_state p' = TCP_PCB_STATE_FREE)
     ∨ r = Returned (zlen data) ∧ tcp_end k ifc i l f p' w' ∧ ∃ texts,
         abs p' = set_c_nxt (snd_nxt p + zlen data) (set_c_rexmit (segments (snd_nxt p) texts) (abs p))
         ∧ mjoin texts = data ∧ Forall (λ text, 0 < zlen text <= mss) texts)) w.
Proof.
  intros Hmem He Hst Huna Hq Hmss Hpos Hok Hwnd Hwrap. pose proof He as [Hr Hp Hl Hf _ _ _].
  pose proof (tcp_end_ok _ _ _ _ _ _ _ He) as Hpok. pose proof Hpok as [_ _ _ (Hn&Hu&Hw) _ _ _ _ _].
  eapply wp_mono.
  { eapply at_moves; [exact Hr|exact Hp|by rewrite Hst|].
    apply tcp_send_wp; [apply Hr..|done|done]. }
  cbv beta. intros r w' (Hr'&Hfr&p'&Hp'&Ec&Hs). exists p'. split; [done|].
  change (c_foreign (abs p)) with (tp_foreign p) in Hs. rewrite Hf, Hmss in Hs.
  assert (conn_can_send (abs p) = true) as Hcan by (unfold conn_can_send; cbn; by rewrite Hst).
  apply conn_send_retry_sends in Hs; [|done]. apply conn_send_all in Hs; try done; cbn; try ulia.
  2:{ pose proof (zlen_nonneg data). lia. }
  destruct Hs as [[-> E]|(->&texts&E&Et&Hft)].
  - left. split; [done|]. exact (f_equal c_state E).
  - right. split; [done|]. rewrite Z.sub_0_r in *. split.
    + eapply tcp_end_step; try done. by rewrite E.
    + exists texts. cbn in E |- *. rewrite Hq in E. split_and!; [done| |done]. rewrite Et.
      change (Z.to_nat 0) with 0%nat. rewrite drop_0. apply take_zlen. lia.
Qed.
Lemma route_mss_pos w dst mss : mtu_ok w → route_mss w dst = Some mss → 0 < mss.
Proof.
  intros Hm. unfold route_mss. pose proof (ip_route_select_best (i_routes (w_ip w)) dst) as Hb.
  destruct (ip_route_select _ dst) as [r|]; cbn [mbind option_bind]; [|done].
  destruct Hb as (k&Hk%list_elem_of_lookup_2&_).
  destruct (n_ifs (w_net w) !! rt_iface r) as [ifc|] eqn:Ei; cbn [mbind option_bind]; [|done].
  destruct (if_dev ifc) as [d|] eqn:Ed; cbn [mbind option_bind]; [|done].
  destruct ((dev_static <$> _) !! d) as [dev|] eqn:Edev; cbn [mbind option_bind]; [|done].
  intros [= <-]. pose proof (Hm r ifc d dev Hk Ei Ed Edev). lia.
Qed.

(** A transfer delivers the data.  On two synchronised ends, with memory
    to keep the segments and room in both windows, [tcp_send] of one end
    sends everything (or gives the connection up when the link refuses a
    segment) and keeps it as consecutive segments of at most the size the
    route allows.  When these reach the other end in order, with any
    repetitions, while its user reads, the bytes read and those still unread
    are those that were unread before followed by the data; and when the
    acknowledgement of the last segment comes back, the ends are synchronised
    again and nothing is left to retransmit. *)
Lemma tcp_transfer i j pa pb ka kb ifa ifb la lb mss data wa wb :
  never_fails → tcp_end ka ifa i la lb pa wa → tcp_end kb ifb j lb la pb wb →
  tcp_synchronised pa pb → route_mss wa (ep_addr lb) = Some mss → bytes_ok data → 0 < zlen data →
  zlen data <= snd_wnd pa → snd_nxt pa + zlen data + TCP_BUFSIZ < 2 ^ 32 →
  snd_nxt pb + TCP_BUFSIZ < 2 ^ 32 →
  wp (tcp_send (Z.of_nat i) data (zlen data)) (λ r wa1, ∃ pa1, w_tcp wa1 !! i = Some pa1 ∧
    ((r = Returned (-1) ∧ tp_state pa1 = TCP_PCB_STATE_FREE)
     ∨ r = Returned (zlen data) ∧ ∃ texts,
         entry_abs <$> tp_queue pa1 = segments (snd_nxt pa) texts
         ∧ mjoin texts = data ∧ Forall (λ text, 0 < zlen text <= mss) texts
         ∧ ∀ ops, deliveries ops = texts → stream_fits (zlen (tcp_unread pb)) (rcv_nxt pb) ops →
           wp (stream_run j lb la kb (rcv_nxt pa1) (rcv_wnd pa1) (snd_nxt pa) ops) (λ out wb1,
             ∃ pb1, w_tcp wb1 !! j = Some pb1 ∧ out ++ tcp_unread pb1 = tcp_unread pb ++ data
             ∧ ∃ ack, tcp_emits pb1 TCP_FLG_ACK [] 0 = Some ack
             ∧ wp (tcp_input ack TCP_HDR_SIZE (ep_addr lb) (ep_addr la) ka) (λ _ wa2,
                 ∃ pa2, w_tcp wa2 !! i = Some pa2 ∧ tcp_synchronised pa2 pb1) wa1) wb)) wa.
Proof.
  intros Hmem Ha Hb (A1&B1&AB&BA&A2&B2&A3&B3) Hmss Hok Hpos Hwnd Hwrap Hwrap'.
  assert (0 < mss) as Hm by (eapply route_mss_pos; [apply Ha|done]).
  unfold TCP_BUFSIZ in Hwrap, Hwrap'.
  eapply wp_mono; [eapply (send_all_wp ka ifa i la lb pa mss); (done || lia)|].
  intros r wa1 (pa1&Hpa1&[Hfail|(->&Ha1&texts&E&Et&Hft)]); exists pa1; (split; [done|]); [by left|].
  right. split; [done|]. exists texts.
  assert (c_state (abs pa1) = TCP_PCB_STATE_ESTABLISHED ∧ c_una (abs pa1) = snd_nxt pa
    ∧ c_nxt (abs pa1) = snd_nxt pa + zlen data ∧ c_rcv (abs pa1) = rcv_nxt pa
    ∧ c_rexmit (abs pa1) = segments (snd_nxt pa) texts) as (C1&C2&C3&C4&C5).
  { rewrite E. cbn. by split_and!. }
  split_and!; [exact C5|done|done|]. intros ops Hops Hfits.
  pose proof (tcp_end_ok _ _ _ _ _ _ _ Ha1) as [_ _ _ _ _ _ (_&Hrw) _ _].
  assert (stream_in ops = data) as Hin by (by rewrite stream_in_deliveries, Hops).
  cbn in C4. rewrite C4. pose proof Hb as [Rb Pb Lb Fb Sb Ib Ub].
  rewrite AB. rewrite <- Lb, <- Fb.
  eapply wp_mono; [apply (stream_run_pcb j pb kb ifb); rewrite ?Lb, ?Fb; try done; try lia|].
  { rewrite Hin, <- AB. unfold TCP_BUFSIZ. lia. }
  rewrite Hin, Lb, Fb. intros out wb1 (pb1&Hpb1&Hat&Eout). exists pb1. split_and!; [done|done|].
  pose proof Hat as [Rb1 _ _ _ [D1 _ D2 D3 [K1 K2 K3 K4 K5 _]]]. cbn in D1, D2, D3, K1, K2, K3, K4.
  pose proof (tcp_inv_pcb _ _ _ (tr_inv _ Rb1) Hpb1) as Hok1.
  assert (tp_queue pb1 = []) as Q1 by (eapply fmap_nil_inv, K5; cbn; by rewrite B3).
  destruct (end_established_ack ka ifa i la lb pb1 pa1 (snd_nxt pa) (snd_nxt pb)
    (snd_nxt pa + zlen data) wa1) as (ack&Eack&Hwp);
    try (done || congruence || lia || (unfold TCP_BUFSIZ; lia)).
  { cbn. congruence. }
  { rewrite C5. apply segments_before; [|rewrite Et; lia]. eapply Forall_impl; [exact Hft|]. cbn. lia. }
  exists ack. split; [exact Eack|]. eapply wp_mono; [exact Hwp|].
  intros [] wa2 (pa2&[_ Hpa2 _ _ _ _ _]&[F1 F2 F3 F4 F5]). exists pa2. split; [done|].
  apply fmap_nil_inv in F5. cbn in F1, F2, F3, F4. by split_and!; try done; lia.
Qed.
End Transfer.
