(* ===== verification/TcpSample.v ===== *)
(** * TCP on the sample host

    Concrete states on which the hypotheses of the theorems on TCP are
    checked: an open in progress, a listener, the two ends of an established
    connection, one that retransmits and one that has ended. *)

From S2P Require Import Prelude Bytes Checksum Clock Text Addr Monad State Platform Queue Net.
From S2P Require Import Ether Drivers Device Sample Arp Ip Pseudo Udp Tcp TcpUser TcpLogic TcpConn TcpArrive TcpOps TcpProps TcpWire TcpTeardown TcpStream TcpTransfer.

(** 192.0.2.2:49152 and 192.0.2.1:80 *)
Definition sample_local : ip_endpoint := IpEndpoint addr_tap 0x00c0.
Definition sample_foreign : ip_endpoint := IpEndpoint addr_gw 0x5000.

Definition sample_opening : tcp_pcb :=
  set_tp_state TCP_PCB_STATE_SYN_SENT (set_snd_nxt 101 (set_snd_una 100 (set_tp_iss 100
    (set_rcv_wnd TCP_BUFSIZ (set_tp_foreign sample_foreign (set_tp_local sample_local
      tcp_pcb_zero)))))).

Definition sample_listener : tcp_pcb :=
  set_tp_state TCP_PCB_STATE_LISTEN (set_tp_local (IpEndpoint IP_ADDR_ANY 0x5000) tcp_pcb_zero).

Definition sample_established : tcp_pcb :=
  set_tp_state TCP_PCB_STATE_ESTABLISHED (set_rcv_nxt 500 (set_snd_wnd 1000
    (set_snd_nxt 101 (set_snd_una 101 (set_tp_iss 100 (set_rcv_wnd TCP_BUFSIZ
      (set_tp_foreign sample_foreign (set_tp_local sample_local tcp_pcb_zero)))))))).

(** A table with one control block in use. *)
Definition sample_tcp (pcb : tcp_pcb) : list tcp_pcb := pcb :: replicate 15 tcp_pcb_zero.

Lemma sample_endpoints_ok : endpoint_ok sample_local ∧ endpoint_ok sample_foreign.
Proof. by split. Qed.

Lemma sample_opening_ok : tcp_pcb_ok sample_opening.
Proof.
  destruct sample_endpoints_ok. unfold sample_opening. generalize tcp_pcb_zero tcp_pcb_zero_ok.
  intros p Hp. pcb_fields Hp; ulia.
Qed.

Lemma sample_listener_ok : tcp_pcb_ok sample_listener.
Proof.
  unfold sample_listener. generalize tcp_pcb_zero tcp_pcb_zero_ok. intros p Hp. pcb_fields Hp.
  all: by split.
Qed.

Lemma sample_established_ok : tcp_pcb_ok sample_established.
Proof.
  destruct sample_endpoints_ok. unfold sample_established. generalize tcp_pcb_zero tcp_pcb_zero_ok.
  intros p Hp. pcb_fields Hp; ulia.
Qed.

Lemma sample_ready pcb : tcp_pcb_ok pcb → tcp_ready (sample_world (sample_tcp pcb)).
Proof.
  intros Hp. split.
  - split; [|apply sample_ip_wf|apply sample_link_free]. split; [done|].
    apply Forall_cons_2; [done|]. apply Forall_replicate, tcp_pcb_zero_ok.
  - intros r ifc d dev Hr. cbn [i_routes w_ip sample_world sample_ip] in Hr.
    rewrite !elem_of_cons, elem_of_nil in Hr. destruct Hr as [->|[->|[->|[]]]]; intros [= <-] [= <-] [= <-]; done.
  - apply not_elem_of_nil.
Qed.


Lemma tcp_transitions_witness :
  ∃ r w' pcb', @tcp_run sample_machine sample_env sample_ops (TcpClose 0)
      (sample_world (sample_tcp sample_established)) = Done r w'
    ∧ w_tcp w' !! 0%nat = Some pcb' ∧ tp_state pcb' = TCP_PCB_STATE_FIN_WAIT1.
Proof.
  assert (match @tcp_run sample_machine sample_env sample_ops (TcpClose 0)
    (sample_world (sample_tcp sample_established)) with
    | Done _ w => tp_state <$> w_tcp w !! 0%nat | Fault _ => None end = Some TCP_PCB_STATE_FIN_WAIT1)
    as Hv by (vm_compute; reflexivity).
  destruct (@tcp_run sample_machine sample_env sample_ops (TcpClose 0)
    (sample_world (sample_tcp sample_established))) as [r w'|f] eqn:E; [|discriminate Hv].
  destruct (@tcp_transitions sample_machine sample_env sample_env_ok sample_ops sample_ops_ok _
    (sample_world (sample_tcp sample_established)) (TcpClose 0) r w' 0%nat sample_established
    (sample_ready _ sample_established_ok) (reaches_here _) I E eq_refl) as (pcb'&Hp&Hm).
  exists r, w', pcb'. split_and!; [done|done|]. rewrite Hp in Hv. by injection Hv.
Defined.

Definition sample_text : bytes := [72; 105; 33].

Lemma tcp_segment_delivered_witness :
  ∃ seg, @tcp_segment sample_machine 500 101 24 1000 sample_text 3 sample_foreign sample_local = Some seg
    ∧ @tcp_input sample_machine sample_env sample_ops (seg ++ []) 23 addr_gw addr_tap 0
        (sample_world (sample_tcp sample_established))
      = (mutex_lock MutexTcp;;
         @tcp_segment_arrives sample_machine sample_env sample_ops
           (TcpSegmentInfo 500 101 3 1000 0) 24 sample_text 3 sample_local sample_foreign;;
         mutex_unlock MutexTcp) (sample_world (sample_tcp sample_established)).
Proof.
  destruct sample_endpoints_ok.
  apply (@tcp_segment_delivered sample_machine sample_env sample_ops 500 101 24 1000 sample_text 3
    sample_foreign sample_local [] 0 (IpIface NET_IFACE_FAMILY_IP (Some 0%nat) addr_tap 0x00ffffff 0x000200c0)
    (sample_world (sample_tcp sample_established))); try done.
  by repeat apply Forall_cons_2. 
  by apply Forall_nil_2.
Defined.

Lemma sample_select_opening :
  conn_select sample_local sample_foreign (conns (sample_world (sample_tcp sample_opening))) = Some 0%nat.
Proof. vm_compute. reflexivity. Qed.

Lemma sample_select_listener :
  conn_select sample_foreign sample_local (conns (sample_world (sample_tcp sample_listener))) = Some 0%nat.
Proof. vm_compute. reflexivity. Qed.

Lemma sample_select_established :
  conn_select sample_local sample_foreign (conns (sample_world (sample_tcp sample_established)))
  = Some 0%nat.
Proof. vm_compute. reflexivity. Qed.

(** The handshake of the sample client with the sample server. *)
Lemma tcp_handshake_witness :
  ∃ syn w1 ps1 syn_ack w2 pc1 ack w3 ps2,
    @tcp_emits sample_machine sample_opening TCP_FLG_SYN [] 0 = Some syn
    ∧ @tcp_input sample_machine sample_env sample_ops syn TCP_HDR_SIZE addr_tap addr_gw 0
        (sample_world (sample_tcp sample_listener)) = Done tt w1
    ∧ w_tcp w1 !! 0%nat = Some ps1
    ∧ @tcp_emits sample_machine ps1 (Z.lor TCP_FLG_SYN TCP_FLG_ACK) [] 0 = Some syn_ack
    ∧ @tcp_input sample_machine sample_env sample_ops syn_ack TCP_HDR_SIZE addr_gw addr_tap 0
        (sample_world (sample_tcp sample_opening)) = Done tt w2
    ∧ w_tcp w2 !! 0%nat = Some pc1
    ∧ @tcp_emits sample_machine pc1 TCP_FLG_ACK [] 0 = Some ack
    ∧ @tcp_input sample_machine sample_env sample_ops ack TCP_HDR_SIZE
        (ep_addr (tp_local pc1)) (ep_addr (tp_foreign pc1)) 0 w1 = Done tt w3
    ∧ w_tcp w3 !! 0%nat = Some ps2 ∧ tcp_synchronised pc1 ps2.
Proof.
  destruct (@tcp_handshake sample_machine sample_env sample_env_ok sample_ops sample_ops_ok
    0%nat 0%nat sample_opening sample_listener 0%nat 0%nat
    (IpIface NET_IFACE_FAMILY_IP (Some 0%nat) addr_tap 0x00ffffff 0x000200c0)
    (IpIface NET_IFACE_FAMILY_IP (Some 0%nat) addr_tap 0x00ffffff 0x000200c0)
    (sample_world (sample_tcp sample_opening)) (sample_world (sample_tcp sample_listener))
    (sample_ready _ sample_opening_ok) (sample_ready _ sample_listener_ok) eq_refl eq_refl
    sample_select_opening sample_select_listener eq_refl eq_refl eq_refl eq_refl eq_refl
    ltac:(cbn; lia) eq_refl eq_refl ltac:(by apply Forall_nil_2) eq_refl eq_refl)
    as (syn&E1&([]&w1&E2&ps1&E3&_&L1&L2&syn_ack&E4&Hwp)%wp_Done).
  rewrite L1, L2 in Hwp.
  apply wp_Done in Hwp as ([]&w2&E5&pc1&E6&_&ack&E7&([]&w3&E8&ps2&E9&Hs)%wp_Done).
  exists syn, w1, ps1, syn_ack, w2, pc1, ack, w3, ps2.
  exact (conj E1 (conj E2 (conj E3 (conj E4 (conj E5 (conj E6 (conj E7 (conj E8 (conj E9 Hs))))))))).
Defined.

(** Two segments, the first of them twice, and reads in between; the first
    read waits. *)
Definition sample_stream : list stream_op :=
  [Read 10; Deliver sample_text; Again 500 sample_text; Wake 0 2; Deliver [1; 2]; Read 10].

Lemma sample_unread : zlen (tcp_unread sample_established) = 0.
Proof. by rewrite zlen_tcp_unread by apply sample_established_ok. Qed.

Lemma tcp_stream_witness :
  ∃ out w' pcb',
    @stream_run sample_machine sample_env sample_ops 0 sample_local sample_foreign 0 101 1000 500
      sample_stream (sample_world (sample_tcp sample_established)) = Done out w'
    ∧ w_tcp w' !! 0%nat = Some pcb' ∧ rcv_nxt pcb' = 505
    ∧ out ++ tcp_unread pcb' = tcp_unread sample_established ++ sample_text ++ [1; 2].
Proof.
  destruct (wp_Done _ _ _ (@tcp_stream sample_machine sample_env sample_env_ok sample_ops sample_ops_ok
    0%nat sample_established 0%nat
    (IpIface NET_IFACE_FAMILY_IP (Some 0%nat) addr_tap 0x00ffffff 0x000200c0) 101 1000 sample_stream
    (sample_world (sample_tcp sample_established)) (sample_ready _ sample_established_ok) eq_refl eq_refl
    sample_select_established eq_refl eq_refl ltac:(cbn; lia) ltac:(done)
    ltac:(rewrite sample_unread; cbn; split_and!; (lia || by repeat apply Forall_cons_2))
    ltac:(done))) as (out&w'&E&pcb'&Hp&_&Hr&Eo).
  exists out, w', pcb'. exact (conj E (conj Hp (conj Hr Eo))).
Defined.

(** The other end of the sample connection. *)
Definition sample_other : tcp_pcb :=
  set_tp_state TCP_PCB_STATE_ESTABLISHED (set_rcv_nxt 101 (set_snd_wnd 1000
    (set_snd_nxt 500 (set_snd_una 500 (set_tp_iss 499 (set_rcv_wnd TCP_BUFSIZ
      (set_tp_foreign sample_local (set_tp_local sample_foreign tcp_pcb_zero)))))))).

Lemma sample_other_ok : tcp_pcb_ok sample_other.
Proof.
  destruct sample_endpoints_ok. unfold sample_other. generalize tcp_pcb_zero tcp_pcb_zero_ok.
  intros p Hp. pcb_fields Hp; ulia.
Qed.

Lemma sample_select_other :
  conn_select sample_foreign sample_local (conns (sample_world (sample_tcp sample_other))) = Some 0%nat.
Proof. vm_compute. reflexivity. Qed.

Definition sample_ifc : ip_iface :=
  IpIface NET_IFACE_FAMILY_IP (Some 0%nat) addr_tap 0x00ffffff 0x000200c0.

Lemma sample_end_here :
  tcp_end 0 sample_ifc 0 sample_local sample_foreign sample_established
    (sample_world (sample_tcp sample_established)).
Proof. split; [apply sample_ready, sample_established_ok|done..|apply sample_select_established|done|done]. Qed.

Lemma sample_end_there :
  tcp_end 0 sample_ifc 0 sample_foreign sample_local sample_other (sample_world (sample_tcp sample_other)).
Proof. split; [apply sample_ready, sample_other_ok|done..|apply sample_select_other|done|done]. Qed.


(** A connection that has ended: closing it again fails and leaves it. *)
Definition sample_ended : tcp_pcb := set_tp_state TCP_PCB_STATE_TIME_WAIT sample_established.

Lemma sample_ended_ok : tcp_pcb_ok sample_ended.
Proof.
  unfold sample_ended. generalize sample_established sample_established_ok. intros p Hp. by pcb_fields Hp.
Qed.

Lemma tcp_ended_kept_witness :
  ∃ r w' pcb', @tcp_run sample_machine sample_env sample_ops (TcpClose 0)
      (sample_world (sample_tcp sample_ended)) = Done r w'
    ∧ w_tcp w' !! 0%nat = Some pcb' ∧ abs pcb' = abs sample_ended.
Proof.
  assert (match @tcp_run sample_machine sample_env sample_ops (TcpClose 0)
    (sample_world (sample_tcp sample_ended)) with
    | Done (ResInt r) _ => r =? -1 | _ => false end = true) as Hv by (vm_compute; reflexivity).
  destruct (@tcp_run sample_machine sample_env sample_ops (TcpClose 0)
    (sample_world (sample_tcp sample_ended))) as [r w'|f] eqn:E; [|discriminate Hv].
  destruct (@tcp_ended_kept sample_machine sample_env sample_env_ok sample_ops sample_ops_ok _
    (sample_world (sample_tcp sample_ended)) (TcpClose 0) r w' 0%nat sample_ended
    (sample_ready _ sample_ended_ok) (reaches_here _) I E ltac:(done) eq_refl
    ltac:(split; [cbn; rewrite !elem_of_cons; auto|done])) as (pcb'&Hp&Ha).
  exists r, w', pcb'. exact (conj eq_refl (conj Hp Ha)).
Defined.

(** A segment that has been sent again once, after 300 ms. *)
Definition sample_sent : tcp_queue_entry :=
  TcpQueueEntry (Timeval 10 0) (Timeval 10 300000) 400000 101 24 3 sample_text.

Definition sample_resent : tcp_pcb :=
  set_tp_queue [sample_sent] (set_snd_nxt 104 sample_established).

Lemma sample_sent_ok : tcp_entry_ok sample_sent.
Proof. split_and!; try (done || by repeat apply Forall_cons_2). exists 1. by split_and!. Qed.

Lemma sample_resent_ok : tcp_pcb_ok sample_resent.
Proof.
  unfold sample_resent. generalize sample_established sample_established_ok. intros p Hp.
  pose proof sample_sent_ok. pcb_fields Hp; ulia || by apply Forall_singleton.
Qed.

Lemma tcp_backoff_bounded_witness :
  ∃ n, 0 <= n <= 5 ∧ 400000 = 200000 * 2 ^ n ∧ 200000 * (2 ^ n - 1) <= 300000 < 12000000.
Proof.
  exact (@tcp_backoff_bounded sample_machine sample_env sample_env_ok sample_ops sample_ops_ok
    (sample_world (sample_tcp sample_resent)) (sample_world (sample_tcp sample_resent)) 0%nat
    sample_resent sample_sent (sample_ready _ sample_resent_ok) (reaches_here _) eq_refl
    ltac:(apply list_elem_of_here)).
Defined.

Lemma sample_synchronised : tcp_synchronised sample_established sample_other.
Proof. by split_and!. Qed.

Lemma sample_route_mss pcb : @route_mss sample_machine (sample_world (sample_tcp pcb)) addr_gw = Some 1460.
Proof. vm_compute. reflexivity. Qed.

Lemma sample_windows :
  snd_wnd sample_established = 1000 ∧ snd_nxt sample_established = 101 ∧ snd_nxt sample_other = 500
  ∧ rcv_nxt sample_other = 101.
Proof. by split_and!. Qed.

Lemma sample_text_ok : bytes_ok sample_text.
Proof. by repeat apply Forall_cons_2. Qed.

Lemma sample_other_fits :
  stream_fits (zlen (tcp_unread sample_other)) 101 [Deliver sample_text; Again 101 sample_text; Read 10].
Proof.
  rewrite zlen_tcp_unread by apply sample_other_ok. pose proof sample_text_ok. cbn. split_and!; (done || lia).
Qed.

Lemma sample_sends :
  match @tcp_send sample_machine sample_env sample_ops (Z.of_nat 0) sample_text (zlen sample_text)
    (sample_world (sample_tcp sample_established)) with
  | Done (Returned 3) w => pcb ← w_tcp w !! 0%nat; Some (entry_abs <$> tp_queue pcb)
  | _ => None
  end = Some [(101, 24, sample_text)].
Proof. vm_compute. reflexivity. Qed.

(** Three bytes from the sample client to the other end, whose user reads
    them at once; the segment comes twice. *)
Lemma tcp_transfer_witness :
  ∃ wa1 pa1 out wb1 pb1,
    @tcp_send sample_machine sample_env sample_ops 0 sample_text 3
      (sample_world (sample_tcp sample_established)) = Done (Returned 3) wa1
    ∧ w_tcp wa1 !! 0%nat = Some pa1
    ∧ @stream_run sample_machine sample_env sample_ops 0 sample_foreign sample_local 0
        (rcv_nxt pa1) (rcv_wnd pa1) 101 [Deliver sample_text; Again 101 sample_text; Read 10]
        (sample_world (sample_tcp sample_other)) = Done out wb1
    ∧ w_tcp wb1 !! 0%nat = Some pb1 ∧ out ++ tcp_unread pb1 = tcp_unread sample_other ++ sample_text.
Proof.
  destruct sample_windows as (W1&W2&W3&W4).
  destruct (wp_Done _ _ _ (@tcp_transfer sample_machine sample_env sample_env_ok sample_ops sample_ops_ok 0 0
    sample_established sample_other 0 0 sample_ifc sample_ifc sample_local sample_foreign 1460 sample_text
    (sample_world (sample_tcp sample_established)) (sample_world (sample_tcp sample_other))
    sample_never_fails sample_end_here sample_end_there sample_synchronised (sample_route_mss _)
    sample_text_ok ltac:(done) ltac:(rewrite W1; done) ltac:(rewrite W2; done) ltac:(rewrite W3; done)))
    as (r&wa1&E&pa1&Hpa&Hr).
  pose proof sample_sends as Hv. rewrite E in Hv. destruct Hr as [[-> _]|(->&texts&Eq&_&_&Hops)]; [discriminate Hv|].
  rewrite Hpa in Hv. cbn [mbind option_bind] in Hv. rewrite Eq, W2 in Hv.
  assert (texts = [sample_text]) as ->.
  { destruct texts as [|t [|? ?]]; [discriminate Hv| |discriminate Hv]. by injection Hv as ->. }
  rewrite W2, W4 in Hops.
  destruct (wp_Done _ _ _ (Hops [Deliver sample_text; Again 101 sample_text; Read 10] eq_refl
    sample_other_fits)) as (out&wb1&E1&pb1&Hpb&Eo&_).
  exists wa1, pa1, out, wb1, pb1. exact (conj E (conj Hpa (conj E1 (conj Hpb Eo)))).
Defined.
