(* ===== verification/TcpLimits.v ===== *)
(** * TCP: segments the code mishandles

    What [tcp_input] of [src/src/tcp.c] does with segments that it does not
    check: more text than the window, text that is not the next, text with a
    FIN, a window across the end of the sequence space, and a data offset
    past the segment.  Each is run on the sample host. *)

From S2P Require Import Prelude Bytes Checksum Clock Text Addr Monad State Platform Queue Net.
From S2P Require Import Ether Drivers Device Sample Arp Ip Pseudo Udp Tcp TcpUser TcpLogic TcpConn TcpArrive TcpOps TcpProps TcpWire TcpTeardown TcpStream TcpSample.

(** A segment of the other end with an acknowledgement of everything. *)
Definition limit_segment (seq flg : Z) (text : bytes) : bytes :=
  default [] (@tcp_segment sample_machine seq 101 flg 1000 text (zlen text) sample_foreign sample_local).

Definition limit_input (seg : bytes) (pcb : tcp_pcb) : outcome world unit :=
  @tcp_input sample_machine sample_env sample_ops seg (zlen seg) addr_gw addr_tap 0
    (sample_world (sample_tcp pcb)).

(** What the other end's next segment has to be, and what there is to read. *)
Definition limit_result (r : outcome world unit) : option (Z * Z * bytes) :=
  match r with
  | Done _ w => pcb ← w_tcp w !! 0%nat; Some (tp_state pcb, rcv_nxt pcb, tcp_unread pcb)
  | Fault _ => None
  end.

(** Room for two more bytes. *)
Definition sample_full : tcp_pcb := set_rcv_wnd 2 sample_established.

Lemma sample_full_ok : tcp_pcb_ok sample_full.
Proof.
  unfold sample_full. generalize sample_established sample_established_ok. intros p Hp.
  pcb_fields Hp; ulia.
Qed.

(** A header that says it has sixty bytes, with nothing after it. *)
Definition limit_offset : bytes :=
  let hdr sum := TcpHdr (ep_port sample_foreign) (ep_port sample_local) (@hton32 sample_machine 500)
    (@hton32 sample_machine 101) 0xf0 TCP_FLG_ACK (@hton16 sample_machine 1000) sum 0 in
  default [] (psum ← @pseudo_sum sample_machine (@tcp_pseudo sample_machine addr_gw addr_tap TCP_HDR_SIZE);
    sum ← @cksum16 sample_machine (@tcp_hdr_bytes sample_machine (hdr 0)) TCP_HDR_SIZE psum;
    Some (@tcp_hdr_bytes sample_machine (hdr sum))).

(** The data offset is not compared with the length of the segment: the
    length of the text wraps around, and it is copied. *)
Lemma tcp_input_offset :
  limit_input limit_offset sample_established = Fault FaultBounds.
Proof. vm_compute. reflexivity. Qed.

(** More text than the window has room for is written past the buffer. *)
Lemma tcp_input_overrun :
  limit_input (limit_segment 500 24 sample_text) sample_full = Fault FaultBounds.
Proof. vm_compute. reflexivity. Qed.

(** In order: three bytes to read, and 503 is next. *)
Lemma tcp_input_in_order :
  limit_result (limit_input (limit_segment 500 24 sample_text) sample_established)
  = Some (TCP_PCB_STATE_ESTABLISHED, 503, sample_text).
Proof. vm_compute. reflexivity. Qed.

(** A hundred bytes are missing, and they are acknowledged. *)
Lemma tcp_input_gap :
  limit_result (limit_input (limit_segment 600 24 sample_text) sample_established)
  = Some (TCP_PCB_STATE_ESTABLISHED, 603, sample_text).
Proof. vm_compute. reflexivity. Qed.

(** The FIN has the number 503, and 501 is what the acknowledgement asks for. *)
Lemma tcp_input_fin_text :
  limit_result (limit_input (limit_segment 500 25 sample_text) sample_established)
  = Some (TCP_PCB_STATE_CLOSE_WAIT, 501, sample_text).
Proof. vm_compute. reflexivity. Qed.

(** The window reaches past the end of the sequence space, and the next
    segment is refused. *)
Lemma tcp_input_wrap :
  limit_result (limit_input (limit_segment 4294967286 24 sample_text)
    (set_rcv_nxt 4294967286 sample_established))
  = Some (TCP_PCB_STATE_ESTABLISHED, 4294967286, []).
Proof. vm_compute. reflexivity. Qed.

