(* ===== verification/Stack.v ===== *)
(** * The stack: initialisation, dispatch, the interrupt thread

    [net_init] of [src/src/net.c], and the interrupt thread of
    [src/src/platform/linux/intr.c], with the functions behind the pointers
    that the tables of net.c, ip.c and intr.c hold. *)

From S2P Require Import Prelude Bytes Clock Text Addr Monad State Platform Queue Net Ether.
From S2P Require Import Drivers Device Sample Receive Arp Ip Icmp Udp Tcp.

Section Stack.
Context `{Machine} `{Env}.

(** ** The registered functions *)

Definition ip_handlers : ip_call := λ h,
  match h with
  | HandlerIcmp => icmp_input
  | HandlerUdp => udp_input
  | HandlerTcp => tcp_input
  end.

Definition net_handlers (h : net_handler) : bytes → Z → nat → C unit :=
  match h with
  | HandlerIp => ip_input ip_handlers
  | HandlerArp => arp_input
  end.

Definition timer_handlers (h : timer_handler) : C unit :=
  match h with
  | TimerArp => arp_timer_handler
  | TimerTcp => tcp_timer
  end.

Definition event_handlers (h : event_handler) : C unit :=
  match h with
  | EventUdp => udp_event_handler
  | EventTcp => tcp_event_handler
  end.

Definition isr_handlers (h : isr) : Z → nat → C Z :=
  match h with
  | IsrDummy => dummy_isr
  | IsrLoopback => loopback_isr
  | IsrEtherTap => ether_tap_isr
  end.

(** ** The interrupt thread *)

(** [timer_create] and [timer_settime] *)
Definition intr_timer_setup : C Z :=
  r <- env_call env_sys;;
  if r =? -1 then ret (-1)
  else
    r <- env_call env_sys;;
    if r =? -1 then ret (-1) else ret 0.

(** The [default] branch: the handlers registered for the signal. *)
Definition intr_irq (sig : Z) : C unit :=
  irqs <- gets (λ w, y_irqs (w_sys w));;
  for_each irqs (λ entry,
    if ie_irq entry =? sig then
      isr_handlers (ie_handler entry) (ie_irq entry) (ie_dev entry);; ret tt
    else ret tt).

(** The switch on a signal, and whether the thread is to terminate. *)
Definition intr_signal (sig : Z) : C bool :=
  if sig =? SIGHUP then ret true
  else if sig =? SIGALRM then net_timer_handler timer_handlers;; ret false
  else if sig =? SIGUSR1 then net_softirq_handler net_handlers;; ret false
  else if sig =? SIGUSR2 then net_event_handler event_handlers;; ret false
  else intr_irq sig;; ret false.

(** The loop, for the signals that [sigwait] gives one after the other; [None]
    is a call that fails.  After the last one the thread waits. *)
Fixpoint intr_loop (sigs : list (option Z)) : C (waits unit unit) :=
  match sigs with
  | [] => ret (Blocked tt)
  | None :: _ => ret (Returned tt)
  | Some sig :: sigs =>
      terminate <- intr_signal sig;;
      if (terminate : bool) then ret (Returned tt) else intr_loop sigs
  end.

Definition intr_thread (sigs : list (option Z)) : C (waits unit unit) :=
  r <- intr_timer_setup;;
  if r =? -1 then ret (Returned tt) else intr_loop sigs.

(** ** Initialisation *)

Definition net_init : C Z :=
  r <- intr_init;;
  if r =? -1 then ret (-1)
  else
    r <- ip_init;;
    if r =? -1 then ret (-1)
    else
      r <- icmp_init;;
      if r =? -1 then ret (-1)
      else
        r <- arp_init;;
        if r =? -1 then ret (-1)
        else
          r <- udp_init;;
          if r =? -1 then ret (-1)
          else
            r <- tcp_init;;
            if r =? -1 then ret (-1) else ret 0.
End Stack.
