(* ===== verification/Safety.v ===== *)
(** * The whole stack is safe

    The invariant of the state of the host, with the drivers of [Drivers]:
    the handlers of packets, timers, events and interrupts keep it and do not
    fault, and so does the handling of any signal. *)

From stdpp Require Import relations.
From S2P Require Import Prelude Bytes Checksum Clock Text Addr Monad State Platform Queue Net Ether.
From S2P Require Import Drivers Device Sample Receive Arp Ip Icmp Pseudo Udp Tcp TcpUser TcpLogic.
From S2P Require Import TcpConn TcpArrive TcpOps TcpProps Stack.

(** ** The invariant *)

(** The device that an IRQ handler is registered for has its driver's
    data. *)
Definition irq_ok (devs : list net_device) (e : irq_entry) : Prop :=
  ∃ dev, devs !! ie_dev e = Some dev ∧
    match ie_handler e, d_priv dev with
    | IsrDummy, _ | IsrLoopback, PrivLoopback _ _ | IsrEtherTap, PrivTap _ _ _ => True
    | _, _ => False
    end.

(** A device that packets can be sent on, with room for the headers of IP
    and TCP. *)
Definition ready_dev (devs : list net_device) (d : nat) : Prop :=
  ∃ dev, devs !! d = Some dev ∧ dev_wf dev ∧ IP_HDR_SIZE_MIN + TCP_HDR_SIZE < d_mtu dev.

(** An interface, and one that is attached to a device. *)
Definition ifc_ok (devs : list net_device) (ifc : ip_iface) : Prop :=
  is_u32 (if_unicast ifc) ∧ is_u32 (if_netmask ifc) ∧ is_u32 (if_broadcast ifc)
  ∧ ∀ d, if_dev ifc = Some d → ready_dev devs d.

Definition attached (n : net_state) (i : nat) : Prop :=
  ∃ ifc d, n_ifs n !! i = Some ifc ∧ if_dev ifc = Some d.

(** A device that can be opened and closed. *)
Definition openable (dev : net_device) : Prop :=
  length (d_addr dev) = 16%nat ∧ bytes_ok (d_addr dev)
  ∧ match d_ops dev, d_priv dev with
    | Some OpsEtherTap, PrivTap _ _ _ | Some OpsDummy, _ | Some OpsLoopback, _ => True
    | _, _ => False
    end.

Definition open_dev (devs : list net_device) (d : nat) : Prop :=
  ∃ dev, devs !! d = Some dev ∧ openable dev.

Record stack_ok (w : world) : Prop := StackOk {
  so_udp : udp_wf (w_udp w);
  so_tcp : tcp_wf (w_tcp w);
  so_arp : arp_wf (w_arp w);
  so_id : is_u16 (i_id (w_ip w));
  so_routes : Forall (λ r, attached (w_net w) (rt_iface r) ∧ is_u32 (rt_nexthop r)) (i_routes (w_ip w));
  so_ifs : Forall (ifc_ok (n_devs (w_net w))) (n_ifs (w_net w));
  so_ifaces : ∀ d dev i, n_devs (w_net w) !! d = Some dev → i ∈ d_ifaces dev → attached (w_net w) i;
  so_devices : Forall (open_dev (n_devs (w_net w))) (n_devices (w_net w));
  so_irqs : Forall (irq_ok (n_devs (w_net w))) (y_irqs (w_sys w));
  so_handlers : ∀ p, p ∈ i_protocols (w_ip w) → ip_handler_of p = HandlerTcp →
    ip_type p = IP_PROTOCOL_TCP;
  so_inputs : inputs_ok w;
  so_loopbacks : loopbacks_ok w;
  so_frames : frames_ok w;
  so_locked : locked w = []
}.

Lemma stack_iface_wf w i : stack_ok w → attached (w_net w) i → iface_wf w i.
Proof.
  intros Hw (ifc&d&Hi&Hd). pose proof (so_ifs _ Hw) as Hifs. rewrite Forall_lookup in Hifs.
  destruct (Hifs i ifc Hi) as (?&?&?&Hr). destruct (Hr d Hd) as (dev&?&?&_).
  by exists ifc, d, dev.
Qed.

Lemma stack_ip_wf w : stack_ok w → ip_wf w.
Proof.
  intros Hw. split; [apply Hw..|]. eapply Forall_impl; [apply Hw|].
  intros r [Ha Hn]. split; [|done]. by apply stack_iface_wf.
Qed.

Lemma stack_mtu_ok w : stack_ok w → mtu_ok w.
Proof.
  intros Hw r ifc d dev _ Hi Hd Hdev. pose proof (so_ifs _ Hw) as Hifs. rewrite Forall_lookup in Hifs.
  destruct (Hifs _ ifc Hi) as (_&_&_&Hr). destruct (Hr d Hd) as (dev'&Hd'&_&Hm).
  rewrite list_lookup_fmap, Hd' in Hdev. by injection Hdev as <-.
Qed.

(** What stays as it was set up: the devices and their drivers' data, the
    interfaces, the routes and the registered functions. *)
Record stack_frame (w w' : world) : Prop := StackFrame {
  kf_devs : dev_static <$> n_devs (w_net w') = dev_static <$> n_devs (w_net w);
  kf_devices : n_devices (w_net w') = n_devices (w_net w);
  kf_ifs : n_ifs (w_net w') = n_ifs (w_net w);
  kf_protocols : set_np_queue [] <$> n_protocols (w_net w') = set_np_queue [] <$> n_protocols (w_net w);
  kf_timers : nt_handler <$> n_timers (w_net w') = nt_handler <$> n_timers (w_net w);
  kf_events : n_events (w_net w') = n_events (w_net w);
  kf_ip : ip_tables (w_ip w') = ip_tables (w_ip w);
  kf_irqs : y_irqs (w_sys w') = y_irqs (w_sys w)
}.

#[export] Instance stack_frame_preorder : PreOrder stack_frame.
Proof.
  split.
  - intros w. by constructor.
  - intros w1 w2 w3 [] []. constructor; congruence.
Qed.

Lemma link_stack_frame w w' : link_frame w w' → stack_frame w w'.
Proof.
  intros [Hd Hn Hi Hs _]. injection Hn as E1 E2 E3 E4 E5 E6. injection Hs as E7 _.
  constructor; congruence.
Qed.

Lemma receive_stack_frame w w' : receive_frame w w' → stack_frame w w'.
Proof.
  intros Hf. pose proof (rf_net _ _ Hf) as Hn. injection Hn as E1 E2 E3 E4 E5 E6.
  constructor; try apply Hf; try congruence. by rewrite (rf_ip _ _ Hf).
Qed.

(** The device behind a pointer, before or after. *)
Lemma static_lookup w w' d dev :
  dev_static <$> n_devs (w_net w') = dev_static <$> n_devs (w_net w) →
  n_devs (w_net w) !! d = Some dev →
  ∃ dev', n_devs (w_net w') !! d = Some dev' ∧ dev_static dev' = dev_static dev.
Proof.
  intros Hd E. pose proof (f_equal (lookup d) Hd) as El.
  rewrite !list_lookup_fmap, E in El. destruct (n_devs (w_net w') !! d) as [dev'|]; [|done].
  exists dev'. split; [done|]. by apply (inj Some) in El.
Qed.

Lemma ready_dev_static w w' d :
  dev_static <$> n_devs (w_net w') = dev_static <$> n_devs (w_net w) →
  ready_dev (n_devs (w_net w)) d → ready_dev (n_devs (w_net w')) d.
Proof.
  intros Hd (dev&Hdev&Hwf&Hm). destruct (static_dev w w' d dev) as (dev'&Hdev'&Hwf'&Es); [done..|].
  exists dev'. split_and!; [done..|]. by rewrite <- (f_equal d_mtu Es : d_mtu dev' = d_mtu dev) in Hm.
Qed.

Lemma irq_ok_static w w' e :
  dev_static <$> n_devs (w_net w') = dev_static <$> n_devs (w_net w) →
  irq_ok (n_devs (w_net w)) e → irq_ok (n_devs (w_net w')) e.
Proof.
  intros Hd (dev&Hdev&Hp). destruct (static_lookup w w' _ dev Hd Hdev) as (dev'&Hdev'&Es).
  exists dev'. split; [done|]. pose proof (f_equal d_priv Es) as Ep. cbn in Ep.
  destruct (ie_handler e), (d_priv dev), (d_priv dev'); done.
Qed.

Lemma open_dev_static w w' d :
  dev_static <$> n_devs (w_net w') = dev_static <$> n_devs (w_net w) →
  open_dev (n_devs (w_net w)) d → open_dev (n_devs (w_net w')) d.
Proof.
  intros Hd (dev&Hdev&Hl&Hok&Hp). destruct (static_lookup w w' d dev Hd Hdev) as (dev'&Hdev'&Es).
  exists dev'. split; [done|]. pose proof (f_equal d_priv Es) as Ep. cbn in Ep.
  pose proof (f_equal d_ops Es : d_ops dev' = d_ops dev) as Eo.
  pose proof (f_equal d_addr Es : d_addr dev' = d_addr dev) as Ea.
  unfold openable. rewrite Ea, Eo. split_and!; [done..|].
  destruct (d_ops dev) as [[]|], (d_priv dev), (d_priv dev'); done.
Qed.

Lemma stack_ok_frame w w' :
  stack_ok w → stack_frame w w' → udp_wf (w_udp w') → tcp_wf (w_tcp w') → arp_wf (w_arp w') →
  is_u16 (i_id (w_ip w')) → inputs_ok w' → loopbacks_ok w' → frames_ok w' → locked w' = [] →
  stack_ok w'.
Proof.
  intros Hw Hf Hu Ht Ha Hid Hin Hlo Hfr Hl. pose proof Hf as [Hd Hds Hifs _ _ _ Hip Hirq].
  injection Hip as _ E2 E3.
  assert (∀ i, attached (w_net w) i → attached (w_net w') i) as Hatt
    by (intros i; unfold attached; by rewrite Hifs).
  constructor; try done.
  - rewrite E3. eapply Forall_impl; [apply Hw|]. intros r [Hi Hn]. auto.
  - rewrite Hifs. eapply Forall_impl; [apply Hw|]. intros ifc (?&?&?&Hr). split_and!; [done..|].
    intros d Hd'. eapply ready_dev_static; eauto.
  - intros d dev' i Hdev' Hi. symmetry in Hd.
    destruct (static_lookup w' w d dev' Hd Hdev') as (dev&Hdev&Es). eapply Hatt, (so_ifaces _ Hw); [done|].
    by rewrite (f_equal d_ifaces Es : d_ifaces dev = d_ifaces dev').
  - rewrite Hds. eapply Forall_impl; [apply Hw|]. intros d. by apply open_dev_static.
  - rewrite Hirq. eapply Forall_impl; [apply Hw|]. intros e. by apply irq_ok_static.
  - rewrite E2. apply Hw.
Qed.

(** Operations that leave the input queues and the frames alone. *)
Lemma stack_ok_link w w' :
  stack_ok w → link_frame w w' → udp_wf (w_udp w') → tcp_wf (w_tcp w') → arp_wf (w_arp w') →
  is_u16 (i_id (w_ip w')) → locked w' = [] → stack_ok w'.
Proof.
  intros Hw Hf Hu Ht Ha Hid Hl. pose proof Hf as [Hd Hn Hi Hs Hq].
  eapply stack_ok_frame; try done; [by apply link_stack_frame|..].
  - apply (inputs_ok_same w); [by injection Hn|done|apply Hw].
  - apply Hq, Hw.
  - unfold frames_ok. injection Hs as _ ->. apply Hw.
Qed.

Lemma stack_ok_receive w w' : stack_ok w → receive_frame w w' → stack_ok w'.
Proof.
  intros Hw Hf. eapply stack_ok_frame; [done|by apply receive_stack_frame|..].
  - rewrite (rf_udp _ _ Hf). apply Hw.
  - rewrite (rf_tcp _ _ Hf). apply Hw.
  - rewrite (rf_arp _ _ Hf). apply Hw.
  - rewrite (rf_ip _ _ Hf). apply Hw.
  - apply Hf, Hw.
  - apply Hf, Hw.
  - apply Hf, Hw.
  - rewrite (rf_locked _ _ Hf). apply Hw.
Qed.

Lemma stack_link_free w : stack_ok w → link_free w.
Proof. intros Hw. unfold link_free. rewrite (so_locked _ Hw). by split_and!; [apply not_elem_of_nil..|intros; apply not_elem_of_nil]. Qed.

Lemma stack_ok_send w w' : stack_ok w → send_frame w w' → stack_ok w'.
Proof.
  intros Hw Hf. eapply stack_ok_link; [done|by apply send_link_frame|..].
  - rewrite (sf_udp _ _ Hf). apply Hw.
  - rewrite (sf_tcp _ _ Hf). apply Hw.
  - apply Hf, Hw.
  - apply Hf, Hw.
  - rewrite (sf_locked _ _ Hf). apply Hw.
Qed.

Lemma stack_udp_ok w : stack_ok w → udp_ok w.
Proof.
  intros Hw. split; [apply Hw|by apply stack_ip_wf|by apply stack_link_free|].
  rewrite (so_locked _ Hw). apply not_elem_of_nil.
Qed.

Lemma stack_ok_udp w w' : stack_ok w → udp_keeps w w' → stack_ok w'.
Proof.
  intros Hw [Hok Hl Ht Hf]. eapply stack_ok_link; [done|done|apply Hok|..].
  - rewrite Ht. apply Hw.
  - apply Hok.
  - apply Hok.
  - rewrite Hl. apply Hw.
Qed.

Section TcpKeeps.
Context `{Machine}.

Lemma stack_tcp_inv w : stack_ok w → tcp_inv w.
Proof. intros Hw. split; [apply Hw|by apply stack_ip_wf|by apply stack_link_free]. Qed.

Lemma stack_tcp_ready w : stack_ok w → tcp_ready w.
Proof.
  intros Hw. split; [by apply stack_tcp_inv|by apply stack_mtu_ok|]. rewrite (so_locked _ Hw). apply not_elem_of_nil.
Qed.

Lemma stack_ok_tcp w w' : stack_ok w → tcp_keeps w w' → stack_ok w'.
Proof.
  intros Hw (Hi&Hf&Hl). eapply stack_ok_link; [done|by apply tcp_link_frame|..].
  - rewrite (tf_udp _ _ Hf). apply Hw.
  - apply Hi.
  - apply Hi.
  - apply Hi.
  - rewrite Hl. apply Hw.
Qed.
End TcpKeeps.

(** ** Handling a packet *)

Section Handlers.
Context `{Machine} `{EnvOk}.

(** The packets that the handlers are safe on: [ip_input] does not compare
    the header length with the total length, and [tcp_input] not the text
    with the room in the receive buffer. *)
Definition benign (h : net_handler) (e : net_queue_entry) (w : world) : Prop :=
  match h with
  | HandlerArp => True
  | HandlerIp => ∀ hdr, ip_hdr_at (nqe_data e) = Some hdr →
      ip_valid hdr (nqe_data e) (nqe_len e) = true →
      IP_HDR_SIZE_MIN <= ip_hlen hdr <= ip_total hdr
      ∧ (ih_protocol hdr = IP_PROTOCOL_TCP → ∀ dev i ifc,
           n_devs (w_net w) !! nqe_dev e = Some dev →
           family_iface (w_net w) dev NET_IFACE_FAMILY_IP = Some (i, ifc) →
           input_fits (drop (Z.to_nat (ip_hlen hdr)) (nqe_data e)) (ip_total hdr - ip_hlen hdr)
             (ih_src hdr) (ih_dst hdr) ifc (conns w))
  end.

(** What an operation of a protocol guarantees to the rest of the stack. *)
Definition stack_keeps (w w' : world) : Prop := stack_ok w' ∧ link_frame w w'.

Lemma stack_keeps_send w w' : stack_ok w → send_frame w w' → stack_keeps w w'.
Proof. intros. split; [by eapply stack_ok_send|by apply send_link_frame]. Qed.

Lemma stack_keeps_udp w w' : stack_ok w → udp_keeps w w' → stack_keeps w w'.
Proof. intros Hw Hk. split; [by eapply stack_ok_udp|apply Hk]. Qed.

Lemma stack_keeps_tcp w w' : stack_ok w → tcp_keeps w w' → stack_keeps w w'.
Proof. intros Hw Hk. split; [by eapply stack_ok_tcp|by apply tcp_link_frame, Hk]. Qed.

Lemma stack_ifaces_live w d dev i :
  stack_ok w → n_devs (w_net w) !! d = Some dev → i ∈ d_ifaces dev → is_Some (n_ifs (w_net w) !! i).
Proof. intros Hw Hd Hi. destruct (so_ifaces _ Hw _ _ _ Hd Hi) as (ifc&_&?&_). by exists ifc. Qed.

Lemma ip_handlers_wp p data len src dst i ifc w :
  stack_ok w → p ∈ i_protocols (w_ip w) → bytes_ok data → 0 <= len <= zlen data →
  len <= IP_PAYLOAD_SIZE_MAX → is_u32 src → is_u32 dst → iface_wf w i →
  n_ifs (w_net w) !! i = Some ifc →
  (ip_type p = IP_PROTOCOL_TCP → input_fits data len src dst ifc (conns w)) →
  wp (ip_handlers (ip_handler_of p) data len src dst i) (λ _, stack_keeps w) w.
Proof.
  intros Hw Hp Hok Hl Hmax Hs Hd Hwf Hifc Hfit.
  destruct (ip_handler_of p) eqn:Eh; cbn [ip_handlers].
  - eapply wp_mono; [apply icmp_input_wp; try done; [by apply stack_ip_wf|by apply stack_link_free]|].
    intros [] w'. by apply stack_keeps_send.
  - eapply wp_mono; [apply udp_input_keeps; try done; by apply stack_udp_ok|].
    intros [] w'. by apply stack_keeps_udp.
  - change IP_PAYLOAD_SIZE_MAX with 65515 in Hmax.
    eapply wp_mono; [eapply tcp_input_wp; try done; [ulia| | |by apply stack_tcp_inv]|].
    + by apply Hfit, (so_handlers _ Hw).
    + rewrite (so_locked _ Hw). apply not_elem_of_nil.
    + intros [] w' [Hk _]. by apply stack_keeps_tcp.
Qed.

Lemma net_handlers_wp h e w :
  stack_ok w → input_entry_ok w e → benign h e w →
  wp (net_handlers h (nqe_data e) (nqe_len e) (nqe_dev e)) (λ _, stack_keeps w) w.
Proof.
  intros Hw (Hz&Hok&[dev Hdev]%lookup_lt_is_Some_2) Hb. destruct h; cbn [net_handlers benign] in *.
  - eapply (ip_input_wp _ _ _ _ dev); try done; [lia|..].
    + intros i. by eapply stack_ifaces_live.
    + intros hdr Eh Ev. by apply Hb.
    + intros p hdr i ifc payload plen Eh Ev Ei Hp Ht Hhok Hpok Hmax Hpl.
      pose proof Ei as (Hin&Hifc&_)%family_iface_Some.
      eapply ip_handlers_wp; try done; try apply Hhok; [by eapply stack_iface_wf, so_ifaces|].
      intros Htcp. eapply Hb; try done. congruence.
  - eapply wp_mono; [eapply arp_input_wp; try done; [apply Hw|by apply stack_link_free| |lia]|].
    + intros i Hi. by eapply stack_iface_wf, so_ifaces.
    + intros [] w' [Hf _]. by apply stack_keeps_send.
Qed.
End Handlers.

(** ** The signals *)

Section Signals.
Context `{Machine} `{EnvOk}.

(** The packet that the software interrupt handler takes next. *)
Definition softirq_next (w : world) (k : nat) (p : net_protocol) (e : net_queue_entry)
    (q : list net_queue_entry) : Prop :=
  n_protocols (w_net w) !! k = Some p ∧ np_queue p = e :: q
  ∧ pending (take k (n_protocols (w_net w))) = [].

(** One packet taken off its queue and handled. *)
Inductive softirq_step (w w' : world) : Prop :=
| softirq_handled k p e q :
    softirq_next w k p e q →
    net_handlers (np_handler p) (nqe_data e) (nqe_len e) (nqe_dev e) (queue_world k q w)
    = Done tt w' →
    softirq_step w w'.

(** Every packet is benign when its turn comes. *)
Definition softirq_benign (w : world) : Prop :=
  ∀ w1 k p e q, rtc softirq_step w w1 → softirq_next w1 k p e q →
    benign (np_handler p) e (queue_world k q w1).

Lemma receive_queue_world k p e q w :
  n_protocols (w_net w) !! k = Some p → np_queue p = e :: q → receive_frame w (queue_world k q w).
Proof.
  intros Hp Hq. constructor; try done; [apply (registry_alter (w_net w) k (λ _, q))|].
  unfold inputs_ok. cbn. intros Hw. apply Forall_alter; [done|].
  intros p' Hp' Hf. replace p' with p in * by congruence. rewrite Hq in Hf.
  by apply Forall_cons in Hf as [_ Hf].
Qed.

Lemma softirq_next_ok w k p e q :
  stack_ok w → softirq_next w k p e q → input_entry_ok w e.
Proof.
  intros Hw (Hp&Hq&_). pose proof (so_inputs _ Hw) as Hi. unfold inputs_ok in Hi.
  rewrite Forall_lookup in Hi. specialize (Hi k p Hp). rewrite Hq in Hi. by inversion Hi.
Qed.

(** Handling the next packet. *)
Lemma softirq_next_wp w k p e q :
  stack_ok w → softirq_next w k p e q → benign (np_handler p) e (queue_world k q w) →
  wp (net_handlers (np_handler p) (nqe_data e) (nqe_len e) (nqe_dev e))
    (λ _ w', softirq_step w w' ∧ stack_ok w' ∧ stack_frame w w'
      ∧ n_protocols (w_net w') = n_protocols (w_net (queue_world k q w))) (queue_world k q w).
Proof.
  intros Hw Hn Hb. pose proof Hn as (Hp&Hq&_).
  pose proof (receive_queue_world k p e q w Hp Hq) as Hf.
  pose proof (net_handlers_wp (np_handler p) e (queue_world k q w)) as ([]&w'&E&Hok&Hl)%wp_Done.
  - unfold wp. rewrite E. pose proof (lf_net _ _ Hl) as En.
    split_and!; [by econstructor|done| |by injection En].
    etrans; [by apply receive_stack_frame|by apply link_stack_frame].
  - by eapply stack_ok_receive.
  - exact (softirq_next_ok w k p e q Hw Hn).
  - done.
Qed.

Lemma softirq_safe w :
  stack_ok w → softirq_benign w →
  wp (net_softirq_handler net_handlers) (λ _ w', stack_ok w' ∧ stack_frame w w'
    ∧ pending (n_protocols (w_net w')) = []) w.
Proof.
  intros Hw Hb.
  eapply wp_mono; [apply (net_softirq_wp net_handlers
    (λ _ w', stack_ok w' ∧ stack_frame w w' ∧ rtc softirq_step w w'))|].
  - intros done k p e q w1 (Hw1&Hf1&Hr1) Hp Hq He.
    assert (softirq_next w1 k p e q) as Hn by done.
    eapply wp_mono; [apply softirq_next_wp; [done|done|by eapply Hb]|].
    intros [] w2 (Hs&Hw2&Hf2&Hn2). split_and!; [done|done|by etrans|by eapply rtc_r].
  - by split_and!.
  - intros r w' (_&(Hw'&Hf&_)&->). split_and!; [done..|].
    induction (n_protocols (w_net w)) as [|p ps IH]; [done|exact IH].
Qed.

(** Packets that are benign whatever the state: those that are not TCP
    segments, with their header inside their total length. *)
Definition always_benign (x : net_handler * net_queue_entry) : Prop :=
  match x.1 with
  | HandlerArp => True
  | HandlerIp => ∀ hdr, ip_hdr_at (nqe_data x.2) = Some hdr →
      ip_valid hdr (nqe_data x.2) (nqe_len x.2) = true →
      IP_HDR_SIZE_MIN <= ip_hlen hdr <= ip_total hdr ∧ ih_protocol hdr ≠ IP_PROTOCOL_TCP
  end.

Lemma always_benign_benign h e w : always_benign (h, e) → benign h e w.
Proof.
  destruct h; [|done]. intros Ha hdr Eh Ev. destruct (Ha hdr Eh Ev) as [Hl Hp]. split; [done|].
  by intros ?%Hp.
Qed.

Lemma softirq_benign_always w :
  stack_ok w → Forall always_benign (pending (n_protocols (w_net w))) → softirq_benign w.
Proof.
  intros Hw Ha w1 k p e q Hr Hn. revert Hn.
  enough (stack_ok w1 ∧ Forall always_benign (pending (n_protocols (w_net w1)))) as [_ Ha1].
  { intros (Hp&Hq&Hf). rewrite (pending_pop _ k p e q) in Ha1 by done.
    apply Forall_cons in Ha1 as [Hb _]. by apply always_benign_benign. }
  induction Hr as [|w w2 w3 Hs _ IH]; [done|]. apply IH; clear IH; destruct Hs as [k' p' e' q' Hn' E].
  all: pose proof Hn' as (Hp&Hq&Hf); rewrite (pending_pop _ k' p' e' q') in Ha by done;
    apply Forall_cons in Ha as [Hb Ha]; apply (always_benign_benign _ _ (queue_world k' q' w)) in Hb;
    pose proof (softirq_next_wp w k' p' e' q' Hw Hn' Hb) as Hwp; unfold wp in Hwp; rewrite E in Hwp;
    destruct Hwp as (_&Hw2&_&Hn2).
  - done.
  - by rewrite Hn2.
Qed.

Lemma timer_handlers_wp h w :
  stack_ok w → wp (timer_handlers h) (λ _, stack_keeps w) w.
Proof.
  intros Hw. destruct h; cbn [timer_handlers].
  - eapply wp_mono; [apply arp_timer_handler_wp; [apply Hw|by apply stack_link_free]|].
    intros [] w' [Hf _]. by apply stack_keeps_send.
  - eapply wp_mono; [apply tcp_timer_wp; [|by apply stack_tcp_inv]|].
    + rewrite (so_locked _ Hw). apply not_elem_of_nil.
    + intros [] w' [Hk _]. by apply stack_keeps_tcp.
Qed.

Lemma event_handlers_wp h w :
  stack_ok w → wp (event_handlers h) (λ _, stack_keeps w) w.
Proof.
  intros Hw. destruct h; cbn [event_handlers].
  - eapply wp_mono; [by apply udp_event_keeps, stack_udp_ok|].
    intros [] w'. by apply stack_keeps_udp.
  - eapply wp_mono; [apply tcp_event_handler_wp; [|by apply stack_tcp_inv]|].
    + rewrite (so_locked _ Hw). apply not_elem_of_nil.
    + intros [] w' [Hk _]. by apply stack_keeps_tcp.
Qed.

Definition stack_run_ok (w w' : world) : Prop := stack_ok w' ∧ stack_frame w w'.

Lemma stack_keeps_run w w' : stack_keeps w w' → stack_run_ok w w'.
Proof. intros [Hw Hf]. split; [done|by apply link_stack_frame]. Qed.

(** Operations that change the clock of a timer only. *)
Lemma stack_ok_fired k now w :
  stack_ok w →
  stack_run_ok w (set_w_net (set_n_timers (alter (set_nt_last now) k (n_timers (w_net w))) (w_net w)) w).
Proof.
  intros Hw. assert (stack_frame w (set_w_net (set_n_timers
    (alter (set_nt_last now) k (n_timers (w_net w))) (w_net w)) w)) as Hf.
  { constructor; try done. cbn. apply list_eq. intros j. rewrite !list_lookup_fmap.
    destruct (decide (j = k)) as [->|]; [|by rewrite list_lookup_alter_ne].
    rewrite list_lookup_alter_eq. by destruct (_ !! k). }
  split; [|done]. eapply stack_ok_frame; [done|done|apply Hw..].
Qed.

Lemma stack_ok_tick w : stack_ok w → stack_run_ok w (tick_world w).
Proof.
  intros Hw. pose proof (receive_tick w) as Hf.
  split; [by eapply stack_ok_receive|by apply receive_stack_frame].
Qed.

Lemma stack_run_trans w1 w2 w3 : stack_run_ok w1 w2 → stack_run_ok w2 w3 → stack_run_ok w1 w3.
Proof. intros [_ Hf] [Hw Hf']. split; [done|by etrans]. Qed.

Lemma net_timer_safe w :
  stack_ok w → wp (net_timer_handler timer_handlers) (λ _, stack_run_ok w) w.
Proof.
  intros Hw. unfold net_timer_handler. do 2 wp_step. apply wp_bind.
  apply (wp_mono _ (λ _, stack_run_ok w)); [|by intros [] w' Hk; wp_step].
  apply wp_for_each; [|by split]. intros k w1 [_ Hk]%elem_of_seq [Hw1 Hf1].
  destruct (lookup_lt_is_Some_2 (n_timers (w_net w1)) k) as [timer Hk1].
  { pose proof (f_equal length (kf_timers _ _ Hf1)) as El. rewrite !length_fmap in El. lia. }
  unfold net_timer_step. do 2 wp_step. rewrite Hk1. do 4 wp_step.
  pose proof (stack_ok_tick _ Hw1) as [Hw2 Hf2].
  destruct (timercmp _ _ _); [|by wp_step; split; [|etrans]]. apply wp_bind.
  eapply wp_mono; [by apply timer_handlers_wp|]. intros [] w3 [Hw3 Hf3]%stack_keeps_run. wp_step.
  eapply (stack_run_trans w w3); [|by apply stack_ok_fired]. split; [done|]. etrans; [done|by etrans].
Qed.

Lemma net_event_safe w :
  stack_ok w → wp (net_event_handler event_handlers) (λ _, stack_run_ok w) w.
Proof.
  intros Hw. unfold net_event_handler. do 2 wp_step. apply wp_bind.
  apply (wp_mono _ (λ _, stack_run_ok w)); [|by intros [] w' Hk; wp_step].
  apply wp_for_each; [|by split]. intros h w1 _ Hr1.
  eapply wp_mono; [apply event_handlers_wp, Hr1|]. intros [] w2 Hr2%stack_keeps_run.
  by eapply stack_run_trans.
Qed.

Lemma isr_handlers_wp e w :
  stack_ok w → e ∈ y_irqs (w_sys w) →
  wp (isr_handlers (ie_handler e) (ie_irq e) (ie_dev e)) (λ _, stack_run_ok w) w.
Proof.
  intros Hw He. pose proof (so_irqs _ Hw) as Hirqs. rewrite Forall_forall in Hirqs.
  destruct (Hirqs e He) as (dev&Hdev&Hpriv).
  assert (∀ w', receive_frame w w' → stack_run_ok w w') as Hk.
  { intros w' Hf. split; [by eapply stack_ok_receive|by apply receive_stack_frame]. }
  destruct (ie_handler e), (d_priv dev) eqn:Ep; try done; cbn [isr_handlers];
    try (by wp_step; apply Hk).
  - eapply wp_mono; [eapply loopback_isr_wp; [exact Hdev|exact Ep| |by apply stack_link_free]|].
    + pose proof (so_loopbacks _ Hw) as Hl. unfold loopbacks_ok in Hl. rewrite Forall_lookup in Hl. eauto.
    + intros r w' (_&Hf&_). auto.
  - eapply wp_mono; [eapply ether_tap_isr_wp; [exact Hdev|exact Ep|apply Hw]|].
    intros r w' [Hf _]. auto.
Qed.

Lemma intr_irq_safe sig w : stack_ok w → wp (intr_irq sig) (λ _, stack_run_ok w) w.
Proof.
  intros Hw. unfold intr_irq. do 2 wp_step.
  apply wp_for_each; [|by split]. intros e w1 He [Hw1 Hf1]. rewrite <- (kf_irqs _ _ Hf1) in He.
  destruct (_ =? sig); [|by wp_step]. apply wp_bind.
  eapply wp_mono; [by apply isr_handlers_wp|]. intros r w2 Hr. wp_step.
  by apply (stack_run_trans w w1); [split|].
Qed.

Lemma intr_signal_safe sig w :
  stack_ok w → (sig = SIGUSR1 → softirq_benign w) →
  wp (intr_signal sig) (λ r w', r = (sig =? SIGHUP) ∧ stack_run_ok w w') w.
Proof.
  intros Hw Hb. unfold intr_signal. destruct (sig =? SIGHUP); [by wp_step; split_and!|].
  destruct (sig =? SIGALRM).
  { apply wp_bind. eapply wp_mono; [by apply net_timer_safe|]. intros r w' Hr. by wp_step. }
  destruct (Z.eqb_spec sig SIGUSR1).
  { apply wp_bind. eapply wp_mono; [by apply softirq_safe; [|apply Hb]|].
    intros r w' (Hw'&Hf&_). wp_step. by split_and!. }
  destruct (sig =? SIGUSR2).
  { apply wp_bind. eapply wp_mono; [by apply net_event_safe|]. intros r w' Hr. by wp_step. }
  apply wp_bind. eapply wp_mono; [by apply intr_irq_safe|]. intros r w' Hr. by wp_step.
Qed.
End Signals.
