(* ===== verification/Boot.v ===== *)
(** * From the start of the program

    The configuration of a host ([net_init], the drivers' [init] functions,
    [ip_iface_alloc], [ip_iface_register], [ip_route_set_default_gateway],
    [net_run], [net_shutdown]) establishes and keeps the invariant of
    [Safety], so that the whole stack is safe from the start of the program,
    when the static variables have their initial values. *)

From S2P Require Import Prelude Bytes Checksum Clock Text Addr Monad State Platform Queue Net Ether.
From S2P Require Import Drivers Device Sample Receive Arp Ip Icmp Pseudo Udp Tcp TcpUser TcpLogic.
From S2P Require Import TcpConn TcpArrive TcpOps TcpProps Stack Safety.

(** ** The initial values of the static variables *)

Definition boot_world : world :=
  World (SysState 0 [] [] false [] [] [] []) (NetState [] [] 0 [] [] [] [])
    (IpState [] [] [] 128) (replicate ARP_CACHE_SIZE arp_cache_zero)
    (replicate (Z.to_nat UDP_PCB_SIZE) (UdpPcb 0 (IpEndpoint 0 0) [] (SchedCtx 0 0 0)))
    (replicate (Z.to_nat TCP_PCB_SIZE) tcp_pcb_zero).

Lemma boot_ok : stack_ok boot_world.
Proof.
  assert (udp_pcb_ok (UdpPcb 0 (IpEndpoint 0 0) [] (SchedCtx 0 0 0))) as Hudp.
  { split_and!; [by left|split; cbn; ulia|by apply Forall_nil_2|done]. }
  constructor; try by apply Forall_nil_2.
  - split; [done|]. by apply Forall_replicate.
  - split; [done|]. apply Forall_replicate, tcp_pcb_zero_ok.
  - split; [done|]. split; [apply Forall_replicate, arp_entry_zero_ok|].
    intros i j e f pa [-> _]%lookup_replicate [-> _]%lookup_replicate [Hs _]. by destruct Hs.
  - cbn. ulia.
  - intros d dev i [=].
  - intros p []%elem_of_nil.
  - done.
Qed.

(** ** What configuration may change *)

(** A device is changed without becoming unusable. *)
Record dev_le (dev dev' : net_device) : Prop := DevLe {
  dl_wf : dev_wf dev → dev_wf dev' ∧ d_mtu dev' = d_mtu dev;
  dl_open : openable dev → openable dev';
  dl_priv : match d_priv dev, d_priv dev' with
            | PrivNone, _ | PrivLoopback _ _, PrivLoopback _ _ | PrivTap _ _ _, PrivTap _ _ _ => True
            | _, _ => False
            end;
  dl_loopback : loopback_ok dev → loopback_ok dev'
}.

#[export] Instance dev_le_preorder : PreOrder dev_le.
Proof.
  split.
  - intros dev. constructor; try done. by destruct (d_priv dev).
  - intros d1 d2 d3 [W1 O1 P1 L1] [W2 O2 P2 L2]. constructor; [|auto| |auto].
    + intros [Hw E]%W1. apply W2 in Hw as [Hw E']. split; [done|congruence].
    + by destruct (d_priv d1), (d_priv d2), (d_priv d3).
Qed.

(** Fields that no one relies on. *)
Lemma dev_le_same dev dev' :
  d_mtu dev' = d_mtu dev → d_alen dev' = d_alen dev →
  d_addr dev' = d_addr dev → d_broadcast dev' = d_broadcast dev → d_ops dev' = d_ops dev →
  d_priv dev' = d_priv dev → dev_le dev dev'.
Proof.
  intros E2 E3 E4 E5 E6 E7. constructor.
  - unfold dev_wf. by rewrite E2, E3, E4, E5, E6, E7.
  - unfold openable. by rewrite E4, E6, E7.
  - rewrite E7. by destruct (d_priv dev).
  - unfold loopback_ok, loopback_queue. by rewrite E7.
Qed.

Definition devs_le (devs devs' : list net_device) : Prop :=
  (∀ d dev, devs !! d = Some dev → ∃ dev', devs' !! d = Some dev' ∧ dev_le dev dev')
  ∧ ∀ d dev', devs' !! d = Some dev' →
      (length devs <= d)%nat → loopback_ok dev'.

#[export] Instance devs_le_refl : Reflexive devs_le.
Proof.
  intros devs. split; [intros d dev; exists dev; by split|].
  intros d dev' ?%lookup_lt_Some ?. lia.
Qed.

(** Configuration steps: devices, interfaces and the entries of the tables
    are added; what the protocols hold is not touched. *)
Record setup_le (w w' : world) : Prop := SetupLe {
  sl_devs : devs_le (n_devs (w_net w)) (n_devs (w_net w'));
  sl_attached : ∀ i, attached (w_net w) i → attached (w_net w') i;
  sl_ifs : ∀ i ifc, n_ifs (w_net w') !! i = Some ifc →
    n_ifs (w_net w) !! i = Some ifc ∨ ifc_ok (n_devs (w_net w')) ifc;
  sl_ifaces : ∀ d dev' i, n_devs (w_net w') !! d = Some dev' → i ∈ d_ifaces dev' →
    (∃ dev, n_devs (w_net w) !! d = Some dev ∧ i ∈ d_ifaces dev) ∨ attached (w_net w') i;
  sl_devices : ∀ d, d ∈ n_devices (w_net w') →
    d ∈ n_devices (w_net w) ∨ open_dev (n_devs (w_net w')) d;
  sl_irqs : ∀ e, e ∈ y_irqs (w_sys w') → e ∈ y_irqs (w_sys w) ∨ irq_ok (n_devs (w_net w')) e;
  sl_handlers : ∀ p, p ∈ i_protocols (w_ip w') →
    p ∈ i_protocols (w_ip w) ∨ (ip_handler_of p = HandlerTcp → ip_type p = IP_PROTOCOL_TCP);
  sl_routes : ∀ r, r ∈ i_routes (w_ip w') →
    r ∈ i_routes (w_ip w) ∨ attached (w_net w) (rt_iface r) ∧ is_u32 (rt_nexthop r);
  sl_protocols : ∀ p, p ∈ n_protocols (w_net w') → p ∈ n_protocols (w_net w) ∨ np_queue p = [];
  sl_udp : w_udp w' = w_udp w;
  sl_tcp : w_tcp w' = w_tcp w;
  sl_arp : w_arp w' = w_arp w;
  sl_id : i_id (w_ip w') = i_id (w_ip w);
  sl_rx : y_rx (w_sys w') = y_rx (w_sys w);
  sl_locked : locked w' = locked w
}.

(** What a caller can rely on to last. *)
Record stack_mono (w w' : world) : Prop := StackMono {
  sm_ready : ∀ d, ready_dev (n_devs (w_net w)) d → ready_dev (n_devs (w_net w')) d;
  sm_open : ∀ d, open_dev (n_devs (w_net w)) d → open_dev (n_devs (w_net w')) d;
  sm_attached : ∀ i, attached (w_net w) i → attached (w_net w') i
}.

#[export] Instance stack_mono_preorder : PreOrder stack_mono.
Proof. split; [done|]. intros w1 w2 w3 [] []. split; auto. Qed.

Definition boot_keeps (w w' : world) : Prop := stack_ok w' ∧ stack_mono w w'.

Lemma boot_keeps_trans w1 w2 w3 : boot_keeps w1 w2 → boot_keeps w2 w3 → boot_keeps w1 w3.
Proof. intros [_ H1] [H2 H3]. split; [done|by etrans]. Qed.

Lemma boot_keeps_refl w : stack_ok w → boot_keeps w w.
Proof. by split. Qed.

Lemma stack_mono_frame w w' : stack_frame w w' → stack_mono w w'.
Proof.
  intros [Hd _ Hi _ _ _ _ _]. 
  split; [intros d; by apply ready_dev_static|intros d; by apply open_dev_static|].
  unfold attached. by rewrite Hi.
Qed.

Lemma ready_dev_le devs devs' d : devs_le devs devs' → ready_dev devs d → ready_dev devs' d.
Proof.
  intros [Hd _] (dev&Hdev&Hwf&Hm). destruct (Hd d dev Hdev) as (dev'&?&Hle).
  apply (dl_wf _ _ Hle) in Hwf as [Hwf E]. exists dev'. by rewrite E.
Qed.

Lemma open_dev_le devs devs' d : devs_le devs devs' → open_dev devs d → open_dev devs' d.
Proof.
  intros [Hd _] (dev&Hdev&Ho). destruct (Hd d dev Hdev) as (dev'&?&Hle). exists dev'.
  split; [done|by apply Hle].
Qed.

Lemma irq_ok_le devs devs' e : devs_le devs devs' → irq_ok devs e → irq_ok devs' e.
Proof.
  intros [Hd _] (dev&Hdev&Hp). destruct (Hd _ dev Hdev) as (dev'&?&Hle). exists dev'. split; [done|].
  pose proof (dl_priv _ _ Hle). by destruct (ie_handler e), (d_priv dev), (d_priv dev').
Qed.

Lemma setup_mono w w' : setup_le w w' → stack_mono w w'.
Proof.
  intros Hs. split; [intros d; by apply ready_dev_le, sl_devs|intros d; by apply open_dev_le, sl_devs|].
  apply Hs.
Qed.

Lemma devs_le_old devs devs' d dev' :
  devs_le devs devs' → devs' !! d = Some dev' →
  (∃ dev, devs !! d = Some dev ∧ dev_le dev dev') ∨ loopback_ok dev'.
Proof.
  intros [Hd Hn] Hdev'. destruct (devs !! d) as [dev|] eqn:E.
  - left. destruct (Hd d dev E) as (dev''&?&?). simplify_eq. eauto.
  - right. apply (Hn d); [done|]. by apply lookup_ge_None.
Qed.

(** Configuration keeps the stack in order. *)
Lemma setup_keeps w w' : stack_ok w → setup_le w w' → boot_keeps w w'.
Proof.
  intros Hw Hs. pose proof (setup_mono _ _ Hs) as Hm. split; [|done]. pose proof (sl_devs _ _ Hs) as Hd.
  pose proof Hs as [_ _ Hifs Hifaces Hds Hirq Hh Hr Hp Eu Et Ea Eid Erx El]. constructor.
  - rewrite Eu. apply Hw.
  - rewrite Et. apply Hw.
  - rewrite Ea. apply Hw.
  - rewrite Eid. apply Hw.
  - apply Forall_forall. intros r Hin. pose proof (so_routes _ Hw) as Hold. rewrite Forall_forall in Hold.
    apply Hr in Hin as [[? ?]%Hold|[? ?]]; split; try done; by apply Hm.
  - apply Forall_lookup. intros i ifc Hi. pose proof (so_ifs _ Hw) as Hold. rewrite Forall_lookup in Hold.
    apply Hifs in Hi as [(?&?&?&Hdev)%Hold|?]; [|done]. split_and!; [done..|].
    intros d Hifd. by apply Hm, Hdev.
  - intros d dev' i Hdev' Hi. destruct (Hifaces d dev' i Hdev' Hi) as [(dev&Hdev&Hin)|]; [|done].
    apply Hm. by eapply (so_ifaces _ Hw).
  - apply Forall_forall. intros d Hin. pose proof (so_devices _ Hw) as Hold. rewrite Forall_forall in Hold.
    apply Hds in Hin as [Hin|?]; [|done]. by apply Hm, Hold.
  - apply Forall_forall. intros e Hin. pose proof (so_irqs _ Hw) as Hold. rewrite Forall_forall in Hold.
    apply Hirq in Hin as [Hin|?]; [|done]. by eapply irq_ok_le, Hold.
  - intros p [Hin|?]%Hh; [|done]. by apply (so_handlers _ Hw).
  - apply Forall_forall. intros p Hin. pose proof (so_inputs _ Hw) as Hold. unfold inputs_ok in Hold.
    rewrite Forall_forall in Hold. apply Hp in Hin as [Hin| ->]; [|by apply Forall_nil_2].
    eapply Forall_impl; [by apply Hold|]. intros e (?&?&Hlt). split_and!; [done..|].
    apply lookup_lt_is_Some_2 in Hlt as [dev Hdev]. destruct (proj1 Hd _ dev Hdev) as (dev'&?&_).
    by eapply lookup_lt_Some.
  - apply Forall_lookup. intros d dev' Hdev'. pose proof (so_loopbacks _ Hw) as Hold.
    unfold loopbacks_ok in Hold. rewrite Forall_lookup in Hold.
    destruct (devs_le_old _ _ d dev' Hd Hdev') as [(dev&Hdev&Hle)|?]; [|done].
    by eapply Hle, Hold.
  - unfold frames_ok. rewrite Erx. apply Hw.
  - rewrite El. apply Hw.
Qed.

(** ** The steps of configuration *)

(** A program that keeps the stack in order, and its result. *)
Definition keeping {A} (m : C A) (P : A → world → Prop) (w : world) : Prop :=
  wp m (λ a w', boot_keeps w w' ∧ P a w') w.

Lemma keeping_bind {A B} (m : C A) (k : A → C B) P Q w :
  keeping m P w → (∀ a w', stack_ok w' → P a w' → keeping (k a) Q w') → keeping (bind m k) Q w.
Proof.
  intros Hm Hk. apply wp_bind. eapply wp_mono; [exact Hm|]. intros a w1 [Hb HP].
  eapply wp_mono; [apply Hk; [apply Hb|done]|]. intros b w2 [Hb2 HQ]. split; [|done].
  by eapply boot_keeps_trans.
Qed.

Lemma keeping_mono {A} (m : C A) (P Q : A → world → Prop) w :
  keeping m P w → (∀ a w', stack_ok w' → P a w' → Q a w') → keeping m Q w.
Proof.
  intros Hm HPQ. eapply wp_mono; [exact Hm|]. intros a w' [Hb HP]. split; [done|]. apply HPQ; [apply Hb|done].
Qed.

Lemma keeping_ret {A} (a : A) P w : stack_ok w → P a w → keeping (ret a) P w.
Proof. intros. by apply wp_ret; split; [apply boot_keeps_refl|]. Qed.

Lemma keeping_setup {A} (m : C A) P w :
  stack_ok w → wp m (λ a w', setup_le w w' ∧ P a w') w → keeping m P w.
Proof. intros Hw Hm. eapply wp_mono; [exact Hm|]. intros a w' [Hs HP]. split; [by apply setup_keeps|done]. Qed.

Lemma keeping_get_dev {A} d dev (k : net_device → C A) P w :
  n_devs (w_net w) !! d = Some dev → keeping (k dev) P w → keeping (bind (get_dev d) k) P w.
Proof. intros Hd Hk. apply wp_bind. by eapply wp_get_dev. Qed.

Ltac setup := constructor; cbn; try reflexivity; eauto.

Section Steps.
Context `{Machine} `{EnvOk}.

Lemma keeping_env {A} (f : nat → A) P w :
  stack_ok w → P (f (y_calls (w_sys w))) (tick_world w) → keeping (env_call f) P w.
Proof. intros Hw HP. apply keeping_setup; [done|]. wp_step. split; [setup|done]. Qed.

(** A device is changed in place. *)
Lemma devs_le_insert devs d dev dev' :
  devs !! d = Some dev → dev_le dev dev' → devs_le devs (<[d := dev']> devs).
Proof.
  intros Hd Hle.
  split.
  - intros d' dev1 Hd1. destruct (decide (d' = d)) as [->|].
    + exists dev'. split; [|by simplify_eq]. apply list_lookup_insert_eq. by eapply lookup_lt_Some.
    + exists dev1. by rewrite list_lookup_insert_ne by done.
  - intros d' dev1 Hd1%lookup_lt_Some ?. rewrite length_insert in Hd1. lia.
Qed.

Lemma setup_put d dev dev' w :
  n_devs (w_net w) !! d = Some dev → dev_le dev dev' → d_ifaces dev' = d_ifaces dev →
  setup_le w (set_w_net (set_n_devs (<[d := dev']> (n_devs (w_net w))) (w_net w)) w).
Proof.
  intros Hd Hle Hifs. setup.
  2:{ intros d' dev1 i Hd1 Hi. left. apply list_lookup_insert_Some in Hd1 as [(<-&<-&_)|[_ Hd1]]; [|eauto].
      exists dev. by rewrite <- Hifs. }
  by eapply devs_le_insert.
Qed.

Lemma keeping_put_dev d dev dev' (P : unit → world → Prop) w :
  stack_ok w → n_devs (w_net w) !! d = Some dev → dev_le dev dev' → d_ifaces dev' = d_ifaces dev →
  (∀ w', n_devs (w_net w') !! d = Some dev' → P tt w') → keeping (put_dev d dev') P w.
Proof.
  intros Hw Hd Hle Hifs HP. apply keeping_setup; [done|]. wp_step. split; [by eapply setup_put|].
  apply HP. apply list_lookup_insert_eq. by eapply lookup_lt_Some.
Qed.

Lemma keeping_upd_dev d dev f (P : unit → world → Prop) w :
  stack_ok w → n_devs (w_net w) !! d = Some dev → dev_le dev (f dev) →
  d_ifaces (f dev) = d_ifaces dev →
  (∀ w', n_devs (w_net w') !! d = Some (f dev) → P tt w') → keeping (upd_dev d f) P w.
Proof.
  intros Hw Hd Hle Hifs HP. unfold upd_dev. apply wp_bind. wp_step. by eapply keeping_put_dev.
Qed.

Lemma net_device_zero_ok : loopback_ok net_device_zero.
Proof. split; [cbn; lia|by apply Forall_nil_2]. Qed.

Lemma net_device_alloc_keeps w :
  stack_ok w →
  keeping net_device_alloc
    (λ o w', ∀ d, o = Some d → n_devs (w_net w') !! d = Some net_device_zero) w.
Proof.
  intros Hw. unfold net_device_alloc. eapply (keeping_bind _ _ (λ _ _, True)); [by apply keeping_env|].
  intros ok w1 Hw1 _. destruct ok; cbn [negb]; [|by apply keeping_ret].
  apply keeping_setup; [done|]. repeat wp_step. split.
  - setup.
    2:{ intros d dev i [?|[_ [_ <-]%list_lookup_singleton_Some]]%lookup_app_Some Hi; [eauto|].
        by apply elem_of_nil in Hi. }
    split.
    + intros d dev Hd. exists dev. split; [|done]. by erewrite lookup_app_l_Some.
    + intros d dev Hd Hge. rewrite lookup_app_r in Hd by done.
      apply list_lookup_singleton_Some in Hd as [_ <-]. apply net_device_zero_ok.
  - intros d [= <-]. cbn. by rewrite list_lookup_middle.
Qed.

Lemma net_device_register_keeps d dev w :
  stack_ok w → n_devs (w_net w) !! d = Some dev → openable dev →
  keeping (net_device_register d) (λ r w', r = 0 ∧
    ∃ index, n_devs (w_net w') !! d = Some (set_d_name (net_name index) (set_d_index index dev))) w.
Proof.
  intros Hw Hd Ho. unfold net_device_register.
  set (index := n_index (w_net w)). set (dev' := set_d_name (net_name index) (set_d_index index dev)).
  assert (dev_le dev dev') as Hle by (by apply dev_le_same).
  apply keeping_setup; [done|]. do 4 wp_step.
  assert ((<[d := dev']> (n_devs (w_net w))) !! d = Some dev') as Hd'
    by (apply list_lookup_insert_eq; by eapply lookup_lt_Some).
  repeat wp_step. split; [|split; [done|by exists index]].
  destruct (setup_put d dev dev' w Hd Hle eq_refl) as [Hdevs _ _ Hifs _ _ _ _ _ _ _ _ _ _ _]. setup.
  intros d0 [->|]%elem_of_cons; [|auto]. right. by exists dev'.
Qed.

Lemma intr_request_irq_keeps irq h flags name d w :
  stack_ok w → irq_ok (n_devs (w_net w)) (IrqEntry irq h flags (take 15 name) d) →
  keeping (intr_request_irq irq h flags name d) (λ _ w', w_net w' = w_net w) w.
Proof.
  intros Hw Hirq. apply keeping_setup; [done|]. unfold intr_request_irq. do 2 wp_step.
  destruct (existsb _ _); [wp_step; by split; [setup|]|]. do 2 wp_step.
  destruct (negb _); [wp_step; by split; [setup|]|]. repeat wp_step. split; [|done].
  setup. intros e [->|]%elem_of_cons; auto.
Qed.
End Steps.

(** ** The drivers *)

Section Init.
Context `{Machine} `{EnvOk}.

(** A device without operations can be filled in. *)
Lemma dev_le_fresh dev dev' :
  d_ops dev = None → d_priv dev = PrivNone → loopback_queue dev' = [] → dev_le dev dev'.
Proof.
  intros Eo Ep Eq. constructor.
  - unfold dev_wf. rewrite Eo. tauto.
  - unfold openable. rewrite Eo. tauto.
  - by rewrite Ep.
  - intros _. unfold loopback_ok. rewrite Eq. split; [cbn; lia|by apply Forall_nil_2].
Qed.

Lemma dev_le_loopback irq dev :
  d_ops dev = Some OpsLoopback → d_priv dev = PrivNone →
  dev_le dev (set_d_priv (PrivLoopback irq []) dev).
Proof.
  intros Eo Ep. constructor; try done.
  - unfold dev_wf. rewrite Eo, Ep. tauto.
  - unfold openable. cbn. by rewrite Eo.
  - by rewrite Ep.
  - intros _. split; [cbn; lia|by apply Forall_nil_2].
Qed.

Definition dev_ready (o : option nat) (w : world) : Prop :=
  ∀ d, o = Some d → ready_dev (n_devs (w_net w)) d.

(** The last call of the [init] functions. *)
Lemma request_irq_ready irq h name d dev w :
  stack_ok w → n_devs (w_net w) !! d = Some dev → dev_wf dev →
  IP_HDR_SIZE_MIN + TCP_HDR_SIZE < d_mtu dev →
  match h, d_priv dev with
  | IsrDummy, _ | IsrLoopback, PrivLoopback _ _ | IsrEtherTap, PrivTap _ _ _ => True
  | _, _ => False
  end →
  keeping (intr_request_irq irq h INTR_IRQ_SHARED name d;; ret (Some d)) dev_ready w.
Proof.
  intros Hw Hd Hwf Hm Hp.
  eapply keeping_bind; [apply intr_request_irq_keeps; [done|]; by exists dev|].
  intros r w1 Hw1 E. apply keeping_ret; [done|]. intros d' [= <-]. exists dev. by rewrite E.
Qed.

Lemma zeros_ok n : bytes_ok (replicate n 0).
Proof. by apply Forall_replicate. Qed.

Lemma dummy_init_keeps w : stack_ok w → keeping dummy_init dev_ready w.
Proof.
  intros Hw. unfold dummy_init. eapply keeping_bind; [by apply net_device_alloc_keeps|].
  intros [d|] w1 Hw1 Hd; [|by apply keeping_ret]. specialize (Hd d eq_refl).
  eapply (keeping_bind _ _ (λ _ w, n_devs (w_net w) !! d = Some _));
    [eapply keeping_upd_dev; [done|exact Hd|by apply dev_le_fresh|done|by intros ? ?]|].
  intros [] w2 Hw2 Hd2.
  eapply keeping_bind; [eapply net_device_register_keeps; [done|exact Hd2|]|].
  { split_and!; [done|apply zeros_ok|done]. }
  intros r w3 Hw3 (->&index&Hd3). cbn [Z.eqb]. eapply keeping_get_dev; [exact Hd3|].
  eapply request_irq_ready; [done|exact Hd3|..]; [|done..].
  split_and!; try apply zeros_ok; (done || cbn; ulia).
Qed.

Lemma loopback_init_keeps w : stack_ok w → keeping loopback_init dev_ready w.
Proof.
  intros Hw. unfold loopback_init. eapply keeping_bind; [by apply net_device_alloc_keeps|].
  intros [d|] w1 Hw1 Hd; [|by apply keeping_ret]. specialize (Hd d eq_refl).
  eapply (keeping_bind _ _ (λ _ w, n_devs (w_net w) !! d = Some _));
    [eapply keeping_upd_dev; [done|exact Hd|by apply dev_le_fresh|done|by intros ? ?]|].
  intros [] w2 Hw2 Hd2.
  eapply keeping_bind; [eapply net_device_register_keeps; [done|exact Hd2|]|].
  { split_and!; [done|apply zeros_ok|done]. }
  intros r w3 Hw3 (->&index&Hd3). cbn [Z.eqb].
  eapply (keeping_bind _ _ (λ _ w, n_devs (w_net w) !! d = Some _)); [by apply keeping_env|].
  intros ok w4 Hw4 Hd4. destruct ok; cbn [negb]; [|by apply keeping_ret].
  eapply (keeping_bind _ _ (λ _ w, n_devs (w_net w) !! d = Some _)).
  { eapply keeping_upd_dev; [done|exact Hd4|by apply dev_le_loopback|by cbn|by intros ? ?]. }
  intros [] w5 Hw5 Hd5. eapply keeping_get_dev; [exact Hd5|].
  eapply request_irq_ready; [done|exact Hd5|..]; [|done..].
  split_and!; try apply zeros_ok; (done || cbn; ulia).
Qed.

(** A tap device being set up, with its address. *)
Definition tap_fresh (addr : bytes) : net_device :=
  NetDevice [] 0 (replicate 16 0) NET_DEVICE_TYPE_ETHERNET ETHER_PAYLOAD_SIZE_MAX
    (Z.lor NET_DEVICE_FLAG_BROADCAST NET_DEVICE_FLAG_NEED_ARP) ETHER_HDR_SIZE ETHER_ADDR_LEN
    addr (ETHER_ADDR_BROADCAST ++ replicate 10 0) None PrivNone.

Lemma dev_le_tap name fd irq dev :
  d_ops dev = Some OpsEtherTap → d_priv dev = PrivNone →
  dev_le dev (set_d_priv (PrivTap name fd irq) dev).
Proof.
  intros Eo Ep. constructor; try done.
  - unfold dev_wf. rewrite Eo, Ep. tauto.
  - unfold openable. rewrite Eo, Ep. tauto.
  - by rewrite Ep.
  - intros _. split; [cbn; lia|by apply Forall_nil_2].
Qed.

Lemma ether_setup_keeps d w :
  stack_ok w → n_devs (w_net w) !! d = Some net_device_zero →
  keeping (ether_setup_helper d)
    (λ _ w', n_devs (w_net w') !! d = Some (tap_fresh (replicate 16 0))) w.
Proof.
  intros Hw Hd. unfold ether_setup_helper. eapply keeping_get_dev; [exact Hd|].
  eapply (keeping_put_dev d net_device_zero (tap_fresh _)); [done|done|by apply dev_le_fresh|done|].
  by intros w' ?.
Qed.

(** The optional address. *)
Lemma tap_address_keeps d addr w :
  stack_ok w → n_devs (w_net w) !! d = Some (tap_fresh (replicate 16 0)) →
  (∀ p, addr = Some p → terminated p) →
  keeping (match addr with
           | None => ret true
           | Some addr =>
               dev <- get_dev d;;
               res <- expect FaultBounds (ether_addr_pton (Some addr) (Some (d_addr dev)));;
               let '(r, n) := res in
               (match n with Some n => put_dev d (set_d_addr n dev) | None => ret tt end);;
               ret (negb (r =? -1))
           end)
    (λ _ w', ∃ a, length a = 16%nat ∧ bytes_ok a ∧ n_devs (w_net w') !! d = Some (tap_fresh a)) w.
Proof.
  intros Hw Hd Ht. destruct addr as [p|].
  2:{ apply keeping_ret; [done|]. exists (replicate 16 0). split_and!; [done|apply zeros_ok|done]. }
  eapply keeping_get_dev; [exact Hd|].
  destruct (ether_addr_pton_safe p (replicate 16 0)) as (r&a&E&Hl&Hok);
    [auto|rewrite length_replicate; lia|apply zeros_ok|].
  cbn [d_addr tap_fresh]. rewrite E. cbn [expect].
  eapply (keeping_bind _ _ (λ x w, x = (r, Some a) ∧ n_devs (w_net w) !! d = Some _));
    [by apply keeping_ret|].
  intros x w1 Hw1 [-> Hd1].
  eapply (keeping_bind _ _ (λ _ w, n_devs (w_net w) !! d = Some (tap_fresh a))).
  { eapply keeping_put_dev; [done|exact Hd1|by apply dev_le_fresh|done|by intros ? ?]. }
  intros [] w2 Hw2 Hd2. apply keeping_ret; [done|]. exists a. by rewrite Hl.
Qed.

Lemma ether_tap_init_keeps name addr w :
  stack_ok w → (∀ p, addr = Some p → terminated p) → keeping (ether_tap_init name addr) dev_ready w.
Proof.
  intros Hw Ht. unfold ether_tap_init. eapply keeping_bind; [by apply net_device_alloc_keeps|].
  intros [d|] w1 Hw1 Hd; [|by apply keeping_ret]. specialize (Hd d eq_refl).
  eapply keeping_bind; [by apply ether_setup_keeps|]. intros [] w2 Hw2 Hd2.
  eapply keeping_bind; [by apply tap_address_keeps|]. intros valid w3 Hw3 (a&Hl&Hok&Hd3).
  destruct valid; cbn [negb]; [|by apply keeping_ret].
  eapply (keeping_bind _ _ (λ _ w, n_devs (w_net w) !! d = Some _)).
  { eapply keeping_upd_dev; [done|exact Hd3|by apply dev_le_fresh|done|by intros ? ?]. }
  intros [] w4 Hw4 Hd4.
  eapply (keeping_bind _ _ (λ _ w, n_devs (w_net w) !! d = Some _)); [by apply keeping_env|].
  intros ok w5 Hw5 Hd5. destruct ok; cbn [negb]; [|by apply keeping_ret].
  eapply (keeping_bind _ _ (λ _ w, n_devs (w_net w) !! d = Some _)).
  { eapply keeping_upd_dev; [done|exact Hd5|by apply dev_le_tap|by cbn|by intros ? ?]. }
  intros [] w6 Hw6 Hd6.
  eapply keeping_bind; [by eapply net_device_register_keeps; [done|exact Hd6|]|].
  intros r w7 Hw7 (->&index&Hd7). cbn [Z.eqb]. eapply keeping_get_dev; [exact Hd7|].
  eapply request_irq_ready; [done|exact Hd7|..]; [|done..].
  split_and!; try done. cbn. repeat (apply Forall_cons_2; [ulia|]). apply Forall_nil_2.
Qed.
End Init.

(** ** Opening and closing devices *)

Section Open.
Context `{Machine} `{EnvOk}.

Lemma dev_le_fd name fd irq name' fd' irq' dev :
  d_priv dev = PrivTap name fd irq → dev_le dev (set_d_priv (PrivTap name' fd' irq') dev).
Proof.
  intros Ep. constructor; try done.
  - unfold dev_wf. cbn. rewrite Ep. by destruct (d_ops dev) as [[]|].
  - unfold openable. cbn. rewrite Ep. by destruct (d_ops dev) as [[]|].
  - by rewrite Ep.
  - intros _. split; [cbn; lia|by apply Forall_nil_2].
Qed.

Lemma dev_le_addr a dev : length a = 16%nat → bytes_ok a → dev_le dev (set_d_addr a dev).
Proof.
  intros Hl Hok. constructor; try done.
  - unfold dev_wf. cbn. tauto.
  - unfold openable. cbn. tauto.
  - cbn; by destruct (d_priv dev).
Qed.

(** The device of a driver while it is opened. *)
Definition tap_at (d : nat) (w : world) : Prop :=
  ∃ dev name fd irq, n_devs (w_net w) !! d = Some dev ∧ d_priv dev = PrivTap name fd irq
    ∧ length (d_addr dev) = 16%nat ∧ bytes_ok (d_addr dev).

Lemma keeping_tap_at {A} d dev name fd irq (k : _ → C A) P w :
  n_devs (w_net w) !! d = Some dev → d_priv dev = PrivTap name fd irq →
  keeping (k (name, fd, irq)) P w → keeping (bind (tap_priv d) k) P w.
Proof. intros Hd Hp Hk. apply wp_bind. by eapply wp_tap_priv. Qed.

Lemma keeping_tap_priv {A} d (k : _ → C A) P w :
  tap_at d w → (∀ x, keeping (k x) P w) → keeping (bind (tap_priv d) k) P w.
Proof.
  intros (dev&name&fd&irq&Hd&Hp&_) Hk. by eapply keeping_tap_at.
Qed.

Lemma keeping_env_tap {A B} (f : nat → A) (k : A → C B) d P w :
  stack_ok w → tap_at d w → (∀ a w', stack_ok w' → tap_at d w' → keeping (k a) P w') →
  keeping (bind (env_call f) k) P w.
Proof. intros Hw Ht Hk. eapply (keeping_bind _ _ (λ _, tap_at d)); [by apply keeping_env|auto]. Qed.

Lemma ether_tap_configure_keeps calls d w :
  stack_ok w → tap_at d w → keeping (ether_tap_configure calls) (λ _, tap_at d) w.
Proof.
  revert w. induction calls as [|calls IH]; intros w Hw Ht; cbn; [by apply keeping_ret|].
  eapply keeping_env_tap; [done..|]. intros r w1 Hw1 Ht1. destruct (r =? -1); [|by apply IH].
  eapply keeping_env_tap; [done..|]. intros r' w2 Hw2 Ht2. by apply keeping_ret.
Qed.

Lemma ether_tap_addr_keeps d w :
  stack_ok w → tap_at d w → keeping (ether_tap_addr d) (λ _, tap_at d) w.
Proof.
  intros Hw Ht. unfold ether_tap_addr. eapply keeping_env_tap; [done..|]. intros soc w1 Hw1 Ht1.
  destruct (soc =? -1); [by apply keeping_ret|]. apply keeping_tap_priv; [done|]. intros _.
  eapply keeping_env_tap; [done..|]. intros r w2 Hw2 Ht2. destruct (r =? -1).
  { eapply keeping_env_tap; [done..|]. intros r' w3 Hw3 Ht3. by apply keeping_ret. }
  eapply (keeping_bind _ _ (λ hw w, (bytes_ok hw ∧ length hw = 6%nat) ∧ tap_at d w)).
  { apply keeping_env; [done|]. split; [apply env_hwaddr_ok|done]. }
  intros hw w3 Hw3 ((Hhw&Hlen)&(dev&name&fd&irq&Hd&Hp&Hl&Hok)).
  eapply keeping_get_dev; [exact Hd|].
  destruct (memcpy (d_addr dev) 0 hw ETHER_ADDR_LEN) as [a|] eqn:E.
  2:{ rewrite memcpy_spec in E; [done|..]; unfold zlen, ETHER_ADDR_LEN; lia. }
  assert (length a = 16%nat ∧ bytes_ok a) as [Hla Hoka].
  { pose proof (memcpy_length _ _ _ _ _ E). rewrite memcpy_spec in E; unfold zlen, ETHER_ADDR_LEN in *; [|lia..].
    split; [lia|]. injection E as <-. rewrite !bytes_ok_app. split_and!; auto with stack. }
  apply (keeping_bind _ _ (λ a' w, a' = a ∧ n_devs (w_net w) !! d = Some dev)); [by apply keeping_ret|].
  intros a' w4 Hw4 [-> Hd4].
  eapply (keeping_bind _ _ (λ _, tap_at d)).
  { eapply keeping_put_dev; [done|exact Hd4|by apply dev_le_addr|done|].
    intros w' Hd'. by exists (set_d_addr a dev), name, fd, irq. }
  intros [] w5 Hw5 Ht5. eapply keeping_env_tap; [done..|]. intros r' w6 Hw6 Ht6. by apply keeping_ret.
Qed.

Lemma ether_tap_open_keeps d w :
  stack_ok w → tap_at d w → keeping (ether_tap_open d) (λ _, tap_at d) w.
Proof.
  intros Hw Ht. unfold ether_tap_open. pose proof Ht as (dev&name&fd0&irq&Hd&Hp&Hl&Hok).
  eapply keeping_tap_at; [exact Hd|exact Hp|].
  eapply (keeping_bind _ _ (λ _ w, n_devs (w_net w) !! d = Some dev)); [by apply keeping_env|].
  intros fd w1 Hw1 Hd1. eapply (keeping_bind _ _ (λ _, tap_at d)).
  { eapply keeping_upd_dev; [done|exact Hd1|by eapply dev_le_fd|done|].
    intros w' Hd'. by eexists _, name, fd, irq. }
  intros [] w2 Hw2 Ht2. destruct (fd =? -1); [by apply keeping_ret|].
  eapply keeping_bind; [by apply ether_tap_configure_keeps|]. intros ok w3 Hw3 Ht3.
  destruct ok; cbn [negb]; [|by apply keeping_ret].
  pose proof Ht3 as (dev3&?&?&?&Hd3&_). eapply keeping_get_dev; [exact Hd3|].
  destruct (bool_decide _); [|by apply keeping_ret].
  eapply keeping_bind; [by apply ether_tap_addr_keeps|]. intros r w4 Hw4 Ht4.
  destruct (r =? -1); [|by apply keeping_ret].
  eapply (keeping_env_tap _ _ d); [done..|]. intros r' w5 Hw5 Ht5. by apply keeping_ret.
Qed.

Lemma open_tap_at d dev w :
  n_devs (w_net w) !! d = Some dev → openable dev → d_ops dev = Some OpsEtherTap → tap_at d w.
Proof.
  intros Hd (Hl&Hok&Hp) Eo. rewrite Eo in Hp. destruct (d_priv dev) eqn:E; try done.
  by exists dev, name, fd, irq.
Qed.

Definition dev_at (d : nat) (w : world) : Prop := is_Some (n_devs (w_net w) !! d).

Lemma tap_at_dev d w : tap_at d w → dev_at d w.
Proof. intros (dev&_&_&_&Hd&_). by exists dev. Qed.

Lemma ops_open_keeps d dev ops w :
  stack_ok w → n_devs (w_net w) !! d = Some dev → openable dev → d_ops dev = Some ops →
  keeping (match ops_open ops with Some open => open d | None => ret 0 end) (λ _, dev_at d) w.
Proof.
  intros Hw Hd Ho Eo. assert (dev_at d w) by (by exists dev).
  destruct ops; cbn [ops_open drivers]; try by apply keeping_ret.
  eapply keeping_mono; [apply ether_tap_open_keeps; [done|by eapply open_tap_at]|].
  intros r w' _. apply tap_at_dev.
Qed.

Lemma ops_close_keeps d dev ops w :
  stack_ok w → n_devs (w_net w) !! d = Some dev → openable dev → d_ops dev = Some ops →
  keeping (match ops_close ops with Some close => close d | None => ret 0 end) (λ _, dev_at d) w.
Proof.
  intros Hw Hd Ho Eo. assert (dev_at d w) by (by exists dev).
  destruct ops; cbn [ops_close drivers]; try by apply keeping_ret.
  unfold ether_tap_close. apply keeping_tap_priv; [by eapply open_tap_at|]. intros _.
  eapply (keeping_bind _ _ (λ _, dev_at d)); [by apply keeping_env|]. intros r w1 Hw1 Hd1.
  by apply keeping_ret.
Qed.

(** The flag of the device is set or reset when the driver has succeeded. *)
Lemma keeping_flags d (m : C Z) f w :
  (∀ dev, dev_le dev (f dev) ∧ d_ifaces (f dev) = d_ifaces dev) → keeping m (λ _, dev_at d) w →
  keeping (r <- m;; if r =? -1 then ret (-1) else upd_dev d f;; ret 0) (λ _ _, True) w.
Proof.
  intros Hf Hm. eapply keeping_bind; [exact Hm|]. intros r w1 Hw1 [dev Hd1].
  destruct (r =? -1); [by apply keeping_ret|].
  eapply (keeping_bind _ _ (λ _ _, True)); [|by intros; apply keeping_ret].
  eapply keeping_upd_dev; [done|done|apply Hf..|done].
Qed.

Lemma net_device_open_keeps d w :
  stack_ok w → open_dev (n_devs (w_net w)) d → keeping (net_device_open d) (λ _ _, True) w.
Proof.
  intros Hw (dev&Hd&Ho). unfold net_device_open. eapply keeping_get_dev; [exact Hd|].
  destruct (NET_DEVICE_IS_UP dev); [by apply keeping_ret|]. pose proof Ho as (_&_&Hops).
  destruct (d_ops dev) as [ops|] eqn:Eo; [|done]. apply wp_bind, wp_ret.
  apply keeping_flags; [by split; [apply dev_le_same|]|by eapply ops_open_keeps].
Qed.

Lemma net_device_close_keeps d w :
  stack_ok w → open_dev (n_devs (w_net w)) d → keeping (net_device_close d) (λ _ _, True) w.
Proof.
  intros Hw (dev&Hd&Ho). unfold net_device_close. eapply keeping_get_dev; [exact Hd|].
  destruct (negb _); [by apply keeping_ret|]. pose proof Ho as (_&_&Hops).
  destruct (d_ops dev) as [ops|] eqn:Eo; [|done]. apply wp_bind, wp_ret.
  apply keeping_flags; [by split; [apply dev_le_same|]|by eapply ops_close_keeps].
Qed.

Lemma for_devices_keeps (body : nat → C Z) ds w :
  (∀ d w, stack_ok w → open_dev (n_devs (w_net w)) d → keeping (body d) (λ _ _, True) w) →
  stack_ok w → Forall (open_dev (n_devs (w_net w))) ds →
  keeping (for_each ds (λ d, body d;; ret tt)) (λ _ _, True) w.
Proof.
  intros Hbody Hw Hds. eapply wp_mono; [apply (wp_for_each (boot_keeps w))|by intros [] w'].
  - intros d w1 Hin [Hw1 Hm1]. rewrite Forall_forall in Hds. apply wp_bind.
    eapply wp_mono; [apply Hbody; [done|by apply Hm1, Hds]|]. intros r w2 [Hb _]. wp_step.
    by apply (boot_keeps_trans w w1).
  - by apply boot_keeps_refl.
Qed.

Lemma intr_run_keeps w : stack_ok w → keeping intr_run (λ _ _, True) w.
Proof.
  intros Hw. unfold intr_run.
  eapply (keeping_bind _ _ (λ _ _, True)); [by apply keeping_env|]. intros e1 w1 Hw1 _.
  destruct (nz e1); [by apply keeping_ret|].
  eapply (keeping_bind _ _ (λ _ _, True)); [by apply keeping_env|]. intros e2 w2 Hw2 _.
  destruct (nz e2); [by apply keeping_ret|].
  apply keeping_setup; [done|]. repeat wp_step. split; [setup|done].
Qed.

Lemma net_run_keeps w : stack_ok w → keeping net_run (λ _ _, True) w.
Proof.
  intros Hw. unfold net_run. eapply keeping_bind; [by apply intr_run_keeps|]. intros r w1 Hw1 _.
  destruct (r =? -1); [by apply keeping_ret|]. apply wp_bind, wp_gets. cbv beta.
  eapply (keeping_bind _ _ (λ _ _, True)); [|by intros; apply keeping_ret].
  apply for_devices_keeps; [apply net_device_open_keeps|done|apply Hw1].
Qed.

Lemma net_shutdown_keeps w : stack_ok w → keeping net_shutdown (λ _ _, True) w.
Proof.
  intros Hw. unfold net_shutdown. apply wp_bind, wp_gets. cbv beta.
  eapply (keeping_bind _ _ (λ _ _, True)).
  - apply for_devices_keeps; [apply net_device_close_keeps|done|apply Hw].
  - intros [] w1 Hw1 _. apply keeping_setup; [done|]. unfold intr_shutdown. do 2 wp_step.
    destruct (negb _); wp_step; (split; [setup|done]).
Qed.
End Open.

(** ** Interfaces, routes and protocols *)

Section Config.
Context `{Machine} `{EnvOk}.

(** An address given as text. *)
Lemma parse_addr_wp p (Q : Z * bytes → world → Prop) w :
  terminated p →
  (∀ r n a, load32_at n = Some a → is_u32 a → Q (r, n) w) →
  wp (expect FaultBounds (ip_addr_pton p [0; 0; 0; 0])) Q w.
Proof.
  intros Ht HQ.
  destruct (ip_addr_pton_loop_safe 4 0 p [0; 0; 0; 0] Ht) as (r&n&E&_&Hl&Hok); [done..|apply (zeros_ok 4)|].
  unfold ip_addr_pton. rewrite E. wp_step. destruct n as [|b0 [|b1 [|b2 [|b3 [|]]]]]; try done.
  eapply HQ; [done|]. unfold bytes_ok in Hok. rewrite !Forall_cons in Hok. destruct Hok as (?&?&?&?&_). by apply load32_range.
Qed.

Lemma ip_iface_broadcast_range u m : is_u32 u → is_u32 m → is_u32 (ip_iface_broadcast u m).
Proof.
  intros Hu Hm. unfold ip_iface_broadcast, nz. destruct (Z.eqb_spec m 0) as [->|]; cbn [negb].
  - rewrite Z.land_0_r. change (is_u32 1). ulia.
  - rewrite Z.lor_0_r. by apply land_u32.
Qed.

(** An interface not yet attached. *)
Definition detached (n : net_state) (i : nat) : Prop :=
  ∃ ifc, n_ifs n !! i = Some ifc ∧ if_dev ifc = None.

Lemma setup_tick w : setup_le w (tick_world w).
Proof. setup. Qed.

Lemma setup_iface ifc w :
  is_u32 (if_unicast ifc) → is_u32 (if_netmask ifc) → is_u32 (if_broadcast ifc) → if_dev ifc = None →
  setup_le w (set_w_net (set_n_ifs (n_ifs (w_net w) ++ [ifc]) (w_net w)) w).
Proof.
  intros Hu Hm Hb Hd. setup.
  - intros i (ifc'&d&Hi&Hd'). exists ifc', d. cbn. by erewrite lookup_app_l_Some.
  - intros i ifc' [?|[_ [_ <-]%list_lookup_singleton_Some]]%lookup_app_Some; [auto|right].
    split_and!; [done..|]. congruence.
Qed.

Lemma ip_iface_alloc_keeps unicast netmask w :
  stack_ok w → terminated unicast → terminated netmask →
  keeping (ip_iface_alloc unicast netmask) (λ o w', ∀ i, o = Some i → detached (w_net w') i) w.
Proof.
  intros Hw Hu Hm. apply keeping_setup; [done|]. unfold ip_iface_alloc. do 2 wp_step.
  pose proof (setup_tick w) as Ht. destruct (negb _); [by wp_step|]. wp_step.
  apply parse_addr_wp; [done|]. intros r n u En Hu32. destruct (nz r); [by wp_step|]. rewrite En.
  do 3 wp_step. apply parse_addr_wp; [done|]. intros r' n' m En' Hm32.
  destruct (nz r'); [by wp_step|]. rewrite En'. repeat wp_step. split.
  - destruct (setup_iface (IpIface NET_IFACE_FAMILY_IP None u m (ip_iface_broadcast u m)) (tick_world w))
      as []; [done|done|by apply ip_iface_broadcast_range|done|]. by constructor.
  - intros i [= <-]. eexists. split; [apply list_lookup_middle; done|done].
Qed.

(** [net_device_add_iface] attaches an interface. *)
Lemma setup_attach d dev i ifc w :
  ready_dev (n_devs (w_net w)) d → n_devs (w_net w) !! d = Some dev →
  n_ifs (w_net w) !! i = Some ifc → if_dev ifc = None → ifc_ok (n_devs (w_net w)) ifc →
  let n := set_n_ifs (<[i := set_if_dev (Some d) ifc]> (n_ifs (w_net w))) (w_net w) in
  setup_le w (set_w_net (set_n_devs (<[d := set_d_ifaces (i :: d_ifaces dev) dev]> (n_devs n)) n) w)
  ∧ attached (set_n_devs (<[d := set_d_ifaces (i :: d_ifaces dev) dev]> (n_devs n)) n) i.
Proof.
  intros Hr Hd Hi Hnone (Hu&Hm&Hb&_) n.
  assert (dev_le dev (set_d_ifaces (i :: d_ifaces dev) dev)) as Hle by (by apply dev_le_same).
  assert (devs_le (n_devs (w_net w)) (<[d := set_d_ifaces (i :: d_ifaces dev) dev]> (n_devs (w_net w))))
    as Hdevs by (by eapply devs_le_insert).
  assert (attached (set_n_devs (<[d := set_d_ifaces (i :: d_ifaces dev) dev]> (n_devs n)) n) i) as Ha.
  { exists (set_if_dev (Some d) ifc), d. split; [|done]. apply list_lookup_insert_eq.
    by eapply lookup_lt_Some. }
  split; [|done]. setup.
  - intros j (ifc'&d'&Hj&Hd'). destruct (decide (j = i)) as [->|]; [done|].
    exists ifc', d'. split; [|done]. cbn. by rewrite list_lookup_insert_ne by done.
  - intros j ifc' [(<-&<-&_)|[_ ?]]%list_lookup_insert_Some; [right|auto]. split_and!; [done..|].
    intros d' [= <-]. by eapply ready_dev_le.
  - intros d' dev' j [(<-&<-&_)|[_ ?]]%list_lookup_insert_Some Hj; [|eauto].
    apply elem_of_cons in Hj as [->|]; eauto.
Qed.

Lemma iface_find_live l family w :
  (∀ i, i ∈ l → is_Some (n_ifs (w_net w) !! i)) → wp (iface_find l family) (λ _ w', w' = w) w.
Proof.
  induction l as [|i l IH]; intros Hl; cbn [iface_find]; [by wp_step|].
  destruct (Hl i ltac:(left)) as [ifc Hi]. do 2 wp_step. destruct (_ =? _); [by wp_step|].
  apply IH. intros j Hj. apply Hl. by right.
Qed.

Lemma net_device_add_iface_keeps d i w :
  stack_ok w → ready_dev (n_devs (w_net w)) d → detached (w_net w) i →
  keeping (net_device_add_iface d i) (λ r w', r = -1 ∨ attached (w_net w') i) w.
Proof.
  intros Hw Hr (ifc&Hi&Hnone). pose proof Hr as (dev&Hd&_). unfold net_device_add_iface.
  eapply keeping_get_dev; [exact Hd|]. unfold keeping. do 3 wp_step.
  eapply wp_mono; [apply iface_find_live; intros j; by eapply stack_ifaces_live|]. intros o w' ->.
  destruct o as [j|]; [by wp_step; split; [apply boot_keeps_refl|left]|].
  pose proof (so_ifs _ Hw) as Hifs. rewrite Forall_lookup in Hifs.
  destruct (setup_attach d dev i ifc w Hr Hd Hi Hnone (Hifs i ifc Hi)) as [Hs Ha].
  do 3 wp_step. eapply wp_upd_dev; [exact Hd|]. wp_step.
  split; [by apply setup_keeps|by right].
Qed.

(** A route over an attached interface. *)
Lemma ip_route_add_keeps network netmask nexthop i w :
  stack_ok w → attached (w_net w) i → is_u32 nexthop →
  keeping (ip_route_add network netmask nexthop i) (λ _ _, True) w.
Proof.
  intros Hw Ha Hn. pose proof Ha as (ifc&d&Hi&Hd). pose proof (so_ifs _ Hw) as Hifs.
  rewrite Forall_lookup in Hifs. destruct (Hifs i ifc Hi) as (_&_&_&Hr).
  destruct (Hr d Hd) as (dev&Hdev&_). apply keeping_setup; [done|]. unfold ip_route_add.
  do 2 wp_step. destruct (negb _); [wp_step; by split; [setup|]|]. do 4 wp_step.
  rewrite Hd. repeat wp_step. split; [|done]. setup.
  intros r [->|]%elem_of_cons; [right|auto]. by split.
Qed.

Lemma keeping_attached {A} (m : C A) P i w :
  attached (w_net w) i → keeping m P w → keeping m (λ a w', P a w' ∧ attached (w_net w') i) w.
Proof. intros Ha Hm. eapply wp_mono; [exact Hm|]. intros a w' [Hb HP]. split_and!; [done..|by apply Hb]. Qed.

Lemma ip_iface_register_keeps d i w :
  stack_ok w → ready_dev (n_devs (w_net w)) d → detached (w_net w) i →
  keeping (ip_iface_register d i) (λ r w', r = -1 ∨ attached (w_net w') i) w.
Proof.
  intros Hw Hr Hi. unfold ip_iface_register.
  eapply keeping_bind; [by apply net_device_add_iface_keeps|]. intros r w1 Hw1 Ha.
  destruct (Z.eqb_spec r (-1)); [by apply keeping_ret; [|left]|]. destruct Ha as [|Ha]; [done|].
  pose proof Ha as (ifc&d'&Hi1&_). apply wp_bind. eapply wp_get_if; [exact Hi1|].
  eapply keeping_bind; [apply keeping_attached, ip_route_add_keeps; [done..|unfold IP_ADDR_ANY; ulia]|].
  intros ok w2 Hw2 [_ Ha2]. destruct ok; cbn [negb]; [|by apply keeping_ret; [|left]].
  apply keeping_setup; [done|]. repeat wp_step. split; [setup|by right].
Qed.

Lemma set_default_gateway_keeps i gateway w :
  stack_ok w → attached (w_net w) i → terminated gateway →
  keeping (ip_route_set_default_gateway i gateway) (λ _ _, True) w.
Proof.
  intros Hw Ha Ht. unfold ip_route_set_default_gateway. apply wp_bind, parse_addr_wp; [done|].
  intros r n gw En Hgw. destruct (r =? -1); [by apply keeping_ret|]. rewrite En.
  apply wp_bind, wp_ret. eapply keeping_bind; [by apply ip_route_add_keeps|].
  intros ok w1 Hw1 _. destruct (negb ok); by apply keeping_ret.
Qed.

(** Entries for the tables of functions. *)
Lemma net_protocol_register_keeps type h w :
  stack_ok w → keeping (net_protocol_register type h) (λ _ _, True) w.
Proof.
  intros Hw. apply keeping_setup; [done|]. unfold net_protocol_register. do 2 wp_step.
  destruct (existsb _ _); [wp_step; by split; [setup|]|]. do 2 wp_step.
  destruct (negb _); [wp_step; by split; [setup|]|]. repeat wp_step. split; [|done]. setup.
  intros p [->|]%elem_of_cons; auto.
Qed.

Lemma net_timer_register_keeps interval h w :
  stack_ok w → keeping (net_timer_register interval h) (λ _ _, True) w.
Proof.
  intros Hw. apply keeping_setup; [done|]. unfold net_timer_register. do 2 wp_step.
  destruct (negb _); repeat wp_step; (split; [setup|done]).
Qed.

Lemma net_event_subscribe_keeps h w : stack_ok w → keeping (net_event_subscribe h) (λ _ _, True) w.
Proof.
  intros Hw. apply keeping_setup; [done|]. unfold net_event_subscribe. do 2 wp_step.
  destruct (negb _); repeat wp_step; (split; [setup|done]).
Qed.

Lemma ip_protocol_register_keeps type h w :
  stack_ok w → (h = HandlerTcp → type = IP_PROTOCOL_TCP) →
  keeping (ip_protocol_register type h) (λ _ _, True) w.
Proof.
  intros Hw Hh. apply keeping_setup; [done|]. unfold ip_protocol_register. do 2 wp_step.
  destruct (existsb _ _); [wp_step; by split; [setup|]|]. do 2 wp_step.
  destruct (negb _); [wp_step; by split; [setup|]|]. repeat wp_step. split; [|done]. setup.
  intros p [->|]%elem_of_cons; auto.
Qed.

(** [if (f() == -1) return -1;] *)
Lemma keeping_or_fail (m k : C Z) w :
  keeping m (λ _ _, True) w → (∀ w', stack_ok w' → keeping k (λ _ _, True) w') →
  keeping (r <- m;; if r =? -1 then ret (-1) else k) (λ _ _, True) w.
Proof.
  intros Hm Hk. eapply keeping_bind; [exact Hm|]. intros r w1 Hw1 _.
  destruct (r =? -1); [by apply keeping_ret|auto].
Qed.

Lemma net_init_keeps w : stack_ok w → keeping net_init (λ _ _, True) w.
Proof.
  intros Hw. unfold net_init, intr_init, ip_init, icmp_init, arp_init, udp_init, tcp_init.
  apply keeping_or_fail; [apply keeping_setup; [done|]; repeat wp_step; by split; [setup|]|].
  intros w1 Hw1. apply keeping_or_fail.
  { apply keeping_or_fail; [by apply net_protocol_register_keeps|]. intros. by apply keeping_ret. }
  intros w2 Hw2. apply keeping_or_fail.
  { apply keeping_or_fail; [by apply ip_protocol_register_keeps|]. intros. by apply keeping_ret. }
  intros w3 Hw3. apply keeping_or_fail.
  { apply keeping_or_fail; [by apply net_protocol_register_keeps|]. intros.
    apply keeping_or_fail; [by apply net_timer_register_keeps|]. intros. by apply keeping_ret. }
  intros w4 Hw4. apply keeping_or_fail.
  { apply keeping_or_fail; [by apply ip_protocol_register_keeps|]. intros.
    apply keeping_or_fail; [by apply net_event_subscribe_keeps|]. intros. by apply keeping_ret. }
  intros w5 Hw5. apply keeping_or_fail; [|by intros; apply keeping_ret].
  apply keeping_or_fail; [by apply ip_protocol_register_keeps|]. intros.
  apply keeping_or_fail; [by apply net_timer_register_keeps|]. intros.
  eapply keeping_bind; [by apply net_event_subscribe_keeps|]. intros. by apply keeping_ret.
Qed.
End Config.

(** ** The host as a transition system *)

(** What the program calls to configure the stack, the frames that arrive at
    a device, the signals that the interrupt thread receives, and the
    operations of UDP and TCP. *)
Inductive stack_op :=
  | OpNetInit
  | OpDummyInit
  | OpLoopbackInit
  | OpTapInit (name : bytes) (addr : option bytes)
  | OpIfaceAlloc (unicast netmask : bytes)
  | OpIfaceRegister (d i : nat)
  | OpDefaultGateway (i : nat) (gateway : bytes)
  | OpNetRun
  | OpNetShutdown
  | OpFrame (d : nat) (frame : bytes)
  | OpSignal (sig : Z)
  | OpUdp (op : udp_op)
  | OpTcp (op : tcp_op).

Inductive stack_result :=
  | GotUnit
  | GotInt (r : Z)
  | GotDev (o : option nat)
  | GotIface (o : option nat)
  | GotTerminate (b : bool)
  | GotTcp (r : tcp_result).

Section Host.
Context `{Machine} `{EnvOk}.

Definition stack_run (op : stack_op) : C stack_result :=
  match op with
  | OpNetInit => r <- net_init;; ret (GotInt r)
  | OpDummyInit => o <- dummy_init;; ret (GotDev o)
  | OpLoopbackInit => o <- loopback_init;; ret (GotDev o)
  | OpTapInit name addr => o <- ether_tap_init name addr;; ret (GotDev o)
  | OpIfaceAlloc unicast netmask => o <- ip_iface_alloc unicast netmask;; ret (GotIface o)
  | OpIfaceRegister d i => r <- ip_iface_register d i;; ret (GotInt r)
  | OpDefaultGateway i gateway => r <- ip_route_set_default_gateway i gateway;; ret (GotInt r)
  | OpNetRun => r <- net_run;; ret (GotInt r)
  | OpNetShutdown => net_shutdown;; ret GotUnit
  | OpFrame d frame => sys_modify (λ y, set_y_rx (y_rx y ++ [(d, frame)]) y);; ret GotUnit
  | OpSignal sig => b <- intr_signal sig;; ret (GotTerminate b)
  | OpUdp op => udp_run op;; ret GotUnit
  | OpTcp op => r <- tcp_run op;; ret (GotTcp r)
  end.

(** What the callers have to provide: terminated strings, a device and an
    interface that were allocated before, an interface that is attached; and
    the packets the software interrupt handles are benign. *)
Definition stack_op_ok (w : world) (op : stack_op) : Prop :=
  match op with
  | OpNetInit | OpDummyInit | OpLoopbackInit | OpNetRun | OpNetShutdown => True
  | OpTapInit _ addr => ∀ p, addr = Some p → terminated p
  | OpIfaceAlloc unicast netmask => terminated unicast ∧ terminated netmask
  | OpIfaceRegister d i => ready_dev (n_devs (w_net w)) d ∧ detached (w_net w) i
  | OpDefaultGateway i gateway => attached (w_net w) i ∧ terminated gateway
  | OpFrame _ frame => bytes_ok frame
  | OpSignal sig => sig = SIGUSR1 → softirq_benign w
  | OpUdp op => udp_op_ok op
  | OpTcp op => tcp_op_ok w op
  end.

(** What the results are good for. *)
Definition stack_result_ok (op : stack_op) (r : stack_result) (w : world) : Prop :=
  match op, r with
  | OpIfaceRegister _ i, GotInt r => r = -1 ∨ attached (w_net w) i
  | _, GotDev (Some d) => ready_dev (n_devs (w_net w)) d
  | _, GotIface (Some i) => detached (w_net w) i
  | OpSignal sig, GotTerminate b => b = (sig =? SIGHUP)
  | _, _ => True
  end.

Inductive stack_reaches : world → world → Prop :=
| stack_here w : stack_reaches w w
| stack_step w op r w1 w2 :
    stack_op_ok w op → stack_run op w = Done r w1 → stack_reaches w1 w2 → stack_reaches w w2.

Lemma keeping_result {A} (m : C A) (P : A → world → Prop) (f : A → stack_result) op w :
  keeping m P w → (∀ a w', stack_ok w' → P a w' → stack_result_ok op (f a) w') →
  keeping (a <- m;; ret (f a)) (stack_result_ok op) w.
Proof.
  intros Hm HP. eapply keeping_bind; [exact Hm|]. intros a w1 Hw1 Ha. apply keeping_ret; auto.
Qed.

Lemma keeping_wp {A} (m : C A) (P : A → Prop) w :
  wp m (λ a w', P a ∧ stack_run_ok w w') w → keeping m (λ a _, P a) w.
Proof.
  intros Hm. eapply wp_mono; [exact Hm|]. intros a w' (HP&Hw'&Hf). split; [|done].
  split; [done|by apply stack_mono_frame].
Qed.

Lemma stack_ok_arrives d frame w :
  stack_ok w → bytes_ok frame →
  stack_run_ok w (set_w_sys (set_y_rx (y_rx (w_sys w) ++ [(d, frame)]) (w_sys w)) w).
Proof.
  intros Hw Hok. assert (stack_frame w (set_w_sys (set_y_rx (y_rx (w_sys w) ++ [(d, frame)]) (w_sys w)) w))
    as Hf by (by constructor).
  split; [|done]. eapply stack_ok_frame; [done|done|try apply Hw..].
  apply Forall_app. split; [apply Hw|]. by apply Forall_singleton.
Qed.

Lemma stack_run_keeps op w :
  stack_ok w → stack_op_ok w op → keeping (stack_run op) (stack_result_ok op) w.
Proof.
  intros Hw Hop. destruct op; cbn [stack_run stack_op_ok] in *; eapply keeping_result.
  - by apply net_init_keeps. - done.
  - by apply dummy_init_keeps. - intros [d|] w' _ Hd; [by apply Hd|done].
  - by apply loopback_init_keeps. - intros [d|] w' _ Hd; [by apply Hd|done].
  - by apply ether_tap_init_keeps. - intros [d|] w' _ Hd; [by apply Hd|done].
  - destruct Hop. by apply ip_iface_alloc_keeps. - intros [i|] w' _ Hi; [by apply Hi|done].
  - destruct Hop. by apply ip_iface_register_keeps. - done.
  - destruct Hop. by apply set_default_gateway_keeps. - done.
  - by apply net_run_keeps. - done.
  - by apply net_shutdown_keeps. - done.
  - apply (keeping_wp _ (λ _, True)). wp_step. split; [done|]. by apply stack_ok_arrives. - done.
  - apply keeping_wp. by apply intr_signal_safe. - done.
  - apply (keeping_wp _ (λ _, True)). eapply wp_mono; [by apply udp_run_keeps; [apply stack_udp_ok|]|].
    intros [] w' Hk. split; [done|]. by apply stack_keeps_run, stack_keeps_udp. - done.
  - apply (keeping_wp _ (λ _, True)). eapply wp_mono; [by apply tcp_run_spec; [apply stack_tcp_ready|]|].
    intros r w' [Hk _]. split; [done|]. by apply stack_keeps_run, stack_keeps_tcp. - done.
Qed.

Lemma stack_reaches_ok w w' : stack_ok w → stack_reaches w w' → stack_ok w'.
Proof.
  intros Hw Hr. induction Hr as [|w op r w1 w2 Hop Hrun _ IH]; [done|]. apply IH.
  pose proof (stack_run_keeps op w Hw Hop) as Hk. unfold keeping, wp in Hk. rewrite Hrun in Hk.
  apply Hk.
Qed.



(** ** The interrupt thread *)

(** The results of [sigwait] at which the thread ends. *)
Definition sig_ends (s : option Z) : bool :=
  match s with
  | None => true
  | Some sig => sig =? SIGHUP
  end.

(** The software interrupts among the signals find benign packets. *)
Definition sigs_benign (sigs : list (option Z)) (w : world) : Prop :=
  ∀ pre post w1, sigs = pre ++ Some SIGUSR1 :: post → intr_loop pre w = Done (Blocked tt) w1 →
    softirq_benign w1.

Lemma intr_loop_safe sigs w :
  stack_ok w → sigs_benign sigs w →
  wp (intr_loop sigs) (λ r w', stack_run_ok w w'
    ∧ r = if existsb sig_ends sigs then Returned tt else Blocked tt) w.
Proof.
  revert w. induction sigs as [|[sig|] sigs IH]; intros w Hw Hb; cbn [intr_loop existsb sig_ends orb];
    [wp_step; by split_and!| |wp_step; by split_and!].
  pose proof (intr_signal_safe sig w Hw) as (b&w1&E&->&Hk)%wp_Done.
  2:{ intros ->. by apply (Hb [] sigs w). }
  unfold wp, bind at 1. rewrite E. destruct (sig =? SIGHUP) eqn:Eh; [by split|]. cbn [orb].
  eapply wp_mono; [apply IH; [apply Hk|]|].
  - intros pre post w2 -> E2. apply (Hb (Some sig :: pre) post); [done|].
    cbn [intr_loop]. unfold bind. by rewrite E.
  - intros r w' [Hk' ->]. split; [|done]. by eapply stack_run_trans.
Qed.


(** After [net_init] on a program's start, when memory does not run out,
    IP and ARP are registered with the network layer, ICMP, UDP and TCP with
    IP, each once and with its own handler and protocol number; the timers
    of ARP (every second) and TCP (every 100 ms) and the event handlers of
    UDP and TCP are in place; the four signals of the interrupt thread are
    blocked; and devices, interfaces, routes and control blocks are as they
    were. *)
Lemma net_init_registers :
  never_fails →
  wp net_init (λ r w', r = 0
    ∧ n_protocols (w_net w')
      = [NetProtocol NET_PROTOCOL_TYPE_ARP [] HandlerArp; NetProtocol NET_PROTOCOL_TYPE_IP [] HandlerIp]
    ∧ i_protocols (w_ip w')
      = [IpProtocol IP_PROTOCOL_TCP HandlerTcp; IpProtocol IP_PROTOCOL_UDP HandlerUdp;
         IpProtocol IP_PROTOCOL_ICMP HandlerIcmp]
    ∧ ((λ t, (nt_interval t, nt_handler t)) <$> n_timers (w_net w'))
      = [(Timeval 0 100000, TimerTcp); (Timeval 1 0, TimerArp)]
    ∧ n_events (w_net w') = [EventTcp; EventUdp]
    ∧ y_sigmask (w_sys w') = [SIGHUP; SIGUSR1; SIGUSR2; SIGALRM]
    ∧ set_n_protocols [] (set_n_timers [] (set_n_events [] (w_net w'))) = w_net boot_world
    ∧ set_i_protocols [] (w_ip w') = w_ip boot_world
    ∧ w_arp w' = w_arp boot_world ∧ w_udp w' = w_udp boot_world ∧ w_tcp w' = w_tcp boot_world)
    boot_world.
Proof.
  intros Hnf. unfold boot_world. generalize (replicate ARP_CACHE_SIZE arp_cache_zero) as arp.
  intros arp. match goal with |- context [World _ _ _ _ ?u ?t] => generalize u t end. intros udp tcp.
  unfold wp. cbv -[env_calloc env_gettimeofday]. rewrite !Hnf. by split_and!.
Qed.
End Host.

(** ** On the sample machine *)

Lemma stack_initialised w :
  stack_ok w → ∃ r w', @stack_run sample_machine sample_env OpNetInit w = Done r w'.
Proof.
  intros Hw.
  pose proof (@stack_run_keeps sample_machine sample_env sample_env_ok OpNetInit w Hw I) as Hk.
  unfold keeping in Hk. apply wp_Done in Hk as (r&w'&E&_). by exists r, w'.
Qed.



Lemma net_init_registers_witness :
  ∃ w', @net_init sample_env boot_world = Done 0 w' ∧ n_events (w_net w') = [EventTcp; EventUdp].
Proof.
  destruct (wp_Done _ _ _ (@net_init_registers sample_env sample_never_fails))
    as (r&w'&E&->&_&_&_&He&_).
  by exists w'.
Defined.
