(* ===== verification/Deliver.v ===== *)
(** * Between two hosts, or a host and itself

    What the theorems on whole deliveries share, whatever the device: a host
    that is ready to receive IP packets on a device; [udp_sendto] down to the
    packet that [ip_output_device] sends; the interrupt thread from a signal
    to the protocol's handler; and the packet of a datagram up to the receive
    queue of its destination. *)

From S2P Require Import Prelude Bytes Checksum Clock Text Addr Monad State Platform Queue Net Ether.
From S2P Require Import Drivers Device Sample Receive Arp Ip Icmp Pseudo Udp Tcp TcpUser TcpLogic.
From S2P Require Import TcpConn TcpArrive TcpOps TcpProps Stack Safety Boot.

(** ** A host on a device *)

(** Device [d] is up and [i] is its IP interface; IP and UDP are registered,
    and nothing waits in the input queues. *)
Record ip_host (d i : nat) (dev : net_device) (ifc : ip_iface) (w : world) : Prop := IpHost {
  ih_ok : stack_ok w;
  ih_dev : n_devs (w_net w) !! d = Some dev;
  ih_up : NET_DEVICE_IS_UP dev = true;
  ih_ifc : n_ifs (w_net w) !! i = Some ifc;
  ih_ifdev : if_dev ifc = Some d;
  ih_family : family_iface (w_net w) dev NET_IFACE_FAMILY_IP = Some (i, ifc);
  ih_ip : ∃ k p, list_find (λ p, np_type p = NET_PROTOCOL_TYPE_IP) (n_protocols (w_net w)) = Some (k, p)
    ∧ np_handler p = HandlerIp;
  ih_idle : pending (n_protocols (w_net w)) = [];
  ih_udp : ∃ k p, list_find (λ p, ip_type p = IP_PROTOCOL_UDP) (i_protocols (w_ip w)) = Some (k, p)
    ∧ ip_handler_of p = HandlerUdp
}.

(** One handler is registered for the IRQ of the device. *)
Definition irq_of (irq : Z) (h : isr) (d : nat) (irqs : list irq_entry) : Prop :=
  ∃ pre e post, irqs = pre ++ e :: post ∧ Forall (λ e, ie_irq e ≠ irq) (pre ++ post)
    ∧ ie_irq e = irq ∧ ie_handler e = h ∧ ie_dev e = d.

Lemma ip_host_u32 d i dev ifc w :
  ip_host d i dev ifc w → is_u32 (if_unicast ifc) ∧ is_u32 (if_broadcast ifc).
Proof.
  intros Hh. pose proof (so_ifs _ (ih_ok _ _ _ _ _ Hh)) as Hifs. rewrite Forall_lookup in Hifs.
  by destruct (Hifs i ifc (ih_ifc _ _ _ _ _ Hh)) as (?&_&?&_).
Qed.

(** The protocols registered, whatever waits in their queues. *)
Lemma protocols_same (ps ps' : list net_protocol) k p :
  set_np_queue [] <$> ps = set_np_queue [] <$> ps' → ps !! k = Some p →
  ∃ p', ps' !! k = Some p' ∧ np_type p' = np_type p ∧ np_handler p' = np_handler p.
Proof.
  intros E Hk. pose proof (f_equal (lookup k) E) as El. rewrite !list_lookup_fmap, Hk in El.
  destruct (ps' !! k) as [p'|]; [|done]. exists p'. cbn in El. by injection El.
Qed.

(** The handler of a type, before or after. *)
Lemma protocol_found_same (ps ps' : list net_protocol) type h :
  set_np_queue [] <$> ps' = set_np_queue [] <$> ps →
  (∃ k p, list_find (λ p, np_type p = type) ps = Some (k, p) ∧ np_handler p = h) →
  ∃ k p, list_find (λ p, np_type p = type) ps' = Some (k, p) ∧ np_handler p = h.
Proof.
  intros Hps (k&p&(Hk&Ht&Hfirst)%list_find_Some&Hhan).
  destruct (protocols_same _ _ k p (eq_sym Hps) Hk) as (p'&Hk'&Ht'&Hh'). exists k, p'.
  split; [|congruence]. apply list_find_Some. split_and!; [done|congruence|]. intros j y Hj Hlt.
  destruct (protocols_same _ _ j y Hps Hj) as (y'&Hy'&Hty&_). rewrite <- Hty. by eapply Hfirst.
Qed.

(** The host between two packets. *)
Lemma ip_host_frame d i dev ifc w w' :
  ip_host d i dev ifc w → stack_ok w' → stack_frame w w' → n_devs (w_net w') !! d = Some dev →
  pending (n_protocols (w_net w')) = [] → ip_host d i dev ifc w'.
Proof.
  intros Hh Hw' Hf Hd Hp. pose proof Hf as [_ _ Hifs Hps _ _ Hip Hirq]. injection Hip as _ E2 E3.
  constructor; try done; try apply Hh.
  - rewrite Hifs. apply Hh.
  - pose proof (ih_family _ _ _ _ _ Hh) as Hfam. unfold family_iface in *. by rewrite Hifs.
  - eapply protocol_found_same; [exact Hps|apply Hh].
  - rewrite E2. apply Hh.
Qed.

(** ** The interrupt thread *)

Section Interrupt.
Context `{Machine} `{EnvOk}.

Lemma wp_both {A} (m : C A) P Q w : wp m P w → wp m Q w → wp m (λ a w', P a w' ∧ Q a w') w.
Proof. intros HP HQ. apply wp_and; [done|]. unfold wp, wlp in *. by destruct (m w). Qed.

Lemma wp_eq {A} (m m' : C A) Q w : m w = m' w → wp m' Q w → wp m Q w.
Proof. unfold wp. by intros ->. Qed.

Lemma for_each_skip {A} (l : list A) (body : A → C unit) (Q : unit → world → Prop) w :
  Forall (λ x, body x = ret tt) l → Q tt w → wp (for_each l body) Q w.
Proof.
  induction 1 as [|x l E _ IH]; intros HQ; cbn [for_each]; [done|]. apply wp_bind. rewrite E. wp_step.
  by apply IH.
Qed.

Lemma for_each_one {A} pre (x : A) post (body : A → C unit) (Q : unit → world → Prop) w :
  Forall (λ x, body x = ret tt) (pre ++ post) → wp (body x) Q w →
  wp (for_each (pre ++ x :: post) body) Q w.
Proof.
  intros [Hpre Hpost]%Forall_app Hx. induction Hpre as [|y pre E _ IH]; cbn [app for_each]; apply wp_bind.
  - eapply wp_mono; [exact Hx|]. intros [] w' HQ. by apply for_each_skip.
  - rewrite E. wp_step. exact IH.
Qed.

(** An IRQ with one handler. *)
Lemma intr_irq_one sig pre e post (Q : unit → world → Prop) w :
  y_irqs (w_sys w) = pre ++ e :: post → Forall (λ e, ie_irq e ≠ sig) (pre ++ post) → ie_irq e = sig →
  wp (isr_handlers (ie_handler e) sig (ie_dev e)) (λ _, Q tt) w → wp (intr_irq sig) Q w.
Proof.
  intros Ei Hn He Hw. unfold intr_irq. do 2 wp_step. rewrite Ei. apply for_each_one.
  - eapply Forall_impl; [exact Hn|]. intros e' Hne. cbn. by destruct (Z.eqb_spec (ie_irq e') sig).
  - rewrite He, Z.eqb_refl. apply wp_bind. eapply wp_mono; [exact Hw|]. intros r w' HQ. by wp_step.
Qed.

(** The queue of one protocol gets a packet while all are empty. *)
Lemma pending_push ps k p e :
  pending ps = [] → ps !! k = Some p →
  pending (alter (λ p, set_np_queue (np_queue p ++ [e]) p) k ps) = [(np_handler p, e)].
Proof.
  unfold pending. revert k. induction ps as [|p' ps IH]; intros k He Hk; [done|].
  cbn in He. apply app_nil in He as [He1 He2]. apply fmap_nil_inv in He1.
  destruct k as [|k]; cbn in Hk |- *.
  - injection Hk as ->. rewrite He1, He2. done.
  - rewrite He1. cbn. by apply IH.
Qed.

(** The software interrupt with one packet waiting. *)
Lemma softirq_one h e w (Q : world → Prop) :
  pending (n_protocols (w_net w)) = [(h, e)] →
  (∀ k q, receive_frame w (queue_world k q w) → pending (n_protocols (w_net (queue_world k q w))) = [] →
     wp (net_handlers h (nqe_data e) (nqe_len e) (nqe_dev e))
       (λ _ w', n_protocols (w_net w') = n_protocols (w_net (queue_world k q w)) ∧ Q w')
       (queue_world k q w)) →
  wp (net_softirq_handler net_handlers)
    (λ _ w', Q w' ∧ pending (n_protocols (w_net w')) = []) w.
Proof.
  intros Hp Hcall.
  eapply wp_mono; [apply (net_softirq_wp net_handlers (λ done w', match done with
      | [] => w' = w
      | _ => Q w' ∧ pending (n_protocols (w_net w')) = []
      end))|].
  - intros done k p e' q w1 HI Hk Hq Hfirst. pose proof (pending_pop _ k p e' q Hk Hq Hfirst) as Epop.
    destruct done as [|x done]; [|by destruct HI as [_ E]; rewrite E in Epop].
    subst w1. rewrite Hp in Epop. injection Epop as -> -> Erest.
    eapply wp_mono; [apply Hcall; [by eapply receive_queue_world|done]|].
    intros [] w2 [Hn HQ]. split; [done|]. cbn. split; [done|]. by rewrite Hn.
  - done.
  - intros r w' (_&HI&_). rewrite Hp in HI. exact HI.
Qed.
End Interrupt.

(** ** Sending *)

(** Where a packet goes next: to the gateway of its route, or to its
    destination. *)
Definition next_hop (r : ip_route) (dst : Z) : Z :=
  if rt_nexthop r =? IP_ADDR_ANY then dst else rt_nexthop r.

(** The next packet has the next identification. *)
Definition next_id (w : world) : world :=
  set_w_ip (set_i_id (u16 (i_id (w_ip w) + 1)) (w_ip w)) w.

(** The packet of a datagram. *)
Definition udp_packet `{Machine} (src dst : ip_endpoint) (data : bytes) (len id : Z) (pkt : bytes) : Prop :=
  ∃ dgram, udp_datagram src dst data len = Some dgram
    ∧ ip_packet IP_PROTOCOL_UDP dgram (UDP_HDR_SIZE + len) (ep_addr src) (ep_addr dst) id 0 = Some pkt
    ∧ zlen pkt = IP_HDR_SIZE_MIN + (UDP_HDR_SIZE + len) ∧ bytes_ok pkt.

Section Send.
Context `{Machine} `{EnvOk}.

Lemma ip_packet_ok protocol data len src dst id pkt :
  is_u8 protocol → 0 <= len <= zlen data → IP_HDR_SIZE_MIN + len <= IP_TOTAL_SIZE_MAX →
  is_u32 src → is_u32 dst → is_u16 id → bytes_ok data →
  ip_packet protocol data len src dst id 0 = Some pkt → zlen pkt = IP_HDR_SIZE_MIN + len ∧ bytes_ok pkt.
Proof.
  intros Hp Hl Hmax Hs Hd Hid Hok E.
  destruct (ip_packet_eq protocol data len src dst id 0) as (sum&Hsum&E'&_); [done..|].
  rewrite E in E'. apply (inj Some) in E' as ->. rewrite zlen_app, zlen_ip_hdr_bytes. split.
  - unfold zlen in *. rewrite length_take. lia.
  - apply bytes_ok_app. split; [|by apply Forall_take]. apply ip_hdr_bytes_ok, ip_hdr_out_ok; (done || lia).
Qed.

Lemma next_id_send w : send_frame w (next_id w).
Proof. constructor; try done. intros _. apply u16_range. Qed.

Lemma ip_output_link protocol data len d i dev ifc r dst (Q : Z → world → Prop) w :
  ip_wf w → link_free w → n_devs (w_net w) !! d = Some dev → n_ifs (w_net w) !! i = Some ifc →
  if_dev ifc = Some d → is_u32 (if_unicast ifc) → ip_route_select (i_routes (w_ip w)) dst = Some r → rt_iface r = i →
  is_u8 protocol → is_u32 dst → (if_unicast ifc =? IP_ADDR_ANY) && (dst =? IP_ADDR_BROADCAST) = false →
  bytes_ok data → 0 <= len <= zlen data →
  IP_HDR_SIZE_MIN + len <= d_mtu dev → d_mtu dev <= IP_TOTAL_SIZE_MAX →
  (∀ pkt, ip_packet protocol data len (if_unicast ifc) dst (i_id (w_ip w)) 0 = Some pkt →
     zlen pkt = IP_HDR_SIZE_MIN + len → bytes_ok pkt →
     wp (ip_output_device i pkt (IP_HDR_SIZE_MIN + len) (next_hop r dst))
       (λ r w', send_frame w w' → Q (if r =? -1 then -1 else len) w') (next_id w)) →
  wp (ip_output protocol data len (if_unicast ifc) dst) Q w.
Proof.
  intros Hwf Hfree Hd Hi Hid Hu Hr Hri Hp Hdst Hany Hok Hl Hmtu Hmax HQ.
  pose proof Hwf as [_ Hidu Hrt]. pose proof Hfree as (_&Hmi&_). unfold IP_TOTAL_SIZE_MAX, IP_HDR_SIZE_MIN in *.
  unfold ip_output. rewrite Hany. unfold ip_route_lookup. do 2 wp_step. rewrite Hr, Hri. do 2 wp_step.
  rewrite Z.eqb_refl, andb_false_r, Hid. do 4 wp_step. unfold IP_HDR_SIZE_MIN.
  rewrite u64_small by ulia. destruct (Z.ltb_spec (d_mtu dev) (20 + len)) as [Hlt|_]; [lia|].
  unfold ip_generate_id. do 3 wp_step. do 6 wp_step; [by left|].
  match goal with |- wp _ _ ?w1 => assert (w1 = next_id w) as -> end.
  { etrans; [exact (f_equal (λ L, lock_world L (next_id w)) (filter_unlock _ _ Hmi))|].
    by destruct w as [[]]. }
  destruct (ip_packet_eq protocol data len (if_unicast ifc) dst (i_id (w_ip w)) 0)
    as (sum&Hsum&Epkt&_); try done; [unfold IP_HDR_SIZE_MIN, IP_TOTAL_SIZE_MAX; lia|].
  unfold ip_output_core. specialize (HQ _ Epkt). wp_step. cbn [w_ip lock_world set_w_sys]. rewrite Epkt. set (pkt := _ ++ take (Z.to_nat len) data) in *.
  destruct (ip_packet_ok _ _ _ _ _ _ _ Hp Hl ltac:(unfold IP_HDR_SIZE_MIN, IP_TOTAL_SIZE_MAX; lia) Hu Hdst
    Hidu Hok Epkt) as [Hz Hpok]. unfold IP_HDR_SIZE_MIN in Hz.
  unfold IP_HDR_SIZE_MIN. rewrite u16_small by ulia. apply wp_bind. do 2 wp_step.
  match goal with |- context [if negb ?b then ?x else ?y] =>
    replace (if negb b then x else y) with (next_hop r dst) by (unfold next_hop; by destruct b) end.
  pose proof (next_id_send w) as Hsf. eapply wp_mono; [apply wp_both; [by apply HQ|]|].
  - apply ip_output_device_wp; [apply Hwf|by apply (link_free_frame w)| |lia|done].
    apply (iface_wf_frame w); [done..|]. rewrite <- Hri.
    pose proof (ip_route_select_best (i_routes (w_ip w)) dst) as Hb. rewrite Hr in Hb.
    destruct Hb as (k&Hk&_). rewrite Forall_lookup in Hrt. by eapply (proj1 (Hrt _ _ Hk)).
  - intros r' w' [HQ' [_ Hsf']]. cbn beta in HQ'. specialize (HQ' ltac:(by etrans)).
    by destruct (r' =? -1); wp_step.
Qed.

Lemma ip_output_sends protocol data len d i dev ifc r dst (Q : Z → world → Prop) w :
  ip_host d i dev ifc w → ip_route_select (i_routes (w_ip w)) dst = Some r → rt_iface r = i →
  is_u8 protocol → is_u32 dst → (if_unicast ifc =? IP_ADDR_ANY) && (dst =? IP_ADDR_BROADCAST) = false →
  bytes_ok data → 0 <= len <= zlen data →
  IP_HDR_SIZE_MIN + len <= d_mtu dev → d_mtu dev <= IP_TOTAL_SIZE_MAX →
  (∀ pkt, ip_packet protocol data len (if_unicast ifc) dst (i_id (w_ip w)) 0 = Some pkt →
     zlen pkt = IP_HDR_SIZE_MIN + len → bytes_ok pkt →
     wp (ip_output_device i pkt (IP_HDR_SIZE_MIN + len) (next_hop r dst))
       (λ r w', send_frame w w' → Q (if r =? -1 then -1 else len) w') (next_id w)) →
  wp (ip_output protocol data len (if_unicast ifc) dst) Q w.
Proof.
  intros Hh. pose proof (ih_ok _ _ _ _ _ Hh) as Hw. destruct (ip_host_u32 _ _ _ _ _ Hh) as [Hu _].
  apply (ip_output_link _ _ _ d); try apply Hh; [by apply stack_ip_wf|by apply stack_link_free|done].
Qed.

Lemma udp_output_sends d i dev ifc r sport dst dport data len (Q : Z → world → Prop) w :
  ip_host d i dev ifc w → ip_route_select (i_routes (w_ip w)) dst = Some r → rt_iface r = i →
  is_u16 sport → is_u32 dst → is_u16 dport →
  (if_unicast ifc =? IP_ADDR_ANY) && (dst =? IP_ADDR_BROADCAST) = false →
  bytes_ok data → 0 <= len <= zlen data →
  IP_HDR_SIZE_MIN + (UDP_HDR_SIZE + len) <= d_mtu dev → d_mtu dev <= IP_TOTAL_SIZE_MAX →
  (∀ pkt, udp_packet (IpEndpoint (if_unicast ifc) sport) (IpEndpoint dst dport)
       data len (i_id (w_ip w)) pkt →
     wp (ip_output_device i pkt (IP_HDR_SIZE_MIN + (UDP_HDR_SIZE + len)) (next_hop r dst))
       (λ r w', send_frame w w' → Q (if r =? -1 then -1 else len) w') (next_id w)) →
  wp (udp_output (IpEndpoint (if_unicast ifc) sport) (IpEndpoint dst dport) data len) Q w.
Proof.
  intros Hh Hr Hri Hsp Hdst Hdp Hany Hok Hl Hmtu Hmax HQ. destruct (ip_host_u32 _ _ _ _ _ Hh) as [Ha _].
  unfold IP_HDR_SIZE_MIN, UDP_HDR_SIZE, IP_TOTAL_SIZE_MAX in *. unfold udp_output.
  change (IP_PAYLOAD_SIZE_MAX - UDP_HDR_SIZE) with 65507. rewrite Z.gtb_ltb.
  destruct (Z.ltb_spec 65507 len); [lia|].
  set (src := IpEndpoint (if_unicast ifc) sport) in *. set (dste := IpEndpoint dst dport) in *.
  destruct (udp_datagram_eq src dste data len) as (sum&_&_&_&Edg&_); try done;
    [change IP_PAYLOAD_SIZE_MAX with 65515; unfold UDP_HDR_SIZE; lia|].
  pose proof (zlen_udp_wire src dste data len sum Hl) as Hz. unfold UDP_HDR_SIZE in Hz.
  rewrite Edg. unfold UDP_HDR_SIZE. do 2 wp_step. rewrite u16_small by ulia. wp_step.
  eapply (ip_output_sends _ _ _ d i dev ifc r); try done; try (unfold IP_HDR_SIZE_MIN, IP_TOTAL_SIZE_MAX; lia).
  - by apply udp_wire_ok.
  - intros pkt Epkt Hzp Hpok. eapply wp_mono; [apply HQ; by exists (udp_wire src dste data len sum)|].
    intros r' w' HQ' Hsf. specialize (HQ' Hsf). destruct (r' =? -1); [cbn [Z.eqb Pos.eqb]; by wp_step|].
    destruct (Z.eqb_spec (8 + len) (-1)); [lia|]. by wp_step.
Qed.

(** [udp_sendto] on a bound control block hands the packet of the datagram
    to the device that the route leads to. *)
Lemma udp_sendto_sends s pcb data len d i dev ifc r dst dport (Q : Z → world → Prop) w :
  ip_host d i dev ifc w → ip_route_select (i_routes (w_ip w)) dst = Some r → rt_iface r = i →
  w_udp w !! s = Some pcb → up_state pcb = UDP_PCB_STATE_OPEN → ep_port (up_local pcb) ≠ 0 →
  ep_addr (up_local pcb) = IP_ADDR_ANY ∨ ep_addr (up_local pcb) = if_unicast ifc →
  is_u32 dst → is_u16 dport → (if_unicast ifc =? IP_ADDR_ANY) && (dst =? IP_ADDR_BROADCAST) = false →
  bytes_ok data → 0 <= len <= zlen data →
  IP_HDR_SIZE_MIN + (UDP_HDR_SIZE + len) <= d_mtu dev → d_mtu dev <= IP_TOTAL_SIZE_MAX →
  (∀ pkt, udp_packet (IpEndpoint (if_unicast ifc) (ep_port (up_local pcb))) (IpEndpoint dst dport)
       data len (i_id (w_ip w)) pkt →
     wp (ip_output_device i pkt (IP_HDR_SIZE_MIN + (UDP_HDR_SIZE + len)) (next_hop r dst))
       (λ r w', send_frame w w' → Q (if r =? -1 then -1 else len) w') (next_id w)) →
  wp (udp_sendto (Z.of_nat s) data len (IpEndpoint dst dport)) Q w.
Proof.
  intros Hh Hr Hri Hs Hst Hport Haddr Hdst Hdp Hany Hok Hl Hmtu Hmax HQ.
  pose proof (ih_ok _ _ _ _ _ Hh) as Hw. pose proof (stack_udp_ok w Hw) as Hu.
  destruct (udp_wf_lookup _ _ _ (so_udp _ Hw) Hs) as (_&[_ Hsp]&_).
  unfold udp_sendto. do 2 wp_step; [apply Hu|]. wp_step.
  eapply udp_pcb_get_open; [apply Hw|exact Hs|done|]. do 3 wp_step. set (w0 := lock_world _ w).
  apply (wp_mono _ (λ addr w', addr = Some (if_unicast ifc) ∧ w' = w0)).
  { destruct (Z.eqb_spec (ep_addr (up_local pcb)) IP_ADDR_ANY) as [|Hne].
    - unfold ip_route_get_iface, ip_route_lookup.
      do 4 wp_step. cbn [w_ip w0 lock_world set_w_sys ep_addr]. rewrite Hr. cbn [fmap option_fmap option_map].
      rewrite Hri. wp_step. eapply wp_get_if; [exact (ih_ifc _ _ _ _ _ Hh)|]. by wp_step.
    - wp_step. destruct Haddr as [?| ->]; done. }
  intros addr w' [-> ->]. unfold nz. destruct (Z.eqb_spec (ep_port (up_local pcb)) 0); [done|]. cbn [negb].
  do 2 wp_step. wp_step. eapply wp_get_udp; [exact Hs|].
  destruct (Z.eqb_spec (ep_port (up_local pcb)) 0); [done|]. cbn [negb]. do 2 wp_step; [by left|].
  match goal with |- wp _ _ ?w1 => assert (w1 = w) as -> end.
  { change (lock_world (filter (λ m', m' ≠ MutexUdp) (MutexUdp :: locked w)) w = w).
    rewrite filter_unlock by apply Hu. by destruct w as [[]]. }
  by apply (udp_output_sends d i dev ifc r).
Qed.
End Send.

(** ** Receiving *)

(** The receive queues once a datagram has arrived. *)
Definition udp_arrived (src dst : ip_endpoint) (data : bytes) (len : Z) (pcbs : list udp_pcb)
  : list udp_pcb :=
  match list_find (udp_pcb_matches (ep_addr dst) (ep_port dst)) pcbs with
  | Some (k, pcb) =>
      <[k := udp_enqueue (UdpQueueEntry src len (take (Z.to_nat len) data)) pcb]> pcbs
  | None => pcbs
  end.

Section Arrive.
Context `{Machine} `{EnvOk}.

(** The packet of a datagram, padded or not, is delivered to its control
    block. *)
Lemma packet_received d i dev ifc src dst data len pkt pad id w :
  never_fails → stack_ok w → n_devs (w_net w) !! d = Some dev →
  family_iface (w_net w) dev NET_IFACE_FAMILY_IP = Some (i, ifc) →
  (∃ k p, list_find (λ p, ip_type p = IP_PROTOCOL_UDP) (i_protocols (w_ip w)) = Some (k, p)
    ∧ ip_handler_of p = HandlerUdp) →
  endpoint_ok src → endpoint_ok dst → is_u16 id → bytes_ok data → bytes_ok pad → 0 <= len <= zlen data →
  UDP_HDR_SIZE + len <= IP_PAYLOAD_SIZE_MAX → ip_for ifc (ep_addr dst) = true →
  udp_packet src dst data len id pkt →
  wp (ip_input ip_handlers (pkt ++ pad) (zlen (pkt ++ pad)) d) (λ _ w', stack_keeps w w'
    ∧ udp_frame w w' ∧ w_udp w' = udp_arrived src dst data len (w_udp w)) w.
Proof.
  intros Hnf Hw Hd Hfam (k&p&Hfind&Hhan) Hsrc Hdst Hid Hok Hpad Hl Hmax Hfor (dgram&Edg&Epkt&_&_).
  destruct (udp_datagram_eq src dst data len) as (sum&_&_&_&Edg'&_); try done; try apply Hsrc; try apply Hdst.
  rewrite Edg in Edg'. injection Edg' as ->.
  pose proof (zlen_udp_wire src dst data len sum Hl) as Hz.
  assert (bytes_ok (udp_wire src dst data len sum)) as Hwok by (by apply udp_wire_ok).
  change IP_PAYLOAD_SIZE_MAX with 65515 in *. unfold UDP_HDR_SIZE in *.
  pose proof (ip_input_packet ip_handlers IP_PROTOCOL_UDP (udp_wire src dst data len sum) (8 + len)
    (ep_addr src) (ep_addr dst) id pkt pad d dev i ifc w) as Ein.
  unfold wp. rewrite Ein; try done; try lia; try apply Hsrc; try apply Hdst.
  - rewrite Hfor, Hfind, Hhan. cbn [ip_handlers].
    rewrite take_ge by (unfold zlen in Hz; lia).
    pose proof (udp_input_received src dst data len (udp_wire src dst data len sum) pad i w) as Hr.
    unfold UDP_HDR_SIZE in Hr.
    eapply (wp_mono (udp_input (udp_wire src dst data len sum ++ pad) (8 + len) (ep_addr src) (ep_addr dst) i)).
    + apply wp_both; [apply Hr; try done|apply udp_input_keeps; try done; try apply Hsrc; try apply Hdst].
      * rewrite (so_locked _ Hw). apply not_elem_of_nil.
      * apply bytes_ok_app. by split.
      * rewrite zlen_app. pose proof (zlen_nonneg pad). lia.
      * by apply stack_udp_ok.
    + intros [] w2 [[Hfr Hu] Hk]. split_and!; [by apply stack_keeps_udp|exact Hfr|].
      rewrite Hu, !Hnf. done.
  - unfold IP_HDR_SIZE_MIN, IP_TOTAL_SIZE_MAX. lia.
  - intros j. by eapply stack_ifaces_live.
Qed.
End Arrive.
