(* ===== verification/UdpLoop.v ===== *)
(** * A datagram over the loopback device

    The parts composed: [udp_sendto] builds a datagram and hands it to IP,
    which wraps it in a packet and sends it on the loopback device; the
    interrupt thread takes it from the device's queue into the input queue
    of IP, and from there through [ip_input] and [udp_input] into the receive
    queue of the destination. *)

From S2P Require Import Prelude Bytes Checksum Clock Text Addr Monad State Platform Queue Net Ether.
From S2P Require Import Drivers Device Sample Receive Arp Ip Icmp Pseudo Udp Tcp TcpUser TcpLogic.
From S2P Require Import TcpConn TcpArrive TcpOps TcpProps Stack Safety Boot Deliver.

(** ** A host with a loopback interface *)

(** Device [d] is an idle loopback device with interface [i]; the route to
    the interface's address leads over it, and its IRQ is registered. *)
Record loop_host `{Machine} (d i : nat) (dev : net_device) (ifc : ip_iface) (w : world) : Prop := LoopHost {
  lh_host : ip_host d i dev ifc w;
  lh_ops : d_ops dev = Some OpsLoopback;
  lh_priv : d_priv dev = PrivLoopback LOOPBACK_IRQ [];
  lh_arp : nz (Z.land (d_flags dev) NET_DEVICE_FLAG_NEED_ARP) = false;
  lh_mtu : d_mtu dev = LOOPBACK_MTU;
  lh_route : ∃ r, ip_route_select (i_routes (w_ip w)) (if_unicast ifc) = Some r ∧ rt_iface r = i;
  lh_irq : irq_of LOOPBACK_IRQ IsrLoopback d (y_irqs (w_sys w))
}.

Section Send.
Context `{Machine} `{EnvOk}.

(** Sending a packet over the loopback interface puts it in the device's
    queue. *)
Lemma ip_output_device_loop d i dev ifc pkt len dst w :
  never_fails → n_devs (w_net w) !! d = Some dev → d_ops dev = Some OpsLoopback →
  d_priv dev = PrivLoopback LOOPBACK_IRQ [] → NET_DEVICE_IS_UP dev = true →
  nz (Z.land (d_flags dev) NET_DEVICE_FLAG_NEED_ARP) = false → d_mtu dev = LOOPBACK_MTU →
  n_ifs (w_net w) !! i = Some ifc → if_dev ifc = Some d →
  0 <= len <= zlen pkt → len <= 65535 → MutexLoopback d ∉ locked w →
  wp (ip_output_device i pkt len dst) (λ r w', r = 0
    ∧ n_devs (w_net w') = <[d := with_queue
        [LoopbackQueueEntry NET_PROTOCOL_TYPE_IP len (take (Z.to_nat len) pkt)] dev]> (n_devs (w_net w)))
    w.
Proof.
  intros Hnf Hd Ho Hp Hup Harp Hmtu Hi Hid Hl Hmax Hm. unfold ip_output_device.
  do 2 wp_step. rewrite Hid. do 4 wp_step. rewrite Harp. do 2 wp_step. rewrite Z.eqb_refl. cbn [negb].
  unfold net_device_output. do 2 wp_step. rewrite Hup. cbn [negb].
  destruct (Z.gtb_spec len (d_mtu dev)) as [Hgt|_]; [unfold LOOPBACK_MTU in *; lia|].
  rewrite Ho. do 3 wp_step. cbn [ops_transmit drivers].
  eapply wp_mono; [by apply (loopback_transmit_push d dev LOOPBACK_IRQ []); try (cbn; lia)|].
  intros r w' (->&_&Hn&_). cbn [Z.eqb]. by wp_step.
Qed.

(** What waits in the device's queue once a datagram has been sent. *)
Definition in_flight (d : nat) (dev : net_device) (src dst : ip_endpoint) (data : bytes) (len id : Z)
    (w w' : world) : Prop :=
  ∃ pkt, udp_packet src dst data len id pkt
    ∧ n_devs (w_net w')
      = <[d := with_queue [LoopbackQueueEntry NET_PROTOCOL_TYPE_IP (zlen pkt) pkt] dev]> (n_devs (w_net w)).

(** [udp_sendto] on a bound control block. *)
Lemma udp_sendto_loop d i dev ifc w s pcb dport data len :
  never_fails → loop_host d i dev ifc w → w_udp w !! s = Some pcb →
  up_state pcb = UDP_PCB_STATE_OPEN → ep_port (up_local pcb) ≠ 0 →
  ep_addr (up_local pcb) = IP_ADDR_ANY ∨ ep_addr (up_local pcb) = if_unicast ifc →
  is_u16 dport → bytes_ok data → 0 <= len <= zlen data → UDP_HDR_SIZE + len <= IP_PAYLOAD_SIZE_MAX →
  let a := if_unicast ifc in
  wp (udp_sendto (Z.of_nat s) data len (IpEndpoint a dport)) (λ r w', udp_keeps w w' ∧ r = len
    ∧ w_udp w' = w_udp w ∧ in_flight d dev (IpEndpoint a (ep_port (up_local pcb))) (IpEndpoint a dport) data len
        (i_id (w_ip w)) w w') w.
Proof.
  intros Hnf Hh Hs Hst Hport Haddr Hdp Hok Hl Hmax a. pose proof Hh as [Hip Ho Hp Harp Hmtu (r&Hr&Hri) _].
  pose proof Hip as [Hw Hd Hup Hi Hid _ _ _ _]. destruct (ip_host_u32 _ _ _ _ _ Hip) as [Ha _].
  change IP_PAYLOAD_SIZE_MAX with 65515 in *. unfold UDP_HDR_SIZE in *.
  apply wp_both; [apply udp_sendto_keeps; try done; by apply stack_udp_ok|].
  eapply (udp_sendto_sends s pcb _ _ d i dev ifc r); try done;
    try (rewrite Hmtu; unfold IP_HDR_SIZE_MIN, UDP_HDR_SIZE, IP_TOTAL_SIZE_MAX, LOOPBACK_MTU; lia).
  { unfold a. by destruct (Z.eqb_spec (if_unicast ifc) IP_ADDR_ANY) as [->|]. }
  intros pkt Hpkt. pose proof Hpkt as (_&_&_&Hz&_). rewrite <- Hz.
  eapply wp_mono; [apply (ip_output_device_loop d i dev ifc pkt (zlen pkt)); try done|].
  - pose proof (zlen_nonneg pkt). lia.
  - unfold IP_HDR_SIZE_MIN, UDP_HDR_SIZE in Hz. lia.
  - apply (stack_link_free w Hw).
  - intros r' w' [-> Hn] Hsf. split_and!; [done|apply Hsf|]. exists pkt. split; [done|].
    by rewrite take_ge in Hn by (unfold zlen; lia).
Qed.
End Send.

(** ** The interrupt thread *)

Section Interrupt.
Context `{Machine} `{EnvOk}.

Lemma with_queue_idle d i dev ifc w q :
  loop_host d i dev ifc w → with_queue [] (with_queue q dev) = dev.
Proof.
  intros Hh. unfold with_queue. rewrite (lh_priv _ _ _ _ _ Hh). cbn.
  pose proof (lh_priv _ _ _ _ _ Hh). destruct dev. cbn in *. by subst.
Qed.

(** The host between two datagrams. *)
Lemma loop_host_frame d i dev ifc w w' :
  loop_host d i dev ifc w → ip_host d i dev ifc w' → stack_frame w w' → loop_host d i dev ifc w'.
Proof.
  intros Hh Hh' Hf. pose proof (kf_ip _ _ Hf) as Hip. injection Hip as _ _ E3.
  constructor; try done; try apply Hh.
  - rewrite E3. apply Hh.
  - rewrite (kf_irqs _ _ Hf). apply Hh.
Qed.

(** The loopback interrupt moves the packet to the input queue of IP. *)
Lemma loopback_signal d i dev ifc e w w1 :
  never_fails → loop_host d i dev ifc w → stack_ok w1 → stack_frame w w1 →
  n_protocols (w_net w1) = n_protocols (w_net w) →
  n_devs (w_net w1) = <[d := with_queue [e] dev]> (n_devs (w_net w)) →
  lqe_type e = NET_PROTOCOL_TYPE_IP →
  wp (intr_signal LOOPBACK_IRQ) (λ _ w2, stack_ok w2 ∧ stack_frame w w2 ∧ w_udp w2 = w_udp w1
    ∧ n_devs (w_net w2) !! d = Some dev
    ∧ pending (n_protocols (w_net w2)) = [(HandlerIp, NetQueueEntry d (lqe_len e) (lqe_data e))]) w1.
Proof.
  intros Hnf Hh Hw1 Hf Hps Hd Ht. pose proof (lh_host _ _ _ _ _ Hh) as Hip.
  pose proof (ih_dev _ _ _ _ _ Hip) as Hdev.
  destruct (lh_irq _ _ _ _ _ Hh) as (pre&en&post&Ei&Hne&Eirq&Eh&Ed).
  destruct (ih_ip _ _ _ _ _ Hip) as (k&p&Hfind&Hhan).
  assert (n_devs (w_net w1) !! d = Some (with_queue [e] dev)) as Hd1.
  { rewrite Hd. apply list_lookup_insert_eq. by eapply lookup_lt_Some. }
  change (intr_signal LOOPBACK_IRQ) with (intr_irq LOOPBACK_IRQ;; ret false). apply wp_bind.
  eapply (intr_irq_one _ pre en post); [by rewrite (kf_irqs _ _ Hf)|done|done|].
  rewrite Eh, Ed. cbn [isr_handlers].
  eapply wp_mono; [eapply loopback_isr_wp; [exact Hd1|by eapply with_queue_priv, Hh| |by apply stack_link_free]|].
  { pose proof (so_loopbacks _ Hw1) as Hl. unfold loopbacks_ok in Hl. rewrite Forall_lookup in Hl. eauto. }
  intros r w2 (_&Hf2&Hn2&Hp2). wp_step. split_and!.
  - by eapply stack_ok_receive.
  - etrans; [done|by apply receive_stack_frame].
  - apply Hf2.
  - rewrite Hn2, (with_queue_idle d i dev ifc w) by done. apply list_lookup_insert_eq. by eapply lookup_lt_Some.
  - rewrite Hp2, Hps by done. unfold loopback_receive. cbn [foldl]. unfold proto_receive.
    rewrite Ht, Hfind. rewrite (pending_push _ _ p), Hhan; [done|apply Hip|].
    by apply list_find_Some in Hfind as (?&_).
Qed.

End Interrupt.

(** ** The theorem *)

Section Loop.
Context `{Machine} `{EnvOk}.

(** C18. A datagram sent to an address of the host over the loopback device
    arrives.  [udp_sendto] on a bound control block returns the length; once
    the interrupt thread has served the device's interrupt and the software
    interrupt, the payload is at the end of the receive queue of the control
    block bound to the destination port, with the sender's endpoint and its
    length, and its sleepers are woken; no other control block has changed,
    and the host is ready for the next datagram. *)
Theorem udp_loopback_delivers d i dev ifc s sender dport data len w :
  never_fails → loop_host d i dev ifc w → w_udp w !! s = Some sender →
  up_state sender = UDP_PCB_STATE_OPEN → ep_port (up_local sender) ≠ 0 →
  ep_addr (up_local sender) = IP_ADDR_ANY ∨ ep_addr (up_local sender) = if_unicast ifc →
  is_u16 dport → bytes_ok data → 0 <= len <= zlen data → UDP_HDR_SIZE + len <= IP_PAYLOAD_SIZE_MAX →
  let a := if_unicast ifc in
  wp (r <- udp_sendto (Z.of_nat s) data len (IpEndpoint a dport);;
      intr_signal LOOPBACK_IRQ;; intr_signal SIGUSR1;; ret r)
    (λ r w', r = len ∧ loop_host d i dev ifc w'
     ∧ w_udp w' = udp_arrived (IpEndpoint a (ep_port (up_local sender))) (IpEndpoint a dport) data len
                    (w_udp w)) w.
Proof.
  intros Hnf Hh Hs Hst Hport Haddr Hdp Hok Hl Hmax a. pose proof (lh_host _ _ _ _ _ Hh) as Hip.
  pose proof (ih_ok _ _ _ _ _ Hip) as Hw. destruct (ip_host_u32 _ _ _ _ _ Hip) as [Ha _].
  destruct (udp_wf_lookup _ _ _ (so_udp _ Hw) Hs) as (_&[_ Hsp]&_).
  apply wp_bind. eapply wp_mono; [by apply (udp_sendto_loop d i dev ifc w s sender)|].
  intros r w1 (Hk&->&Hu1&pkt&Hpkt&Hn1). apply wp_bind.
  pose proof (uk_frame _ _ Hk) as Hf1. pose proof (lf_net _ _ Hf1) as Hnt.
  eapply wp_mono; [eapply (loopback_signal d i dev ifc); try done|].
  { by eapply stack_ok_udp. } { by apply link_stack_frame. } { by injection Hnt. }
  intros b w2 (Hw2&Hf2&Hu2&Hd2&Hp2). apply wp_bind.
  change (intr_signal SIGUSR1) with (net_softirq_handler net_handlers;; ret false). apply wp_bind.
  match goal with |- context [w_udp _ = ?u] => set (target := u) end.
  eapply wp_mono; [eapply (softirq_one _ _ w2 (λ w', stack_ok w' ∧ stack_frame w w'
    ∧ n_devs (w_net w') !! d = Some dev ∧ w_udp w' = target)); [exact Hp2|]|].
  - intros k q Hrf _. cbn [net_handlers nqe_data nqe_len nqe_dev lqe_len lqe_data].
    assert (stack_frame w (queue_world k q w2)) as Hfq by (etrans; [done|by apply receive_stack_frame]).
    pose proof (kf_ip _ _ Hfq) as Htab. injection Htab as _ E2 _.
    rewrite <- (app_nil_r pkt). eapply wp_mono; [eapply (packet_received d i dev ifc); try exact Hpkt; try done|].
    + by eapply stack_ok_receive.
    + pose proof (ih_family _ _ _ _ _ Hip) as Hfam. unfold family_iface in *. by rewrite (kf_ifs _ _ Hfq).
    + cbn [w_ip queue_world set_w_net]. rewrite E2. apply Hip.
    + apply Hw.
    + by apply Forall_nil_2.
    + unfold ip_for, a. cbn. by rewrite Z.eqb_refl.
    + intros [] w3 ([Hw3 Hf3]&[Hn3 _ _ _ _ _]&Hu3). rewrite Hn3. split_and!; [done|done| |exact Hd2|].
      * etrans; [done|by apply link_stack_frame].
      * rewrite Hu3. cbn [w_udp queue_world set_w_net]. by rewrite Hu2, Hu1.
  - intros r w3 ((Hw3&Hf3&Hd3&Hu3)&Hp3). do 2 wp_step. split_and!; [done| |done].
    eapply loop_host_frame; [done|by eapply ip_host_frame|done].
Qed.
End Loop.

(** ** On the sample host *)

(** The sample host with its interrupts registered. *)
Definition sample_loop : world :=
  set_w_sys (SysState 0 [] [] true
      [IrqEntry LOOPBACK_IRQ IsrLoopback INTR_IRQ_SHARED (net_name 1) 1;
       IrqEntry ETHER_TAP_IRQ IsrEtherTap INTR_IRQ_SHARED (net_name 0) 0] [] [] [])
    (sample_world (replicate 16 tcp_pcb_zero)).

Lemma sample_loop_ifs : Forall (ifc_ok [sample_tap; sample_lo]) (n_ifs sample_net).
Proof.
  assert (ready_dev [sample_tap; sample_lo] 0) as H0
    by (exists sample_tap; split_and!; [done|apply sample_tap_wf|done]).
  assert (ready_dev [sample_tap; sample_lo] 1) as H1
    by (exists sample_lo; split_and!; [done|apply sample_lo_wf|done]).
  repeat apply Forall_cons_2; try apply Forall_nil_2; (split_and!; [vm_compute; done..|]);
    by intros d [= <-].
Qed.

Lemma sample_loop_ok : stack_ok sample_loop.
Proof.
  assert (∀ i, (i < 2)%nat → attached sample_net i) as Hatt.
  { intros [|[|i]] Hi; [..|lia]; by eexists _, _. }
  constructor.
  - apply sample_udp_wf.
  - split; [done|]. apply Forall_replicate, tcp_pcb_zero_ok.
  - apply sample_arp_wf.
  - vm_compute. done.
  - repeat apply Forall_cons_2; try apply Forall_nil_2; (split; [apply Hatt; cbn; lia|vm_compute; done]).
  - apply sample_loop_ifs.
  - intros [|[|d]] dev i [= <-] Hi; apply Hatt; apply list_elem_of_singleton in Hi as ->; lia.
  - repeat apply Forall_cons_2; try apply Forall_nil_2; eexists; (split; [done|]);
      (split_and!; [done| |done]); [apply sample_lo_wf|apply sample_tap_wf].
  - repeat apply Forall_cons_2; try apply Forall_nil_2; by eexists.
  - intros p Hp. cbn in Hp. rewrite !elem_of_cons, elem_of_nil in Hp.
    by destruct Hp as [->|[->|[->|[]]]].
  - repeat apply Forall_cons_2; apply Forall_nil_2.
  - repeat apply Forall_cons_2; try apply Forall_nil_2; (split; [cbn; lia|apply Forall_nil_2]).
  - apply Forall_nil_2.
  - done.
Qed.

Lemma sample_loop_host :
  @loop_host sample_machine 1 1 sample_lo
    (IpIface NET_IFACE_FAMILY_IP (Some 1%nat) addr_lo 0x000000ff 0x0000007f) sample_loop.
Proof.
  constructor; try done; [constructor; try done|..].
  - apply sample_loop_ok.
  - by eexists _, _.
  - by eexists _, _.
  - by eexists.
  - eexists [], _, [_]. split_and!; try done. by apply Forall_singleton.
Qed.

Lemma udp_loopback_delivers_witness :
  ∃ w', (r <- @udp_sendto sample_machine sample_env sample_ops 0 [1; 2; 3] 3 (IpEndpoint addr_lo 0x00c0);;
         @intr_signal sample_machine sample_env LOOPBACK_IRQ;;
         @intr_signal sample_machine sample_env SIGUSR1;; ret r) sample_loop = Done 3 w'
    ∧ up_queue <$> w_udp w' !! 0%nat
      = Some [UdpQueueEntry (IpEndpoint addr_lo 0x00c0) 3 [1; 2; 3]].
Proof.
  destruct (wp_Done _ _ _ (@udp_loopback_delivers sample_machine sample_env sample_env_ok 1 1 sample_lo
    (IpIface NET_IFACE_FAMILY_IP (Some 1%nat) addr_lo 0x000000ff 0x0000007f) 0
    (UdpPcb 1 (IpEndpoint addr_lo 0x00c0) [] sample_ctx) 0x00c0 [1; 2; 3] 3 sample_loop
    sample_never_fails sample_loop_host ltac:(done) ltac:(done) ltac:(done) ltac:(by right) ltac:(done)
    ltac:(by repeat apply Forall_cons_2) ltac:(done) ltac:(done))) as (r&w'&E&->&_&Hu).
  exists w'. split; [exact E|]. by rewrite Hu.
Defined.

(** An echo request waits in the queue of IP. *)
Definition sample_echo : bytes :=
  [69; 0; 0; 28; 0; 1; 0; 0; 255; 1; 0; 0; 127; 0; 0; 1; 127; 0; 0; 1; 8; 0; 0; 0; 0; 1; 0; 1].

Definition sample_waiting : world :=
  set_w_net (set_n_protocols
    [NetProtocol NET_PROTOCOL_TYPE_IP [NetQueueEntry 1 28 sample_echo] HandlerIp;
     NetProtocol NET_PROTOCOL_TYPE_ARP [] HandlerArp] sample_net) sample_loop.

Lemma sample_waiting_ok : stack_ok sample_waiting.
Proof.
  destruct sample_loop_ok. constructor; try done.
  apply Forall_cons_2; [|by repeat apply Forall_cons_2; apply Forall_nil_2].
  apply Forall_singleton. split_and!; [done| |cbn; lia]. cbn. repeat (apply Forall_cons_2; [ulia|]).
  apply Forall_nil_2.
Qed.

Lemma sample_sigs_benign :
  @sigs_benign sample_machine sample_env [Some SIGUSR1; Some SIGALRM; Some SIGHUP]
    (tick_world (tick_world sample_waiting)).
Proof.
  intros pre post w1 Epre. destruct pre as [|s1 [|s2 [|s3 pre]]]; try discriminate Epre.
  2:{ by destruct pre. }
  intros [= <-]. apply (@softirq_benign_always _ _ sample_env_ok); [do 2 apply stack_ok_tick; apply sample_waiting_ok|].
  apply Forall_singleton. intros hdr [= <-] _. split; [vm_compute; done|done].
Qed.

