(* ===== verification/EtherLink.v ===== *)
(** * Two hosts on an Ethernet

    The parts composed across hosts: what a host writes to its tap device is
    the frame that waits at the other host's, whose interrupt thread takes it
    through the driver and the input queues to ARP or IP.  The theorems are on
    the address resolution between two hosts, and on a datagram sent from one
    to the other. *)

From S2P Require Import Prelude Bytes Checksum Clock Text Addr Monad State Platform Queue Net Ether.
From S2P Require Import Drivers Device Sample Receive Arp Ip Icmp Pseudo Udp Tcp TcpUser TcpLogic.
From S2P Require Import TcpConn TcpArrive TcpOps TcpProps Stack Safety Boot Deliver UdpLoop.

(** ** A host with a tap device *)

(** Device [d] is a tap device with interface [i] at which no frame waits;
    ARP is registered, and so is the device's IRQ. *)
Record tap_host (d i : nat) (dev : net_device) (ifc : ip_iface) (w : world) : Prop := TapHost {
  th_host : ip_host d i dev ifc w;
  th_ops : d_ops dev = Some OpsEtherTap;
  th_type : d_type dev = NET_DEVICE_TYPE_ETHERNET;
  th_flag : nz (Z.land (d_flags dev) NET_DEVICE_FLAG_NEED_ARP) = true;
  th_mtu : d_mtu dev = ETHER_PAYLOAD_SIZE_MAX;
  th_broadcast : take 6 (d_broadcast dev) = ETHER_ADDR_BROADCAST;
  th_arp : ∃ k p, list_find (λ p, np_type p = NET_PROTOCOL_TYPE_ARP) (n_protocols (w_net w)) = Some (k, p)
    ∧ np_handler p = HandlerArp;
  th_irq : irq_of ETHER_TAP_IRQ IsrEtherTap d (y_irqs (w_sys w));
  th_rx : waiting d (y_rx (w_sys w)) = []
}.

(** The hardware address of a device. *)
Definition hw_addr (dev : net_device) : bytes := take 6 (d_addr dev).

(** The host has a route to [peer] over interface [i], and [ha] is the
    hardware address of the next hop. *)
Definition reaches `{Machine} (i : nat) (ifc : ip_iface) (peer : Z) (ha : bytes) (w : world) : Prop :=
  ∃ r, ip_route_select (i_routes (w_ip w)) peer = Some r ∧ rt_iface r = i
    ∧ arp_lookup (w_arp w) (next_hop r peer) = Some ha
    ∧ next_hop r peer ≠ if_broadcast ifc ∧ next_hop r peer ≠ IP_ADDR_BROADCAST.

(** Routes and hardware addresses are as before. *)
Definition paths_kept (w w' : world) : Prop :=
  ip_tables (w_ip w') = ip_tables (w_ip w) ∧ w_arp w' = w_arp w.

Lemma reaches_kept `{Machine} i ifc peer ha w w' :
  paths_kept w w' → reaches i ifc peer ha w → reaches i ifc peer ha w'.
Proof. intros [Hip Ha] Hr. injection Hip as _ _ E. unfold reaches. by rewrite E, Ha. Qed.

Lemma ip_host_dev d i dev ifc w : ip_host d i dev ifc w → dev_wf dev.
Proof.
  intros Hh. pose proof (so_ifs _ (ih_ok _ _ _ _ _ Hh)) as Hifs. rewrite Forall_lookup in Hifs.
  destruct (Hifs i ifc (ih_ifc _ _ _ _ _ Hh)) as (_&_&_&Hr).
  destruct (Hr d (ih_ifdev _ _ _ _ _ Hh)) as (dev'&Hd'&Hwf&_).
  by rewrite (ih_dev _ _ _ _ _ Hh) in Hd'; injection Hd' as ->.
Qed.

Lemma tap_host_priv d i dev ifc w :
  tap_host d i dev ifc w → ∃ name fd irq, d_priv dev = PrivTap name fd irq.
Proof.
  intros Hh. destruct (ip_host_dev _ _ _ _ _ (th_host _ _ _ _ _ Hh)) as (_&_&_&_&_&_&Hp).
  rewrite (th_ops _ _ _ _ _ Hh) in Hp. destruct (d_priv dev); [done..|]. by eexists _, _, _.
Qed.

Lemma hw_addr_length d i dev ifc w : ip_host d i dev ifc w → length (hw_addr dev) = 6%nat.
Proof.
  intros Hh. destruct (ip_host_dev _ _ _ _ _ Hh) as (Hl&_). unfold hw_addr. rewrite length_take, Hl. done.
Qed.

(** ** Sending *)

Section Output.
Context `{Machine} `{EnvOk}.

(** Output on the device puts one frame on the wire. *)
Lemma net_device_output_tap d i dev ifc type data len dst w0 w :
  writes_whole → tap_host d i dev ifc w0 → n_devs (w_net w) = n_devs (w_net w0) →
  is_u16 type → 0 <= len <= 1500 → len <= zlen data → 6 <= zlen dst →
  wp (net_device_output d type data len dst) (λ r w', r = 0 ∧ w_net w' = w_net w
    ∧ w_arp w' = w_arp w
    ∧ y_wire (w_sys w') = y_wire (w_sys w)
        ++ [(d, ether_wire (hw_addr dev) (take 6 dst) type (take (Z.to_nat len) data))]) w.
Proof.
  intros Hwr Hh Hn Ht Hl Hdata Hdst. pose proof (th_host _ _ _ _ _ Hh) as Hip.
  destruct (tap_host_priv _ _ _ _ _ Hh) as (name&fd&irq&Hp).
  destruct (ip_host_dev _ _ _ _ _ Hip) as (La&_). pose proof (ih_dev _ _ _ _ _ Hip) as Hd. rewrite <- Hn in Hd.
  unfold net_device_output. do 2 wp_step. rewrite (ih_up _ _ _ _ _ Hip). cbn [negb].
  rewrite Z.gtb_ltb. destruct (Z.ltb_spec (d_mtu dev) len) as [Hlt|_].
  { rewrite (th_mtu _ _ _ _ _ Hh) in Hlt. change ETHER_PAYLOAD_SIZE_MAX with 1500 in Hlt. lia. }
  rewrite (th_ops _ _ _ _ _ Hh). do 3 wp_step. cbn [ops_transmit drivers].
  unfold ether_tap_transmit, ether_transmit_helper. do 3 wp_step.
  destruct (ether_frame_wire (d_addr dev) dst type data len) as (frame&->&Lf&Hw);
    [unfold zlen; lia|done..|]. do 2 wp_step.
  unfold ether_tap_write. apply wp_bind. eapply wp_tap_priv; [done..|].
  rewrite slice_spec by lia. do 4 wp_step. rewrite Hwr by lia.
  destruct (Z.leb_spec 0 (14 + Z.max len 46)); [|lia]. do 4 wp_step. rewrite Z.eqb_refl.
  change (drop (Z.to_nat 0) frame) with frame.
  cbn [Z.eqb]. wp_step. split_and!; [done..|]. cbn. by rewrite firstn_firstn, Nat.min_id, Hw.
Qed.
End Output.

(** ** Receiving *)

Section Input.
Context `{Machine} `{EnvOk}.

(** A frame arrives: the driver's interrupt, then the software interrupt. *)
Definition ether_receive (d : nat) (frame : bytes) : C unit :=
  sys_modify (λ y, set_y_rx (y_rx y ++ [(d, frame)]) y);;
  intr_signal ETHER_TAP_IRQ;;
  intr_signal SIGUSR1;;
  ret tt.

Lemma ether_accept_wire addr src dst type data :
  length src = 6%nat → length dst = 6%nat → is_u16 type → zlen data <= 1500 →
  take 6 addr = dst ∨ ETHER_ADDR_BROADCAST = dst →
  ether_accept addr (take (Z.to_nat ETHER_FRAME_SIZE_MAX) (ether_wire src dst type data))
  = Some (type, data ++ replicate (Z.to_nat (46 - zlen data)) 0).
Proof.
  intros Ls Ld Ht Hl Hdst. rewrite take_ge.
  2:{ pose proof (zlen_ether_wire src dst type data Ls Ld) as Hz. unfold zlen in Hz, Hl.
      change ETHER_FRAME_SIZE_MAX with 1514. lia. }
  unfold ether_accept, ether_wire.
  destruct (ether_hdr_at_frame src dst type (data ++ replicate (Z.to_nat (46 - zlen data)) 0))
    as (t&->&Et&Edrop); [done..|]. cbn [mbind option_bind eh_dst eh_type].
  rewrite Et, Edrop. destruct Hdst as [Hdst|Hdst].
  - by rewrite (bool_decide_eq_true_2 (take 6 addr = dst)).
  - by rewrite (bool_decide_eq_true_2 (ETHER_ADDR_BROADCAST = dst)), orb_true_r.
Qed.

Lemma waiting_push d rx frame : waiting d rx = [] → waiting d (rx ++ [(d, frame)]) = [frame].
Proof. unfold waiting. intros Hw. by rewrite filter_app, fmap_app, Hw, filter_cons_True. Qed.

Lemma stack_ok_rx d frame w :
  stack_ok w → bytes_ok frame →
  stack_ok (set_w_sys (set_y_rx (y_rx (w_sys w) ++ [(d, frame)]) (w_sys w)) w).
Proof.
  intros Hw Hok. eapply (stack_ok_frame w); try done; try apply Hw.
  apply Forall_app_2; [apply Hw|by apply Forall_singleton].
Qed.

(** The driver's interrupt moves the payload to the input queue of its
    type. *)
Lemma tap_signal d i dev ifc src dst type data h w :
  never_fails → polls_succeed → tap_host d i dev ifc w →
  length src = 6%nat → length dst = 6%nat → bytes_ok src → bytes_ok dst → is_u16 type →
  bytes_ok data → zlen data <= 1500 → hw_addr dev = dst ∨ ETHER_ADDR_BROADCAST = dst →
  (∃ k p, list_find (λ p, np_type p = type) (n_protocols (w_net w)) = Some (k, p) ∧ np_handler p = h) →
  let w1 := set_w_sys (set_y_rx (y_rx (w_sys w) ++ [(d, ether_wire src dst type data)]) (w_sys w)) w in
  let payload := data ++ replicate (Z.to_nat (46 - zlen data)) 0 in
  wp (intr_signal ETHER_TAP_IRQ) (λ _ w2, stack_ok w2 ∧ receive_frame w1 w2
    ∧ n_devs (w_net w2) = n_devs (w_net w) ∧ waiting d (y_rx (w_sys w2)) = []
    ∧ pending (n_protocols (w_net w2)) = [(h, NetQueueEntry d (zlen payload) payload)]) w1.
Proof.
  intros Hnf Hpoll Hh Ls Ld Hs Hd Ht Hok Hl Hdst (k&p&Hfind&Hhan) w1 payload.
  pose proof (th_host _ _ _ _ _ Hh) as Hip. pose proof (ih_dev _ _ _ _ _ Hip) as Hdev.
  destruct (tap_host_priv _ _ _ _ _ Hh) as (name&fd&irq&Hp).
  destruct (th_irq _ _ _ _ _ Hh) as (pre&en&post&Ei&Hne&Eirq&Eh&Ed).
  assert (bytes_ok (ether_wire src dst type data)) as Hfok.
  { unfold ether_wire. repeat (apply bytes_ok_app; split); try done; [|by apply Forall_replicate].
    rewrite <- store16_hton16 by done. apply store16_ok. }
  assert (stack_ok w1) as Hw1 by (apply stack_ok_rx; [apply Hip|done]).
  change (intr_signal ETHER_TAP_IRQ) with (intr_irq ETHER_TAP_IRQ;; ret false). apply wp_bind.
  eapply (intr_irq_one _ pre en post); [done..|]. rewrite Eh, Ed. cbn [isr_handlers].
  eapply wp_mono; [eapply (ether_tap_isr_wp _ d dev); [done..|apply Hw1]|].
  intros r w2 (Hf2&Hn2&n&Hw&Hpr&Hr). wp_step.
  assert (waiting d (y_rx (w_sys w1)) = [ether_wire src dst type data]) as Ew
    by (apply waiting_push, Hh).
  rewrite Ew in Hw, Hpr, Hr. destruct Hr as [[_ Hn]|[_ Hn]]; [|done]. cbn [length] in Hn.
  rewrite drop_ge in Hw by done. rewrite take_ge in Hpr by done.
  split_and!; [by eapply stack_ok_receive|done|done|done|].
  rewrite Hpr by done. unfold tap_receive. cbn [foldl]. rewrite ether_accept_wire by done.
  unfold proto_receive. change (n_protocols (w_net w1)) with (n_protocols (w_net w)). rewrite Hfind.
  rewrite (pending_push _ _ p), Hhan; [done|apply Hip|]. by apply list_find_Some in Hfind as (?&_).
Qed.

(** The host between two frames. *)
Lemma tap_host_frame d i dev ifc w w' :
  tap_host d i dev ifc w → stack_ok w' → stack_frame w w' → n_devs (w_net w') !! d = Some dev →
  pending (n_protocols (w_net w')) = [] → waiting d (y_rx (w_sys w')) = [] → tap_host d i dev ifc w'.
Proof.
  intros Hh Hw' Hf Hd Hp Hrx. constructor; try done; try apply Hh.
  - eapply ip_host_frame; [apply Hh|done..].
  - eapply protocol_found_same; [apply Hf|apply Hh].
  - rewrite (kf_irqs _ _ Hf). apply Hh.
Qed.

(** A frame for the host, from the wire to the handler of its type: what
    the handler makes of it, in a state that differs from the one before in
    queues and counters alone. *)
Lemma ether_receive_wp d i dev ifc src dst type data h (Q : world → Prop) w :
  never_fails → polls_succeed → tap_host d i dev ifc w →
  length src = 6%nat → length dst = 6%nat → bytes_ok src → bytes_ok dst → is_u16 type →
  bytes_ok data → zlen data <= 1500 → hw_addr dev = dst ∨ ETHER_ADDR_BROADCAST = dst →
  (∃ k p, list_find (λ p, np_type p = type) (n_protocols (w_net w)) = Some (k, p) ∧ np_handler p = h) →
  let payload := data ++ replicate (Z.to_nat (46 - zlen data)) 0 in
  (∀ w1, tap_host d i dev ifc w1 → w_arp w1 = w_arp w → w_udp w1 = w_udp w →
     y_wire (w_sys w1) = y_wire (w_sys w) → w_ip w1 = w_ip w → w_tcp w1 = w_tcp w →
     wp (net_handlers h payload (zlen payload) d)
       (λ _ w', stack_keeps w1 w' ∧ n_devs (w_net w') !! d = Some dev ∧ Q w') w1) →
  wp (ether_receive d (ether_wire src dst type data)) (λ _ w', tap_host d i dev ifc w' ∧ Q w') w.
Proof.
  intros Hnf Hpoll Hh Ls Ld Hs Hd Ht Hok Hl Hdst Hfind payload Hcall. unfold ether_receive.
  do 3 wp_step. eapply wp_mono; [by eapply tap_signal|].
  intros b w2 (Hw2&Hf2&Hn2&Hrx2&Hp2). apply wp_bind.
  change (intr_signal SIGUSR1) with (net_softirq_handler net_handlers;; ret false). apply wp_bind.
  assert (stack_frame w w2) as Hsf.
  { etrans; [|by apply receive_stack_frame]. by constructor. }
  eapply wp_mono; [eapply (softirq_one _ _ w2 (λ w', stack_ok w' ∧ stack_frame w w'
    ∧ n_devs (w_net w') !! d = Some dev ∧ waiting d (y_rx (w_sys w')) = [] ∧ Q w')); [exact Hp2|]|].
  - intros k q Hrf Hpq. cbn [nqe_data nqe_len nqe_dev].
    assert (stack_frame w (queue_world k q w2)) as Hfq by (etrans; [done|by apply receive_stack_frame]).
    eapply wp_mono; [apply Hcall; [|cbn; apply Hf2..]|].
    + eapply tap_host_frame; try done; [by eapply stack_ok_receive|]. cbn. rewrite Hn2. apply Hh.
    + intros [] w3 ([Hw3 Hl3]&Hd3&HQ). pose proof (lf_net _ _ Hl3) as Hn3. injection Hn3 as _ _ _ E3 _ _.
      pose proof (lf_sys _ _ Hl3) as Hs3. injection Hs3 as _ E4.
      split_and!; [done|done| |done| |done].
      * etrans; [done|by apply link_stack_frame].
      * by rewrite E4.
  - intros r w3 ((Hw3&Hf3&Hd3&Hrx3&HQ)&Hp3). do 2 wp_step. split; [|done]. by eapply tap_host_frame.
Qed.
End Input.

(** ** A datagram between two hosts *)

Section Datagram.
Context `{Machine} `{EnvOk}.

(** A known address is found, and nothing changes. *)
Lemma arp_resolve_hit d i dev ifc pa ha buf (Q : Z * bytes → world → Prop) w0 w :
  tap_host d i dev ifc w0 → w_net w = w_net w0 → arp_wf (w_arp w) → MutexArp ∉ locked w →
  arp_lookup (w_arp w) pa = Some ha → 6 <= zlen buf →
  Q (ARP_RESOLVE_FOUND, ha ++ drop 6 buf) w → wp (arp_resolve i pa buf) Q w.
Proof.
  intros Hh Hn Hwf Hm Hlook Hbuf HQ. pose proof (th_host _ _ _ _ _ Hh) as Hip.
  pose proof (ih_ifc _ _ _ _ _ Hip) as Hi. pose proof (ih_dev _ _ _ _ _ Hip) as Hd. rewrite <- Hn in Hi, Hd.
  destruct (family_iface_Some _ _ _ _ _ (ih_family _ _ _ _ _ Hip)) as (_&_&Hfam).
  unfold arp_resolve. do 2 wp_step. rewrite (ih_ifdev _ _ _ _ _ Hip). do 4 wp_step.
  rewrite (th_type _ _ _ _ _ Hh), Hfam, !Z.eqb_refl. cbn [negb]. do 2 wp_step.
  apply wp_bind, arp_cache_select_wp. cbn [w_arp lock_world set_w_sys]. unfold arp_lookup in Hlook.
  destruct (list_find _ (w_arp w)) as [[k c]|] eqn:E; cbn in Hlook |- *; [|done]. injection Hlook as <-.
  apply list_find_Some in E as (Hk&[Hs _]&_).
  destruct Hwf as (_&Hok&_). rewrite Forall_lookup in Hok. destruct (Hok k c Hk) as (Hst&Hc&_).
  do 2 wp_step. destruct (Z.eqb_spec (ac_state c) ARP_CACHE_STATE_INCOMPLETE) as [E|_].
  { exfalso. unfold ARP_CACHE_STATE_FREE, ARP_CACHE_STATE_RESOLVED, ARP_CACHE_STATE_INCOMPLETE in *. lia. }
  rewrite memcpy_spec by (unfold zlen, ETHER_ADDR_LEN in *; lia). do 4 wp_step; [by left|]. wp_step.
  change (Z.to_nat 0) with 0%nat. change (Z.to_nat ETHER_ADDR_LEN) with 6%nat.
  change (Z.to_nat (0 + ETHER_ADDR_LEN)) with 6%nat. rewrite take_0, app_nil_l, (take_ge (ac_ha c)) by lia.
  match goal with |- Q _ ?w1 => assert (w1 = w) as -> end; [|done].
  change (lock_world (filter (λ m', m' ≠ MutexArp) (MutexArp :: locked w)) w = w).
  rewrite filter_unlock by done. by destruct w as [[]].
Qed.

Lemma ip_output_device_tap d i dev ifc pkt ha nh w0 w :
  writes_whole → tap_host d i dev ifc w0 → w_net w = w_net w0 → arp_wf (w_arp w) → MutexArp ∉ locked w →
  arp_lookup (w_arp w) nh = Some ha → length ha = 6%nat →
  (nh =? if_broadcast ifc) || (nh =? IP_ADDR_BROADCAST) = false → zlen pkt <= 1500 →
  wp (ip_output_device i pkt (zlen pkt) nh) (λ r w', r = 0 ∧ w_net w' = w_net w
    ∧ w_arp w' = w_arp w ∧ y_wire (w_sys w') = y_wire (w_sys w)
        ++ [(d, ether_wire (hw_addr dev) ha NET_PROTOCOL_TYPE_IP pkt)]) w.
Proof.
  intros Hwr Hh Hn Hwf Hm Hlook Hha Hbc Hl. pose proof (th_host _ _ _ _ _ Hh) as Hip.
  pose proof (ih_ifc _ _ _ _ _ Hip) as Hi. pose proof (ih_dev _ _ _ _ _ Hip) as Hd. rewrite <- Hn in Hi, Hd.
  unfold ip_output_device. do 2 wp_step. rewrite (ih_ifdev _ _ _ _ _ Hip). do 4 wp_step.
  rewrite (th_flag _ _ _ _ _ Hh), Hbc. apply wp_bind.
  eapply (arp_resolve_hit d i dev ifc _ ha); [done..|].
  rewrite Z.eqb_refl. cbn [negb]. pose proof (zlen_nonneg pkt).
  eapply wp_mono; [eapply (net_device_output_tap d i dev ifc); try done; [by rewrite Hn|]|].
  - unfold zlen. rewrite length_app, Hha. lia.
  - intros r w' (->&Hn'&Ha'&Hwire). split_and!; [done..|].
    by rewrite Hwire, take_app_length', (take_ge pkt) by (unfold zlen; lia).
Qed.

Lemma udp_sendto_tap d i dev ifc s sender r dst dport data len ha w :
  writes_whole → tap_host d i dev ifc w →
  w_udp w !! s = Some sender → up_state sender = UDP_PCB_STATE_OPEN → ep_port (up_local sender) ≠ 0 →
  ep_addr (up_local sender) = IP_ADDR_ANY ∨ ep_addr (up_local sender) = if_unicast ifc →
  ip_route_select (i_routes (w_ip w)) dst = Some r → rt_iface r = i →
  arp_lookup (w_arp w) (next_hop r dst) = Some ha → length ha = 6%nat →
  next_hop r dst ≠ if_broadcast ifc → next_hop r dst ≠ IP_ADDR_BROADCAST → dst ≠ IP_ADDR_BROADCAST →
  is_u32 dst → is_u16 dport → bytes_ok data → 0 <= len <= zlen data →
  IP_HDR_SIZE_MIN + (UDP_HDR_SIZE + len) <= ETHER_PAYLOAD_SIZE_MAX →
  let src := IpEndpoint (if_unicast ifc) (ep_port (up_local sender)) in
  wp (udp_sendto (Z.of_nat s) data len (IpEndpoint dst dport)) (λ res w', res = len
    ∧ tap_host d i dev ifc w' ∧ paths_kept w w' ∧ w_udp w' = w_udp w
    ∧ ∃ pkt, udp_packet src (IpEndpoint dst dport) data len (i_id (w_ip w)) pkt
      ∧ y_wire (w_sys w') = y_wire (w_sys w)
          ++ [(d, ether_wire (hw_addr dev) ha NET_PROTOCOL_TYPE_IP pkt)]) w.
Proof.
  intros Hwr Hh Hs Hst Hport Haddr Hr Hri Hlook Hha Hb1 Hb2 Hb Hdst Hdp Hok Hl Hmax src.
  pose proof (th_host _ _ _ _ _ Hh) as Hip. pose proof (ih_ok _ _ _ _ _ Hip) as Hw.
  pose proof (th_mtu _ _ _ _ _ Hh) as Hmtu. change ETHER_PAYLOAD_SIZE_MAX with 1500 in *.
  eapply (udp_sendto_sends s sender _ _ d i dev ifc r); try done; try (rewrite Hmtu; done).
  { rewrite (proj2 (Z.eqb_neq dst _) Hb). apply andb_false_r. }
  intros pkt Hpkt. pose proof Hpkt as (_&_&_&Hz&_). rewrite <- Hz in Hmax |- *.
  eapply wp_mono; [apply (ip_output_device_tap d i dev ifc pkt ha (next_hop r dst) w); try done|].
  - apply Hw.
  - apply (stack_link_free w Hw).
  - rewrite (proj2 (Z.eqb_neq _ _) Hb1), (proj2 (Z.eqb_neq _ _) Hb2). done.
  - intros r' w' (->&Hn&Harp&Hwire) Hsf. pose proof (sf_net _ _ Hsf) as Hnt. injection Hnt as _ _ _ E3 _ _.
    pose proof (sf_sys _ _ Hsf) as Hst'. injection Hst' as _ E4.
    split_and!; [done| |by split; [apply Hsf|]|apply Hsf|by exists pkt].
    eapply tap_host_frame; [done|by eapply stack_ok_send|by apply link_stack_frame, send_link_frame|..].
    + rewrite Hn. apply Hip.
    + rewrite E3. apply Hip.
    + rewrite E4. apply Hh.
Qed.

Lemma udp_frame_received d i dev ifc mac src dport data len id pkt w :
  never_fails → polls_succeed → tap_host d i dev ifc w → length mac = 6%nat → bytes_ok mac →
  let dst := IpEndpoint (if_unicast ifc) dport in
  endpoint_ok src → is_u16 dport → is_u16 id → bytes_ok data → 0 <= len <= zlen data →
  IP_HDR_SIZE_MIN + (UDP_HDR_SIZE + len) <= ETHER_PAYLOAD_SIZE_MAX →
  udp_packet src dst data len id pkt →
  wp (ether_receive d (ether_wire mac (hw_addr dev) NET_PROTOCOL_TYPE_IP pkt)) (λ _ w',
    tap_host d i dev ifc w' ∧ paths_kept w w' ∧ w_udp w' = udp_arrived src dst data len (w_udp w)) w.
Proof.
  intros Hnf Hpoll Hh Lm Hm dst Hsrc Hdp Hid Hok Hl Hmax Hpkt.
  pose proof (th_host _ _ _ _ _ Hh) as Hip. pose proof (ih_ok _ _ _ _ _ Hip) as Hw.
  destruct (ip_host_u32 _ _ _ _ _ Hip) as [Ha _]. pose proof Hpkt as (_&_&_&Hz&Hpok).
  change ETHER_PAYLOAD_SIZE_MAX with 1500 in *.
  destruct (ip_host_dev _ _ _ _ _ Hip) as (_&_&Haddr&_).
  eapply (ether_receive_wp d i dev ifc _ _ _ _ HandlerIp); try done.
  - by eapply hw_addr_length.
  - by apply Forall_take.
  - by rewrite Hz.
  - by left.
  - apply Hip.
  - intros w1 [Hip1 _ _ _ _ _ _ _ _] Ha1 Hu1 _ Hi1 _. cbn [net_handlers].
    eapply wp_mono; [eapply (packet_received d i dev ifc src dst data len); try done; try apply Hip1|].
    + by apply Forall_replicate.
    + change IP_PAYLOAD_SIZE_MAX with 65515. unfold IP_HDR_SIZE_MIN in *. lia.
    + unfold ip_for. cbn. by rewrite Z.eqb_refl.
    + intros [] w2 (Hk&Hfr&Hu2). split_and!; [done| | |by rewrite Hu2, Hu1].
      * rewrite (ufr_net _ _ Hfr). apply Hip1.
      * split; [by rewrite (ufr_ip _ _ Hfr), Hi1|by rewrite (ufr_arp _ _ Hfr)].
Qed.
End Datagram.

(** C11. A datagram crosses the Ethernet.  Host A sends to an address of host
    B, on a control block that is bound, when its ARP cache has B's hardware
    address for the next hop: [udp_sendto] returns the length and writes one
    frame to its tap device.  When that frame arrives at B's device, B's
    interrupt thread takes it in, and the payload is at the end of the
    receive queue of the control block bound to the destination port, with
    A's endpoint and its length; no other control block of either host has
    changed, and both hosts are ready for the next frame.  The hosts have
    environments of their own. *)
Theorem udp_ethernet_delivers `{Machine} (EA EB : Env) `{!@EnvOk EA} `{!@EnvOk EB}
    dA iA devA ifcA wA dB iB devB ifcB wB s sender r dport data len :
  @writes_whole EA → @never_fails EB → @polls_succeed EB →
  tap_host dA iA devA ifcA wA → tap_host dB iB devB ifcB wB →
  w_udp wA !! s = Some sender → up_state sender = UDP_PCB_STATE_OPEN → ep_port (up_local sender) ≠ 0 →
  ep_addr (up_local sender) = IP_ADDR_ANY ∨ ep_addr (up_local sender) = if_unicast ifcA →
  let b := if_unicast ifcB in
  ip_route_select (i_routes (w_ip wA)) b = Some r → rt_iface r = iA →
  arp_lookup (w_arp wA) (next_hop r b) = Some (hw_addr devB) →
  next_hop r b ≠ if_broadcast ifcA → next_hop r b ≠ IP_ADDR_BROADCAST → b ≠ IP_ADDR_BROADCAST →
  is_u16 dport → bytes_ok data → 0 <= len <= zlen data →
  IP_HDR_SIZE_MIN + (UDP_HDR_SIZE + len) <= ETHER_PAYLOAD_SIZE_MAX →
  let src := IpEndpoint (if_unicast ifcA) (ep_port (up_local sender)) in
  wp (@udp_sendto _ EA (@drivers _ EA) (Z.of_nat s) data len (IpEndpoint b dport)) (λ res wA', res = len
    ∧ tap_host dA iA devA ifcA wA' ∧ w_udp wA' = w_udp wA
    ∧ ∃ frame, y_wire (w_sys wA') = y_wire (w_sys wA) ++ [(dA, frame)]
      ∧ wp (@ether_receive _ EB dB frame) (λ _ wB', tap_host dB iB devB ifcB wB'
          ∧ w_udp wB' = udp_arrived src (IpEndpoint b dport) data len (w_udp wB)) wB) wA.
Proof.
  intros Hwr Hnf Hpoll HA HB Hs Hst Hport Haddr b Hr Hri Hlook Hbc1 Hbc2 Hb Hdp Hok Hl Hmax src.
  pose proof (th_host _ _ _ _ _ HA) as HipA. pose proof (th_host _ _ _ _ _ HB) as HipB.
  destruct (ip_host_u32 _ _ _ _ _ HipA) as [Ha _]. destruct (ip_host_u32 _ _ _ _ _ HipB) as [Hbu _].
  destruct (udp_wf_lookup _ _ _ (so_udp _ (ih_ok _ _ _ _ _ HipA)) Hs) as (_&[_ Hsp]&_).
  destruct (ip_host_dev _ _ _ _ _ HipA) as (_&_&Hmac&_).
  eapply wp_mono; [eapply (@udp_sendto_tap _ EA _ dA iA devA ifcA s sender r); try done; by eapply hw_addr_length|].
  intros res wA' (->&HA'&_&Hu&pkt&Hpkt&Hwire). split_and!; [done..|]. eexists. split; [exact Hwire|].
  eapply wp_mono; [apply (udp_frame_received dB iB devB ifcB _ src dport data len (i_id (w_ip wA))); try done|].
  - by eapply hw_addr_length.
  - by apply Forall_take.
  - apply (ih_ok _ _ _ _ _ HipA).
  - by intros [] wB' (?&_&?).
Qed.

(** ** Address resolution between two hosts *)

Section Resolution.
Context `{Machine} `{EnvOk}.

(** A message for Ethernet and IPv4. *)
Definition arp_message (op : Z) (sha : bytes) (spa : Z) (tha : bytes) (tpa : Z) : arp_ether_ip :=
  ArpEtherIp (hton16 ARP_HRD_ETHER) (hton16 ARP_PRO_IP) ETHER_ADDR_LEN IP_ADDR_LEN (hton16 op) sha spa tha tpa.

Lemma zlen_arp_message op sha spa tha tpa :
  length sha = 6%nat → length tha = 6%nat →
  zlen (arp_ether_ip_bytes (arp_message op sha spa tha tpa)) = 28.
Proof. intros. by rewrite zlen_arp_ether_ip_bytes. Qed.

Lemma arp_message_ok op sha spa tha tpa :
  bytes_ok sha → bytes_ok tha → bytes_ok (arp_ether_ip_bytes (arp_message op sha spa tha tpa)).
Proof. intros. by apply arp_ether_ip_bytes_ok. Qed.

Lemma arp_valid_message op sha spa tha tpa : arp_valid (arp_message op sha spa tha tpa) = true.
Proof. unfold arp_valid, arp_message. cbn [arp_hrd arp_pro arp_hln arp_pln]. by rewrite !ntoh16_hton16. Qed.

(** What the receiver reads of a message, padded or not. *)
Lemma arp_message_read op sha spa tha tpa pad :
  is_u16 op → length sha = 6%nat → length tha = 6%nat → is_u32 spa → is_u32 tpa →
  arp_ether_ip_at (arp_ether_ip_bytes (arp_message op sha spa tha tpa) ++ pad)
  = Some (arp_message op sha spa tha tpa).
Proof.
  intros Ho Ls Lt Hs Ht. unfold arp_ether_ip_bytes.
  cbn [arp_hrd arp_pro arp_hln arp_pln arp_op arp_sha arp_spa arp_tha arp_tpa arp_message].
  destruct sha as [|s0 [|s1 [|s2 [|s3 [|s4 [|s5 [|]]]]]]]; try done.
  destruct tha as [|t0 [|t1 [|t2 [|t3 [|t4 [|t5 [|]]]]]]]; try done.
  destruct (store16_loads (hton16 ARP_HRD_ETHER)) as (h0&h1&->&_&_&Eh); [by apply hton16_range|].
  destruct (store16_loads (hton16 ARP_PRO_IP)) as (p0&p1&->&_&_&Ep); [by apply hton16_range|].
  destruct (store16_loads (hton16 op)) as (o0&o1&->&_&_&Eo); [by apply hton16_range|].
  destruct (store32_loads spa) as (a0&a1&a2&a3&->&_&_&_&_&Ea); [done|].
  destruct (store32_loads tpa) as (b0&b1&b2&b3&->&_&_&_&_&Eb); [done|].
  cbn [app arp_ether_ip_at]. by rewrite Eh, Ep, Eo, Ea, Eb.
Qed.

Lemma arp_request_tap d i dev ifc tpa w0 w :
  writes_whole → tap_host d i dev ifc w0 → w_net w = w_net w0 →
  wp (arp_request i tpa) (λ _ w', n_devs (w_net w') = n_devs (w_net w)
    ∧ y_wire (w_sys w') = y_wire (w_sys w)
        ++ [(d, ether_wire (hw_addr dev) ETHER_ADDR_BROADCAST ETHER_TYPE_ARP
                  (arp_ether_ip_bytes (arp_message ARP_OP_REQUEST (hw_addr dev) (if_unicast ifc)
                     ETHER_ADDR_ANY tpa)))]) w.
Proof.
  intros Hwr Hh Hn. pose proof (th_host _ _ _ _ _ Hh) as Hip.
  pose proof (ih_ifc _ _ _ _ _ Hip) as Hi. pose proof (ih_dev _ _ _ _ _ Hip) as Hd. rewrite <- Hn in Hi, Hd.
  pose proof (hw_addr_length _ _ _ _ _ Hip) as Lm.
  destruct (dev_wf_addr dev (ip_host_dev _ _ _ _ _ Hip)) as [La Lb].
  unfold arp_request, ETHER_ADDR_LEN. do 2 wp_step. rewrite (ih_ifdev _ _ _ _ _ Hip). do 4 wp_step.
  rewrite slice_spec by lia. do 2 wp_step.
  change (take (Z.to_nat 6) (drop (Z.to_nat 0) (d_addr dev))) with (hw_addr dev).
  change (ArpEtherIp _ _ _ _ _ _ _ _ _)
    with (arp_message ARP_OP_REQUEST (hw_addr dev) (if_unicast ifc) ETHER_ADDR_ANY tpa).
  pose proof (zlen_arp_message ARP_OP_REQUEST (hw_addr dev) (if_unicast ifc) ETHER_ADDR_ANY tpa Lm eq_refl) as Hz.
  eapply wp_mono; [eapply (net_device_output_tap d i dev ifc); try done; [by rewrite Hn|..]|].
  - unfold ARP_ETHER_IP_SIZE. rewrite Hz. done.
  - lia.
  - intros r w' (_&Hn'&_&Hw'). split; [by rewrite Hn'|].
    rewrite Hw', (th_broadcast _ _ _ _ _ Hh), (take_ge (arp_ether_ip_bytes _)); [done|].
    unfold zlen in Hz. unfold ARP_ETHER_IP_SIZE. lia.
Qed.

Lemma arp_reply_tap d i dev ifc tha tpa w0 w :
  writes_whole → tap_host d i dev ifc w0 → w_net w = w_net w0 → length tha = 6%nat →
  wp (arp_reply i tha tpa tha) (λ _ w', n_devs (w_net w') = n_devs (w_net w)
    ∧ y_wire (w_sys w') = y_wire (w_sys w)
        ++ [(d, ether_wire (hw_addr dev) tha ETHER_TYPE_ARP
                  (arp_ether_ip_bytes (arp_message ARP_OP_REPLY (hw_addr dev) (if_unicast ifc) tha tpa)))]) w.
Proof.
  intros Hwr Hh Hn Lt. pose proof (th_host _ _ _ _ _ Hh) as Hip.
  pose proof (ih_ifc _ _ _ _ _ Hip) as Hi. pose proof (ih_dev _ _ _ _ _ Hip) as Hd. rewrite <- Hn in Hi, Hd.
  pose proof (hw_addr_length _ _ _ _ _ Hip) as Lm.
  destruct (dev_wf_addr dev (ip_host_dev _ _ _ _ _ Hip)) as [La Lb].
  unfold arp_reply, ETHER_ADDR_LEN. do 2 wp_step. rewrite (ih_ifdev _ _ _ _ _ Hip). do 4 wp_step.
  rewrite !slice_spec by (unfold zlen in *; lia). do 4 wp_step.
  change (take (Z.to_nat 6) (drop (Z.to_nat 0) (d_addr dev))) with (hw_addr dev).
  change (drop (Z.to_nat 0) tha) with tha. rewrite (take_ge tha) by (rewrite Lt; done).
  change (ArpEtherIp _ _ _ _ _ _ _ _ _) with (arp_message ARP_OP_REPLY (hw_addr dev) (if_unicast ifc) tha tpa).
  pose proof (zlen_arp_message ARP_OP_REPLY (hw_addr dev) (if_unicast ifc) tha tpa Lm Lt) as Hz.
  eapply wp_mono; [eapply (net_device_output_tap d i dev ifc); try done; [by rewrite Hn|..]|].
  - unfold ARP_ETHER_IP_SIZE. rewrite Hz. done.
  - unfold zlen. lia.
  - intros r w' (_&Hn'&_&Hw'). split; [by rewrite Hn'|].
    rewrite Hw', (take_ge tha), (take_ge (arp_ether_ip_bytes _)) by (unfold zlen, ARP_ETHER_IP_SIZE in *; lia). done.
Qed.

(** An unknown address is asked for. *)
Lemma arp_resolve_miss d i dev ifc pa buf w :
  writes_whole → tap_host d i dev ifc w → arp_lookup (w_arp w) pa = None →
  wp (arp_resolve i pa buf) (λ r w', r = (ARP_RESOLVE_INCOMPLETE, buf)
    ∧ n_devs (w_net w') = n_devs (w_net w)
    ∧ y_wire (w_sys w') = y_wire (w_sys w)
        ++ [(d, ether_wire (hw_addr dev) ETHER_ADDR_BROADCAST ETHER_TYPE_ARP
                  (arp_ether_ip_bytes (arp_message ARP_OP_REQUEST (hw_addr dev) (if_unicast ifc)
                     ETHER_ADDR_ANY pa)))]) w.
Proof.
  intros Hwr Hh Hlook. pose proof (th_host _ _ _ _ _ Hh) as Hip. pose proof (ih_ok _ _ _ _ _ Hip) as Hw.
  pose proof (ih_ifc _ _ _ _ _ Hip) as Hi. pose proof (ih_dev _ _ _ _ _ Hip) as Hd.
  destruct (family_iface_Some _ _ _ _ _ (ih_family _ _ _ _ _ Hip)) as (_&_&Hfam).
  unfold arp_resolve. do 2 wp_step. rewrite (ih_ifdev _ _ _ _ _ Hip). do 4 wp_step.
  rewrite (th_type _ _ _ _ _ Hh), Hfam, !Z.eqb_refl. cbn [negb].
  do 2 wp_step; [apply (stack_link_free w Hw)|].
  apply wp_bind, arp_cache_select_wp. cbn [w_arp lock_world set_w_sys]. unfold arp_lookup in Hlook.
  destruct (list_find _ (w_arp w)) as [[k c]|] eqn:E; cbn in Hlook |- *; [done|].
  apply wp_bind. eapply wp_mono; [apply arp_cache_alloc_wp, Hw|]. intros k w1 (old&e&Hk&->&_).
  assert (k < length (w_arp w))%nat by (by eapply lookup_lt_Some).
  assert (w_arp (arp_put k e (lock_world (MutexArp :: y_locked (w_sys w)) w)) !! k = Some e)
    as Hk' by (by apply list_lookup_insert_eq).
  do 8 wp_step; [by left|]. apply wp_bind.
  eapply wp_mono; [by apply (arp_request_tap d i dev ifc pa w)|]. intros r w' [Hn Hwire]. by wp_step.
Qed.

(** What updating the cache, under its mutex, leaves alone. *)
Definition arp_step (w w' : world) : Prop :=
  w_net w' = w_net w ∧ y_wire (w_sys w') = y_wire (w_sys w) ∧ locked w' = locked w ∧ arp_wf (w_arp w').

Lemma arp_update_step {A} pa ha (k : option nat → C A) (Q : A → world → Prop) w :
  arp_wf (w_arp w) → length ha = 6%nat → bytes_ok ha → MutexArp ∉ locked w →
  (∀ r w', arp_step w w' → (r = None → arp_lookup (w_arp w') pa = None) → wp (k r) Q w') →
  wp (mutex_lock MutexArp;; r <- arp_cache_update pa ha;; mutex_unlock MutexArp;; k r) Q w.
Proof.
  intros Hwf Hl Hok Hm HQ. do 2 wp_step. apply wp_bind.
  eapply wp_mono; [apply arp_cache_update_wp; [done|unfold zlen; lia]|].
  cbn [w_arp lock_world set_w_sys]. intros r w' Hr.
  destruct (list_find _ (w_arp w)) as [[n c]|] eqn:E; destruct Hr as [-> ->].
  - apply list_find_Some in E as (Hk&Hc&_). do 2 wp_step; [by left|]. apply HQ; [|done].
    split_and!; [done..|by apply filter_unlock|]. eapply al_wf, arp_learnt_put; [done..|by left].
  - do 2 wp_step; [by left|]. apply HQ; [split_and!; [done..|by apply filter_unlock|done]|].
    intros _. unfold arp_lookup. cbn. by rewrite E.
Qed.

Lemma arp_insert_step pa ha w :
  arp_wf (w_arp w) → length ha = 6%nat → bytes_ok ha → MutexArp ∉ locked w →
  arp_lookup (w_arp w) pa = None →
  wp (mutex_lock MutexArp;; arp_cache_insert pa ha;; mutex_unlock MutexArp) (λ _ w', arp_step w w') w.
Proof.
  intros Hwf Hl Hok Hm Hlook. do 2 wp_step. apply wp_bind.
  eapply wp_mono; [apply arp_cache_insert_wp; [done|unfold zlen; lia]|].
  intros k w' (old&Hk&Hold&->). wp_step; [by left|]. split_and!; [done..|by apply filter_unlock|].
  eapply al_wf, arp_learnt_put; [done..|by right].
Qed.

(** The answer to a request for the host's address; other messages get
    none. *)
Lemma arp_process_sends d i dev ifc msg w0 w :
  writes_whole → tap_host d i dev ifc w0 → stack_ok w → w_net w = w_net w0 →
  arp_msg_ok msg → arp_tpa msg = if_unicast ifc →
  wp (arp_process msg d) (λ _ w', n_devs (w_net w') = n_devs (w_net w)
    ∧ y_wire (w_sys w') = y_wire (w_sys w)
        ++ (if ntoh16 (arp_op msg) =? ARP_OP_REQUEST then
              [(d, ether_wire (hw_addr dev) (arp_sha msg) ETHER_TYPE_ARP
                     (arp_ether_ip_bytes (arp_message ARP_OP_REPLY (hw_addr dev) (if_unicast ifc)
                        (arp_sha msg) (arp_spa msg))))]
            else [])) w.
Proof.
  intros Hwr Hh Hw Hn (Ls&Hs&_) Htpa. pose proof (th_host _ _ _ _ _ Hh) as Hip.
  pose proof (ih_ifc _ _ _ _ _ Hip) as Hi. pose proof (ih_dev _ _ _ _ _ Hip) as Hd. rewrite <- Hn in Hi, Hd.
  assert (MutexArp ∉ locked w) as Hm by apply (stack_link_free w Hw).
  unfold arp_process. apply arp_update_step; [apply Hw|done..|]. intros updated w1 (Hn1&Hw1&Hl1&Hwf1) Hup.
  apply wp_bind. apply (net_device_get_iface_wp d dev); [by rewrite Hn1| |].
  { intros j Hj. rewrite Hn1. by eapply stack_ifaces_live. }
  rewrite Hn1, Hn, (ih_family _ _ _ _ _ Hip). cbn [fmap option_fmap option_map fst]. wp_step.
  eapply wp_get_if; [rewrite Hn1; exact Hi|]. rewrite Htpa, Z.eqb_refl. apply wp_bind.
  apply (wp_mono _ (λ _ w2, w_net w2 = w_net w ∧ y_wire (w_sys w2) = y_wire (w_sys w))).
  { destruct (bool_decide (updated = None)) eqn:Eb; [|by wp_step].
    apply bool_decide_eq_true in Eb. eapply wp_mono; [apply arp_insert_step; try done; [by rewrite Hl1|by apply Hup]|].
    intros [] w2 (Hn2&Hw2&_). by rewrite Hn2, Hw2. }
  intros [] w2 [Hn2 Hw2]. destruct (_ =? ARP_OP_REQUEST); [|wp_step; rewrite app_nil_r; split; congruence].
  apply wp_bind. eapply wp_mono; [by apply (arp_reply_tap d i dev ifc _ _ w0); [..|congruence|]|].
  intros r w3 [Hn3 Hw3]. wp_step. split; congruence.
Qed.

(** A message for the host's address: the sender's addresses are learnt, and
    a request is answered. *)
Lemma arp_message_received d i dev ifc op sha spa tha pad w :
  writes_whole → tap_host d i dev ifc w → is_u16 op →
  length sha = 6%nat → bytes_ok sha → length tha = 6%nat → bytes_ok tha → is_u32 spa → bytes_ok pad →
  let data := arp_ether_ip_bytes (arp_message op sha spa tha (if_unicast ifc)) ++ pad in
  wp (arp_input data (zlen data) d) (λ _ w', stack_keeps w w'
    ∧ n_devs (w_net w') = n_devs (w_net w) ∧ arp_learnt (w_arp w) spa sha (w_arp w')
    ∧ y_wire (w_sys w') = y_wire (w_sys w)
        ++ (if op =? ARP_OP_REQUEST then
              [(d, ether_wire (hw_addr dev) sha ETHER_TYPE_ARP
                     (arp_ether_ip_bytes (arp_message ARP_OP_REPLY (hw_addr dev) (if_unicast ifc) sha spa)))]
            else [])) w.
Proof.
  intros Hwr Hh Hop Ls Hs Lt Ht Hspa Hpad data. pose proof (th_host _ _ _ _ _ Hh) as Hip.
  pose proof (ih_ok _ _ _ _ _ Hip) as Hw. pose proof (ih_dev _ _ _ _ _ Hip) as Hd.
  destruct (ip_host_u32 _ _ _ _ _ Hip) as [Hu _].
  set (msg := arp_message op sha spa tha (if_unicast ifc)) in *.
  assert (arp_ether_ip_at data = Some msg) as Eat by (by apply arp_message_read).
  assert (ARP_ETHER_IP_SIZE <= zlen data) as Hz.
  { unfold data, msg. rewrite zlen_app, zlen_arp_message by done. pose proof (zlen_nonneg pad).
    unfold ARP_ETHER_IP_SIZE. lia. }
  eapply wp_mono; [apply wp_both|].
  - eapply (arp_input_wp w data (zlen data) d dev); [apply Hw|by apply stack_link_free|done| | |done].
    + intros j Hj. by eapply stack_iface_wf, so_ifaces.
    + apply bytes_ok_app. split; [by apply arp_message_ok|done].
  - unfold arp_input. destruct (Z.ltb_spec (zlen data) ARP_ETHER_IP_SIZE); [lia|]. rewrite Eat. do 2 wp_step.
    pose proof (arp_valid_message op sha spa tha (if_unicast ifc)) as Hv. fold msg in Hv. unfold arp_valid in Hv.
    rewrite !andb_true_iff in Hv. destruct Hv as [[[-> ->] ->] ->]. cbn [negb orb].
    by apply (arp_process_sends d i dev ifc msg w).
  - intros [] w' [[Hf He] [Hn' Hwire]]. rewrite Eat in He.
    rewrite (proj2 (Z.leb_le _ _) Hz) in He. unfold msg in He at 1. rewrite arp_valid_message in He.
    cbn [andb] in He. unfold arp_targeted in He. rewrite (ih_family _ _ _ _ _ Hip), Z.eqb_refl in He.
    split_and!; [by apply stack_keeps_send|done|done|].
    rewrite Hwire. unfold msg. cbn [arp_message arp_op arp_sha arp_spa]. by rewrite ntoh16_hton16.
Qed.

(** A message on the wire. *)
Lemma arp_frame_received d i dev ifc mac dst op sha spa tha w :
  writes_whole → never_fails → polls_succeed → tap_host d i dev ifc w → is_u16 op →
  length mac = 6%nat → bytes_ok mac → hw_addr dev = dst ∨ ETHER_ADDR_BROADCAST = dst →
  length sha = 6%nat → bytes_ok sha → length tha = 6%nat → bytes_ok tha → is_u32 spa →
  wp (ether_receive d (ether_wire mac dst ETHER_TYPE_ARP
        (arp_ether_ip_bytes (arp_message op sha spa tha (if_unicast ifc))))) (λ _ w',
    tap_host d i dev ifc w' ∧ arp_learnt (w_arp w) spa sha (w_arp w')
    ∧ y_wire (w_sys w') = y_wire (w_sys w)
        ++ (if op =? ARP_OP_REQUEST then
              [(d, ether_wire (hw_addr dev) sha ETHER_TYPE_ARP
                     (arp_ether_ip_bytes (arp_message ARP_OP_REPLY (hw_addr dev) (if_unicast ifc) sha spa)))]
            else [])) w.
Proof.
  intros Hwr Hnf Hpoll Hh Hop Lm Hm Hdst Ls Hs Lt Ht Hspa. pose proof (th_host _ _ _ _ _ Hh) as Hip.
  destruct (ip_host_dev _ _ _ _ _ Hip) as (_&_&Haddr&_).
  eapply (ether_receive_wp d i dev ifc _ _ _ _ HandlerArp); try done.
  - destruct Hdst as [<-|<-]; [by eapply hw_addr_length|done].
  - destruct Hdst as [<-|<-]; [by apply Forall_take|by repeat apply Forall_cons_2].
  - by apply arp_message_ok.
  - by rewrite zlen_arp_message.
  - apply Hh.
  - intros w1 Hh1 Ha1 _ Hw1 _ _. cbn [net_handlers].
    eapply wp_mono; [apply (arp_message_received d i dev ifc); try done; by apply Forall_replicate|].
    intros [] w2 (Hk&Hn2&Hl2&Hw2). rewrite Ha1 in Hl2. rewrite Hw1 in Hw2. split_and!; [done| |done..].
    rewrite Hn2. apply Hh1.
Qed.

(** The request of a resolution. *)
Lemma arp_resolve_asks d i dev ifc pa buf w :
  writes_whole → tap_host d i dev ifc w → arp_lookup (w_arp w) pa = None → 6 <= zlen buf →
  wp (arp_resolve i pa buf) (λ r w', r = (ARP_RESOLVE_INCOMPLETE, buf)
    ∧ tap_host d i dev ifc w' ∧ arp_forgot (w_arp w) (w_arp w')
    ∧ y_wire (w_sys w') = y_wire (w_sys w)
        ++ [(d, ether_wire (hw_addr dev) ETHER_ADDR_BROADCAST ETHER_TYPE_ARP
                  (arp_ether_ip_bytes (arp_message ARP_OP_REQUEST (hw_addr dev) (if_unicast ifc)
                     ETHER_ADDR_ANY pa)))]) w.
Proof.
  intros Hwr Hh Hlook Hbuf. pose proof (th_host _ _ _ _ _ Hh) as Hip. pose proof (ih_ok _ _ _ _ _ Hip) as Hw.
  destruct (family_iface_Some _ _ _ _ _ (ih_family _ _ _ _ _ Hip)) as (_&_&Hfam).
  eapply wp_mono; [apply wp_both; [by apply (arp_resolve_miss d i dev ifc)|]|].
  - eapply (arp_resolve_wp w i ifc d dev); try done; try apply Hip; [by apply stack_link_free|].
    apply stack_iface_wf; [done|]. exists ifc, d. by split; [apply Hip|apply Hip].
  - intros r w' [(->&Hn&Hwire) [Hsf Hcase]]. rewrite (th_type _ _ _ _ _ Hh), Hfam, !Z.eqb_refl, Hlook in Hcase.
    pose proof (sf_net _ _ Hsf) as Hnt. injection Hnt as _ _ _ E3 _ _.
    pose proof (sf_sys _ _ Hsf) as Hst. injection Hst as _ E4.
    split_and!; [done| |apply Hcase|done].
    eapply tap_host_frame; [done|by eapply stack_ok_send|by apply link_stack_frame, send_link_frame|..].
    + rewrite Hn. apply Hip.
    + rewrite E3. apply Hip.
    + rewrite E4. apply Hh.
Qed.
End Resolution.

(** C19. Address resolution between two hosts.  Host A looks for host B's
    protocol address, which its cache does not have: it reports the
    resolution as incomplete and writes a request to its tap device.  When
    the request arrives at B's device, B learns A's addresses and writes an
    answer to its own.  When the answer arrives at A's device, A has B's
    hardware address in its cache, and nothing more is sent.  At most the
    oldest address of a full cache is forgotten on the way, and both hosts
    are ready for the next frame. *)
Theorem arp_exchange_resolves `{Machine} (EA EB : Env) `{!@EnvOk EA} `{!@EnvOk EB}
    dA iA devA ifcA wA dB iB devB ifcB wB buf :
  @writes_whole EA → @never_fails EA → @polls_succeed EA →
  @writes_whole EB → @never_fails EB → @polls_succeed EB →
  tap_host dA iA devA ifcA wA → tap_host dB iB devB ifcB wB →
  let a := if_unicast ifcA in let b := if_unicast ifcB in
  arp_lookup (w_arp wA) b = None → 6 <= zlen buf →
  wp (@arp_resolve _ EA (@drivers _ EA) iA b buf) (λ r wA1,
    r = (ARP_RESOLVE_INCOMPLETE, buf) ∧ arp_forgot (w_arp wA) (w_arp wA1) ∧
    ∃ request, y_wire (w_sys wA1) = y_wire (w_sys wA) ++ [(dA, request)]
    ∧ wp (@ether_receive _ EB dB request) (λ _ wB1, tap_host dB iB devB ifcB wB1
        ∧ arp_learnt (w_arp wB) a (hw_addr devA) (w_arp wB1) ∧
        ∃ answer, y_wire (w_sys wB1) = y_wire (w_sys wB) ++ [(dB, answer)]
        ∧ wp (@ether_receive _ EA dA answer) (λ _ wA2, tap_host dA iA devA ifcA wA2
            ∧ arp_learnt (w_arp wA1) b (hw_addr devB) (w_arp wA2)
            ∧ y_wire (w_sys wA2) = y_wire (w_sys wA1)) wA1) wB) wA.
Proof.
  intros HwA HnA HpA HwB HnB HpB HA HB a b Hlook Hbuf.
  pose proof (th_host _ _ _ _ _ HA) as HipA. pose proof (th_host _ _ _ _ _ HB) as HipB.
  destruct (ip_host_u32 _ _ _ _ _ HipA) as [Ha _]. destruct (ip_host_u32 _ _ _ _ _ HipB) as [Hb _].
  destruct (ip_host_dev _ _ _ _ _ HipA) as (_&_&HmA&_). destruct (ip_host_dev _ _ _ _ _ HipB) as (_&_&HmB&_).
  pose proof (hw_addr_length _ _ _ _ _ HipA) as LA. pose proof (hw_addr_length _ _ _ _ _ HipB) as LB.
  assert (bytes_ok (hw_addr devA)) as HokA by (by apply Forall_take).
  assert (bytes_ok (hw_addr devB)) as HokB by (by apply Forall_take).
  eapply wp_mono; [by apply (@arp_resolve_asks _ EA _ dA iA devA ifcA)|].
  intros r wA1 (->&HA1&Hfor&Hw1). split_and!; [done..|]. eexists. split; [exact Hw1|].
  eapply wp_mono; [apply (@arp_frame_received _ EB _ dB iB devB ifcB); try done; [by right|by repeat apply Forall_cons_2]|].
  intros [] wB1 (HB1&HlB&Hw2). split_and!; [done..|]. eexists. split; [exact Hw2|].
  eapply wp_mono; [apply (@arp_frame_received _ EA _ dA iA devA ifcA); try done; by left|].
  intros [] wA2 (HA2&HlA&Hw3). rewrite app_nil_r in Hw3. by split_and!.
Qed.

(** ** An echo request between two hosts *)

Section Echo.
Context `{Machine} `{EnvOk}.

Lemma echo_request_handled d i dev ifc mac r a code values data len request pad w :
  writes_whole → tap_host d i dev ifc w → length mac = 6%nat → is_u32 a → is_u8 code → is_u32 values →
  ip_route_select (i_routes (w_ip w)) a = Some r → rt_iface r = i →
  arp_lookup (w_arp w) (next_hop r a) = Some mac →
  next_hop r a ≠ if_broadcast ifc → next_hop r a ≠ IP_ADDR_BROADCAST → a ≠ IP_ADDR_BROADCAST →
  bytes_ok data → bytes_ok pad → 0 <= len <= zlen data → 20 + (8 + len) <= 1500 →
  icmp_message ICMP_TYPE_ECHO code values data len = Some request →
  wp (icmp_input (request ++ pad) (8 + len) a (if_unicast ifc) i) (λ _ w',
    stack_keeps w w' ∧ n_devs (w_net w') !! d = Some dev ∧ ∃ reply pkt',
      icmp_message ICMP_TYPE_ECHOREPLY code values data len = Some reply
      ∧ ip_packet IP_PROTOCOL_ICMP reply (8 + len) (if_unicast ifc) a (i_id (w_ip w)) 0 = Some pkt'
      ∧ y_wire (w_sys w') = y_wire (w_sys w)
          ++ [(d, ether_wire (hw_addr dev) mac NET_PROTOCOL_TYPE_IP pkt')]) w.
Proof.
  intros Hwr Hh Lm Ha Hc Hv Hr Hri Hlook Hb1 Hb2 Hb Hok Hpad Hl Hmax Hreq.
  pose proof (th_host _ _ _ _ _ Hh) as Hip. pose proof (ih_ok _ _ _ _ _ Hip) as Hw.
  pose proof (th_mtu _ _ _ _ _ Hh) as Hmtu. change ETHER_PAYLOAD_SIZE_MAX with 1500 in Hmtu.
  destruct (icmp_input_echo code values data len pad a (if_unicast ifc) i ifc w request)
    as (reply&Erep&Zrep&Orep&_&_&Ein); try done; [change ICMP_BUFSIZ with 65515; unfold ICMP_HDR_SIZE; lia
      |apply Hip|]. unfold ICMP_HDR_SIZE in *. apply (wp_eq _ _ _ _ Ein).
  apply wp_bind. eapply (ip_output_sends _ _ _ d i dev ifc r); try done; try lia.
  - rewrite Hmtu. unfold IP_HDR_SIZE_MIN. lia.
  - by rewrite Hmtu.
  - intros pkt' Epkt' Zp' Op'. rewrite <- Zp'.
    eapply wp_mono; [apply (ip_output_device_tap d i dev ifc pkt' mac (next_hop r a) w); try done|].
    + apply Hw.
    + apply (stack_link_free w Hw).
    + rewrite (proj2 (Z.eqb_neq _ _) Hb1), (proj2 (Z.eqb_neq _ _) Hb2). done.
    + rewrite Zp'. unfold IP_HDR_SIZE_MIN. lia.
    + intros r' w' (->&Hn&_&Hwire) Hsf. wp_step. split_and!; [by apply stack_keeps_send| |by exists reply, pkt'].
      rewrite Hn. apply Hip.
Qed.

(** C20. A host on the Ethernet answers a ping.  When the frame of an echo
    request for its address arrives at its tap device, and it knows the
    hardware address of the next hop to the sender, it writes one frame:
    that of the echo reply with the same code, identifier, sequence number
    and payload, in a packet from its address to the sender's. *)
Theorem ping_answered d i dev ifc mac r a code values data len id request pkt w :
  writes_whole → never_fails → polls_succeed → tap_host d i dev ifc w →
  (∃ k p, list_find (λ p, ip_type p = IP_PROTOCOL_ICMP) (i_protocols (w_ip w)) = Some (k, p)
    ∧ ip_handler_of p = HandlerIcmp) →
  length mac = 6%nat → bytes_ok mac → is_u32 a → is_u16 id → is_u8 code → is_u32 values →
  ip_route_select (i_routes (w_ip w)) a = Some r → rt_iface r = i →
  arp_lookup (w_arp w) (next_hop r a) = Some mac →
  next_hop r a ≠ if_broadcast ifc → next_hop r a ≠ IP_ADDR_BROADCAST → a ≠ IP_ADDR_BROADCAST →
  bytes_ok data → 0 <= len <= zlen data →
  IP_HDR_SIZE_MIN + (ICMP_HDR_SIZE + len) <= ETHER_PAYLOAD_SIZE_MAX →
  icmp_message ICMP_TYPE_ECHO code values data len = Some request →
  ip_packet IP_PROTOCOL_ICMP request (ICMP_HDR_SIZE + len) a (if_unicast ifc) id 0 = Some pkt →
  wp (ether_receive d (ether_wire mac (hw_addr dev) NET_PROTOCOL_TYPE_IP pkt)) (λ _ w',
    tap_host d i dev ifc w' ∧ ∃ reply pkt',
      icmp_message ICMP_TYPE_ECHOREPLY code values data len = Some reply
      ∧ ip_packet IP_PROTOCOL_ICMP reply (ICMP_HDR_SIZE + len) (if_unicast ifc) a (i_id (w_ip w)) 0 = Some pkt'
      ∧ y_wire (w_sys w') = y_wire (w_sys w)
          ++ [(d, ether_wire (hw_addr dev) mac NET_PROTOCOL_TYPE_IP pkt')]) w.
Proof.
  intros Hwr Hnf Hpoll Hh (k&p&Hfind&Hhan) Lm Hm Ha Hid Hc Hv Hr Hri Hlook Hb1 Hb2 Hb Hok Hl Hmax Hreq Hpkt.
  pose proof (th_host _ _ _ _ _ Hh) as Hip. destruct (ip_host_u32 _ _ _ _ _ Hip) as [Hu _].
  pose proof (th_mtu _ _ _ _ _ Hh) as Hmtu. destruct (ip_host_dev _ _ _ _ _ Hip) as (_&_&Haddr&_).
  change ETHER_PAYLOAD_SIZE_MAX with 1500 in *. unfold IP_HDR_SIZE_MIN, ICMP_HDR_SIZE in *.
  destruct (icmp_message_ok ICMP_TYPE_ECHO code values data len _ ltac:(done) Hc Hv Hok Hl
    ltac:(change ICMP_BUFSIZ with 65515; unfold ICMP_HDR_SIZE; lia) Hreq) as [Zr Or].
  unfold ICMP_HDR_SIZE in Zr.
  assert (IP_HDR_SIZE_MIN + (8 + len) <= IP_TOTAL_SIZE_MAX) as Htot
    by (unfold IP_HDR_SIZE_MIN, IP_TOTAL_SIZE_MAX; lia).
  destruct (ip_packet_ok IP_PROTOCOL_ICMP request (8 + len) _ _ _ _ ltac:(done) ltac:(lia) Htot Ha Hu Hid Or Hpkt) as [Zp Op].
  unfold IP_HDR_SIZE_MIN in Zp.
  eapply (ether_receive_wp d i dev ifc _ _ _ _ HandlerIp); try done; try lia.
  - by eapply hw_addr_length.
  - by apply Forall_take.
  - by left.
  - apply Hip.
  - intros w1 Hh1 Ha1 _ Hw1 Hi1 _. cbn [net_handlers]. pose proof (th_host _ _ _ _ _ Hh1) as Hip1.
    pose proof (ih_ok _ _ _ _ _ Hip1) as Hok1. set (pad := replicate _ 0).
    assert (bytes_ok pad) as Hpad by (by apply Forall_replicate). unfold wp.
    rewrite (ip_input_packet ip_handlers IP_PROTOCOL_ICMP request (8 + len) a (if_unicast ifc) id pkt pad d dev i ifc);
      try done; try lia; try apply Hip1; [|intros j; by eapply stack_ifaces_live; [|apply Hip1]].
    assert (ip_for ifc (if_unicast ifc) = true) as -> by (unfold ip_for; by rewrite Z.eqb_refl).
    rewrite Hi1, Hfind, Hhan, take_ge by (unfold zlen in Zr; lia). cbn [ip_handlers].
    rewrite <- Hi1, <- Hw1. by apply (echo_request_handled d i dev ifc mac r); rewrite ?Ha1, ?Hi1.
Qed.
End Echo.

(** ** Two sample hosts *)

(** The sample host with another hardware and protocol address, another ARP
    cache, and its first control block bound to port 49152 of all its
    addresses. *)
Definition link_tap (mac : bytes) : net_device := set_d_addr (mac ++ replicate 10 0) sample_tap.

Definition link_iface (addr : Z) : ip_iface :=
  IpIface NET_IFACE_FAMILY_IP (Some 0%nat) addr 0x00ffffff 0x000200c0.

Definition link_pcb : udp_pcb := UdpPcb 1 (IpEndpoint 0 0x00c0) [] sample_ctx.

Definition link_world (mac : bytes) (addr : Z) (arp : list arp_cache) : world :=
  World (w_sys sample_loop)
    (set_n_devs [link_tap mac; sample_lo]
      (set_n_ifs [link_iface addr; IpIface NET_IFACE_FAMILY_IP (Some 1%nat) addr_lo 0x000000ff 0x0000007f]
        sample_net))
    sample_ip arp (<[0%nat := link_pcb]> sample_udp) (w_tcp sample_loop).

Section SampleLink.
Context (mac : bytes) (addr : Z) (arp : list arp_cache).
Hypothesis mac_length : length mac = 6%nat.
Hypothesis mac_ok : bytes_ok mac.
Hypothesis addr_ok : is_u32 addr.
Hypothesis arp_ok : arp_wf arp.

Lemma link_tap_wf : dev_wf (link_tap mac).
Proof.
  destruct sample_tap_wf as (_&?&_&?&?&?&?). split_and!; try done.
  - cbn. by rewrite length_app, mac_length.
  - apply bytes_ok_app. split; [done|by apply Forall_replicate].
Qed.

Lemma link_ifs_ok : Forall (ifc_ok [link_tap mac; sample_lo]) (n_ifs (w_net (link_world mac addr arp))).
Proof.
  assert (ready_dev [link_tap mac; sample_lo] 0) as H0
    by (exists (link_tap mac); split_and!; [done|apply link_tap_wf|done]).
  assert (ready_dev [link_tap mac; sample_lo] 1) as H1
    by (exists sample_lo; split_and!; [done|apply sample_lo_wf|done]).
  apply Forall_cons_2; [|apply Forall_singleton]; (split_and!; [done||(vm_compute; done)..|]); by intros d [= <-].
Qed.

Lemma link_world_ok : stack_ok (link_world mac addr arp).
Proof.
  assert (∀ i, (i < 2)%nat → attached (w_net (link_world mac addr arp)) i) as Hatt.
  { intros [|[|i]] Hi; [..|lia]; by eexists _, _. }
  pose proof sample_loop_ok as [Hudp Htcp _ Hid Hrt _ _ _ _ Hh _ Hlo Hfr Hlk]. constructor; try done.
  - apply udp_wf_insert; [exact Hudp|]. split_and!; try done. by right; left.
  - repeat apply Forall_cons_2; try apply Forall_nil_2; (split; [apply Hatt; cbn; lia|vm_compute; done]).
  - apply link_ifs_ok.
  - intros [|[|d]] dev i [= <-] Hi; apply Hatt; apply list_elem_of_singleton in Hi as ->; lia.
  - destruct link_tap_wf as (?&_&?&_). destruct sample_lo_wf as (?&_&?&_).
    repeat apply Forall_cons_2; try apply Forall_nil_2; eexists; (split; [done|]); by split_and!.
  - repeat apply Forall_cons_2; try apply Forall_nil_2; by eexists.
  - repeat apply Forall_cons_2; apply Forall_nil_2.
  - repeat apply Forall_cons_2; try apply Forall_nil_2; (split; [cbn; lia|apply Forall_nil_2]).
Qed.

Lemma link_host : tap_host 0 0 (link_tap mac) (link_iface addr) (link_world mac addr arp).
Proof.
  constructor; try done; [constructor; try done; [apply link_world_ok|by eexists _, _|by eexists _, _]|..].
  - by eexists _, _.
  - eexists [_], _, []. split_and!; try done. by apply Forall_singleton.
Qed.
End SampleLink.

Definition empty_arp : list arp_cache := replicate ARP_CACHE_SIZE arp_cache_zero.

Lemma empty_arp_wf : arp_wf empty_arp.
Proof. apply (so_arp _ boot_ok). Qed.

Lemma mac_tap_ok : bytes_ok mac_tap.
Proof. by repeat apply Forall_cons_2. Qed.

Lemma mac_gw_ok : bytes_ok mac_gw.
Proof. by repeat apply Forall_cons_2. Qed.

Lemma addr_tap_ok : is_u32 addr_tap.
Proof. vm_compute. done. Qed.

Lemma addr_gw_ok : is_u32 addr_gw.
Proof. vm_compute. done. Qed.

(** 192.0.2.2, which knows the hardware address of 192.0.2.1, or does not;
    and 192.0.2.1. *)
Definition host_a (arp : list arp_cache) : world := link_world mac_tap addr_tap arp.
Definition host_b : world := link_world mac_gw addr_gw empty_arp.

Lemma host_a_tap arp :
  arp_wf arp → tap_host 0 0 (link_tap mac_tap) (link_iface addr_tap) (host_a arp).
Proof. exact (link_host mac_tap addr_tap arp eq_refl mac_tap_ok addr_tap_ok). Qed.

Lemma host_b_tap : tap_host 0 0 (link_tap mac_gw) (link_iface addr_gw) host_b.
Proof. exact (link_host mac_gw addr_gw empty_arp eq_refl mac_gw_ok addr_gw_ok empty_arp_wf). Qed.

Lemma sample_writes_whole : @writes_whole sample_env.
Proof. done. Qed.

Lemma sample_polls_succeed : @polls_succeed sample_env.
Proof. done. Qed.

Lemma host_a_knows : arp_lookup (w_arp (host_a sample_arp)) addr_gw = Some (hw_addr (link_tap mac_gw)).
Proof. reflexivity. Qed.

Lemma host_a_route :
  @ip_route_select sample_machine (i_routes (w_ip (host_a sample_arp))) addr_gw = Some (IpRoute 0x000200c0 0x00ffffff 0 0).
Proof. vm_compute. reflexivity. Qed.

Lemma udp_ethernet_delivers_witness :
  ∃ wA frame wB,
    @udp_sendto sample_machine sample_env sample_ops 0 [1; 2; 3] 3 (IpEndpoint addr_gw 0x00c0)
      (host_a sample_arp) = Done 3 wA
    ∧ y_wire (w_sys wA) = [(0%nat, frame)]
    ∧ @ether_receive sample_machine sample_env 0 frame host_b = Done tt wB
    ∧ up_queue <$> w_udp wB !! 0%nat = Some [UdpQueueEntry (IpEndpoint addr_tap 0x00c0) 3 [1; 2; 3]].
Proof.
  destruct (wp_Done _ _ _ (@udp_ethernet_delivers sample_machine sample_env sample_env sample_env_ok sample_env_ok
    0 0 (link_tap mac_tap) (link_iface addr_tap) (host_a sample_arp)
    0 0 (link_tap mac_gw) (link_iface addr_gw) host_b 0 link_pcb (IpRoute 0x000200c0 0x00ffffff 0 0)
    0x00c0 [1; 2; 3] 3 sample_writes_whole sample_never_fails sample_polls_succeed
    (host_a_tap _ sample_arp_wf) host_b_tap eq_refl eq_refl ltac:(done) ltac:(by left) host_a_route eq_refl
    host_a_knows ltac:(done) ltac:(done) ltac:(done) ltac:(done) ltac:(by repeat apply Forall_cons_2)
    ltac:(done) ltac:(done))) as (r&wA&EA&->&_&_&frame&Hwire&Hrecv).
  destruct (wp_Done _ _ _ Hrecv) as ([]&wB&EB&_&Hu).
  exists wA, frame, wB. split_and!; [exact EA|exact Hwire|exact EB|]. by rewrite Hu.
Defined.

Lemma arp_exchange_resolves_witness :
  ∃ wA1 request wB1 answer wA2,
    @arp_resolve sample_machine sample_env sample_ops 0 addr_gw (replicate 16 0) (host_a empty_arp)
      = Done (ARP_RESOLVE_INCOMPLETE, replicate 16 0) wA1
    ∧ y_wire (w_sys wA1) = [(0%nat, request)]
    ∧ @ether_receive sample_machine sample_env 0 request host_b = Done tt wB1
    ∧ y_wire (w_sys wB1) = [(0%nat, answer)]
    ∧ @ether_receive sample_machine sample_env 0 answer wA1 = Done tt wA2
    ∧ arp_lookup (w_arp wB1) addr_tap = Some mac_tap ∧ arp_lookup (w_arp wA2) addr_gw = Some mac_gw.
Proof.
  destruct (wp_Done _ _ _ (@arp_exchange_resolves sample_machine sample_env sample_env sample_env_ok sample_env_ok
    0 0 (link_tap mac_tap) (link_iface addr_tap) (host_a empty_arp)
    0 0 (link_tap mac_gw) (link_iface addr_gw) host_b (replicate 16 0)
    sample_writes_whole sample_never_fails sample_polls_succeed
    sample_writes_whole sample_never_fails sample_polls_succeed
    (host_a_tap _ empty_arp_wf) host_b_tap eq_refl ltac:(done)))
    as (r&wA1&E1&->&_&request&Hreq&Hrecv).
  destruct (wp_Done _ _ _ Hrecv) as ([]&wB1&E2&_&HlB&answer&Hans&Hrecv').
  destruct (wp_Done _ _ _ Hrecv') as ([]&wA2&E3&_&HlA&_).
  exists wA1, request, wB1, answer, wA2.
  split_and!; [exact E1|exact Hreq|exact E2|exact Hans|exact E3|exact (al_new _ _ _ _ HlB)|exact (al_new _ _ _ _ HlA)].
Defined.

(** 192.0.2.1 pings 192.0.2.2. *)
Lemma ping_answered_witness :
  ∃ request pkt w' reply pkt',
    @icmp_message sample_machine ICMP_TYPE_ECHO 0 0x01000100 [97; 98; 99] 3 = Some request
    ∧ @ip_packet sample_machine IP_PROTOCOL_ICMP request 11 addr_gw addr_tap 7 0 = Some pkt
    ∧ @ether_receive sample_machine sample_env 0 (ether_wire mac_gw mac_tap NET_PROTOCOL_TYPE_IP pkt)
        (host_a sample_arp) = Done tt w'
    ∧ @icmp_message sample_machine ICMP_TYPE_ECHOREPLY 0 0x01000100 [97; 98; 99] 3 = Some reply
    ∧ @ip_packet sample_machine IP_PROTOCOL_ICMP reply 11 addr_tap addr_gw 128 0 = Some pkt'
    ∧ y_wire (w_sys w') = [(0%nat, ether_wire mac_tap mac_gw NET_PROTOCOL_TYPE_IP pkt')].
Proof.
  destruct (@icmp_message sample_machine ICMP_TYPE_ECHO 0 0x01000100 [97; 98; 99] 3)
    as [request|] eqn:Ereq; [|vm_compute in Ereq; discriminate Ereq].
  destruct (@ip_packet sample_machine IP_PROTOCOL_ICMP request 11 addr_gw addr_tap 7 0)
    as [pkt|] eqn:Epkt; [|vm_compute in Ereq; injection Ereq as <-; vm_compute in Epkt; discriminate Epkt].
  destruct (wp_Done _ _ _ (@ping_answered sample_machine sample_env sample_env_ok 0 0 (link_tap mac_tap)
    (link_iface addr_tap) mac_gw (IpRoute 0x000200c0 0x00ffffff 0 0) addr_gw 0 0x01000100 [97; 98; 99] 3 7
    request pkt (host_a sample_arp) sample_writes_whole sample_never_fails sample_polls_succeed
    (host_a_tap _ sample_arp_wf) ltac:(by eexists _, _) eq_refl mac_gw_ok addr_gw_ok ltac:(done) ltac:(done)
    ltac:(done) host_a_route eq_refl host_a_knows ltac:(done) ltac:(done) ltac:(done)
    ltac:(by repeat apply Forall_cons_2) ltac:(done) ltac:(done) Ereq Epkt))
    as ([]&w'&E&_&reply&pkt'&Erep&Epkt'&Hwire).
  exists request, pkt, w', reply, pkt'.
  split_and!; [reflexivity|exact Epkt|exact E|exact Erep|exact Epkt'|exact Hwire].
Defined.
