(* ===== verification/TcpLink.v ===== *)
(** * TCP between two hosts on an Ethernet

    The theorems on TCP say what a control block emits and what an arriving
    segment does to one; here the segments are those on the wire.  A program
    logic for one control block of a host with a tap device keeps track of
    the frames it writes, and the theorems follow a connection's segments
    from the [tcp_output] of one host through IP, ARP, Ethernet and the
    drivers to the [tcp_input] of the other, and its answers back. *)

From S2P Require Import Prelude Bytes Checksum Clock Text Addr Monad State Platform Queue Net Ether.
From S2P Require Import Drivers Device Sample Receive Arp Ip Icmp Pseudo Udp Tcp TcpUser TcpLogic.
From S2P Require Import TcpConn TcpArrive TcpOps TcpProps TcpWire TcpTeardown TcpStream TcpTransfer TcpSample.
From S2P Require Import Stack Safety Boot Deliver UdpLoop EtherLink.

(** ** A host that reaches its peer *)

(** The host has TCP registered, a route over its tap device to the address
    [peer], and the hardware address [ha] of the next hop. *)
Record tcp_link `{Machine} (d i : nat) (dev : net_device) (ifc : ip_iface) (peer : Z) (ha : bytes) (w : world)
  : Prop := TcpLink {
  tl_host : tap_host d i dev ifc w;
  tl_tcp : ∃ k p, list_find (λ p, ip_type p = IP_PROTOCOL_TCP) (i_protocols (w_ip w)) = Some (k, p)
    ∧ ip_handler_of p = HandlerTcp;
  tl_route : reaches i ifc peer ha w;
  tl_ha : length ha = 6%nat;
  tl_peer : is_u32 peer ∧ peer ≠ IP_ADDR_BROADCAST
}.

Lemma tcp_link_step `{Machine} d i dev ifc peer ha w w' :
  tcp_link d i dev ifc peer ha w → tap_host d i dev ifc w' → ip_tables (w_ip w') = ip_tables (w_ip w) →
  w_arp w' = w_arp w → tcp_link d i dev ifc peer ha w'.
Proof.
  intros [Hh Ht Hr Hl Hp] Hh' Hip Ha. pose proof Hip as Hip'. injection Hip' as _ E2 _.
  constructor; try done; [by rewrite E2|by eapply reaches_kept].
Qed.

Lemma link_mac `{Machine} d i dev ifc peer ha w :
  tcp_link d i dev ifc peer ha w → length (hw_addr dev) = 6%nat ∧ bytes_ok (hw_addr dev).
Proof.
  intros Hl. pose proof (th_host _ _ _ _ _ (tl_host _ _ _ _ _ _ _ Hl)) as Hip.
  destruct (ip_host_dev _ _ _ _ _ Hip) as (_&_&Hm&_). split; [by eapply hw_addr_length|by apply Forall_take].
Qed.

Lemma link_pcb `{Machine} d i dev ifc peer ha k p w :
  tcp_link d i dev ifc peer ha w → w_tcp w !! k = Some p → tcp_pcb_ok p.
Proof.
  intros Hl Hp. pose proof (th_host _ _ _ _ _ (tl_host _ _ _ _ _ _ _ Hl)) as Hip.
  eapply tcp_inv_pcb; [|exact Hp]. apply stack_tcp_inv, Hip.
Qed.

(** The frame of a segment from the host to its peer. *)
Definition tcp_carries `{Machine} (dev : net_device) (ifc : ip_iface) (peer : Z) (ha : bytes)
    (seg frame : bytes) : Prop :=
  ∃ id pkt, is_u16 id
    ∧ ip_packet IP_PROTOCOL_TCP seg (zlen seg) (if_unicast ifc) peer id 0 = Some pkt
    ∧ frame = ether_wire (hw_addr dev) ha NET_PROTOCOL_TYPE_IP pkt.

(** What a segment does to block [k], and the segments it answers with. *)
Definition tcp_answers `{Machine} `{Env} (d : nat) (dev : net_device) (ifc : ip_iface) (peer : Z)
    (ha : bytes) (k : nat) (q : tcp_pcb) (local foreign : ip_endpoint) (seg : tcp_segment_info)
    (flg : Z) (text : bytes) (P : tcp_pcb → list bytes → Prop) (w w' : world) : Prop :=
  ∃ q' segs frames, w_tcp w' = <[k := q']> (w_tcp w)
    ∧ conn_arrival seg flg text local foreign (abs q) (abs q') ∧ P q' segs
    ∧ y_wire (w_sys w') = y_wire (w_sys w) ++ (pair d <$> frames)
    ∧ Forall2 (tcp_carries dev ifc peer ha) segs frames.

(** What the platform and the control blocks do not touch. *)
Definition link_seen (w : world) : net_state * list arp_cache * list (nat * bytes) :=
  (w_net w, w_arp w, y_wire (w_sys w)).

Section Seen.
Context `{Machine} `{Env}.

#[export] Instance get_tcp_seen j : Keeps link_seen (get_tcp j).
Proof. unfold get_tcp. apply _. Qed.
#[export] Instance put_tcp_seen j p : Keeps link_seen (put_tcp j p).
Proof. unfold put_tcp. apply _. Qed.
#[export] Instance upd_tcp_seen j f : Keeps link_seen (upd_tcp j f).
Proof. unfold upd_tcp. apply _. Qed.
#[export] Instance env_call_seen {A} (f : nat → A) : Keeps link_seen (env_call f).
Proof. unfold env_call, sys_modify. apply _. Qed.
#[export] Instance mutex_lock_seen m : Keeps link_seen (mutex_lock m).
Proof. unfold mutex_lock, sys_modify. apply _. Qed.
#[export] Instance mutex_unlock_seen m : Keeps link_seen (mutex_unlock m).
Proof. unfold mutex_unlock, sys_modify. apply _. Qed.
#[export] Instance tcp_wakeup_seen j : Keeps link_seen (tcp_wakeup j).
Proof. unfold tcp_wakeup. apply _. Qed.
#[export] Instance queue_cleanup_seen j : Keeps link_seen (tcp_retransmit_queue_cleanup j).
Proof. unfold tcp_retransmit_queue_cleanup. apply _. Qed.
#[export] Instance queue_add_seen j seq flg data len :
  Keeps link_seen (tcp_retransmit_queue_add j seq flg data len).
Proof. unfold tcp_retransmit_queue_add, memory_alloc, gettimeofday. apply _. Qed.
#[export] Instance random_seen : Keeps link_seen random.
Proof. unfold random. apply _. Qed.
End Seen.

Section Link.
Context `{Machine} `{EnvOk} {d i : nat} {dev : net_device} {ifc : ip_iface} {peer : Z} {ha : bytes}.
Context {w0 : world} (Hwr : writes_whole) (Hlink : tcp_link d i dev ifc peer ha w0).

Lemma output_segment_link seq ack flg wnd data len local foreign w :
  tcp_inv w → w_net w = w_net w0 → w_arp w = w_arp w0 → i_routes (w_ip w) = i_routes (w_ip w0) →
  ep_addr local = if_unicast ifc → ep_addr foreign = peer →
  is_u8 flg → bytes_ok data → 0 <= len <= zlen data → 40 + len <= 1500 →
  wp (tcp_output_segment seq ack flg wnd data len local foreign) (λ r w', r = len
    ∧ send_frame w w' ∧ w_net w' = w_net w ∧ w_arp w' = w_arp w
    ∧ ∃ seg frame, tcp_segment seq ack flg wnd data len local foreign = Some seg
      ∧ tcp_carries dev ifc peer ha seg frame
      ∧ y_wire (w_sys w') = y_wire (w_sys w) ++ [(d, frame)]) w.
Proof.
  intros Hi Hn Ha Hro Hloc Hfor Hf Hok Hl Hmax.
  pose proof Hlink as [Hh _ (r&Hr&Hri&Harp&Hb1&Hb2) Lha [Hpu Hpb]].
  pose proof (th_host _ _ _ _ _ Hh) as Hip. destruct (ip_host_u32 _ _ _ _ _ Hip) as [Hu _].
  pose proof (th_mtu _ _ _ _ _ Hh) as Hmtu. change ETHER_PAYLOAD_SIZE_MAX with 1500 in Hmtu.
  unfold tcp_output_segment.
  destruct (tcp_segment_eq seq ack flg wnd data len local foreign) as (sum&_&_&_&Eseg&_); try done.
  { change TCP_TEXT_MAX with 65495. lia. }
  set (seg := tcp_hdr_bytes _ ++ _) in *. rewrite Eseg.
  assert (zlen seg = 20 + len) as Hz.
  { unfold seg. rewrite zlen_app, zlen_tcp_hdr_bytes. unfold zlen, TCP_HDR_SIZE in *. rewrite length_take. lia. }
  unfold TCP_HDR_SIZE. rewrite u16_small by ulia. do 3 wp_step. rewrite Hloc, Hfor.
  eapply (ip_output_link _ _ _ d i dev ifc r); try done; try lia; try apply Hi.
  - rewrite Hn. apply Hip.
  - rewrite Hn. apply Hip.
  - apply Hip.
  - by rewrite Hro.
  - apply bytes_ok_app. split; [by apply tcp_hdr_bytes_ok|by apply Forall_take].
  - rewrite Hmtu. unfold IP_HDR_SIZE_MIN. lia.
  - by rewrite Hmtu.
  - intros pkt Epkt Zp _. rewrite <- Zp.
    eapply wp_mono; [apply (ip_output_device_tap d i dev ifc pkt ha (next_hop r peer) w0 (next_id w)); try done|].
    + cbn. apply Hi.
    + apply Hi.
    + cbn. by rewrite Ha.
    + by rewrite (proj2 (Z.eqb_neq _ _) Hb1), (proj2 (Z.eqb_neq _ _) Hb2).
    + rewrite Zp. unfold IP_HDR_SIZE_MIN. lia.
    + intros r' w' (->&Hn'&Ha'&Hwire) Hsf. cbn [Z.eqb]. destruct (Z.eqb_spec (20 + len) (-1)); [lia|].
      wp_step. split_and!; try done. exists seg. eexists. split_and!; [done| |exact Hwire].
      exists (i_id (w_ip w)), pkt. rewrite Hz. split_and!; [apply Hi|done|done].
Qed.

(** ** One control block and the frames it writes *)

(** The host is [w0] with block [k] replaced by [pcb], the mutexes [L] are
    held, and the frames written carry the segments [segs]. *)
Record link_state (k : nat) (pcb : tcp_pcb) (L : list mutex) (segs : list bytes) (w : world)
  : Prop := LinkState {
  ls_inv : tcp_inv w;
  ls_touch : tcp_touch k w0 w pcb;
  ls_locked : locked w = L;
  ls_net : w_net w = w_net w0;
  ls_arp : w_arp w = w_arp w0;
  ls_wire : ∃ frames, y_wire (w_sys w) = y_wire (w_sys w0) ++ (pair d <$> frames)
    ∧ Forall2 (tcp_carries dev ifc peer ha) segs frames
}.

Definition lwp {A} (k : nat) (m : C A) (Q : A → tcp_pcb → list mutex → list bytes → Prop)
    (pcb : tcp_pcb) (L : list mutex) (segs : list bytes) : Prop :=
  ∀ w, link_state k pcb L segs w →
    wp m (λ a w', ∃ pcb' L' segs', link_state k pcb' L' segs' w' ∧ Q a pcb' L' segs') w.

Context {k : nat}.

Lemma lwp_ret {A} (a : A) Q pcb L segs : Q a pcb L segs → lwp k (ret a) Q pcb L segs.
Proof. intros HQ w Hw. by exists pcb, L, segs. Qed.

Lemma lwp_bind {A B} (m : C A) (f : A → C B) Q pcb L segs :
  lwp k m (λ a, lwp k (f a) Q) pcb L segs → lwp k (bind m f) Q pcb L segs.
Proof.
  intros Hm w Hw. apply wp_bind. eapply wp_mono; [by apply Hm|].
  intros a w' (pcb'&L'&segs'&Hw'&Hf). by apply Hf.
Qed.

Lemma lwp_mono {A} (m : C A) (P Q : A → tcp_pcb → list mutex → list bytes → Prop) pcb L segs :
  lwp k m P pcb L segs → (∀ a p l s, P a p l s → Q a p l s) → lwp k m Q pcb L segs.
Proof.
  intros Hm HPQ w Hw. eapply wp_mono; [by apply Hm|].
  intros a w' (pcb'&L'&segs'&?&?). exists pcb', L', segs'. auto.
Qed.

(** Code that writes no frame. *)
Lemma lwp_lift {A} (m : C A) Q pcb L segs :
  Keeps link_seen m → pwp k w0 m (λ a p l, Q a p l segs) pcb L → lwp k m Q pcb L segs.
Proof.
  intros Hk Hm w [Hi Ht HL Hn Ha Hwire].
  eapply wp_mono; [apply wp_and; [by apply Hm|by apply (keeps_wlp link_seen)]|].
  intros a w' [(pcb'&L'&Hi'&Ht'&HL'&HQ) [= Hn' Ha' Hw']]. exists pcb', L', segs. split; [|done].
  constructor; try done; [congruence|congruence|by rewrite Hw'].
Qed.

Lemma lwp_ok {A} (m : C A) Q pcb L segs :
  (tcp_pcb_ok pcb → lwp k m Q pcb L segs) → lwp k m Q pcb L segs.
Proof.
  intros Hm w Hw. apply Hm; [|done]. eapply tcp_inv_pcb; [apply Hw|]. eapply tcp_touch_lookup, Hw.
Qed.

Lemma lwp_output_segment seq ack flg wnd data len local foreign Q pcb L segs :
  ep_addr local = if_unicast ifc → ep_addr foreign = peer →
  is_u8 flg → bytes_ok data → 0 <= len <= zlen data → 40 + len <= 1500 →
  (∀ seg, tcp_segment seq ack flg wnd data len local foreign = Some seg → Q len pcb L (segs ++ [seg])) →
  lwp k (tcp_output_segment seq ack flg wnd data len local foreign) Q pcb L segs.
Proof.
  intros Hloc Hfor Hf Hok Hl Hmax HQ w [Hi (Hlt&Hfr&E) HL Hn Ha (frames&Hwire&Hall)].
  pose proof (tf_ip _ _ Hfr) as Hip. injection Hip as _ _ Hro.
  eapply wp_mono; [by apply (output_segment_link _ _ _ _ _ _ _ _ w)|].
  intros r w' (->&Hsf&Hn'&Ha'&seg&frame&Eseg&Hc&Hw'). exists pcb, L, (segs ++ [seg]). split; [|by apply HQ].
  constructor; try congruence.
  - by eapply tcp_inv_send.
  - split_and!; [done| |by rewrite (sf_tcp _ _ Hsf)]. etrans; [done|by apply send_tcp_frame].
  - by rewrite (sf_locked _ _ Hsf).
  - exists (frames ++ [frame]). rewrite Hw', Hwire, fmap_app, app_assoc. split; [done|].
    by apply Forall2_app; [|constructor].
Qed.

Lemma lwp_output flg data len Q pcb L segs :
  ep_addr (tp_local pcb) = if_unicast ifc → ep_addr (tp_foreign pcb) = peer →
  is_u8 flg → bytes_ok data → 0 <= len <= zlen data → 40 + len <= 1500 →
  (∀ queue seg, tcp_queued pcb flg data len queue → tcp_emits pcb flg data len = Some seg →
     Q len (set_tp_queue queue pcb) L (segs ++ [seg])) →
  lwp k (tcp_output k flg data len) Q pcb L segs.
Proof.
  intros Hloc Hfor Hf Hok Hl Hmax HQ. unfold tcp_output. apply lwp_ok. intros Hp.
  pose proof Hp as [_ _ _ (?&_) _ (?&_) _ _ _].
  apply lwp_bind, lwp_lift; [apply _|]. apply pwp_get. apply lwp_bind. cbv zeta.
  set (seq := if TCP_FLG_ISSET flg TCP_FLG_SYN then tp_iss pcb else snd_nxt pcb).
  assert (∀ queue, tcp_queued pcb flg data len queue →
    lwp k (tcp_output_segment seq (rcv_nxt pcb) flg (rcv_wnd pcb) data len (tp_local pcb)
             (tp_foreign pcb)) Q (set_tp_queue queue pcb) L segs) as Hseg.
  { intros queue Hq. apply lwp_output_segment; auto. }
  assert (TCP_FLG_ISSET flg (Z.lor TCP_FLG_SYN TCP_FLG_FIN) || nz len = false ∨ ¬ never_fails →
    lwp k (tcp_output_segment seq (rcv_nxt pcb) flg (rcv_wnd pcb) data len (tp_local pcb)
             (tp_foreign pcb)) Q pcb L segs) as Hsame.
  { intros Hno. rewrite <- (set_tp_queue_id pcb). apply Hseg. by left. }
  destruct (_ || _) eqn:E; [|by apply lwp_ret, Hsame; left].
  apply lwp_bind, lwp_lift; [apply _|]. apply pwp_queue_add; try done.
  - change TCP_TEXT_MAX with 65495. lia.
  - unfold seq. by destruct (TCP_FLG_ISSET flg TCP_FLG_SYN).
  - intros Hno r. apply lwp_ret, Hsame. by right.
  - intros t Ht. apply lwp_ret, Hseg. right. split; [done|]. by exists t.
Qed.
End Link.

(** [lwp_step] makes one step of a program on one block. *)
Ltac lwp_step :=
  lazymatch goal with
  | |- lwp _ (bind _ _) _ _ _ _ => apply lwp_bind
  | |- lwp _ (ret _) _ _ _ _ => apply lwp_ret
  | |- lwp _ _ _ _ _ _ => apply lwp_lift; [apply _|pwp_step]
  end; cbv beta.

Section Emits.
Context `{Machine} `{EnvOk} {d i : nat} {dev : net_device} {ifc : ip_iface} {peer : Z} {ha : bytes}.
Context {w0 : world} (Hwr : writes_whole) (Hlink : tcp_link d i dev ifc peer ha w0) {k : nat}.
Notation lwp := (lwp (d := d) (dev := dev) (ifc := ifc) (peer := peer) (ha := ha) (w0 := w0)).
Notation link_state := (link_state (d := d) (dev := dev) (ifc := ifc) (peer := peer) (ha := ha) (w0 := w0)).

(** ** What arriving segments make a block emit *)

(** No event has come in between for the calls that wait on the block. *)
Definition same_wait (p q : tcp_pcb) : Prop := sc_interrupted (tp_ctx p) = sc_interrupted (tp_ctx q).

(** Acknowledgements change none of these. *)
Definition same_side (p q : tcp_pcb) : Prop :=
  tp_state p = tp_state q ∧ tp_local p = tp_local q ∧ tp_foreign p = tp_foreign q
  ∧ snd_nxt p = snd_nxt q ∧ rcv_nxt p = rcv_nxt q ∧ rcv_wnd p = rcv_wnd q ∧ tp_buf p = tp_buf q
  ∧ same_wait p q.

Lemma ack_established_lwp seg pcb L segs :
  seg_ok seg → tp_state pcb ≠ TCP_PCB_STATE_FIN_WAIT1 → seg_ack seg <= snd_nxt pcb →
  lwp k (tcp_ack_established k seg)
    (λ go p L' s, go = true ∧ L' = L ∧ s = segs ∧ same_side p pcb) pcb L segs.
Proof.
  intros (Hs&Ha&_&Hw) Hst Hack. unfold tcp_ack_established. do 2 lwp_step. cbv zeta.
  assert (∀ p, same_side p pcb →
    lwp k (pcb <- get_tcp k;;
           (when ((tp_state pcb =? TCP_PCB_STATE_FIN_WAIT1) && (seg_ack seg =? snd_nxt pcb)) then
             upd_tcp k (set_tp_state TCP_PCB_STATE_FIN_WAIT2));;
           ret true) (λ go p L' s, go = true ∧ L' = L ∧ s = segs ∧ same_side p pcb) p L segs) as Hend.
  { intros p Hp. do 3 lwp_step. rewrite (proj1 Hp), (proj2 (Z.eqb_neq _ _) Hst). cbn [andb]. by repeat lwp_step. }
  destruct (_ && _).
  - do 5 lwp_step. destruct (_ || _); do 3 lwp_step; by apply Hend.
  - destruct (_ <? _); [by apply Hend|]. rewrite Z.gtb_ltb.
    destruct (Z.ltb_spec (snd_nxt pcb) (seg_ack seg)); [lia|]. by apply Hend.
Qed.

Lemma process_text_lwp seg data len pcb L segs :
  seg_ok seg → 0 <= len <= rcv_wnd pcb → len <= zlen data → bytes_ok data →
  tp_state pcb = TCP_PCB_STATE_ESTABLISHED →
  ep_addr (tp_local pcb) = if_unicast ifc → ep_addr (tp_foreign pcb) = peer →
  lwp k (tcp_process_text k seg data len) (λ _ p L' s, L' = L ∧ same_wait p pcb ∧
    if len =? 0 then s = segs else ∃ ack, tcp_emits p TCP_FLG_ACK [] 0 = Some ack ∧ s = segs ++ [ack])
    pcb L segs.
Proof.
  intros (Hs&_&Hsl&_) Hl Hz Hok Hst Hloc Hfor. apply lwp_ok. intros Hp. unfold tcp_process_text.
  do 2 lwp_step. rewrite bool_decide_eq_true_2 by (rewrite Hst; by left).
  unfold nz. destruct (Z.eqb_spec len 0) as [->|Hnz]; cbn [negb]; [by lwp_step|].
  pose proof (tpo_rcv _ Hp) as (Hnxt&Hwnd). pose proof (tpo_buf _ Hp) as (Hbl&Hbo).
  destruct (memcpy (tp_buf pcb) (TCP_BUFSIZ - rcv_wnd pcb) data len) as [buf|] eqn:Em.
  2:{ rewrite memcpy_spec in Em by (unfold TCP_BUFSIZ in *; ulia). done. }
  lwp_step. apply lwp_lift; [apply _|]. eapply pwp_expect; [done|]. lwp_step. apply lwp_lift; [apply _|].
  pose proof (memcpy_length _ _ _ _ _ Em) as Hbl'. pose proof (memcpy_ok _ _ _ _ _ Em Hbo Hok) as Hbo'.
  apply pwp_put; [pcb_fields Hp; unfold zlen in *; by rewrite Hbl'|]. lwp_step.
  apply (lwp_output Hwr Hlink); try done; [by apply Forall_nil_2|]. intros queue seg' Hq Eseg. lwp_step.
  split_and!; [done|done|]. by exists seg'.
Qed.

(** The segment is for block [k]. *)
Lemma select_lwp local foreign Q pcb L segs :
  w_tcp w0 !! k = Some pcb → conn_select local foreign (conns w0) = Some k →
  Q (Some k) pcb L segs → lwp k (tcp_pcb_select local (Some foreign)) Q pcb L segs.
Proof.
  intros Hp Hsel HQ. unfold tcp_pcb_select. apply lwp_lift; [apply _|].
  apply (pwp_gets (λ pcbs, tcp_pcb_scan 0 pcbs local (Some foreign) None)). cbv beta.
  rewrite list_insert_id, tcp_pcb_scan_abs by done. fold (conns w0). by rewrite Hsel.
Qed.

(** A segment with acceptable numbers for an established connection: its text,
    if it has any, is acknowledged. *)
Lemma established_lwp seg flags data len local foreign pcb L segs :
  w_tcp w0 !! k = Some pcb → conn_select local foreign (conns w0) = Some k →
  tp_state pcb = TCP_PCB_STATE_ESTABLISHED → seg_ok seg → conn_acceptable seg (abs pcb) = true →
  seg_ack seg <= snd_nxt pcb → TCP_FLG_ISSET flags TCP_FLG_ACK = true →
  TCP_FLG_ISSET flags TCP_FLG_FIN = false → 0 <= len <= rcv_wnd pcb → len <= zlen data → bytes_ok data →
  ep_addr (tp_local pcb) = if_unicast ifc → ep_addr (tp_foreign pcb) = peer →
  lwp k (tcp_segment_arrives seg flags data len local foreign) (λ _ p L' s, L' = L ∧ same_wait p pcb ∧
    if len =? 0 then s = segs else ∃ ack, tcp_emits p TCP_FLG_ACK [] 0 = Some ack ∧ s = segs ++ [ack])
    pcb L segs.
Proof.
  intros Hp Hsel Hst Hseg Hacc Hack Hfa Hff Hl Hz Hok Hloc Hfor. apply lwp_ok. intros Hpok.
  unfold tcp_segment_arrives. lwp_step. apply select_lwp; [done..|]. do 2 lwp_step.
  rewrite tcp_acceptable_abs, Hacc, Hst by done. cbn [negb].
  change (lwp k (go <- tcp_check_ack k seg flags local foreign;;
    if negb go then ret tt else tcp_process_text k seg data len;; tcp_process_fin k seg flags)
    (λ _ p L' s, L' = L ∧ same_wait p pcb ∧ if len =? 0 then s = segs
       else ∃ ack, tcp_emits p TCP_FLG_ACK [] 0 = Some ack ∧ s = segs ++ [ack]) pcb L segs).
  lwp_step. unfold tcp_check_ack. rewrite Hfa. cbn [negb]. do 2 lwp_step. rewrite Hst.
  change (TCP_PCB_STATE_ESTABLISHED =? TCP_PCB_STATE_SYN_RECEIVED) with false. cbv iota.
  rewrite bool_decide_eq_true_2 by (by left).
  eapply lwp_mono; [by apply ack_established_lwp; [|rewrite Hst|]|].
  intros go p l s (->&->&->&E1&E2&E3&E4&E5&E6&E7&E8). cbn [negb]. lwp_step.
  eapply lwp_mono; [apply process_text_lwp; try done; congruence|].
  intros [] p' l s (->&Hc&Hs). unfold tcp_process_fin. rewrite Hff. lwp_step. by split_and!; [|etrans|].
Qed.

(** ** What sending emits *)

(** The segment of an entry of the retransmission queue. *)
Definition entry_emitted (p : tcp_pcb) (e : tcp_queue_entry) (seg : bytes) : Prop :=
  tcp_segment (tqe_seq e) (rcv_nxt p) (tqe_flg e) (rcv_wnd p) (tqe_data e) (tqe_len e)
    (tp_local p) (tp_foreign p) = Some seg.

Lemma tcp_segment_take seq ack flg wnd data len local foreign :
  0 <= len <= zlen data →
  tcp_segment seq ack flg wnd (take (Z.to_nat len) data) len local foreign
  = tcp_segment seq ack flg wnd data len local foreign.
Proof.
  intros Hl. unfold tcp_segment. rewrite !slice_spec; [|lia..|unfold zlen in *; rewrite length_take; lia].
  change (Z.to_nat 0) with 0%nat. by rewrite !drop_0, take_take, Nat.min_id.
Qed.

(** From [p] to [q], [data] was sent in consecutive segments, which are kept. *)
Definition texts_sent (data : bytes) (p q : tcp_pcb) : Prop :=
  same_wait q p ∧ ∃ texts, mjoin texts = data ∧ Forall (λ text, 0 < zlen text <= 1460) texts
  ∧ abs q = set_c_nxt (snd_nxt p + zlen data)
      (set_c_rexmit (c_rexmit (abs p) ++ segments (snd_nxt p) texts) (abs p)).

Lemma texts_sent_nil p : texts_sent [] p p.
Proof.
  split; [done|]. exists []. split_and!; [done|by apply Forall_nil_2|]. cbn [segments].
  change (zlen []) with 0. by rewrite Z.add_0_r, app_nil_r.
Qed.

Lemma texts_sent_app data data' p q r :
  texts_sent data p q → texts_sent data' q r → texts_sent (data ++ data') p r.
Proof.
  intros [Hw (texts&Et&Hf&E)] [Hw' (texts'&Et'&Hf'&E')]. split; [by etrans|]. exists (texts ++ texts').
  split_and!; [by rewrite join_app, Et, Et'|by apply Forall_app|].
  pose proof (f_equal c_nxt E) as En. cbn in En. rewrite E', E, En, segments_app, Et, zlen_app, Z.add_assoc, app_assoc.
  done.
Qed.

Lemma send_split sent slen len (data : bytes) :
  0 <= sent → 0 <= slen <= len - sent → len <= zlen data →
  drop (Z.to_nat sent) (take (Z.to_nat len) data)
  = take (Z.to_nat slen) (drop (Z.to_nat sent) data) ++ drop (Z.to_nat (sent + slen)) (take (Z.to_nat len) data).
Proof.
  intros Hs Hl Hz. rewrite Z2Nat.inj_add, <- drop_drop, !skipn_firstn_comm by lia.
  rewrite take_take_drop. f_equal. lia.
Qed.

Lemma send_loop_lwp fuel mss data len sent pcb L segs :
  never_fails → MutexTcp ∉ L → bytes_ok data → len <= zlen data → 0 <= sent <= len →
  (Z.to_nat (len - sent) <= fuel)%nat → 0 < mss <= 1460 →
  ep_addr (tp_local pcb) = if_unicast ifc → ep_addr (tp_foreign pcb) = peer →
  0 <= snd_una pcb <= snd_nxt pcb → snd_nxt pcb + (len - sent) < 2 ^ 32 →
  snd_nxt pcb - snd_una pcb + (len - sent) <= snd_wnd pcb < 2 ^ 32 →
  Forall2 (entry_emitted pcb) (tp_queue pcb) segs →
  lwp k (tcp_send_loop fuel k mss data len sent) (λ r p L' s, r = Returned len ∧ L' = L
    ∧ texts_sent (drop (Z.to_nat sent) (take (Z.to_nat len) data)) pcb p
    ∧ Forall2 (entry_emitted p) (tp_queue p) s) pcb (MutexTcp :: L) segs.
Proof.
  intros Hmem HL Hok Hl. revert sent pcb segs.
  induction fuel as [|fuel IH]; intros sent pcb segs Hs Hfuel Hmss Hloc Hfor Hun Hwrap Hwnd Hq;
    cbn [tcp_send_loop]; (destruct (Z.ltb_spec sent len) as [Hlt|Hge];
     [|repeat lwp_step; split_and!; [f_equal; lia|done| |done]]); [lia| | |].
  1,3: rewrite drop_ge by (rewrite length_take; lia); apply texts_sent_nil.
  do 2 lwp_step.
  assert (tcp_send_cap pcb = snd_wnd pcb - (snd_nxt pcb - snd_una pcb)) as Ecap.
  { exact (conn_cap_eq (abs pcb) Hun ltac:(cbn; lia) ltac:(cbn; lia)). }
  rewrite Ecap. cbv zeta. unfold nz. destruct (Z.eqb_spec (snd_wnd pcb - (snd_nxt pcb - snd_una pcb)) 0); [lia|].
  cbn [negb]. set (slen := Z.min (Z.min mss (len - sent)) (snd_wnd pcb - (snd_nxt pcb - snd_una pcb))).
  assert (0 < slen <= len - sent ∧ slen <= mss) as [Hsl Hsm] by lia.
  assert (slen <= zlen (drop (Z.to_nat sent) data)) as Hz by (unfold zlen in *; rewrite length_drop; lia).
  lwp_step. apply (lwp_output Hwr Hlink); try done; [by apply Forall_drop|lia|lia|].
  intros queue seg Hqd Eseg. destruct (Z.eqb_spec slen (-1)); [lia|]. do 2 lwp_step.
  assert (u32 (snd_nxt pcb + slen) = snd_nxt pcb + slen) as En by (apply u32_small; ulia).
  destruct Hqd as [[_ [E|Hno]]|(_&t&_&->)]; [|done|].
  { exfalso. apply orb_false_elim in E as [_ E]. unfold nz in E. destruct (Z.eqb_spec slen 0); [lia|done]. }
  eapply lwp_mono; [apply IH; cbn; try done; rewrite ?En; try lia|].
  2:{ intros r p L' s (->&->&Hts&He). split_and!; try done.
      rewrite (send_split sent slen len data) by lia. eapply texts_sent_app; [|exact Hts]. split; [done|].
      assert (zlen (take (Z.to_nat slen) (drop (Z.to_nat sent) data)) = slen) as Et by (unfold zlen in *; rewrite length_take; lia).
      exists [take (Z.to_nat slen) (drop (Z.to_nat sent) data)]. split_and!.
      - cbn. apply app_nil_r.
      - constructor; [rewrite Et; lia|constructor].
      - rewrite Et. unfold abs. cbn. by rewrite fmap_app, En. }
  - apply Forall2_app; [exact Hq|]. constructor; [|constructor]. unfold entry_emitted. cbn.
    rewrite tcp_segment_take by lia. exact Eseg.
Qed.

(** Code that only reads the tables below TCP. *)
Lemma lwp_read {A} (m : C A) a Q pcb L segs :
  (∀ w, w_net w = w_net w0 → i_routes (w_ip w) = i_routes (w_ip w0) → m w = Done a w) →
  Q a pcb L segs → lwp k m Q pcb L segs.
Proof.
  intros Hm HQ w Hw. pose proof (tf_ip _ _ (proj1 (proj2 (ls_touch _ _ _ _ _ Hw)))) as Hip.
  injection Hip as _ _ Hro. unfold wp. rewrite Hm; [|apply Hw|done]. by exists pcb, L, segs.
Qed.

Lemma tcp_pcb_get_lwp Q pcb L segs :
  tp_state pcb ≠ TCP_PCB_STATE_FREE → Q (Some k) pcb L segs →
  lwp k (tcp_pcb_get (Z.of_nat k)) Q pcb L segs.
Proof.
  intros Hst HQ w Hw. assert (k < 16)%nat as Hk.
  { pose proof (ls_touch _ _ _ _ _ Hw) as Ht. apply tcp_touch_lookup, lookup_lt_Some in Ht.
    by rewrite (proj1 (ti_wf _ (ls_inv _ _ _ _ _ Hw))) in Ht. }
  unfold tcp_pcb_get, TCP_PCB_SIZE. destruct (Z.ltb_spec (Z.of_nat k) 0); [lia|].
  rewrite Z.geb_leb. destruct (Z.leb_spec 16 (Z.of_nat k)); [lia|]. cbn [orb]. rewrite Nat2Z.id.
  assert (lwp k (pcb <- get_tcp k;;
    if tp_state pcb =? TCP_PCB_STATE_FREE then ret None else ret (Some k)) Q pcb L segs) as Hget; [|by apply Hget].
  do 2 lwp_step. rewrite (proj2 (Z.eqb_neq _ _) Hst). by lwp_step.
Qed.

Lemma tcp_send_lwp data pcb L segs :
  never_fails → MutexTcp ∉ L → tp_state pcb = TCP_PCB_STATE_ESTABLISHED → bytes_ok data →
  ep_addr (tp_local pcb) = if_unicast ifc → ep_addr (tp_foreign pcb) = peer →
  0 <= snd_una pcb <= snd_nxt pcb → snd_nxt pcb + zlen data < 2 ^ 32 →
  snd_nxt pcb - snd_una pcb + zlen data <= snd_wnd pcb < 2 ^ 32 →
  Forall2 (entry_emitted pcb) (tp_queue pcb) segs →
  lwp k (tcp_send (Z.of_nat k) data (zlen data)) (λ r p L' s, r = Returned (zlen data) ∧ L' = L
    ∧ texts_sent data pcb p ∧ Forall2 (entry_emitted p) (tp_queue p) s) pcb L segs.
Proof.
  intros Hmem HL Hst Hok Hloc Hfor Hun Hwrap Hwnd Hq.
  pose proof Hlink as [Hh _ (r&Hr&Hri&_) _ _]. pose proof (th_host _ _ _ _ _ Hh) as Hip.
  pose proof (zlen_nonneg data). unfold tcp_send. do 3 lwp_step.
  apply tcp_pcb_get_lwp; [by rewrite Hst|]. unfold tcp_send_retry. do 2 lwp_step. rewrite Hst, Hfor.
  cbn [orb Z.eqb]. change (_ || _) with true. cbv iota. lwp_step.
  apply (lwp_read _ (Some i)).
  { intros w _ Hro. unfold ip_route_get_iface, ip_route_lookup, bind, gets, ret. rewrite Hro, Hr. cbn. by rewrite Hri. }
  lwp_step. apply (lwp_read _ ifc).
  { intros w Hn _. unfold get_if, bind, gets. by rewrite Hn, (ih_ifc _ _ _ _ _ Hip). }
  rewrite (ih_ifdev _ _ _ _ _ Hip). lwp_step. apply (lwp_read _ d); [done|].
  lwp_step. apply (lwp_read _ dev).
  { intros w Hn _. unfold get_dev, bind, gets. by rewrite Hn, (ih_dev _ _ _ _ _ Hip). }
  rewrite (th_mtu _ _ _ _ _ Hh). change (u64 _) with 1460.
  eapply lwp_mono; [apply send_loop_lwp; try done; lia|].
  cbv beta. change (Z.to_nat 0) with 0%nat. by rewrite drop_0, take_zlen by lia.
Qed.

(** A command run on a host. *)
Lemma link_run {A} (m : C A) Q pcb :
  w_tcp w0 !! k = Some pcb → lwp k m Q pcb (locked w0) [] →
  wp m (λ a w', ∃ pcb' L' segs, link_state k pcb' L' segs w' ∧ Q a pcb' L' segs) w0.
Proof.
  intros Hp Hm. apply Hm. pose proof (ih_ok _ _ _ _ _ (th_host _ _ _ _ _ (tl_host _ _ _ _ _ _ _ Hlink))) as Hw.
  constructor; try done.
  - by apply stack_tcp_inv.
  - split_and!; [by eapply lookup_lt_Some|done|by rewrite list_insert_id].
  - exists []. by rewrite app_nil_r.
Qed.

(** The host afterwards. *)
Lemma link_after pcb L segs w :
  link_state k pcb L segs w → L = locked w0 → tcp_link d i dev ifc peer ha w.
Proof.
  intros [Hi (_&Hf&_) HL Hn Ha _] ->. pose proof Hlink as [Hh _ _ _ _].
  pose proof (th_host _ _ _ _ _ Hh) as Hip. pose proof (ih_ok _ _ _ _ _ Hip) as Hw.
  pose proof (stack_keeps_tcp w0 w Hw ltac:(by split_and!)) as [Hw' Hl].
  eapply tcp_link_step; [done| |apply Hf|done].
  eapply tap_host_frame; [done|done|by apply link_stack_frame|rewrite Hn; apply Hip|rewrite Hn; apply Hip|].
  pose proof (lf_sys _ _ Hl) as Hs. injection Hs as _ E. rewrite E. apply Hh.
Qed.

(** ** A segment on the wire *)

Lemma tcp_input_link q seq ack flg wnd text len local foreign seg pad (P : tcp_pcb → list bytes → Prop) :
  is_u32 seq → is_u32 ack → is_u8 flg → is_u16 wnd →
  endpoint_ok local → endpoint_ok foreign → bytes_ok text → bytes_ok pad →
  0 <= len <= zlen text → len <= TCP_TEXT_MAX →
  w_tcp w0 !! k = Some q → conn_select local foreign (conns w0) = Some k →
  tcp_unicast (ep_addr foreign) (ep_addr local) ifc = true →
  let info := TcpSegmentInfo seq ack (tcp_seg_len flg len) wnd 0 in
  text_fits info local foreign len (conns w0) →
  tcp_segment seq ack flg wnd text len foreign local = Some seg →
  lwp k (tcp_segment_arrives info flg (take (Z.to_nat len) text ++ pad) len local foreign)
    (λ _ p L s, L = [MutexTcp] ∧ P p s) q [MutexTcp] [] →
  wp (tcp_input (seg ++ pad) (TCP_HDR_SIZE + len) (ep_addr foreign) (ep_addr local) i)
    (λ _ w', tcp_link d i dev ifc peer ha w' ∧ stack_keeps w0 w' ∧ w_net w' = w_net w0
       ∧ w_arp w' = w_arp w0
       ∧ tcp_answers d dev ifc peer ha k q local foreign info flg (take (Z.to_nat len) text) P w0 w') w0.
Proof.
  intros Hs Ha Hf Hw Hl Hfo Hok Hpad Hlen Hmax Hq Hsel Huni info Hfit Eseg Harr.
  pose proof (th_host _ _ _ _ _ (tl_host _ _ _ _ _ _ _ Hlink)) as Hip.
  pose proof (ih_ok _ _ _ _ _ Hip) as Hok'. pose proof (so_locked _ Hok' : locked w0 = []) as HL0.
  destruct (tcp_segment_delivered seq ack flg wnd text len foreign local pad i ifc w0)
    as (seg1&E1&Ein); try done; [apply Hip|].
  rewrite Eseg in E1. injection E1 as <-.
  destruct (tcp_padded_moves seq ack flg wnd text len foreign local pad i ifc w0)
    as (seg1&E1&Hmoves); try done; [apply Hip|by apply stack_tcp_ready|].
  rewrite Eseg in E1. injection E1 as <-.
  eapply wp_mono; [apply wp_both; [exact Hmoves|]|].
  - apply (wp_eq _ _ _ _ Ein). eapply (link_run _ (λ _ p L s, L = locked w0 ∧ P p s)); [exact Hq|].
    rewrite HL0. do 2 lwp_step; [by apply not_elem_of_nil|]. lwp_step.
    eapply lwp_mono; [exact Harr|]. intros [] p L s [-> HP]. lwp_step; [by apply not_elem_of_nil|done].
  - intros [] w' [[Hk Harrv] (p&L&segs&Hst&->&HP)]. pose proof Hst as [_ (_&_&Et) _ Hn Harp (frames&Hwire&Hall)].
    split_and!; [by eapply link_after|by apply stack_keeps_tcp|done|done|].
    exists p, segs, frames. split_and!; try done.
    unfold conns_arrival in Harrv. rewrite Hsel in Harrv. destruct Harrv as (c&c'&Hc&Ec&Ha').
    rewrite (conns_lookup _ _ _ Hq) in Hc. injection Hc as <-.
    assert (c' = abs p) as ->; [|exact Ha'].
    assert (conns w' !! k = Some c') as Hc'.
    { rewrite Ec. apply list_lookup_insert_eq. by eapply lookup_lt_Some, conns_lookup. }
    apply conns_lookup_inv in Hc' as (p'&Hp'&->). rewrite Et, list_lookup_insert_eq in Hp'; [congruence|].
    by eapply lookup_lt_Some.
Qed.
End Emits.

Section Frames.
Context `{Machine} `{EnvOk}.

(** The segment of the peer in a packet, as far as [tcp_input]. *)
Lemma tcp_packet_received d i dev ifc peer ha k q seq ack flg wnd text len local foreign seg id pkt pad
    (P : tcp_pcb → list bytes → Prop) w :
  tcp_link d i dev ifc peer ha w → ep_addr local = if_unicast ifc → ep_addr foreign = peer →
  is_u32 seq → is_u32 ack → is_u8 flg → is_u16 wnd → endpoint_ok local → endpoint_ok foreign →
  bytes_ok text → 0 <= len <= zlen text → 40 + len <= 1500 → is_u16 id →
  w_tcp w !! k = Some q → conn_select local foreign (conns w) = Some k →
  tcp_unicast (ep_addr foreign) (ep_addr local) ifc = true →
  let info := TcpSegmentInfo seq ack (tcp_seg_len flg len) wnd 0 in
  text_fits info local foreign len (conns w) →
  tcp_segment seq ack flg wnd text len foreign local = Some seg →
  zlen seg = TCP_HDR_SIZE + len → bytes_ok seg → bytes_ok pad →
  ip_packet IP_PROTOCOL_TCP seg (zlen seg) peer (if_unicast ifc) id 0 = Some pkt →
  lwp (d := d) (dev := dev) (ifc := ifc) (peer := peer) (ha := ha) (w0 := w) k
    (tcp_segment_arrives info flg (take (Z.to_nat len) text ++ pad) len local foreign)
    (λ _ p L s, L = [MutexTcp] ∧ P p s) q [MutexTcp] [] →
  wp (ip_input ip_handlers (pkt ++ pad) (zlen (pkt ++ pad)) d) (λ _ w', stack_keeps w w' ∧ w_net w' = w_net w
    ∧ w_arp w' = w_arp w
    ∧ tcp_answers d dev ifc peer ha k q local foreign info flg (take (Z.to_nat len) text) P w w') w.
Proof.
  intros Hlink Hloc Hfor Hs Ha Hf Hw Hl Hfo Hok Hlen Hmax Hid Hq Hsel Huni info Hfit Eseg Zseg Oseg Hpad Epkt Harr.
  pose proof (th_host _ _ _ _ _ (tl_host _ _ _ _ _ _ _ Hlink)) as Hip. pose proof (ih_ok _ _ _ _ _ Hip) as Hwok.
  pose proof (ih_dev _ _ _ _ _ Hip) as Hd. destruct (ip_host_u32 _ _ _ _ _ Hip) as [Hu _].
  pose proof (tl_peer _ _ _ _ _ _ _ Hlink) as [Hpu _].
  pose proof (tl_tcp _ _ _ _ _ _ _ Hlink) as (kp&pr&Hfind&Hhan). unfold TCP_HDR_SIZE in Zseg.
  apply (wp_eq _ (tcp_input (seg ++ pad) (TCP_HDR_SIZE + len) (ep_addr foreign) (ep_addr local) i)).
  { rewrite (ip_input_packet ip_handlers IP_PROTOCOL_TCP seg (zlen seg) peer (if_unicast ifc) id pkt pad
      d dev i ifc w); try done; try (unfold IP_HDR_SIZE_MIN, IP_TOTAL_SIZE_MAX; lia);
      [|intros j; by eapply stack_ifaces_live|apply Hip].
    unfold ip_for. rewrite Z.eqb_refl. cbn [orb]. rewrite Hfind, Hhan. cbn [ip_handlers].
    rewrite take_zlen by lia. by rewrite Hloc, Hfor, Zseg. }
  eapply wp_mono; [eapply (tcp_input_link Hlink (k := k) q seq ack flg wnd text len local foreign seg pad P);
    try done; change TCP_TEXT_MAX with 65495; lia|].
  by intros [] w' (_&?).
Qed.

(** A frame with a segment of the peer, from the wire to the block it is
    for, and the frames that answer it. *)
Lemma tcp_frame_received d i dev ifc peer ha k q mac seq ack flg wnd text len local foreign seg id pkt
    (P : tcp_pcb → list bytes → Prop) w :
  writes_whole → never_fails → polls_succeed → tcp_link d i dev ifc peer ha w →
  length mac = 6%nat → bytes_ok mac → ep_addr local = if_unicast ifc → ep_addr foreign = peer →
  is_u32 seq → is_u32 ack → is_u8 flg → is_u16 wnd → endpoint_ok local → endpoint_ok foreign →
  bytes_ok text → 0 <= len <= zlen text → 40 + len <= 1500 → is_u16 id →
  w_tcp w !! k = Some q → conn_select local foreign (conns w) = Some k →
  tcp_unicast (ep_addr foreign) (ep_addr local) ifc = true →
  let info := TcpSegmentInfo seq ack (tcp_seg_len flg len) wnd 0 in
  text_fits info local foreign len (conns w) →
  tcp_segment seq ack flg wnd text len foreign local = Some seg →
  ip_packet IP_PROTOCOL_TCP seg (zlen seg) peer (if_unicast ifc) id 0 = Some pkt →
  (∀ w1 data, tcp_link d i dev ifc peer ha w1 → w_tcp w1 = w_tcp w → bytes_ok data → len <= zlen data →
     lwp (d := d) (dev := dev) (ifc := ifc) (peer := peer) (ha := ha) (w0 := w1) k
       (tcp_segment_arrives info flg data len local foreign)
       (λ _ p L s, L = [MutexTcp] ∧ P p s) q [MutexTcp] []) →
  wp (ether_receive d (ether_wire mac (hw_addr dev) NET_PROTOCOL_TYPE_IP pkt)) (λ _ w',
    tcp_link d i dev ifc peer ha w'
    ∧ tcp_answers d dev ifc peer ha k q local foreign info flg (take (Z.to_nat len) text) P w w') w.
Proof.
  intros Hwr Hnf Hpoll Hlink Lm Hm Hloc Hfor Hs Ha Hf Hw Hl Hfo Hok Hlen Hmax Hid Hq Hsel Huni info Hfit
    Eseg Epkt Harr.
  pose proof (tl_host _ _ _ _ _ _ _ Hlink) as Hh. pose proof (th_host _ _ _ _ _ Hh) as Hip.
  pose proof (ih_ok _ _ _ _ _ Hip) as Hwok. destruct (ip_host_u32 _ _ _ _ _ Hip) as [Hu _].
  pose proof (tl_peer _ _ _ _ _ _ _ Hlink) as [Hpu _]. destruct (ip_host_dev _ _ _ _ _ Hip) as (_&_&Haddr&_).
  destruct (tcp_segment_read seq ack flg wnd text len foreign local [])
    as (seg'&_&_&E1&Zseg&Oseg&_); try done; [by apply Forall_nil_2|change TCP_TEXT_MAX with 65495; lia|].
  rewrite Eseg in E1. injection E1 as <-. unfold TCP_HDR_SIZE in Zseg.
  assert (IP_HDR_SIZE_MIN + zlen seg <= IP_TOTAL_SIZE_MAX) as Htot
    by (unfold IP_HDR_SIZE_MIN, IP_TOTAL_SIZE_MAX; lia).
  destruct (ip_packet_ok IP_PROTOCOL_TCP seg (zlen seg) peer (if_unicast ifc) id pkt) as [Zp Op];
    try done; [lia|]. unfold IP_HDR_SIZE_MIN in Zp.
  eapply wp_mono; [eapply (ether_receive_wp d i dev ifc _ _ _ _ HandlerIp (λ w', w_arp w' = w_arp w
    ∧ ip_tables (w_ip w') = ip_tables (w_ip w)
    ∧ tcp_answers d dev ifc peer ha k q local foreign info flg (take (Z.to_nat len) text) P w w')); try done|].
  - by eapply hw_addr_length.
  - by apply Forall_take.
  - lia.
  - by left.
  - apply Hip.
  - intros w1 Hh1 Ha1 _ Hw1 Hi1 Ht1. cbn [net_handlers].
    set (pad := replicate (Z.to_nat (46 - zlen pkt)) 0).
    assert (bytes_ok pad) as Hpad by (by apply Forall_replicate).
    pose proof (th_host _ _ _ _ _ Hh1) as Hip1. pose proof (ih_ok _ _ _ _ _ Hip1) as Hok1.
    assert (tcp_link d i dev ifc peer ha w1) as Hlink1
      by (eapply tcp_link_step; [done|done|by rewrite Hi1|done]).
    assert (conns w1 = conns w) as Hc1 by (unfold conns; by rewrite Ht1).
    eapply wp_mono; [eapply (tcp_packet_received d i dev ifc peer ha k q seq ack flg wnd text len local foreign
      seg id pkt pad P w1); rewrite ?Ht1, ?Hc1; try done|].
    + apply Harr; try done.
      * apply bytes_ok_app. split; [by apply Forall_take|done].
      * unfold zlen in *. rewrite length_app, length_take. lia.
    + intros [] w' (Hk&Hn&Ha'&(q'&segs&frames&E1&E2&E3&E4&E5)).
      split_and!; [done|rewrite Hn; apply Hip1|congruence| |].
      * rewrite <- Hi1. apply Hk.
      * exists q', segs, frames. rewrite <- Ht1, <- Hw1. by split_and!.
  - intros [] w' (Hh'&Ha'&Hi'&Hans). split; [by eapply tcp_link_step|done].
Qed.

(** ** Text *)

Lemma text_seg_len (text : bytes) : tcp_seg_len (Z.lor TCP_FLG_ACK TCP_FLG_PSH) (zlen text) = zlen text.
Proof. change (zlen text + 0 + 0 = zlen text). lia. Qed.

(** A segment with text that is answered with an acknowledgement, and leaves
    [got] behind what is unread. *)
Lemma stream_frame_received d i dev ifc mac peer ha j q c0 ack wnd num seq seq' text got local foreign seg id pkt w :
  writes_whole → never_fails → polls_succeed → tcp_link d i dev ifc peer ha w →
  length mac = 6%nat → bytes_ok mac → ep_addr local = if_unicast ifc → ep_addr foreign = peer →
  endpoint_ok local → endpoint_ok foreign → is_u32 ack → is_u16 wnd →
  w_tcp w !! j = Some q → stream_at c0 local foreign j i ack seq (abs q) w →
  bytes_ok text → zlen text <= 1460 → is_u32 num → is_u16 id →
  let info := TcpSegmentInfo num ack (zlen text) wnd 0 in
  let flg := Z.lor TCP_FLG_ACK TCP_FLG_PSH in
  text_fits info local foreign (zlen text) (conns w) →
  tcp_segment num ack flg wnd text (zlen text) foreign local = Some seg →
  ip_packet IP_PROTOCOL_TCP seg (zlen seg) peer (if_unicast ifc) id 0 = Some pkt →
  (∀ w1 data, tcp_link d i dev ifc peer ha w1 → w_tcp w1 = w_tcp w → bytes_ok data → zlen text <= zlen data →
     lwp (d := d) (dev := dev) (ifc := ifc) (peer := peer) (ha := ha) (w0 := w1) j
       (tcp_segment_arrives info flg data (zlen text) local foreign)
       (λ _ p L s, L = [MutexTcp] ∧ same_wait p q
          ∧ ∃ reply, tcp_emits p TCP_FLG_ACK [] 0 = Some reply ∧ s = [reply]) q [MutexTcp] []) →
  (∀ c', conn_arrival info flg text local foreign (abs q) c' →
     stream_conn c0 local foreign ack seq' c' ∧ c_unread c' = c_unread (abs q) ++ got) →
  wp (ether_receive d (ether_wire mac (hw_addr dev) NET_PROTOCOL_TYPE_IP pkt)) (λ _ w',
    tcp_link d i dev ifc peer ha w' ∧ ∃ q', w_tcp w' !! j = Some q'
    ∧ stream_at c0 local foreign j i ack seq' (abs q') w'
    ∧ tcp_unread q' = tcp_unread q ++ got ∧ same_wait q' q
    ∧ ∃ reply frame, tcp_emits q' TCP_FLG_ACK [] 0 = Some reply ∧ tcp_carries dev ifc peer ha reply frame
      ∧ y_wire (w_sys w') = y_wire (w_sys w) ++ [(d, frame)]) w.
Proof.
  intros Hwr Hnf Hpoll Hlink Lm Hm Hloc Hfor Hl Hfo Hack Hwnd Hq Hat Hok Hlen Hnum Hid info flg Hfit Eseg Epkt
    Hrun Hspec.
  pose proof Hat as [Hr (ifc'&Hif&Huni) Hsel Hc Hst]. pose proof (zlen_nonneg text).
  pose proof (th_host _ _ _ _ _ (tl_host _ _ _ _ _ _ _ Hlink)) as Hip.
  rewrite (ih_ifc _ _ _ _ _ Hip) in Hif. injection Hif as <-.
  pose proof (st_state _ _ _ _ _ _ Hst) as Est. cbn in Est.
  eapply wp_mono; [eapply (tcp_frame_received d i dev ifc peer ha j q mac num ack flg wnd text (zlen text) local
    foreign seg id pkt (λ p s, same_wait p q ∧ ∃ reply, tcp_emits p TCP_FLG_ACK [] 0 = Some reply
       ∧ s = [reply])); try done|].
  - lia.
  - unfold flg. by rewrite text_seg_len.
  - intros w1 data. unfold flg. rewrite text_seg_len. by apply Hrun.
  - intros [] w' (Hlink'&q'&segs&frames&Et&Harr&(Hc0&reply&Er&->)&Hwire&Hall).
    apply Forall2_cons_inv_l in Hall as (frame&frames'&Hc1&Hall&->). apply Forall2_nil_inv_l in Hall as ->.
    assert (w_tcp w' !! j = Some q') as Hq'.
    { rewrite Et. apply list_lookup_insert_eq. by eapply lookup_lt_Some. }
    unfold flg in Harr. rewrite take_zlen, text_seg_len in Harr by lia. apply Hspec in Harr as [Hst' Hu].
    split; [done|]. exists q'. split_and!; [done| | |done|by exists reply, frame].
    + constructor; try done.
      * by apply stack_tcp_ready, (th_host _ _ _ _ _ (tl_host _ _ _ _ _ _ _ Hlink')).
      * exists ifc. split; [apply (th_host _ _ _ _ _ (tl_host _ _ _ _ _ _ _ Hlink'))|done].
      * unfold conns. rewrite Et, list_fmap_insert. apply conn_select_insert; [done|apply Hst'].
      * by apply conns_lookup.
    + cbn in Hu. rewrite Est in Hu. pose proof (st_state _ _ _ _ _ _ Hst') as Est'. cbn in Est'.
      by rewrite Est' in Hu.
Qed.

(** The next segment of the stream. *)
Lemma text_frame_received d i dev ifc mac peer ha j q c0 ack wnd seq text local foreign seg id pkt w :
  writes_whole → never_fails → polls_succeed → tcp_link d i dev ifc peer ha w →
  length mac = 6%nat → bytes_ok mac → ep_addr local = if_unicast ifc → ep_addr foreign = peer →
  endpoint_ok local → endpoint_ok foreign → is_u32 ack → is_u16 wnd →
  c_local c0 = local → c_foreign c0 = foreign →
  w_tcp w !! j = Some q → stream_at c0 local foreign j i ack seq (abs q) w →
  bytes_ok text → 0 < zlen text <= 1460 → zlen (tcp_unread q) + zlen text <= TCP_BUFSIZ →
  0 <= seq → seq + TCP_BUFSIZ < 2 ^ 32 → is_u16 id →
  tcp_segment seq ack (Z.lor TCP_FLG_ACK TCP_FLG_PSH) wnd text (zlen text) foreign local = Some seg →
  ip_packet IP_PROTOCOL_TCP seg (zlen seg) peer (if_unicast ifc) id 0 = Some pkt →
  wp (ether_receive d (ether_wire mac (hw_addr dev) NET_PROTOCOL_TYPE_IP pkt)) (λ _ w',
    tcp_link d i dev ifc peer ha w' ∧ ∃ q', w_tcp w' !! j = Some q'
    ∧ stream_at c0 local foreign j i ack (seq + zlen text) (abs q') w'
    ∧ tcp_unread q' = tcp_unread q ++ text ∧ same_wait q' q
    ∧ ∃ reply frame, tcp_emits q' TCP_FLG_ACK [] 0 = Some reply ∧ tcp_carries dev ifc peer ha reply frame
      ∧ y_wire (w_sys w') = y_wire (w_sys w) ++ [(d, frame)]) w.
Proof.
  intros Hwr Hnf Hpoll Hlink Lm Hm Hloc Hfor Hl Hfo Hack Hwnd Hl0 Hf0 Hq Hat Hok Hlen Hroom Hseq Hwrap Hid Eseg Epkt.
  pose proof Hat as [Hr _ Hsel Hc Hst]. pose proof (tcp_inv_pcb _ _ _ (tr_inv _ Hr) Hq) as Hpok.
  pose proof (st_state _ _ _ _ _ _ Hst) as Est. cbn in Est.
  assert (conn_rwnd (abs q) = rcv_wnd q) as Erw by (apply conn_rwnd_abs; [done|by rewrite Est]).
  rewrite zlen_tcp_unread in Hroom by done.
  assert (zlen text <= conn_rwnd (abs q)) as Hfits by lia.
  eapply (stream_frame_received d i dev ifc mac peer ha j q c0 ack wnd seq seq _ text text); try done.
  - lia.
  - unfold TCP_BUFSIZ in *. ulia.
  - intros j' c' Hj Hc' _. assert (c' = abs q) as -> by congruence. lia.
  - intros w1 data Hlink1 Ht1 Hdok Hdl.
    eapply lwp_mono; [eapply (established_lwp Hwr Hlink1); try done|].
    + by rewrite Ht1.
    + unfold conns. by rewrite Ht1.
    + unfold seg_ok. cbn. unfold TCP_BUFSIZ in *. split_and!; ulia.
    + by eapply stream_acceptable.
    + cbn. apply Hst.
    + lia.
    + pose proof (sk_local _ _ (st_kept _ _ _ _ _ _ Hst)) as E. cbn in E. by rewrite E, Hl0.
    + pose proof (sk_foreign _ _ (st_kept _ _ _ _ _ _ Hst)) as E. cbn in E. by rewrite E, Hf0.
    + intros [] p L s (->&Hc0&Hs). destruct (Z.eqb_spec (zlen text) 0); [lia|]. exact (conj eq_refl (conj Hc0 Hs)).
  - intros c' Harr. rewrite <- (text_seg_len text) in Harr.
    apply (stream_deliver c0) in Harr; try done. change TCP_TEXT_MAX with 65495. lia.
Qed.

(** The frames of consecutive texts, with the sequence numbers from [seq]
    on. *)
Fixpoint text_frames (carries : bytes → bytes → Prop) (local foreign : ip_endpoint) (ack wnd seq : Z)
    (texts frames : list bytes) : Prop :=
  match texts, frames with
  | [], [] => True
  | text :: texts, frame :: frames =>
      (∃ seg, tcp_segment seq ack (Z.lor TCP_FLG_ACK TCP_FLG_PSH) wnd text (zlen text) local foreign = Some seg
         ∧ carries seg frame)
      ∧ text_frames carries local foreign ack wnd (seq + zlen text) texts frames
  | _, _ => False
  end.

(** The numbers that acknowledge them. *)
Fixpoint text_acks (seq : Z) (texts : list bytes) : list Z :=
  match texts with
  | [] => []
  | text :: texts => (seq + zlen text) :: text_acks (seq + zlen text) texts
  end.

(** The frames of acknowledgements of [acks], with the sequence number [n]. *)
Definition ack_frames (carries : bytes → bytes → Prop) (local foreign : ip_endpoint) (n : Z)
  : list Z → list bytes → Prop :=
  Forall2 (λ a frame, ∃ wnd seg, is_u16 wnd
    ∧ tcp_segment n a TCP_FLG_ACK wnd [] 0 local foreign = Some seg ∧ carries seg frame).

(** What acknowledges the stream as far as [seq]. *)
Lemma stream_reply c0 i j local foreign ack seq q reply w :
  c_local c0 = local → c_foreign c0 = foreign → w_tcp w !! j = Some q →
  stream_at c0 local foreign j i ack seq (abs q) w → tcp_emits q TCP_FLG_ACK [] 0 = Some reply →
  is_u16 (rcv_wnd q) ∧ tcp_segment (c_nxt c0) seq TCP_FLG_ACK (rcv_wnd q) [] 0 local foreign = Some reply.
Proof.
  intros Hl0 Hf0 Hq Hat Er.
  pose proof (tcp_inv_pcb _ _ _ (tr_inv _ (sa_ready _ _ _ _ _ _ _ _ _ Hat)) Hq) as [_ _ _ _ _ _ (_&?) _ _].
  pose proof (sa_conn _ _ _ _ _ _ _ _ _ Hat) as [_ _ Hr1 _ [K1 K2 K3 _ _ _]]. cbn in Hr1, K1, K2, K3.
  split; [done|]. rewrite <- Er. unfold tcp_emits.
  change (TCP_FLG_ISSET TCP_FLG_ACK TCP_FLG_SYN) with false. cbv iota. by rewrite Hr1, K1, K2, K3, Hl0, Hf0.
Qed.

Lemma stream_end c0 i j ifc local foreign ack seq q w :
  c_local c0 = local → c_foreign c0 = foreign → w_tcp w !! j = Some q →
  stream_at c0 local foreign j i ack seq (abs q) w → n_ifs (w_net w) !! i = Some ifc →
  tcp_end i ifc j local foreign q w.
Proof.
  intros Hl Hf Hq [Hr (ifc'&Hif&Huni) Hsel _ [_ _ _ _ [K1 K2 _ _ _ _]]] Hi.
  cbn in K1, K2. constructor; try done; congruence.
Qed.

(** The texts arrive, one after the other, and each is acknowledged. *)
Lemma text_frames_received d i dev ifc devA ifcA ha j c0 ack wnd local foreign texts frames : ∀ seq q w,
  writes_whole → never_fails → polls_succeed → tcp_link d i dev ifc (if_unicast ifcA) ha w →
  length (hw_addr devA) = 6%nat → bytes_ok (hw_addr devA) →
  ep_addr local = if_unicast ifc → ep_addr foreign = if_unicast ifcA →
  endpoint_ok local → endpoint_ok foreign → is_u32 ack → is_u16 wnd →
  c_local c0 = local → c_foreign c0 = foreign →
  w_tcp w !! j = Some q → stream_at c0 local foreign j i ack seq (abs q) w →
  bytes_ok (mjoin texts) → Forall (λ text, 0 < zlen text <= 1460) texts →
  zlen (tcp_unread q) + zlen (mjoin texts) <= TCP_BUFSIZ →
  0 <= seq → seq + zlen (mjoin texts) + TCP_BUFSIZ < 2 ^ 32 →
  text_frames (tcp_carries devA ifcA (if_unicast ifc) (hw_addr dev)) foreign local ack wnd seq texts frames →
  wp (for_each frames (ether_receive d)) (λ _ w',
    tcp_link d i dev ifc (if_unicast ifcA) ha w' ∧ ∃ q' acks, w_tcp w' !! j = Some q'
    ∧ stream_at c0 local foreign j i ack (seq + zlen (mjoin texts)) (abs q') w'
    ∧ tcp_unread q' = tcp_unread q ++ mjoin texts ∧ same_wait q' q
    ∧ y_wire (w_sys w') = y_wire (w_sys w) ++ (pair d <$> acks)
    ∧ ack_frames (tcp_carries dev ifc (if_unicast ifcA) ha) local foreign (c_nxt c0) (text_acks seq texts) acks) w.
Proof.
  revert frames. induction texts as [|text texts IH]; intros [|frame frames] seq q w Hwr Hnf Hpoll Hlink Lm Hm
    Hloc Hfor Hl Hfo Hack Hwnd Hl0 Hf0 Hq Hat Hok Hlens Hroom Hseq Hwrap Htf; try done.
  { cbn [for_each]. wp_step. split; [done|]. exists q, []. change (mjoin []) with (@nil Z).
    change (zlen []) with 0. rewrite Z.add_0_r, !app_nil_r. by split_and!; [..|constructor]. }
  change (mjoin (text :: texts)) with (text ++ mjoin texts) in *. rewrite zlen_app in *.
  apply bytes_ok_app in Hok as [Hok1 Hok2]. apply Forall_cons in Hlens as [Hlen Hlens].
  destruct Htf as [(seg&Eseg&id&pkt&Hid&Epkt&->) Htf]. pose proof (zlen_nonneg (mjoin texts)).
  cbn [for_each]. apply wp_bind.
  eapply wp_mono; [eapply (text_frame_received d i dev ifc _ _ ha j q c0 ack wnd seq text local foreign seg id pkt);
    try done; lia|].
  intros [] w1 (Hlink1&q1&Hq1&Hat1&Hu1&Hs1&reply&frame&Er&Hc&Hw1).
  eapply wp_mono; [apply (IH frames (seq + zlen text) q1 w1); try done; try lia|].
  { rewrite Hu1, zlen_app. lia. }
  intros [] w2 (Hlink2&q2&acks&Hq2&Hat2&Hu2&Hs2&Hw2&Hacks). split; [done|]. exists q2, (frame :: acks).
  rewrite Z.add_assoc. split_and!; [done|done|by rewrite Hu2, Hu1, app_assoc|by etrans| |].
  { rewrite Hw2, Hw1, <- app_assoc. done. }
  cbn [text_acks]. constructor; [|done]. exists (rcv_wnd q1), reply.
  destruct (stream_reply c0 i j local foreign ack (seq + zlen text) q1 reply w1) as [Hw Es]; [done..|]. exact (conj Hw (conj Es Hc)).
Qed.

(** ** Acknowledgements *)

(** An established connection that has sent up to [nxt], expects [m], and has
    nothing to send again once everything is acknowledged. *)
Record awaiting (una nxt m : Z) (c : conn) : Prop := Awaiting {
  aw_state : c_state c = TCP_PCB_STATE_ESTABLISHED;
  aw_una : c_una c = una;
  aw_nxt : c_nxt c = nxt;
  aw_rcv : c_rcv c = m;
  aw_before : Forall (λ e, e.1.1 < nxt) (c_rexmit c);
  aw_done : una = nxt → c_rexmit c = []
}.

Lemma conn_unacked_Forall (P : Z * Z * bytes → Prop) una q : Forall P q → Forall P (conn_unacked una q).
Proof. induction 1 as [|e q He Hq IH]; cbn; [done|]. by destruct (_ >=? _); [constructor|]. Qed.

Lemma awaiting_acked local foreign una nxt m a wnd c c' :
  awaiting una nxt m c → una <= a <= nxt → 0 <= m → m + TCP_BUFSIZ < 2 ^ 32 → 0 <= conn_rwnd c →
  conn_arrival (TcpSegmentInfo m a 0 wnd 0) TCP_FLG_ACK [] local foreign c c' →
  awaiting a nxt m c' ∧ conn_room c' = conn_room c.
Proof.
  intros Haw Ha Hm Hwrap Hrw Harr. pose proof Haw as [A1 A2 A3 A4 A5 _].
  destruct (Z.eq_dec a una) as [->|Hne].
  { eapply established_repeated in Harr as ->; [by split|done..|lia|done|done|done|done]. }
  eapply established_acked in Harr as (E1&E2&E3&E4&E5&E6); [|done|done|lia|done..].
  split; [|done]. constructor; [done|done|congruence|done|rewrite E5; by apply conn_unacked_Forall|].
  intros ->. rewrite E5. by apply conn_unacked_all.
Qed.

Lemma link_end_step d i dev ifc peer ha k q q' l f w w' :
  tcp_end i ifc k l f q w → tcp_link d i dev ifc peer ha w' → w_tcp w' = <[k := q']> (w_tcp w) →
  tp_local q' = tp_local q → tp_foreign q' = tp_foreign q → tcp_end i ifc k l f q' w'.
Proof.
  intros [Hr Hp Hl Hf Hs Hi Hu] Hlink Et El Ef.
  pose proof (th_host _ _ _ _ _ (tl_host _ _ _ _ _ _ _ Hlink)) as Hip.
  split; try done; [by apply stack_tcp_ready, Hip| |congruence|congruence| |apply Hip].
  - rewrite Et. apply list_lookup_insert_eq. by eapply lookup_lt_Some.
  - unfold conns. rewrite Et, list_fmap_insert. apply conn_select_insert; [done|].
    unfold conn_exact, conn_local_matches. cbn. by rewrite El, Ef, Hl, Hf, !Z.eqb_refl, orb_true_r.
Qed.

Lemma link_tcp_end d i dev ifc peer ha k q q' l f w w' :
  tcp_end i ifc k l f q w → tcp_link d i dev ifc peer ha w' → w_tcp w' = <[k := q']> (w_tcp w) →
  conn_room (abs q') = conn_room (abs q) → tcp_end i ifc k l f q' w'.
Proof. intros He Hlink Et [= El Ef _]. by eapply link_end_step. Qed.

(** One acknowledgement; nothing is sent. *)
Lemma ack_frame_received d i dev ifc mac peer ha k q local foreign una nxt m a wnd seg id pkt w :
  writes_whole → never_fails → polls_succeed → tcp_link d i dev ifc peer ha w →
  length mac = 6%nat → bytes_ok mac → ep_addr local = if_unicast ifc → ep_addr foreign = peer →
  tcp_end i ifc k local foreign q w → awaiting una nxt m (abs q) → una <= a <= nxt → is_u32 nxt →
  0 <= una → 0 <= m → m + TCP_BUFSIZ < 2 ^ 32 → is_u16 wnd → is_u16 id →
  tcp_segment m a TCP_FLG_ACK wnd [] 0 foreign local = Some seg →
  ip_packet IP_PROTOCOL_TCP seg (zlen seg) peer (if_unicast ifc) id 0 = Some pkt →
  wp (ether_receive d (ether_wire mac (hw_addr dev) NET_PROTOCOL_TYPE_IP pkt)) (λ _ w',
    tcp_link d i dev ifc peer ha w' ∧ y_wire (w_sys w') = y_wire (w_sys w)
    ∧ ∃ q', tcp_end i ifc k local foreign q' w' ∧ awaiting a nxt m (abs q') ∧ same_wait q' q
      ∧ conn_room (abs q') = conn_room (abs q)) w.
Proof.
  intros Hwr Hnf Hpoll Hlink Lm Hm6 Hloc Hfor He Haw Ha Hnxt Huna Hm Hwrap Hwnd Hid Eseg Epkt.
  pose proof He as [Hr Hp Hl Hf Hsel _ Huni]. pose proof (tcp_end_ok _ _ _ _ _ _ _ He) as Hpok.
  pose proof Hpok as [_ Hlo Hfo _ _ _ _ _ _]. rewrite Hl in Hlo. rewrite Hf in Hfo.
  pose proof (conn_rwnd_nonneg _ Hpok) as Hrw. pose proof Haw as [A1 A2 A3 A4 _ _].
  cbn in A1, A2, A3, A4. unfold TCP_BUFSIZ in Hwrap.
  eapply wp_mono; [eapply (tcp_frame_received d i dev ifc peer ha k q mac m a TCP_FLG_ACK wnd [] 0 local
    foreign seg id pkt (λ p s, same_wait p q ∧ s = [])); try done|].
  - ulia.
  - ulia.
  - by apply Forall_nil_2.
  - apply text_fits_0, Hr.
  - intros w1 data Hlink1 Ht1 Hdok Hdl. change (tcp_seg_len TCP_FLG_ACK 0) with 0.
    eapply lwp_mono; [eapply (established_lwp Hwr Hlink1); try done|].
    + by rewrite Ht1.
    + unfold conns. by rewrite Ht1.
    + unfold seg_ok. cbn. split_and!; ulia.
    + apply acceptable_next; cbn; try done; try lia; [rewrite A1; by right; left|unfold TCP_BUFSIZ; lia].
    + cbn. lia.
    + destruct (tpo_rcv _ Hpok) as [_ ?]. ulia.
    + by rewrite Hl.
    + by rewrite Hf.
    + by intros [] p L s (->&Hw&Hs).
  - intros [] w' (Hlink'&q'&segs&frames&Et&Harr&[Hsame ->]&Hwire&Hall). apply Forall2_nil_inv_l in Hall as ->.
    eapply awaiting_acked in Harr as [Haw' Hroom]; [|done..|unfold TCP_BUFSIZ; lia|done].
    rewrite app_nil_r in Hwire. split_and!; [done|done|]. exists q'. split_and!; [by eapply link_tcp_end|done..].
Qed.

(** Acknowledgements that never go back, from [una] to [nxt]. *)
Fixpoint acks_up (una nxt : Z) (acks : list Z) : Prop :=
  match acks with
  | [] => una = nxt
  | a :: acks => una <= a <= nxt ∧ acks_up a nxt acks
  end.

Lemma text_acks_up seq texts : acks_up seq (seq + zlen (mjoin texts)) (text_acks seq texts).
Proof.
  revert seq. induction texts as [|text texts IH]; intros seq; cbn [text_acks acks_up].
  { change (zlen (mjoin [])) with 0. lia. }
  change (mjoin (text :: texts)) with (text ++ mjoin texts). rewrite zlen_app, Z.add_assoc. split; [|apply IH].
  pose proof (zlen_nonneg text). pose proof (zlen_nonneg (mjoin texts)). lia.
Qed.

Lemma ack_frames_received d i dev ifc devB ifcB ha k local foreign nxt m acks frames : ∀ una q w,
  writes_whole → never_fails → polls_succeed → tcp_link d i dev ifc (if_unicast ifcB) ha w →
  length (hw_addr devB) = 6%nat → bytes_ok (hw_addr devB) →
  ep_addr local = if_unicast ifc → ep_addr foreign = if_unicast ifcB →
  tcp_end i ifc k local foreign q w → awaiting una nxt m (abs q) → acks_up una nxt acks → is_u32 nxt →
  0 <= una → 0 <= m → m + TCP_BUFSIZ < 2 ^ 32 →
  ack_frames (tcp_carries devB ifcB (if_unicast ifc) (hw_addr dev)) foreign local m acks frames →
  wp (for_each frames (ether_receive d)) (λ _ w',
    tcp_link d i dev ifc (if_unicast ifcB) ha w' ∧ y_wire (w_sys w') = y_wire (w_sys w)
    ∧ ∃ q', tcp_end i ifc k local foreign q' w' ∧ awaiting nxt nxt m (abs q') ∧ same_wait q' q
      ∧ conn_room (abs q') = conn_room (abs q)) w.
Proof.
  revert frames. induction acks as [|a acks IH]; intros frames una q w Hwr Hnf Hpoll Hlink Lm Hm6
    Hloc Hfor He Haw Hup Hu Huna Hm Hwrap Haf.
  { apply Forall2_nil_inv_l in Haf as ->. cbn [for_each]. wp_step. cbn in Hup. subst una.
    split_and!; [done|done|]. exists q. by split_and!. }
  apply Forall2_cons_inv_l in Haf as (frame&frames'&(wnd&seg&Hwnd&Eseg&id&pkt&Hid&Epkt&->)&Haf&->).
  destruct Hup as [Ha Hup]. cbn [for_each]. apply wp_bind.
  eapply wp_mono; [eapply (ack_frame_received d i dev ifc _ _ ha k q local foreign una nxt m a wnd seg id pkt);
    try done; lia|].
  intros [] w1 (Hlink1&Hw1&q1&He1&Haw1&Hs1&Hroom1).
  eapply wp_mono; [apply (IH frames' a q1 w1); (done || lia)|].
  intros [] w2 (Hlink2&Hw2&q2&Hq2&Haw2&Hs2&Hroom2). split_and!; [done|congruence|]. exists q2.
  split_and!; [done|done|by etrans|congruence].
Qed.

(** ** The sender *)

Lemma queue_text_frames carries p texts : ∀ seq queue segs frames,
  Forall tcp_entry_ok queue → entry_abs <$> queue = segments seq texts →
  Forall2 (entry_emitted p) queue segs → Forall2 carries segs frames →
  text_frames carries (tp_local p) (tp_foreign p) (rcv_nxt p) (rcv_wnd p) seq texts frames.
Proof.
  induction texts as [|text texts IH]; intros seq queue segs frames Hok Eq Hem Hc.
  { apply fmap_nil_inv in Eq as ->. apply Forall2_nil_inv_l in Hem as ->. by apply Forall2_nil_inv_l in Hc as ->. }
  destruct queue as [|e queue]; [done|]. injection Eq as E1 E2 E3 Eq.
  apply Forall_cons in Hok as [(_&_&_&_&_&_&Hz&_) Hok].
  apply Forall2_cons_inv_l in Hem as (seg&segs'&He&Hem&->).
  apply Forall2_cons_inv_l in Hc as (frame&frames'&Hf&Hc&->). cbn [text_frames]. split; [|by eapply IH].
  exists seg. split; [|done]. unfold entry_emitted in He. by rewrite E1, E2, <- Hz, E3 in He.
Qed.

(** From [w] to [w'], the host has sent [data] on the connection, in one frame
    for each segment it keeps. *)
Definition link_sent d i dev ifc ha k (local foreign : ip_endpoint) p data w w' : Prop :=
  tcp_link d i dev ifc (ep_addr foreign) ha w' ∧ ∃ p' texts frames, tcp_end i ifc k local foreign p' w'
  ∧ same_wait p' p
  ∧ abs p' = set_c_nxt (snd_nxt p + zlen data) (set_c_rexmit (segments (snd_nxt p) texts) (abs p))
  ∧ mjoin texts = data ∧ Forall (λ text, 0 < zlen text <= 1460) texts
  ∧ y_wire (w_sys w') = y_wire (w_sys w) ++ (pair d <$> frames)
  ∧ text_frames (tcp_carries dev ifc (ep_addr foreign) ha) local foreign (rcv_nxt p') (rcv_wnd p')
      (snd_nxt p) texts frames.

(** The frames of a command that sends, from a connection with nothing to
    retransmit. *)
Lemma link_sends {A} (m : C A) (P : A → Prop) d i dev ifc ha k local foreign p data w :
  tcp_link d i dev ifc (ep_addr foreign) ha w → tcp_end i ifc k local foreign p w → tp_queue p = [] →
  lwp (d := d) (dev := dev) (ifc := ifc) (peer := ep_addr foreign) (ha := ha) (w0 := w) k m
    (λ r q L segs, P r ∧ L = locked w ∧ texts_sent data p q ∧ Forall2 (entry_emitted q) (tp_queue q) segs)
    p (locked w) [] →
  wp m (λ r w', P r ∧ link_sent d i dev ifc ha k local foreign p data w w') w.
Proof.
  intros Hlink He Hq Hm. eapply wp_mono; [eapply (link_run Hlink); [apply He|exact Hm]|].
  intros r w' (p'&L&segs&Hls&HP&->&[Hsame (texts&Et&Hft&E)]&Hem). split; [done|].
  assert (tcp_link d i dev ifc (ep_addr foreign) ha w') as Hlink' by (by eapply link_after).
  pose proof Hls as [_ (_&_&Htouch) _ _ _ (frames&Hwire&Hc)]. cbn in E. rewrite Hq in E. cbn [fmap list_fmap app] in E.
  assert (tcp_end i ifc k local foreign p' w') as He'
    by (eapply link_end_step; [done|done|done|exact (f_equal c_local E)|exact (f_equal c_foreign E)]).
  split; [done|]. exists p', texts, frames. split_and!; try done.
  pose proof (tcp_end_ok _ _ _ _ _ _ _ He') as [_ _ _ _ _ _ _ _ Hqok].
  pose proof (queue_text_frames _ p' texts (snd_nxt p) _ _ _ Hqok (f_equal c_rexmit E) Hem Hc) as Htf.
  by rewrite (te_local _ _ _ _ _ _ _ He'), (te_foreign _ _ _ _ _ _ _ He') in Htf.
Qed.

(** [tcp_send] is such a command. *)
Lemma tcp_send_frames d i dev ifc ha k local foreign p data w :
  writes_whole → never_fails → tcp_link d i dev ifc (ep_addr foreign) ha w →
  ep_addr local = if_unicast ifc → tcp_end i ifc k local foreign p w →
  tp_state p = TCP_PCB_STATE_ESTABLISHED → snd_una p = snd_nxt p → tp_queue p = [] →
  bytes_ok data → zlen data <= snd_wnd p → snd_nxt p + zlen data < 2 ^ 32 →
  wp (tcp_send (Z.of_nat k) data (zlen data)) (λ r w', r = Returned (zlen data)
    ∧ link_sent d i dev ifc ha k local foreign p data w w') w.
Proof.
  intros Hwr Hmem Hlink Hloc He Hst Huna Hq Hok Hwnd Hwrap. pose proof He as [Hr Hp Hl Hf _ _ _].
  pose proof (tcp_end_ok _ _ _ _ _ _ _ He) as [_ _ _ (Hn&Hu&Hw) _ _ _ _ _].
  pose proof (th_host _ _ _ _ _ (tl_host _ _ _ _ _ _ _ Hlink)) as Hip.
  pose proof (so_locked _ (ih_ok _ _ _ _ _ Hip) : locked w = []) as HL0.
  apply (link_sends _ (λ r, r = Returned (zlen data))); [done..|].
  apply (tcp_send_lwp Hwr Hlink); try done; try ulia.
  - rewrite HL0. apply not_elem_of_nil.
  - by rewrite Hl.
  - by rewrite Hf.
  - by rewrite Hq.
Qed.
End Frames.

(** What has been sent arrives and is acknowledged. *)
Lemma ethernet_exchange `{Machine} (EA EB : Env) `{!@EnvOk EA} `{!@EnvOk EB}
    dA iA devA ifcA wA wA1 dB iB devB ifcB wB i j pa pb la lb data :
  @writes_whole EA → @never_fails EA → @polls_succeed EA →
  @writes_whole EB → @never_fails EB → @polls_succeed EB →
  tcp_link dA iA devA ifcA (if_unicast ifcB) (hw_addr devB) wA →
  tcp_link dB iB devB ifcB (if_unicast ifcA) (hw_addr devA) wB →
  ep_addr la = if_unicast ifcA → ep_addr lb = if_unicast ifcB →
  tcp_end iA ifcA i la lb pa wA → tcp_end iB ifcB j lb la pb wB → tcp_synchronised pa pb →
  bytes_ok data → zlen (tcp_unread pb) + zlen data <= TCP_BUFSIZ →
  snd_nxt pa + zlen data + TCP_BUFSIZ < 2 ^ 32 → snd_nxt pb + TCP_BUFSIZ < 2 ^ 32 →
  link_sent dA iA devA ifcA (hw_addr devB) i la lb pa data wA wA1 →
  ∃ frames, y_wire (w_sys wA1) = y_wire (w_sys wA) ++ (pair dA <$> frames)
  ∧ wp (for_each frames (@ether_receive _ EB dB)) (λ _ wB1,
      tcp_link dB iB devB ifcB (if_unicast ifcA) (hw_addr devA) wB1
      ∧ ∃ pb1, tcp_end iB ifcB j lb la pb1 wB1 ∧ tcp_unread pb1 = tcp_unread pb ++ data
      ∧ same_wait pb1 pb ∧ snd_wnd pb1 = snd_wnd pb ∧ snd_nxt pb1 = snd_nxt pb
      ∧ ∃ acks, y_wire (w_sys wB1) = y_wire (w_sys wB) ++ (pair dB <$> acks)
      ∧ wp (for_each acks (@ether_receive _ EA dA)) (λ _ wA2,
          y_wire (w_sys wA2) = y_wire (w_sys wA1)
          ∧ tcp_link dA iA devA ifcA (if_unicast ifcB) (hw_addr devB) wA2
          ∧ ∃ pa2, tcp_end iA ifcA i la lb pa2 wA2 ∧ tcp_unread pa2 = tcp_unread pa ∧ same_wait pa2 pa
            ∧ snd_nxt pa2 = snd_nxt pa + zlen data ∧ tcp_synchronised pa2 pb1) wA1) wB.
Proof.
  intros HwA HnA HpA HwB HnB HpB HA HB Hla Hlb Ha Hb (A1&B1&AB&BA&A2&B2&A3&B3) Hok Hroom Hwrap Hwrap' Hsent.
  destruct (link_mac _ _ _ _ _ _ _ HA) as [LA HokA]. destruct (link_mac _ _ _ _ _ _ _ HB) as [LB HokB].
  pose proof (tcp_end_ok _ _ _ _ _ _ _ Ha) as [_ Hola _ (Hna&_) _ _ _ _ _].
  pose proof (tcp_end_ok _ _ _ _ _ _ _ Hb) as [_ Holb _ (Hnb&_) _ _ _ _ _].
  pose proof Hb as [Rb Pb Lb Fb Sb Ib Ub]. rewrite (te_local _ _ _ _ _ _ _ Ha) in Hola. rewrite Lb in Holb.
  pose proof Hwrap as Hwrap0. unfold TCP_BUFSIZ in Hwrap0. pose proof (zlen_nonneg data).
  destruct Hsent as (HA1&pa1&texts&frames&Ha1&Hs1&E&Et&Hft&Hwire&Htf). exists frames.
  split; [done|]. pose proof (tcp_end_ok _ _ _ _ _ _ _ Ha1) as [_ _ _ _ _ _ (_&Hrw) _ _].
  assert (rcv_nxt pa1 = snd_nxt pb) as Er by (pose proof (f_equal c_rcv E) as E'; cbn in E'; congruence).
  rewrite Er, Hlb in Htf. rewrite Hlb in HA1.
  eapply wp_mono; [eapply (@text_frames_received _ EB _ dB iB devB ifcB devA ifcA _ j (abs pb) (snd_nxt pb)
    (rcv_wnd pa1) lb la texts frames (snd_nxt pa) pb wB); rewrite ?Et; try done; try ulia|].
  { split; [done|by exists ifcB|done|by apply conns_lookup|]. split; cbn; try (done || lia); [].
    unfold conn_exact, conn_local_matches. cbn. by rewrite Lb, Fb, !Z.eqb_refl, orb_true_r. }
  intros [] wB1 (HB1&pb1&acks&Hpb1&Hat&Eu&Hsame&HwireB&Haf). split; [done|]. exists pb1. rewrite Et in *.
  pose proof (sa_conn _ _ _ _ _ _ _ _ _ Hat) as [D1 _ D2 D3 [K1 K2 K3 K4 K5 K6]].
  cbn in D1, D2, D3, K3, K4, K6. assert (tp_queue pb1 = []) as Q1 by (eapply fmap_nil_inv, K5; cbn; by rewrite B3).
  split_and!; [|done|done|by apply K6|done|].
  { apply (stream_end (abs pb) iB j ifcB lb la (snd_nxt pb) (snd_nxt pa + zlen data)); try done.
    apply (th_host _ _ _ _ _ (tl_host _ _ _ _ _ _ _ HB1)). }
  exists acks. split; [done|]. change (c_nxt (abs pb)) with (snd_nxt pb) in Haf.
  eapply wp_mono; [eapply (@ack_frames_received _ EA _ dA iA devA ifcA devB ifcB _ i la lb
    (snd_nxt pa + zlen data) (snd_nxt pb) _ acks (snd_nxt pa) pa1 wA1); try done; try ulia|].
  { constructor; rewrite E; cbn; try (done || lia); [|].
    - apply segments_before; [|rewrite Et; lia]. eapply Forall_impl; [exact Hft|]. cbn. lia.
    - intros Hz. destruct texts as [|text texts]; [done|]. apply Forall_cons in Hft as [Hpos _].
      change (mjoin (text :: texts)) with (text ++ mjoin texts) in Et. rewrite <- Et, zlen_app in Hz.
      pose proof (zlen_nonneg (mjoin texts)). lia. }
  { rewrite <- Et. apply text_acks_up. }
  intros [] wA2 (HA2&Hw2&pa2&Hpa2&[F1 F2 F3 F4 _ F5]&Hs2&Hroom2). split_and!; [done|done|]. exists pa2.
  specialize (F5 eq_refl). apply fmap_nil_inv in F5. cbn in F1, F2, F3, F4.
  split_and!; [done| |by etrans|done|by split_and!; try done; lia].
  rewrite E in Hroom2. unfold conn_room in Hroom2. cbn in Hroom2. rewrite F1, A1 in Hroom2. by injection Hroom2.
Qed.

Lemma ethernet_transfer `{Machine} (EA EB : Env) `{!@EnvOk EA} `{!@EnvOk EB}
    dA iA devA ifcA wA dB iB devB ifcB wB i j pa pb la lb data :
  @writes_whole EA → @never_fails EA → @polls_succeed EA →
  @writes_whole EB → @never_fails EB → @polls_succeed EB →
  tcp_link dA iA devA ifcA (if_unicast ifcB) (hw_addr devB) wA →
  tcp_link dB iB devB ifcB (if_unicast ifcA) (hw_addr devA) wB →
  ep_addr la = if_unicast ifcA → ep_addr lb = if_unicast ifcB →
  tcp_end iA ifcA i la lb pa wA → tcp_end iB ifcB j lb la pb wB → tcp_synchronised pa pb →
  bytes_ok data → 0 < zlen data <= snd_wnd pa → zlen (tcp_unread pb) + zlen data <= TCP_BUFSIZ →
  snd_nxt pa + zlen data + TCP_BUFSIZ < 2 ^ 32 → snd_nxt pb + TCP_BUFSIZ < 2 ^ 32 →
  wp (@tcp_send _ EA (@drivers _ EA) (Z.of_nat i) data (zlen data)) (λ r wA1,
    r = Returned (zlen data) ∧ ∃ frames, y_wire (w_sys wA1) = y_wire (w_sys wA) ++ (pair dA <$> frames)
    ∧ wp (for_each frames (@ether_receive _ EB dB)) (λ _ wB1,
        tcp_link dB iB devB ifcB (if_unicast ifcA) (hw_addr devA) wB1
        ∧ ∃ pb1, tcp_end iB ifcB j lb la pb1 wB1 ∧ tcp_unread pb1 = tcp_unread pb ++ data
        ∧ same_wait pb1 pb ∧ snd_wnd pb1 = snd_wnd pb ∧ snd_nxt pb1 = snd_nxt pb
        ∧ ∃ acks, y_wire (w_sys wB1) = y_wire (w_sys wB) ++ (pair dB <$> acks)
        ∧ wp (for_each acks (@ether_receive _ EA dA)) (λ _ wA2,
            y_wire (w_sys wA2) = y_wire (w_sys wA1)
            ∧ tcp_link dA iA devA ifcA (if_unicast ifcB) (hw_addr devB) wA2
            ∧ ∃ pa2, tcp_end iA ifcA i la lb pa2 wA2 ∧ tcp_unread pa2 = tcp_unread pa ∧ same_wait pa2 pa
              ∧ snd_nxt pa2 = snd_nxt pa + zlen data ∧ tcp_synchronised pa2 pb1) wA1) wB) wA.
Proof.
  intros HwA HnA HpA HwB HnB HpB HA HB Hla Hlb Ha Hb Hs Hok Hlen Hroom Hwrap Hwrap'.
  pose proof Hs as (A1&_&_&_&A2&_&A3&_). pose proof HA as HA'. rewrite <- Hlb in HA'. unfold TCP_BUFSIZ in Hwrap.
  eapply wp_mono; [eapply (@tcp_send_frames _ EA _ dA iA devA ifcA _ i la lb pa); (done || lia)|].
  intros r wA1 [-> Hsent]. split; [done|]. by eapply (@ethernet_exchange _ EA EB).
Qed.

(** C5. A transfer over the Ethernet.  Two hosts have a synchronised
    connection, routes to each other over their tap devices and each other's
    hardware addresses.  [tcp_send] on host A, with data that fits the windows
    of both ends, sends all of it and writes its segments as frames to A's
    device.  When these frames, and nothing else, arrive in order at B's
    device, the data is behind what was unread in B's receive buffer, and B
    has written frames of its own: its acknowledgements.  When those arrive at
    A's device, nothing more is sent, and the two ends are synchronised again
    with nothing left to retransmit.  The hosts have environments of their
    own. *)
Theorem tcp_ethernet_transfer `{Machine} (EA EB : Env) `{!@EnvOk EA} `{!@EnvOk EB}
    dA iA devA ifcA wA dB iB devB ifcB wB i j pa pb la lb data :
  @writes_whole EA → @never_fails EA → @polls_succeed EA →
  @writes_whole EB → @never_fails EB → @polls_succeed EB →
  tcp_link dA iA devA ifcA (if_unicast ifcB) (hw_addr devB) wA →
  tcp_link dB iB devB ifcB (if_unicast ifcA) (hw_addr devA) wB →
  ep_addr la = if_unicast ifcA → ep_addr lb = if_unicast ifcB →
  tcp_end iA ifcA i la lb pa wA → tcp_end iB ifcB j lb la pb wB → tcp_synchronised pa pb →
  bytes_ok data → 0 < zlen data <= snd_wnd pa → zlen (tcp_unread pb) + zlen data <= TCP_BUFSIZ →
  snd_nxt pa + zlen data + TCP_BUFSIZ < 2 ^ 32 → snd_nxt pb + TCP_BUFSIZ < 2 ^ 32 →
  wp (@tcp_send _ EA (@drivers _ EA) (Z.of_nat i) data (zlen data)) (λ r wA1,
    r = Returned (zlen data) ∧ ∃ frames, y_wire (w_sys wA1) = y_wire (w_sys wA) ++ (pair dA <$> frames)
    ∧ wp (for_each frames (@ether_receive _ EB dB)) (λ _ wB1,
        ∃ pb1, w_tcp wB1 !! j = Some pb1 ∧ tcp_unread pb1 = tcp_unread pb ++ data
        ∧ ∃ acks, y_wire (w_sys wB1) = y_wire (w_sys wB) ++ (pair dB <$> acks)
        ∧ wp (for_each acks (@ether_receive _ EA dA)) (λ _ wA2,
            y_wire (w_sys wA2) = y_wire (w_sys wA1)
            ∧ ∃ pa2, w_tcp wA2 !! i = Some pa2 ∧ tcp_synchronised pa2 pb1) wA1) wB) wA.
Proof.
  intros HwA HnA HpA HwB HnB HpB HA HB Hla Hlb Ha Hb Hs Hok Hlen Hroom Hwrap Hwrap'.
  eapply wp_mono; [by apply (@ethernet_transfer _ EA EB _ _ dA iA devA ifcA wA dB iB devB ifcB wB i j pa pb la lb)|].
  intros r wA1 (->&frames&Hw1&Hrecv). split; [done|]. exists frames. split; [done|].
  eapply wp_mono; [exact Hrecv|]. intros [] wB1 (_&pb1&Hb1&Hu&_&_&_&acks&Hw2&Hrecv2). exists pb1.
  split_and!; [apply Hb1|done|]. exists acks. split; [done|]. eapply wp_mono; [exact Hrecv2|].
  intros [] wA2 (Hw3&_&pa2&Ha2&_&_&_&Hs2). split; [done|]. exists pa2. split; [apply Ha2|done].
Qed.

(** ** Two sample hosts *)

(** A host with one address in its ARP cache and one control block. *)
Definition peer_arp (pa : Z) (ha : bytes) : list arp_cache :=
  <[0%nat := @arp_resolved sample_env (sample_world []) pa ha]> empty_arp.

Definition peer_world (mac : bytes) (addr peer : Z) (ha : bytes) (pcb : tcp_pcb) : world :=
  set_w_tcp (sample_tcp pcb) (link_world mac addr (peer_arp peer ha)).

Section SamplePeers.
Context (mac : bytes) (addr peer : Z) (ha : bytes) (pcb : tcp_pcb).
Hypothesis mac_length : length mac = 6%nat.
Hypothesis mac_ok : bytes_ok mac.
Hypothesis addr_ok : is_u32 addr.
Hypothesis ha_length : length ha = 6%nat.
Hypothesis ha_ok : bytes_ok ha.
Hypothesis pcb_ok : tcp_pcb_ok pcb.

Lemma peer_arp_wf : arp_wf (peer_arp peer ha).
Proof.
  eapply al_wf, (@arp_learnt_put sample_env sample_env_ok); [apply empty_arp_wf|done|done|done|]. right. by split; [|left].
Qed.

Lemma peer_world_host : tap_host 0 0 (link_tap mac) (link_iface addr) (peer_world mac addr peer ha pcb).
Proof.
  pose proof (link_host mac addr (peer_arp peer ha) mac_length mac_ok addr_ok peer_arp_wf) as Hh.
  pose proof (ih_ok _ _ _ _ _ (th_host _ _ _ _ _ Hh)) as Hw.
  eapply tap_host_frame; [exact Hh| |by constructor|done|done|done].
  destruct Hw. constructor; try done. split; [done|]. apply Forall_cons_2; [done|].
  apply Forall_replicate, tcp_pcb_zero_ok.
Qed.

Lemma peer_world_link r :
  @ip_route_select sample_machine (i_routes sample_ip) peer = Some r → rt_iface r = 0%nat →
  next_hop r peer = peer → is_u32 peer → peer ≠ IP_ADDR_BROADCAST → peer ≠ if_broadcast (link_iface addr) →
  @tcp_link sample_machine 0 0 (link_tap mac) (link_iface addr) peer ha (peer_world mac addr peer ha pcb).
Proof.
  intros Hr Hri Hnh Hu Hb Hbc. constructor; try done.
  - apply peer_world_host.
  - by eexists _, _.
  - exists r. rewrite Hnh. split_and!; try done.
    eapply al_new, (@arp_learnt_put sample_env sample_env_ok); [apply empty_arp_wf|done|done|done|].
    right. by split; [|left].
Qed.

Lemma peer_world_end l f :
  tp_local pcb = l → tp_foreign pcb = f → tcp_unicast (ep_addr f) (ep_addr l) (link_iface addr) = true →
  tcp_end 0 (link_iface addr) 0 l f pcb (peer_world mac addr peer ha pcb).
Proof.
  intros Hl Hf Hu. constructor; try done.
  - apply stack_tcp_ready, (th_host _ _ _ _ _ peer_world_host).
  - unfold conn_select. rewrite (find_first_here _ _ 0 (abs pcb)); [done|done| |intros ? ? Hk; lia].
    unfold conn_exact, conn_local_matches. cbn. by rewrite Hl, Hf, !Z.eqb_refl, orb_true_r.
Qed.
End SamplePeers.

(** The hosts 192.0.2.2 and 192.0.2.1. *)
Definition peer_tap : tcp_pcb → world := peer_world mac_tap addr_tap addr_gw mac_gw.
Definition peer_gw : tcp_pcb → world := peer_world mac_gw addr_gw addr_tap mac_tap.

Lemma peer_route addr :
  addr ∈ [addr_gw; addr_tap] →
  @ip_route_select sample_machine (i_routes sample_ip) addr = Some (IpRoute 0x000200c0 0x00ffffff 0 0).
Proof. rewrite !elem_of_cons, elem_of_nil. intros [->|[->|[]]]; vm_compute; reflexivity. Qed.

Lemma peer_tap_link pcb :
  tcp_pcb_ok pcb →
  @tcp_link sample_machine 0 0 (link_tap mac_tap) (link_iface addr_tap) addr_gw mac_gw (peer_tap pcb).
Proof.
  intros Hp. apply peer_world_link with (IpRoute 0x000200c0 0x00ffffff 0 0); try done;
    first [apply mac_tap_ok|apply mac_gw_ok|apply peer_route; by left].
Qed.

Lemma peer_gw_link pcb :
  tcp_pcb_ok pcb →
  @tcp_link sample_machine 0 0 (link_tap mac_gw) (link_iface addr_gw) addr_tap mac_tap (peer_gw pcb).
Proof.
  intros Hp. apply peer_world_link with (IpRoute 0x000200c0 0x00ffffff 0 0); try done;
    first [apply mac_gw_ok|apply mac_tap_ok|apply peer_route; by right; left].
Qed.

Lemma peer_tap_end pcb :
  tcp_pcb_ok pcb → tp_local pcb = sample_local → tp_foreign pcb = sample_foreign →
  tcp_end 0 (link_iface addr_tap) 0 sample_local sample_foreign pcb (peer_tap pcb).
Proof. intros Hp Hl Hf. apply peer_world_end; try done; first [apply mac_tap_ok|apply mac_gw_ok]. Qed.

Lemma peer_gw_end pcb :
  tcp_pcb_ok pcb → tp_local pcb = sample_foreign → tp_foreign pcb = sample_local →
  tcp_end 0 (link_iface addr_gw) 0 sample_foreign sample_local pcb (peer_gw pcb).
Proof. intros Hp Hl Hf. apply peer_world_end; try done; first [apply mac_gw_ok|apply mac_tap_ok]. Qed.

Definition peer_a : world := peer_tap sample_established.
Definition peer_b : world := peer_gw sample_other.

Lemma sample_other_unread : zlen (tcp_unread sample_other) = 0.
Proof. by rewrite zlen_tcp_unread by apply sample_other_ok. Qed.

(** Three bytes from 192.0.2.2 to 192.0.2.1. *)
Lemma tcp_ethernet_transfer_witness :
  ∃ wA1 frames wB1 pb1 acks wA2 pa2,
    @tcp_send sample_machine sample_env sample_ops 0 sample_text 3 peer_a = Done (Returned 3) wA1
    ∧ y_wire (w_sys wA1) = pair 0%nat <$> frames
    ∧ for_each frames (@ether_receive sample_machine sample_env 0) peer_b = Done tt wB1
    ∧ w_tcp wB1 !! 0%nat = Some pb1 ∧ tcp_unread pb1 = tcp_unread sample_other ++ sample_text
    ∧ y_wire (w_sys wB1) = pair 0%nat <$> acks
    ∧ for_each acks (@ether_receive sample_machine sample_env 0) wA1 = Done tt wA2
    ∧ w_tcp wA2 !! 0%nat = Some pa2 ∧ tcp_synchronised pa2 pb1.
Proof.
  destruct sample_windows as (W1&W2&W3&W4).
  destruct (wp_Done _ _ _ (@tcp_ethernet_transfer sample_machine sample_env sample_env sample_env_ok sample_env_ok
    0 0 (link_tap mac_tap) (link_iface addr_tap) peer_a 0 0 (link_tap mac_gw) (link_iface addr_gw) peer_b 0 0
    sample_established sample_other sample_local sample_foreign sample_text
    sample_writes_whole sample_never_fails sample_polls_succeed
    sample_writes_whole sample_never_fails sample_polls_succeed
    (peer_tap_link _ sample_established_ok) (peer_gw_link _ sample_other_ok) eq_refl eq_refl
    (peer_tap_end _ sample_established_ok eq_refl eq_refl) (peer_gw_end _ sample_other_ok eq_refl eq_refl) sample_synchronised sample_text_ok ltac:(rewrite W1; done)
    ltac:(rewrite sample_other_unread; done) ltac:(rewrite W2; done) ltac:(rewrite W3; done)))
    as (r&wA1&E1&->&frames&Hf&Hrecv).
  destruct (wp_Done _ _ _ Hrecv) as ([]&wB1&E2&pb1&Hpb&Hu&acks&Ha&Hrecv').
  destruct (wp_Done _ _ _ Hrecv') as ([]&wA2&E3&_&pa2&Hpa&Hs).
  exists wA1, frames, wB1, pb1, acks, wA2, pa2.
  exact (conj E1 (conj Hf (conj E2 (conj Hpb (conj Hu (conj Ha (conj E3 (conj Hpa Hs)))))))).
Defined.
