(* ===== verification/TcpLoss.v ===== *)
(** * TCP: the retransmission of lost segments

    Frames with text, or the acknowledgements that answer them, are lost.
    When the retransmission timer runs at a time at which the queued segments
    are due, it writes them again; the receiver drops those it has, with an
    acknowledgement of what it expects, and takes the others.  The proofs
    continue the program logic of TcpLink. *)

From S2P Require Import Prelude Bytes Checksum Clock Text Addr Monad State Platform Queue Net Ether.
From S2P Require Import Drivers Device Sample Receive Arp Ip Icmp Pseudo Udp Tcp TcpUser TcpLogic.
From S2P Require Import TcpConn TcpArrive TcpOps TcpProps TcpWire TcpTeardown TcpStream TcpTransfer TcpSample.
From S2P Require Import Stack Safety Boot Deliver UdpLoop EtherLink TcpLink.

(** An entry is sent again at [now]: its interval has passed, its deadline
    has not. *)
Definition rexmit_due (now : timeval) (e : tcp_queue_entry) : Prop :=
  tv_us (tqe_last e) + tqe_rto e < tv_us now < tv_us (tqe_first e) + TCP_RETRANSMIT_DEADLINE * 1000000.

Lemma rexmit_due_checks now e :
  tv_ok now → tcp_entry_ok e → rexmit_due now e →
  (tv_sec (timersub now (tqe_first e)) >=? TCP_RETRANSMIT_DEADLINE) = false
  ∧ timercmp Z.gtb now (timeval_add_usec (tqe_last e) (tqe_rto e)) = true.
Proof.
  intros Hn (Hf&Hl&Hr&_) [H1 H2].
  assert (0 <= tqe_rto e) as Hr0 by ulia.
  destruct (timersub_spec now (tqe_first e) Hn Hf) as [Hs Es].
  destruct (timeval_add_usec_spec (tqe_last e) (tqe_rto e) Hl Hr0) as [Ha Ea].
  rewrite timercmp_gtb, Ea by done. rewrite Z.geb_leb, Z.gtb_ltb. unfold TCP_RETRANSMIT_DEADLINE, tv_us, tv_ok in *.
  split; [apply Z.leb_gt|apply Z.ltb_lt]; lia.
Qed.

Section Loss.
Context `{Machine} `{EnvOk} {d i : nat} {dev : net_device} {ifc : ip_iface} {peer : Z} {ha : bytes}.
Context {w0 : world} (Hwr : writes_whole) (Hlink : tcp_link d i dev ifc peer ha w0).
Context {k : nat}.

(** ** The retransmission timer *)

Notation lwp := (lwp (d := d) (dev := dev) (ifc := ifc) (peer := peer) (ha := ha) (w0 := w0)).

Lemma lwp_for_each_app {A} (l1 l2 : list A) f Q pcb L segs :
  lwp k (bind (for_each l1 f) (λ _, for_each l2 f)) Q pcb L segs → lwp k (for_each (l1 ++ l2) f) Q pcb L segs.
Proof. intros Hm w Hw. eapply wp_eq; [apply for_each_app|by apply Hm]. Qed.

(** One entry. *)
Lemma emit_lwp j e pcb L segs :
  tp_queue pcb !! j = Some e → (∀ n, rexmit_due (env_gettimeofday n) e) → 40 + tqe_len e <= 1500 →
  ep_addr (tp_local pcb) = if_unicast ifc → ep_addr (tp_foreign pcb) = peer →
  lwp k (tcp_retransmit_queue_emit k j) (λ _ p L' s, L' = L ∧ ∃ e' seg,
    p = set_tp_queue (<[j := e']> (tp_queue pcb)) pcb ∧ entry_abs e' = entry_abs e
    ∧ s = segs ++ [seg] ∧ entry_emitted pcb e seg) pcb L segs.
Proof.
  intros He Hdue Hmax Hloc Hfor. apply lwp_ok. intros Hp. unfold tcp_retransmit_queue_emit.
  pose proof (tpo_queue _ Hp) as Hq. rewrite Forall_lookup in Hq. pose proof (Hq _ _ He) as Heok.
  pose proof Heok as (Hf&Hla&Hr&Hs&Hg&Hl&Hz&Hd&Hb).
  do 3 lwp_step. apply lwp_lift; [apply _|]. eapply pwp_expect; [done|]. lwp_step. apply lwp_lift; [apply _|].
  apply pwp_env_call. intros n. cbv zeta.
  destruct (rexmit_due_checks _ e (env_time_ok n) Heok (Hdue n)) as [Hdead Hcmp]. rewrite Hdead, Hcmp.
  lwp_step. apply (lwp_output_segment Hwr Hlink); try done; [lia|]. intros seg Eseg. apply lwp_lift; [apply _|].
  apply pwp_upd.
  - apply tcp_pcb_ok_queue; [done|]. apply Forall_insert; [by destruct Hp|].
    split_and!; cbn; try done; try lia; auto with stack; [apply env_time_ok|].
    rewrite Z.geb_leb in Hdead. apply Z.leb_gt in Hdead. by apply tcp_backoff_again; try apply env_time_ok.
  - split; [done|]. by eexists _, seg.
Qed.

(** The entries [q2] of the queue, behind [q1]. *)
Lemma emits_lwp q2 L : ∀ q1 pcb segs,
  tp_queue pcb = q1 ++ q2 → (∀ n, Forall (rexmit_due (env_gettimeofday n)) q2) →
  Forall (λ e, 40 + tqe_len e <= 1500) q2 →
  ep_addr (tp_local pcb) = if_unicast ifc → ep_addr (tp_foreign pcb) = peer →
  lwp k (for_each (seq (length q1) (length q2)) (tcp_retransmit_queue_emit k)) (λ _ p L' s, L' = L ∧ ∃ q2' segs',
    p = set_tp_queue (q1 ++ q2') pcb ∧ entry_abs <$> q2' = entry_abs <$> q2
    ∧ s = segs ++ segs' ∧ Forall2 (entry_emitted pcb) q2 segs') pcb L segs.
Proof.
  induction q2 as [|e q2 IH]; intros q1 pcb segs Eq Hdue Hmax Hloc Hfor; cbn [length seq for_each].
  { lwp_step. split; [done|]. exists [], []. rewrite <- Eq, set_tp_queue_id, app_nil_r.
    split_and!; [done..|constructor]. }
  apply Forall_cons in Hmax as [Hm Hmax]. lwp_step.
  eapply lwp_mono; [apply (emit_lwp (length q1) e); try done|].
  { by rewrite Eq, list_lookup_middle. }
  { intros n. specialize (Hdue n). by inv Hdue. }
  intros [] p l s (->&e'&seg&->&Ea&->&Hem). rewrite Eq, insert_app_r_alt, Nat.sub_diag by done. cbn [insert list_insert].
  assert (S (length q1) = length (q1 ++ [e'])) as -> by (rewrite length_app; cbn; lia).
  eapply lwp_mono; [apply (IH (q1 ++ [e'])); try done|].
  { cbn. by rewrite <- app_assoc. }
  { intros n. specialize (Hdue n). by inv Hdue. }
  intros [] p l s (->&q2'&segs'&->&Eq'&->&Hem'). split; [done|]. exists (e' :: q2'), (seg :: segs').
  rewrite <- !app_assoc. split_and!; [done|by cbn; f_equal|done|by constructor].
Qed.

(** A block with nothing to send again. *)
Definition idle (j : nat) : Prop :=
  j ≠ k ∧ ∃ q, w_tcp w0 !! j = Some q ∧ (tp_state q = TCP_PCB_STATE_FREE ∨ tp_queue q = []).

Lemma idles_lwp js pcb L segs :
  Forall idle js →
  lwp k (for_each js tcp_timer_pcb) (λ _ p L' s, p = pcb ∧ L' = L ∧ s = segs) pcb L segs.
Proof.
  induction js as [|j js IH]; intros Hj; cbn [for_each]; [by lwp_step|].
  apply Forall_cons in Hj as [(Hne&q&Hq&Hidle) Hj]. lwp_step. intros w Hw.
  pose proof (ls_touch _ _ _ _ _ Hw) as (_&_&Et).
  assert (tcp_timer_pcb j w = Done tt w) as E.
  { unfold tcp_timer_pcb, get_tcp, bind, gets. rewrite Et, list_lookup_insert_ne, Hq by done. cbn.
    by destruct Hidle as [->| ->]; [|destruct (_ =? _)]. }
  unfold wp at 1. rewrite E. exists pcb, L, segs. split; [done|]. by apply IH.
Qed.

(** Every block but [k] has nothing to send again. *)
Definition others_idle : Prop :=
  ∀ j q, j ≠ k → w_tcp w0 !! j = Some q → tp_state q = TCP_PCB_STATE_FREE ∨ tp_queue q = [].

Lemma others_idle_Forall js :
  others_idle → Forall (λ j, j ≠ k ∧ (j < length (w_tcp w0))%nat) js → Forall idle js.
Proof.
  intros Ho Hjs. eapply Forall_impl; [exact Hjs|]. intros j [Hne Hlt]. split; [done|].
  destruct (lookup_lt_is_Some_2 _ _ Hlt) as [q Hq]. exists q. split; [done|]. by eapply Ho.
Qed.

(** The timer sends every segment of the queue again. *)
Lemma tcp_timer_lwp pcb L :
  w_tcp w0 !! k = Some pcb → others_idle → MutexTcp ∉ L → tp_state pcb ≠ TCP_PCB_STATE_FREE →
  (∀ n, Forall (rexmit_due (env_gettimeofday n)) (tp_queue pcb)) →
  Forall (λ e, 40 + tqe_len e <= 1500) (tp_queue pcb) →
  ep_addr (tp_local pcb) = if_unicast ifc → ep_addr (tp_foreign pcb) = peer →
  lwp k tcp_timer (λ _ p L' segs, L' = L ∧ ∃ queue, p = set_tp_queue queue pcb
    ∧ entry_abs <$> queue = entry_abs <$> tp_queue pcb ∧ Forall2 (entry_emitted pcb) (tp_queue pcb) segs) pcb L [].
Proof.
  intros Hp Hidle HL Hst Hdue Hmax Hloc Hfor. pose proof (lookup_lt_Some _ _ _ Hp) as Hk.
  unfold tcp_timer. do 3 lwp_step. apply lwp_lift; [apply _|]. apply (pwp_gets length). rewrite length_insert.
  assert (seq 0 (length (w_tcp w0)) = seq 0 k ++ k :: seq (S k) (length (w_tcp w0) - S k)) as ->.
  { change (k :: seq (S k) ?m) with (seq (0 + k) (S m)). rewrite <- seq_app. f_equal. lia. }
  lwp_step. apply lwp_for_each_app. cbn [for_each].
  assert (∀ js, Forall (λ j, j ≠ k ∧ (j < length (w_tcp w0))%nat) js → Forall idle js) as Hj
    by (intros; by apply others_idle_Forall).
  apply lwp_bind. eapply lwp_mono; [apply idles_lwp, Hj|].
  { apply Forall_forall. intros j [_ ?]%elem_of_seq. lia. }
  intros [] p l s (->&->&->). lwp_step. unfold tcp_timer_pcb at 1. do 2 lwp_step.
  rewrite (proj2 (Z.eqb_neq _ _) Hst). eapply lwp_mono; [by apply (emits_lwp _ _ [])|].
  intros [] p l s (->&q2&segs&->&Ea&->&Hem). eapply lwp_mono; [apply idles_lwp, Hj|].
  { apply Forall_forall. intros j [? ?]%elem_of_seq. lia. }
  intros [] p l s (->&->&->). lwp_step. split; [done|]. by exists q2.
Qed.

(** ** What was received before *)

(** A segment outside the window of an established connection is answered
    with an acknowledgement. *)
Lemma unacceptable_lwp seg flags data len local foreign pcb L segs :
  w_tcp w0 !! k = Some pcb → conn_select local foreign (conns w0) = Some k →
  tp_state pcb = TCP_PCB_STATE_ESTABLISHED → seg_ok seg → conn_acceptable seg (abs pcb) = false →
  TCP_FLG_ISSET flags TCP_FLG_RST = false →
  ep_addr (tp_local pcb) = if_unicast ifc → ep_addr (tp_foreign pcb) = peer →
  lwp k (tcp_segment_arrives seg flags data len local foreign) (λ _ p L' s, L' = L ∧ same_wait p pcb
    ∧ ∃ ack, tcp_emits p TCP_FLG_ACK [] 0 = Some ack ∧ s = segs ++ [ack]) pcb L segs.
Proof.
  intros Hp Hsel Hst Hseg Hacc Hrst Hloc Hfor. apply lwp_ok. intros Hpok.
  unfold tcp_segment_arrives. lwp_step. apply select_lwp; [done..|]. do 2 lwp_step.
  rewrite tcp_acceptable_abs, Hacc, Hst, Hrst by done.
  change (lwp k (tcp_output k TCP_FLG_ACK [] 0;; ret tt) (λ _ p L' s, L' = L ∧ same_wait p pcb
    ∧ ∃ ack, tcp_emits p TCP_FLG_ACK [] 0 = Some ack ∧ s = segs ++ [ack]) pcb L segs).
  lwp_step. apply (lwp_output Hwr Hlink); try done; [by apply Forall_nil_2|].
  intros queue seg' _ Eseg. lwp_step. split_and!; [done|done|]. by exists seg'.
Qed.
End Loss.

Section Again.
Context `{Machine} `{EnvOk}.

Lemma old_frame_received d i dev ifc mac peer ha j q c0 ack wnd old seq text local foreign seg id pkt w :
  writes_whole → never_fails → polls_succeed → tcp_link d i dev ifc peer ha w →
  length mac = 6%nat → bytes_ok mac → ep_addr local = if_unicast ifc → ep_addr foreign = peer →
  endpoint_ok local → endpoint_ok foreign → is_u32 ack → is_u16 wnd →
  c_local c0 = local → c_foreign c0 = foreign →
  w_tcp w !! j = Some q → stream_at c0 local foreign j i ack seq (abs q) w →
  bytes_ok text → 0 < zlen text <= 1460 → 0 <= old → old + zlen text <= seq → seq < 2 ^ 32 → is_u16 id →
  tcp_segment old ack (Z.lor TCP_FLG_ACK TCP_FLG_PSH) wnd text (zlen text) foreign local = Some seg →
  ip_packet IP_PROTOCOL_TCP seg (zlen seg) peer (if_unicast ifc) id 0 = Some pkt →
  wp (ether_receive d (ether_wire mac (hw_addr dev) NET_PROTOCOL_TYPE_IP pkt)) (λ _ w',
    tcp_link d i dev ifc peer ha w' ∧ ∃ q', w_tcp w' !! j = Some q'
    ∧ stream_at c0 local foreign j i ack seq (abs q') w'
    ∧ tcp_unread q' = tcp_unread q ++ [] ∧ same_wait q' q
    ∧ ∃ reply frame, tcp_emits q' TCP_FLG_ACK [] 0 = Some reply ∧ tcp_carries dev ifc peer ha reply frame
      ∧ y_wire (w_sys w') = y_wire (w_sys w) ++ [(d, frame)]) w.
Proof.
  intros Hwr Hnf Hpoll Hlink Lm Hm Hloc Hfor Hl Hfo Hack Hwnd Hl0 Hf0 Hq Hat Hok Hlen Hold Hseq Hwrap Hid Eseg Epkt.
  pose proof Hat as [Hr _ Hsel Hc Hst]. pose proof (st_state _ _ _ _ _ _ Hst) as Est. cbn in Est.
  pose proof (stream_old c0 local foreign ack seq old wnd text (abs q) Hst ltac:(lia) Hold Hseq Hwrap) as Hno.
  eapply (stream_frame_received d i dev ifc mac peer ha j q c0 ack wnd old seq seq text []); try done.
  - lia.
  - ulia.
  - intros j' c' Hj Hc'. assert (c' = abs q) as -> by congruence. by rewrite Hno.
  - intros w1 data Hlink1 Ht1 Hdok Hdl.
    apply (unacceptable_lwp Hwr Hlink1); try done.
    + by rewrite Ht1.
    + unfold conns. by rewrite Ht1.
    + unfold seg_ok. cbn. split_and!; ulia.
    + pose proof (sk_local _ _ (st_kept _ _ _ _ _ _ Hst)) as E. cbn in E. by rewrite E, Hl0.
    + pose proof (sk_foreign _ _ (st_kept _ _ _ _ _ _ Hst)) as E. cbn in E. by rewrite E, Hf0.
  - intros c' Harr. apply (stream_again c0 _ _ _ seq) in Harr as ->; try (done || lia). by rewrite app_nil_r.
Qed.

(** Texts received before arrive again: what is expected is acknowledged. *)
Lemma old_frames_received d i dev ifc devA ifcA ha j c0 ack wnd local foreign seq texts frames : ∀ old q w,
  writes_whole → never_fails → polls_succeed → tcp_link d i dev ifc (if_unicast ifcA) ha w →
  length (hw_addr devA) = 6%nat → bytes_ok (hw_addr devA) →
  ep_addr local = if_unicast ifc → ep_addr foreign = if_unicast ifcA →
  endpoint_ok local → endpoint_ok foreign → is_u32 ack → is_u16 wnd →
  c_local c0 = local → c_foreign c0 = foreign →
  w_tcp w !! j = Some q → stream_at c0 local foreign j i ack seq (abs q) w →
  bytes_ok (mjoin texts) → Forall (λ text, 0 < zlen text <= 1460) texts →
  0 <= old → old + zlen (mjoin texts) <= seq → seq < 2 ^ 32 →
  text_frames (tcp_carries devA ifcA (if_unicast ifc) (hw_addr dev)) foreign local ack wnd old texts frames →
  wp (for_each frames (ether_receive d)) (λ _ w',
    tcp_link d i dev ifc (if_unicast ifcA) ha w' ∧ ∃ q' acks, w_tcp w' !! j = Some q'
    ∧ stream_at c0 local foreign j i ack seq (abs q') w' ∧ tcp_unread q' = tcp_unread q ∧ same_wait q' q
    ∧ y_wire (w_sys w') = y_wire (w_sys w) ++ (pair d <$> acks)
    ∧ ack_frames (tcp_carries dev ifc (if_unicast ifcA) ha) local foreign (c_nxt c0)
        (replicate (length texts) seq) acks) w.
Proof.
  revert frames. induction texts as [|text texts IH]; intros [|frame frames] old q w Hwr Hnf Hpoll Hlink Lm Hm
    Hloc Hfor Hl Hfo Hack Hwnd Hl0 Hf0 Hq Hat Hok Hlens Hold Hseq Hwrap Htf; try done.
  { cbn [for_each]. wp_step. split; [done|]. exists q, []. rewrite app_nil_r. by split_and!; [..|constructor]. }
  change (mjoin (text :: texts)) with (text ++ mjoin texts) in *. rewrite zlen_app in *.
  apply bytes_ok_app in Hok as [Hok1 Hok2]. apply Forall_cons in Hlens as [Hlen Hlens].
  destruct Htf as [(seg&Eseg&id&pkt&Hid&Epkt&->) Htf]. pose proof (zlen_nonneg (mjoin texts)).
  cbn [for_each]. apply wp_bind.
  eapply wp_mono; [eapply (old_frame_received d i dev ifc _ _ ha j q c0 ack wnd old seq text local foreign seg id pkt);
    try done; lia|].
  intros [] w1 (Hlink1&q1&Hq1&Hat1&Hu1&Hs1&reply&frame&Er&Hc&Hw1). rewrite app_nil_r in Hu1.
  eapply wp_mono; [apply (IH frames (old + zlen text) q1 w1); (done || lia)|].
  intros [] w2 (Hlink2&q2&acks&Hq2&Hat2&Hu2&Hs2&Hw2&Hacks). split; [done|]. exists q2, (frame :: acks).
  split_and!; [done|done|congruence|by etrans|by rewrite Hw2, Hw1, <- app_assoc|].
  cbn [length replicate]. constructor; [|done]. exists (rcv_wnd q1), reply.
  destruct (stream_reply c0 i j local foreign ack seq q1 reply w1) as [Hw Es]; [done..|]. exact (conj Hw (conj Es Hc)).
Qed.

Lemma text_frames_app carries local foreign ack wnd l1 l2 : ∀ seq frames,
  text_frames carries local foreign ack wnd seq (l1 ++ l2) frames →
  ∃ f1 f2, frames = f1 ++ f2 ∧ text_frames carries local foreign ack wnd seq l1 f1
    ∧ text_frames carries local foreign ack wnd (seq + zlen (mjoin l1)) l2 f2.
Proof.
  induction l1 as [|text l1 IH]; intros seq frames Htf.
  { exists [], frames. change (zlen (mjoin [])) with 0. by rewrite Z.add_0_r. }
  destruct frames as [|frame frames]; [done|]. destruct Htf as [Hf Htf].
  apply IH in Htf as (f1&f2&->&Hf1&Hf2). exists (frame :: f1), f2.
  change (mjoin (text :: l1)) with (text ++ mjoin l1). rewrite zlen_app, Z.add_assoc. done.
Qed.

Lemma acks_up_again una nxt n seq acks :
  una <= seq <= nxt → (n = 0%nat → una = seq) → acks_up seq nxt acks → acks_up una nxt (replicate n seq ++ acks).
Proof.
  intros Hs Hn Hup. destruct n as [|n]; [by rewrite (Hn eq_refl)|]. cbn [replicate app acks_up].
  split; [done|]. clear Hn Hs una. induction n as [|n IH]; [done|]. cbn [replicate app acks_up].
  split; [|done]. assert (∀ l a, acks_up a nxt l → a <= nxt) as Hle; [|by apply Hle in Hup; lia].
  clear. intros [|b l] a; cbn; lia.
Qed.

(** All texts arrive, of which the first ones were received before. *)
Lemma lost_frames_received d i dev ifc devA ifcA ha j c0 ack wnd local foreign una old new frames q w :
  writes_whole → never_fails → polls_succeed → tcp_link d i dev ifc (if_unicast ifcA) ha w →
  length (hw_addr devA) = 6%nat → bytes_ok (hw_addr devA) →
  ep_addr local = if_unicast ifc → ep_addr foreign = if_unicast ifcA →
  endpoint_ok local → endpoint_ok foreign → is_u32 ack → is_u16 wnd →
  c_local c0 = local → c_foreign c0 = foreign →
  let seq := una + zlen (mjoin old) in
  w_tcp w !! j = Some q → stream_at c0 local foreign j i ack seq (abs q) w →
  bytes_ok (mjoin (old ++ new)) → Forall (λ text, 0 < zlen text <= 1460) (old ++ new) →
  zlen (tcp_unread q) + zlen (mjoin new) <= TCP_BUFSIZ →
  0 <= una → seq + zlen (mjoin new) + TCP_BUFSIZ < 2 ^ 32 →
  text_frames (tcp_carries devA ifcA (if_unicast ifc) (hw_addr dev)) foreign local ack wnd una (old ++ new) frames →
  wp (for_each frames (ether_receive d)) (λ _ w',
    tcp_link d i dev ifc (if_unicast ifcA) ha w' ∧ ∃ q' acks, w_tcp w' !! j = Some q'
    ∧ stream_at c0 local foreign j i ack (seq + zlen (mjoin new)) (abs q') w'
    ∧ tcp_unread q' = tcp_unread q ++ mjoin new ∧ same_wait q' q
    ∧ y_wire (w_sys w') = y_wire (w_sys w) ++ (pair d <$> acks)
    ∧ ack_frames (tcp_carries dev ifc (if_unicast ifcA) ha) local foreign (c_nxt c0)
        (replicate (length old) seq ++ text_acks seq new) acks) w.
Proof.
  intros Hwr Hnf Hpoll Hlink Lm Hm Hloc Hfor Hl Hfo Hack Hwnd Hl0 Hf0 seq Hq Hat Hok Hlens Hroom Huna Hwrap Htf.
  apply text_frames_app in Htf as (f1&f2&->&Hf1&Hf2). fold seq in Hf2.
  rewrite join_app in Hok. apply bytes_ok_app in Hok as [Hok1 Hok2]. apply Forall_app in Hlens as [Hlen1 Hlen2].
  pose proof (zlen_nonneg (mjoin old)). pose proof (zlen_nonneg (mjoin new)).
  assert (0 <= seq ∧ seq < 2 ^ 32) as [Hs0 Hs] by (unfold TCP_BUFSIZ in *; lia).
  eapply wp_eq; [apply for_each_app|]. apply wp_bind.
  eapply wp_mono; [by apply (old_frames_received d i dev ifc devA ifcA ha j c0 ack wnd local foreign seq old f1 una q w)|].
  intros [] w1 (Hlink1&q1&acks1&Hq1&Hat1&Hu1&Hs1&Hw1&Ha1).
  eapply wp_mono; [by apply (text_frames_received d i dev ifc devA ifcA ha j c0 ack wnd local foreign new f2 seq q1 w1);
    rewrite ?Hu1|].
  intros [] w2 (Hlink2&q2&acks2&Hq2&Hat2&Hu2&Hs2&Hw2&Ha2). split; [done|]. exists q2, (acks1 ++ acks2).
  split_and!; [done|done|by rewrite Hu2, Hu1|by etrans|by rewrite Hw2, Hw1, fmap_app, app_assoc|by apply Forall2_app].
Qed.
End Again.

(** ** Recovery *)

(** Host A has sent the texts [old] and [new] and heard of nothing; host B has
    received [old] and acknowledged it: the segments of [new] were lost, and
    so were the acknowledgements. *)
Record tcp_lost (old new : list bytes) (pa pb : tcp_pcb) : Prop := TcpLost {
  lo_state : tp_state pa = TCP_PCB_STATE_ESTABLISHED ∧ tp_state pb = TCP_PCB_STATE_ESTABLISHED;
  lo_queue : entry_abs <$> tp_queue pa = segments (snd_una pa) (old ++ new);
  lo_nxt : snd_nxt pa = snd_una pa + zlen (mjoin (old ++ new));
  lo_rcv : rcv_nxt pb = snd_una pa + zlen (mjoin old);
  lo_back : rcv_nxt pa = snd_nxt pb ∧ snd_una pb = snd_nxt pb ∧ tp_queue pb = [];
  lo_texts : Forall (λ text, 0 < zlen text <= 1460) (old ++ new)
}.

Lemma queue_texts queue : ∀ seq texts,
  Forall tcp_entry_ok queue → entry_abs <$> queue = segments seq texts →
  Forall (λ text, 0 < zlen text <= 1460) texts →
  bytes_ok (mjoin texts) ∧ Forall (λ e, 40 + tqe_len e <= 1500) queue.
Proof.
  induction queue as [|e queue IH]; intros seq [|text texts] Hok Eq Hlen; try discriminate Eq.
  { split; by apply Forall_nil_2. }
  apply Forall_cons in Hok as [(_&_&_&_&_&_&Hz&Hd&_) Hok]. apply Forall_cons in Hlen as [Hl Hlen].
  injection Eq as _ _ E Eq. destruct (IH _ _ Hok Eq Hlen) as [Hb Hm]. subst text.
  change (mjoin (tqe_data e :: texts)) with (tqe_data e ++ mjoin texts).
  split; [by apply bytes_ok_app|]. constructor; [lia|done].
Qed.

Lemma mjoin_pos (texts : list bytes) :
  Forall (λ text, 0 < zlen text <= 1460) texts → zlen (mjoin texts) = 0 → texts = [].
Proof.
  intros Hpos Hz. destruct Hpos as [|text texts Hp Hpos]; [done|].
  change (mjoin (text :: texts)) with (text ++ mjoin texts) in Hz. rewrite zlen_app in Hz.
  pose proof (zlen_nonneg (mjoin texts)). lia.
Qed.

(** The sender waits for its texts to be acknowledged. *)
Lemma lost_awaiting old new pa pb :
  tcp_lost old new pa pb → awaiting (snd_una pa) (snd_nxt pa) (snd_nxt pb) (abs pa).
Proof.
  intros [[A1 _] Eq En _ (Er&_&_) Ht]. constructor; cbn; try done.
  - rewrite Eq. apply segments_before; [|lia]. eapply Forall_impl; [exact Ht|]. cbn. lia.
  - intros E. rewrite Eq, (mjoin_pos (old ++ new)); [done|done|lia].
Qed.

(** The timer writes the frames of the unacknowledged texts. *)
Lemma tcp_timer_frames `{Machine} `{EnvOk} d i dev ifc ha k local foreign p texts w :
  writes_whole → tcp_link d i dev ifc (ep_addr foreign) ha w → ep_addr local = if_unicast ifc →
  tcp_end i ifc k local foreign p w → others_idle (k := k) (w0 := w) → tp_state p ≠ TCP_PCB_STATE_FREE →
  entry_abs <$> tp_queue p = segments (snd_una p) texts → Forall (λ text, 0 < zlen text <= 1460) texts →
  (∀ n, Forall (rexmit_due (env_gettimeofday n)) (tp_queue p)) →
  wp tcp_timer (λ _ w', tcp_link d i dev ifc (ep_addr foreign) ha w'
    ∧ ∃ p' frames, tcp_end i ifc k local foreign p' w' ∧ abs p' = abs p
    ∧ y_wire (w_sys w') = y_wire (w_sys w) ++ (pair d <$> frames)
    ∧ text_frames (tcp_carries dev ifc (ep_addr foreign) ha) local foreign (rcv_nxt p) (rcv_wnd p)
        (snd_una p) texts frames) w.
Proof.
  intros Hwr Hlink Hloc He Hidle Hst Eq Hft Hdue. pose proof He as [Hr Hp Hl Hf _ _ _].
  pose proof (tcp_end_ok _ _ _ _ _ _ _ He) as Hok.
  pose proof (th_host _ _ _ _ _ (tl_host _ _ _ _ _ _ _ Hlink)) as Hip.
  pose proof (so_locked _ (ih_ok _ _ _ _ _ Hip) : locked w = []) as HL0.
  destruct (queue_texts _ _ _ (tpo_queue _ Hok) Eq Hft) as [_ Hmax].
  eapply wp_mono; [eapply (link_run Hlink); [exact Hp|]; apply (tcp_timer_lwp Hwr Hlink); try done|].
  - rewrite HL0. apply not_elem_of_nil.
  - by rewrite Hl.
  - by rewrite Hf.
  - intros [] w' (p'&L&segs&Hls&->&queue&->&Ea&Hem). pose proof Hls as [_ (_&_&Et) _ _ _ (frames&Hwire&Hc)].
    assert (tcp_link d i dev ifc (ep_addr foreign) ha w') as Hlink' by (by eapply link_after).
    assert (abs (set_tp_queue queue p) = abs p) as Eabs by (unfold abs; cbn; by rewrite Ea).
    split; [done|]. exists (set_tp_queue queue p), frames. split_and!; [|done|done|].
    + eapply link_tcp_end; [done|done|done|by rewrite Eabs].
    + pose proof (queue_text_frames _ p texts (snd_una p) _ _ _ (tpo_queue _ Hok) Eq Hem Hc) as Htf.
      by rewrite Hl, Hf in Htf.
Qed.

(** C3. Lost segments are recovered.  Two hosts have an established connection
    and routes to each other over their tap devices.  Host A has sent the
    texts [old ++ new] and keeps them for retransmission; host B has received
    [old] only, and none of its acknowledgements arrived.  When A's timer runs
    at a time at which the interval of every kept segment has passed and its
    deadline has not, A writes frames to its device.  When these arrive in
    order at B's device, exactly the text that was lost is behind what was
    unread in B's receive buffer, the text B had is not taken twice, and B has
    written acknowledgements, with which A's device receives that everything
    has arrived: the two ends are synchronised, with nothing left to
    retransmit. *)
Theorem tcp_loss_recovered `{Machine} (EA EB : Env) `{!@EnvOk EA} `{!@EnvOk EB}
    dA iA devA ifcA wA dB iB devB ifcB wB i j pa pb la lb old new :
  @writes_whole EA → @never_fails EA → @polls_succeed EA →
  @writes_whole EB → @never_fails EB → @polls_succeed EB →
  tcp_link dA iA devA ifcA (if_unicast ifcB) (hw_addr devB) wA →
  tcp_link dB iB devB ifcB (if_unicast ifcA) (hw_addr devA) wB →
  ep_addr la = if_unicast ifcA → ep_addr lb = if_unicast ifcB →
  tcp_end iA ifcA i la lb pa wA → tcp_end iB ifcB j lb la pb wB →
  tcp_lost old new pa pb → others_idle (k := i) (w0 := wA) →
  (∀ n, Forall (rexmit_due (@env_gettimeofday EA n)) (tp_queue pa)) →
  zlen (tcp_unread pb) + zlen (mjoin new) <= TCP_BUFSIZ →
  snd_nxt pa + TCP_BUFSIZ < 2 ^ 32 → snd_nxt pb + TCP_BUFSIZ < 2 ^ 32 →
  wp (@tcp_timer _ EA (@drivers _ EA)) (λ _ wA1,
    ∃ frames, y_wire (w_sys wA1) = y_wire (w_sys wA) ++ (pair dA <$> frames)
    ∧ wp (for_each frames (@ether_receive _ EB dB)) (λ _ wB1,
        ∃ pb1, w_tcp wB1 !! j = Some pb1 ∧ tcp_unread pb1 = tcp_unread pb ++ mjoin new
        ∧ ∃ acks, y_wire (w_sys wB1) = y_wire (w_sys wB) ++ (pair dB <$> acks)
        ∧ wp (for_each acks (@ether_receive _ EA dA)) (λ _ wA2,
            y_wire (w_sys wA2) = y_wire (w_sys wA1)
            ∧ ∃ pa2, w_tcp wA2 !! i = Some pa2 ∧ tcp_synchronised pa2 pb1) wA1) wB) wA.
Proof.
  intros HwA HnA HpA HwB HnB HpB HA HB Hla Hlb Ha Hb Hlost Hidle Hdue Hroom Hwrap Hwrap'.
  pose proof Hlost as [[A1 B1] Eq En Er (BA&B2&B3) Hft].
  destruct (link_mac _ _ _ _ _ _ _ HA) as [LA HokA]. destruct (link_mac _ _ _ _ _ _ _ HB) as [LB HokB].
  pose proof (tcp_end_ok _ _ _ _ _ _ _ Ha) as [_ Hola _ (Hna&Hua&_) _ _ (_&Hrw) _ Hqok].
  pose proof (tcp_end_ok _ _ _ _ _ _ _ Hb) as [_ Holb _ (Hnb&_) _ _ _ _ _].
  pose proof Hb as [Rb Pb Lb Fb Sb Ib Ub]. rewrite (te_local _ _ _ _ _ _ _ Ha) in Hola. rewrite Lb in Holb.
  destruct (queue_texts _ _ _ Hqok Eq Hft) as [Hbytes _].
  rewrite <- Hlb in HA.
  eapply wp_mono; [eapply (@tcp_timer_frames _ EA _ dA iA devA ifcA _ i la lb pa); try done; by rewrite A1|].
  intros [] wA1 (HA1&pa1&frames&Ha1&Eabs&Hwire&Htf). exists frames. split; [done|]. rewrite Hlb in HA1, Htf.
  rewrite BA in Htf. rewrite join_app, zlen_app in En.
  eapply wp_mono; [eapply (@lost_frames_received _ EB _ dB iB devB ifcB devA ifcA _ j (abs pb) (snd_nxt pb)
    (rcv_wnd pa) lb la (snd_una pa) old new frames pb wB); try done; try ulia|].
  { split; [done|by exists ifcB|done|by apply conns_lookup|]. split; cbn; try (done || lia); [].
    unfold conn_exact, conn_local_matches. cbn. by rewrite Lb, Fb, !Z.eqb_refl, orb_true_r. }
  intros [] wB1 (_&pb1&acks&Hpb1&Hat&Eu&_&HwireB&Haf). exists pb1. split_and!; [done|done|].
  exists acks. split; [done|]. change (c_nxt (abs pb)) with (snd_nxt pb) in Haf.
  eapply wp_mono; [eapply (@ack_frames_received _ EA _ dA iA devA ifcA devB ifcB _ i la lb
    (snd_nxt pa) (snd_nxt pb) _ acks (snd_una pa) pa1 wA1); try done; try ulia|].
  { rewrite Eabs. by eapply lost_awaiting. }
  { apply acks_up_again; [|by destruct old; [change (zlen (mjoin [])) with 0; lia|]|].
    - pose proof (zlen_nonneg (mjoin old)). pose proof (zlen_nonneg (mjoin new)). lia.
    - rewrite En, Z.add_assoc. apply text_acks_up. }
  intros [] wA2 (_&Hw2&pa2&Hpa2&[F1 F2 F3 F4 _ F5]&_&_). split; [done|]. exists pa2. split; [apply Hpa2|].
  pose proof (sa_conn _ _ _ _ _ _ _ _ _ Hat) as [D1 _ D2 D3 [K1 K2 K3 K4 K5 _]].
  specialize (F5 eq_refl). apply fmap_nil_inv in F5. cbn in F1, F2, F3, F4, D1, D2, D3, K3, K4.
  assert (tp_queue pb1 = []) as Q1 by (eapply fmap_nil_inv, K5; cbn; by rewrite B3).
  by split_and!; try done; lia.
Qed.

(** ** A sample loss *)

(** The clock stands at 15 s. *)
Definition late_env : Env := {|
  env_calloc _ := true;
  env_gettimeofday _ := Timeval 15 0;
  env_random _ := 12345;
  env_cond_destroy _ := 0;
  env_sys _ := 3;
  env_pthread _ := 0;
  env_write _ n := n;
  env_fails _ := None;
  env_patience := 0;
  env_hwaddr _ := mac_tap
|}.

Lemma late_env_ok : @EnvOk late_env.
Proof.
  split; cbn; try lia.
  - intros _. unfold tv_ok. cbn. lia.
  - intros k. exists k. split; [lia|done].
  - intros _. split; [|done]. by repeat apply Forall_cons_2.
Qed.

Lemma late_writes_whole : @writes_whole late_env.
Proof. done. Qed.

Lemma late_never_fails : @never_fails late_env.
Proof. done. Qed.

Lemma late_polls_succeed : @polls_succeed late_env.
Proof. done. Qed.

(** A second segment behind the sample one. *)
Definition sample_second : tcp_queue_entry :=
  TcpQueueEntry (Timeval 11 0) (Timeval 11 0) 200000 104 24 3 sample_text.

Definition sample_sender : tcp_pcb :=
  set_tp_queue [sample_sent; sample_second] (set_snd_nxt 107 sample_established).

(** The other end, which has received and read the first one. *)
Definition sample_half : tcp_pcb := set_rcv_nxt 104 sample_other.

Lemma sample_sender_ok : tcp_pcb_ok sample_sender.
Proof.
  unfold sample_sender. generalize sample_established sample_established_ok. intros p Hp.
  pose proof sample_sent_ok. assert (tcp_entry_ok sample_second).
  { split_and!; try (done || by repeat apply Forall_cons_2). exists 0. by split_and!. }
  pcb_fields Hp; ulia || by repeat constructor.
Qed.

Lemma sample_half_ok : tcp_pcb_ok sample_half.
Proof. unfold sample_half. generalize sample_other sample_other_ok. intros p Hp. pcb_fields Hp; ulia. Qed.

Lemma sample_lost : tcp_lost [sample_text] [sample_text] sample_sender sample_half.
Proof. constructor; try done; by repeat constructor. Qed.

Definition lossy_a : world := peer_tap sample_sender.
Definition lossy_b : world := peer_gw sample_half.

Lemma lossy_a_idle : others_idle (k := 0) (w0 := lossy_a).
Proof.
  intros [|j] q Hj Hq; [done|]. change (replicate 15 tcp_pcb_zero !! j = Some q) in Hq.
  apply lookup_replicate_1 in Hq as [-> _]. by left.
Qed.

Lemma sample_due n : Forall (rexmit_due (@env_gettimeofday late_env n)) (tp_queue sample_sender).
Proof. by repeat constructor. Qed.

Lemma sample_half_room :
  zlen (tcp_unread sample_half) + zlen (mjoin [sample_text]) <= TCP_BUFSIZ
  ∧ snd_nxt sample_sender = 107 ∧ snd_nxt sample_half = 500.
Proof. rewrite zlen_tcp_unread by apply sample_half_ok. by split_and!. Qed.

(** The second of two segments was lost, and the acknowledgement of the
    first. *)
Lemma tcp_loss_recovered_witness :
  ∃ wA1 frames wB1 pb1 acks wA2 pa2,
    @tcp_timer sample_machine late_env (@drivers sample_machine late_env) lossy_a = Done tt wA1
    ∧ y_wire (w_sys wA1) = pair 0%nat <$> frames
    ∧ for_each frames (@ether_receive sample_machine sample_env 0) lossy_b = Done tt wB1
    ∧ w_tcp wB1 !! 0%nat = Some pb1 ∧ tcp_unread pb1 = tcp_unread sample_half ++ sample_text
    ∧ y_wire (w_sys wB1) = pair 0%nat <$> acks
    ∧ for_each acks (@ether_receive sample_machine late_env 0) wA1 = Done tt wA2
    ∧ w_tcp wA2 !! 0%nat = Some pa2 ∧ tcp_synchronised pa2 pb1.
Proof.
  destruct sample_half_room as (W1&W2&W3).
  destruct (wp_Done _ _ _ (@tcp_loss_recovered sample_machine late_env sample_env late_env_ok sample_env_ok
    0 0 (link_tap mac_tap) (link_iface addr_tap) lossy_a 0 0 (link_tap mac_gw) (link_iface addr_gw) lossy_b 0 0
    sample_sender sample_half sample_local sample_foreign [sample_text] [sample_text]
    late_writes_whole late_never_fails late_polls_succeed
    sample_writes_whole sample_never_fails sample_polls_succeed
    (peer_tap_link _ sample_sender_ok) (peer_gw_link _ sample_half_ok) eq_refl eq_refl
    (peer_tap_end _ sample_sender_ok eq_refl eq_refl) (peer_gw_end _ sample_half_ok eq_refl eq_refl) sample_lost lossy_a_idle sample_due W1 ltac:(rewrite W2; done) ltac:(rewrite W3; done)))
    as ([]&wA1&E1&frames&Hf&Hrecv).
  destruct (wp_Done _ _ _ Hrecv) as ([]&wB1&E2&pb1&Hpb&Hu&acks&Ha&Hrecv').
  destruct (wp_Done _ _ _ Hrecv') as ([]&wA2&E3&_&pa2&Hpa&Hs).
  change (mjoin [sample_text]) with sample_text in Hu.
  exists wA1, frames, wB1, pb1, acks, wA2, pa2.
  exact (conj E1 (conj Hf (conj E2 (conj Hpb (conj Hu (conj Ha (conj E3 (conj Hpa Hs)))))))).
Defined.
