(* ===== verification/TcpConnect.v ===== *)
(** * TCP: opening a connection over the Ethernet

    A passive open waits on one host; an active open on another one sends its
    SYN to the wire.  The frames of the handshake are followed from device to
    device, and the two waiting calls return.  The proofs continue the program
    logic of TcpLink. *)

From S2P Require Import Prelude Bytes Checksum Clock Text Addr Monad State Platform Queue Net Ether.
From S2P Require Import Drivers Device Sample Receive Arp Ip Icmp Pseudo Udp Tcp TcpUser TcpLogic.
From S2P Require Import TcpConn TcpArrive TcpOps TcpProps TcpWire TcpTeardown TcpStream TcpTransfer TcpSample.
From S2P Require Import Stack Safety Boot Deliver UdpLoop EtherLink TcpLink.

(** No event has interrupted the calls that wait on the block. *)
Definition uninterrupted (p : tcp_pcb) : Prop := sc_interrupted (tp_ctx p) = 0.

(** The block of an active open that has sent its SYN. *)
Record tcp_dialling (local foreign : ip_endpoint) (p : tcp_pcb) : Prop := TcpDialling {
  di_state : tp_state p = TCP_PCB_STATE_SYN_SENT;
  di_local : tp_local p = local;
  di_foreign : tp_foreign p = foreign;
  di_iss : 0 <= tp_iss p < 2 ^ 31;
  di_una : snd_una p = tp_iss p;
  di_nxt : snd_nxt p = tp_iss p + 1;
  di_queue : Forall (λ e, tqe_seq e = tp_iss p) (tp_queue p);
  di_ctx : uninterrupted p
}.

(** The block of a passive open that has answered the SYN with number [a]. *)
Record tcp_answering (local foreign : ip_endpoint) (a : Z) (p : tcp_pcb) : Prop := TcpAnswering {
  an_state : tp_state p = TCP_PCB_STATE_SYN_RECEIVED;
  an_local : tp_local p = local;
  an_foreign : tp_foreign p = foreign;
  an_iss : 0 <= tp_iss p < 2 ^ 31;
  an_una : snd_una p = tp_iss p;
  an_nxt : snd_nxt p = tp_iss p + 1;
  an_rcv : rcv_nxt p = a + 1;
  an_unread : c_unread (abs p) = [];
  an_queue : Forall (λ e, e.1.1 = tp_iss p) (c_rexmit (abs p));
  an_ctx : uninterrupted p
}.

Section Connect.
Context `{Machine} `{EnvOk} {d i : nat} {dev : net_device} {ifc : ip_iface} {peer : Z} {ha : bytes}.
Context {w0 : world} (Hwr : writes_whole) (Hlink : tcp_link d i dev ifc peer ha w0) {k : nat}.
Notation lwp := (lwp (d := d) (dev := dev) (ifc := ifc) (peer := peer) (ha := ha) (w0 := w0)).

(** ** The active open *)

Lemma sleep_lwp Q pcb L segs :
  MutexTcp ∉ L → uninterrupted pcb → (∀ ctx, sc_interrupted ctx = 0 → Q false (set_tp_ctx ctx pcb) L segs) →
  lwp k (tcp_sleep k) Q pcb (MutexTcp :: L) segs.
Proof.
  intros HL Hu HQ. unfold tcp_sleep. apply lwp_ok. intros Hp. do 2 lwp_step.
  unfold sched_sleep_enter, nz. rewrite Hu. cbn [Z.eqb negb]. lwp_step. apply lwp_lift; [apply _|].
  apply pwp_put; [by destruct Hp|]. do 3 lwp_step. by apply HQ.
Qed.

Lemma awake_lwp Q pcb L segs :
  MutexTcp ∉ L → uninterrupted pcb →
  (∀ ctx, sc_interrupted ctx = 0 → Q 0 (set_tp_ctx ctx pcb) (MutexTcp :: L) segs) →
  lwp k (tcp_awake k 0) Q pcb L segs.
Proof.
  intros HL Hu HQ. unfold tcp_awake. apply lwp_ok. intros Hp. do 4 lwp_step.
  unfold sched_sleep_leave, nz. cbn [sc_interrupted set_sc_wc]. rewrite Hu. cbn [Z.eqb negb].
  lwp_step. apply lwp_lift; [apply _|]. apply pwp_put; [by destruct Hp|]. lwp_step. by apply HQ.
Qed.

Lemma queued_syn pcb flg queue :
  TCP_FLG_ISSET flg TCP_FLG_SYN = true → tp_queue pcb = [] → tcp_queued pcb flg [] 0 queue →
  Forall (λ e, tqe_seq e = tp_iss pcb) queue.
Proof.
  intros Hf Hq [[-> _]|(_&t&_&->)]; rewrite Hq; [by apply Forall_nil_2|]. apply Forall_singleton. cbn. by rewrite Hf.
Qed.

Lemma open_lwp local foreign pcb L :
  list_find (λ pcb, tp_state pcb = TCP_PCB_STATE_FREE) (w_tcp w0) = Some (k, pcb) → tp_queue pcb = [] →
  MutexTcp ∉ L → endpoint_ok local → endpoint_ok foreign →
  ep_addr local = if_unicast ifc → ep_addr foreign = peer →
  lwp k (tcp_open_rfc793 local (Some foreign) true) (λ r p L' s, L' = L ∧
    r = Blocked (k, TCP_PCB_STATE_SYN_SENT) ∧ tcp_dialling local foreign p
    ∧ ∃ seg, tcp_emits p TCP_FLG_SYN [] 0 = Some seg ∧ s = [seg]) pcb L [].
Proof.
  intros Hfind Hq HL Hl Hf Hloc Hfor. pose proof Hfind as (Hp&_&_)%list_find_Some.
  unfold tcp_open_rfc793. apply lwp_ok. intros Hok. do 3 lwp_step. unfold tcp_pcb_alloc.
  lwp_step. apply lwp_lift; [apply _|]. apply (pwp_gets (λ l, l)). rewrite list_insert_id, Hfind by done.
  lwp_step. apply lwp_lift; [apply _|]. apply pwp_put; [by pcb_fields Hok|]. lwp_step.
  lwp_step. apply lwp_lift; [apply _|]. eapply pwp_expect; [done|].
  unfold tcp_open_active. do 6 lwp_step. rewrite (u32_small iss) by ulia. lwp_step.
  match goal with |- TcpLink.lwp _ _ _ ?p _ _ => set (p1 := p) end.
  assert (tp_iss p1 = iss ∧ tp_local p1 = local ∧ tp_foreign p1 = foreign ∧ tp_queue p1 = [] ∧ uninterrupted p1)
    as (E1&E2&E3&E4&E5) by (by split_and!). clearbody p1. subst iss local foreign.
  apply (lwp_output Hwr Hlink); try done; [by apply Forall_nil_2|]. intros queue seg Hqd Eseg.
  cbn [Z.eqb]. do 2 lwp_step. unfold tcp_open_sleep. lwp_step. apply sleep_lwp; [done|done|].
  intros ctx Hctx. lwp_step. apply queued_syn in Hqd; [|done|done]. split_and!; [done|done| |by exists seg].
  constructor; try done. cbn. apply u32_small. ulia.
Qed.

(** ** The segments of the handshake *)

(** A SYN for a listener is answered. *)
Lemma listen_lwp seg data local foreign pcb L segs :
  w_tcp w0 !! k = Some pcb → conn_select local foreign (conns w0) = Some k →
  tp_state pcb = TCP_PCB_STATE_LISTEN → seg_ok seg → endpoint_ok local → endpoint_ok foreign →
  ep_addr local = if_unicast ifc → ep_addr foreign = peer →
  lwp k (tcp_segment_arrives seg TCP_FLG_SYN data 0 local foreign) (λ _ p L' s, L' = L ∧
    same_wait p pcb ∧ rcv_wnd p = TCP_BUFSIZ
    ∧ ∃ reply, tcp_emits p (Z.lor TCP_FLG_SYN TCP_FLG_ACK) [] 0 = Some reply ∧ s = segs ++ [reply]) pcb L segs.
Proof.
  intros Hp Hsel Hst (Hs&_) Hl Hf Hloc Hfor. apply lwp_ok. intros Hok. unfold tcp_segment_arrives.
  lwp_step. apply select_lwp; [done..|]. do 2 lwp_step. rewrite Hst.
  change (lwp k (tcp_listen_arrives k seg TCP_FLG_SYN local foreign) (λ _ p L' s, L' = L ∧
    same_wait p pcb ∧ rcv_wnd p = TCP_BUFSIZ
    ∧ ∃ reply, tcp_emits p (Z.lor TCP_FLG_SYN TCP_FLG_ACK) [] 0 = Some reply ∧ s = segs ++ [reply]) pcb L segs).
  unfold tcp_listen_arrives. change (TCP_FLG_ISSET TCP_FLG_SYN TCP_FLG_RST) with false.
  change (TCP_FLG_ISSET TCP_FLG_SYN TCP_FLG_ACK) with false.
  change (TCP_FLG_ISSET TCP_FLG_SYN TCP_FLG_SYN) with true. cbv iota. do 7 lwp_step.
  match goal with |- TcpLink.lwp _ _ _ ?p _ _ => set (p1 := p) end.
  assert (tp_local p1 = local ∧ tp_foreign p1 = foreign ∧ rcv_wnd p1 = TCP_BUFSIZ ∧ tp_ctx p1 = tp_ctx pcb)
    as (E1&E2&E3&E4) by (by split_and!). clearbody p1. subst local foreign.
  apply (lwp_output Hwr Hlink); try done; [by apply Forall_nil_2|]. intros queue reply _ Ereply.
  lwp_step. split_and!; [done|unfold same_wait; cbn; by rewrite E4|done|by exists reply].
Qed.

(** The answer to a SYN makes the connection established, and is answered. *)
Lemma syn_sent_lwp seg data local foreign pcb L segs :
  w_tcp w0 !! k = Some pcb → conn_select local foreign (conns w0) = Some k →
  tcp_dialling local foreign pcb → seg_ok seg → seg_ack seg = tp_iss pcb + 1 →
  ep_addr local = if_unicast ifc → ep_addr foreign = peer →
  lwp k (tcp_segment_arrives seg (Z.lor TCP_FLG_SYN TCP_FLG_ACK) data 0 local foreign) (λ _ p L' s, L' = L ∧
    uninterrupted p ∧ ∃ ack, tcp_emits p TCP_FLG_ACK [] 0 = Some ack ∧ s = segs ++ [ack]) pcb L segs.
Proof.
  intros Hp Hsel [Hst Hl Hf Hiss Huna Hnxt _ Hctx] (Hs&Ha&_&Hw) Hack Hloc Hfor. unfold tcp_segment_arrives.
  lwp_step. apply select_lwp; [done..|]. do 2 lwp_step. rewrite Hst.
  change (lwp k (tcp_syn_sent_arrives k seg (Z.lor TCP_FLG_SYN TCP_FLG_ACK) local foreign) (λ _ p L' s, L' = L ∧
    uninterrupted p ∧ ∃ ack, tcp_emits p TCP_FLG_ACK [] 0 = Some ack ∧ s = segs ++ [ack]) pcb L segs).
  unfold tcp_syn_sent_arrives. do 2 lwp_step.
  change (TCP_FLG_ISSET (Z.lor TCP_FLG_SYN TCP_FLG_ACK) TCP_FLG_ACK) with true. cbv iota.
  rewrite Hack, Hnxt, Huna, Z.gtb_ltb, Z.ltb_irrefl, Z.leb_refl, (proj2 (Z.leb_gt _ _)), (proj2 (Z.leb_le _ _)) by lia.
  cbn [orb andb]. unfold tcp_syn_sent_syn.
  change (TCP_FLG_ISSET (Z.lor TCP_FLG_SYN TCP_FLG_ACK) TCP_FLG_SYN) with true. cbv iota. rewrite Hack.
  assert (is_u32 (tp_iss pcb + 1)) as Hu by (by rewrite <- Hack). do 8 lwp_step.
  match goal with |- TcpLink.lwp _ _ _ ?p _ _ => set (p1 := p) end.
  assert (snd_una p1 = tp_iss p1 + 1 ∧ tp_local p1 = local ∧ tp_foreign p1 = foreign ∧ uninterrupted p1)
    as (E1&E2&E3&E4) by (by split_and!). clearbody p1. rewrite <- E2 in Hloc. rewrite <- E3 in Hfor.
  rewrite E1, Z.gtb_ltb, (proj2 (Z.ltb_lt _ _)) by lia. do 3 lwp_step.
  apply (lwp_output Hwr Hlink); try done; [by apply Forall_nil_2|]. intros queue ack _ Eack.
  do 3 lwp_step. split_and!; [done|done|]. by exists ack.
Qed.

(** The acknowledgement of its SYN establishes the connection of the
    listener; nothing is sent. *)
Lemma syn_received_lwp seg data local foreign pcb L segs :
  w_tcp w0 !! k = Some pcb → conn_select local foreign (conns w0) = Some k →
  tp_state pcb = TCP_PCB_STATE_SYN_RECEIVED → seg_ok seg → conn_acceptable seg (abs pcb) = true →
  snd_una pcb <= seg_ack seg <= snd_nxt pcb →
  lwp k (tcp_segment_arrives seg TCP_FLG_ACK data 0 local foreign) (λ _ p L' s, L' = L ∧
    same_wait p pcb ∧ s = segs) pcb L segs.
Proof.
  intros Hp Hsel Hst Hseg Hacc Hack. apply lwp_ok. intros Hpok. unfold tcp_segment_arrives.
  lwp_step. apply select_lwp; [done..|]. do 2 lwp_step. rewrite tcp_acceptable_abs, Hacc, Hst by done. cbn [negb].
  change (lwp k (go <- tcp_check_ack k seg TCP_FLG_ACK local foreign;;
    if negb go then ret tt else tcp_process_text k seg data 0;; tcp_process_fin k seg TCP_FLG_ACK)
    (λ _ p L' s, L' = L ∧ same_wait p pcb ∧ s = segs) pcb L segs).
  lwp_step. unfold tcp_check_ack. change (TCP_FLG_ISSET TCP_FLG_ACK TCP_FLG_ACK) with true. cbn [negb].
  do 2 lwp_step. rewrite Hst, Z.eqb_refl, !(proj2 (Z.leb_le _ _)) by lia. cbn [andb]. do 4 lwp_step.
  eapply lwp_mono; [apply ack_established_lwp; cbn; [done|done|lia]|].
  intros go p l s (->&->&->&E1&_&_&_&_&_&_&E8). cbn [negb]. unfold tcp_process_text. do 3 lwp_step.
  rewrite E1, bool_decide_eq_true_2 by (by left). cbn [nz Z.eqb negb]. lwp_step.
  unfold tcp_process_fin. change (TCP_FLG_ISSET TCP_FLG_ACK TCP_FLG_FIN) with false. by lwp_step.
Qed.

(** An open that waited returns its descriptor. *)
Lemma open_wake_lwp state pcb L segs :
  MutexTcp ∉ L → tp_state pcb = TCP_PCB_STATE_ESTABLISHED → state ≠ TCP_PCB_STATE_ESTABLISHED →
  uninterrupted pcb →
  lwp k (tcp_open_wake 0 (k, state)) (λ r p L' s, r = Returned (Z.of_nat k) ∧ L' = L ∧ s = segs) pcb L segs.
Proof.
  intros HL Hst Hne Hu. unfold tcp_open_wake. lwp_step. apply awake_lwp; [done|done|]. intros ctx _. cbn [Z.eqb].
  unfold tcp_open_loop. do 2 lwp_step. cbn [tp_state set_tp_ctx].
  rewrite Hst, (proj2 (Z.eqb_neq _ _)) by congruence. change (negb (TCP_PCB_STATE_ESTABLISHED =? TCP_PCB_STATE_ESTABLISHED)) with false. cbv iota. by do 3 lwp_step.
Qed.
End Connect.

Section Dial.
Context `{Machine} `{EnvOk}.

(** The frame of a segment without text that a block of the peer emits. *)
Lemma emitted_received d i dev ifc devA ifcA ha k q p flg seg frame local foreign (P : tcp_pcb → list bytes → Prop) w :
  writes_whole → never_fails → polls_succeed → tcp_link d i dev ifc (if_unicast ifcA) ha w →
  length (hw_addr devA) = 6%nat → bytes_ok (hw_addr devA) →
  ep_addr local = if_unicast ifc → ep_addr foreign = if_unicast ifcA →
  tcp_pcb_ok p → tp_local p = foreign → tp_foreign p = local → is_u8 flg →
  tcp_emits p flg [] 0 = Some seg → tcp_carries devA ifcA (if_unicast ifc) (hw_addr dev) seg frame →
  w_tcp w !! k = Some q → conn_select local foreign (conns w) = Some k →
  tcp_unicast (ep_addr foreign) (ep_addr local) ifc = true →
  let info := TcpSegmentInfo (if TCP_FLG_ISSET flg TCP_FLG_SYN then tp_iss p else snd_nxt p) (rcv_nxt p)
                (tcp_seg_len flg 0) (rcv_wnd p) 0 in
  (∀ w1 data, tcp_link d i dev ifc (if_unicast ifcA) ha w1 → w_tcp w1 = w_tcp w → bytes_ok data →
     lwp (d := d) (dev := dev) (ifc := ifc) (peer := if_unicast ifcA) (ha := ha) (w0 := w1) k
       (tcp_segment_arrives info flg data 0 local foreign)
       (λ _ p L s, L = [MutexTcp] ∧ P p s) q [MutexTcp] []) →
  wp (ether_receive d frame) (λ _ w', tcp_link d i dev ifc (if_unicast ifcA) ha w'
    ∧ tcp_answers d dev ifc (if_unicast ifcA) ha k q local foreign info flg [] P w w') w.
Proof.
  intros Hwr Hnf Hpoll Hlink Lm Hm Hloc Hfor [_ Hlo Hfo (Hn&_) _ (Hi&_) (Hr&Hw) _ _] <- <- Hflg Eseg
    (id&pkt&Hid&Epkt&->) Hq Hsel Huni info Hrun.
  pose proof (th_host _ _ _ _ _ (tl_host _ _ _ _ _ _ _ Hlink)) as Hip.
  unfold tcp_emits in Eseg.
  eapply (tcp_frame_received d i dev ifc (if_unicast ifcA) ha k q (hw_addr devA) _ (rcv_nxt p) flg (rcv_wnd p) [] 0
    (tp_foreign p) (tp_local p) seg id pkt P); try done.
  - by destruct (TCP_FLG_ISSET flg TCP_FLG_SYN).
  - by apply Forall_nil_2.
  - apply text_fits_0. by apply stack_tcp_ready, Hip.
  - intros w1 data Hl1 Ht1 Hd _. by apply Hrun.
Qed.

(** The block of the active open is the one for its endpoints. *)
Lemma dialling_select local foreign k p (cs : list conn) :
  (k < length cs)%nat → (∀ j c, cs !! j = Some c → conn_exact local foreign c = false) →
  tp_local p = local → tp_foreign p = foreign → conn_select local foreign (<[k := abs p]> cs) = Some k.
Proof.
  intros Hk Hno Hl Hf. unfold conn_select. rewrite (find_first_here _ _ k (abs p)); [done| | |].
  - by apply list_lookup_insert_eq.
  - unfold conn_exact, conn_local_matches. cbn. by rewrite Hl, Hf, !Z.eqb_refl, orb_true_r.
  - intros j c Hj Hc. rewrite list_lookup_insert_ne in Hc by lia. by eapply Hno.
Qed.

(** The open is called and its SYN is on the wire. *)
Lemma open_sends d i dev ifc ha k pcb local foreign w :
  writes_whole → tcp_link d i dev ifc (ep_addr foreign) ha w → ep_addr local = if_unicast ifc →
  endpoint_ok local → endpoint_ok foreign →
  list_find (λ pcb, tp_state pcb = TCP_PCB_STATE_FREE) (w_tcp w) = Some (k, pcb) → tp_queue pcb = [] →
  wp (tcp_open_rfc793 local (Some foreign) true) (λ r w', r = Blocked (k, TCP_PCB_STATE_SYN_SENT)
    ∧ tcp_link d i dev ifc (ep_addr foreign) ha w' ∧ ∃ p seg frame, w_tcp w' = <[k := p]> (w_tcp w)
    ∧ tcp_dialling local foreign p ∧ tcp_emits p TCP_FLG_SYN [] 0 = Some seg
    ∧ tcp_carries dev ifc (ep_addr foreign) ha seg frame
    ∧ y_wire (w_sys w') = y_wire (w_sys w) ++ [(d, frame)]) w.
Proof.
  intros Hwr Hlink Hloc Hl Hf Hfind Hq. pose proof Hfind as (Hp&_&_)%list_find_Some.
  pose proof (th_host _ _ _ _ _ (tl_host _ _ _ _ _ _ _ Hlink)) as Hip.
  pose proof (so_locked _ (ih_ok _ _ _ _ _ Hip) : locked w = []) as HL0.
  eapply wp_mono; [eapply (link_run Hlink); [exact Hp|]; apply (open_lwp Hwr Hlink local foreign pcb); try done|].
  { rewrite HL0. apply not_elem_of_nil. }
  intros r w' (p&L&segs&Hls&->&->&Hd&seg&Eseg&->). pose proof Hls as [_ (_&_&Et) _ _ _ (frames&Hwire&Hc)].
  apply Forall2_cons_inv_l in Hc as (frame&frames'&Hc1&Hc&->). apply Forall2_nil_inv_l in Hc as ->.
  split; [done|]. split; [by eapply link_after|]. by exists p, seg, frame.
Qed.

(** A wait that ends on an established connection. *)
Lemma open_returns d i dev ifc peer ha k p state w :
  tcp_link d i dev ifc peer ha w → w_tcp w !! k = Some p → tp_state p = TCP_PCB_STATE_ESTABLISHED →
  state ≠ TCP_PCB_STATE_ESTABLISHED → uninterrupted p →
  wp (tcp_open_wake 0 (k, state)) (λ r _, r = Returned (Z.of_nat k)) w.
Proof.
  intros Hlink Hp Hst Hne Hu. pose proof (th_host _ _ _ _ _ (tl_host _ _ _ _ _ _ _ Hlink)) as Hip.
  pose proof (so_locked _ (ih_ok _ _ _ _ _ Hip) : locked w = []) as HL0.
  eapply wp_mono; [eapply (link_run Hlink); [exact Hp|]; apply open_wake_lwp; try done|].
  { rewrite HL0. apply not_elem_of_nil. }
  by intros r w' (p'&L&segs&_&->&_&_).
Qed.

(** ** The frames of the handshake *)

Lemma one_answer (d : nat) (carries : bytes → bytes → Prop) (w w' : world) segs seg frames :
  segs = [seg] → y_wire (w_sys w') = y_wire (w_sys w) ++ (pair d <$> frames) → Forall2 carries segs frames →
  ∃ frame, carries seg frame ∧ y_wire (w_sys w') = y_wire (w_sys w) ++ [(d, frame)].
Proof.
  intros -> Hwire Hc. apply Forall2_cons_inv_l in Hc as (frame&frames'&Hc1&Hc&->).
  apply Forall2_nil_inv_l in Hc as ->. by exists frame.
Qed.

(** The SYN arrives at the listener. *)
Lemma syn_frame_received d i dev ifc devA ifcA ha k q p seg frame local foreign w :
  writes_whole → never_fails → polls_succeed → tcp_link d i dev ifc (if_unicast ifcA) ha w →
  length (hw_addr devA) = 6%nat → bytes_ok (hw_addr devA) →
  ep_addr local = if_unicast ifc → ep_addr foreign = if_unicast ifcA →
  tcp_pcb_ok p → tcp_dialling foreign local p →
  tcp_emits p TCP_FLG_SYN [] 0 = Some seg → tcp_carries devA ifcA (if_unicast ifc) (hw_addr dev) seg frame →
  w_tcp w !! k = Some q → conn_select local foreign (conns w) = Some k →
  tcp_unicast (ep_addr foreign) (ep_addr local) ifc = true →
  tp_state q = TCP_PCB_STATE_LISTEN → tp_queue q = [] → uninterrupted q →
  wp (ether_receive d frame) (λ _ w', tcp_link d i dev ifc (if_unicast ifcA) ha w'
    ∧ ∃ q' reply frame', w_tcp w' = <[k := q']> (w_tcp w) ∧ tcp_answering local foreign (tp_iss p) q'
    ∧ tcp_emits q' (Z.lor TCP_FLG_SYN TCP_FLG_ACK) [] 0 = Some reply
    ∧ tcp_carries dev ifc (if_unicast ifcA) ha reply frame'
    ∧ y_wire (w_sys w') = y_wire (w_sys w) ++ [(d, frame')]) w.
Proof.
  intros Hwr Hnf Hpoll Hlink Lm Hm Hloc Hfor Hok Hd Eseg Hc Hq Hsel Huni Hst Hqq Hu.
  pose proof Hd as [_ Hl Hf Hiss _ _ _ _]. pose proof Hok as [_ Hlo Hfo (Hn&_) _ (Hi&_) (Hr&Hw) _ _].
  rewrite Hl in Hlo. rewrite Hf in Hfo.
  eapply wp_mono; [eapply (emitted_received d i dev ifc devA ifcA ha k q p TCP_FLG_SYN seg frame local foreign
    (λ p s, uninterrupted p ∧ ∃ reply, tcp_emits p (Z.lor TCP_FLG_SYN TCP_FLG_ACK) [] 0 = Some reply ∧ s = [reply]));
    try done|].
  - intros w1 data Hl1 Ht1 Hdata. eapply lwp_mono; [apply (listen_lwp Hwr Hl1); try done|].
    + by rewrite Ht1.
    + unfold conns. by rewrite Ht1.
    + intros [] p' L s (->&Hctx&_&Hs). split; [done|]. split; [by unfold uninterrupted; rewrite Hctx|exact Hs].
  - intros [] w' (Hlink'&q'&segs&frames&Et&Harr&(Hu'&reply&Er&Es)&Hwire&Hall).
    change (tcp_seg_len TCP_FLG_SYN 0) with 1 in Harr.
    apply handshake_syn in Harr as (b&Hb&S1&S2&S3&S4&S5&S6&S7&S8&S9); [|done|done|by cbn; rewrite Hqq].
    destruct (one_answer _ _ _ _ _ _ _ Es Hwire Hall) as (frame'&Hc'&Hw'). cbn in S1, S2, S3, S4, S5, S6, S7.
    split; [done|]. exists q', reply, frame'. split_and!; try done. subst b. constructor; try done.
    rewrite S8. cbn. by rewrite Hst.
Qed.

(** Its answer arrives at the active open, which is established. *)
Lemma syn_ack_frame_received d i dev ifc devB ifcB ha k q p seg frame local foreign w :
  writes_whole → never_fails → polls_succeed → tcp_link d i dev ifc (if_unicast ifcB) ha w →
  length (hw_addr devB) = 6%nat → bytes_ok (hw_addr devB) →
  ep_addr local = if_unicast ifc → ep_addr foreign = if_unicast ifcB →
  tcp_pcb_ok p → tcp_answering foreign local (tp_iss q) p → tcp_dialling local foreign q →
  tcp_emits p (Z.lor TCP_FLG_SYN TCP_FLG_ACK) [] 0 = Some seg →
  tcp_carries devB ifcB (if_unicast ifc) (hw_addr dev) seg frame →
  w_tcp w !! k = Some q → conn_select local foreign (conns w) = Some k →
  tcp_unicast (ep_addr foreign) (ep_addr local) ifc = true →
  wp (ether_receive d frame) (λ _ w', tcp_link d i dev ifc (if_unicast ifcB) ha w'
    ∧ ∃ q' ack frame', w_tcp w' = <[k := q']> (w_tcp w)
    ∧ tp_state q' = TCP_PCB_STATE_ESTABLISHED ∧ snd_una q' = tp_iss q + 1 ∧ snd_nxt q' = tp_iss q + 1
    ∧ rcv_nxt q' = tp_iss p + 1 ∧ tp_local q' = local ∧ tp_foreign q' = foreign ∧ tp_queue q' = []
    ∧ uninterrupted q' ∧ tcp_emits q' TCP_FLG_ACK [] 0 = Some ack
    ∧ tcp_carries dev ifc (if_unicast ifcB) ha ack frame'
    ∧ y_wire (w_sys w') = y_wire (w_sys w) ++ [(d, frame')]) w.
Proof.
  intros Hwr Hnf Hpoll Hlink Lm Hm Hloc Hfor Hok Han Hd Eseg Hc Hq Hsel Huni.
  pose proof Han as [_ Hl Hf Hiss' _ _ Hrcv _ _ _]. pose proof Hd as [Dst Dl Df Hiss Duna Dnxt Dq Du].
  pose proof Hok as [_ Hlo Hfo (Hn&_) _ (Hi&_) (Hr&Hw) _ _].
  eapply wp_mono; [eapply (emitted_received d i dev ifc devB ifcB ha k q p (Z.lor TCP_FLG_SYN TCP_FLG_ACK) seg frame local foreign
    (λ p s, uninterrupted p ∧ ∃ ack, tcp_emits p TCP_FLG_ACK [] 0 = Some ack ∧ s = [ack])); try done|].
  - intros w1 data Hl1 Ht1 Hdata. apply (syn_sent_lwp Hwr Hl1); try done.
    + by rewrite Ht1.
    + unfold conns. by rewrite Ht1.
  - intros [] w' (Hlink'&q'&segs&frames&Et&Harr&(Hu'&ack&Er&Es)&Hwire&Hall).
    change (TCP_FLG_ISSET (Z.lor TCP_FLG_SYN TCP_FLG_ACK) TCP_FLG_SYN) with true in Harr. cbv iota in Harr.
    change (tcp_seg_len (Z.lor TCP_FLG_SYN TCP_FLG_ACK) 0) with 1 in Harr. rewrite Hrcv in Harr.
    apply handshake_syn_ack in Harr as (C1&C2&C3&C4&C5&C6&C7); try done; [|by apply Forall_fmap].
    destruct (one_answer _ _ _ _ _ _ _ Es Hwire Hall) as (frame'&Hc'&Hw'). cbn in C1, C2, C3, C4, C5, C6.
    apply fmap_nil_inv in C7. split; [done|]. exists q', ack, frame'. split_and!; try done; congruence.
Qed.

(** The acknowledgement of its SYN arrives at the passive open. *)
Lemma ack_syn_received d i dev ifc devA ifcA ha k q p seg frame local foreign w :
  writes_whole → never_fails → polls_succeed → tcp_link d i dev ifc (if_unicast ifcA) ha w →
  length (hw_addr devA) = 6%nat → bytes_ok (hw_addr devA) →
  ep_addr local = if_unicast ifc → ep_addr foreign = if_unicast ifcA →
  tcp_pcb_ok p → tp_local p = foreign → tp_foreign p = local →
  tcp_answering local foreign (snd_nxt p - 1) q → 0 < snd_nxt p <= 2 ^ 31 → rcv_nxt p = tp_iss q + 1 →
  tcp_emits p TCP_FLG_ACK [] 0 = Some seg → tcp_carries devA ifcA (if_unicast ifc) (hw_addr dev) seg frame →
  w_tcp w !! k = Some q → conn_select local foreign (conns w) = Some k →
  tcp_unicast (ep_addr foreign) (ep_addr local) ifc = true →
  wp (ether_receive d frame) (λ _ w', tcp_link d i dev ifc (if_unicast ifcA) ha w'
    ∧ y_wire (w_sys w') = y_wire (w_sys w) ∧ ∃ q', w_tcp w' !! k = Some q'
    ∧ tp_state q' = TCP_PCB_STATE_ESTABLISHED ∧ snd_una q' = rcv_nxt p ∧ snd_nxt q' = rcv_nxt p
    ∧ rcv_nxt q' = snd_nxt p ∧ tp_queue q' = [] ∧ uninterrupted q') w.
Proof.
  intros Hwr Hnf Hpoll Hlink Lm Hm Hloc Hfor Hok Hpl Hpf [A1 A2 A3 A4 A5 A6 A7 A8 A9 A10] Hnxt Hrp Eseg Hc Hq Hsel Huni.
  pose proof Hok as [_ Hlo Hfo (Hn&_) _ (Hi&_) (Hr&Hw) _ _].
  eapply wp_mono; [eapply (emitted_received d i dev ifc devA ifcA ha k q p TCP_FLG_ACK seg frame local foreign
    (λ p s, uninterrupted p ∧ s = [])); try done|].
  - intros w1 data Hl1 Ht1 Hdata. eapply lwp_mono; [apply syn_received_lwp; try done|].
    + by rewrite Ht1.
    + unfold conns. by rewrite Ht1.
    + assert (conn_rwnd (abs q) = 65535) as Erw by (unfold conn_rwnd; by rewrite A8).
      apply acceptable_next; rewrite ?Erw; cbn; unfold TCP_BUFSIZ; try (done || lia); [rewrite A1; by left|].
      change (snd_nxt p = rcv_nxt q). lia.
    + cbn. lia.
    + intros [] p' L s (->&Hctx&->). by split_and!; [|unfold uninterrupted; rewrite Hctx|].
  - intros [] w' (Hlink'&q'&segs&frames&Et&Harr&(Hu'&->)&Hwire&Hall).
    apply Forall2_nil_inv_l in Hall as ->. rewrite app_nil_r in Hwire.
    change (TCP_FLG_ISSET TCP_FLG_ACK TCP_FLG_SYN) with false in Harr. cbv iota in Harr.
    change (tcp_seg_len TCP_FLG_ACK 0) with 0 in Harr. rewrite Hrp in Harr.
    replace (snd_nxt p) with (snd_nxt p - 1 + 1) in Harr by lia.
    apply handshake_ack in Harr as (D1&D2&D3&D4&D5); try done; [|lia].
    cbn in D1, D2, D3, D4. apply fmap_nil_inv in D5. split_and!; [done|done|]. exists q'.
    split_and!; try done; try lia. rewrite Et. apply list_lookup_insert_eq. by eapply lookup_lt_Some.
Qed.
End Dial.

(** C4. A connection opens over the Ethernet.  Two hosts have routes to each
    other over their tap devices and each other's hardware addresses; block
    [j] of host B listens for host A's endpoint, and no block of host A has
    the endpoints yet.  The active open on A takes the first free block,
    writes one frame to its device and waits.  When the frame arrives at B's
    device B writes one, when that arrives at A's device A writes one, and when
    that arrives B writes none; each is answered as the protocol says, and in
    the end both blocks are established, expect each other's sequence numbers
    and have nothing to retransmit.  When the two waits end, the active open
    returns the descriptor of its block and the passive open that of its. *)
Theorem tcp_ethernet_open `{Machine} (EA EB : Env) `{!@EnvOk EA} `{!@EnvOk EB}
    dA iA devA ifcA wA dB iB devB ifcB wB i j pa ps la lb :
  @writes_whole EA → @never_fails EA → @polls_succeed EA →
  @writes_whole EB → @never_fails EB → @polls_succeed EB →
  tcp_link dA iA devA ifcA (if_unicast ifcB) (hw_addr devB) wA →
  tcp_link dB iB devB ifcB (if_unicast ifcA) (hw_addr devA) wB →
  ep_addr la = if_unicast ifcA → ep_addr lb = if_unicast ifcB → endpoint_ok la → endpoint_ok lb →
  tcp_unicast (ep_addr lb) (ep_addr la) ifcA = true → tcp_unicast (ep_addr la) (ep_addr lb) ifcB = true →
  list_find (λ pcb, tp_state pcb = TCP_PCB_STATE_FREE) (w_tcp wA) = Some (i, pa) → tp_queue pa = [] →
  (∀ k c, conns wA !! k = Some c → conn_exact la lb c = false) →
  w_tcp wB !! j = Some ps → conn_select lb la (conns wB) = Some j →
  tp_state ps = TCP_PCB_STATE_LISTEN → tp_queue ps = [] → uninterrupted ps →
  wp (@tcp_open_rfc793 _ EA (@drivers _ EA) la (Some lb) true) (λ r wA1,
    r = Blocked (i, TCP_PCB_STATE_SYN_SENT) ∧ ∃ syn, y_wire (w_sys wA1) = y_wire (w_sys wA) ++ [(dA, syn)]
    ∧ wp (@ether_receive _ EB dB syn) (λ _ wB1,
        ∃ syn_ack, y_wire (w_sys wB1) = y_wire (w_sys wB) ++ [(dB, syn_ack)]
        ∧ wp (@ether_receive _ EA dA syn_ack) (λ _ wA2,
            ∃ ack, y_wire (w_sys wA2) = y_wire (w_sys wA1) ++ [(dA, ack)]
            ∧ wp (@tcp_open_wake EA 0 (i, TCP_PCB_STATE_SYN_SENT)) (λ r _, r = Returned (Z.of_nat i)) wA2
            ∧ wp (@ether_receive _ EB dB ack) (λ _ wB2, y_wire (w_sys wB2) = y_wire (w_sys wB1)
                ∧ wp (@tcp_open_wake EB 0 (j, TCP_PCB_STATE_LISTEN)) (λ r _, r = Returned (Z.of_nat j)) wB2
                ∧ ∃ pa2 pb2, w_tcp wA2 !! i = Some pa2 ∧ w_tcp wB2 !! j = Some pb2
                  ∧ tcp_synchronised pa2 pb2) wB1) wA1) wB) wA.
Proof.
  intros HwA HnA HpA HwB HnB HpB HA HB Hla Hlb Hola Holb HuA HuB Hfind Hq Hno Hps Hsel Hst Hqs Hu.
  destruct (link_mac _ _ _ _ _ _ _ HA) as [LA HokA]. destruct (link_mac _ _ _ _ _ _ _ HB) as [LB HokB].
  pose proof Hfind as (Hi%lookup_lt_Some&_&_)%list_find_Some. pose proof (lookup_lt_Some _ _ _ Hps) as Hj.
  rewrite <- Hlb in HA.
  eapply wp_mono; [by apply (@open_sends _ EA _ dA iA devA ifcA (hw_addr devB) i pa la lb wA)|].
  intros r wA1 (->&HA1&p1&seg1&syn&Et1&Hd&Eseg1&Hc1&Hw1). split; [done|]. exists syn. split; [done|].
  rewrite Hlb in HA1, Hc1.
  assert (w_tcp wA1 !! i = Some p1) as Hp1 by (rewrite Et1; by apply list_lookup_insert_eq).
  pose proof (link_pcb _ _ _ _ _ _ _ _ _ HA1 Hp1) as Ok1.
  eapply wp_mono; [by apply (@syn_frame_received _ EB _ dB iB devB ifcB devA ifcA (hw_addr devA) j ps p1 seg1 syn lb la wB)|].
  intros [] wB1 (HB1&q1&seg2&syn_ack&Et2&Han&Eseg2&Hc2&Hw2). exists syn_ack. split; [done|].
  assert (w_tcp wB1 !! j = Some q1) as Hq1 by (rewrite Et2; by apply list_lookup_insert_eq).
  pose proof (link_pcb _ _ _ _ _ _ _ _ _ HB1 Hq1) as Ok2.
  eapply wp_mono; [apply (@syn_ack_frame_received _ EA _ dA iA devA ifcA devB ifcB (hw_addr devB) i p1 q1 seg2 syn_ack la lb wA1);
    try done|].
  { unfold conns. rewrite Et1, list_fmap_insert. apply dialling_select; [by rewrite length_fmap|done|apply Hd..]. }
  intros [] wA2 (HA2&p2&seg3&ack&Et3&P1&P2&P3&P4&P5&P6&P7&P8&Eseg3&Hc3&Hw3). exists ack. split; [done|].
  assert (w_tcp wA2 !! i = Some p2) as Hp2.
  { rewrite Et3. apply list_lookup_insert_eq. by eapply lookup_lt_Some. }
  pose proof (link_pcb _ _ _ _ _ _ _ _ _ HA2 Hp2) as Ok3. pose proof (di_iss _ _ _ Hd) as Hiss.
  split; [by eapply open_returns|].
  eapply wp_mono; [apply (@ack_syn_received _ EB _ dB iB devB ifcB devA ifcA (hw_addr devA) j q1 p2 seg3 ack lb la wB1);
    try done; try lia|].
  { by rewrite P3, Z.add_simpl_r. }
  { unfold conns. rewrite Et2, list_fmap_insert. apply conn_select_insert; [done|].
    unfold conn_exact, conn_local_matches. cbn. rewrite (an_local _ _ _ _ Han), (an_foreign _ _ _ _ Han).
    by rewrite !Z.eqb_refl, orb_true_r. }
  intros [] wB2 (HB2&Hw4&q2&Hq2&Q1&Q2&Q3&Q4&Q5&Q6). split; [done|]. split; [by eapply open_returns|].
  exists p2, q2. unfold tcp_synchronised. split_and!; try done; congruence.
Qed.

(** ** Two sample hosts *)

Definition dial_a : world := peer_tap tcp_pcb_zero.
Definition dial_b : world := peer_gw sample_listener.

Lemma dial_a_fresh k c : conns dial_a !! k = Some c → conn_exact sample_local sample_foreign c = false.
Proof.
  intros (p&Hp&->)%conns_lookup_inv. change (replicate 16 tcp_pcb_zero !! k = Some p) in Hp.
  apply lookup_replicate_1 in Hp as [-> _]. reflexivity.
Qed.

Lemma dial_b_select : conn_select sample_foreign sample_local (conns dial_b) = Some 0%nat.
Proof. exact sample_select_listener. Qed.

(** 192.0.2.2:49152 opens a connection to 192.0.2.1:80. *)
Lemma tcp_ethernet_open_witness :
  ∃ wA1 syn wB1 syn_ack wA2 ack wB2 wA3 wB3,
    @tcp_open_rfc793 sample_machine sample_env sample_ops sample_local (Some sample_foreign) true dial_a
      = Done (Blocked (0%nat, TCP_PCB_STATE_SYN_SENT)) wA1
    ∧ y_wire (w_sys wA1) = [(0%nat, syn)]
    ∧ @ether_receive sample_machine sample_env 0 syn dial_b = Done tt wB1
    ∧ y_wire (w_sys wB1) = [(0%nat, syn_ack)]
    ∧ @ether_receive sample_machine sample_env 0 syn_ack wA1 = Done tt wA2
    ∧ y_wire (w_sys wA2) = [(0%nat, syn)] ++ [(0%nat, ack)]
    ∧ @ether_receive sample_machine sample_env 0 ack wB1 = Done tt wB2
    ∧ @tcp_open_wake sample_env 0 (0%nat, TCP_PCB_STATE_SYN_SENT) wA2 = Done (Returned 0) wA3
    ∧ @tcp_open_wake sample_env 0 (0%nat, TCP_PCB_STATE_LISTEN) wB2 = Done (Returned 0) wB3.
Proof.
  destruct sample_endpoints_ok as [Hl Hf].
  destruct (wp_Done _ _ _ (@tcp_ethernet_open sample_machine sample_env sample_env sample_env_ok sample_env_ok
    0 0 (link_tap mac_tap) (link_iface addr_tap) dial_a 0 0 (link_tap mac_gw) (link_iface addr_gw) dial_b 0 0
    tcp_pcb_zero sample_listener sample_local sample_foreign
    sample_writes_whole sample_never_fails sample_polls_succeed
    sample_writes_whole sample_never_fails sample_polls_succeed
    (peer_tap_link _ tcp_pcb_zero_ok) (peer_gw_link _ sample_listener_ok) eq_refl eq_refl Hl Hf eq_refl eq_refl
    eq_refl eq_refl dial_a_fresh eq_refl dial_b_select eq_refl eq_refl eq_refl))
    as (r&wA1&E1&->&syn&W1&Hrecv).
  destruct (wp_Done _ _ _ Hrecv) as ([]&wB1&E2&syn_ack&W2&Hrecv2).
  destruct (wp_Done _ _ _ Hrecv2) as ([]&wA2&E3&ack&W3&Hwake&Hrecv3).
  destruct (wp_Done _ _ _ Hwake) as (r&wA3&E4&->). destruct (wp_Done _ _ _ Hrecv3) as ([]&wB2&E5&_&Hwake2&_).
  destruct (wp_Done _ _ _ Hwake2) as (r&wB3&E6&->). rewrite W1 in W3.
  exists wA1, syn, wB1, syn_ack, wA2, ack, wB2, wA3, wB3.
  exact (conj E1 (conj W1 (conj E2 (conj W2 (conj E3 (conj W3 (conj E5 (conj E4 E6)))))))).
Defined.
