(* ===== verification/TcpServe.v ===== *)
(** * Serving a connection

    What a program does between two waits on a connection, over the Ethernet:
    it takes what was received, sends one or more buffers and waits again.
    [request_answered] is the exchange with a client, for every program that
    does this; the programs of [Echo] and [Serve] are instances. *)

From stdpp Require Import sets.
From S2P Require Import Prelude Bytes Checksum Clock Text Addr Monad State Platform Queue Net Ether.
From S2P Require Import Drivers Device Sample Receive Arp Ip Icmp Pseudo Udp Tcp TcpUser TcpLogic.
From S2P Require Import TcpConn TcpArrive TcpOps TcpProps TcpWire TcpTeardown TcpStream TcpTransfer TcpSample.
From S2P Require Import Stack Safety Deliver EtherLink TcpLink TcpConnect.

(** ** Consecutive sends *)

Section SendAll.
Context `{Machine} `{Env} `{!DeviceOps}.

(** Buffers that are handed to [tcp_send] one after the other, whatever it
    returns; a call that waits leaves its buffer and the ones behind it. *)
Fixpoint tcp_send_all (soc : Z) (bufs : list bytes) : C (waits (tcp_sending * bytes * list bytes) unit) :=
  match bufs with
  | [] => ret (Returned tt)
  | buf :: bufs =>
      r <- tcp_send soc buf (zlen buf);;
      match r with
      | Blocked k => ret (Blocked (k, buf, bufs))
      | Returned _ => tcp_send_all soc bufs
      end
  end.

(** The wait in one of them ends with [err]. *)
Definition tcp_send_all_wake (err soc : Z) (k : tcp_sending * bytes * list bytes)
  : C (waits (tcp_sending * bytes * list bytes) unit) :=
  let '(k, buf, bufs) := k in
  r <- tcp_send_wake err k buf (zlen buf);;
  match r with
  | Blocked k => ret (Blocked (k, buf, bufs))
  | Returned _ => tcp_send_all soc bufs
  end.
End SendAll.

Section Serve.
Context `{Machine} `{EnvOk} {d i : nat} {dev : net_device} {ifc : ip_iface} {peer : Z} {ha : bytes}.
Context {w0 : world} (Hwr : writes_whole) (Hlink : tcp_link d i dev ifc peer ha w0) {k : nat}.
Notation lwp := (lwp (d := d) (dev := dev) (ifc := ifc) (peer := peer) (ha := ha) (w0 := w0)).

Lemma send_all_lwp bufs : ∀ pcb L segs,
  never_fails → MutexTcp ∉ L → tp_state pcb = TCP_PCB_STATE_ESTABLISHED → Forall bytes_ok bufs →
  ep_addr (tp_local pcb) = if_unicast ifc → ep_addr (tp_foreign pcb) = peer →
  0 <= snd_una pcb <= snd_nxt pcb → snd_nxt pcb + zlen (mjoin bufs) < 2 ^ 32 →
  snd_nxt pcb - snd_una pcb + zlen (mjoin bufs) <= snd_wnd pcb < 2 ^ 32 →
  Forall2 (entry_emitted pcb) (tp_queue pcb) segs →
  lwp k (tcp_send_all (Z.of_nat k) bufs) (λ r p L' s, r = Returned tt ∧ L' = L
    ∧ texts_sent (mjoin bufs) pcb p ∧ Forall2 (entry_emitted p) (tp_queue p) s) pcb L segs.
Proof.
  induction bufs as [|buf bufs IH]; intros pcb L segs Hmem HL Hst Hok Hloc Hfor Hun Hwrap Hwnd Hq;
    cbn [tcp_send_all].
  { lwp_step. split_and!; [done|done|apply texts_sent_nil|done]. }
  apply Forall_cons in Hok as [Hb Hok]. change (mjoin (buf :: bufs)) with (buf ++ mjoin bufs) in *.
  rewrite zlen_app in *. pose proof (zlen_nonneg buf). pose proof (zlen_nonneg (mjoin bufs)). lwp_step.
  eapply lwp_mono; [apply (tcp_send_lwp Hwr Hlink); (done || lia)|].
  intros r p l s (->&->&Hts&Hem). pose proof Hts as [_ (texts&_&_&E)].
  pose proof (f_equal c_state E) as E1. pose proof (f_equal c_nxt E) as E2. pose proof (f_equal c_una E) as E3.
  pose proof (f_equal c_wnd E) as E4. pose proof (f_equal c_local E) as E5. pose proof (f_equal c_foreign E) as E6.
  cbn in E1, E2, E3, E4, E5, E6.
  eapply lwp_mono; [apply IH; rewrite ?E2, ?E3, ?E4; (done || congruence || lia)|].
  intros r q l s' (->&->&Hts'&Hem'). split_and!; [done|done|by eapply texts_sent_app|done].
Qed.

(** What is unread is received. *)
Lemma receive_retry_lwp size pcb L segs :
  MutexTcp ∉ L → 0 <= size → tp_state pcb = TCP_PCB_STATE_ESTABLISHED → tcp_unread pcb ≠ [] →
  lwp k (tcp_receive_retry k size) (λ r p L' s, L' = L ∧ s = segs ∧ tp_ctx p = tp_ctx pcb
    ∧ (let out := take (Z.to_nat size) (tcp_unread pcb) in r = Returned (zlen out, out))
    ∧ abs p = set_c_unread (drop (Z.to_nat size) (tcp_unread pcb)) (abs pcb)) pcb (MutexTcp :: L) segs.
Proof.
  intros HL Hsz Hst Hne. apply lwp_ok. intros Hp. pose proof (zlen_tcp_unread pcb Hp) as Hz.
  assert (c_unread (abs pcb) = tcp_unread pcb) as Eu by (cbn; by rewrite Hst).
  unfold tcp_receive_retry. do 2 lwp_step. rewrite Hst.
  change (TCP_PCB_STATE_ESTABLISHED =? TCP_PCB_STATE_ESTABLISHED) with true. cbv iota zeta. unfold nz.
  destruct (Z.eqb_spec (TCP_BUFSIZ - rcv_wnd pcb) 0) as [E|_]; cbn [negb].
  { destruct Hne. rewrite E in Hz. destruct (tcp_unread pcb) as [|b l]; [done|]. rewrite zlen_cons in Hz.
    pose proof (zlen_nonneg l). lia. }
  apply lwp_lift; [apply _|]. eapply pwp_mono; [by apply receive_copy_pwp; [| |rewrite Hst]|].
  intros r p l (->&Hr&Ea&Hc). rewrite Eu in Hr, Ea. by split_and!.
Qed.

(** The end of the wait of [tcp_receive] when text has come. *)
Lemma receive_wake_lwp size pcb L segs :
  MutexTcp ∉ L → 0 <= size → tp_state pcb = TCP_PCB_STATE_ESTABLISHED → tcp_unread pcb ≠ [] → uninterrupted pcb →
  lwp k (tcp_receive_wake 0 k size) (λ r p L' s, L' = L ∧ s = segs ∧ uninterrupted p
    ∧ (let out := take (Z.to_nat size) (tcp_unread pcb) in r = Returned (zlen out, out))
    ∧ abs p = set_c_unread (drop (Z.to_nat size) (tcp_unread pcb)) (abs pcb)) pcb L segs.
Proof.
  intros HL Hsz Hst Hne Hu. unfold tcp_receive_wake. lwp_step. apply awake_lwp; [done|done|]. intros ctx Hctx.
  cbn [Z.eqb]. eapply lwp_mono; [by apply receive_retry_lwp|].
  intros r p l s (->&->&Hc&Hr&Ea). split_and!; try done. unfold uninterrupted. by rewrite Hc.
Qed.

(** With nothing unread, [tcp_receive] waits. *)
Lemma receive_waits_lwp size pcb L segs :
  MutexTcp ∉ L → tp_state pcb = TCP_PCB_STATE_ESTABLISHED → tcp_unread pcb = [] → uninterrupted pcb →
  lwp k (tcp_receive (Z.of_nat k) size) (λ r p L' s, L' = L ∧ s = segs ∧ r = Blocked k) pcb L segs.
Proof.
  intros HL Hst Hne Hu. apply lwp_ok. intros Hp. pose proof (zlen_tcp_unread pcb Hp) as Hz. rewrite Hne in Hz.
  unfold tcp_receive. do 3 lwp_step. apply tcp_pcb_get_lwp; [by rewrite Hst|]. unfold tcp_receive_retry.
  do 2 lwp_step. rewrite Hst, <- Hz.
  change (TCP_PCB_STATE_ESTABLISHED =? TCP_PCB_STATE_ESTABLISHED) with true. cbv iota zeta.
  change (negb (nz (zlen []))) with true. cbv iota. lwp_step. apply sleep_lwp; [done|done|].
  intros ctx _. by lwp_step.
Qed.
End Serve.

Lemma bytes_ok_mjoin bufs : bytes_ok (mjoin bufs) → Forall bytes_ok bufs.
Proof.
  induction bufs as [|buf bufs IH]; [by constructor|].
  change (mjoin (buf :: bufs)) with (buf ++ mjoin bufs). intros [? ?]%bytes_ok_app. by constructor; auto.
Qed.

Lemma send_all_frames `{Machine} `{EnvOk} d i dev ifc ha k local foreign p bufs w :
  writes_whole → never_fails → tcp_link d i dev ifc (ep_addr foreign) ha w →
  ep_addr local = if_unicast ifc → tcp_end i ifc k local foreign p w →
  tp_state p = TCP_PCB_STATE_ESTABLISHED → snd_una p = snd_nxt p → tp_queue p = [] →
  bytes_ok (mjoin bufs) → zlen (mjoin bufs) <= snd_wnd p → snd_nxt p + zlen (mjoin bufs) < 2 ^ 32 →
  wp (tcp_send_all (Z.of_nat k) bufs) (λ r w', r = Returned tt
    ∧ link_sent d i dev ifc ha k local foreign p (mjoin bufs) w w') w.
Proof.
  intros Hwr Hmem Hlink Hloc He Hst Huna Hq Hok Hwnd Hwrap. pose proof He as [Hr Hp Hl Hf _ _ _].
  pose proof (tcp_end_ok _ _ _ _ _ _ _ He) as [_ _ _ (Hn&Hu&Hw) _ _ _ _ _].
  pose proof (th_host _ _ _ _ _ (tl_host _ _ _ _ _ _ _ Hlink)) as Hip.
  pose proof (so_locked _ (ih_ok _ _ _ _ _ Hip) : locked w = []) as HL0.
  apply (link_sends _ (λ r, r = Returned tt)); [done..|].
  apply (send_all_lwp Hwr Hlink); try done; try ulia.
  - rewrite HL0. apply not_elem_of_nil.
  - by apply bytes_ok_mjoin.
  - by rewrite Hl.
  - by rewrite Hf.
  - by rewrite Hq.
Qed.

Lemma receive_end `{Machine} `{EnvOk} d i dev ifc peer ha k l f p size w :
  tcp_link d i dev ifc peer ha w → tcp_end i ifc k l f p w → tp_state p = TCP_PCB_STATE_ESTABLISHED →
  0 < zlen (tcp_unread p) <= size → uninterrupted p →
  wp (tcp_receive_wake 0 k size) (λ r w', r = Returned (zlen (tcp_unread p), tcp_unread p)
    ∧ tcp_link d i dev ifc peer ha w' ∧ y_wire (w_sys w') = y_wire (w_sys w)
    ∧ ∃ p', tcp_end i ifc k l f p' w' ∧ uninterrupted p' ∧ abs p' = set_c_unread [] (abs p)) w.
Proof.
  intros Hlink He Hst Hz Hu. pose proof (th_host _ _ _ _ _ (tl_host _ _ _ _ _ _ _ Hlink)) as Hip.
  pose proof (so_locked _ (ih_ok _ _ _ _ _ Hip) : locked w = []) as HL0.
  eapply wp_mono; [eapply (link_run Hlink); [apply He|]; apply (receive_wake_lwp size); try done; try lia|].
  - rewrite HL0. apply not_elem_of_nil.
  - intros E. rewrite E in Hz. change (zlen []) with 0 in Hz. lia.
  - intros r w' (p'&L&segs&Hls&->&->&Hu'&Hr&Ea). cbv zeta in Hr.
    assert (take (Z.to_nat size) (tcp_unread p) = tcp_unread p) as Et by (apply take_ge; unfold zlen in Hz; lia).
    assert (drop (Z.to_nat size) (tcp_unread p) = []) as Ed by (apply drop_ge; unfold zlen in Hz; lia).
    rewrite Et in Hr. rewrite Ed in Ea. pose proof Hls as [_ (_&_&Et') _ _ _ (frames&Hwire&Hall)].
    apply Forall2_nil_inv_l in Hall as ->. rewrite app_nil_r in Hwire.
    assert (tcp_link d i dev ifc peer ha w') as Hlink' by (by eapply link_after).
    split_and!; [done|done|done|]. exists p'. split_and!; [|done|done].
    eapply link_end_step; [done|done|done|by injection Ea|by injection Ea].
Qed.

(** A read leaves the two ends synchronised. *)
Lemma read_synchronised p q q' :
  tcp_synchronised p q → abs q' = set_c_unread [] (abs q) →
  tcp_synchronised q' p ∧ tcp_unread q' = [] ∧ snd_wnd q' = snd_wnd q ∧ snd_nxt q' = snd_nxt q.
Proof.
  intros (A1&B1&AB&BA&A2&B2&A3&B3) E.
  pose proof (f_equal c_state E) as E1. pose proof (f_equal c_nxt E) as E2. pose proof (f_equal c_una E) as E3.
  pose proof (f_equal c_rcv E) as E4. pose proof (f_equal c_rexmit E) as E5. pose proof (f_equal c_wnd E) as E6.
  pose proof (f_equal c_unread E) as E7. cbn in E1, E2, E3, E4, E5, E6, E7. rewrite B3 in E5. rewrite E1, B1 in E7.
  apply fmap_nil_inv in E5. split_and!; try done. unfold tcp_synchronised. split_and!; try done; congruence.
Qed.


(** ** A request and its answer *)

(** A client at block [i] of host A sends [req]; a program on host B, in the
    wait of [tcp_receive] on block [j], goes on with [serve].  The frames go
    to and fro over the devices [dA] and [dB]: the request's to B, where they
    are acknowledged; those that [serve] writes, after which the program is in
    the state [st], to A, where [answer] is then behind what was unread,
    [before]; A's acknowledgements to B, after which the two ends are
    synchronised and [after] holds at B. *)
Definition tcp_dialogue `{Machine} (EA EB : Env) {S} (dA dB i j : nat) (before req : bytes) (serve : C S) (st : S)
    (answer : bytes) (after : world → Prop) (wA wB : world) : Prop :=
  wp (@tcp_send _ EA (@drivers _ EA) (Z.of_nat i) req (zlen req)) (λ r wA1,
    r = Returned (zlen req) ∧ ∃ frames, y_wire (w_sys wA1) = y_wire (w_sys wA) ++ (pair dA <$> frames)
    ∧ wp (for_each frames (@ether_receive _ EB dB)) (λ _ wB1,
        ∃ acks, y_wire (w_sys wB1) = y_wire (w_sys wB) ++ (pair dB <$> acks)
        ∧ wp (for_each acks (@ether_receive _ EA dA)) (λ _ wA2,
          wp serve (λ s wB2, s = st
            ∧ ∃ frames', y_wire (w_sys wB2) = y_wire (w_sys wB1) ++ (pair dB <$> frames')
            ∧ wp (for_each frames' (@ether_receive _ EA dA)) (λ _ wA3,
                ∃ pa3, w_tcp wA3 !! i = Some pa3 ∧ tcp_unread pa3 = before ++ answer
                ∧ ∃ acks', y_wire (w_sys wA3) = y_wire (w_sys wA2) ++ (pair dA <$> acks')
                ∧ wp (for_each acks' (@ether_receive _ EB dB)) (λ _ wB3,
                    (∃ pb3, w_tcp wB3 !! j = Some pb3 ∧ tcp_synchronised pb3 pa3) ∧ after wB3)
                    wB2) wA2) wB1) wA1) wB) wA.

(** A connection with nothing unread, on which a call can wait. *)
Definition tcp_served `{Machine} d i dev ifc peer ha j l f (w : world) : Prop :=
  tcp_link d i dev ifc peer ha w ∧ ∃ p, tcp_end i ifc j l f p w
  ∧ tp_state p = TCP_PCB_STATE_ESTABLISHED ∧ tcp_unread p = [] ∧ uninterrupted p.

Lemma tcp_dialogue_mono `{Machine} EA EB {S} dA dB i j before req (serve : C S) st answer
    (P Q : world → Prop) wA wB :
  tcp_dialogue EA EB dA dB i j before req serve st answer P wA wB → (∀ w, P w → Q w) →
  tcp_dialogue EA EB dA dB i j before req serve st answer Q wA wB.
Proof.
  intros HP HPQ. eapply wp_mono; [exact HP|]. intros r wA1 (->&fs&Hw1&H1). split; [done|]. exists fs. split; [done|].
  eapply wp_mono; [exact H1|]. intros [] wB1 (acks&Hw2&H2). exists acks. split; [done|].
  eapply wp_mono; [exact H2|]. intros [] wA2 H3. eapply wp_mono; [exact H3|]. intros s wB2 (->&fs'&Hw3&H4).
  split; [done|]. exists fs'. split; [done|]. eapply wp_mono; [exact H4|].
  intros [] wA3 (pa3&Hp&Hu&acks'&Hw4&H5). exists pa3. split_and!; [done|done|]. exists acks'. split; [done|].
  eapply wp_mono; [exact H5|]. intros [] wB3 [Hs HP']. split; [done|by apply HPQ].
Qed.

(** Host A, a client, and host B, with a program that waits on the
    connection: routes to each other over their tap devices, each other's
    hardware addresses, and ends that are synchronised, with nothing unread
    at B.  The hosts have environments of their own. *)
Record tcp_session `{Machine} (EA EB : Env) (dA iA : nat) (devA : net_device) (ifcA : ip_iface) (wA : world)
    (dB iB : nat) (devB : net_device) (ifcB : ip_iface) (wB : world) (i j : nat) (pa pb : tcp_pcb)
    (la lb : ip_endpoint) : Prop := TcpSession {
  ts_writes_A : @writes_whole EA;
  ts_memory_A : @never_fails EA;
  ts_polls_A : @polls_succeed EA;
  ts_writes_B : @writes_whole EB;
  ts_memory_B : @never_fails EB;
  ts_polls_B : @polls_succeed EB;
  ts_link_A : tcp_link dA iA devA ifcA (if_unicast ifcB) (hw_addr devB) wA;
  ts_link_B : tcp_link dB iB devB ifcB (if_unicast ifcA) (hw_addr devA) wB;
  ts_addr_A : ep_addr la = if_unicast ifcA;
  ts_addr_B : ep_addr lb = if_unicast ifcB;
  ts_end_A : tcp_end iA ifcA i la lb pa wA;
  ts_end_B : tcp_end iB ifcB j lb la pb wB;
  ts_synchronised : tcp_synchronised pa pb;
  ts_unread : tcp_unread pb = [];
  ts_uninterrupted : uninterrupted pb
}.

(** A request that fits the program's buffer of [size] bytes, an answer, and
    windows, buffers and sequence numbers with room for them. *)
Record tcp_room `{Machine} (pa pb : tcp_pcb) (size : Z) (req answer : bytes) : Prop := TcpRoom {
  tm_req : bytes_ok req;
  tm_size : 0 < zlen req <= size;
  tm_req_buf : zlen req <= TCP_BUFSIZ;
  tm_req_wnd : zlen req <= snd_wnd pa;
  tm_answer : bytes_ok answer;
  tm_answer_buf : zlen (tcp_unread pa) + zlen answer <= TCP_BUFSIZ;
  tm_answer_wnd : zlen answer <= snd_wnd pb;
  tm_wrap_A : snd_nxt pa + zlen req + TCP_BUFSIZ < 2 ^ 32;
  tm_wrap_B : snd_nxt pb + zlen answer + TCP_BUFSIZ < 2 ^ 32
}.

(** A program that, given [req], sends [answer], answers the request. *)
Lemma request_answered `{Machine} (EA EB : Env) `{!@EnvOk EA} `{!@EnvOk EB} {S}
    dA iA devA ifcA wA dB iB devB ifcB wB i j pa pb la lb (cont : waits nat (Z * bytes) → C S) st size req answer :
  tcp_session EA EB dA iA devA ifcA wA dB iB devB ifcB wB i j pa pb la lb → tcp_room pa pb size req answer →
  (∀ p w, tcp_link dB iB devB ifcB (ep_addr la) (hw_addr devA) w → tcp_end iB ifcB j lb la p w →
     tp_state p = TCP_PCB_STATE_ESTABLISHED → snd_una p = snd_nxt p → tp_queue p = [] →
     zlen answer <= snd_wnd p → snd_nxt p + zlen answer < 2 ^ 32 →
     wp (cont (Returned (zlen req, req)))
       (λ s w', s = st ∧ @link_sent _ dB iB devB ifcB (hw_addr devA) j lb la p answer w w') w) →
  tcp_dialogue EA EB dA dB i j (tcp_unread pa) req
    (bind (tcp_receive_wake 0 j size) cont) st answer
    (tcp_served dB iB devB ifcB (if_unicast ifcA) (hw_addr devA) j lb la) wA wB.
Proof.
  intros [HwA HnA HpA HwB HnB HpB HA HB Hla Hlb Ha Hb Hs Hun Hu]
    [Hok Hmax Hfit HwndA Hok' Hroom HwndB Hwrap Hwrap'] Hcont.
  pose proof (zlen_nonneg answer). assert (zlen (tcp_unread pb) = 0) as Hz by (by rewrite Hun).
  eapply wp_mono; [apply (@ethernet_transfer _ EA EB _ _ dA iA devA ifcA wA dB iB devB ifcB wB i j pa pb la lb req);
    (done || lia)|].
  intros r wA1 (->&frames&Hw1&Hrecv). split; [done|]. exists frames. split; [done|].
  eapply wp_mono; [exact Hrecv|]. intros [] wB1 (HB1&pb1&Hb1&Hu1&Hsame1&Hwnd1&Hnxt1&acks&Hw2&Hrecv2).
  exists acks. split; [done|]. rewrite Hun in Hu1. cbn [app] in Hu1.
  eapply wp_mono; [exact Hrecv2|]. intros [] wA2 (Hw3&HA2&pa2&Ha2&Hu2&_&Hnxt2&Hs2).
  pose proof Hs2 as (S1&S2&S3&S4&S5&S6&S7&S8). apply wp_bind.
  eapply wp_mono; [apply (@receive_end _ EB _ dB iB devB ifcB (if_unicast ifcA) (hw_addr devA) j lb la pb1
    size wB1); try done; [rewrite Hu1; lia|]|].
  { unfold uninterrupted. by rewrite Hsame1. }
  intros r wB2 (->&HB2&Hw4&pb2&Hb2&Hui2&Eabs). rewrite Hu1.
  destruct (read_synchronised pa2 pb1 pb2 Hs2 Eabs) as (Hs3&Hun2&Hwnd2&Hnxt2'). pose proof Hs3 as (T1&_&_&_&T2&_&T3&_).
  pose proof HB2 as HB2'. rewrite <- Hla in HB2'. unfold TCP_BUFSIZ in Hwrap'.
  eapply wp_mono; [apply (Hcont pb2 wB2); (done || (rewrite ?Hwnd2, ?Hnxt2', ?Hwnd1, ?Hnxt1; lia))|].
  intros s wB3 [-> Hsent]. split; [done|].
  destruct (@ethernet_exchange _ EB EA _ _ dB iB devB ifcB wB2 wB3 dA iA devA ifcA wA2 j i pb2 pa2 lb la answer)
    as (echo&Hw5&Hrecv3); (done || (rewrite ?Hwnd2, ?Hnxt2', ?Hwnd1, ?Hnxt1, ?Hu2, ?Hnxt2; unfold TCP_BUFSIZ in *; lia) || idtac).
  exists echo. split; [by rewrite Hw5, Hw4|]. eapply wp_mono; [exact Hrecv3|].
  intros [] wA3 (HA3&pa3&Ha3&Hu3&_&_&_&acks'&Hw6&Hrecv4). exists pa3. split_and!; [apply Ha3|by rewrite Hu3, Hu2|].
  exists acks'. split; [done|]. eapply wp_mono; [exact Hrecv4|].
  intros [] wB4 (_&HB4&pb4&Hb4&Hu4&Hsame4&_&Hs4). split; [exists pb4; split; [apply Hb4|done]|].
  split; [done|]. exists pb4. split_and!; [done|apply Hs4|by rewrite Hu4|]. unfold uninterrupted. by rewrite Hsame4.
Qed.

(** [tcp_receive] waits on such a connection. *)
Lemma served_waits `{Machine} `{EnvOk} d i dev ifc peer ha j l f size w :
  tcp_served d i dev ifc peer ha j l f w → wp (tcp_receive (Z.of_nat j) size) (λ r _, r = Blocked j) w.
Proof.
  intros (Hlink&p&He&Hst&Hz&Hu). pose proof (th_host _ _ _ _ _ (tl_host _ _ _ _ _ _ _ Hlink)) as Hip.
  pose proof (so_locked _ (ih_ok _ _ _ _ _ Hip) : locked w = []) as HL0.
  eapply wp_mono; [eapply (link_run Hlink); [apply He|]; apply receive_waits_lwp; try done|].
  - rewrite HL0. apply not_elem_of_nil.
  - by intros r w' (p'&L&segs&_&_&_&->).
Qed.

(** A dialogue as the runs it consists of. *)
Lemma tcp_dialogue_runs `{Machine} EA EB {S} dA dB i j before req (serve : C S) st answer after wA wB :
  tcp_dialogue EA EB dA dB i j before req serve st answer after wA wB →
  ∃ wA1 frames wB1 acks wA2 wB2 frames' wA3 pa3 acks' wB3,
    @tcp_send _ EA (@drivers _ EA) (Z.of_nat i) req (zlen req) wA = Done (Returned (zlen req)) wA1
    ∧ y_wire (w_sys wA1) = y_wire (w_sys wA) ++ (pair dA <$> frames)
    ∧ for_each frames (@ether_receive _ EB dB) wB = Done tt wB1
    ∧ y_wire (w_sys wB1) = y_wire (w_sys wB) ++ (pair dB <$> acks)
    ∧ for_each acks (@ether_receive _ EA dA) wA1 = Done tt wA2
    ∧ serve wB1 = Done st wB2
    ∧ y_wire (w_sys wB2) = y_wire (w_sys wB1) ++ (pair dB <$> frames')
    ∧ for_each frames' (@ether_receive _ EA dA) wA2 = Done tt wA3
    ∧ w_tcp wA3 !! i = Some pa3 ∧ tcp_unread pa3 = before ++ answer
    ∧ y_wire (w_sys wA3) = y_wire (w_sys wA2) ++ (pair dA <$> acks')
    ∧ for_each acks' (@ether_receive _ EB dB) wB2 = Done tt wB3 ∧ after wB3.
Proof.
  intros Hd. destruct (wp_Done _ _ _ Hd) as (r&wA1&E1&->&frames&Hf&Hrecv).
  destruct (wp_Done _ _ _ Hrecv) as ([]&wB1&E2&acks&Ha&Hrecv2).
  destruct (wp_Done _ _ _ Hrecv2) as ([]&wA2&E3&Hwake).
  destruct (wp_Done _ _ _ Hwake) as (?&wB2&E4&->&frames'&Hf'&Hrecv3).
  destruct (wp_Done _ _ _ Hrecv3) as ([]&wA3&E5&pa3&Hp&Hu&acks'&Ha'&Hrecv4).
  destruct (wp_Done _ _ _ Hrecv4) as ([]&wB3&E6&_&Haft).
  by exists wA1, frames, wB1, acks, wA2, wB2, frames', wA3, pa3, acks', wB3.
Qed.

(** ** A sample session *)

Lemma sample_session :
  @tcp_session sample_machine sample_env sample_env 0 0 (link_tap mac_tap) (link_iface addr_tap) peer_a
    0 0 (link_tap mac_gw) (link_iface addr_gw) peer_b 0 0 sample_established sample_other sample_local sample_foreign.
Proof.
  exact (@TcpSession sample_machine sample_env sample_env 0 0 (link_tap mac_tap) (link_iface addr_tap) peer_a
    0 0 (link_tap mac_gw) (link_iface addr_gw) peer_b 0 0 sample_established sample_other sample_local sample_foreign
    sample_writes_whole sample_never_fails sample_polls_succeed
    sample_writes_whole sample_never_fails sample_polls_succeed
    (peer_tap_link _ sample_established_ok) (peer_gw_link _ sample_other_ok) eq_refl eq_refl
    (peer_tap_end _ sample_established_ok eq_refl eq_refl) (peer_gw_end _ sample_other_ok eq_refl eq_refl)
    sample_synchronised eq_refl eq_refl).
Qed.

Lemma sample_room size req answer :
  bytes_ok req → 0 < zlen req <= size → zlen req <= 1000 → bytes_ok answer → zlen answer <= 1000 →
  @tcp_room sample_machine sample_established sample_other size req answer.
Proof.
  intros Hr Hs Hr' Ha Ha'. constructor; try done;
    rewrite ?(zlen_tcp_unread sample_established) by apply sample_established_ok.
  all: change (snd_wnd sample_established) with 1000; change (snd_wnd sample_other) with 1000;
    change (snd_nxt sample_established) with 101; change (snd_nxt sample_other) with 500;
    change (rcv_wnd sample_established) with TCP_BUFSIZ; unfold TCP_BUFSIZ; lia.
Qed.
