(* ===== verification/Setup.v ===== *)
(** * Starting the stack

    [setup] and [cleanup] of [src/src/test/step28.c] with the addresses of
    [src/src/test/test.h]: the calls by which the programs of the tutorial
    bring up a loopback and a tap device.  The theorem is that a start at
    which nothing fails ends in a state on which the theorems on deliveries
    hold. *)

From Stdlib Require Import String.
From S2P Require Import Prelude Bytes Checksum Clock Text Log Addr Monad State Platform Queue Net Ether.
From S2P Require Import Drivers Device Sample Receive Timers Arp Ip Icmp Pseudo Udp Tcp TcpUser TcpLogic.
From S2P Require Import TcpConn TcpArrive TcpOps TcpProps Stack Safety Boot Deliver UdpLoop EtherLink.

(** A string literal, terminated. *)
Definition literal (s : string) : bytes := txt s ++ [0].

Definition LOOPBACK_IP_ADDR : bytes := literal "127.0.0.1"%string.
Definition LOOPBACK_NETMASK : bytes := literal "255.0.0.0"%string.
Definition ETHER_TAP_NAME : bytes := literal "tap0"%string.
Definition ETHER_TAP_HW_ADDR : bytes := literal "00:00:5e:00:53:01"%string.
Definition ETHER_TAP_IP_ADDR : bytes := literal "192.168.70.2"%string.
Definition ETHER_TAP_NETMASK : bytes := literal "255.255.255.0"%string.
Definition DEFAULT_GATEWAY : bytes := literal "192.168.70.1"%string.

Section Setup.
Context `{Machine} `{Env}.

Definition setup : C Z :=
  env_call env_sys;;
  r <- net_init;;
  if r =? -1 then ret (-1)
  else
    dev <- loopback_init;;
    match dev with
    | None => ret (-1)
    | Some dev =>
        iface <- ip_iface_alloc LOOPBACK_IP_ADDR LOOPBACK_NETMASK;;
        match iface with
        | None => ret (-1)
        | Some iface =>
            r <- ip_iface_register dev iface;;
            if r =? -1 then ret (-1)
            else
              dev <- ether_tap_init ETHER_TAP_NAME (Some ETHER_TAP_HW_ADDR);;
              match dev with
              | None => ret (-1)
              | Some dev =>
                  iface <- ip_iface_alloc ETHER_TAP_IP_ADDR ETHER_TAP_NETMASK;;
                  match iface with
                  | None => ret (-1)
                  | Some iface =>
                      r <- ip_iface_register dev iface;;
                      if r =? -1 then ret (-1)
                      else
                        r <- ip_route_set_default_gateway iface DEFAULT_GATEWAY;;
                        if r =? -1 then ret (-1)
                        else
                          r <- net_run;;
                          if r =? -1 then ret (-1) else ret 0
                  end
              end
        end
    end.

(** The start of the servers [src/src/test/static-http-server.c] and
    [src/src/test/ws-echo.c]: the tap device alone, and no gateway. *)
Definition server_setup : C Z :=
  env_call env_sys;;
  r <- net_init;;
  if r =? -1 then ret (-1)
  else
    dev <- ether_tap_init ETHER_TAP_NAME (Some ETHER_TAP_HW_ADDR);;
    match dev with
    | None => ret (-1)
    | Some dev =>
        iface <- ip_iface_alloc ETHER_TAP_IP_ADDR ETHER_TAP_NETMASK;;
        match iface with
        | None => ret (-1)
        | Some iface =>
            r <- ip_iface_register dev iface;;
            if r =? -1 then ret (-1)
            else
              r <- net_run;;
              if r =? -1 then ret (-1) else ret 0
        end
    end.

(** It waits a second first. *)
Definition cleanup : C unit := net_shutdown.
End Setup.
(** ** The state after a start at which nothing fails *)

Section Ready.
Context `{Machine} `{Env}.

Definition lo_device : net_device :=
  NetDevice [0%nat] 0 (net_name 0) NET_DEVICE_TYPE_LOOPBACK LOOPBACK_MTU
    (Z.lor NET_DEVICE_FLAG_LOOPBACK NET_DEVICE_FLAG_UP) 0 0
    (replicate 16 0) (replicate 16 0) (Some OpsLoopback) (PrivLoopback LOOPBACK_IRQ []).

Definition tap_device (fd : Z) : net_device :=
  NetDevice [1%nat] 1 (net_name 1) NET_DEVICE_TYPE_ETHERNET ETHER_PAYLOAD_SIZE_MAX
    (Z.lor (Z.lor NET_DEVICE_FLAG_BROADCAST NET_DEVICE_FLAG_NEED_ARP) NET_DEVICE_FLAG_UP) ETHER_HDR_SIZE
    ETHER_ADDR_LEN ([0; 0; 94; 0; 83; 1] ++ replicate 10 0) (ETHER_ADDR_BROADCAST ++ replicate 10 0)
    (Some OpsEtherTap) (PrivTap ETHER_TAP_NAME fd ETHER_TAP_IRQ).

Definition lo_iface : ip_iface :=
  IpIface NET_IFACE_FAMILY_IP (Some 0%nat) (load32 127 0 0 1) (load32 255 0 0 0) (load32 127 0 0 0).

Definition tap_iface : ip_iface :=
  IpIface NET_IFACE_FAMILY_IP (Some 1%nat) (load32 192 168 70 2) (load32 255 255 255 0)
    (load32 192 168 70 0).

Definition ready_routes : list ip_route :=
  [IpRoute IP_ADDR_ANY IP_ADDR_ANY (load32 192 168 70 1) 1;
   IpRoute (load32 192 168 70 0) (load32 255 255 255 0) IP_ADDR_ANY 1;
   IpRoute (load32 127 0 0 0) (load32 255 0 0 0) IP_ADDR_ANY 0].

Definition ready_world (arp : list arp_cache) (udp : list udp_pcb) (tcp : list tcp_pcb) : world :=
  World
    (SysState 30 [] [] true
       [IrqEntry ETHER_TAP_IRQ IsrEtherTap INTR_IRQ_SHARED (net_name 1) 1;
        IrqEntry LOOPBACK_IRQ IsrLoopback INTR_IRQ_SHARED (net_name 0) 0]
       [SIGHUP; SIGUSR1; SIGUSR2; SIGALRM; LOOPBACK_IRQ; ETHER_TAP_IRQ] [] [])
    (NetState [lo_device; tap_device (env_sys 25)] [1%nat; 0%nat] 2 [lo_iface; tap_iface]
       [NetProtocol NET_PROTOCOL_TYPE_ARP [] HandlerArp; NetProtocol NET_PROTOCOL_TYPE_IP [] HandlerIp]
       [NetTimer (Timeval 0 100000) (env_gettimeofday 10) TimerTcp;
        NetTimer (Timeval 1 0) (env_gettimeofday 5) TimerArp]
       [EventTcp; EventUdp])
    (IpState [1%nat; 0%nat]
       [IpProtocol IP_PROTOCOL_TCP HandlerTcp; IpProtocol IP_PROTOCOL_UDP HandlerUdp;
        IpProtocol IP_PROTOCOL_ICMP HandlerIcmp] ready_routes 128)
    arp udp tcp.

(** The state after the start of a server. *)
Definition server_tap (fd : Z) : net_device :=
  NetDevice [0%nat] 0 (net_name 0) NET_DEVICE_TYPE_ETHERNET ETHER_PAYLOAD_SIZE_MAX
    (Z.lor (Z.lor NET_DEVICE_FLAG_BROADCAST NET_DEVICE_FLAG_NEED_ARP) NET_DEVICE_FLAG_UP) ETHER_HDR_SIZE
    ETHER_ADDR_LEN ([0; 0; 94; 0; 83; 1] ++ replicate 10 0) (ETHER_ADDR_BROADCAST ++ replicate 10 0)
    (Some OpsEtherTap) (PrivTap ETHER_TAP_NAME fd ETHER_TAP_IRQ).

Definition server_iface : ip_iface :=
  IpIface NET_IFACE_FAMILY_IP (Some 0%nat) (load32 192 168 70 2) (load32 255 255 255 0)
    (load32 192 168 70 0).

Definition server_world (arp : list arp_cache) (udp : list udp_pcb) (tcp : list tcp_pcb) : world :=
  World
    (SysState 24 [] [] true
       [IrqEntry ETHER_TAP_IRQ IsrEtherTap INTR_IRQ_SHARED (net_name 0) 0]
       [SIGHUP; SIGUSR1; SIGUSR2; SIGALRM; ETHER_TAP_IRQ] [] [])
    (NetState [server_tap (env_sys 19)] [0%nat] 1 [server_iface]
       [NetProtocol NET_PROTOCOL_TYPE_ARP [] HandlerArp; NetProtocol NET_PROTOCOL_TYPE_IP [] HandlerIp]
       [NetTimer (Timeval 0 100000) (env_gettimeofday 10) TimerTcp;
        NetTimer (Timeval 1 0) (env_gettimeofday 5) TimerArp]
       [EventTcp; EventUdp])
    (IpState [0%nat]
       [IpProtocol IP_PROTOCOL_TCP HandlerTcp; IpProtocol IP_PROTOCOL_UDP HandlerUdp;
        IpProtocol IP_PROTOCOL_ICMP HandlerIcmp]
       [IpRoute (load32 192 168 70 0) (load32 255 255 255 0) IP_ADDR_ANY 0] 128)
    arp udp tcp.
End Ready.

(** ** The run *)

Section Run.
Context `{EnvOk}.
Hypothesis Hnf : never_fails.
Hypothesis Hsys : ∀ k, env_sys k ≠ -1.
Hypothesis Hpthread : ∀ k, env_pthread k = 0.

Lemma sys_succeeds k : (env_sys k =? -1) = false.
Proof. by apply Z.eqb_neq. Qed.

(** Symbolic execution: the state is a record of values, in which only the
    descriptor and the times of the clock are symbols. *)
Ltac norm_world :=
  lazymatch goal with |- wp ?m ?Q ?w =>
    let w' := eval cbv -[env_gettimeofday env_sys] in w in change (wp m Q w')
  end.

Ltac norm_test b :=
  let b' := eval cbv -[env_gettimeofday env_sys env_calloc env_pthread] in b in change b with b'.

Ltac run_step :=
  cbv beta; lazymatch goal with
  | |- wp (if ?b then _ else _) _ _ =>
      first [rewrite Hnf | rewrite sys_succeeds | rewrite Hpthread | norm_test b]; cbv iota
  | |- wp (match ops_open _ with _ => _ end) _ _ => cbn [ops_open drivers]
  | |- wp (match ?o with _ => _ end) _ _ => norm_test o; cbv iota beta
  | |- wp (let _ := _ in _) _ _ => cbv zeta
  | |- wp (expect _ ?o) _ _ => norm_test o; wp_step
  | |- wp ?m _ _ =>
      first [wp_step; norm_world | progress (cbv beta iota) | let m' := eval red in m in change m with m']
  end.

Lemma setup_run (M : Machine) arp udp tcp :
  wp setup (λ r w, r = 0 ∧ w = ready_world arp udp tcp)
    (World (SysState 0 [] [] false [] [] [] []) (NetState [] [] 0 [] [] [] []) (IpState [] [] [] 128)
       arp udp tcp).
Proof. unfold setup. destruct M; repeat run_step; (split; [done|reflexivity]). Qed.

Lemma server_run (M : Machine) arp udp tcp :
  wp server_setup (λ r w, r = 0 ∧ w = server_world arp udp tcp)
    (World (SysState 0 [] [] false [] [] [] []) (NetState [] [] 0 [] [] [] []) (IpState [] [] [] 128)
       arp udp tcp).
Proof. unfold server_setup. destruct M; repeat run_step; (split; [done|reflexivity]). Qed.
End Run.

(** ** The hosts it makes *)

Section Hosts.
Context `{Machine} `{EnvOk}.

Lemma load32_ok a b c d : is_u8 a → is_u8 b → is_u8 c → is_u8 d → is_u32 (load32 a b c d).
Proof. apply load32_range. Qed.

Lemma lo_device_wf : dev_wf lo_device.
Proof.
  split_and!; try done; try (vm_compute; done); repeat apply Forall_cons_2; try apply Forall_nil_2; ulia.
Qed.

Lemma tap_device_wf fd : dev_wf (tap_device fd).
Proof.
  split_and!; try done; try (vm_compute; done); repeat apply Forall_cons_2; try apply Forall_nil_2; ulia.
Qed.

Lemma ready_dev_0 fd : ready_dev [lo_device; tap_device fd] 0.
Proof. exists lo_device. split_and!; [done|apply lo_device_wf|done]. Qed.

Lemma ready_dev_1 fd : ready_dev [lo_device; tap_device fd] 1.
Proof. exists (tap_device fd). split_and!; [done|apply tap_device_wf|done]. Qed.

Lemma ready_ok arp udp tcp : arp_wf arp → udp_wf udp → tcp_wf tcp → stack_ok (ready_world arp udp tcp).
Proof.
  intros Harp Hudp Htcp.
  assert (∀ i, (i < 2)%nat → attached (w_net (ready_world arp udp tcp)) i) as Hatt.
  { intros [|[|i]] Hi; [..|lia]; by eexists _, _. }
  constructor; try done.
  - repeat apply Forall_cons_2; try apply Forall_nil_2; (split; [apply Hatt; cbn; lia|]);
      try done; by apply load32_ok.
  - apply Forall_cons_2; [|apply Forall_singleton]; (split_and!; [by apply load32_ok..|]); intros d [= <-];
      [apply ready_dev_0|apply ready_dev_1].
  - intros [|[|d]] dev i [= <-] Hi; apply Hatt; apply list_elem_of_singleton in Hi as ->; lia.
  - destruct (tap_device_wf (env_sys 25)) as (?&_&?&_). destruct lo_device_wf as (?&_&?&_).
    repeat apply Forall_cons_2; try apply Forall_nil_2; eexists; (split; [done|]); by split_and!.
  - repeat apply Forall_cons_2; try apply Forall_nil_2; by eexists.
  - intros p Hp. cbn in Hp. rewrite !elem_of_cons, elem_of_nil in Hp. by destruct Hp as [->|[->|[->|[]]]].
  - repeat apply Forall_cons_2; apply Forall_nil_2.
  - repeat apply Forall_cons_2; try apply Forall_nil_2; (split; [cbn; lia|apply Forall_nil_2]).
  - apply Forall_nil_2.
Qed.

(** Masks of whole bytes, and addresses byte for byte. *)
Lemma land_load32 a b c d a' b' c' d' :
  is_u8 a → is_u8 b → is_u8 c → is_u8 d → is_u8 a' → is_u8 b' → is_u8 c' → is_u8 d' →
  Z.land (load32 a b c d) (load32 a' b' c' d')
  = load32 (Z.land a a') (Z.land b b') (Z.land c c') (Z.land d d').
Proof. intros. unfold load32. destruct mach_endian; by apply land_digits. Qed.

Lemma load32_eqb a b c d a' b' c' d' :
  is_u8 a → is_u8 b → is_u8 c → is_u8 d → is_u8 a' → is_u8 b' → is_u8 c' → is_u8 d' →
  (load32 a b c d =? load32 a' b' c' d') = (a =? a') && (b =? b') && (c =? c') && (d =? d').
Proof. intros. unfold load32, is_u8 in *. destruct mach_endian; lia. Qed.

Lemma land_255 a : is_u8 a → Z.land a 255 = a.
Proof. intros. change 255 with (Z.ones 8). rewrite Z.land_ones by lia. apply Z.mod_small. ulia. Qed.

(** Where a packet for an address goes: to the loopback device, to a
    neighbour on the Ethernet, or to the gateway. *)
Lemma ready_route a b c d :
  is_u8 a → is_u8 b → is_u8 c → is_u8 d → let dst := load32 a b c d in
  ∃ r, ip_route_select ready_routes dst = Some r ∧
    if a =? 127 then rt_iface r = 0%nat ∧ next_hop r dst = dst
    else if (a =? 192) && (b =? 168) && (c =? 70) then rt_iface r = 1%nat ∧ next_hop r dst = dst
    else rt_iface r = 1%nat ∧ next_hop r dst = load32 192 168 70 1.
Proof.
  intros Ha Hb Hc Hd dst. unfold ip_route_select, ready_routes, ip_route_better. cbn [fold_left rt_netmask rt_network].
  assert (Z.land dst IP_ADDR_ANY = 0) as -> by apply Z.land_0_r.
  assert (Z.land dst (load32 255 255 255 0) = load32 a b c 0) as ->.
  { unfold dst. rewrite land_load32, !land_255, Z.land_0_r by done. done. }
  assert (Z.land dst (load32 255 0 0 0) = load32 a 0 0 0) as ->.
  { unfold dst. rewrite land_load32, land_255, !Z.land_0_r by done. done. }
  rewrite !load32_eqb, !Z.eqb_refl, !andb_true_r by done. change (0 =? IP_ADDR_ANY) with true. cbv iota.
  assert (ntoh32 IP_ADDR_ANY <? ntoh32 (load32 255 255 255 0) = true) as Em1 by (clear; by destruct H).
  assert (ntoh32 IP_ADDR_ANY <? ntoh32 (load32 255 0 0 0) = true) as Em2 by (clear; by destruct H).
  destruct (Z.eqb_spec a 127) as [->|Hne].
  - cbn [Z.eqb Pos.eqb andb rt_netmask]. rewrite Em2. by eexists.
  - destruct ((a =? 192) && (b =? 168) && (c =? 70)); cbn [rt_netmask].
    + rewrite Em1. by eexists.
    + eexists. split_and!; [done..|]. unfold next_hop. cbn [rt_nexthop]. clear. by destruct H.
Qed.

Lemma ready_loop arp udp tcp :
  arp_wf arp → udp_wf udp → tcp_wf tcp → loop_host 0 0 lo_device lo_iface (ready_world arp udp tcp).
Proof.
  intros Harp Hudp Htcp. constructor; try done.
  - constructor; try done; [by apply ready_ok|by eexists _, _..].
  - destruct (ready_route 127 0 0 1) as (r&Hr&Hi&_); [done..|]. by exists r.
  - eexists [_], _, []. split_and!; try done. by apply Forall_singleton.
Qed.

Lemma ready_tap arp udp tcp :
  arp_wf arp → udp_wf udp → tcp_wf tcp →
  tap_host 1 1 (tap_device (env_sys 25)) tap_iface (ready_world arp udp tcp).
Proof.
  intros Harp Hudp Htcp. constructor; try done.
  - constructor; try done; [by apply ready_ok|by eexists _, _..].
  - by eexists _, _.
  - eexists [], _, [_]. split_and!; try done. by apply Forall_singleton.
Qed.

Lemma server_tap_wf fd : dev_wf (server_tap fd).
Proof.
  split_and!; try done; try (vm_compute; done); repeat apply Forall_cons_2; try apply Forall_nil_2; ulia.
Qed.

Lemma server_ok arp udp tcp : arp_wf arp → udp_wf udp → tcp_wf tcp → stack_ok (server_world arp udp tcp).
Proof.
  intros Harp Hudp Htcp.
  assert (attached (w_net (server_world arp udp tcp)) 0) as Hatt by (by eexists _, _).
  constructor; try done.
  - apply Forall_singleton. split_and!; try done; by apply load32_ok.
  - apply Forall_singleton. split_and!; [by apply load32_ok..|]. intros d [= <-].
    exists (server_tap (env_sys 19)). split_and!; [done|apply server_tap_wf|done].
  - intros [|d] dev i [= <-] Hi. by apply list_elem_of_singleton in Hi as ->.
  - destruct (server_tap_wf (env_sys 19)) as (?&_&?&_). apply Forall_singleton. eexists. split; [done|]. by split_and!.
  - repeat apply Forall_cons_2; try apply Forall_nil_2; by eexists.
  - intros p Hp. cbn in Hp. rewrite !elem_of_cons, elem_of_nil in Hp. by destruct Hp as [->|[->|[->|[]]]].
  - repeat apply Forall_cons_2; apply Forall_nil_2.
  - repeat apply Forall_cons_2; try apply Forall_nil_2; (split; [cbn; lia|apply Forall_nil_2]).
  - apply Forall_nil_2.
Qed.

Lemma server_host arp udp tcp :
  arp_wf arp → udp_wf udp → tcp_wf tcp →
  tap_host 0 0 (server_tap (env_sys 19)) server_iface (server_world arp udp tcp).
Proof.
  intros Harp Hudp Htcp. constructor; try done.
  - constructor; try done; [by apply server_ok|by eexists _, _..].
  - by eexists _, _.
  - eexists [], _, []. split_and!; done.
Qed.
End Hosts.

(** C15. A start at which nothing fails: memory does not run out, no system
    call reports an error.  [setup] returns 0 and has made a host on which
    the theorems on deliveries hold: a loopback device at 127.0.0.1, and a
    tap device that is up, with the hardware address 00:00:5e:00:53:01, at
    192.168.70.2.  Packets for 127.0.0.0/8 go to the loopback device, those
    for 192.168.70.0/24 to the neighbour on the tap device, and all others to
    the gateway 192.168.70.1; the timers have times in order. *)
Theorem setup_ready `{Machine} `{EnvOk} :
  never_fails → (∀ k, env_sys k ≠ -1) → (∀ k, env_pthread k = 0) →
  wp setup (λ r w, r = 0 ∧ ∃ lo lo_ifc tap tap_ifc,
    loop_host 0 0 lo lo_ifc w ∧ if_unicast lo_ifc = load32 127 0 0 1
    ∧ tap_host 1 1 tap tap_ifc w ∧ if_unicast tap_ifc = load32 192 168 70 2
    ∧ hw_addr tap = [0; 0; 94; 0; 83; 1]
    ∧ (∀ a b c d, is_u8 a → is_u8 b → is_u8 c → is_u8 d → let dst := load32 a b c d in
       ∃ r, ip_route_select (i_routes (w_ip w)) dst = Some r ∧
         if a =? 127 then rt_iface r = 0%nat ∧ next_hop r dst = dst
         else if (a =? 192) && (b =? 168) && (c =? 70) then rt_iface r = 1%nat ∧ next_hop r dst = dst
         else rt_iface r = 1%nat ∧ next_hop r dst = load32 192 168 70 1)
    ∧ Forall timer_ok (n_timers (w_net w)) ∧ w_udp w = w_udp boot_world ∧ w_arp w = w_arp boot_world)
    boot_world.
Proof.
  intros Hnf Hsys Hp. destruct boot_ok as [Hu Ht Ha].
  eapply wp_mono; [apply (setup_run Hnf Hsys Hp)|]. intros r w [-> ->]. split; [done|].
  exists lo_device, lo_iface, (tap_device (env_sys 25)), tap_iface.
  split_and!; [by apply ready_loop|done|by apply ready_tap|done|done|apply ready_route| |done|done].
  apply Forall_cons_2; [|apply Forall_singleton]; (split; [by split|apply env_time_ok]).
Qed.

Lemma setup_ready_witness :
  ∃ w tap tap_ifc, @setup sample_machine sample_env boot_world = Done 0 w
    ∧ tap_host 1 1 tap tap_ifc w ∧ hw_addr tap = [0; 0; 94; 0; 83; 1].
Proof.
  destruct (wp_Done _ _ _ (@setup_ready sample_machine sample_env sample_env_ok sample_never_fails
    ltac:(done) ltac:(done))) as (r&w&E&->&lo&lo_ifc&tap&tap_ifc&_&_&Ht&_&Hhw&_).
  exists w, tap, tap_ifc. split_and!; [exact E|exact Ht|exact Hhw].
Defined.
