(* ===== verification/Echo.v ===== *)
(** * The echo programs

    The mains of [src/src/test/step20-1.c] (UDP) and [src/src/test/step28.c]
    (TCP): each sets the stack up, opens a socket and sends back what it
    receives, until a signal ends it.  A program is the sequence of what it
    does between two of its waits; [terminate] is the flag its signal handler
    sets.  What it prints is left out. *)

From Stdlib Require Import String.
From S2P Require Import Prelude Bytes Checksum Clock Text Log Addr Monad State Platform Queue Net Ether.
From S2P Require Import Drivers Device Sample Receive Timers Arp Ip Icmp Pseudo Udp Tcp TcpUser TcpLogic.
From S2P Require Import TcpConn TcpArrive TcpOps TcpProps TcpWire TcpTeardown TcpStream TcpTransfer TcpSample.
From S2P Require Import Stack Safety Boot Deliver UdpLoop EtherLink TcpLink TcpConnect TcpServe Setup.

(** ** The UDP echo server *)

Definition UDP_ECHO_BUFSIZ : Z := 1024.

(** At the head of the loop, in [udp_recvfrom], or returned from [main]. *)
Inductive udp_echo :=
  | UdpEchoLoop (soc : Z)
  | UdpEchoReceiving (soc : Z)
  | UdpEchoExit (status : Z).

Section UdpEcho.
Context `{Machine} `{Env}.

Definition udp_echo_end (soc : Z) : C udp_echo :=
  udp_close soc;;
  cleanup;;
  ret (UdpEchoExit 0).

(** From the result of [udp_recvfrom]. *)
Definition udp_echo_received (soc : Z) (r : waits unit recv_result) : C udp_echo :=
  match r with
  | Blocked _ => ret (UdpEchoReceiving soc)
  | Returned (len, got) =>
      if len =? -1 then udp_echo_end soc
      else
        got <- expect FaultNull got;;
        let '(foreign, buf) := got in
        r <- udp_sendto soc buf len foreign;;
        if r =? -1 then udp_echo_end soc else ret (UdpEchoLoop soc)
  end.

Definition udp_echo_loop (terminate soc : Z) : C udp_echo :=
  if nz terminate then udp_echo_end soc
  else
    r <- udp_recvfrom soc UDP_ECHO_BUFSIZ;;
    udp_echo_received soc r.

(** The wait in [udp_recvfrom] ends with [err]. *)
Definition udp_echo_wake (err soc : Z) : C udp_echo :=
  r <- udp_recvfrom_wake err (Z.to_nat soc) UDP_ECHO_BUFSIZ;;
  udp_echo_received soc r.

(** [main] up to the loop; [local] is what its variable holds before. *)
Definition udp_echo_main (local : ip_endpoint) : C udp_echo :=
  r <- setup;;
  if r =? -1 then ret (UdpEchoExit (-1))
  else
    soc <- udp_open;;
    if soc =? -1 then ret (UdpEchoExit (-1))
    else
      e <- expect FaultBounds (ip_endpoint_pton (literal "0.0.0.0:7"%string) local);;
      r <- udp_bind soc (snd e);;
      if r =? -1 then udp_close soc;; ret (UdpEchoExit (-1))
      else ret (UdpEchoLoop soc).
End UdpEcho.

(** ** The TCP echo client *)

Definition TCP_ECHO_BUFSIZ : Z := 2048.

(** Waiting for the connection, at the head of the loop, in [tcp_receive], in
    [tcp_send] of [len] bytes of [buf], or returned from [main]. *)
Inductive tcp_echo :=
  | TcpEchoOpening (k : tcp_opening)
  | TcpEchoLoop (soc : Z)
  | TcpEchoReceiving (soc : Z) (i : nat)
  | TcpEchoSending (soc : Z) (k : tcp_sending) (buf : bytes) (len : Z)
  | TcpEchoExit (status : Z).

Section TcpEcho.
Context `{Machine} `{Env}.

Definition tcp_echo_end (soc : Z) : C tcp_echo :=
  tcp_close soc;;
  cleanup;;
  ret (TcpEchoExit 0).

(** From the result of [tcp_open_rfc793]. *)
Definition tcp_echo_opened (r : waits tcp_opening Z) : C tcp_echo :=
  match r with
  | Blocked k => ret (TcpEchoOpening k)
  | Returned soc => if soc =? -1 then ret (TcpEchoExit (-1)) else ret (TcpEchoLoop soc)
  end.

(** The result of [tcp_send] is not looked at. *)
Definition tcp_echo_sent (soc : Z) (buf : bytes) (len : Z) (r : waits tcp_sending Z) : C tcp_echo :=
  match r with
  | Blocked k => ret (TcpEchoSending soc k buf len)
  | Returned _ => ret (TcpEchoLoop soc)
  end.

(** From the result of [tcp_receive]. *)
Definition tcp_echo_received (soc : Z) (r : waits nat (Z * bytes)) : C tcp_echo :=
  match r with
  | Blocked i => ret (TcpEchoReceiving soc i)
  | Returned (len, buf) =>
      if len <=? 0 then tcp_echo_end soc
      else
        r <- tcp_send soc buf len;;
        tcp_echo_sent soc buf len r
  end.

Definition tcp_echo_loop (terminate soc : Z) : C tcp_echo :=
  if nz terminate then tcp_echo_end soc
  else
    r <- tcp_receive soc TCP_ECHO_BUFSIZ;;
    tcp_echo_received soc r.

(** The wait the program is in ends with [err]. *)
Definition tcp_echo_wake (err : Z) (s : tcp_echo) : C tcp_echo :=
  match s with
  | TcpEchoOpening k => r <- tcp_open_wake err k;; tcp_echo_opened r
  | TcpEchoReceiving soc i => r <- tcp_receive_wake err i TCP_ECHO_BUFSIZ;; tcp_echo_received soc r
  | TcpEchoSending soc k buf len => r <- tcp_send_wake err k buf len;; tcp_echo_sent soc buf len r
  | TcpEchoLoop _ | TcpEchoExit _ => ret s
  end.

(** [main] up to the first wait; [local] and [foreign] are what its variables
    hold before. *)
Definition tcp_echo_main (local foreign : ip_endpoint) : C tcp_echo :=
  r <- setup;;
  if r =? -1 then ret (TcpEchoExit (-1))
  else
    l <- expect FaultBounds (ip_endpoint_pton (literal "192.168.70.2:7"%string) local);;
    f <- expect FaultBounds (ip_endpoint_pton (literal "192.168.70.1:10007"%string) foreign);;
    r <- tcp_open_rfc793 (snd l) (Some (snd f)) true;;
    tcp_echo_opened r.

(** The signal handler of the program; the result is the flag. *)
Definition on_signal : C Z :=
  net_raise_event;;
  ret 1.
End TcpEcho.

(** ** The UDP echo server answers *)

(** The host serves: block [t] is bound to port 7 of every address, nothing is
    queued and no event has interrupted it. *)
Record udp_serving `{Machine} (d i : nat) (dev : net_device) (ifc : ip_iface) (t : nat) (w : world)
  : Prop := UdpServing {
  us_host : tap_host d i dev ifc w;
  us_pcb : ∃ p, w_udp w !! t = Some p ∧ up_state p = UDP_PCB_STATE_OPEN
    ∧ up_local p = IpEndpoint IP_ADDR_ANY (hton16 7) ∧ up_queue p = [] ∧ sc_interrupted (up_ctx p) = 0
    ∧ ∀ addr, list_find (udp_pcb_matches addr (hton16 7)) (w_udp w) = Some (t, p)
}.

Lemma list_find_insert {A} (P : A → Prop) `{!∀ x, Decision (P x)} l k x y :
  list_find P l = Some (k, x) → P y → list_find P (<[k := y]> l) = Some (k, y).
Proof.
  intros (Hx&_&Hno)%list_find_Some Hy. apply list_find_Some. split_and!; [|done|].
  - apply list_lookup_insert_eq. by eapply lookup_lt_Some.
  - intros j z Hz Hj. rewrite list_lookup_insert_ne in Hz by lia. by eapply Hno.
Qed.

Lemma tap_host_udp `{Machine} `{Env} d i dev ifc w w' :
  tap_host d i dev ifc w → udp_frame w w' → udp_wf (w_udp w') → tap_host d i dev ifc w'.
Proof.
  intros Hh Hf Hwf. pose proof (ih_ok _ _ _ _ _ (th_host _ _ _ _ _ Hh)) as Hw.
  pose proof (udp_keeps_frame _ _ (stack_udp_ok _ Hw) Hf Hwf) as Hk.
  destruct (stack_keeps_udp _ _ Hw Hk) as [Hw' Hl]. pose proof (ufr_sys _ _ Hf) as Hs. injection Hs as _ E.
  eapply tap_host_frame; [done|done|by apply link_stack_frame|rewrite (ufr_net _ _ Hf); apply Hh..|].
  rewrite E. apply Hh.
Qed.

Lemma udp_frame_paths w w' : udp_frame w w' → paths_kept w w'.
Proof. intros Hf. split; [by rewrite (ufr_ip _ _ Hf)|apply Hf]. Qed.

#[export] Instance paths_kept_preorder : PreOrder paths_kept.
Proof.
  split; [by intros w|]. intros w1 w2 w3 [E1 E2] [E3 E4]. split; congruence.
Qed.

Section UdpAnswer.
Context `{Machine} `{EnvOk}.

Lemma echo_port : hton16 7 ≠ 0.
Proof. destruct H; by vm_compute. Qed.

(** The server goes back to its wait. *)
Lemma udp_echo_waits d i dev ifc t w :
  udp_serving d i dev ifc t w →
  wp (udp_echo_loop 0 (Z.of_nat t)) (λ s w', s = UdpEchoReceiving (Z.of_nat t)
    ∧ udp_serving d i dev ifc t w' ∧ paths_kept w w') w.
Proof.
  intros [Hh (p&Hp&Hst&Hl&Hq&Hc&Hfirst)]. pose proof (ih_ok _ _ _ _ _ (th_host _ _ _ _ _ Hh)) as Hw.
  unfold udp_echo_loop. cbn [nz Z.eqb negb]. apply wp_bind.
  eapply wp_mono; [apply (udp_recvfrom_fifo t p); [by apply stack_udp_ok|done|done|done]|].
  intros r w' [Hf Hr]. rewrite Hq, Hc in Hr. destruct Hr as [-> Hu]. cbn [udp_echo_received]. wp_step.
  split_and!; [done| |by apply udp_frame_paths]. set (p' := set_up_ctx _ p) in Hu.
  constructor.
  - eapply tap_host_udp; [done|done|]. rewrite Hu. apply udp_wf_insert; [apply Hw|].
    destruct (udp_wf_lookup _ _ _ (so_udp _ Hw) Hp) as (?&?&?&?). by split_and!.
  - exists p'. rewrite Hu. split_and!; try done.
    + apply list_lookup_insert_eq. by eapply lookup_lt_Some.
    + intros addr. eapply list_find_insert; [apply Hfirst|]. split_and!; [done| |by cbn; rewrite Hl].
      left. cbn. by rewrite Hl.
Qed.

(** A datagram for the server wakes it, and it sends the datagram back. *)
Lemma udp_echo_woken d i dev ifc t src ha data len w w1 :
  writes_whole → udp_serving d i dev ifc t w → tap_host d i dev ifc w1 → paths_kept w w1 →
  w_udp w1 = udp_arrived src (IpEndpoint (if_unicast ifc) (hton16 7)) data len (w_udp w) →
  reaches i ifc (ep_addr src) ha w → length ha = 6%nat → ep_addr src ≠ IP_ADDR_BROADCAST →
  endpoint_ok src → bytes_ok data → 0 <= len <= zlen data → len <= UDP_ECHO_BUFSIZ →
  wp (udp_echo_wake 0 (Z.of_nat t)) (λ s w', s = UdpEchoLoop (Z.of_nat t)
    ∧ udp_serving d i dev ifc t w' ∧ paths_kept w w'
    ∧ ∃ pkt, udp_packet (IpEndpoint (if_unicast ifc) (hton16 7)) src (take (Z.to_nat len) data) len
                (i_id (w_ip w1)) pkt
      ∧ y_wire (w_sys w') = y_wire (w_sys w1)
          ++ [(d, ether_wire (hw_addr dev) ha NET_PROTOCOL_TYPE_IP pkt)]) w1.
Proof.
  intros Hwr [_ (p&Hp&Hst&Hl&Hq&Hc&Hfirst)] Hh1 Hk1 Hu1 Hreach Lha Hbc Hsrc Hok Hlen Hmax.
  pose proof (ih_ok _ _ _ _ _ (th_host _ _ _ _ _ Hh1)) as Hw1. unfold udp_arrived in Hu1.
  cbn [ep_addr ep_port] in Hu1. rewrite Hfirst in Hu1. set (e := UdpQueueEntry _ _ _) in Hu1.
  assert (w_udp w1 !! t = Some (udp_enqueue e p)) as Hp1.
  { rewrite Hu1. apply list_lookup_insert_eq. by eapply lookup_lt_Some. }
  unfold udp_echo_wake. rewrite Nat2Z.id. apply wp_bind.
  eapply wp_mono; [apply (udp_recvfrom_woken t (udp_enqueue e p) e []); try done; [by apply stack_udp_ok|by cbn; rewrite Hq]|].
  intros r w2 (Hf2&Hy2&->&Hu2). cbn [udp_echo_received uqe_len uqe_foreign uqe_data e].
  unfold UDP_ECHO_BUFSIZ in *. rewrite Z.min_r by lia. destruct (Z.eqb_spec len (-1)); [lia|].
  rewrite take_take, Nat.min_r by lia. set (p2 := set_up_queue [] _) in Hu2.
  rewrite Hu1, list_insert_insert_eq in Hu2.
  assert (w_udp w2 !! t = Some p2) as Hp2.
  { rewrite Hu2. apply list_lookup_insert_eq. by eapply lookup_lt_Some. }
  assert (udp_wf (w_udp w2)) as Hwf2.
  { rewrite Hu2. destruct (udp_wf_lookup _ _ _ (so_udp _ Hw1) Hp1) as (?&?&?&?).
    pose proof (so_udp _ Hw1) as Hwf1. rewrite Hu1 in Hwf1.
    rewrite <- (list_insert_insert_eq (w_udp w) t p2 (udp_enqueue e p)). apply udp_wf_insert; [done|].
    split_and!; try done; by cbn; rewrite Hst. }
  pose proof (tap_host_udp _ _ _ _ _ _ Hh1 Hf2 Hwf2) as Hh2.
  assert (paths_kept w w2) as Hk2 by (etrans; [done|by apply udp_frame_paths]).
  do 2 wp_step. apply wp_bind. destruct (reaches_kept _ _ _ _ _ _ Hk2 Hreach) as (rt&Hr&Hri&Hlook&Hb1&Hb2).
  destruct src as [sa sp]. cbn [ep_addr ep_port] in *.
  eapply wp_mono; [eapply (udp_sendto_tap d i dev ifc t p2 rt sa sp _ len ha w2); try done|].
  - cbn. rewrite Hl. apply echo_port.
  - left. cbn. by rewrite Hl.
  - apply Hsrc.
  - apply Hsrc.
  - by apply Forall_take.
  - unfold zlen in *. rewrite length_take. lia.
  - change ETHER_PAYLOAD_SIZE_MAX with 1500. unfold IP_HDR_SIZE_MIN, UDP_HDR_SIZE. lia.
  - intros res w3 (->&Hh3&Hk3&Hu3&pkt&Hpkt&Hwire). destruct (Z.eqb_spec len (-1)); [lia|]. wp_step.
    cbn [up_local p2 set_up_queue set_up_ctx udp_enqueue] in Hpkt. rewrite Hl, (ufr_ip _ _ Hf2) in Hpkt.
    split_and!; [done| |by etrans|].
    + constructor; [done|]. exists p2. rewrite Hu3, Hu2. split_and!; try done.
      * by rewrite <- Hu2.
      * intros addr. eapply list_find_insert; [apply Hfirst|]. split_and!; [done| |by cbn; rewrite Hl].
        left. cbn. by rewrite Hl.
    + exists pkt. split; [done|]. by rewrite Hwire, Hy2.
Qed.
End UdpAnswer.

(** C10. The UDP echo server answers over the Ethernet.  Host B serves on port
    7 of every address, with its program in the wait of [udp_recvfrom]; host A
    has a bound block, and each knows a route and the hardware address to the
    other.  What A sends to port 7 of B, at most the 1024 bytes of the
    program's buffer, is one frame; when it arrives at B's device and the wait
    ends, the program takes it, writes one frame and is at the head of its
    loop; when that frame arrives at A's device, what was sent is at the end of
    the receive queue of the block of A bound to the port, from port 7 of B.
    The program then waits for the next datagram in a state like the first
    one. *)
Theorem udp_echo_answers `{Machine} (EA EB : Env) `{!@EnvOk EA} `{!@EnvOk EB}
    dA iA devA ifcA wA dB iB devB ifcB wB s sender t data len :
  @writes_whole EA → @never_fails EA → @polls_succeed EA →
  @writes_whole EB → @never_fails EB → @polls_succeed EB →
  tap_host dA iA devA ifcA wA → udp_serving dB iB devB ifcB t wB →
  reaches iA ifcA (if_unicast ifcB) (hw_addr devB) wA → reaches iB ifcB (if_unicast ifcA) (hw_addr devA) wB →
  if_unicast ifcA ≠ IP_ADDR_BROADCAST → if_unicast ifcB ≠ IP_ADDR_BROADCAST →
  w_udp wA !! s = Some sender → up_state sender = UDP_PCB_STATE_OPEN → ep_port (up_local sender) ≠ 0 →
  ep_addr (up_local sender) = IP_ADDR_ANY ∨ ep_addr (up_local sender) = if_unicast ifcA →
  bytes_ok data → 0 <= len <= zlen data → len <= UDP_ECHO_BUFSIZ →
  let src := IpEndpoint (if_unicast ifcA) (ep_port (up_local sender)) in
  let dst := IpEndpoint (if_unicast ifcB) (hton16 7) in
  wp (@udp_sendto _ EA (@drivers _ EA) (Z.of_nat s) data len dst) (λ res wA1, res = len
    ∧ ∃ request, y_wire (w_sys wA1) = y_wire (w_sys wA) ++ [(dA, request)]
    ∧ wp (@ether_receive _ EB dB request) (λ _ wB1,
        wp (@udp_echo_wake _ EB 0 (Z.of_nat t)) (λ st wB2, st = UdpEchoLoop (Z.of_nat t)
          ∧ wp (@udp_echo_loop _ EB 0 (Z.of_nat t)) (λ st wB3, st = UdpEchoReceiving (Z.of_nat t)
              ∧ udp_serving dB iB devB ifcB t wB3 ∧ paths_kept wB wB3) wB2
          ∧ ∃ reply, y_wire (w_sys wB2) = y_wire (w_sys wB1) ++ [(dB, reply)]
          ∧ wp (@ether_receive _ EA dA reply) (λ _ wA2,
              w_udp wA2 = udp_arrived dst src data len (w_udp wA)) wA1) wB1) wB) wA.
Proof.
  intros HwA HnA HpA HwB HnB HpB HA HB HrA HrB HbA HbB Hs Hst Hport Haddr Hok Hlen Hmax src dst.
  pose proof (us_host _ _ _ _ _ _ HB) as HhB. pose proof (th_host _ _ _ _ _ HA) as HipA.
  pose proof (th_host _ _ _ _ _ HhB) as HipB. unfold UDP_ECHO_BUFSIZ in *.
  destruct (ip_host_u32 _ _ _ _ _ HipA) as [Ha _]. destruct (ip_host_u32 _ _ _ _ _ HipB) as [Hb _].
  destruct (udp_wf_lookup _ _ _ (so_udp _ (ih_ok _ _ _ _ _ HipA)) Hs) as (_&[_ Hsp]&_).
  destruct (ip_host_dev _ _ _ _ _ HipA) as (_&_&HmA&_). destruct (ip_host_dev _ _ _ _ _ HipB) as (_&_&HmB&_).
  pose proof (hw_addr_length _ _ _ _ _ HipA) as LA. pose proof (hw_addr_length _ _ _ _ _ HipB) as LB.
  assert (is_u16 (hton16 7)) as H7 by (by apply hton16_range).
  assert (IP_HDR_SIZE_MIN + (UDP_HDR_SIZE + len) <= ETHER_PAYLOAD_SIZE_MAX) as Hfit.
  { change ETHER_PAYLOAD_SIZE_MAX with 1500. unfold IP_HDR_SIZE_MIN, UDP_HDR_SIZE. lia. }
  destruct HrA as (r&Hr&Hri&Hlook&Hn1&Hn2).
  eapply wp_mono; [by eapply (@udp_sendto_tap _ EA _ dA iA devA ifcA s sender r)|].
  intros res wA1 (->&HA1&_&Hu1&pkt&Hpkt&Hwire). split; [done|]. eexists. split; [exact Hwire|].
  eapply wp_mono; [apply (@udp_frame_received _ EB _ dB iB devB ifcB _ src (hton16 7) data len (i_id (w_ip wA)));
    try done; [by apply Forall_take|apply (ih_ok _ _ _ _ _ HipA)]|].
  intros [] wB1 (HhB1&HkB1&HuB1).
  eapply wp_mono; [by apply (@udp_echo_woken _ EB _ dB iB devB ifcB t src (hw_addr devA) data len wB wB1)|].
  intros st wB2 (->&HB2&HkB2&pkt2&Hpkt2&Hwire2). split; [done|]. split.
  { eapply wp_mono; [by apply (@udp_echo_waits _ EB dB iB devB ifcB t wB2)|].
    intros st wB3 (->&HB3&HkB3). split_and!; [done|done|by etrans]. }
  eexists. split; [exact Hwire2|].
  eapply wp_mono; [apply (@udp_frame_received _ EA _ dA iA devA ifcA (hw_addr devB) dst (ep_port (up_local sender))
    (take (Z.to_nat len) data) len (i_id (w_ip wB1))); try done|].
  - by apply Forall_take.
  - apply (ih_ok _ _ _ _ _ (th_host _ _ _ _ _ HhB1)).
  - by apply Forall_take.
  - unfold zlen in *. rewrite length_take. lia.
  - intros [] wA2 (_&_&Hu2). rewrite Hu2, Hu1. unfold udp_arrived. by rewrite take_take, Nat.min_id.
Qed.

(** ** The program starts *)

Section UdpStart.
Context `{Machine} `{EnvOk}.

Lemma udp_open_first k pcb w :
  udp_ok w → list_find (λ pcb, up_state pcb = UDP_PCB_STATE_FREE) (w_udp w) = Some (k, pcb) →
  wp udp_open (λ r w', r = Z.of_nat k ∧ udp_frame w w' ∧ w_udp w' =
    <[k := set_up_ctx (sched_ctx_init (up_ctx pcb)) (set_up_state UDP_PCB_STATE_OPEN pcb)]> (w_udp w)) w.
Proof.
  intros Hok Hfind. pose proof Hfind as (Hk&_&_)%list_find_Some.
  assert (filter (λ m', m' ≠ MutexUdp) (MutexUdp :: locked w) = locked w) as Hf by (apply filter_unlock, Hok).
  unfold udp_open, udp_pcb_alloc. do 2 wp_step; [apply Hok|]. do 3 wp_step. cbn [w_udp lock_world set_w_sys].
  rewrite Hfind. repeat wp_step; [by left|]. split_and!; [done|by constructor|done].
Qed.

Lemma udp_bind_free k pcb local w :
  udp_ok w → w_udp w !! k = Some pcb → up_state pcb = UDP_PCB_STATE_OPEN →
  list_find (udp_pcb_matches (ep_addr local) (ep_port local)) (w_udp w) = None →
  wp (udp_bind (Z.of_nat k) local) (λ r w', r = 0 ∧ udp_frame w w'
    ∧ w_udp w' = <[k := set_up_local local pcb]> (w_udp w)) w.
Proof.
  intros Hok Hk Hst Hfind.
  assert (filter (λ m', m' ≠ MutexUdp) (MutexUdp :: locked w) = locked w) as Hf by (apply filter_unlock, Hok).
  unfold udp_bind, udp_pcb_select. do 2 wp_step; [apply Hok|]. wp_step.
  eapply udp_pcb_get_open; [apply Hok|exact Hk|done|]. do 4 wp_step. cbn [w_udp lock_world set_w_sys].
  rewrite Hfind. cbn [fmap option_fmap option_map]. repeat wp_step; [by left|]. split_and!; [done|by constructor|done].
Qed.
End UdpStart.

(** The state of the UDP blocks when the server waits. *)
Definition udp_echo_pcb `{Machine} : udp_pcb :=
  UdpPcb UDP_PCB_STATE_OPEN (IpEndpoint IP_ADDR_ANY (hton16 7)) [] (SchedCtx 0 0 0).

Definition udp_echo_pcbs `{Machine} : list udp_pcb :=
  udp_echo_pcb :: replicate 15 (UdpPcb 0 (IpEndpoint 0 0) [] (SchedCtx 0 0 0)).

Lemma udp_echo_pcbs_ok `{Machine} : udp_wf udp_echo_pcbs.
Proof.
  split; [done|]. apply Forall_cons_2.
  - split_and!; [by right; left|split; [done|by apply hton16_range]|by apply Forall_nil_2|done].
  - apply Forall_replicate. split_and!; [by left|split; cbn; ulia|by apply Forall_nil_2|done].
Qed.

Lemma udp_echo_serves `{Machine} d i dev ifc w :
  tap_host d i dev ifc w → w_udp w = udp_echo_pcbs → udp_serving d i dev ifc 0 w.
Proof.
  intros Hh Hu. constructor; [done|]. exists udp_echo_pcb. rewrite Hu. split_and!; try done.
  intros addr. apply list_find_Some. split_and!; [done| |intros j y Hy Hj; lia].
  split_and!; [done|by left|done].
Qed.

Lemma pton_any `{Machine} local :
  is_u32 (ep_addr local) →
  ip_endpoint_pton (literal "0.0.0.0:7"%string) local = Some (0, IpEndpoint IP_ADDR_ANY (hton16 7)).
Proof.
  intros Hl. rewrite <- (ip_endpoint_pton_text IP_ADDR_ANY 7 local) by done.
  f_equal. destruct H; vm_compute; reflexivity.
Qed.

(** The UDP echo server comes up.  Started on a stack that has not run,
    where no call of the system fails, [main] sets the stack up, opens the
    first socket and binds it to port 7, and its loop goes into the wait of
    [udp_recvfrom]: the host then serves on 192.168.70.2, over the tap device
    with the hardware address of the program. *)
Lemma udp_echo_starts `{Machine} `{EnvOk} local :
  never_fails → (∀ k, env_sys k ≠ -1) → (∀ k, env_pthread k = 0) → is_u32 (ep_addr local) →
  wp (udp_echo_main local) (λ s w, s = UdpEchoLoop 0 ∧ wp (udp_echo_loop 0 0) (λ s' w',
    s' = UdpEchoReceiving 0 ∧ ∃ dev ifc, udp_serving 1 1 dev ifc 0 w'
      ∧ if_unicast ifc = load32 192 168 70 2 ∧ hw_addr dev = [0; 0; 94; 0; 83; 1]) w) boot_world.
Proof.
  intros Hnf Hsys Hpt Hlocal. unfold udp_echo_main. apply wp_bind.
  eapply wp_mono; [apply (setup_run Hnf Hsys Hpt)|]. intros r w [-> ->]. cbn [Z.eqb].
  destruct boot_ok as [Hu Ht Ha]. pose proof (ready_ok _ _ _ Ha Hu Ht) as Hw0.
  set (w0 := ready_world _ _ _) in *. apply wp_bind.
  eapply wp_mono; [by apply (udp_open_first 0 (UdpPcb 0 (IpEndpoint 0 0) [] (SchedCtx 0 0 0))); [apply stack_udp_ok|]|].
  intros r w1 (->&Hf1&Hu1). change (Z.of_nat 0 =? -1) with false. cbv iota. rewrite pton_any by done. do 2 wp_step.
  set (p1 := set_up_ctx _ _) in Hu1. change (w_udp w0) with (w_udp boot_world) in Hu1.
  assert (udp_wf (w_udp w1)) as Hwf1.
  { rewrite Hu1. apply udp_wf_insert; [done|]. split_and!; [by right; left|split; cbn; ulia|by apply Forall_nil_2|done]. }
  pose proof (tap_host_udp _ _ _ _ _ _ (ready_tap _ _ _ Ha Hu Ht) Hf1 Hwf1) as Hh1.
  pose proof (ih_ok _ _ _ _ _ (th_host _ _ _ _ _ Hh1)) as Hw1. apply wp_bind. cbn [snd].
  eapply wp_mono; [apply (udp_bind_free 0 p1); [by apply stack_udp_ok|by rewrite Hu1|done|]|].
  { rewrite Hu1. apply list_find_None. unfold boot_world. cbn [w_udp].
    apply Forall_insert; [apply Forall_replicate|]; intros (_&_&E); cbn in E; by apply echo_port. }
  intros r w2 (->&Hf2&Hu2). cbn [Z.eqb]. wp_step. split; [done|].
  assert (w_udp w2 = udp_echo_pcbs) as Hu2' by (by rewrite Hu2, Hu1).
  assert (tap_host 1 1 (tap_device (env_sys 25)) tap_iface w2) as Hh2.
  { eapply tap_host_udp; [done|done|]. rewrite Hu2'. apply udp_echo_pcbs_ok. }
  eapply wp_mono; [exact (udp_echo_waits _ _ _ _ 0 w2 (udp_echo_serves _ _ _ _ _ Hh2 Hu2'))|].
  intros s' w' (->&Hs&_). split; [done|]. by eexists _, _.
Qed.

(** ** The TCP echo program answers *)

(** C8. The TCP echo program answers over the Ethernet.  Host B runs the
    program, in the wait of [tcp_receive] on a connection that is synchronised
    with host A's and has nothing unread.  What A sends, at most the 2048 bytes
    of the program's buffer and within the windows, goes to B in frames and is
    acknowledged; when the wait ends the program takes it, writes it to the
    wire in frames of its own and is at the head of its loop.  When these
    arrive at A's device, what was sent is behind what was unread in A's
    receive buffer; when A's acknowledgements arrive at B's, the two ends are
    synchronised again, and the program waits for more. *)
Theorem tcp_echo_answers `{Machine} (EA EB : Env) `{!@EnvOk EA} `{!@EnvOk EB}
    dA iA devA ifcA wA dB iB devB ifcB wB i j pa pb la lb data :
  tcp_session EA EB dA iA devA ifcA wA dB iB devB ifcB wB i j pa pb la lb →
  tcp_room pa pb TCP_ECHO_BUFSIZ data data →
  tcp_dialogue EA EB dA dB i j (tcp_unread pa) data
    (@tcp_echo_wake _ EB 0 (TcpEchoReceiving (Z.of_nat j) j)) (TcpEchoLoop (Z.of_nat j)) data
    (λ wB3, wp (@tcp_echo_loop _ EB 0 (Z.of_nat j)) (λ st _, st = TcpEchoReceiving (Z.of_nat j) j) wB3) wA wB.
Proof.
  intros Hses Hroom. cbn [tcp_echo_wake]. eapply tcp_dialogue_mono.
  - eapply (@request_answered _ EA EB _ _ _ dA iA devA ifcA wA dB iB devB ifcB wB i j pa pb la lb
      (@tcp_echo_received _ EB (Z.of_nat j)) (TcpEchoLoop (Z.of_nat j)) TCP_ECHO_BUFSIZ data data);
      [exact Hses|exact Hroom|].
    pose proof Hses as [_ _ _ HwB HnB _ _ _ _ Hlb _ _ _ _ _]. pose proof Hroom as [Hok Hmax _ _ _ _ _ _ _].
    intros p w Hlink He Hst Huna Hq Hw Hn. cbn [tcp_echo_received]. destruct (Z.leb_spec (zlen data) 0); [lia|].
    apply wp_bind. eapply wp_mono; [by apply (@tcp_send_frames _ EB _ dB iB devB ifcB (hw_addr devA) j lb la p)|].
    intros r w' [-> Hsent]. cbn [tcp_echo_sent]. by wp_step.
  - intros w Hserved. unfold tcp_echo_loop. cbn [nz Z.eqb negb]. apply wp_bind.
    eapply wp_mono; [by eapply (@served_waits _ EB)|]. intros r w' ->. cbn [tcp_echo_received]. by wp_step.
Qed.

(** ** The TCP echo program ends *)

Section Stop.
Context `{Machine} `{EnvOk}.

(** What an event does to a block. *)
Definition tcp_interrupted (p : tcp_pcb) : tcp_pcb :=
  if tp_state p =? TCP_PCB_STATE_FREE then p else set_tp_ctx (sched_interrupt (tp_ctx p)) p.

Lemma tcp_events_mark l2 : ∀ l1 w,
  w_tcp w = l1 ++ l2 →
  wp (for_each (seq (length l1) (length l2)) (λ i,
        pcb <- get_tcp i;;
        if negb (tp_state pcb =? TCP_PCB_STATE_FREE)
        then put_tcp i (set_tp_ctx (sched_interrupt (tp_ctx pcb)) pcb)
        else ret tt))
    (λ _ w', w_tcp w' = l1 ++ (tcp_interrupted <$> l2) ∧ locked w' = locked w) w.
Proof.
  induction l2 as [|p l2 IH]; intros l1 w Hw; cbn [length seq for_each]; [by wp_step|].
  assert (w_tcp w !! length l1 = Some p) as Hp by (by rewrite Hw, list_lookup_middle).
  assert (S (length l1) = length (l1 ++ [tcp_interrupted p])) as -> by (rewrite length_app; cbn; lia).
  apply wp_bind, wp_bind. eapply wp_get_tcp; [exact Hp|]. cbv beta.
  assert (∀ w1, w_tcp w1 = l1 ++ tcp_interrupted p :: l2 → locked w1 = locked w →
    wp (for_each (seq (length (l1 ++ [tcp_interrupted p])) (length l2)) (λ i,
        pcb <- get_tcp i;;
        if negb (tp_state pcb =? TCP_PCB_STATE_FREE)
        then put_tcp i (set_tp_ctx (sched_interrupt (tp_ctx pcb)) pcb)
        else ret tt))
    (λ _ w', w_tcp w' = l1 ++ (tcp_interrupted <$> p :: l2) ∧ locked w' = locked w) w1) as Hrest.
  { intros w1 Hw1 HL. eapply wp_mono; [apply IH; by rewrite Hw1, <- app_assoc|].
    intros [] w' [E HL']. split; [by rewrite E, <- app_assoc|congruence]. }
  unfold tcp_interrupted at 1 in Hrest. destruct (tp_state p =? TCP_PCB_STATE_FREE) eqn:Est; cbn [negb].
  - wp_step. by apply Hrest.
  - wp_step. apply Hrest; [|done]. cbn. rewrite Hw, insert_app_r_alt, Nat.sub_diag by done. done.
Qed.

Lemma tcp_event_marks w :
  MutexTcp ∉ locked w → wp tcp_event_handler (λ _ w', w_tcp w' = tcp_interrupted <$> w_tcp w) w.
Proof.
  intros HL. unfold tcp_event_handler. do 5 wp_step.
  eapply wp_mono; [apply (tcp_events_mark (w_tcp w) []); done|]. intros [] w' [E HL']. wp_step; [|done].
  change (MutexTcp ∈ locked w'). rewrite HL'. by left.
Qed.

Lemma tcp_interrupted_set p : tp_state p ≠ TCP_PCB_STATE_FREE → sc_interrupted (tp_ctx (tcp_interrupted p)) = 1.
Proof. intros Hst. unfold tcp_interrupted. by rewrite (proj2 (Z.eqb_neq _ _) Hst). Qed.

Lemma tcp_interrupted_state p : tp_state (tcp_interrupted p) = tp_state p.
Proof. unfold tcp_interrupted. by destruct (_ =? _). Qed.

(** The handlers of an event, with the one of TCP among them. *)
Lemma events_interrupt j es : ∀ p w,
  stack_ok w → w_tcp w !! j = Some p → tp_state p ≠ TCP_PCB_STATE_FREE →
  EventTcp ∈ es ∨ sc_interrupted (tp_ctx p) ≠ 0 →
  wp (for_each es event_handlers) (λ _ w', stack_ok w' ∧ ∃ p', w_tcp w' !! j = Some p'
    ∧ tp_state p' ≠ TCP_PCB_STATE_FREE ∧ sc_interrupted (tp_ctx p') ≠ 0) w.
Proof.
  induction es as [|e es IH]; intros p w Hw Hp Hst Hes; cbn [for_each].
  { wp_step. split; [done|]. exists p. split_and!; [done|done|]. destruct Hes as [Hin|?]; [by inv Hin|done]. }
  apply wp_bind. destruct e; cbn [event_handlers].
  - eapply wp_mono; [by apply udp_event_keeps, stack_udp_ok|]. intros [] w1 Hk.
    apply (IH p); [by eapply stack_ok_udp|by rewrite (uk_tcp _ _ Hk)|done|].
    destruct Hes as [[?|?]%elem_of_cons|?]; [done|by left|by right].
  - assert (MutexTcp ∉ locked w) as HL by (rewrite (so_locked _ Hw); apply not_elem_of_nil).
    eapply wp_mono; [apply wp_both; [by apply tcp_event_marks|by apply (event_handlers_wp EventTcp)]|].
    intros [] w1 [E [Hw1 _]]. apply (IH (tcp_interrupted p)); [done| |by rewrite tcp_interrupted_state|].
    + by rewrite E, list_lookup_fmap, Hp.
    + right. by rewrite tcp_interrupted_set.
Qed.

(** ** The wait of an interrupted call *)

Lemma awake_interrupted_pwp {k w0} err Q pcb L :
  MutexTcp ∉ L → sc_interrupted (tp_ctx pcb) ≠ 0 → (∀ ctx, Q (-1) (set_tp_ctx ctx pcb) (MutexTcp :: L)) →
  pwp k w0 (tcp_awake k err) Q pcb L.
Proof.
  intros HL Hint HQ. unfold tcp_awake. apply pwp_ok. intros Hp. do 4 pwp_step.
  unfold sched_sleep_leave, nz. cbn [sc_interrupted set_sc_wc].
  rewrite (proj2 (Z.eqb_neq _ _) Hint). cbn [negb]. pwp_step. apply pwp_put; [by destruct Hp|]. pwp_step. apply HQ.
Qed.

Lemma tcp_echo_end_exits soc w :
  stack_ok w → wp (tcp_echo_end soc) (λ s w', s = TcpEchoExit 0 ∧ stack_ok w') w.
Proof.
  intros Hw. unfold tcp_echo_end. apply wp_bind.
  eapply wp_mono; [apply tcp_close_wp; [rewrite (so_locked _ Hw); apply not_elem_of_nil|by apply stack_tcp_inv]|].
  intros r w1 [Hk _]. pose proof (stack_keeps_tcp _ _ Hw Hk) as [Hw1 _]. apply wp_bind.
  eapply wp_mono; [by apply net_shutdown_keeps|]. intros [] w2 [[Hw2 _] _]. by wp_step.
Qed.

(** The block the program waits on. *)
Definition tcp_echo_waits_on (s : tcp_echo) (j : nat) : Prop :=
  match s with
  | TcpEchoOpening k => fst k = j
  | TcpEchoReceiving _ i => i = j
  | TcpEchoSending _ k _ _ => fst k = j
  | TcpEchoLoop _ | TcpEchoExit _ => False
  end.

(** A run on a block that has been interrupted. *)
Lemma interrupted_run {A} (m : C A) (P : A → Prop) j p w :
  stack_ok w → w_tcp w !! j = Some p →
  pwp j w m (λ a _ L, P a ∧ L = locked w) p (locked w) → wp m (λ a w', P a ∧ stack_ok w') w.
Proof.
  intros Hw Hp Hm. eapply wp_mono.
  - apply (pwp_run j m (λ a _, P a) p w); [by apply stack_tcp_inv|done|].
    eapply pwp_mono; [exact Hm|]. intros a q L [HP ->]. by split.
  - intros a w' (Hk&_&_&HP). split; [done|by apply (stack_keeps_tcp _ _ Hw Hk)].
Qed.

Lemma tcp_echo_interrupted err s j p w :
  stack_ok w → w_tcp w !! j = Some p → sc_interrupted (tp_ctx p) ≠ 0 → tcp_echo_waits_on s j →
  wp (tcp_echo_wake err s) (λ s' w', stack_ok w' ∧ ((∃ status, s' = TcpEchoExit status)
    ∨ ∃ soc, s' = TcpEchoLoop soc)) w.
Proof.
  intros Hw Hp Hint Hs. assert (MutexTcp ∉ locked w) as HL by (rewrite (so_locked _ Hw); apply not_elem_of_nil).
  destruct s as [[i st]|soc|soc i|soc [i sent] buf len|status]; cbn in Hs; [|done| | |done];
    subst i; cbn [tcp_echo_wake]; apply wp_bind.
  - eapply wp_mono; [apply (interrupted_run _ (λ r, r = Returned (-1)) j p w); [done|done|]|].
    + unfold tcp_open_wake. pwp_step. apply awake_interrupted_pwp; [done|done|]. intros ctx.
      change (-1 =? -1) with true. cbv iota. by apply pwp_abandon.
    + intros r w1 [-> Hw1]. cbn [tcp_echo_opened]. change (-1 =? -1) with true. cbv iota. wp_step. split; [done|]. left. by exists (-1).
  - eapply wp_mono; [apply (interrupted_run _ (λ r, r = Returned (-1, [])) j p w); [done|done|]|].
    + unfold tcp_receive_wake. pwp_step. apply awake_interrupted_pwp; [done|done|]. intros ctx.
      change (-1 =? -1) with true. cbv iota. by repeat pwp_step.
    + intros r w1 [-> Hw1]. cbn [tcp_echo_received Z.leb]. change (-1 <=? 0) with true. cbv iota.
      eapply wp_mono; [by apply tcp_echo_end_exits|]. intros s w2 [-> Hw2]. split; [done|]. left. by exists 0.
  - eapply wp_mono; [apply (interrupted_run _ (λ r, ∃ n, r = Returned n) j p w); [done|done|]|].
    + unfold tcp_send_wake. pwp_step. apply awake_interrupted_pwp; [done|done|]. intros ctx.
      change (-1 =? -1) with true. cbv iota. repeat pwp_step. split; [by eexists|done].
    + intros r w1 [(n&->) Hw1]. cbn [tcp_echo_sent]. wp_step. split; [done|]. right. by exists soc.
Qed.
End Stop.

(** C9. A signal ends the TCP echo program.  The program waits in the open, a
    receive or a send, on a block in use of a stack whose events reach TCP.
    [on_signal] sets the flag and raises the event; when the interrupt thread
    has handled it and the wait ends, however it ends, the program returns from
    [main], at once or, out of a send, from the head of its loop, where it
    reads the flag; what it does on the way out, the close of the connection
    and the shutdown, leaves a well-formed stack. *)
Theorem tcp_echo_stops `{Machine} `{EnvOk} s j p err w :
  stack_ok w → EventTcp ∈ n_events (w_net w) → w_tcp w !! j = Some p → tp_state p ≠ TCP_PCB_STATE_FREE →
  tcp_echo_waits_on s j →
  wp on_signal (λ terminate w1, y_raised (w_sys w1) = y_raised (w_sys w) ++ [INTR_IRQ_EVENT]
    ∧ wp (intr_signal INTR_IRQ_EVENT) (λ _ w2, wp (tcp_echo_wake err s) (λ s' w3, stack_ok w3
        ∧ ((∃ status, s' = TcpEchoExit status) ∨ ∃ soc, s' = TcpEchoLoop soc
           ∧ wp (tcp_echo_loop terminate soc) (λ s'' w4, s'' = TcpEchoExit 0 ∧ stack_ok w4) w3)) w2) w1) w.
Proof.
  intros Hw Hev Hp Hst Hs. unfold on_signal, net_raise_event, intr_raise_irq, sys_modify. repeat wp_step.
  split; [done|]. change (intr_signal INTR_IRQ_EVENT) with (net_event_handler event_handlers;; ret false).
  unfold net_event_handler. do 4 wp_step. cbn [w_net set_w_sys].
  eapply wp_mono; [eapply (events_interrupt j (n_events (w_net w)) p)|].
  - eapply stack_ok_receive; [exact Hw|]. by constructor.
  - done.
  - done.
  - by left.
  - intros [] w2 (Hw2&p2&Hp2&_&Hint). repeat wp_step.
    eapply wp_mono; [by eapply tcp_echo_interrupted|]. intros s' w3 [Hw3 [Hexit|(soc&->)]]; (split; [done|]).
    + by left.
    + right. exists soc. split; [done|]. by apply tcp_echo_end_exits.
Qed.

(** ** Sample hosts *)

(** The client 192.0.2.2:49152 and the server 192.0.2.1. *)
Definition udp_client : list udp_pcb :=
  UdpPcb UDP_PCB_STATE_OPEN (IpEndpoint IP_ADDR_ANY 0x00c0) [] (SchedCtx 0 0 0)
    :: replicate 15 (UdpPcb 0 (IpEndpoint 0 0) [] (SchedCtx 0 0 0)).

Definition udp_host_a : world := set_w_udp udp_client (peer_tap tcp_pcb_zero).
Definition udp_host_b : world := set_w_udp (@udp_echo_pcbs sample_machine) (peer_gw tcp_pcb_zero).

Lemma udp_host_a_tap : tap_host 0 0 (link_tap mac_tap) (link_iface addr_tap) udp_host_a.
Proof.
  eapply (@tap_host_udp sample_machine sample_env); [exact (tl_host _ _ _ _ _ _ _ (peer_tap_link _ tcp_pcb_zero_ok))|by constructor|].
  split; [done|]. apply Forall_cons_2.
  - split_and!; [by right; left|by split|by apply Forall_nil_2|done].
  - apply Forall_replicate. split_and!; [by left|split; cbn; ulia|by apply Forall_nil_2|done].
Qed.

Lemma udp_host_b_serves : @udp_serving sample_machine 0 0 (link_tap mac_gw) (link_iface addr_gw) 0 udp_host_b.
Proof.
  apply udp_echo_serves; [|done].
  eapply (@tap_host_udp sample_machine sample_env); [exact (tl_host _ _ _ _ _ _ _ (peer_gw_link _ tcp_pcb_zero_ok))|by constructor|].
  apply udp_echo_pcbs_ok.
Qed.

Lemma udp_host_a_reaches :
  @reaches sample_machine 0 (link_iface addr_tap) addr_gw mac_gw udp_host_a.
Proof. exact (tl_route _ _ _ _ _ _ _ (peer_tap_link _ tcp_pcb_zero_ok)). Qed.

Lemma udp_host_b_reaches :
  @reaches sample_machine 0 (link_iface addr_gw) addr_tap mac_tap udp_host_b.
Proof. exact (tl_route _ _ _ _ _ _ _ (peer_gw_link _ tcp_pcb_zero_ok)). Qed.

Lemma udp_echo_answers_witness :
  ∃ wA1 request wB1 wB2 reply wA2,
    @udp_sendto sample_machine sample_env sample_ops 0 sample_text 3 (IpEndpoint addr_gw 0x0700) udp_host_a
      = Done 3 wA1
    ∧ y_wire (w_sys wA1) = [(0%nat, request)]
    ∧ @ether_receive sample_machine sample_env 0 request udp_host_b = Done tt wB1
    ∧ @udp_echo_wake sample_machine sample_env 0 0 wB1 = Done (UdpEchoLoop 0) wB2
    ∧ y_wire (w_sys wB2) = y_wire (w_sys wB1) ++ [(0%nat, reply)]
    ∧ @ether_receive sample_machine sample_env 0 reply wA1 = Done tt wA2
    ∧ w_udp wA2 = udp_arrived (IpEndpoint addr_gw 0x0700) (IpEndpoint addr_tap 0x00c0) sample_text 3 udp_client.
Proof.
  destruct (wp_Done _ _ _ (@udp_echo_answers sample_machine sample_env sample_env sample_env_ok sample_env_ok
    0 0 (link_tap mac_tap) (link_iface addr_tap) udp_host_a 0 0 (link_tap mac_gw) (link_iface addr_gw) udp_host_b
    0 (UdpPcb UDP_PCB_STATE_OPEN (IpEndpoint IP_ADDR_ANY 0x00c0) [] (SchedCtx 0 0 0)) 0 sample_text 3
    sample_writes_whole sample_never_fails sample_polls_succeed
    sample_writes_whole sample_never_fails sample_polls_succeed udp_host_a_tap udp_host_b_serves
    udp_host_a_reaches udp_host_b_reaches ltac:(done) ltac:(done) eq_refl eq_refl ltac:(done)
    ltac:(by left) sample_text_ok ltac:(by split) ltac:(done)))
    as (r&wA1&E1&->&request&W1&Hrecv).
  destruct (wp_Done _ _ _ Hrecv) as ([]&wB1&E2&Hwake).
  destruct (wp_Done _ _ _ Hwake) as (st&wB2&E3&->&_&reply&W2&Hrecv2).
  destruct (wp_Done _ _ _ Hrecv2) as ([]&wA2&E4&Hu).
  exists wA1, request, wB1, wB2, reply, wA2.
  exact (conj E1 (conj W1 (conj E2 (conj E3 (conj W2 (conj E4 Hu)))))).
Defined.

Lemma udp_echo_starts_witness :
  ∃ w w', @udp_echo_main sample_machine sample_env (IpEndpoint 0 0) boot_world = Done (UdpEchoLoop 0) w
    ∧ @udp_echo_loop sample_machine sample_env 0 0 w = Done (UdpEchoReceiving 0) w'.
Proof.
  destruct (wp_Done _ _ _ (@udp_echo_starts sample_machine sample_env sample_env_ok (IpEndpoint 0 0)
    sample_never_fails ltac:(done) ltac:(done) ltac:(done))) as (s&w&E&->&Hloop).
  destruct (wp_Done _ _ _ Hloop) as (s'&w'&E'&->&_). exists w, w'. exact (conj E E').
Defined.

Lemma tcp_echo_answers_witness :
  ∃ wA1 frames wB1 acks wA2 wB2 echo wA3 pa3,
    @tcp_send sample_machine sample_env sample_ops 0 sample_text 3 peer_a = Done (Returned 3) wA1
    ∧ y_wire (w_sys wA1) = pair 0%nat <$> frames
    ∧ for_each frames (@ether_receive sample_machine sample_env 0) peer_b = Done tt wB1
    ∧ y_wire (w_sys wB1) = pair 0%nat <$> acks
    ∧ for_each acks (@ether_receive sample_machine sample_env 0) wA1 = Done tt wA2
    ∧ @tcp_echo_wake sample_machine sample_env 0 (TcpEchoReceiving 0 0) wB1 = Done (TcpEchoLoop 0) wB2
    ∧ y_wire (w_sys wB2) = y_wire (w_sys wB1) ++ (pair 0%nat <$> echo)
    ∧ for_each echo (@ether_receive sample_machine sample_env 0) wA2 = Done tt wA3
    ∧ w_tcp wA3 !! 0%nat = Some pa3 ∧ tcp_unread pa3 = tcp_unread sample_established ++ sample_text.
Proof.
  destruct (@tcp_dialogue_runs sample_machine _ _ _ _ _ _ _ _ _ _ _ _ _ _ _
    (@tcp_echo_answers sample_machine sample_env sample_env sample_env_ok sample_env_ok
      _ _ _ _ _ _ _ _ _ _ _ _ _ _ _ _ sample_text sample_session
      (sample_room TCP_ECHO_BUFSIZ sample_text sample_text sample_text_ok ltac:(by split) ltac:(done) sample_text_ok ltac:(done))))
    as (wA1&frames&wB1&acks&wA2&wB2&echo&wA3&pa3&_&_&E1&Hf&E2&Ha&E3&E4&He&E5&Hp&Hu&_).
  exists wA1, frames, wB1, acks, wA2, wB2, echo, wA3, pa3.
  exact (conj E1 (conj Hf (conj E2 (conj Ha (conj E3 (conj E4 (conj He (conj E5 (conj Hp Hu))))))))).
Defined.

(** The program waits for text on the host that [setup] makes. *)
Definition stop_world : world :=
  @ready_world sample_machine sample_env (w_arp boot_world) (w_udp boot_world) (sample_tcp sample_other).

Lemma stop_world_ok : stack_ok stop_world.
Proof.
  destruct boot_ok as [Hu _ Ha].
  apply (@ready_ok sample_machine sample_env); [done|done|]. split; [done|].
  apply Forall_cons_2; [apply sample_other_ok|]. apply Forall_replicate, tcp_pcb_zero_ok.
Qed.

Lemma on_signal_flag w t w' : on_signal w = Done t w' → t = 1.
Proof. by intros [= <- _]. Qed.

Lemma tcp_echo_stops_witness :
  ∃ w1 b w2 s w3, @on_signal stop_world = Done 1 w1
    ∧ @intr_signal sample_machine sample_env INTR_IRQ_EVENT w1 = Done b w2
    ∧ @tcp_echo_wake sample_machine sample_env 0 (TcpEchoReceiving 0 0) w2 = Done s w3 ∧ stack_ok w3.
Proof.
  destruct (wp_Done _ _ _ (@tcp_echo_stops sample_machine sample_env sample_env_ok (TcpEchoReceiving 0 0) 0
    sample_other 0 stop_world stop_world_ok ltac:(by left) eq_refl ltac:(done) eq_refl))
    as (t&w1&E1&_&Hsig).
  destruct (wp_Done _ _ _ Hsig) as (b&w2&E2&Hwake). destruct (wp_Done _ _ _ Hwake) as (s&w3&E3&Hw3&_).
  pose proof (on_signal_flag _ _ _ E1) as ->.
  exists w1, b, w2, s, w3. exact (conj E1 (conj E2 (conj E3 Hw3))).
Defined.
