(* ===== verification/Apps.v ===== *)
(** * HTTP requests

    The request handling of [src/src/test/static-http-server.c], between
    [tcp_receive] and [tcp_send]: what it makes of a buffer that was received,
    and the buffers it hands to [tcp_send].  Memory is explicit as in [Text],
    and [None] is an access outside an object. *)

From Stdlib Require Import String.
From stdpp Require Import sets.
From S2P Require Import Prelude Bytes Text Log.

(** ** Static files over HTTP *)

Definition MAX_URI_LEN : Z := 512.
Definition INDEX : bytes := txt "index.html".
Definition INDEX_LEN : Z := 11.

Definition chr_percent : Z := 37.
Definition chr_slash : Z := 47.

(** [uri_decode] from [src_i] on; the first argument is what is left of
    [srclen].  The result is the bytes it writes, one per round.  An escape is
    one when two more bytes are left after the percent sign. *)
Fixpoint uri_decode (n : nat) (src : bytes) : option bytes :=
  match n, src with
  | O, _ => Some []
  | S _, [] => None
  | S n, c :: src =>
      match (if c =? chr_percent then n else O), src with
      | S (S m), c1 :: c2 :: src =>
          '(v, _) ← strtol [c1; c2; 0] 16;
          rest ← uri_decode m src;
          Some (u8 v :: rest)
      | S (S _), _ => None
      | _, _ => rest ← uri_decode n src; Some (c :: rest)
      end
  end.

(** ** The C library *)

(** The first byte of [s] for which [stop] holds, by its offset. *)
Fixpoint scan_until (stop : Z → bool) (s : bytes) : option nat :=
  match s with
  | [] => None
  | c :: s => if stop c then Some O else n ← scan_until stop s; Some (S n)
  end.

Definition is_delim (delims : bytes) (c : Z) : bool := bool_decide (c ∈ delims).

(** [strtok] from [pos] on: the start of the token, the memory afterwards,
    and where the next call goes on. *)
Definition strtok (mem : bytes) (pos : nat) (delims : bytes) : option (option nat * bytes * nat) :=
  skip ← scan_until (λ c, negb (is_delim delims c)) (drop pos mem);
  let start := (pos + skip)%nat in
  c ← mem !! start;
  if c =? chr_nul then Some (None, mem, start)
  else
    len ← scan_until (λ c, is_delim delims c || (c =? chr_nul)) (drop start mem);
    let stop := (start + len)%nat in
    c ← mem !! stop;
    if c =? chr_nul then Some (Some start, mem, stop)
    else Some (Some start, <[stop := chr_nul]> mem, S stop).

(** The bytes of a string, without the terminating NUL. *)
Definition cstring (s : bytes) : option bytes :=
  n ← strlen s; Some (take (Z.to_nat n) s).

(** ** Requests *)

Definition crlf : bytes := [13; 10].

Definition response_400 : bytes := txt "HTTP/1.1 400 Bad Request" ++ crlf ++ txt "Content-Length: 0" ++ crlf ++ crlf.
Definition response_404 : bytes := txt "HTTP/1.1 404 Not Found" ++ crlf ++ txt "Content-Length: 0" ++ crlf ++ crlf.
Definition response_414 : bytes := txt "HTTP/1.1 414 URI Too Long" ++ crlf ++ txt "Content-Length: 0" ++ crlf ++ crlf.
Definition response_500 : bytes :=
  txt "HTTP/1.1 500 Internal Server Error" ++ crlf ++ txt "Content-Length: 0" ++ crlf ++ crlf.

(** A file that was opened: what [fstat] gives as its size, unless it fails,
    and what the calls of [read] give until one returns 0, a failure being
    the last. *)
Record http_file := HttpFile {
  hf_size : option Z;
  hf_reads : list bytes;
  hf_fails : bool
}.

Definition response_200 (size : Z) : bytes :=
  txt "HTTP/1.1 200 OK" ++ crlf ++ txt "Content-Length: " ++ fmt_d size ++ crlf ++ crlf.

(** The header, in a buffer of 64 bytes. *)
Definition http_header (size : Z) : option bytes :=
  let header := response_200 size in
  if zlen header <? 64 then Some header else None.

(** From the file on: the buffers handed to [tcp_send]. *)
Definition http_respond (file : http_file) : option (list bytes) :=
  match hf_size file with
  | None => Some [response_404]
  | Some size =>
      header ← http_header size;
      Some (header :: hf_reads file ++ if hf_fails file then [response_500] else [])
  end.

(** The path in the buffer [uri], which is zero at first. *)
Definition http_uri (mem : bytes) (start : nat) (len : Z) : option bytes :=
  decoded ← uri_decode (Z.to_nat len) (drop start mem);
  let uri_len := zlen decoded in
  uri ← memcpy (replicate (Z.to_nat (MAX_URI_LEN + INDEX_LEN + 1)) 0) 0 decoded uri_len;
  last ← slice (uri_len - 1) 1 uri;
  if bool_decide (last = [chr_slash])
  then memcpy uri uri_len (INDEX ++ [chr_nul]) INDEX_LEN
  else Some uri.

(** [http_handler] on the memory at [reqbuf], which is at the address
    [base]: the buffers handed to [tcp_send], in order, and the memory
    afterwards, in which [strtok] has put ends of strings.  The pointers are
    numbers and NULL is 0, because the end of the URI is computed from the
    result of [strtok] without a test. *)
Definition http_handler (base : Z) (open_file : bytes → option http_file) (reqbuf : bytes)
  : option (list bytes * bytes) :=
  start ← slice 0 4 reqbuf;
  if negb (bool_decide (start = txt "GET ")) then Some ([], reqbuf)
  else
    '(_, mem, pos) ← strtok reqbuf 0 (txt " ?");
    '(orig_uri, mem, pos) ← strtok mem pos (txt " ?");
    '(after, mem, _) ← strtok mem pos (txt " ?");
    let orig_uri_end := match after with Some after => base + Z.of_nat after | None => 0 end - 1 in
    match orig_uri with
    | None => Some ([response_400], mem)
    | Some orig_uri =>
        let orig_uri_len := orig_uri_end - (base + Z.of_nat orig_uri) in
        if orig_uri_len >? MAX_URI_LEN then Some ([response_414], mem)
        else
          uri ← http_uri mem orig_uri (u64 orig_uri_len);
          path ← cstring (drop 1 uri);
          match open_file path with
          | None => Some ([response_404], mem)
          | Some file => bufs ← http_respond file; Some (bufs, mem)
          end
    end.

(** ** Decoding *)

(** [uri_decode] looks at the bytes it is given alone, and is total on
    them. *)
Lemma uri_decode_total n : ∀ src rest, length src = n →
  ∃ dst, uri_decode n (src ++ rest) = Some dst ∧ uri_decode n src = Some dst
    ∧ (length dst <= n)%nat ∧ (n ≠ 0%nat → dst ≠ []).
Proof.
  induction n as [n IH] using lt_wf_ind. intros src rest Hl.
  destruct n as [|n]; [exists []; split_and!; [by destruct src, rest|by destruct src|cbn; lia|done]|]. destruct src as [|c src]; [done|]. cbn in Hl.
  destruct (if c =? chr_percent then n else O) as [|[|m]] eqn:En.
  1,2: destruct (IH n ltac:(lia) src rest ltac:(lia)) as (dst&E1&E2&Hd&_); exists (c :: dst);
    cbn [uri_decode app]; rewrite En, E1, E2; cbn; split_and!; [done|done|lia|done].
  destruct (c =? chr_percent) eqn:Ec; [|done]. subst n.
  destruct src as [|c1 [|c2 src]]; [cbn in Hl; lia..|].
  destruct (IH m ltac:(lia) src rest ltac:(cbn in Hl; lia)) as (dst&E1&E2&Hd&_).
  destruct (strtol_terminated [c1; c2; 0] 16) as (v&ep&Ev&_); [lia|by right; right; left|].
  exists (u8 v :: dst). cbn [uri_decode app]. rewrite Ec, Ev, E1, E2. cbn. split_and!; [done|done|lia|done].
Qed.

(** Every byte escaped. *)
Definition uri_encode (s : bytes) : bytes := mjoin ((λ c, chr_percent :: fmt_02x c) <$> s).

Lemma uri_decode_encode s :
  bytes_ok s → uri_decode (length (uri_encode s)) (uri_encode s) = Some s.
Proof.
  induction 1 as [|c s Hc _ IH]; [done|].
  change (uri_encode (c :: s)) with (chr_percent :: fmt_02x c ++ uri_encode s).
  unfold fmt_02x. cbn [app length uri_decode Z.eqb chr_percent Pos.eqb].
  pose proof (strtol_fmt_02x c 0 [] Hc eq_refl) as Ev. unfold fmt_02x in Ev. cbn [app] in Ev. rewrite Ev.
  cbn [mbind option_bind]. rewrite IH. cbn. by rewrite u8_small.
Qed.

(** ** Tokens *)

Lemma scan_until_app stop a c s :
  Forall (λ x, stop x = false) a → stop c = true → scan_until stop (a ++ c :: s) = Some (length a).
Proof.
  intros Ha Hc. induction Ha as [|x a Hx _ IH]; cbn [app scan_until length]; [by rewrite Hc|].
  by rewrite Hx, IH.
Qed.

(** A byte that can be part of a token. *)
Definition token_char (delims : bytes) (c : Z) : Prop := c ∉ delims ∧ c ≠ chr_nul.

Lemma token_char_stop delims c : token_char delims c → is_delim delims c || (c =? chr_nul) = false.
Proof.
  intros [Hd Hn]. unfold is_delim. by rewrite bool_decide_eq_false_2, (proj2 (Z.eqb_neq _ _) Hn).
Qed.

(** A token and the byte that ends it. *)
Lemma strtok_token delims pre tok d rest :
  tok ≠ [] → Forall (token_char delims) tok → ¬ token_char delims d →
  strtok (pre ++ tok ++ d :: rest) (length pre) delims
  = Some (if d =? chr_nul
          then (Some (length pre), pre ++ tok ++ d :: rest, (length pre + length tok)%nat)
          else (Some (length pre), pre ++ tok ++ chr_nul :: rest, S (length pre + length tok))).
Proof.
  intros Hne Ht Hd. unfold strtok. rewrite drop_app_length.
  destruct tok as [|c tok]; [done|]. apply Forall_cons in Ht as [Hc Ht]. pose proof Hc as [Hcd Hcn].
  assert (scan_until (λ c, negb (is_delim delims c)) ((c :: tok) ++ d :: rest) = Some 0%nat) as ->.
  { cbn. unfold is_delim. by rewrite bool_decide_eq_false_2. }
  cbn [mbind option_bind]. rewrite Nat.add_0_r.
  rewrite lookup_app_r, Nat.sub_diag by lia. cbn [app lookup list_lookup mbind option_bind].
  rewrite (proj2 (Z.eqb_neq _ _) Hcn), drop_app_length, (scan_until_app _ (c :: tok) d rest).
  2:{ apply Forall_cons; split; [by apply token_char_stop|]. eapply Forall_impl; [exact Ht|].
      intros. by apply token_char_stop. }
  2:{ unfold is_delim. destruct (decide (d ∈ delims)) as [|Hnd]; [by rewrite bool_decide_eq_true_2|].
      destruct (Z.eqb_spec d chr_nul); [by rewrite orb_true_r|]. by destruct Hd. }
  cbn [mbind option_bind]. rewrite lookup_app_r by lia.
  replace (length pre + length (c :: tok) - length pre)%nat with (length (c :: tok)) by lia.
  change (c :: tok ++ d :: rest) with ((c :: tok) ++ d :: rest). rewrite list_lookup_middle by done.
  cbn [mbind option_bind]. destruct (d =? chr_nul); [done|].
  by rewrite insert_app_r, insert_app_r_alt, Nat.sub_diag by lia.
Qed.

(** The first byte that ends a token. *)
Lemma token_split delims s :
  (∃ x, x ∈ s ∧ ¬ token_char delims x) →
  ∃ a d s', s = a ++ d :: s' ∧ Forall (token_char delims) a ∧ ¬ token_char delims d.
Proof.
  induction s as [|c s IH]; intros (x&Hx&Hstop); [by apply not_elem_of_nil in Hx|].
  assert (Decision (token_char delims c)) as Hdec by (unfold token_char; apply _).
  destruct (decide (token_char delims c)) as [Hc|Hc]; [|by exists [], c, s].
  apply elem_of_cons in Hx as [->|Hx]; [done|].
  destruct IH as (a&d&s'&->&Ha&Hd); [by exists x|]. exists (c :: a), d, s'. split_and!; [done| |done].
  by apply Forall_cons.
Qed.

Lemma strtok_length delims mem pos tok mem' pos' :
  strtok mem pos delims = Some (tok, mem', pos') → length mem' = length mem.
Proof.
  unfold strtok. destruct (scan_until _ (drop pos mem)) as [skip|]; [|done]. cbn [mbind option_bind].
  destruct (mem !! _) as [c|]; [|done]. cbn [mbind option_bind]. destruct (c =? chr_nul); [by intros [= _ <- _]|].
  destruct (scan_until _ (drop (pos + skip) mem)) as [len|]; [|done]. cbn [mbind option_bind].
  destruct (mem !! _) as [c'|]; [|done]. cbn [mbind option_bind]. destruct (c' =? chr_nul); [by intros [= _ <- _]|].
  intros [= _ <- _]. apply length_insert.
Qed.

(** The next token starts at its first byte, and bytes before it stay. *)
Lemma strtok_next delims pre c rest :
  token_char delims c → (∃ x, x ∈ rest ∧ ¬ token_char delims x) →
  ∃ mem pos, strtok (pre ++ c :: rest) (length pre) delims = Some (Some (length pre), mem, pos)
    ∧ take (length pre) mem = pre.
Proof.
  intros Hc Hex. destruct (token_split delims rest Hex) as (a&d&s&->&Ha&Hd).
  pose proof (strtok_token delims pre (c :: a) d s) as E. cbn [app] in E. rewrite E; [|done|by apply Forall_cons|done].
  destruct (d =? chr_nul); do 2 eexists; (split; [done|]); apply take_app_length.
Qed.

(** No token is left at the end of the string. *)
Lemma strtok_end delims pre rest :
  chr_nul ∉ delims → strtok (pre ++ chr_nul :: rest) (length pre) delims = Some (None, pre ++ chr_nul :: rest, length pre).
Proof.
  intros Hn. unfold strtok. rewrite drop_app_length.
  assert (scan_until (λ c, negb (is_delim delims c)) (chr_nul :: rest) = Some 0%nat) as ->.
  { cbn. unfold is_delim. by rewrite bool_decide_eq_false_2. }
  cbn [mbind option_bind]. rewrite Nat.add_0_r, list_lookup_middle by done. done.
Qed.

(** ** A request is answered *)

Fixpoint until_nul (s : bytes) : bytes :=
  match s with
  | [] => []
  | c :: s => if c =? chr_nul then [] else c :: until_nul s
  end.

Lemma cstring_until s n : cstring (s ++ replicate (S n) chr_nul) = Some (until_nul s).
Proof.
  unfold cstring. induction s as [|c s IH]; [done|]. cbn [app strlen until_nul].
  destruct (c =? chr_nul) eqn:Ec; [done|]. destruct (strlen (s ++ _)) as [k|] eqn:Ek; [|done].
  cbn [mbind option_bind] in *. injection IH as IH.
  assert (0 <= k) as Hk.
  { clear -Ek. revert k Ek. induction (s ++ replicate (S n) chr_nul) as [|c l IH]; intros k Ek; [done|].
    cbn in Ek. destruct (c =? chr_nul); [by injection Ek as <-|].
    destruct (strlen l); [|done]. injection Ek as <-. specialize (IH _ eq_refl). lia. }
  replace (Z.to_nat (k + 1)) with (S (Z.to_nat k)) by lia. cbn [take replicate] in *. by rewrite IH.
Qed.

(** The file that is asked for. *)
Definition http_path (decoded : bytes) : bytes :=
  until_nul (drop 1 (decoded ++ if bool_decide (last decoded = Some chr_slash) then INDEX else [])).

(** What the client gets for it. *)
Definition http_answer (file : option http_file) : list bytes :=
  match file with
  | None => [response_404]
  | Some file =>
      match hf_size file with
      | None => [response_404]
      | Some size => response_200 size :: hf_reads file ++ if hf_fails file then [response_500] else []
      end
  end.

(** The buffers that are sent for a URI. *)
Definition http_response (open_file : bytes → option http_file) (uri decoded : bytes) : list bytes :=
  if MAX_URI_LEN <? zlen uri then [response_414] else http_answer (open_file (http_path decoded)).

Lemma http_header_fits size : 0 <= size < 2 ^ 63 → http_header size = Some (response_200 size).
Proof.
  intros Hs. unfold http_header. assert (zlen (response_200 size) < 64) as Hl; [|by rewrite (proj2 (Z.ltb_lt _ _) Hl)].
  unfold response_200, fmt_d. rewrite (proj2 (Z.ltb_ge _ _)) by lia.
  pose proof (fmt_u_length 19 size ltac:(lia) ltac:(lia)). unfold zlen. rewrite !length_app.
  cbn [length txt]. change (length (txt "HTTP/1.1 200 OK")) with 15%nat.
  change (length (txt "Content-Length: ")) with 16%nat. change (length crlf) with 2%nat. lia.
Qed.

Lemma slice_last (decoded : bytes) rest :
  decoded ≠ [] → ∃ c, last decoded = Some c ∧ slice (zlen decoded - 1) 1 (decoded ++ rest) = Some [c].
Proof.
  intros Hne. destruct decoded as [|c l _] using rev_ind; [done|]. exists c. rewrite last_snoc. split; [done|].
  pose proof (zlen_nonneg l). pose proof (zlen_nonneg rest).
  rewrite slice_spec; rewrite ?zlen_app, ?zlen_cons; change (zlen (@nil Z)) with 0; try lia.
  replace (zlen l + (1 + 0) - 1) with (zlen l) by lia. unfold zlen. rewrite Nat2Z.id, <- app_assoc, drop_app_length.
  done.
Qed.

(** The path in the buffer. *)
Lemma http_uri_path mem start len decoded :
  uri_decode (Z.to_nat len) (drop start mem) = Some decoded → decoded ≠ [] → zlen decoded <= MAX_URI_LEN →
  ∃ uri, http_uri mem start len = Some uri ∧ cstring (drop 1 uri) = Some (http_path decoded).
Proof.
  intros Edec Hne Hl. unfold http_uri. rewrite Edec. cbn [mbind option_bind]. unfold MAX_URI_LEN, INDEX_LEN in *.
  pose proof (zlen_nonneg decoded). change (Z.to_nat (512 + 11 + 1)) with 524%nat.
  rewrite memcpy_spec by (unfold zlen in *; rewrite ?length_replicate; lia). cbn [mbind option_bind].
  rewrite take_0, app_nil_l, take_ge, drop_replicate by (unfold zlen; lia).
  set (n := (524 - Z.to_nat (0 + zlen decoded))%nat).
  destruct (slice_last decoded (replicate n 0) Hne) as (c&Elast&->). cbn [mbind option_bind]. unfold http_path.
  assert (12 <= n)%nat as Hn by (unfold n, zlen in *; lia).
  assert (bool_decide ([c] = [chr_slash]) = bool_decide (last decoded = Some chr_slash)) as ->.
  { rewrite Elast. apply bool_decide_ext. split; [by intros [= ->]|by intros [= ->]]. }
  destruct decoded as [|x decoded]; [done|]. destruct (bool_decide _).
  - rewrite memcpy_spec; [|unfold zlen in *; rewrite ?length_app, ?length_replicate; cbn; lia..].
    eexists. split; [done|].
    assert (Z.to_nat (zlen (x :: decoded)) = length (x :: decoded)) as -> by (unfold zlen; lia).
    assert (Z.to_nat (zlen (x :: decoded) + 11) = (length (x :: decoded) + 11)%nat) as -> by (unfold zlen; lia).
    rewrite take_app_length, drop_app_add, drop_replicate.
    replace (n - 11)%nat with (S (n - 12)) by lia. change (Z.to_nat 11) with 11%nat.
    change (take 11 (INDEX ++ [chr_nul])) with (INDEX ++ [0]). cbn [app drop].
    rewrite <- (app_assoc INDEX), (app_assoc decoded). apply (cstring_until (decoded ++ INDEX) (S (n - 12))).
  - eexists. split; [done|]. destruct n as [|n']; [lia|]. cbn [app drop]. rewrite app_nil_r. apply cstring_until.
Qed.

(** The delimiters of the request line. *)
Lemma blank_delim d : d ∈ txt " ?" → ¬ token_char (txt " ?") d ∧ d ≠ chr_nul.
Proof.
  intros Hd. split; [by intros [? _]|]. change (txt " ?") with [32; 63] in Hd. unfold chr_nul. set_solver.
Qed.

Lemma get_token : Forall (token_char (txt " ?")) (txt "GET").
Proof.
  change (txt "GET") with [71; 69; 84]. change (txt " ?") with [32; 63].
  repeat apply Forall_cons_2; try apply Forall_nil_2; by (split; [set_solver|]).
Qed.

(** The three tokens of a request line: where the second and the third
    start, and the memory from the second on. *)
Lemma request_tokens uri d c rest :
  let delims := txt " ?" in
  uri ≠ [] → Forall (token_char delims) uri → d ∈ delims → token_char delims c →
  (∃ x, x ∈ rest ∧ ¬ token_char delims x) →
  ∃ mem1 pos1 mem2 pos2 mem3 pos3 tail,
    strtok (txt "GET " ++ uri ++ d :: c :: rest) 0 delims = Some (Some 0%nat, mem1, pos1)
    ∧ strtok mem1 pos1 delims = Some (Some 4%nat, mem2, pos2)
    ∧ strtok mem2 pos2 delims = Some (Some (5 + length uri)%nat, mem3, pos3)
    ∧ mem3 = txt "GET" ++ [chr_nul] ++ uri ++ tail
    ∧ length mem3 = length (txt "GET " ++ uri ++ d :: c :: rest).
Proof.
  intros delims Hne Huri Hd Hc Hrest. destruct (blank_delim d Hd) as [Hstop Hdn].
  pose proof (strtok_token delims [] (txt "GET") 32 (uri ++ d :: c :: rest) ltac:(done) get_token
    ltac:(by apply blank_delim; left)) as E1.
  pose proof (strtok_token delims (txt "GET" ++ [chr_nul]) uri d (c :: rest) Hne Huri Hstop) as E2.
  rewrite (proj2 (Z.eqb_neq _ _) Hdn), <- !app_assoc in E2.
  destruct (strtok_next delims (txt "GET" ++ [chr_nul] ++ uri ++ [chr_nul]) c rest Hc Hrest)
    as (mem3&pos3&E3&Htake).
  do 4 eexists. exists mem3, pos3, (chr_nul :: drop (5 + length uri) mem3). split_and!; [exact E1|exact E2|..].
  - replace (length (txt "GET" ++ [chr_nul] ++ uri ++ [chr_nul])) with (5 + length uri)%nat in E3
      by (rewrite !length_app; cbn; lia).
    rewrite <- E3. f_equal. by rewrite <- !app_assoc.
  - rewrite <- (take_drop (5 + length uri) mem3) at 1.
    replace (5 + length uri)%nat with (length (txt "GET" ++ [chr_nul] ++ uri ++ [chr_nul]))
      by (rewrite !length_app; cbn; lia).
    rewrite Htake, <- !app_assoc. done.
  - apply strtok_length in E3. rewrite E3, !length_app. cbn. lia.
Qed.

(** The HTTP server answers a request line.  On a buffer that starts with
    GET, a URI and a further token, each after one delimiter, [http_handler]
    stays in bounds, whatever follows, and hands to [tcp_send] what the
    client is to get: for a URI of more than 512 bytes the error 414;
    otherwise, for the file that the decoded URI names, the index of a
    directory if it ends in a slash, the error 404, or a header with its size
    and the contents as they are read, in order.  The request line in the
    buffer is cut up afterwards. *)
Lemma http_request_answered base open_file uri d c rest :
  let reqbuf := txt "GET " ++ uri ++ d :: c :: rest in
  uri ≠ [] → Forall (token_char (txt " ?")) uri → d ∈ txt " ?" → token_char (txt " ?") c →
  (∃ x, x ∈ rest ∧ ¬ token_char (txt " ?") x) →
  (∀ path file size, open_file path = Some file → hf_size file = Some size → 0 <= size < 2 ^ 63) →
  ∃ decoded mem, uri_decode (length uri) uri = Some decoded
    ∧ http_handler base open_file reqbuf
      = Some (http_response open_file uri decoded, mem)
    ∧ length mem = length reqbuf ∧ take 4 mem = txt "GET" ++ [chr_nul].
Proof.
  intros reqbuf Hne Huri Hd Hc Hrest Hsize.
  destruct (uri_decode_total (length uri) uri (chr_nul :: c :: rest) eq_refl) as (decoded&_&Edec&Hlen&Hdne).
  destruct (request_tokens uri d c rest Hne Huri Hd Hc Hrest)
    as (mem1&pos1&mem2&pos2&mem3&pos3&tail&E1&E2&E3&Htail&Hlen3).
  exists decoded, mem3. split_and!; [exact Edec| |exact Hlen3|by rewrite Htail]. unfold http_handler.
  rewrite slice_spec by (unfold reqbuf, zlen; rewrite ?length_app; cbn; lia).
  change (take (Z.to_nat 4) (drop (Z.to_nat 0) reqbuf)) with (txt "GET "). cbn [mbind option_bind].
  rewrite bool_decide_eq_true_2 by done. cbn [negb]. unfold reqbuf. rewrite E1. cbn [mbind option_bind].
  rewrite E2. cbn [mbind option_bind]. rewrite E3. cbn [mbind option_bind].
  replace (base + Z.of_nat (5 + length uri) - 1 - (base + Z.of_nat 4)) with (zlen uri) by (unfold zlen; lia).
  unfold http_response. rewrite Z.gtb_ltb. destruct (Z.ltb_spec MAX_URI_LEN (zlen uri)) as [|Hle]; [done|].
  unfold MAX_URI_LEN in Hle. pose proof (zlen_nonneg uri). rewrite u64_small by ulia.
  destruct (uri_decode_total (length uri) uri tail eq_refl) as (decoded'&Edec'&Edec2&_).
  assert (decoded' = decoded) as -> by congruence.
  destruct (http_uri_path mem3 4 (zlen uri) decoded) as (u&->&Epath).
  { unfold zlen. rewrite Nat2Z.id, Htail. exact Edec'. }
  { apply Hdne. by destruct uri. }
  { unfold zlen, MAX_URI_LEN in *. lia. }
  cbn [mbind option_bind]. rewrite Epath. cbn [mbind option_bind].
  destruct (open_file (http_path decoded)) as [file|] eqn:Ef; [|done]. unfold http_respond, http_answer.
  destruct (hf_size file) as [size|] eqn:Es; [|done]. by rewrite http_header_fits by eauto.
Qed.

(** More bytes than there are. *)
Lemma uri_decode_short n : ∀ src, (length src < n)%nat → uri_decode n src = None.
Proof.
  induction n as [n IH] using lt_wf_ind. intros src Hl.
  destruct n as [|n]; [lia|]. destruct src as [|c src]; [done|]. cbn in Hl.
  assert (uri_decode n src = None) as E by (apply IH; lia). cbn [uri_decode].
  destruct (c =? chr_percent); [|by rewrite E]. destruct n as [|[|m]]; [by rewrite E..|].
  destruct src as [|c1 [|c2 src]]; [done..|]. destruct (strtol _ _) as [[v ep]|]; [|done].
  cbn [mbind option_bind]. rewrite IH; [done|lia|]. cbn in Hl. lia.
Qed.

(** C37. A request without a third token makes the HTTP server leave its
    buffers.  The end of the URI is computed from the NULL that [strtok]
    returns, so that the length of the URI is negative, which is not more
    than 512, and, as the unsigned bound of [uri_decode], more than the bytes
    there are. *)
Theorem http_request_unterminated base open_file uri rest :
  let reqbuf := txt "GET " ++ uri ++ chr_nul :: rest in
  0 < base → base + zlen reqbuf < 2 ^ 63 → uri ≠ [] → Forall (token_char (txt " ?")) uri →
  http_handler base open_file reqbuf = None.
Proof.
  intros reqbuf Hb Hmax Hne Huri. unfold http_handler, reqbuf in *.
  rewrite slice_spec by (rewrite ?zlen_app; unfold zlen; cbn; lia).
  change (take (Z.to_nat 4) (drop (Z.to_nat 0) (txt "GET " ++ uri ++ chr_nul :: rest))) with (txt "GET ").
  cbn [mbind option_bind]. rewrite bool_decide_eq_true_2 by done. cbn [negb].
  set (pre := txt "GET" ++ [chr_nul]).
  assert (strtok (txt "GET " ++ uri ++ chr_nul :: rest) 0 (txt " ?")
          = Some (Some 0%nat, pre ++ uri ++ chr_nul :: rest, 4%nat)) as ->.
  { exact (strtok_token (txt " ?") [] (txt "GET") 32 (uri ++ chr_nul :: rest) ltac:(done) get_token
      ltac:(by apply blank_delim; left)). }
  cbn [mbind option_bind].
  assert (strtok (pre ++ uri ++ chr_nul :: rest) 4 (txt " ?")
          = Some (Some 4%nat, pre ++ uri ++ chr_nul :: rest, (4 + length uri)%nat)) as ->.
  { exact (strtok_token (txt " ?") pre uri chr_nul rest Hne Huri ltac:(by intros [_ ?])). }
  cbn [mbind option_bind].
  assert (strtok (pre ++ uri ++ chr_nul :: rest) (4 + length uri) (txt " ?")
          = Some (None, pre ++ uri ++ chr_nul :: rest, (4 + length uri)%nat)) as ->.
  { pose proof (strtok_end (txt " ?") (pre ++ uri) rest ltac:(by intros [_ ?]%blank_delim)) as E3.
    rewrite <- app_assoc, length_app in E3. exact E3. }
  cbn [mbind option_bind]. unfold MAX_URI_LEN. rewrite Z.gtb_ltb.
  rewrite (proj2 (Z.ltb_ge 512 _)) by lia. unfold http_uri. rewrite uri_decode_short; [done|].
  unfold zlen in Hmax. rewrite length_drop.
  replace (length (pre ++ uri ++ chr_nul :: rest)) with (length (txt "GET " ++ uri ++ chr_nul :: rest))
    by (by rewrite !length_app).
  unfold u64. rewrite <- (Z.mod_unique _ (2 ^ 64) (-1) (2 ^ 64 - base - 5)) by lia. lia.
Qed.

(** ** Examples *)

(** One file of three bytes, read at once. *)
Definition sample_files (path : bytes) : option http_file :=
  if bool_decide (path = txt "a/index.html") then Some (HttpFile (Some 3) [[1; 2; 3]] false) else None.

Example http_request_example :
  fst <$> http_handler 4096 sample_files (txt "GET /%61/ HTTP/1.1" ++ crlf ++ [0])
  = Some [response_200 3; [1; 2; 3]].
Proof. vm_compute. reflexivity. Qed.

Lemma http_request_unterminated_witness :
  http_handler 4096 sample_files (txt "GET /index.html" ++ [0; 0; 0]) = None.
Proof.
  apply (http_request_unterminated 4096 sample_files (txt "/index.html") [0; 0]); [lia|done|done|].
  change (txt "/index.html") with [47; 105; 110; 100; 101; 120; 46; 104; 116; 109; 108].
  change (txt " ?") with [32; 63].
  repeat apply Forall_cons_2; try apply Forall_nil_2; by (split; [set_solver|]).
Defined.
