(* ===== verification/WebSocket.v ===== *)
(** * WebSocket messages

    The opening handshake and the frames of [src/src/test/ws-echo.c], between
    [tcp_receive] and [tcp_send].  Memory is explicit as in [Text], and [None]
    is an access outside an object.  SHA-1 and the base64 encoder belong to
    other libraries: they are parameters, with what their documentation says
    as laws. *)

From Stdlib Require Import String.
From stdpp Require Import sets.
From S2P Require Import Prelude Bytes Text Log Apps.

(** ** WebSocket frames *)

(** The loop of [ws_receive] from [i] on, for [n] more bytes. *)
Fixpoint ws_unmask (n i : nat) (buf data : bytes) : option bytes :=
  match n with
  | O => Some data
  | S n =>
      x ← buf !! (6 + i)%nat;
      k ← buf !! (2 + i mod 4)%nat;
      _ ← data !! i;
      ws_unmask n (S i) buf (<[i := Z.lxor x k]> data)
  end.

(** [ws_receive] once [tcp_receive] has returned [ret] and stored the bytes
    in [buf], which holds what it held before behind them: the result and the
    memory at [data]. *)
Definition ws_receive (ret : Z) (buf data : bytes) : option (Z * bytes) :=
  if ret <=? 0 then Some (-1, data)
  else
    b0 ← buf !! 0%nat;
    if nz (Z.land b0 0x08) then Some (-1, data)
    else
      b1 ← buf !! 1%nat;
      if negb (nz (Z.land b1 0x80)) then Some (-1, data)
      else
        let payload_len := Z.land b1 0x7f in
        if payload_len >? 125 then Some (-1, data)
        else
          data ← ws_unmask (Z.to_nat payload_len) 0 buf data;
          Some (payload_len, data).

(** [ws_send]: the result, and what it hands to [tcp_send]; [buf] is the
    memory of its buffer. *)
Definition ws_send (buf data : bytes) (data_len : Z) : option (Z * option bytes) :=
  buf ← memcpy buf 0 [Z.lor 0x80 0x01] 1;
  if data_len >? 125 then Some (-1, None)
  else
    buf ← memcpy buf 1 [Z.land data_len 0x7f] 1;
    buf ← memcpy buf 2 data data_len;
    sent ← slice 0 (data_len + 2) buf;
    Some (data_len, Some sent).

(** A client's frame: the opcode, the length with the mask bit, the key and
    the masked payload. *)
Fixpoint ws_mask (key : bytes) (i : nat) (payload : bytes) : bytes :=
  match payload with
  | [] => []
  | x :: payload => Z.lxor x (default 0 (key !! (i mod 4)%nat)) :: ws_mask key (S i) payload
  end.

Definition ws_client_frame (opcode : Z) (key payload : bytes) : bytes :=
  [opcode; Z.lor 0x80 (zlen payload)] ++ key ++ ws_mask key 0 payload.

Lemma length_ws_mask key i payload : length (ws_mask key i payload) = length payload.
Proof. revert i. induction payload as [|x p IH]; intros i; cbn; [done|]. by rewrite IH. Qed.

Lemma ws_mask_lookup key payload : ∀ i j x,
  payload !! j = Some x →
  ws_mask key i payload !! j = Some (Z.lxor x (default 0 (key !! ((i + j) mod 4)%nat))).
Proof.
  induction payload as [|y p IH]; intros i j x Hj; [done|].
  destruct j as [|j]; cbn [ws_mask lookup list_lookup] in *.
  - injection Hj as ->. by rewrite Nat.add_0_r.
  - pose proof (IH (S i) j x Hj) as E. rewrite Nat.add_succ_comm in E. exact E.
Qed.

(** The loop undoes the mask, byte by byte. *)
Lemma ws_unmask_payload n i hdr key payload rest data :
  length hdr = 2%nat → length key = 4%nat → length payload = (i + n)%nat →
  (length payload <= length data)%nat → take i data = take i payload →
  ws_unmask n i (hdr ++ key ++ ws_mask key 0 payload ++ rest) data
  = Some (payload ++ drop (length payload) data).
Proof.
  intros Lh Lk. revert i data. induction n as [|n IH]; intros i data Hp Hd Ht; cbn [ws_unmask].
  - rewrite Nat.add_0_r in Hp. rewrite <- (take_drop i data) at 1. rewrite Ht, <- Hp, take_ge by lia. done.
  - destruct (lookup_lt_is_Some_2 payload i) as [x Hx]; [lia|].
    destruct (lookup_lt_is_Some_2 data i) as [y Hy]; [lia|].
    destruct (lookup_lt_is_Some_2 key (i mod 4)) as [k Hk].
    { rewrite Lk. apply Nat.mod_upper_bound. lia. }
    assert ((hdr ++ key ++ ws_mask key 0 payload ++ rest) !! (6 + i)%nat = Some (Z.lxor x k)) as ->.
    { rewrite lookup_app_r, Lh by lia. rewrite lookup_app_r, Lk by lia.
      replace (6 + i - 2 - 4)%nat with i by lia. rewrite lookup_app_l by (rewrite length_ws_mask; lia).
      rewrite (ws_mask_lookup key payload 0 i x Hx). cbn [Nat.add]. by rewrite Hk. }
    assert ((hdr ++ key ++ ws_mask key 0 payload ++ rest) !! (2 + i mod 4)%nat = Some k) as ->.
    { rewrite lookup_app_r, Lh by lia. replace (2 + i mod 4 - 2)%nat with (i mod 4)%nat by lia.
      rewrite lookup_app_l; [done|]. apply lookup_lt_Some in Hk. lia. }
    cbn [mbind option_bind]. rewrite Hy. cbn [mbind option_bind].
    rewrite Z.lxor_assoc, Z.lxor_nilpotent, Z.lxor_0_r. rewrite IH.
    + f_equal. f_equal. rewrite drop_insert_lt; [done|]. lia.
    + lia.
    + by rewrite length_insert.
    + rewrite (take_S_r _ i x), (take_S_r payload i x); [|done|by apply list_lookup_insert_eq; lia].
      by rewrite take_insert_ge, Ht by lia.
Qed.

Lemma ws_length_byte n : 0 <= n <= 125 →
  Z.land (Z.lor 0x80 n) 0x80 = 0x80 ∧ Z.land (Z.lor 0x80 n) 0x7f = n ∧ Z.land n 0x7f = n.
Proof.
  intros Hn. assert (Z.land n (Z.ones 7) = n) as E by (rewrite Z.land_ones by lia; apply Z.mod_small; lia).
  change 0x7f with (Z.ones 7). rewrite !Z.land_lor_distr_l, E. split_and!; [|done|done].
  rewrite <- E, <- Z.land_assoc. change (Z.land (Z.ones 7) 128) with 0. by rewrite Z.land_0_r.
Qed.

Lemma ws_receive_frame ret opcode key payload rest data :
  0 < ret → Z.land opcode 0x08 = 0 → length key = 4%nat → zlen payload <= 125 →
  (length payload <= length data)%nat →
  ws_receive ret (ws_client_frame opcode key payload ++ rest) data
  = Some (zlen payload, payload ++ drop (length payload) data).
Proof.
  intros Hret Hop Lk Hn Hd. set (n := zlen payload) in *.
  pose proof (zlen_nonneg payload). fold n in Hn, H.
  destruct (ws_length_byte n) as (E1&E2&E3); [lia|].
  unfold ws_receive, ws_client_frame. rewrite (proj2 (Z.leb_gt _ _)) by lia. rewrite <- !app_assoc.
  cbn [app lookup list_lookup mbind option_bind]. fold n. rewrite Hop, E1, E2. cbn [nz negb Z.eqb].
  rewrite Z.gtb_ltb, (proj2 (Z.ltb_ge _ _)) by lia.
  pose proof (ws_unmask_payload (length payload) 0 [opcode; Z.lor 0x80 n] key payload rest data
    eq_refl Lk eq_refl Hd eq_refl) as Eu. cbn [app] in Eu.
  replace (Z.to_nat n) with (length payload) by (unfold n, zlen; lia). by rewrite Eu.
Qed.

Lemma ws_send_frame payload rest buf :
  zlen payload <= 125 → 256 <= zlen buf →
  let n := zlen payload in
  ws_send buf (payload ++ rest) n = Some (n, Some ([0x81; n] ++ payload)).
Proof.
  intros Hn Hb n.
  pose proof (zlen_nonneg payload). fold n in Hn, H.
  destruct (ws_length_byte n) as (E1&E2&E3); [lia|].
  unfold ws_send. destruct buf as [|x0 [|x1 buf]]; [unfold zlen in Hb; cbn [length] in Hb; lia..|]. rewrite !zlen_cons in Hb.
  assert (∀ a b : Z, memcpy (a :: b :: buf) 0 [0x81] 1 = Some (0x81 :: b :: buf)
                     ∧ memcpy (a :: b :: buf) 1 [n] 1 = Some (a :: n :: buf)) as Hm.
  { intros a b. by rewrite !memcpy_spec by (rewrite ?zlen_cons; change (zlen (@nil Z)) with 0; lia). }
  change (Z.lor 0x80 0x01) with 0x81. destruct (Hm x0 x1) as [-> _]. cbn [mbind option_bind].
  rewrite Z.gtb_ltb, (proj2 (Z.ltb_ge _ _)) by lia. rewrite E3. destruct (Hm 0x81 x1) as [_ ->].
  cbn [mbind option_bind].
  rewrite memcpy_spec by (rewrite ?zlen_app, ?zlen_cons; pose proof (zlen_nonneg (rest)); lia).
  replace (Z.to_nat n) with (length payload) by (unfold n, zlen; lia). rewrite take_app_length.
  change (take (Z.to_nat 2) (0x81 :: n :: buf)) with [0x81; n]. cbn [mbind option_bind].
  rewrite slice_spec, drop_0; [|lia|lia|rewrite !zlen_app, !zlen_cons; change (zlen (@nil Z)) with 0; fold n;
    pose proof (zlen_nonneg (drop (Z.to_nat (2 + n)) (0x81 :: n :: buf))); lia].
  cbn [mbind option_bind]. replace (Z.to_nat (n + 2)) with (length ([0x81; n] ++ payload))
    by (rewrite length_app; unfold n, zlen; cbn [length]; lia).
  by rewrite app_assoc, take_app_length.
Qed.

(** The WebSocket server echoes.  For a frame of a client with an opcode
    that is no control code, a key and a payload of at most 125 bytes,
    [ws_receive] stays in bounds and stores the payload, unmasked, and
    [ws_send] sends the frame of a server with that payload.  Only whether
    something was received counts: the result is the same for every positive
    number of bytes, also when the frame has not arrived whole, and the
    payload is then what the buffer held before. *)
Lemma ws_echo ret opcode key payload rest data buf :
  0 < ret → Z.land opcode 0x08 = 0 → length key = 4%nat → zlen payload <= 125 →
  (length payload <= length data)%nat → 256 <= zlen buf →
  let n := zlen payload in
  ws_receive ret (ws_client_frame opcode key payload ++ rest) data
    = Some (n, payload ++ drop (length payload) data)
  ∧ ws_send buf (payload ++ drop (length payload) data) n
    = Some (n, Some ([0x81; n] ++ payload)).
Proof.
  intros Hret Hop Lk Hn Hd Hb n. split; [by apply ws_receive_frame|by apply ws_send_frame].
Qed.

(** ** The C library *)

(** Whether [pat], which holds no NUL, is at the start of [s]; the comparison
    ends at the first byte that differs. *)
Fixpoint prefix_at (pat s : bytes) : option bool :=
  match pat, s with
  | [], _ => Some true
  | _, [] => None
  | p :: pat, c :: s => if p =? c then prefix_at pat s else Some false
  end.

(** [strstr]: the offset of the first occurrence. *)
Fixpoint strstr (s pat : bytes) : option (option nat) :=
  found ← prefix_at pat s;
  if found : bool then Some (Some O)
  else
    match s with
    | [] => None
    | c :: s => if c =? chr_nul then Some None else n ← strstr s pat; Some (option_map S n)
    end.

(** ** The opening handshake *)

Definition SEC_WEBSOCKET_KEY : bytes := txt "Sec-WebSocket-Key: ".
Definition SEC_WEBSOCKET_MAGIC : bytes := txt "258EAFA5-E914-47DA-95CA-C5AB0DC85B11".

Definition switching_protocols : bytes :=
  txt "HTTP/1.1 101 Switching Protocols" ++ crlf ++ txt "Upgrade: websocket" ++ crlf
  ++ txt "Connection: Upgrade" ++ crlf ++ txt "Sec-WebSocket-Accept: ".

Definition welcome_message : bytes :=
  txt "Welcome to Simple WebSocket Echo Server" ++ [chr_newline]
  ++ txt "Only short payload (<= 125) is supported" ++ [chr_newline].

(** The libraries: libb64's encoder and OpenSSL's SHA-1. *)
Class WsLibs := {
  base64_encodestate : Type;
  base64_init_encodestate : base64_encodestate;
  base64_encode_block : bytes → base64_encodestate → bytes * base64_encodestate;
  base64_encode_blockend : base64_encodestate → bytes;
  SHA1 : bytes → bytes
}.

Section Handshake.
Context `{WsLibs}.

(** The memory at [output] afterwards. *)
Definition base64_encode (input output : bytes) : option bytes :=
  let '(out1, s) := base64_encode_block input base64_init_encodestate in
  output ← memcpy output 0 out1 (zlen out1);
  let c := zlen out1 in
  let out2 := base64_encode_blockend s in
  output ← memcpy output c out2 (zlen out2);
  let c := c + zlen out2 in
  output ← memcpy output c [0] 1;
  memcpy output (c - 1) [0] 1.

(** The accept value for the key of [len] bytes at [key]. *)
Definition ws_accept (key : bytes) (len : Z) : option bytes :=
  buf ← memcpy (replicate 128 0) 0 key len;
  buf ← memcpy buf len SEC_WEBSOCKET_MAGIC (zlen SEC_WEBSOCKET_MAGIC);
  text ← cstring buf;
  accept ← base64_encode (SHA1 text) (replicate 128 0);
  cstring accept.

(** The request in [reqbuf]: what is handed to [tcp_send] to switch
    protocols, unless the header is not there. *)
Definition ws_handshake (reqbuf : bytes) : option (option (list bytes)) :=
  sec_header ← strstr reqbuf SEC_WEBSOCKET_KEY;
  match sec_header with
  | None => Some None
  | Some sec_header =>
      sec_header_end ← strstr (drop sec_header reqbuf) crlf;
      match sec_header_end with
      | None => Some None
      | Some sec_header_end =>
          let len := u64 (Z.of_nat sec_header_end - zlen SEC_WEBSOCKET_KEY) in
          accept ← ws_accept (drop (sec_header + length SEC_WEBSOCKET_KEY) reqbuf) len;
          Some (Some [switching_protocols; accept; crlf ++ crlf])
      end
  end.
End Handshake.

(** ** What the libraries do *)

(** base64 of RFC 4648: three bytes are four digits of six bits. *)
Definition base64_digits : bytes := txt "ABCDEFGHIJKLMNOPQRSTUVWXYZabcdefghijklmnopqrstuvwxyz0123456789+/".

Definition base64_group (n : Z) : bytes :=
  (λ k, nth (Z.to_nat (Z.shiftr n k mod 64)) base64_digits 0) <$> [18; 12; 6; 0].

Definition chr_pad : Z := 61.

Fixpoint base64 (s : bytes) : bytes :=
  match s with
  | [] => []
  | [a] => take 2 (base64_group (a * 65536)) ++ [chr_pad; chr_pad]
  | [a; b] => take 3 (base64_group (a * 65536 + b * 256)) ++ [chr_pad]
  | a :: b :: c :: s => base64_group (a * 65536 + b * 256 + c) ++ base64 s
  end.

(** A digest has 20 bytes; the encoder gives the base64 text and a newline,
    as long as the text fits one of its lines of 72 characters. *)
Class WsLibsOk `{WsLibs} : Prop := {
  SHA1_length s : length (SHA1 s) = 20%nat;
  base64_encodes s : zlen s < 54 →
    let '(out, st) := base64_encode_block s base64_init_encodestate in
    out ++ base64_encode_blockend st = base64 s ++ [chr_newline]
}.

(** A property of every byte of a text, by a test. *)
Lemma Forall_test (P : Z → Prop) f s : forallb f s = true → (∀ c, f c = true → P c) → Forall P s.
Proof.
  intros Hf HP. induction s as [|c s IH]; [by apply Forall_nil_2|]. cbn in Hf. apply andb_prop in Hf as [Hc Hf].
  apply Forall_cons_2; auto.
Qed.

Lemma base64_group_text n : Forall (λ c, is_u8 c ∧ c ≠ chr_nul) (base64_group n).
Proof.
  assert (∀ k, let c := nth (Z.to_nat (Z.shiftr n k mod 64)) base64_digits 0 in is_u8 c ∧ c ≠ chr_nul) as Hc.
  { intros k c. pose proof (Z.mod_pos_bound (Z.shiftr n k) 64 eq_refl) as Hm.
    assert (Forall (λ c, is_u8 c ∧ c ≠ chr_nul) base64_digits) as Hf.
    { apply (Forall_test _ (λ c, (0 <=? c) && (c <? 256) && negb (c =? 0))); [reflexivity|].
      intros x. unfold chr_nul, is_u8. lia. }
    apply Forall_nth; [done|]. change (length base64_digits) with 64%nat. lia. }
  apply Forall_fmap, Forall_forall. intros k _. apply (Hc k).
Qed.

Lemma base64_text : ∀ s, Forall (λ c, is_u8 c ∧ c ≠ chr_nul) (base64 s).
Proof.
  assert (is_u8 chr_pad ∧ chr_pad ≠ chr_nul) as Hp by (by split).
  fix IH 1. intros [|a [|b [|c s]]]; cbn [base64].
  - by apply Forall_nil_2.
  - apply Forall_app. split; [apply Forall_take, base64_group_text|]. by repeat apply Forall_cons_2.
  - apply Forall_app. split; [apply Forall_take, base64_group_text|]. by repeat apply Forall_cons_2.
  - apply Forall_app. split; [apply base64_group_text|apply IH].
Qed.

Lemma base64_length : ∀ s, (length (base64 s) <= 2 * length s + 4)%nat.
Proof.
  fix IH 1. intros [|a [|b [|c s]]]; cbn [base64]; [cbn; lia| | |].
  1,2: rewrite length_app, length_take; cbn [length]; lia.
  specialize (IH s). rewrite length_app. change (length (base64_group _)) with 4%nat. cbn [length]. lia.
Qed.

(** ** The handshake is answered *)

(** Writing behind what was written. *)
Lemma memcpy_behind pre src rest m :
  zlen src <= Z.of_nat m →
  memcpy (pre ++ replicate m 0) (zlen pre) (src ++ rest) (zlen src)
  = Some ((pre ++ src) ++ replicate (m - length src) 0).
Proof.
  intros Hl. pose proof (zlen_nonneg pre). pose proof (zlen_nonneg src). pose proof (zlen_nonneg rest).
  rewrite memcpy_spec by (unfold zlen in *; rewrite ?length_app, ?length_replicate; lia).
  rewrite <- zlen_app. unfold zlen. rewrite !Nat2Z.id, !take_app_length, length_app, drop_app_add, drop_replicate.
  by rewrite app_assoc.
Qed.

Lemma cstring_zeros s m : Forall (λ c, c ≠ chr_nul) s → cstring (s ++ replicate (S m) 0) = Some s.
Proof.
  intros Hs. unfold cstring. cbn [replicate]. change 0 with chr_nul at 1. rewrite strlen_app by done.
  cbn [mbind option_bind]. unfold zlen. by rewrite Nat2Z.id, take_app_length.
Qed.

Section Answer.
Context `{WsLibsOk}.

Lemma base64_encode_spec s :
  length s = 20%nat →
  ∃ out, base64_encode s (replicate 128 0) = Some out ∧ cstring out = Some (base64 s).
Proof.
  intros Hs. pose proof (base64_length s) as Hn. rewrite Hs in Hn.
  pose proof (base64_encodes s ltac:(unfold zlen; lia)) as E. unfold base64_encode.
  destruct (base64_encode_block s base64_init_encodestate) as [out1 st]. set (out2 := base64_encode_blockend st) in *.
  set (n := length (base64 s)) in *. pose proof (f_equal length E) as El. rewrite !length_app in El. cbn [length] in El. fold n in El.
  pose proof (memcpy_behind [] out1 [] 128 ltac:(unfold zlen; lia)) as E1. rewrite app_nil_r in E1. cbn [app] in E1.
  change (zlen []) with 0 in E1. rewrite E1. cbn [mbind option_bind].
  pose proof (memcpy_behind out1 out2 [] (128 - length out1) ltac:(unfold zlen; lia)) as E2. rewrite app_nil_r in E2.
  rewrite E2, E. cbn [mbind option_bind]. rewrite <- zlen_app, E.
  replace (128 - length out1 - length out2)%nat with (S (126 - n)) by lia.
  pose proof (memcpy_behind (base64 s ++ [chr_newline]) [0] [] (S (126 - n)) ltac:(unfold zlen; cbn; lia)) as E3.
  rewrite app_nil_r in E3. change (zlen [0]) with 1 in E3. rewrite E3. cbn [mbind option_bind].
  exists (base64 s ++ replicate (S (S (126 - n))) 0). split.
  - rewrite zlen_app. change (zlen [chr_newline]) with 1. rewrite Z.add_simpl_r, memcpy_spec
      by (unfold zlen in *; rewrite ?length_app; cbn [length]; rewrite ?length_replicate; lia).
    unfold zlen. rewrite Nat2Z.id, <- !app_assoc, take_app_length.
    replace (Z.to_nat (Z.of_nat (length (base64 s)) + 1)) with (length (base64 s) + 1)%nat by lia.
    rewrite drop_app_add. cbn [app drop length Nat.sub]. rewrite Nat.sub_0_r. done.
  - apply cstring_zeros. eapply Forall_impl; [apply base64_text|]. by intros c [_ ?].
Qed.


(** A byte of a key: no end of the string or of the line. *)
Definition key_char (c : Z) : Prop := c ≠ chr_nul ∧ c ≠ 13.

Lemma magic_text : Forall (λ c, c ≠ chr_nul) SEC_WEBSOCKET_MAGIC.
Proof.
  apply (Forall_test _ (λ c, negb (c =? 0))); [reflexivity|]. intros c. unfold chr_nul. lia.
Qed.

(** [strlen] of memory without an end. *)
Lemma cstring_endless s : Forall (λ c, c ≠ chr_nul) s → cstring s = None.
Proof.
  intros Hs. unfold cstring. assert (strlen s = None) as ->; [|done].
  induction Hs as [|c s Hc _ IH]; [done|]. cbn [strlen]. rewrite (proj2 (Z.eqb_neq _ _) Hc), IH. done.
Qed.

(** The key and the magic string need 36 bytes more than the key, and an end,
    of the 128 there are. *)
Lemma ws_accept_spec key rest :
  Forall key_char key →
  ws_accept (key ++ rest) (zlen key)
  = if zlen key <? 92 then Some (base64 (SHA1 (key ++ SEC_WEBSOCKET_MAGIC))) else None.
Proof.
  intros Hk. pose proof (zlen_nonneg key). change (zlen SEC_WEBSOCKET_MAGIC) with 36. unfold ws_accept.
  assert (Forall (λ c, c ≠ chr_nul) (key ++ SEC_WEBSOCKET_MAGIC)) as Ht.
  { apply Forall_app. split; [|apply magic_text]. eapply Forall_impl; [exact Hk|]. by intros c [? _]. }
  destruct (Z.leb_spec (zlen key) 128) as [Hl|Hl].
  2:{ destruct (Z.ltb_spec (zlen key) 92); [lia|]. destruct (memcpy _ 0 _ _) as [buf|] eqn:E; [|done].
      apply memcpy_Some in E as (_&_&E&_). change (zlen (replicate 128 0)) with 128 in E. lia. }
  pose proof (memcpy_behind [] key rest 128 Hl) as E1. cbn [app] in E1. change (zlen []) with 0 in E1. rewrite E1.
  cbn [mbind option_bind]. destruct (Z.leb_spec (zlen key) 92) as [Hl2|Hl2].
  2:{ destruct (Z.ltb_spec (zlen key) 92); [lia|]. destruct (memcpy _ _ SEC_WEBSOCKET_MAGIC _) as [buf|] eqn:E; [|done].
      apply memcpy_Some in E as (_&_&E&_). unfold zlen in *. rewrite length_app, length_replicate in E.
      change (length SEC_WEBSOCKET_MAGIC) with 36%nat in E. lia. }
  pose proof (memcpy_behind key SEC_WEBSOCKET_MAGIC [] (128 - length key)) as E2. rewrite app_nil_r in E2.
  change (zlen SEC_WEBSOCKET_MAGIC) with 36 in *. change (length SEC_WEBSOCKET_MAGIC) with 36%nat in E2.
  rewrite E2 by (unfold zlen in *; lia). cbn [mbind option_bind]. destruct (Z.ltb_spec (zlen key) 92) as [Hlt|Hge].
  - replace (128 - length key - 36)%nat with (S (91 - length key)) by (unfold zlen in *; lia).
    rewrite cstring_zeros by done. cbn [mbind option_bind].
    destruct (base64_encode_spec (SHA1 (key ++ SEC_WEBSOCKET_MAGIC)) (SHA1_length _)) as (out&->&Eo). exact Eo.
  - replace (128 - length key - 36)%nat with O by (unfold zlen in *; lia). cbn [replicate]. rewrite app_nil_r.
    by rewrite cstring_endless.
Qed.

(** ** Where the header is *)

Lemma prefix_at_spec pat s :
  (length pat <= length s)%nat → prefix_at pat s = Some (bool_decide (take (length pat) s = pat)).
Proof.
  revert s. induction pat as [|p pat IH]; intros s Hl; [cbn; by rewrite bool_decide_eq_true_2|].
  destruct s as [|c s]; cbn [length] in Hl; [lia|]. cbn [prefix_at length take].
  destruct (Z.eqb_spec p c) as [->|Hne].
  - rewrite IH by lia. f_equal. apply bool_decide_ext. split; [by intros ->|by intros [= ->]].
  - rewrite bool_decide_eq_false_2; [done|]. by intros [= ? _].
Qed.

(** The first occurrence of [pat] is behind [pre]. *)
Definition first_behind (pat pre rest : bytes) : Prop :=
  Forall (λ c, c ≠ chr_nul) pre
  ∧ ∀ n, (n < length pre)%nat → take (length pat) (drop n (pre ++ pat ++ rest)) ≠ pat.

Lemma strstr_first pat pre rest :
  first_behind pat pre rest → strstr (pre ++ pat ++ rest) pat = Some (Some (length pre)).
Proof.
  intros [Hn Hf]. induction Hn as [|c pre Hc Hn IH]; cbn [app length].
  { assert (strstr (pat ++ rest) pat = (found ← prefix_at pat (pat ++ rest);
       if found : bool then Some (Some O) else match pat ++ rest with [] => None
         | c :: s => if c =? chr_nul then Some None else n ← strstr s pat; Some (option_map S n) end)) as ->
      by (by destruct (pat ++ rest)).
    rewrite prefix_at_spec by (rewrite length_app; lia). by rewrite bool_decide_eq_true_2 by apply take_app_length. }
  cbn [strstr]. rewrite prefix_at_spec by (cbn [length]; rewrite !length_app; lia).
  rewrite bool_decide_eq_false_2 by (apply (Hf O); cbn; lia). cbn [mbind option_bind].
  rewrite (proj2 (Z.eqb_neq _ _) Hc), IH; [done|]. intros n Hl. apply (Hf (S n)). cbn. lia.
Qed.

(** What comes behind does not matter. *)
Lemma first_behind_rest pat pre rest rest' : first_behind pat pre rest → first_behind pat pre rest'.
Proof.
  intros [Hn Hf]. split; [done|]. intros n Hl E. apply (Hf n Hl).
  assert (∀ r, take (length pat) (drop n (pre ++ pat ++ r)) = take (length pat) (drop n (pre ++ pat))) as Hr.
  { intros r. rewrite (app_assoc pre), (drop_app_le (pre ++ pat)), take_app_le
      by (rewrite ?length_drop, ?length_app; lia). done. }
  by rewrite Hr in E |- *.
Qed.

Lemma crlf_first pre rest : Forall key_char pre → first_behind crlf pre rest.
Proof.
  intros Hp. split; [eapply Forall_impl; [exact Hp|]; by intros c [? _]|]. intros n Hn E.
  destruct (lookup_lt_is_Some_2 pre n Hn) as [c Hc]. rewrite Forall_lookup in Hp. destruct (Hp _ _ Hc) as [_ Hne].
  apply Hne. rewrite drop_app_le, (drop_S _ _ _ Hc) in E by lia. by injection E.
Qed.

Lemma key_header : Forall key_char SEC_WEBSOCKET_KEY.
Proof.
  apply (Forall_test _ (λ c, negb (c =? 0) && negb (c =? 13))); [reflexivity|].
  intros c. unfold key_char, chr_nul. lia.
Qed.

(** The server finds the key of a client's request, the first header of that
    name up to the end of its line, and makes the response of RFC 6455 of it:
    the base64 text of the digest of the key and the magic string. *)
Lemma ws_handshake_answers pre key rest :
  first_behind SEC_WEBSOCKET_KEY pre (key ++ crlf ++ rest) → Forall key_char key → zlen key < 2 ^ 63 →
  ws_handshake (pre ++ SEC_WEBSOCKET_KEY ++ key ++ crlf ++ rest)
  = if zlen key <? 92
    then Some (Some [switching_protocols; base64 (SHA1 (key ++ SEC_WEBSOCKET_MAGIC)); crlf ++ crlf])
    else None.
Proof.
  intros Hfirst Hkey Hmax. unfold ws_handshake. rewrite strstr_first by done. cbn [mbind option_bind].
  rewrite drop_app_length, (app_assoc SEC_WEBSOCKET_KEY), strstr_first
    by (apply crlf_first, Forall_app; split; [apply key_header|done]).
  cbn [mbind option_bind]. pose proof (zlen_nonneg key).
  replace (Z.of_nat (length (SEC_WEBSOCKET_KEY ++ key)) - zlen SEC_WEBSOCKET_KEY) with (zlen key)
    by (unfold zlen; rewrite length_app; lia).
  rewrite u64_small by ulia. rewrite drop_app_add, <- (app_assoc SEC_WEBSOCKET_KEY), drop_app_length, ws_accept_spec by done.
  by destruct (zlen key <? 92).
Qed.

(** C38. The WebSocket server leaves its buffer for a long key.  The key and the
    magic string are put together in a buffer of 128 bytes without a test: on a
    request whose key has 92 bytes or more, the copies or the [strlen] of the
    result go outside it. *)
Theorem ws_handshake_overflow pre key rest :
  first_behind SEC_WEBSOCKET_KEY pre (key ++ crlf ++ rest) → Forall key_char key → 92 <= zlen key < 2 ^ 63 →
  ws_handshake (pre ++ SEC_WEBSOCKET_KEY ++ key ++ crlf ++ rest) = None.
Proof.
  intros Hfirst Hkey Hlen. rewrite ws_handshake_answers by (done || lia).
  by rewrite (proj2 (Z.ltb_ge _ _)) by lia.
Qed.
End Answer.

(** ** Examples *)

(** The frame of a client that says Hi; only its first byte has arrived. *)
Lemma ws_echo_witness :
  ws_receive 1 ([0x81; 0x82; 1; 2; 3; 4; 0x49; 0x6b] ++ replicate 248 0) (replicate 1024 0)
    = Some (2, [0x48; 0x69] ++ replicate 1022 0)
  ∧ ws_send (replicate 256 0) ([0x48; 0x69] ++ replicate 1022 0) 2 = Some (2, Some [0x81; 2; 0x48; 0x69]).
Proof.
  apply (ws_echo 1 0x81 [1; 2; 3; 4] [0x48; 0x69] (replicate 248 0) (replicate 1024 0) (replicate 256 0));
    try done. vm_compute. lia.
Defined.

(** SHA-1 of RFC 3174 and an encoder that keeps its input to the end. *)
Definition rotl32 (n x : Z) : Z := Z.lor (u32 (Z.shiftl x n)) (Z.shiftr x (32 - n)).

Definition be_bytes (x : Z) : bytes := [Z.shiftr x 24; Z.shiftr x 16; Z.shiftr x 8; x] ≫= λ b, [u8 b].

Fixpoint be_words (s : bytes) : list Z :=
  match s with
  | a :: b :: c :: d :: s => (((a * 256 + b) * 256 + c) * 256 + d) :: be_words s
  | _ => []
  end.

(** The latest word comes first. *)
Fixpoint sha1_schedule (n : nat) (ws : list Z) : list Z :=
  match n with
  | O => ws
  | S n =>
      let w k := nth k ws 0 in
      sha1_schedule n (rotl32 1 (Z.lxor (Z.lxor (w 2%nat) (w 7%nat)) (Z.lxor (w 13%nat) (w 15%nat))) :: ws)
  end.

Definition sha1_digest : Type := Z * Z * Z * Z * Z.

Definition sha1_round (t : nat) (w : Z) (h : sha1_digest) : sha1_digest :=
  let '(a, b, c, d, e) := h in
  let '(f, k) :=
    if (t <? 20)%nat then (Z.lor (Z.land b c) (Z.land (0xffffffff - b) d), 0x5a827999)
    else if (t <? 40)%nat then (Z.lxor (Z.lxor b c) d, 0x6ed9eba1)
    else if (t <? 60)%nat then (Z.lor (Z.lor (Z.land b c) (Z.land b d)) (Z.land c d), 0x8f1bbcdc)
    else (Z.lxor (Z.lxor b c) d, 0xca62c1d6) in
  (u32 (rotl32 5 a + f + e + w + k), a, rotl32 30 b, c, d).

Definition sha1_block (h : sha1_digest) (ws : list Z) : sha1_digest :=
  let '(a, b, c, d, e) := h in
  let sched := rev (sha1_schedule 64 (rev ws)) in
  let '(a', b', c', d', e') := foldl (λ h tw, sha1_round (fst tw) (snd tw) h) h (zip (seq 0 80) sched) in
  (u32 (a + a'), u32 (b + b'), u32 (c + c'), u32 (d + d'), u32 (e + e')).

Fixpoint sha1_blocks (n : nat) (h : sha1_digest) (ws : list Z) : sha1_digest :=
  match n with O => h | S n => sha1_blocks n (sha1_block h (take 16 ws)) (drop 16 ws) end.

Definition sha1 (s : bytes) : bytes :=
  let padded := s ++ [0x80] ++ replicate (Z.to_nat ((55 - zlen s) mod 64)) 0
                ++ be_bytes (Z.shiftr (8 * zlen s) 32) ++ be_bytes (8 * zlen s) in
  let '(a, b, c, d, e) := sha1_blocks (length padded / 64) (0x67452301, 0xefcdab89, 0x98badcfe, 0x10325476, 0xc3d2e1f0)
                            (be_words padded) in
  be_bytes a ++ be_bytes b ++ be_bytes c ++ be_bytes d ++ be_bytes e.

Definition sample_libs : WsLibs := {|
  base64_encodestate := bytes;
  base64_init_encodestate := [];
  base64_encode_block s st := ([], st ++ s);
  base64_encode_blockend st := base64 st ++ [chr_newline];
  SHA1 := sha1
|}.

Lemma sample_libs_ok : @WsLibsOk sample_libs.
Proof.
  split; [|done]. intros s. cbn. unfold sha1. by destruct (sha1_blocks _ _ _) as [[[[a b] c] d] e].
Qed.

Definition sample_request : bytes := txt "GET / HTTP/1.1" ++ crlf.
Definition sample_key : bytes := txt "dGhlIHNhbXBsZSBub25jZQ==".

Lemma sample_key_first rest : first_behind SEC_WEBSOCKET_KEY sample_request rest.
Proof.
  split; [apply (Forall_test _ (λ c, negb (c =? 0))); [reflexivity|]; intros c; unfold chr_nul; lia|].
  change (length sample_request) with 16%nat. intros n Hn.
  do 16 (destruct n as [|n]; [vm_compute; discriminate|]). lia.
Qed.

Lemma sample_key_ok : Forall key_char sample_key.
Proof.
  apply (Forall_test _ (λ c, negb (c =? 0) && negb (c =? 13))); [reflexivity|]. intros c. unfold key_char, chr_nul. lia.
Qed.

(** The example of RFC 6455. *)
Example ws_handshake_example :
  @ws_handshake sample_libs (sample_request ++ SEC_WEBSOCKET_KEY ++ sample_key ++ crlf ++ [0])
  = Some (Some [switching_protocols; txt "s3pPLMBiTxaQ9kYGzzhZRbK+xOo="; crlf ++ crlf]).
Proof. vm_compute. reflexivity. Qed.

Lemma ws_handshake_overflow_witness :
  @ws_handshake sample_libs (sample_request ++ SEC_WEBSOCKET_KEY ++ replicate 92 65 ++ crlf ++ [0]) = None.
Proof.
  apply (@ws_handshake_overflow sample_libs sample_libs_ok sample_request (replicate 92 65) [0]).
  - apply sample_key_first.
  - by apply Forall_replicate.
  - split; [discriminate|reflexivity].
Defined.
