(* ===== verification/Serve.v ===== *)
(** * The servers

    [worker_thread] of [src/src/test/static-http-server.c] and the main of
    [src/src/test/ws-echo.c]: each opens a port passively, serves the client
    that connects and opens the port again.  As in [Echo], a program is the
    sequence of what it does between two of its waits, [terminate] is the flag
    of its signal handler, and what it prints is left out.  The theorems put
    the servers behind the Ethernet: what a client's frames make them answer. *)

From Stdlib Require Import String.
From S2P Require Import Prelude Bytes Checksum Clock Text Log Addr Monad State Platform Queue Net Ether.
From S2P Require Import Drivers Device Sample Receive Timers Arp Ip Icmp Pseudo Udp Tcp TcpUser TcpLogic.
From S2P Require Import TcpConn TcpArrive TcpOps TcpProps TcpWire TcpTeardown TcpStream TcpTransfer TcpSample.
From S2P Require Import Stack Safety Boot Deliver UdpLoop EtherLink TcpLink TcpConnect TcpServe Setup Echo Apps WebSocket.

(** The memory of a buffer in which [buf] has been stored. *)
Definition stored (buf mem : bytes) : bytes := buf ++ drop (length buf) mem.

Definition ENDPOINT : bytes := literal "192.168.70.2:80"%string.

(** ** Static files over HTTP *)

Definition REQ_BUF_SIZE : Z := 2048.

(** At the head of the outer loop, waiting for a client, at the head of the
    inner loop, in [tcp_receive], in one of the sends of [http_handler], or
    returned; [reqbuf] is the memory of the buffer. *)
Inductive http_worker :=
  | HttpHead (reqbuf : bytes)
  | HttpOpening (k : tcp_opening) (reqbuf : bytes)
  | HttpConn (soc : Z) (reqbuf : bytes)
  | HttpReceiving (soc : Z) (i : nat) (reqbuf : bytes)
  | HttpSending (soc : Z) (k : tcp_sending * bytes * list bytes) (reqbuf : bytes)
  | HttpReturned.

Section Http.
Context `{Machine} `{Env}.

(** The address of the buffer, and the files. *)
Context (base : Z) (open_file : bytes → option http_file).

Definition http_opened (reqbuf : bytes) (r : waits tcp_opening Z) : C http_worker :=
  match r with
  | Blocked k => ret (HttpOpening k reqbuf)
  | Returned soc => if soc =? -1 then ret HttpReturned else ret (HttpConn soc reqbuf)
  end.

Definition http_closing (soc : Z) (reqbuf : bytes) : C http_worker :=
  tcp_close soc;;
  ret (HttpHead reqbuf).

Definition http_sent (soc : Z) (reqbuf : bytes) (r : waits (tcp_sending * bytes * list bytes) unit)
  : C http_worker :=
  match r with
  | Blocked k => ret (HttpSending soc k reqbuf)
  | Returned _ => ret (HttpConn soc reqbuf)
  end.

(** From the result of [tcp_receive]; only 0 ends the inner loop. *)
Definition http_received (soc : Z) (reqbuf : bytes) (r : waits nat (Z * bytes)) : C http_worker :=
  match r with
  | Blocked i => ret (HttpReceiving soc i reqbuf)
  | Returned (len, buf) =>
      let reqbuf := stored buf reqbuf in
      if len =? 0 then http_closing soc reqbuf
      else
        h <- expect FaultBounds (http_handler base open_file reqbuf);;
        r <- tcp_send_all soc (fst h);;
        http_sent soc (snd h) r
  end.

(** The head of the inner loop. *)
Definition http_conn (terminate soc : Z) (reqbuf : bytes) : C http_worker :=
  if nz terminate then http_closing soc reqbuf
  else
    r <- tcp_receive soc REQ_BUF_SIZE;;
    http_received soc reqbuf r.

(** The head of the outer loop. *)
Definition http_head (terminate : Z) (local : ip_endpoint) (reqbuf : bytes) : C http_worker :=
  if nz terminate then ret HttpReturned
  else
    r <- tcp_open_rfc793 local None false;;
    http_opened reqbuf r.

(** The wait the thread is in ends with [err]. *)
Definition http_wake (err : Z) (s : http_worker) : C http_worker :=
  match s with
  | HttpOpening k reqbuf => r <- tcp_open_wake err k;; http_opened reqbuf r
  | HttpReceiving soc i reqbuf => r <- tcp_receive_wake err i REQ_BUF_SIZE;; http_received soc reqbuf r
  | HttpSending soc k reqbuf => r <- tcp_send_all_wake err soc k;; http_sent soc reqbuf r
  | HttpHead _ | HttpConn _ _ | HttpReturned => ret s
  end.

(** The thread up to its first wait; [local] is what its variable holds
    before. *)
Definition worker_thread (terminate : Z) (local : ip_endpoint) (reqbuf : bytes) : C http_worker :=
  l <- expect FaultBounds (ip_endpoint_pton ENDPOINT local);;
  http_head terminate (snd l) reqbuf.
End Http.

(** ** The WebSocket echo server *)

Definition WS_REQ_BUFSIZ : Z := 1024.
Definition WS_FRAME_BUFSIZ : Z := 256.

(** At the head of the outer loop, waiting for a client, for its request, in
    one of the sends, at the head of the echo loop, waiting for a frame, or
    returned from [main]. *)
Inductive ws_server :=
  | WsHead (reqbuf : bytes)
  | WsOpening (k : tcp_opening) (reqbuf : bytes)
  | WsRequest (soc : Z) (i : nat) (reqbuf : bytes)
  | WsSending (soc : Z) (k : tcp_sending * bytes * list bytes) (reqbuf : bytes)
  | WsLoop (soc : Z) (reqbuf : bytes)
  | WsReceiving (soc : Z) (i : nat) (reqbuf : bytes)
  | WsExit (status : Z).

Section Ws.
Context `{Machine} `{Env} `{WsLibs}.

(** What the buffers of [ws_receive] and [ws_send] hold when they are
    called. *)
Context (frame_buf : bytes).

Definition ws_end : C ws_server :=
  net_shutdown;;
  ret (WsExit 0).

Definition ws_closing (soc : Z) (reqbuf : bytes) : C ws_server :=
  tcp_close soc;;
  ret (WsHead reqbuf).

Definition ws_sent (soc : Z) (reqbuf : bytes) (r : waits (tcp_sending * bytes * list bytes) unit) : C ws_server :=
  match r with
  | Blocked k => ret (WsSending soc k reqbuf)
  | Returned _ => ret (WsLoop soc reqbuf)
  end.

(** From the result of the [tcp_receive] of the request. *)
Definition ws_requested (soc : Z) (reqbuf : bytes) (r : waits nat (Z * bytes)) : C ws_server :=
  match r with
  | Blocked i => ret (WsRequest soc i reqbuf)
  | Returned (len, buf) =>
      let reqbuf := stored buf reqbuf in
      if len <=? 0 then ws_end
      else
        h <- expect FaultBounds (ws_handshake reqbuf);;
        match h with
        | None => ret (WsExit (-1))
        | Some bufs =>
            s <- expect FaultBounds (ws_send frame_buf welcome_message (zlen welcome_message));;
            r <- tcp_send_all soc (bufs ++ option_list (snd s));;
            ws_sent soc reqbuf r
        end
  end.

Definition ws_opened (reqbuf : bytes) (r : waits tcp_opening Z) : C ws_server :=
  match r with
  | Blocked k => ret (WsOpening k reqbuf)
  | Returned soc =>
      if soc =? -1 then ret (WsExit (-1))
      else
        r <- tcp_receive soc WS_REQ_BUFSIZ;;
        ws_requested soc reqbuf r
  end.

(** From the result of the [tcp_receive] of [ws_receive]. *)
Definition ws_received (soc : Z) (reqbuf : bytes) (r : waits nat (Z * bytes)) : C ws_server :=
  match r with
  | Blocked i => ret (WsReceiving soc i reqbuf)
  | Returned (len, buf) =>
      m <- expect FaultBounds (ws_receive len (stored buf frame_buf) reqbuf);;
      let '(len, reqbuf) := m in
      if len <? 0 then ws_closing soc reqbuf
      else
        s <- expect FaultBounds (ws_send frame_buf reqbuf len);;
        if fst s <? 0 then ws_closing soc reqbuf
        else
          r <- tcp_send_all soc (option_list (snd s));;
          ws_sent soc reqbuf r
  end.

(** The head of the echo loop. *)
Definition ws_loop (terminate soc : Z) (reqbuf : bytes) : C ws_server :=
  if nz terminate then ws_closing soc reqbuf
  else
    r <- tcp_receive soc WS_FRAME_BUFSIZ;;
    ws_received soc reqbuf r.

(** The head of the outer loop. *)
Definition ws_head (terminate : Z) (local : ip_endpoint) (reqbuf : bytes) : C ws_server :=
  if nz terminate then ws_end
  else
    r <- tcp_open_rfc793 local None false;;
    ws_opened reqbuf r.

(** The wait the program is in ends with [err]. *)
Definition ws_wake (err : Z) (s : ws_server) : C ws_server :=
  match s with
  | WsOpening k reqbuf => r <- tcp_open_wake err k;; ws_opened reqbuf r
  | WsRequest soc i reqbuf => r <- tcp_receive_wake err i WS_REQ_BUFSIZ;; ws_requested soc reqbuf r
  | WsSending soc k reqbuf => r <- tcp_send_all_wake err soc k;; ws_sent soc reqbuf r
  | WsReceiving soc i reqbuf => r <- tcp_receive_wake err i WS_FRAME_BUFSIZ;; ws_received soc reqbuf r
  | WsHead _ | WsLoop _ _ | WsExit _ => ret s
  end.

(** [main] up to its first wait. *)
Definition ws_main (terminate : Z) (local : ip_endpoint) (reqbuf : bytes) : C ws_server :=
  r <- server_setup;;
  if r =? -1 then ret (WsExit (-1))
  else
    l <- expect FaultBounds (ip_endpoint_pton ENDPOINT local);;
    ws_head terminate (snd l) reqbuf.
End Ws.

(** ** The HTTP server comes up *)

(** A block on which a passive open waits. *)
Definition tcp_listening (local : ip_endpoint) (pcb : tcp_pcb) : tcp_pcb :=
  set_tp_ctx (SchedCtx 0 1 (sc_broadcasts (tp_ctx pcb)))
    (set_tp_state TCP_PCB_STATE_LISTEN (set_tp_local local pcb)).

Lemma listen_wp `{Machine} `{Env} `{!DeviceOps} local k pcb (Q : waits tcp_opening Z → world → Prop) w :
  list_find (λ pcb, tp_state pcb = TCP_PCB_STATE_FREE) (w_tcp w) = Some (k, pcb) → locked w = [] →
  Q (Blocked (k, TCP_PCB_STATE_LISTEN)) (set_w_tcp (<[k := tcp_listening local pcb]> (w_tcp w)) w) →
  wp (tcp_open_rfc793 local None false) Q w.
Proof.
  intros Hfind HL HQ. unfold wp.
  assert (tcp_open_rfc793 local None false w = Done (Blocked (k, TCP_PCB_STATE_LISTEN))
    (set_w_tcp (<[k := tcp_listening local pcb]> (w_tcp w)) w)) as ->; [|exact HQ]. clear HQ. pose proof Hfind as (Hp&_&_)%list_find_Some. apply lookup_lt_Some in Hp.
  destruct w as [[? l ? ? ? ? ? ?] n ip arp udp tcp]. cbn in Hp, HL, Hfind. subst l.
  unfold tcp_open_rfc793, tcp_pcb_alloc, tcp_open_passive, tcp_open_sleep, tcp_sleep, upd_tcp, put_tcp, get_tcp, bind, gets,
    mutex_lock, mutex_unlock, ret. cbn. rewrite bool_decide_eq_false_2 by apply not_elem_of_nil. cbn.
  rewrite Hfind. cbn. rewrite !list_lookup_insert_eq by (rewrite ?length_insert; done). cbn.
  repeat (rewrite list_lookup_insert_eq by (rewrite ?length_insert; done); cbn).
  rewrite !list_insert_insert_eq. 
  reflexivity.
Qed.

Lemma pton_endpoint `{Machine} local :
  is_u32 (ep_addr local) →
  ip_endpoint_pton ENDPOINT local = Some (0, IpEndpoint (load32 192 168 70 2) (hton16 80)).
Proof.
  intros Hl. rewrite <- (ip_endpoint_pton_text (load32 192 168 70 2) 80 local); [|by apply load32_ok|done|done].
  f_equal. destruct H; vm_compute; reflexivity.
Qed.

Lemma listener_selected local foreign c cs :
  conn_listener local c = true → Forall (λ c, conn_local_matches local c = false) cs →
  conn_select local foreign (c :: cs) = Some 0%nat.
Proof.
  intros Hc Hcs. unfold conn_select. cbn [find_first]. destruct (conn_exact local foreign c); [done|].
  assert (find_first (conn_exact local foreign) cs = None) as ->.
  { induction Hcs as [|c' cs Hc' _ IH]; [done|]. cbn [find_first]. unfold conn_exact at 1. by rewrite Hc', IH. }
  cbn [fmap option_fmap option_map find_last].
  assert (find_last (conn_listener local) cs = None) as ->; [|by rewrite Hc].
  induction Hcs as [|c' cs Hc' _ IH]; [done|]. cbn [find_last]. unfold conn_listener at 2. by rewrite IH, Hc'.
Qed.


(** ** The HTTP server answers *)

(** [tcp_receive] waits on a served connection, for every program. *)
Lemma served_loop `{Machine} `{EnvOk} {S} d i dev ifc peer ha j l f size (cont : waits nat (Z * bytes) → C S) st w :
  tcp_served d i dev ifc peer ha j l f w → cont (Blocked j) = ret st →
  wp (r <- tcp_receive (Z.of_nat j) size;; cont r) (λ s _, s = st) w.
Proof.
  intros Hs E. apply wp_bind. eapply wp_mono; [by eapply served_waits|]. intros r w' ->. rewrite E. by wp_step.
Qed.


(** [tcp_receive] on a block that is free. *)
Lemma receive_gone `{Machine} j p size w :
  (j < 16)%nat → w_tcp w !! j = Some p → tp_state p = TCP_PCB_STATE_FREE → locked w = [] →
  tcp_receive (Z.of_nat j) size w = Done (Returned (-1, [])) w.
Proof.
  intros Hj Hp Hst HL. destruct w as [[? l ? ? ? ? ? ?] n ip arp udp tcp]. cbn in Hp, HL. subst l.
  unfold tcp_receive, tcp_pcb_get, TCP_PCB_SIZE. destruct (Z.ltb_spec (Z.of_nat j) 0); [lia|].
  rewrite Z.geb_leb. destruct (Z.leb_spec 16 (Z.of_nat j)); [lia|]. cbn [orb]. rewrite Nat2Z.id.
  unfold get_tcp, bind, gets, mutex_lock, mutex_unlock, ret. cbn.
  rewrite bool_decide_eq_false_2 by apply not_elem_of_nil. cbn. rewrite Hp. cbn. by rewrite Hst.
Qed.

(** C39. A worker thread of the HTTP server does not leave a connection that is
    gone.  [tcp_receive] returns -1 for a block that was released, as
    [tcp_send] does when a segment cannot be sent, and only 0 ends the inner
    loop: with a buffer that does not start with GET, as the last request has
    left it, a round sends nothing, changes nothing and ends where it
    began. *)
Theorem http_worker_spins `{Machine} `{Env} base open_file reqbuf j p w :
  (j < 16)%nat → w_tcp w !! j = Some p → tp_state p = TCP_PCB_STATE_FREE → locked w = [] →
  4 <= zlen reqbuf → take 4 reqbuf ≠ txt "GET " →
  http_conn base open_file 0 (Z.of_nat j) reqbuf w = Done (HttpConn (Z.of_nat j) reqbuf) w.
Proof.
  intros Hj Hp Hst HL Hlen Hget. unfold http_conn. cbn [nz Z.eqb negb]. unfold bind at 1.
  rewrite (receive_gone j p) by done. unfold http_received, stored. cbn [app length]. rewrite drop_0.
  change (-1 =? 0) with false. cbv iota. unfold http_handler. rewrite slice_spec by lia. cbn [mbind option_bind].
  change (take (Z.to_nat 4) (drop (Z.to_nat 0) reqbuf)) with (take 4 reqbuf).
  by rewrite bool_decide_eq_false_2.
Qed.

(** ** The WebSocket server answers *)

Lemma welcome_frame frame_buf :
  256 <= zlen frame_buf →
  ws_send frame_buf welcome_message (zlen welcome_message) = Some (81, Some ([0x81; 81] ++ welcome_message)).
Proof.
  intros Hb. pose proof (ws_send_frame welcome_message [] frame_buf ltac:(done) Hb) as E.
  rewrite app_nil_r in E. exact E.
Qed.

(** C12. The WebSocket server opens over the Ethernet.  The server waits for
    the request of the client that is connected.  A request with a key
    of fewer than 92 bytes, at most 1024 bytes, goes to it in frames; when the wait ends the server sends,
    in frames, the response that accepts the key and a frame with its welcome,
    and the client finds them behind what was unread.  The server is then at
    the head of its echo loop, where it waits for a frame. *)
Theorem ws_server_opens `{Machine} (EA EB : Env) `{!@EnvOk EA} `{!@EnvOk EB} `{WsLibsOk}
    dA iA devA ifcA wA dB iB devB ifcB wB i j pa pb la lb frame_buf reqbuf pre key rest :
  let req := pre ++ SEC_WEBSOCKET_KEY ++ key ++ crlf ++ rest in
  let answer := switching_protocols ++ base64 (SHA1 (key ++ SEC_WEBSOCKET_MAGIC)) ++ crlf ++ crlf
                ++ [0x81; 81] ++ welcome_message in
  tcp_session EA EB dA iA devA ifcA wA dB iB devB ifcB wB i j pa pb la lb →
  tcp_room pa pb WS_REQ_BUFSIZ req answer →
  first_behind SEC_WEBSOCKET_KEY pre (key ++ crlf ++ rest) → Forall key_char key → zlen key < 92 →
  256 <= zlen frame_buf →
  let mem := stored req reqbuf in
  tcp_dialogue EA EB dA dB i j (tcp_unread pa) req
    (@ws_wake _ EB _ frame_buf 0 (WsRequest (Z.of_nat j) j reqbuf)) (WsLoop (Z.of_nat j) mem) answer
    (wp (@ws_loop _ EB frame_buf 0 (Z.of_nat j) mem) (λ s _, s = WsReceiving (Z.of_nat j) j mem))
    wA wB.
Proof.
  intros req answer Hses Hroom Hfirst Hkey Hlen Hbuf mem. cbn [ws_wake]. eapply tcp_dialogue_mono.
  - eapply (@request_answered _ EA EB _ _ _ dA iA devA ifcA wA dB iB devB ifcB wB i j pa pb la lb
      (@ws_requested _ EB _ frame_buf (Z.of_nat j) reqbuf) (WsLoop (Z.of_nat j) mem) WS_REQ_BUFSIZ req answer);
      [exact Hses|exact Hroom|].
    pose proof Hses as [_ _ _ HwB HnB _ _ _ _ Hlb _ _ _ _ _]. pose proof Hroom as [_ Hmax _ _ Hok _ _ _ _].
    intros p w Hlink He Hst Huna Hq Hw Hn. cbn [ws_requested]. destruct (Z.leb_spec (zlen req) 0); [lia|].
    fold mem. assert (mem = pre ++ SEC_WEBSOCKET_KEY ++ key ++ crlf ++ rest ++ drop (length req) reqbuf) as Em
      by (unfold mem, stored, req; by rewrite <- !app_assoc).
    rewrite Em at 1. rewrite ws_handshake_answers; [|by eapply first_behind_rest|done|lia].
    rewrite (proj2 (Z.ltb_lt _ _)) by done. rewrite welcome_frame by done. cbn [expect]. do 4 wp_step. apply wp_bind.
    set (bufs := [switching_protocols; base64 (SHA1 (key ++ SEC_WEBSOCKET_MAGIC)); crlf ++ crlf;
      [0x81; 81] ++ welcome_message]).
    assert (mjoin bufs = answer) as Ea by (unfold answer, bufs; cbn [mjoin list_join]; by rewrite app_nil_r, <- app_assoc).
    rewrite <- Ea in Hok, Hw, Hn.
    eapply wp_mono; [by apply (@send_all_frames _ EB _ dB iB devB ifcB (hw_addr devA) j lb la p bufs)|].
    intros r w' [-> Hsent]. cbn [ws_sent]. wp_step. split; [done|]. by rewrite <- Ea.
  - intros w Hserved. unfold ws_loop. cbn [nz Z.eqb negb]. by eapply (@served_loop _ EB).
Qed.

(** C13. The WebSocket server echoes over the Ethernet.  The server waits for a
    frame.  A client's frame with an opcode that is no control code, masked
    with its key and with a payload of at most 125 bytes, goes to it; when the
    wait ends the server sends its own frame with that payload, which the
    client finds behind what was unread, and is back in its loop, where it
    waits for the next. *)
Theorem ws_server_echoes `{Machine} (EA EB : Env) `{!@EnvOk EA} `{!@EnvOk EB} `{WsLibs}
    dA iA devA ifcA wA dB iB devB ifcB wB i j pa pb la lb frame_buf reqbuf opcode mask payload :
  let frame := ws_client_frame opcode mask payload in
  let answer := [0x81; zlen payload] ++ payload in
  tcp_session EA EB dA iA devA ifcA wA dB iB devB ifcB wB i j pa pb la lb →
  tcp_room pa pb WS_FRAME_BUFSIZ frame answer →
  Z.land opcode 0x08 = 0 → length mask = 4%nat → zlen payload <= 125 → (length payload <= length reqbuf)%nat →
  256 <= zlen frame_buf →
  let mem := stored payload reqbuf in
  tcp_dialogue EA EB dA dB i j (tcp_unread pa) frame
    (@ws_wake _ EB _ frame_buf 0 (WsReceiving (Z.of_nat j) j reqbuf)) (WsLoop (Z.of_nat j) mem) answer
    (wp (@ws_loop _ EB frame_buf 0 (Z.of_nat j) mem) (λ s _, s = WsReceiving (Z.of_nat j) j mem))
    wA wB.
Proof.
  intros frame answer Hses Hroom Hop Hmask Hpay Hlen Hbuf mem. cbn [ws_wake]. eapply tcp_dialogue_mono.
  - eapply (@request_answered _ EA EB _ _ _ dA iA devA ifcA wA dB iB devB ifcB wB i j pa pb la lb
      (@ws_received _ EB frame_buf (Z.of_nat j) reqbuf) (WsLoop (Z.of_nat j) mem) WS_FRAME_BUFSIZ frame answer);
      [exact Hses|exact Hroom|].
    pose proof Hses as [_ _ _ HwB HnB _ _ _ _ Hlb _ _ _ _ _]. pose proof Hroom as [_ Hmax _ _ Hok _ _ _ _].
    intros p w Hlink He Hst Huna Hq Hw Hn. cbn [ws_received]. pose proof (zlen_nonneg payload).
    change (stored frame frame_buf) with (ws_client_frame opcode mask payload ++ drop (length frame) frame_buf).
    rewrite ws_receive_frame by (done || lia). cbn [expect]. do 2 wp_step.
    destruct (Z.ltb_spec (zlen payload) 0); [lia|]. rewrite ws_send_frame by done. cbn [expect]. do 2 wp_step.
    cbn [fst snd option_list]. destruct (Z.ltb_spec (zlen payload) 0); [lia|]. apply wp_bind.
    assert (answer = mjoin [[0x81; zlen payload] ++ payload]) as Ea by (unfold answer; cbn; by rewrite app_nil_r).
    rewrite Ea in Hok, Hw, Hn.
    eapply wp_mono; [by apply (@send_all_frames _ EB _ dB iB devB ifcB (hw_addr devA) j lb la p)|].
    intros r w' [-> Hsent]. cbn [ws_sent]. wp_step. split; [done|]. by rewrite Ea.
  - intros w Hserved. unfold ws_loop. cbn [nz Z.eqb negb]. by eapply (@served_loop _ EB).
Qed.

(** ** Examples *)

Lemma bytes_ok_test s : forallb (λ c, (0 <=? c) && (c <? 256)) s = true → bytes_ok s.
Proof. intros Hs. apply (Forall_test _ _ _ Hs). intros c. unfold is_u8. lia. Qed.

Ltac room :=
  apply sample_room; [by apply bytes_ok_test; vm_compute|by split; vm_compute|by vm_compute
    |by apply bytes_ok_test; vm_compute|by vm_compute].



(** The block was released; the buffer is as a request has left it. *)
Lemma http_worker_spins_witness :
  let w := peer_gw tcp_pcb_zero in
  let reqbuf := txt "GET" ++ replicate 2045 0 in
  @http_conn sample_machine sample_env 4096 sample_files 0 0 reqbuf w = Done (HttpConn 0 reqbuf) w.
Proof.
  cbv zeta. apply (@http_worker_spins sample_machine sample_env 4096 sample_files _ 0 tcp_pcb_zero);
    [lia|done|done|done|vm_compute; discriminate|vm_compute; discriminate].
Defined.

Lemma sample_accept :
  base64 (@SHA1 sample_libs (sample_key ++ SEC_WEBSOCKET_MAGIC)) = txt "s3pPLMBiTxaQ9kYGzzhZRbK+xOo=".
Proof. vm_compute. reflexivity. Qed.

Lemma sample_opens_room :
  @tcp_room sample_machine sample_established sample_other WS_REQ_BUFSIZ
    (sample_request ++ SEC_WEBSOCKET_KEY ++ sample_key ++ crlf ++ crlf)
    (switching_protocols ++ base64 (@SHA1 sample_libs (sample_key ++ SEC_WEBSOCKET_MAGIC)) ++ crlf ++ crlf ++ [0x81; 81] ++ welcome_message).
Proof. rewrite sample_accept. room. Qed.

Lemma ws_server_opens_witness :
  ∃ wB1 wB2 wA3 pa3,
    @ws_wake sample_machine sample_env sample_libs (replicate 256 0) 0 (WsRequest 0 0 (replicate 1024 0)) wB1
      = Done (WsLoop 0 (stored (sample_request ++ SEC_WEBSOCKET_KEY ++ sample_key ++ crlf ++ crlf)
                          (replicate 1024 0))) wB2
    ∧ w_tcp wA3 !! 0%nat = Some pa3
    ∧ tcp_unread pa3 = tcp_unread sample_established ++ switching_protocols
        ++ txt "s3pPLMBiTxaQ9kYGzzhZRbK+xOo=" ++ crlf ++ crlf ++ [0x81; 81] ++ welcome_message.
Proof.
  destruct (@tcp_dialogue_runs sample_machine _ _ _ _ _ _ _ _ _ _ _ _ _ _ _
    (@ws_server_opens sample_machine sample_env sample_env sample_env_ok sample_env_ok sample_libs sample_libs_ok
      _ _ _ _ _ _ _ _ _ _ _ _ _ _ _ _ (replicate 256 0) (replicate 1024 0) sample_request sample_key crlf
      sample_session sample_opens_room (sample_key_first _) sample_key_ok ltac:(done) ltac:(done)))
    as (wA1&frames&wB1&acks&wA2&wB2&frames'&wA3&pa3&_&_&_&_&_&_&_&E&_&_&Hp&Hu&_).
  exists wB1, wB2, wA3, pa3. rewrite sample_accept in Hu. exact (conj E (conj Hp Hu)).
Defined.

Lemma ws_server_echoes_witness :
  ∃ wB1 wB2 wA3 pa3,
    @ws_wake sample_machine sample_env sample_libs (replicate 256 0) 0 (WsReceiving 0 0 (replicate 1024 0)) wB1
      = Done (WsLoop 0 (stored [0x48; 0x69] (replicate 1024 0))) wB2
    ∧ w_tcp wA3 !! 0%nat = Some pa3
    ∧ tcp_unread pa3 = tcp_unread sample_established ++ [0x81; 2; 0x48; 0x69].
Proof.
  destruct (@tcp_dialogue_runs sample_machine _ _ _ _ _ _ _ _ _ _ _ _ _ _ _
    (@ws_server_echoes sample_machine sample_env sample_env sample_env_ok sample_env_ok sample_libs
      _ _ _ _ _ _ _ _ _ _ _ _ _ _ _ _ (replicate 256 0) (replicate 1024 0) 0x81 [1; 2; 3; 4] [0x48; 0x69]
      sample_session
      ltac:(room)
      eq_refl eq_refl ltac:(done) ltac:(cbn; lia) ltac:(done)))
    as (wA1&frames&wB1&acks&wA2&wB2&frames'&wA3&pa3&_&_&_&_&_&_&_&E&_&_&Hp&Hu&_).
  exists wB1, wB2, wA3, pa3. exact (conj E (conj Hp Hu)).
Defined.
